(* ===== verification/_CoqProject ===== *)
-Q . S2P
Prelude.v
Config.v
Bloom.v
State.v
Timing.v
Perf.v
Inverse.v
Nvram.v
Mapping.v
Alloc.v
Flash.v
Invariant.v
Gc.v
Store.v
Ftl.v
Ssd.v
Init.v
Device.v
Views.v
Nvme.v
NvmeOc.v
NvmeQueue.v
NvmeInfo.v
NvmeAdmin.v
NvmeLife.v
NvmeSetup.v
Host.v
Demo.v
Checker.v
Registers.v
Commands.v
Controller.v
OpenChannel.v
Properties.v
Tables.v
