(* ===== verification/Prelude.v ===== *)
(** * FEMU_REMAP: the emulated SSD, from the NVMe queues to the flash

    FEMU_REMAP is QEMU with an emulated NVMe SSD.  The guest's data is kept in
    memory; what is emulated is the SSD's behaviour in time: a flash
    translation layer (FTL) that maps logical to physical pages, collects
    garbage, shares one physical page among several logical ones when the host
    asks for a remap, keeps the extra owners of shared pages in a small NVRAM,
    and charges every flash operation to its chip and channel.  This library
    models that program in C as functions of Rocq, operation by operation with
    the names of the source, and proves that it does what it is for.

    ** How the program is modelled

    - Integers are [Z]; where the C type is unsigned or narrower than [int] the
      wrap-around is written out ([u8], [u16], [u32], [u64], [s8], [s64]).
      Signed [int] and [int64_t] arithmetic is arithmetic of [Z].
    - Code is in a state monad ([M], here) over [struct ssdstate] ([SM],
      State.v) or over the controller ([NM], Nvme.v).  An outcome is [Ok],
      [Crash] (undefined behaviour or the end of the process, with its cause)
      or [Hang].  [wp] is total correctness: the code returns, and the result
      satisfies the postcondition; [wlp] is partial correctness.
    - Arrays are lists with checked access; lists linked by pointers are lists;
      the counters of [struct ssdstate] are a function from their names.
    - Loops that are not structural have fuel, and running out is [Hang].  The
      fuel is a bound every terminating run stays under (the number of sectors
      of a request, of words of the file, of blocks, of bytes of a transfer),
      and the theorems about them are total: with that fuel they return.
    - Time is read from the environment: [Clock] gives the value of the k-th
      reading.  [Guest] is QEMU's mapping of guest memory for DMA, [Backend]
      the block layer, interrupts and the processor's counter.  [double] is
      IEEE 754 as executed by [SpecFloat].

    ** Files

    All sources are under src/hw/block; ssd/ and femu/ are its subdirectories.

    - Prelude: integers, arrays, outcomes, the monad, [wp], sums.
    - Config: [INIT_SSD_CONFIG] of ssd/vssim_config_manager.c.
    - Bloom: ssd/ftl_bf.c, the detection of hot data.
    - State: [struct ssdstate], the counters, clocks, statistics.
    - Timing: ssd/ssd_io_manager.c, the booking of chips and channels.
    - Perf: the queue of requests of ssd/ftl_perf_manager.c.
    - Inverse, Nvram, Alloc: ssd/ftl_inverse_mapping_manager.c, that is the
      owners and reference counts of physical pages, the NVRAM segments and
      [USE_REMAP], the lists of empty and victim blocks.
    - Mapping: ssd/ftl_mapping_manager.c.
    - Flash: the rules of NAND flash, and what it holds after a sequence of
      commands.
    - Invariant: the invariant of the tables, lists and counters.
    - Gc: ssd/ftl_gc_manager.c.
    - Store: the specification, a map from logical pages to versions of data,
      and what it means that a state of the FTL represents it.
    - Ftl: the read and write path of ssd/ftl.c.
    - Ssd: the commands of ssd/ssd.c.
    - Init: the initialisation, [FTL_INIT] and [SSD_INIT].
    - Device: commands, reachable states.
    - Views: the invariant in terms of the state.
    - Nvme: the commands of nvme.c: address lists, checks, metadata, the heap
      storage, read, write, dataset management, compare, flush, remap.
    - NvmeOc: the open-channel mode, femu/femu-oc.c: geometry, addresses, bad
      blocks, reads, writes and erases with their bookings.
    - NvmeQueue: the submission and completion queues of nvme.c, and what it
      means that each queue has all its requests.
    - NvmeInfo: the admin commands of nvme.c that report or configure: identify,
      features, logs, asynchronous events, format.
    - NvmeAdmin: creation and deletion of queues, abort, the doorbells and their
      copy in guest memory, the admin queue, the registers, start and reset.
    - NvmeLife: the controller as a state machine: its events, its invariant,
      and that every event keeps it.
    - NvmeSetup: the properties of nvme.c and their checks, [nvme_init] and
      [nvme_exit], reads of the registers; what the set-up leads to.
    - Host: the commands of the guest carried through to the flash.
    - Demo: a device of 96 pages in states reached by writes.
    - Checker: the rest of ssd/ftl_perf_manager.c: statistics in doubles, the
      recording of times, the completion of requests.
    - Registers: the rest of ssd/ssd_io_manager.c: registers and channels.
    - Commands, Controller, OpenChannel, Properties, Tables: the theorems, each
      with its application to the small device.

    ** What the theorems show

    - The device implements its specification (Properties).  The flash is
      modelled by the commands the FTL issues: a program for the host stores
      new data, a program of the collector stores what was read last.  Every
      command that has room returns, and the flash commands it issues turn
      contents that represent the store into contents that represent the new
      one ([device_progress], [plain_write_stores], [remap_copies_range],
      [discard_empties_range], [read_reads_mapped_pages]).  A partial write
      counts as a new version of its page.  Room is spelled out in [room]
      (Device): free pages beyond one superblock, reference counts below their
      8 bits, interval counters below their 32 bits.
    - Garbage collection picks a superblock with fewest valid pages, moves its
      data and frees it, and its loop ends ([collection_frees_superblock],
      [collection_loop_terminates]).
    - The tables agree with each other in every reachable state: owners and
      reference counts with the mapping, blocks with the lists, NVRAM entries
      with shared pages, statistics with the tables; the flash commands obey
      the rules of NAND ([tables_describe_mapping], [tables_well_typed], [blocks_partitioned],
      [nvram_entries_exact], [statistics_exact], [flash_rules_obeyed]).
    - The allocator hands out unused pages striped over the chips; NVRAM stays
      within its capacity for entries that asked first.
    - The parts (Tables): reference counts with all their refusals, owners,
      the cutting of requests into pages, bookings, derived sizes.
    - The front end (Commands): writes reach the flash and the storage, written
      data is read back, address lists are those of the guest, the remap
      command keeps pages that share a flash page equal in the storage, and no
      request completes before its time.
    - The controller (Controller): requests are neither lost nor duplicated
      under any interleaving of timers, admin commands, register writes,
      callbacks and guest stores ([controller_invariant]); enabling it makes the
      admin queues ([controller_starts]), and the command that creates a
      submission queue does so exactly when it may ([create_sq_outcome]).
      From the properties of the device to a controller that takes commands is
      one theorem, [controller_boots]: its conclusion is what the theorems of
      Commands ask of a controller.
      [handle] of NvmeLife gives the events and the code each one runs.
    - The open-channel mode (OpenChannel): addresses round trip, the tables of
      bad blocks hold the marks, chips and channels are booked in the order the
      flash works; and, as the code stands, the mode cannot be set up and its
      reads and writes are refused.
    - The performance checker (Checker, Registers): a request that has got the
      times of all its pages, in any order, leaves the queue and counts with
      the time from its first start to its last end ([request_lifecycle]);
      operations on registers and channels return and leave every register with
      a page of a request or none ([registers_progress]); a page program taken
      through channel, register and cells ends its request and frees the
      register ([page_write_lifecycle]).  The FTL allocates requests; the rest
      of this code is compiled and has no caller.
    - Hot data (Bloom): a request is known by one filter more after each call,
      a decay empties one filter, a request is hot exactly when the filters
      that know it weigh three; and, as nothing moves the counter a decay waits
      for, none ever is.
    - Places where the code goes wrong are theorems as well: a null pointer
      when no block is empty, an overflow of the reference count, a single
      chip, the shipped configuration, a write that unmaps its own page, a
      partial write booked on one chip only; in Host, transfers longer than
      the metadata buffer, a page behind the last one, queues that are not
      contiguous; in Controller, queue numbers outside the arrays, a doorbell
      after a shutdown, an event freed while it is queued.

    ** Not modelled

    - In nvme.c the delivery of interrupts and the PCI configuration, which are
      calls into QEMU and KVM; the controller memory buffer ([cmbsz] is 0, the
      default); the callbacks behind the return of [nvme_rw].
    - In femu-oc.c what only prints or writes to the block device, and functions
      without callers.
    - Files of ssd/ that are not compiled or only print: caches, buffers, trim
      and log managers; deduplication by [DUP_RATIO].
    - The functions that write tables to files at the end, and messages.
    - Concurrency: the emulator runs the timers of a controller one at a time,
      and so does the model. *)

From Stdlib Require Import ZArith Lia List Permutation.
From stdpp Require Import base tactics numbers list functions.

#[export] Set Default Goal Selector "!".

Open Scope Z_scope.

(** ** Machine integers

    Unsigned arithmetic wraps; a store into an [int8_t] object keeps the low
    eight bits in two's complement (what the compilers the project supports
    do).  Signed [int] and [int64_t] arithmetic, whose overflow is undefined
    in C, is arithmetic of [Z]. *)

Definition u8 (x : Z) : Z := x mod 2 ^ 8.
Definition u16 (x : Z) : Z := x mod 2 ^ 16.
Definition u32 (x : Z) : Z := x mod 2 ^ 32.
Definition u64 (x : Z) : Z := x mod 2 ^ 64.
Definition s8 (x : Z) : Z := (x + 2 ^ 7) mod 2 ^ 8 - 2 ^ 7.
Definition s16 (x : Z) : Z := (x + 2 ^ 15) mod 2 ^ 16 - 2 ^ 15.
Definition s32 (x : Z) : Z := (x + 2 ^ 31) mod 2 ^ 32 - 2 ^ 31.
Definition s64 (x : Z) : Z := (x + 2 ^ 63) mod 2 ^ 64 - 2 ^ 63.

(** ** Arrays

    A C array is a list; an access outside it is not a value. *)

Definition zlen {A} (l : list A) : Z := Z.of_nat (length l).
Definition zget {A} (l : list A) (i : Z) : option A :=
  if i <? 0 then None else l !! Z.to_nat i.
Definition zset {A} (i : Z) (x : A) (l : list A) : list A :=
  if i <? 0 then l else <[Z.to_nat i := x]> l.

(** The list [f 0, f 1, ..., f (n-1)]. *)
Definition ztab {A} (n : Z) (f : Z -> A) : list A :=
  (fun k => f (Z.of_nat k)) <$> seq 0 (Z.to_nat n).

(** ** Outcomes and the state monad

    [Crash] is undefined behaviour the program runs into (a null pointer
    dereference, an access outside an array, the use of an uninitialised
    variable, a division by zero, a [memcpy] between overlapping ranges, the use
    of freed memory, a shift by more than the width) or the
    process being ended by [exit]/[assert].  [Hang] is a loop that exceeded the
    bound under which every terminating run of it stays. *)

Inductive crash : Type :=
| NullDeref
| OutOfBounds
| Uninitialised
| DivByZero
| Overlap
| UseAfterFree
| BadShift
| ProcessExit.

Inductive outcome (S A : Type) : Type :=
| Ok (a : A) (s : S)
| Crash (c : crash)
| Hang.
Arguments Ok {S A} a s.
Arguments Crash {S A} c.
Arguments Hang {S A}.

Definition M (S A : Type) : Type := S -> outcome S A.

#[global] Instance M_ret S : MRet (M S) := fun _ a s => Ok a s.
#[global] Instance M_bind S : MBind (M S) := fun _ _ k m s =>
  match m s with
  | Ok a s' => k a s'
  | Crash c => Crash c
  | Hang => Hang
  end.

Definition mget {S} : M S S := fun s => Ok s s.
Definition gets {S A} (f : S -> A) : M S A := fun s => Ok (f s) s.
Definition modify {S} (f : S -> S) : M S unit := fun s => Ok tt (f s).
Definition mcrash {S A} (c : crash) : M S A := fun _ => Crash c.
Definition mhang {S A} : M S A := fun _ => Hang.

(** [arr[i]] and [*p] as expressions of the program. *)
Definition idx {S A} (l : list A) (i : Z) : M S A := fun s =>
  match zget l i with Some x => Ok x s | None => Crash OutOfBounds end.
Definition deref {S A} (o : option A) : M S A := fun s =>
  match o with Some x => Ok x s | None => Crash NullDeref end.

(** [for (i = lo; i < lo + n; i++) body], without and with an early return. *)
Fixpoint mfor {S} (n : nat) (i : Z) (body : Z -> M S unit) : M S unit :=
  match n with
  | O => mret tt
  | Datatypes.S n' => body i ≫= fun _ => mfor n' (i + 1) body
  end.

Fixpoint mfor_ret {S R} (n : nat) (i : Z) (body : Z -> M S (option R))
  : M S (option R) :=
  match n with
  | O => mret None
  | Datatypes.S n' => body i ≫= fun r =>
      match r with
      | Some x => mret (Some x)
      | None => mfor_ret n' (i + 1) body
      end
  end.

(** [for] whose body updates a local variable [acc]. *)
Fixpoint mfold {S A} (n : nat) (i : Z) (acc : A) (body : Z -> A -> M S A)
  : M S A :=
  match n with
  | O => mret acc
  | Datatypes.S n' => body i acc ≫= fun acc' => mfold n' (i + 1) acc' body
  end.

(** Both: the body returns the new local, or returns from the function. *)
Fixpoint mfold_ret {S A R} (n : nat) (i : Z) (acc : A) (body : Z -> A -> M S (A + R))
  : M S (A + R) :=
  match n with
  | O => mret (inl acc)
  | Datatypes.S n' => body i acc ≫= fun r =>
      match r with
      | inl acc' => mfold_ret n' (i + 1) acc' body
      | inr x => mret (inr x)
      end
  end.

(** Total-correctness predicate transformer: [m] returns normally from [s]
    and the result satisfies [Q]. *)
Definition wp {S A} (m : M S A) (Q : A -> S -> Prop) (s : S) : Prop :=
  match m s with
  | Ok a s' => Q a s'
  | _ => False
  end.

(** Partial correctness: if [m] returns normally, the result satisfies [Q]. *)
Definition wlp {S A} (m : M S A) (Q : A -> S -> Prop) (s : S) : Prop :=
  match m s with
  | Ok a s' => Q a s'
  | _ => True
  end.

(** ** Sums and counts over an initial segment of the integers *)

Fixpoint sumn (n : nat) (f : Z -> Z) : Z :=
  match n with
  | O => 0
  | Datatypes.S n' => sumn n' f + f (Z.of_nat n')
  end.
Definition sumZ (n : Z) (f : Z -> Z) : Z := sumn (Z.to_nat n) f.
Definition b2z (b : bool) : Z := if b then 1 else 0.

(** Functions changed at a point. *)
Definition radd (R : Z -> Z -> Z) (l p d : Z) : Z -> Z -> Z := fun x q =>
  R x q + if (x =? l) && (q =? p) then d else 0.
Definition fset (V : Z -> Z) (p v : Z) : Z -> Z := fun q => if q =? p then v else V q.
Definition fadd (C : Z -> Z) (p d : Z) : Z -> Z := fset C p (C p + d).

(** Occurrences of [x] in [l]. *)
Fixpoint occ (x : Z) (l : list Z) : Z :=
  match l with
  | [] => 0
  | y :: l' => (if x =? y then 1 else 0) + occ x l'
  end.

(** The index of the first occurrence of [x]. *)
Fixpoint find_pos (x : Z) (l : list Z) : option nat :=
  match l with
  | [] => None
  | y :: l' => if x =? y then Some O else Datatypes.S <$> find_pos x l'
  end.

(** ** Lemmas: machine integers *)

Lemma u32_small x : 0 <= x < 2 ^ 32 -> u32 x = x.
Proof. intros H. apply Z.mod_small. exact H. Qed.

Lemma u64_small x : 0 <= x < 2 ^ 64 -> u64 x = x.
Proof. intros H. apply Z.mod_small. exact H. Qed.

Lemma s8_small x : -128 <= x < 128 -> s8 x = x.
Proof. intros H. unfold s8. rewrite Z.mod_small; lia. Qed.

Lemma s32_small x : - 2 ^ 31 <= x < 2 ^ 31 -> s32 x = x.
Proof. intros H. unfold s32. rewrite Z.mod_small; lia. Qed.

Lemma s64_small x : - 2 ^ 63 <= x < 2 ^ 63 -> s64 x = x.
Proof. intros H. unfold s64. rewrite Z.mod_small; lia. Qed.

Lemma u32_range x : 0 <= u32 x < 2 ^ 32.
Proof. apply Z.mod_pos_bound. lia. Qed.

Lemma u64_range x : 0 <= u64 x < 2 ^ 64.
Proof. apply Z.mod_pos_bound. lia. Qed.

Lemma u64_add_l x y : u64 (u64 x + y) = u64 (x + y).
Proof. unfold u64. apply Z.add_mod_idemp_l. lia. Qed.

Lemma u64_add_r x y : u64 (x + u64 y) = u64 (x + y).
Proof. unfold u64. apply Z.add_mod_idemp_r. lia. Qed.

Lemma u64_sub_l x y : u64 (u64 x - y) = u64 (x - y).
Proof. unfold u64. apply Zminus_mod_idemp_l. Qed.

Lemma u64_sub_r x y : u64 (x - u64 y) = u64 (x - y).
Proof. unfold u64. apply Zminus_mod_idemp_r. Qed.

Lemma u64_idem x : u64 (u64 x) = u64 x.
Proof. unfold u64. apply Z.mod_mod. lia. Qed.

Lemma u64_stay c x d : c = u64 x -> d = 0 -> c = u64 (c + d).
Proof. intros -> ->. by rewrite Z.add_0_r, u64_idem. Qed.

(** A number with high digit [k] and low digit [i] in base [n]. *)
Lemma radix_range k m i n : 0 <= k < m -> 0 <= i < n -> 0 <= k * n + i < m * n.
Proof. nia. Qed.

(** ** Lemmas: arrays *)

Section Arrays.
Context {A : Type}.
Implicit Types (l : list A) (i j : Z) (x y : A).

Lemma zlen_nil l : zlen l = 0 -> l = [].
Proof. unfold zlen. destruct l; simpl; [done|lia]. Qed.

Lemma zlen_nonneg l : 0 <= zlen l.
Proof. unfold zlen. lia. Qed.

Lemma Forall_zget (P : A -> Prop) (l : list A) :
  (forall i x, zget l i = Some x -> P x) -> List.Forall P l.
Proof.
  intros HP. apply Forall_lookup_2. intros i x Hi. apply (HP (Z.of_nat i)). unfold zget.
  destruct (Z.ltb_spec (Z.of_nat i) 0); [lia|]. by rewrite Nat2Z.id.
Qed.

Lemma zget_Forall (P : A -> Prop) (l : list A) i x : List.Forall P l -> zget l i = Some x -> P x.
Proof. intros HP. unfold zget. destruct (i <? 0); [done|]. by apply Forall_lookup_1. Qed.

Lemma Forall_zset (P : A -> Prop) (l : list A) i x : List.Forall P l -> P x -> List.Forall P (zset i x l).
Proof. intros HP Hx. unfold zset. destruct (i <? 0); [done|]. by apply Forall_insert. Qed.

Lemma zget_Some_range l i x : zget l i = Some x -> 0 <= i < zlen l.
Proof.
  unfold zget, zlen. destruct (Z.ltb_spec i 0); [done|].
  intros H0%lookup_lt_Some. lia.
Qed.

Lemma zget_is_Some l i : 0 <= i < zlen l -> exists x, zget l i = Some x.
Proof.
  unfold zget, zlen. intros H. destruct (Z.ltb_spec i 0); [lia|].
  apply lookup_lt_is_Some. lia.
Qed.

Lemma zget_None l i : zget l i = None -> i < 0 \/ zlen l <= i.
Proof.
  unfold zget, zlen. destruct (Z.ltb_spec i 0); [lia|].
  intros H0%lookup_ge_None. lia.
Qed.

Lemma zlen_zset l i x : zlen (zset i x l) = zlen l.
Proof. unfold zset, zlen. destruct (i <? 0); [done|]. by rewrite length_insert. Qed.

Lemma zget_zset_eq l i x : 0 <= i < zlen l -> zget (zset i x l) i = Some x.
Proof.
  unfold zget, zset, zlen. intros H. destruct (Z.ltb_spec i 0); [lia|].
  apply list_lookup_insert_eq. lia.
Qed.

Lemma zget_zset_ne l i j x : i <> j -> zget (zset i x l) j = zget l j.
Proof.
  unfold zget, zset. intros H.
  destruct (Z.ltb_spec j 0); [done|]. destruct (Z.ltb_spec i 0); [done|].
  apply list_lookup_insert_ne. lia.
Qed.

Lemma zget_zset l i j x :
  0 <= i < zlen l -> zget (zset i x l) j = if i =? j then Some x else zget l j.
Proof.
  intros H. destruct (Z.eqb_spec i j) as [->|]; [by apply zget_zset_eq|].
  by apply zget_zset_ne.
Qed.

Lemma zset_zset l i x y : zset i x (zset i y l) = zset i x l.
Proof. unfold zset. destruct (i <? 0); [done|]. apply list_insert_insert_eq. Qed.

Lemma zlen_ztab n (f : Z -> A) : 0 <= n -> zlen (ztab n f) = n.
Proof. intros H. unfold ztab, zlen. rewrite length_fmap, length_seq. lia. Qed.

Lemma zget_ztab n (f : Z -> A) i : 0 <= i < n -> zget (ztab n f) i = Some (f i).
Proof.
  intros H. unfold zget, ztab. destruct (Z.ltb_spec i 0); [lia|].
  rewrite list_lookup_fmap, lookup_seq_lt by lia. simpl. do 2 f_equal. lia.
Qed.

Lemma zset_get l i x : zget l i = Some x -> zset i x l = l.
Proof.
  unfold zget, zset. destruct (i <? 0); [done|]. intros E. by apply list_insert_id.
Qed.

Lemma zset_oob l i x : ~ (0 <= i < zlen l) -> zset i x l = l.
Proof.
  unfold zset, zlen. intros Hi. destruct (Z.ltb_spec i 0); [done|].
  apply list_insert_ge. lia.
Qed.

Lemma ztab_ext n (f g : Z -> A) : (forall i, 0 <= i < n -> f i = g i) -> ztab n f = ztab n g.
Proof.
  intros H. unfold ztab. apply list_fmap_ext. intros i x Hx%lookup_seq.
  apply H. lia.
Qed.

Lemma zget_ext l l' :
  zlen l = zlen l' -> (forall i, 0 <= i < zlen l -> zget l i = zget l' i) -> l = l'.
Proof.
  intros Hl H. apply list_eq. intros k.
  destruct (decide (k < length l)%nat) as [Hk|Hk].
  - specialize (H (Z.of_nat k)). unfold zget, zlen in *.
    destruct (Z.ltb_spec (Z.of_nat k) 0); [lia|].
    rewrite Nat2Z.id in H. apply H. lia.
  - unfold zlen in *. rewrite !lookup_ge_None_2 by lia. done.
Qed.

Lemma zset_ztab n (f : Z -> A) i x :
  0 <= i < n -> zset i x (ztab n f) = ztab n (fun k => if k =? i then x else f k).
Proof.
  intros Hi. apply zget_ext; rewrite zlen_zset, !zlen_ztab by lia; [done|].
  intros k Hk. rewrite zget_zset by (rewrite zlen_ztab; lia).
  rewrite !zget_ztab by lia. rewrite (Z.eqb_sym i k). by destruct (k =? i).
Qed.

End Arrays.

(** ** Lemmas: the predicate transformer *)

Section Wp.
Context {S : Type}.

Lemma wp_ret {A} (a : A) (Q : A -> S -> Prop) s : Q a s -> wp (mret a) Q s.
Proof. done. Qed.

Lemma wp_bind {A B} (m : M S A) (k : A -> M S B) Q s :
  wp m (fun a s' => wp (k a) Q s') s -> wp (m ≫= k) Q s.
Proof. unfold wp, mbind, M_bind. by destruct (m s). Qed.

Lemma wp_bind_inv {A B} (m : M S A) (k : A -> M S B) Q s :
  wp (m ≫= k) Q s -> wp m (fun a s' => wp (k a) Q s') s.
Proof. unfold wp, mbind, M_bind. by destruct (m s). Qed.

Lemma wp_bind_assoc {A B C} (m : M S A) (k : A -> M S B) (k' : B -> M S C) Q s :
  wp ((m ≫= k) ≫= k') Q s -> wp (m ≫= fun a => k a ≫= k') Q s.
Proof. unfold wp, mbind, M_bind. by destruct (m s). Qed.

Lemma wp_bind_assoc2 {A B C D} (m : M S A) (k : A -> M S B) (k' : B -> M S C) (k'' : C -> M S D) Q s :
  wp ((m ≫= fun a => k a ≫= k') ≫= k'') Q s ->
  wp (m ≫= fun a => k a ≫= fun b => k' b ≫= k'') Q s.
Proof. unfold wp, mbind, M_bind. destruct (m s); [|done..]. by destruct (k a s0). Qed.

Lemma wp_mono {A} (m : M S A) (Q Q' : A -> S -> Prop) s :
  wp m Q s -> (forall a s', Q a s' -> Q' a s') -> wp m Q' s.
Proof. unfold wp. destruct (m s); auto. Qed.

Lemma wp_Ok {A} (m : M S A) Q s :
  wp m Q s <-> exists a s', m s = Ok a s' /\ Q a s'.
Proof.
  unfold wp. split.
  - destruct (m s) eqn:E; try done. eauto.
  - intros (a & s' & -> & HQ). done.
Qed.

Lemma wp_value {A} (m : M S A) v (Q : S -> Prop) s :
  wp m (fun a s' => a = v /\ Q s') s -> exists s', m s = Ok v s' /\ Q s'.
Proof. intros (a & s' & E & -> & HQ)%wp_Ok. eauto. Qed.

Lemma wp_exact {A} (m : M S A) v s s' :
  wp m (fun a s'' => a = v /\ s'' = s') s -> m s = Ok v s'.
Proof. by intros (a & s'' & E & -> & ->)%wp_Ok. Qed.

Lemma wp_of_eq {A} (m : M S A) (Q : A -> S -> Prop) s a s' :
  m s = Ok a s' -> Q a s' -> wp m Q s.
Proof. unfold wp. by intros ->. Qed.

Lemma wp_and {A} (m : M S A) (Q1 Q2 : A -> S -> Prop) s :
  wp m Q1 s -> wp m Q2 s -> wp m (fun a s' => Q1 a s' /\ Q2 a s') s.
Proof. unfold wp. destruct (m s); auto. Qed.

Lemma wlp_bind {A B} (m : M S A) (k : A -> M S B) Q s :
  wlp m (fun a s' => wlp (k a) Q s') s -> wlp (m ≫= k) Q s.
Proof. unfold wlp, mbind, M_bind. by destruct (m s). Qed.

Lemma wlp_bind_assoc {A B C} (m : M S A) (k : A -> M S B) (k' : B -> M S C) Q s :
  wlp ((m ≫= k) ≫= k') Q s -> wlp (m ≫= fun a => k a ≫= k') Q s.
Proof. unfold wlp, mbind, M_bind. by destruct (m s). Qed.

Lemma wlp_mono {A} (m : M S A) (Q Q' : A -> S -> Prop) s :
  wlp m Q s -> (forall a s', Q a s' -> Q' a s') -> wlp m Q' s.
Proof. unfold wlp. destruct (m s); auto. Qed.

Lemma wlp_gets {A B} (f : S -> A) (k : A -> M S B) Q s : wlp (k (f s)) Q s -> wlp (gets f ≫= k) Q s.
Proof. done. Qed.

Lemma wlp_ret {A B} (a : A) (k : A -> M S B) Q s : wlp (k a) Q s -> wlp (mret a ≫= k) Q s.
Proof. done. Qed.

Lemma wlp_imp {A} (m : M S A) (P : Prop) (Q : A -> S -> Prop) s :
  (P -> wlp m Q s) -> wlp m (fun a s' => P -> Q a s') s.
Proof. unfold wlp. destruct (m s); auto. Qed.

Lemma wp_wlp {A} (m : M S A) (Q Q' : A -> S -> Prop) s :
  wp m Q s -> wlp m Q' s -> wp m (fun a s' => Q a s' /\ Q' a s') s.
Proof. unfold wp, wlp. by destruct (m s). Qed.

Lemma wlp_wp {A} (m : M S A) (Q : A -> S -> Prop) s : wp m Q s -> wlp m Q s.
Proof. unfold wp, wlp. by destruct (m s). Qed.

Lemma wlp_and {A} (m : M S A) (Q Q' : A -> S -> Prop) s :
  wlp m Q s -> wlp m Q' s -> wlp m (fun a s' => Q a s' /\ Q' a s') s.
Proof. unfold wlp. by destruct (m s). Qed.

Lemma wlp_modify (f : S -> S) (Q : unit -> S -> Prop) s : Q tt (f s) -> wlp (modify f) Q s.
Proof. done. Qed.

Lemma wlp_idx {A} (l : list A) i (Q : A -> S -> Prop) s :
  (forall x, zget l i = Some x -> Q x s) -> wlp (idx l i) Q s.
Proof. unfold wlp, idx. destruct (zget l i); auto. Qed.

Lemma wlp_deref {A} (o : option A) (Q : A -> S -> Prop) s :
  (forall x, o = Some x -> Q x s) -> wlp (deref o) Q s.
Proof. unfold wlp, deref. destruct o; auto. Qed.

Lemma wlp_Ok {A} (m : M S A) (Q : A -> S -> Prop) s a s' : wlp m Q s -> m s = Ok a s' -> Q a s'.
Proof. unfold wlp. intros Hw E. by rewrite E in Hw. Qed.

Lemma wp_gets {A} (f : S -> A) (Q : A -> S -> Prop) s : Q (f s) s -> wp (gets f) Q s.
Proof. done. Qed.

Lemma wp_modify (f : S -> S) (Q : unit -> S -> Prop) s : Q tt (f s) -> wp (modify f) Q s.
Proof. done. Qed.

Lemma wp_idx {A} (l : list A) i x (Q : A -> S -> Prop) s :
  zget l i = Some x -> Q x s -> wp (idx l i) Q s.
Proof. unfold wp, idx. by intros ->. Qed.

Lemma wp_deref {A} (o : option A) x (Q : A -> S -> Prop) s :
  o = Some x -> Q x s -> wp (deref o) Q s.
Proof. unfold wp, deref. by intros ->. Qed.

Lemma wp_mfor (I : Z -> S -> Prop) n lo body s :
  I lo s ->
  (forall i s', lo <= i < lo + Z.of_nat n -> I i s' ->
     wp (body i) (fun _ s'' => I (i + 1) s'') s') ->
  wp (mfor n lo body) (fun _ s' => I (lo + Z.of_nat n) s') s.
Proof.
  revert lo s. induction n as [|n IH]; intros lo s H0 Hb.
  - simpl. apply wp_ret. by rewrite Z.add_0_r.
  - simpl. apply wp_bind. eapply wp_mono; [apply Hb; [lia|done]|].
    intros ? s' H1. simpl in H1.
    replace (lo + Z.of_nat (Datatypes.S n)) with (lo + 1 + Z.of_nat n) by lia.
    apply IH; [done|]. intros i s'' Hi. apply Hb. lia.
Qed.

Lemma wp_mfold {A} (I : Z -> A -> S -> Prop) n lo acc body s :
  I lo acc s ->
  (forall i a s', lo <= i < lo + Z.of_nat n -> I i a s' ->
     wp (body i a) (fun a' s'' => I (i + 1) a' s'') s') ->
  wp (mfold n lo acc body) (fun a s' => I (lo + Z.of_nat n) a s') s.
Proof.
  revert lo acc s. induction n as [|n IH]; intros lo acc s H0 Hb.
  - simpl. apply wp_ret. by rewrite Z.add_0_r.
  - simpl. apply wp_bind. eapply wp_mono; [apply Hb; [lia|done]|].
    intros a s' H1. simpl in H1.
    replace (lo + Z.of_nat (Datatypes.S n)) with (lo + 1 + Z.of_nat n) by lia.
    apply IH; [done|]. intros i a' s'' Hi. apply Hb. lia.
Qed.

Lemma wp_mfor_ret {R} (I : Z -> S -> Prop) (Q : R -> S -> Prop) n lo body s :
  I lo s ->
  (forall i s', lo <= i < lo + Z.of_nat n -> I i s' ->
     wp (body i) (fun r s'' => match r with
                               | None => I (i + 1) s''
                               | Some x => Q x s'' end) s') ->
  wp (mfor_ret n lo body)
     (fun r s' => match r with
                  | None => I (lo + Z.of_nat n) s'
                  | Some x => Q x s' end) s.
Proof.
  revert lo s. induction n as [|n IH]; intros lo s H0 Hb.
  - simpl. apply wp_ret. by rewrite Z.add_0_r.
  - simpl. apply wp_bind. eapply wp_mono; [apply Hb; [lia|done]|].
    intros [x|] s' H1; simpl in H1; [done|].
    replace (lo + Z.of_nat (Datatypes.S n)) with (lo + 1 + Z.of_nat n) by lia.
    apply IH; [done|]. intros i s'' Hi. apply Hb. lia.
Qed.

Lemma wlp_mfor_ret {R} (I : S -> Prop) n lo (body : Z -> M S (option R)) s :
  I s -> (forall i s', I s' -> wlp (body i) (fun _ s'' => I s'') s') ->
  wlp (mfor_ret n lo body) (fun _ s' => I s') s.
Proof.
  revert lo s. induction n as [|n IH]; intros lo s H0 Hb; [done|].
  simpl. apply wlp_bind. eapply wlp_mono; [by apply Hb|]. intros [x|] s' H1; [done|]. by apply IH.
Qed.

Lemma wp_mfold_ret {A R} (I : Z -> A -> S -> Prop) (Q : R -> S -> Prop) n lo acc body s :
  I lo acc s ->
  (forall i a s', lo <= i < lo + Z.of_nat n -> I i a s' ->
     wp (body i a) (fun r s'' => match r with
                                 | inl a' => I (i + 1) a' s''
                                 | inr x => Q x s'' end) s') ->
  wp (mfold_ret n lo acc body)
     (fun r s' => match r with
                  | inl a => I (lo + Z.of_nat n) a s'
                  | inr x => Q x s' end) s.
Proof.
  revert lo acc s. induction n as [|n IH]; intros lo acc s H0 Hb.
  - simpl. apply wp_ret. by rewrite Z.add_0_r.
  - simpl. apply wp_bind. eapply wp_mono; [apply Hb; [lia|done]|].
    intros [a|x] s' H1; simpl in H1; [|done].
    replace (lo + Z.of_nat (Datatypes.S n)) with (lo + 1 + Z.of_nat n) by lia.
    apply IH; [done|]. intros i a' s'' Hi. apply Hb. lia.
Qed.

End Wp.

(** ** Lemmas: sums *)

Lemma sumn_ext n f g : (forall i, 0 <= i < Z.of_nat n -> f i = g i) -> sumn n f = sumn n g.
Proof.
  induction n as [|n IH]; intros H; simpl; [done|].
  rewrite (H (Z.of_nat n)) by lia. rewrite IH; [done|]. intros i Hi. apply H. lia.
Qed.

Lemma sumn_upd n f g k :
  0 <= k < Z.of_nat n -> (forall i, 0 <= i < Z.of_nat n -> i <> k -> f i = g i) ->
  sumn n g = sumn n f - f k + g k.
Proof.
  induction n as [|n IH]; intros Hk H; [lia|]. simpl.
  destruct (decide (k = Z.of_nat n)) as [->|Hne].
  - rewrite (sumn_ext n f g); [lia|]. intros i Hi. apply H; lia.
  - rewrite IH; [|lia|intros i Hi; apply H; lia].
    rewrite (H (Z.of_nat n)) by lia. lia.
Qed.

Lemma sumZ_ext n f g : (forall i, 0 <= i < n -> f i = g i) -> sumZ n f = sumZ n g.
Proof. intros H. apply sumn_ext. intros i Hi. apply H. lia. Qed.

Lemma sumZ_succ n f : 0 <= n -> sumZ (n + 1) f = sumZ n f + f n.
Proof.
  intros Hn. unfold sumZ. replace (Z.to_nat (n + 1)) with (S (Z.to_nat n)) by lia.
  simpl. rewrite Z2Nat.id by done. lia.
Qed.

Lemma sumZ_upd n f g k :
  0 <= k < n -> (forall i, 0 <= i < n -> i <> k -> f i = g i) ->
  sumZ n g = sumZ n f - f k + g k.
Proof. intros Hk H. apply sumn_upd; [lia|]. intros i Hi. apply H. lia. Qed.

Lemma sumZ_add n f g : sumZ n (fun i => f i + g i) = sumZ n f + sumZ n g.
Proof. unfold sumZ. induction (Z.to_nat n); simpl; lia. Qed.

Lemma sumZ_const n c : 0 <= n -> sumZ n (fun _ => c) = n * c.
Proof.
  intros H. unfold sumZ. rewrite <- (Z2Nat.id n) at 2 by done.
  induction (Z.to_nat n); simpl sumn; lia.
Qed.

Lemma sumZ_le n f g : (forall i, 0 <= i < n -> f i <= g i) -> sumZ n f <= sumZ n g.
Proof.
  intros H. unfold sumZ.
  assert (forall i, 0 <= i < Z.of_nat (Z.to_nat n) -> f i <= g i) as H' by (intros; apply H; lia).
  revert H'. clear H. induction (Z.to_nat n) as [|k IH]; intros H'; simpl; [lia|].
  assert (f (Z.of_nat k) <= g (Z.of_nat k)) by (apply H'; lia).
  enough (sumn k f <= sumn k g) by lia. apply IH. intros i Hi. apply H'. lia.
Qed.

Lemma sumZ_nonneg n f : (forall i, 0 <= i < n -> 0 <= f i) -> 0 <= sumZ n f.
Proof.
  intros H. destruct (Z_le_gt_dec 0 n).
  - replace 0 with (sumZ n (fun _ => 0)) by (rewrite sumZ_const; lia). by apply sumZ_le.
  - unfold sumZ. replace (Z.to_nat n) with O by lia. done.
Qed.

Lemma sumZ_zero n f : (forall i, 0 <= i < n -> f i = 0) -> sumZ n f = 0.
Proof.
  intros H. rewrite (sumZ_ext n f (fun _ => 0)) by done.
  unfold sumZ. induction (Z.to_nat n); simpl; lia.
Qed.

Lemma sumZ_single n k f :
  0 <= k < n -> (forall i, 0 <= i < n -> i <> k -> f i = 0) -> sumZ n f = f k.
Proof.
  intros Hk H. rewrite (sumZ_upd n (fun _ => 0) f k) by (auto; intros; symmetry; auto).
  rewrite sumZ_zero by done. lia.
Qed.

Lemma sumZ_prefix n m f :
  0 <= n <= m -> (forall i, 0 <= i < m -> 0 <= f i) -> sumZ n f <= sumZ m f.
Proof.
  intros Hn Hf. unfold sumZ. assert (Z.of_nat (Z.to_nat m) <= m) as Hm by lia.
  assert (Z.to_nat n <= Z.to_nat m)%nat as Hle by lia. revert Hle Hm. generalize (Z.to_nat n).
  induction (Z.to_nat m) as [|k IH]; intros j Hj Hm.
  - by replace j with O by lia.
  - destruct (decide (j = S k)) as [->|]; [done|]. simpl.
    specialize (Hf (Z.of_nat k) ltac:(lia)). specialize (IH j ltac:(lia) ltac:(lia)). lia.
Qed.

(** A sum of nonnegative terms bounds each term. *)
Lemma sumZ_term_le n f k :
  0 <= k < n -> (forall i, 0 <= i < n -> 0 <= f i) -> f k <= sumZ n f.
Proof.
  intros Hk H.
  rewrite (sumZ_upd n (fun i => if i =? k then 0 else f i) f k); [|done|].
  - rewrite Z.eqb_refl.
    enough (0 <= sumZ n (fun i => if i =? k then 0 else f i)) by lia.
    apply sumZ_nonneg. intros i Hi. destruct (i =? k); [lia|auto].
  - intros i Hi Hne. destruct (Z.eqb_spec i k); [lia|done].
Qed.

(** Splitting an index into a quotient and a remainder. *)
Lemma sumn_app n m f : sumn (n + m) f = sumn n f + sumn m (fun i => f (Z.of_nat n + i)).
Proof.
  induction m as [|m IH]; [rewrite Nat.add_0_r; simpl; lia|].
  rewrite Nat.add_succ_r. simpl. rewrite IH. rewrite Nat2Z.inj_add. lia.
Qed.

Lemma sumZ_mul n m f :
  0 <= n -> 0 <= m ->
  sumZ (n * m) f = sumZ n (fun i => sumZ m (fun j => f (i * m + j))).
Proof.
  intros Hn Hm. unfold sumZ. rewrite Z2Nat.inj_mul by done.
  set (m' := Z.to_nat m). replace m with (Z.of_nat m') by (unfold m'; lia).
  induction (Z.to_nat n) as [|k IH]; simpl; [done|].
  rewrite Nat.add_comm, sumn_app, IH. f_equal. apply sumn_ext. intros i Hi. f_equal.
  lia.
Qed.

(** ** Lemmas: occurrences *)

Lemma occ_nonneg x l : 0 <= occ x l.
Proof. induction l as [|y l IH]; simpl; [lia|]. destruct (x =? y); lia. Qed.

Lemma occ_app x l1 l2 : occ x (l1 ++ l2) = occ x l1 + occ x l2.
Proof. induction l1 as [|y l1 IH]; simpl; lia. Qed.

Lemma occ_pos_elem x l : 0 < occ x l <-> x ∈ l.
Proof.
  induction l as [|y l IH]; simpl.
  - split; [lia|]. intros H. inversion H.
  - rewrite elem_of_cons, <- IH. pose proof (occ_nonneg x l).
    destruct (Z.eqb_spec x y); split; intros; try lia; auto.
Qed.

Lemma occ_le_length x l : occ x l <= zlen l.
Proof. unfold zlen. induction l as [|y l IH]; simpl; [lia|]. destruct (x =? y); lia. Qed.

Lemma find_pos_Some x l k : find_pos x l = Some k -> l !! k = Some x /\ (k < length l)%nat.
Proof.
  revert k. induction l as [|y l IH]; simpl; intros k H; [done|].
  destruct (Z.eqb_spec x y) as [->|].
  - simplify_eq. simpl. split; [done|lia].
  - destruct (find_pos x l) as [k'|] eqn:E; simplify_eq/=.
    destruct (IH k' eq_refl). split; [done|lia].
Qed.

Lemma find_pos_None x l : find_pos x l = None <-> occ x l = 0.
Proof.
  induction l as [|y l IH]; simpl; [done|].
  pose proof (occ_nonneg x l). destruct (Z.eqb_spec x y).
  - split; [done|lia].
  - destruct (find_pos x l); simpl; split; intros; try done; try lia.
    + assert (occ x l = 0) as H1 by lia. by apply IH in H1.
    + assert (occ x l = 0) by (by apply IH). lia.
Qed.

Lemma find_pos_is_Some x l : 0 < occ x l -> exists k, find_pos x l = Some k.
Proof.
  intros H. destruct (find_pos x l) as [k|] eqn:E; [eauto|].
  apply find_pos_None in E. lia.
Qed.

Lemma occ_delete x y l k :
  l !! k = Some y -> occ x (delete k l) = occ x l - (if x =? y then 1 else 0).
Proof.
  revert k. induction l as [|z l IH]; intros k H; [done|].
  destruct k as [|k]; simpl in H |- *; [simplify_eq; lia|]. rewrite (IH _ H). lia.
Qed.

Lemma occ_sum n l : (forall x, x ∈ l -> 0 <= x < n) -> sumZ n (fun x => occ x l) = zlen l.
Proof.
  induction l as [|y l IH]; intros Hl; simpl.
  - by apply sumZ_zero.
  - rewrite sumZ_add, IH by (intros x Hx; apply Hl; by right).
    rewrite (sumZ_single n y (fun x => if x =? y then 1 else 0)).
    + rewrite Z.eqb_refl. unfold zlen. simpl. lia.
    + apply Hl. by left.
    + intros i _ Hi. destruct (Z.eqb_spec i y); [done|lia].
Qed.

(** ** Tactics and hints *)

Create HintDb ssd.
#[export] Hint Resolve zlen_nonneg occ_nonneg sumZ_nonneg : ssd.

(** Decide the comparisons in sight and let [lia] discard the impossible
    branches. *)
Ltac zcase :=
  match goal with
  | |- context [Z.eqb ?a ?b] => destruct (Z.eqb_spec a b)
  | |- context [Z.ltb ?a ?b] => destruct (Z.ltb_spec a b)
  | |- context [Z.leb ?a ?b] => destruct (Z.leb_spec a b)
  | |- context [Z.gtb ?a ?b] => rewrite (Z.gtb_ltb a b); destruct (Z.ltb_spec b a)
  | |- context [Z.geb ?a ?b] => rewrite (Z.geb_leb a b); destruct (Z.leb_spec b a)
  end; try lia.
Ltac zcases := repeat zcase.

(** One step of a monadic proof. *)
Ltac wp_step :=
  lazymatch goal with
  | |- wp (_ ≫= _) _ _ => apply wp_bind
  | |- wp (mret _) _ _ => apply wp_ret
  | |- wp (gets _) _ _ => apply wp_gets
  | |- wp (modify _) _ _ => apply wp_modify
  end; cbv beta.
Ltac wp_steps := repeat wp_step.

(** ** Lemmas: functions changed at a point *)

Lemma fset_eq V p v : fset V p v p = v.
Proof. unfold fset. by rewrite Z.eqb_refl. Qed.

Lemma fset_ne V p q v : q <> p -> fset V p v q = V q.
Proof. unfold fset. intros. by zcase. Qed.

Lemma fadd_ne C p q d : q <> p -> fadd C p d q = C q.
Proof. apply fset_ne. Qed.

Lemma fadd_eq C p d : fadd C p d p = C p + d.
Proof. apply fset_eq. Qed.
