(* ===== verification/Config.v ===== *)
(** * Configuration

    [ssdconf] and the computations of [INIT_SSD_CONFIG]
    (hw/block/ssd/vssim_config_manager.c): reading the key/value file,
    checking it, and deriving the geometry and the thresholds of the
    collector from it.  Double arithmetic is IEEE 754 binary64 as executed by
    [SpecFloat] (53-bit significand, round to nearest even). *)

From Stdlib Require Import ZArith Lia List String Ascii SpecFloat.
From stdpp Require Import base tactics numbers list.
From S2P Require Import Prelude.

Open Scope Z_scope.

(** ** Doubles *)

Definition d_of_Z (z : Z) : spec_float := binary_normalize 53 1024 z 0 false.
Definition d_add : spec_float -> spec_float -> spec_float := SFadd 53 1024.
Definition d_sub : spec_float -> spec_float -> spec_float := SFsub 53 1024.
Definition d_mul : spec_float -> spec_float -> spec_float := SFmul 53 1024.
Definition d_div : spec_float -> spec_float -> spec_float := SFdiv 53 1024.

(** The conversion of a double to an integer type: truncation. *)
Definition d_trunc (d : spec_float) : Z :=
  match d with
  | S754_finite sg m e =>
      let v := if 0 <=? e then Z.pos m * 2 ^ e else Z.quot (Z.pos m) (2 ^ (- e)) in
      if sg then - v else v
  | _ => 0
  end.

(** ** Constants of common.h *)

Definition SUCCESS : Z := 1.
Definition FAIL : Z := 0.

Definition DATA_BLOCK : Z := 39.
Definition EMPTY_BLOCK : Z := 100.

Definition VICTIM_OVERALL : Z := 41.
Definition VICTIM_INCHIP : Z := 42.
Definition VICTIM_NOPARAL : Z := 43.

Definition VALID : Z := 50.
Definition INVALID : Z := 51.

Definition WHOLE_BLOCKING : Z := 1.
Definition CHANNEL_BLOCKING : Z := 2.
Definition CHIP_BLOCKING : Z := 3.

Definition READ : Z := 801.
Definition WRITE : Z := 802.
Definition GC_READ : Z := 804.
Definition GC_WRITE : Z := 805.

Definition CP_WRITE : Z := 102.
Definition DEDUP_WRITE : Z := 103.
Definition FS_GC_WRITE : Z := 104.
Definition FING_DELAY : Z := 0.

Definition REMAP_CKPT : Z := 2.
Definition REMAP_COPY : Z := 3.
Definition REMAP_MOVE : Z := 4.

Definition TOTAL_OOB_SEG : Z := 20480.
Definition OOB_ENTRY_PER_SEG : Z := 64.
Definition OOB_ENTRY_BYTES : Z := 16.
Definition NVRAM_READ_DELAY : Z := 50.
Definition NVRAM_WRITE_DELAY : Z := 500.
Definition INVALID_ENTRY_THRE : spec_float := d_div (d_of_Z 5) (d_of_Z 100).
Definition PRINT_INTERVAL : Z := 5.
Definition PI_BYTES_NVME : Z := 24.

(** ** The keys of the configuration file *)

Record rawconf : Type := mk_rawconf {
  PAGE_SIZE : Z;
  PAGE_NB : Z;
  SECTOR_SIZE : Z;
  FLASH_NB : Z;
  BLOCK_NB : Z;
  PLANES_PER_FLASH : Z;
  REG_WRITE_DELAY : Z;
  CELL_PROGRAM_DELAY : Z;
  REG_READ_DELAY : Z;
  CELL_READ_DELAY : Z;
  BLOCK_ERASE_DELAY : Z;
  CHANNEL_SWITCH_DELAY_R : Z;
  CHANNEL_SWITCH_DELAY_W : Z;
  DSM_TRIM_ENABLE : Z;
  IO_PARALLELISM : Z;
  CHANNEL_NB : Z;
  OVP : Z;
  GC_MODE : Z
}.

Definition set_PAGE_SIZE (v : Z) (c : rawconf) : rawconf :=
  mk_rawconf
    v (PAGE_NB c) (SECTOR_SIZE c) (FLASH_NB c) (BLOCK_NB c) (PLANES_PER_FLASH c)
    (REG_WRITE_DELAY c) (CELL_PROGRAM_DELAY c) (REG_READ_DELAY c) (CELL_READ_DELAY c)
    (BLOCK_ERASE_DELAY c) (CHANNEL_SWITCH_DELAY_R c) (CHANNEL_SWITCH_DELAY_W c)
    (DSM_TRIM_ENABLE c) (IO_PARALLELISM c) (CHANNEL_NB c) (OVP c) (GC_MODE c).
Definition set_PAGE_NB (v : Z) (c : rawconf) : rawconf :=
  mk_rawconf
    (PAGE_SIZE c) v (SECTOR_SIZE c) (FLASH_NB c) (BLOCK_NB c) (PLANES_PER_FLASH c)
    (REG_WRITE_DELAY c) (CELL_PROGRAM_DELAY c) (REG_READ_DELAY c) (CELL_READ_DELAY c)
    (BLOCK_ERASE_DELAY c) (CHANNEL_SWITCH_DELAY_R c) (CHANNEL_SWITCH_DELAY_W c)
    (DSM_TRIM_ENABLE c) (IO_PARALLELISM c) (CHANNEL_NB c) (OVP c) (GC_MODE c).
Definition set_SECTOR_SIZE (v : Z) (c : rawconf) : rawconf :=
  mk_rawconf
    (PAGE_SIZE c) (PAGE_NB c) v (FLASH_NB c) (BLOCK_NB c) (PLANES_PER_FLASH c)
    (REG_WRITE_DELAY c) (CELL_PROGRAM_DELAY c) (REG_READ_DELAY c) (CELL_READ_DELAY c)
    (BLOCK_ERASE_DELAY c) (CHANNEL_SWITCH_DELAY_R c) (CHANNEL_SWITCH_DELAY_W c)
    (DSM_TRIM_ENABLE c) (IO_PARALLELISM c) (CHANNEL_NB c) (OVP c) (GC_MODE c).
Definition set_FLASH_NB (v : Z) (c : rawconf) : rawconf :=
  mk_rawconf
    (PAGE_SIZE c) (PAGE_NB c) (SECTOR_SIZE c) v (BLOCK_NB c) (PLANES_PER_FLASH c)
    (REG_WRITE_DELAY c) (CELL_PROGRAM_DELAY c) (REG_READ_DELAY c) (CELL_READ_DELAY c)
    (BLOCK_ERASE_DELAY c) (CHANNEL_SWITCH_DELAY_R c) (CHANNEL_SWITCH_DELAY_W c)
    (DSM_TRIM_ENABLE c) (IO_PARALLELISM c) (CHANNEL_NB c) (OVP c) (GC_MODE c).
Definition set_BLOCK_NB (v : Z) (c : rawconf) : rawconf :=
  mk_rawconf
    (PAGE_SIZE c) (PAGE_NB c) (SECTOR_SIZE c) (FLASH_NB c) v (PLANES_PER_FLASH c)
    (REG_WRITE_DELAY c) (CELL_PROGRAM_DELAY c) (REG_READ_DELAY c) (CELL_READ_DELAY c)
    (BLOCK_ERASE_DELAY c) (CHANNEL_SWITCH_DELAY_R c) (CHANNEL_SWITCH_DELAY_W c)
    (DSM_TRIM_ENABLE c) (IO_PARALLELISM c) (CHANNEL_NB c) (OVP c) (GC_MODE c).
Definition set_PLANES_PER_FLASH (v : Z) (c : rawconf) : rawconf :=
  mk_rawconf
    (PAGE_SIZE c) (PAGE_NB c) (SECTOR_SIZE c) (FLASH_NB c) (BLOCK_NB c) v
    (REG_WRITE_DELAY c) (CELL_PROGRAM_DELAY c) (REG_READ_DELAY c) (CELL_READ_DELAY c)
    (BLOCK_ERASE_DELAY c) (CHANNEL_SWITCH_DELAY_R c) (CHANNEL_SWITCH_DELAY_W c)
    (DSM_TRIM_ENABLE c) (IO_PARALLELISM c) (CHANNEL_NB c) (OVP c) (GC_MODE c).
Definition set_REG_WRITE_DELAY (v : Z) (c : rawconf) : rawconf :=
  mk_rawconf
    (PAGE_SIZE c) (PAGE_NB c) (SECTOR_SIZE c) (FLASH_NB c) (BLOCK_NB c)
    (PLANES_PER_FLASH c) v (CELL_PROGRAM_DELAY c) (REG_READ_DELAY c)
    (CELL_READ_DELAY c) (BLOCK_ERASE_DELAY c) (CHANNEL_SWITCH_DELAY_R c)
    (CHANNEL_SWITCH_DELAY_W c) (DSM_TRIM_ENABLE c) (IO_PARALLELISM c) (CHANNEL_NB c)
    (OVP c) (GC_MODE c).
Definition set_CELL_PROGRAM_DELAY (v : Z) (c : rawconf) : rawconf :=
  mk_rawconf
    (PAGE_SIZE c) (PAGE_NB c) (SECTOR_SIZE c) (FLASH_NB c) (BLOCK_NB c)
    (PLANES_PER_FLASH c) (REG_WRITE_DELAY c) v (REG_READ_DELAY c) (CELL_READ_DELAY c)
    (BLOCK_ERASE_DELAY c) (CHANNEL_SWITCH_DELAY_R c) (CHANNEL_SWITCH_DELAY_W c)
    (DSM_TRIM_ENABLE c) (IO_PARALLELISM c) (CHANNEL_NB c) (OVP c) (GC_MODE c).
Definition set_REG_READ_DELAY (v : Z) (c : rawconf) : rawconf :=
  mk_rawconf
    (PAGE_SIZE c) (PAGE_NB c) (SECTOR_SIZE c) (FLASH_NB c) (BLOCK_NB c)
    (PLANES_PER_FLASH c) (REG_WRITE_DELAY c) (CELL_PROGRAM_DELAY c) v
    (CELL_READ_DELAY c) (BLOCK_ERASE_DELAY c) (CHANNEL_SWITCH_DELAY_R c)
    (CHANNEL_SWITCH_DELAY_W c) (DSM_TRIM_ENABLE c) (IO_PARALLELISM c) (CHANNEL_NB c)
    (OVP c) (GC_MODE c).
Definition set_CELL_READ_DELAY (v : Z) (c : rawconf) : rawconf :=
  mk_rawconf
    (PAGE_SIZE c) (PAGE_NB c) (SECTOR_SIZE c) (FLASH_NB c) (BLOCK_NB c)
    (PLANES_PER_FLASH c) (REG_WRITE_DELAY c) (CELL_PROGRAM_DELAY c) (REG_READ_DELAY c)
    v (BLOCK_ERASE_DELAY c) (CHANNEL_SWITCH_DELAY_R c) (CHANNEL_SWITCH_DELAY_W c)
    (DSM_TRIM_ENABLE c) (IO_PARALLELISM c) (CHANNEL_NB c) (OVP c) (GC_MODE c).
Definition set_BLOCK_ERASE_DELAY (v : Z) (c : rawconf) : rawconf :=
  mk_rawconf
    (PAGE_SIZE c) (PAGE_NB c) (SECTOR_SIZE c) (FLASH_NB c) (BLOCK_NB c)
    (PLANES_PER_FLASH c) (REG_WRITE_DELAY c) (CELL_PROGRAM_DELAY c) (REG_READ_DELAY c)
    (CELL_READ_DELAY c) v (CHANNEL_SWITCH_DELAY_R c) (CHANNEL_SWITCH_DELAY_W c)
    (DSM_TRIM_ENABLE c) (IO_PARALLELISM c) (CHANNEL_NB c) (OVP c) (GC_MODE c).
Definition set_CHANNEL_SWITCH_DELAY_R (v : Z) (c : rawconf) : rawconf :=
  mk_rawconf
    (PAGE_SIZE c) (PAGE_NB c) (SECTOR_SIZE c) (FLASH_NB c) (BLOCK_NB c)
    (PLANES_PER_FLASH c) (REG_WRITE_DELAY c) (CELL_PROGRAM_DELAY c) (REG_READ_DELAY c)
    (CELL_READ_DELAY c) (BLOCK_ERASE_DELAY c) v (CHANNEL_SWITCH_DELAY_W c)
    (DSM_TRIM_ENABLE c) (IO_PARALLELISM c) (CHANNEL_NB c) (OVP c) (GC_MODE c).
Definition set_CHANNEL_SWITCH_DELAY_W (v : Z) (c : rawconf) : rawconf :=
  mk_rawconf
    (PAGE_SIZE c) (PAGE_NB c) (SECTOR_SIZE c) (FLASH_NB c) (BLOCK_NB c)
    (PLANES_PER_FLASH c) (REG_WRITE_DELAY c) (CELL_PROGRAM_DELAY c) (REG_READ_DELAY c)
    (CELL_READ_DELAY c) (BLOCK_ERASE_DELAY c) (CHANNEL_SWITCH_DELAY_R c) v
    (DSM_TRIM_ENABLE c) (IO_PARALLELISM c) (CHANNEL_NB c) (OVP c) (GC_MODE c).
Definition set_DSM_TRIM_ENABLE (v : Z) (c : rawconf) : rawconf :=
  mk_rawconf
    (PAGE_SIZE c) (PAGE_NB c) (SECTOR_SIZE c) (FLASH_NB c) (BLOCK_NB c)
    (PLANES_PER_FLASH c) (REG_WRITE_DELAY c) (CELL_PROGRAM_DELAY c) (REG_READ_DELAY c)
    (CELL_READ_DELAY c) (BLOCK_ERASE_DELAY c) (CHANNEL_SWITCH_DELAY_R c)
    (CHANNEL_SWITCH_DELAY_W c) v (IO_PARALLELISM c) (CHANNEL_NB c) (OVP c) (GC_MODE c).
Definition set_IO_PARALLELISM (v : Z) (c : rawconf) : rawconf :=
  mk_rawconf
    (PAGE_SIZE c) (PAGE_NB c) (SECTOR_SIZE c) (FLASH_NB c) (BLOCK_NB c)
    (PLANES_PER_FLASH c) (REG_WRITE_DELAY c) (CELL_PROGRAM_DELAY c) (REG_READ_DELAY c)
    (CELL_READ_DELAY c) (BLOCK_ERASE_DELAY c) (CHANNEL_SWITCH_DELAY_R c)
    (CHANNEL_SWITCH_DELAY_W c) (DSM_TRIM_ENABLE c) v (CHANNEL_NB c) (OVP c) (GC_MODE c).
Definition set_CHANNEL_NB (v : Z) (c : rawconf) : rawconf :=
  mk_rawconf
    (PAGE_SIZE c) (PAGE_NB c) (SECTOR_SIZE c) (FLASH_NB c) (BLOCK_NB c)
    (PLANES_PER_FLASH c) (REG_WRITE_DELAY c) (CELL_PROGRAM_DELAY c) (REG_READ_DELAY c)
    (CELL_READ_DELAY c) (BLOCK_ERASE_DELAY c) (CHANNEL_SWITCH_DELAY_R c)
    (CHANNEL_SWITCH_DELAY_W c) (DSM_TRIM_ENABLE c) (IO_PARALLELISM c) v (OVP c)
    (GC_MODE c).
Definition set_OVP (v : Z) (c : rawconf) : rawconf :=
  mk_rawconf
    (PAGE_SIZE c) (PAGE_NB c) (SECTOR_SIZE c) (FLASH_NB c) (BLOCK_NB c)
    (PLANES_PER_FLASH c) (REG_WRITE_DELAY c) (CELL_PROGRAM_DELAY c) (REG_READ_DELAY c)
    (CELL_READ_DELAY c) (BLOCK_ERASE_DELAY c) (CHANNEL_SWITCH_DELAY_R c)
    (CHANNEL_SWITCH_DELAY_W c) (DSM_TRIM_ENABLE c) (IO_PARALLELISM c) (CHANNEL_NB c) v
    (GC_MODE c).
Definition set_GC_MODE (v : Z) (c : rawconf) : rawconf :=
  mk_rawconf
    (PAGE_SIZE c) (PAGE_NB c) (SECTOR_SIZE c) (FLASH_NB c) (BLOCK_NB c)
    (PLANES_PER_FLASH c) (REG_WRITE_DELAY c) (CELL_PROGRAM_DELAY c) (REG_READ_DELAY c)
    (CELL_READ_DELAY c) (BLOCK_ERASE_DELAY c) (CHANNEL_SWITCH_DELAY_R c)
    (CHANNEL_SWITCH_DELAY_W c) (DSM_TRIM_ENABLE c) (IO_PARALLELISM c) (CHANNEL_NB c)
    (OVP c) v.

Definition conf_setter (key : string) : option (Z -> rawconf -> rawconf) :=
  if String.eqb key "PAGE_SIZE" then Some set_PAGE_SIZE
  else if String.eqb key "PAGE_NB" then Some set_PAGE_NB
  else if String.eqb key "SECTOR_SIZE" then Some set_SECTOR_SIZE
  else if String.eqb key "FLASH_NB" then Some set_FLASH_NB
  else if String.eqb key "BLOCK_NB" then Some set_BLOCK_NB
  else if String.eqb key "PLANES_PER_FLASH" then Some set_PLANES_PER_FLASH
  else if String.eqb key "REG_WRITE_DELAY" then Some set_REG_WRITE_DELAY
  else if String.eqb key "CELL_PROGRAM_DELAY" then Some set_CELL_PROGRAM_DELAY
  else if String.eqb key "REG_READ_DELAY" then Some set_REG_READ_DELAY
  else if String.eqb key "CELL_READ_DELAY" then Some set_CELL_READ_DELAY
  else if String.eqb key "BLOCK_ERASE_DELAY" then Some set_BLOCK_ERASE_DELAY
  else if String.eqb key "CHANNEL_SWITCH_DELAY_R" then Some set_CHANNEL_SWITCH_DELAY_R
  else if String.eqb key "CHANNEL_SWITCH_DELAY_W" then Some set_CHANNEL_SWITCH_DELAY_W
  else if String.eqb key "DSM_TRIM_ENABLE" then Some set_DSM_TRIM_ENABLE
  else if String.eqb key "IO_PARALLELISM" then Some set_IO_PARALLELISM
  else if String.eqb key "CHANNEL_NB" then Some set_CHANNEL_NB
  else if String.eqb key "OVP" then Some set_OVP
  else if String.eqb key "GC_MODE" then Some set_GC_MODE
  else None.

(** ** The derived configuration *)

Record ssdconf : Type := mk_ssdconf {
  raw :> rawconf;
  SECTORS_PER_PAGE : Z;
  PAGES_PER_FLASH : Z;
  SECTOR_NB : Z;
  WAY_NB : Z;
  BLOCK_MAPPING_ENTRY_NB : Z;
  PAGES_IN_SSD : Z;
  PAGE_MAPPING_ENTRY_NB : Z;
  EACH_EMPTY_TABLE_ENTRY_NB : Z;
  EMPTY_TABLE_ENTRY_NB : Z;
  VICTIM_TABLE_ENTRY_NB : Z;
  DATA_BLOCK_NB : Z;
  GC_THRESHOLD : spec_float;
  GC_THRESHOLD_HARD : spec_float;
  GC_THRESHOLD_BLOCK_NB : Z;
  GC_THRESHOLD_BLOCK_NB_HARD : Z;
  GC_THRESHOLD_BLOCK_NB_EACH : Z;
  GC_VICTIM_NB : Z
}.

(** [memset(ssd, 0, ...)] in [SSD_INIT]. *)
Definition rawconf0 : rawconf := mk_rawconf 0 0 0 0 0 0 0 0 0 0 0 0 0 0 0 0 0 0.
Definition ssdconf0 (r : rawconf) : ssdconf :=
  mk_ssdconf r 0 0 0 0 0 0 0 0 0 0 0 (S754_zero false) (S754_zero false) 0 0 0 0.

(** ** Reading the file

    The stream is its list of words.  [fscanf("%s")] takes the next word;
    [fscanf("%d")] takes the longest prefix of the next word that is a decimal
    integer and leaves the rest of the word in the stream; when there is no
    such prefix it stores nothing (a sign it has read is lost). *)

Definition digit (c : ascii) : option Z :=
  let n := Z.of_nat (nat_of_ascii c) in
  if (48 <=? n) && (n <=? 57) then Some (n - 48) else None.

Fixpoint scan_digits (acc : option Z) (w : string) : option Z * string :=
  match w with
  | EmptyString => (acc, EmptyString)
  | String c w' =>
      match digit c with
      | Some d => scan_digits (Some (10 * default 0 acc + d)) w'
      | None => (acc, w)
      end
  end.

Definition scan_int (w : string) : option Z * string :=
  match w with
  | String "-" w' => let '(r, k) := scan_digits None w' in (Z.opp <$> r, k)
  | String "+" w' => scan_digits None w'
  | _ => scan_digits None w
  end.

Definition push_word (w : string) (ws : list string) : list string :=
  match w with EmptyString => ws | _ => w :: ws end.

Fixpoint read_conf (fuel : nat) (ws : list string) (c : rawconf) : rawconf :=
  match fuel, ws with
  | S fuel', szCommand :: rest =>
      match conf_setter szCommand with
      | None => read_conf fuel' rest c
      | Some set =>
          match rest with
          | [] => c
          | w :: rest' =>
              let '(r, k) := scan_int w in
              let c' := match r with Some v => set v c | None => c end in
              read_conf fuel' (push_word k rest') c'
          end
      end
  | _, _ => c
  end.

(** Every iteration of the reading loop takes at least one character. *)
Definition stream_size (ws : list string) : nat :=
  foldr (fun w n => S (String.length w + n))%nat O ws.

(** ** Derivation (lines 384-489): the checks, then the arithmetic *)

Definition conf_rejected (c : rawconf) : bool :=
  (FLASH_NB c <? CHANNEL_NB c)
  || (negb (PLANES_PER_FLASH c =? 1) && negb (Z.rem (PLANES_PER_FLASH c) 2 =? 0)).

Definition gc_threshold_of (thr : spec_float) (n : Z) : Z :=
  d_trunc (d_mul (d_sub (d_of_Z 1) thr) (d_of_Z n)).

Definition derive_conf (c : rawconf) : option ssdconf :=
  if (SECTOR_SIZE c =? 0) || (CHANNEL_NB c =? 0) || (PLANES_PER_FLASH c =? 0)
  then None
  else
    let spp := Z.quot (PAGE_SIZE c) (SECTOR_SIZE c) in
    let pages := PAGE_NB c * BLOCK_NB c * FLASH_NB c in
    let blocks := BLOCK_NB c * FLASH_NB c in
    let each := Z.quot (BLOCK_NB c) (PLANES_PER_FLASH c) in
    let tab := FLASH_NB c * PLANES_PER_FLASH c in
    let thr := d_div (d_of_Z 9) (d_of_Z 10) in
    let thr_hard := d_div (d_of_Z 95) (d_of_Z 100) in
    Some (mk_ssdconf c spp (PAGE_NB c * BLOCK_NB c)
            (spp * PAGE_NB c * BLOCK_NB c * FLASH_NB c)
            (Z.quot (FLASH_NB c) (CHANNEL_NB c))
            blocks pages pages each tab tab (BLOCK_NB c)
            thr thr_hard
            (gc_threshold_of thr blocks)
            (gc_threshold_of thr_hard blocks)
            (gc_threshold_of thr each)
            (if negb (OVP c =? 0)
             then Z.quot (Z.quot (FLASH_NB c * BLOCK_NB c * OVP c) 100) 2
             else 1)).

(** Lines 491-502: the number of GC time slots, or the end of the process. *)
Definition num_gc_slots (c : rawconf) : option Z :=
  if GC_MODE c =? WHOLE_BLOCKING then Some 1
  else if GC_MODE c =? CHANNEL_BLOCKING then Some (CHANNEL_NB c)
  else if GC_MODE c =? CHIP_BLOCKING then Some (FLASH_NB c * PLANES_PER_FLASH c)
  else None.

(** The slot of a block among them, as ftl.c and ftl_gc_manager.c select it. *)
Definition slot_of (sc : ssdconf) (flash block : Z) : Z :=
  if GC_MODE sc =? WHOLE_BLOCKING then 0
  else if GC_MODE sc =? CHANNEL_BLOCKING then flash mod u32 (CHANNEL_NB sc)
  else if GC_MODE sc =? CHIP_BLOCKING
       then flash * PLANES_PER_FLASH sc + block mod u32 (PLANES_PER_FLASH sc)
  else 0.

(** ** The geometry the FTL relies on

    One plane per chip ("assume plane_per_flash = 1" in ftl_gc_manager.c), at
    least two chips, and fewer than 2^31 pages. *)
Record geom (sc : ssdconf) : Prop := mk_geom {
  g_planes : PLANES_PER_FLASH sc = 1;
  g_flash : 2 <= FLASH_NB sc;
  g_block : 1 <= BLOCK_NB sc;
  g_page : 1 <= PAGE_NB sc;
  g_pages : FLASH_NB sc * BLOCK_NB sc * PAGE_NB sc < 2 ^ 31;
  g_chan : 1 <= CHANNEL_NB sc <= FLASH_NB sc;
  g_map : PAGE_MAPPING_ENTRY_NB sc = FLASH_NB sc * BLOCK_NB sc * PAGE_NB sc;
  g_ppf : PAGES_PER_FLASH sc = PAGE_NB sc * BLOCK_NB sc;
  g_blocks : BLOCK_MAPPING_ENTRY_NB sc = BLOCK_NB sc * FLASH_NB sc;
  g_each : EACH_EMPTY_TABLE_ENTRY_NB sc = BLOCK_NB sc;
  g_empty : EMPTY_TABLE_ENTRY_NB sc = FLASH_NB sc;
  g_victim : VICTIM_TABLE_ENTRY_NB sc = FLASH_NB sc;
  g_spp : 1 <= SECTORS_PER_PAGE sc < 2 ^ 31;
  g_sectors : SECTOR_NB sc = SECTORS_PER_PAGE sc * (FLASH_NB sc * BLOCK_NB sc * PAGE_NB sc)
}.

(** The values of a configuration file that make the geometry. *)
Record raw_ok (c : rawconf) : Prop := mk_raw_ok {
  ro_planes : PLANES_PER_FLASH c = 1;
  ro_flash : 2 <= FLASH_NB c;
  ro_block : 1 <= BLOCK_NB c;
  ro_page : 1 <= PAGE_NB c;
  ro_pages : FLASH_NB c * BLOCK_NB c * PAGE_NB c < 2 ^ 31;
  ro_chan : 1 <= CHANNEL_NB c <= FLASH_NB c;
  ro_sector : 1 <= SECTOR_SIZE c <= PAGE_SIZE c;
  ro_size : PAGE_SIZE c < 2 ^ 31
}.

(** ** Lemmas *)

Lemma derive_geom c sc : derive_conf c = Some sc -> raw_ok c -> geom sc /\ raw sc = c.
Proof.
  unfold derive_conf. intros E []. destruct (_ || _ || _); [done|]. simplify_eq. split; [|done].
  assert (1 <= Z.quot (PAGE_SIZE c) (SECTOR_SIZE c) <= PAGE_SIZE c) as Hspp.
  { rewrite Z.quot_div_nonneg by lia. split.
    - apply Z.div_le_lower_bound; lia.
    - apply Z.div_le_upper_bound; nia. }
  constructor; cbn; rewrite ?ro_planes0, ?Z.quot_1_r; lia || done.
Qed.

Lemma geom_bounds sc :
  geom sc -> FLASH_NB sc < 2 ^ 31 /\ BLOCK_NB sc < 2 ^ 31 /\ PAGE_NB sc < 2 ^ 31.
Proof. intros []. nia. Qed.

Lemma slot_of_range (sc : ssdconf) n f b :
  geom sc -> num_gc_slots sc = Some n -> 0 <= f < FLASH_NB sc -> 0 <= slot_of sc f b < n.
Proof.
  intros G Hn Hf. destruct (geom_bounds _ G) as (? & _). pose proof (g_chan _ G).
  unfold num_gc_slots, slot_of in *. rewrite (g_planes _ G) in *. change (u32 1) with 1.
  rewrite Z.mod_1_r. destruct (_ =? _); [simplify_eq; lia|].
  destruct (_ =? _); [simplify_eq|destruct (_ =? _); simplify_eq; lia].
  rewrite u32_small by lia. apply Z.mod_pos_bound. lia.
Qed.

Lemma scan_digits_length acc w :
  (String.length (scan_digits acc w).2 <= String.length w)%nat.
Proof.
  revert acc. induction w as [|c w IH]; intros acc; simpl; [lia|].
  destruct (digit c); simpl; [|lia]. etrans; [apply IH|lia].
Qed.

Lemma scan_int_length w : (String.length (scan_int w).2 <= String.length w)%nat.
Proof.
  destruct w as [|a w]; [done|].
  pose proof (scan_digits_length None w) as Hw.
  pose proof (scan_digits_length None (String a w)) as Haw.
  unfold scan_int. destruct (scan_digits None w) as [r k] eqn:E1.
  destruct (scan_digits None (String a w)) as [r' k'] eqn:E2. simpl in *.
  destruct a as [[] [] [] [] [] [] [] []]; simpl in *; simplify_eq; simpl; lia.
Qed.

Lemma push_word_size w ws :
  (stream_size (push_word w ws) <= S (String.length w + stream_size ws))%nat.
Proof. destruct w; simpl; lia. Qed.

(** The characters of the stream bound the iterations of the reading loop. *)
Lemma read_conf_fuel fuel ws c :
  (stream_size ws <= fuel)%nat ->
  read_conf fuel ws c = read_conf (stream_size ws) ws c.
Proof.
  remember (stream_size ws) as n eqn:Hn. revert fuel ws c Hn.
  induction (lt_wf n) as [n _ IH]; intros fuel ws c -> Hf.
  destruct ws as [|w ws]; [destruct fuel; done|].
  assert (forall f1 f2 ws' c', stream_size ws' < stream_size (w :: ws) ->
            stream_size ws' <= f1 -> stream_size ws' <= f2 ->
            read_conf f1 ws' c' = read_conf f2 ws' c')%nat as Heq.
  { intros f1 f2 ws' c' Hlt H1 H2.
    rewrite (IH _ Hlt f1 ws' c' eq_refl H1). by rewrite (IH _ Hlt f2 ws' c' eq_refl H2). }
  change (stream_size (w :: ws)) with (S (String.length w + stream_size ws)) in *.
  destruct fuel as [|fuel]; [lia|]. simpl.
  destruct (conf_setter w) as [set|] eqn:Ew.
  - destruct ws as [|v ws]; [done|].
    destruct (scan_int v) as [r k] eqn:E.
    pose proof (scan_int_length v) as Hl. rewrite E in Hl. simpl in Hl.
    pose proof (push_word_size k ws).
    change (stream_size (v :: ws)) with (S (String.length v + stream_size ws)) in *.
    destruct w as [|a w]; [done|]. simpl String.length in *.
    apply Heq; lia.
  - apply Heq; lia.
Qed.

(** The reading loop of [INIT_SSD_CONFIG] terminates on every file: more
    iterations than the file has characters never change the result. *)
Theorem conf_reading_terminates fuel ws c :
  (stream_size ws <= fuel)%nat ->
  read_conf fuel ws c = read_conf (stream_size ws) ws c.
Proof. apply read_conf_fuel. Qed.

Lemma conf_reading_terminates_witness :
  (stream_size ["PAGE_NB"%string; "640"%string; "OVP"%string; "20x"%string] <= 100)%nat /\
  read_conf 100 ["PAGE_NB"%string; "640"%string; "OVP"%string; "20x"%string] rawconf0 =
  set_OVP 20 (set_PAGE_NB 640 rawconf0).
Proof.
  split; [apply Nat.leb_le; vm_compute; reflexivity|].
  etransitivity; [apply (conf_reading_terminates 100)|].
  - apply Nat.leb_le. vm_compute. reflexivity.
  - vm_compute. reflexivity.
Defined.
