(* ===== verification/Bloom.v ===== *)
(** * Hot data detection: ssd/ftl_bf.c

    Four Bloom filters that take turns: a request is hot when the weights of the
    filters that know it add up to three.  The state is the part of
    [struct ssdstate] only this code uses.  [float] is IEEE 754 binary32 as
    executed by [SpecFloat]. *)

From Stdlib Require Import ZArith Lia List SpecFloat.
From stdpp Require Import base tactics numbers list.
From S2P Require Import Prelude Config.

Open Scope Z_scope.

Definition FILTER_NUMBER : Z := 4.
Definition FILTER_SIZE : Z := 14.
Definition FILTER_SIZE_BYTES : Z := 2048.
Definition DACAY : Z := 4096.
Definition HOT : Z := 0.
Definition COLD : Z := 1.
Definition HIT_BF : Z := 1.
Definition MISS_BF : Z := 0.

(** ** Floats *)

Definition f_of_d (d : spec_float) : spec_float :=
  match d with
  | S754_finite s m e => binary_normalize 24 128 (if s then Z.neg m else Z.pos m) e s
  | _ => d
  end.
Definition f_add : spec_float -> spec_float -> spec_float := SFadd 24 128.
Definition f_zero : spec_float := S754_zero false.

(** ** Hash functions *)

(** The functions go through the bytes of a string with 32-bit arithmetic. *)
Definition RSHash (str : list Z) : Z :=
  (foldl (fun '(hash, a) c => (u32 (hash * a + c), u32 (a * 378551))) (0, 63689) str).1.

Definition JSHash (str : list Z) : Z :=
  foldl (fun hash c => Z.lxor hash (u32 (Z.shiftl hash 5 + c + Z.shiftr hash 2))) 1315423911 str.

Definition PJWHash (str : list Z) : Z :=
  let HighBits := u32 (Z.shiftl 4294967295 28) in
  foldl (fun hash c =>
    let hash := u32 (Z.shiftl hash 4 + c) in
    let test := Z.land hash HighBits in
    if test =? 0 then hash else Z.ldiff (Z.lxor hash (Z.shiftr test 24)) HighBits) 0 str.

Definition SDBMHash (str : list Z) : Z :=
  foldl (fun hash c => u32 (c + Z.shiftl hash 6 + Z.shiftl hash 16 - hash)) 0 str.

Definition DJBHash (str : list Z) : Z :=
  foldl (fun hash c => u32 (Z.shiftl hash 5 + hash + c)) 5381 str.

Definition DEKHash (str : list Z) : Z :=
  foldl (fun hash c => Z.lxor (Z.lxor (u32 (Z.shiftl hash 5)) (Z.shiftr hash 27)) c) (zlen str) str.

Definition FNVHash (str : list Z) : Z :=
  foldl (fun hash c => Z.lxor (u32 (hash * 2166136261)) c) 0 str.

Definition ROT32 (x y : Z) : Z := Z.lor (u32 (Z.shiftl x y)) (Z.shiftr x (32 - y)).

Definition murmur_mix (k : Z) : Z := u32 (ROT32 (u32 (k * 3432918353)) 15 * 461845907).

(** The blocks of four bytes; the rest, of at most three bytes, is the tail. *)
Fixpoint murmur_blocks (str : list Z) (hash : Z) : Z * list Z :=
  match str with
  | a :: b :: c :: d :: str' =>
      let k := a + 256 * b + 65536 * c + 16777216 * d in
      murmur_blocks str' (u32 (ROT32 (Z.lxor hash (murmur_mix k)) 13 * 5 + 3864292196))
  | tail => (hash, tail)
  end.

Definition MURMURHash (key : list Z) : Z :=
  let '(hash, tail) := murmur_blocks key 0 in
  let hash := match tail with
              | [] => hash
              | _ => Z.lxor hash (murmur_mix (foldr (fun c k => Z.lxor (Z.shiftl k 8) c) 0 tail))
              end in
  let hash := Z.lxor hash (zlen key) in
  let hash := Z.lxor hash (Z.shiftr hash 16) in
  let hash := u32 (hash * 2246822507) in
  let hash := Z.lxor hash (Z.shiftr hash 13) in
  let hash := u32 (hash * 3266489909) in
  Z.lxor hash (Z.shiftr hash 16).

Definition int_to_char (lpn : Z) : list Z := ztab 4 (fun i => u8 (Z.shiftr lpn (8 * i))).

(** The hashes of a request: one of its file, one of its place in it. *)
Definition get_hashes (in1 in2 : list Z) : list Z := [FNVHash in1; MURMURHash in2].

(** ** The filters *)

Record bloom : Type := mk_bloom {
  filter : list (list Z);
  filter_weight : list spec_float;
  current_filter : Z;
  current_decay_filter : Z;
  data_buffer_counter : Z
}.

Definition set_filter v b := mk_bloom v (filter_weight b) (current_filter b) (current_decay_filter b) (data_buffer_counter b).
Definition set_weight v b := mk_bloom (filter b) v (current_filter b) (current_decay_filter b) (data_buffer_counter b).
Definition set_current v b := mk_bloom (filter b) (filter_weight b) v (current_decay_filter b) (data_buffer_counter b).
Definition set_decay v b := mk_bloom (filter b) (filter_weight b) (current_filter b) v (data_buffer_counter b).

(** The values [INIT_SSD_CONFIG] sets. *)
Definition bloom_init : bloom :=
  mk_bloom (ztab FILTER_NUMBER (fun _ => ztab FILTER_SIZE_BYTES (fun _ => 0))) (ztab FILTER_NUMBER (fun _ => f_zero)) 0 (-1) 0.

Abbreviation BM A := (M bloom A).

(** Both functions fold the hashes into the filter as they go. *)
Fixpoint insert_word (row hash : list Z) : BM (list Z * list Z) :=
  match hash with
  | [] => mret (row, [])
  | h :: hash' =>
      let h := h mod 2 ^ FILTER_SIZE in
      b ← idx row (Z.shiftr h 3);
      r ← insert_word (zset (Z.shiftr h 3) (u8 (Z.lor b (Z.shiftl 1 (Z.land h 7)))) row) hash';
      mret (r.1, h :: r.2)
  end.

Fixpoint in_dict (row hash : list Z) : BM (Z * list Z) :=
  match hash with
  | [] => mret (HIT_BF, [])
  | h :: hash' =>
      let h := h mod 2 ^ FILTER_SIZE in
      b ← idx row (Z.shiftr h 3);
      if Z.land b (Z.shiftl 1 (Z.land h 7)) =? 0 then mret (MISS_BF, h :: hash')
      else r ← in_dict row hash'; mret (r.1, h :: r.2)
  end.

Definition check_hot (hash : list Z) : BM (spec_float * list Z) :=
  mfold (Z.to_nat FILTER_NUMBER) 0 (f_zero, hash) (fun i x =>
    rows ← gets filter;
    row ← idx rows i;
    r ← in_dict row x.2;
    if r.1 =? MISS_BF then mret (x.1, r.2)
    else
      ws ← gets filter_weight;
      w ← idx ws i;
      mret (f_add x.1 w, r.2)).

(** The weights are computed in doubles. *)
Definition weight_of (j : Z) : spec_float :=
  f_of_d (d_sub (d_of_Z 2) (d_mul (d_of_Z j) (d_div (d_of_Z 2) (d_of_Z FILTER_NUMBER)))).

(** The weights follow the current filter. *)
Definition set_weights : BM unit :=
  mfor (Z.to_nat FILTER_NUMBER) 0 (fun j =>
    cur ← gets current_filter;
    ws ← gets filter_weight;
    let k := Z.rem (FILTER_NUMBER + cur - j) FILTER_NUMBER in
    _ ← idx ws k;
    modify (set_weight (zset k (weight_of j) ws))).

(** The filter that was reset longest ago is emptied. *)
Definition decay : BM unit :=
  cd ← gets current_decay_filter;
  (if cd =? -1 then modify (set_decay 0) else mret tt);;
  cd ← gets current_decay_filter;
  rows ← gets filter;
  _ ← idx rows cd;
  modify (set_filter (zset cd (ztab FILTER_SIZE_BYTES (fun _ => 0)) rows));;
  set_weights;;
  modify (set_decay (Z.rem (FILTER_NUMBER + cd + 1) FILTER_NUMBER)).

(** [do ... while]: the next filter that does not know the request. *)
Fixpoint next_miss (fuel : nat) (i : Z) (hash : list Z) : BM (Z * Z * list Z) :=
  match fuel with
  | O => mhang
  | S fuel' =>
      let i := i + 1 in
      cur ← gets current_filter;
      let next := u32 (Z.rem (cur + i) FILTER_NUMBER) in
      if FILTER_NUMBER - 1 <? i then mret (i, next, hash)
      else
        rows ← gets filter;
        row ← idx rows next;
        r ← in_dict row hash;
        if r.1 =? MISS_BF then mret (i, next, r.2) else next_miss fuel' i r.2
  end.

Definition insert_at (k : Z) (hash : list Z) : BM unit :=
  rows ← gets filter;
  row ← idx rows k;
  r ← insert_word row hash;
  modify (fun b => set_filter (zset k r.1 (filter b)) b).

Definition record_request (hash : list Z) : BM unit :=
  cur ← gets current_filter;
  rows ← gets filter;
  row ← idx rows cur;
  r ← in_dict row hash;
  if r.1 =? MISS_BF then insert_at cur r.2
  else
    x ← next_miss (Z.to_nat FILTER_NUMBER) 0 r.2;
    let '(i, next, hash) := x in
    if i <? FILTER_NUMBER then insert_at next hash else mret tt.

Definition request_hashes (ino off : Z) : list Z := get_hashes (int_to_char (u32 ino)) (int_to_char (u32 off)).

Definition Bloom_filter (ino off : Z) : BM Z :=
  w ← check_hot (request_hashes ino off);
  let max_weight := if SFltb f_zero w.1 then w.1 else f_zero in
  let bloom_temp := if SFleb (binary_normalize 24 128 3 0 false) max_weight then HOT else COLD in
  counter ← gets data_buffer_counter;
  (if counter mod DACAY =? 1 then decay else mret tt);;
  record_request (request_hashes ino off);;
  modify (fun b => set_current (current_filter b + 1) b);;
  cur ← gets current_filter;
  (if FILTER_NUMBER - 1 <? cur then modify (set_current 0) else mret tt);;
  mret bloom_temp.

(** A sequence of requests. *)
Fixpoint Bloom_filters (reqs : list (Z * Z)) : BM (list Z) :=
  match reqs with
  | [] => mret []
  | (ino, off) :: reqs' => t ← Bloom_filter ino off; ts ← Bloom_filters reqs'; mret (t :: ts)
  end.

(** ** What a filter knows *)

(** A filter is a set of places, [2 ^ FILTER_SIZE] of them. *)
Definition bit (row : list Z) (p : Z) : bool :=
  match zget row (p / 8) with Some b => Z.testbit b (p mod 8) | None => false end.
Definition places (hash : list Z) : list Z := map (fun h => h mod 2 ^ FILTER_SIZE) hash.
Definition knows (row hash : list Z) : bool := forallb (bit row) (places hash).
Definition bit_at (b : bloom) (k p : Z) : bool := bit (default [] (zget (filter b) k)) p.
Definition knows_at (b : bloom) (k : Z) (hash : list Z) : bool := knows (default [] (zget (filter b) k)) hash.

(** The number of filters that know a request. *)
Definition known_by (b : bloom) (hash : list Z) : Z := sumZ FILTER_NUMBER (fun k => b2z (knows_at b k hash)).

(** The first filter, from the current one on, that does not know it. *)
Definition turns (c : Z) : list Z := map (fun i => (c + i) mod FILTER_NUMBER) [0; 1; 2; 3].
Definition first_unknown (b : bloom) (hash : list Z) : option Z :=
  List.find (fun k => negb (knows_at b k hash)) (turns (current_filter b)).

Definition row_ok (row : list Z) : Prop := zlen row = FILTER_SIZE_BYTES /\ Forall (fun x => 0 <= x < 256) row.

Record bloom_wf (b : bloom) : Prop := {
  wf_filters : zlen (filter b) = FILTER_NUMBER;
  wf_rows : Forall row_ok (filter b);
  wf_weights : zlen (filter_weight b) = FILTER_NUMBER;
  wf_current : 0 <= current_filter b < FILTER_NUMBER;
  wf_decay : -1 <= current_decay_filter b < FILTER_NUMBER
}.

Lemma bloom_init_wf : bloom_wf bloom_init.
Proof.
  split; [done| |done|vm_compute; split; congruence..].
  repeat constructor; apply (bool_decide_unpack _); vm_compute; done.
Qed.

Lemma shiftr_3 h : Z.shiftr h 3 = h / 8.
Proof. by rewrite Z.shiftr_div_pow2. Qed.

Lemma land_7 h : Z.land h 7 = h mod 8.
Proof. change 7 with (Z.ones 3). by rewrite Z.land_ones. Qed.

Lemma land_bit b k : 0 <= k -> (Z.land b (Z.shiftl 1 k) =? 0) = negb (Z.testbit b k).
Proof.
  intros Hk. rewrite Z.shiftl_1_l. destruct (Z.testbit b k) eqn:E; simpl.
  - apply Z.eqb_neq. intros H0. apply (f_equal (fun z => Z.testbit z k)) in H0.
    rewrite Z.land_spec, E, Z.pow2_bits_true, Z.bits_0 in H0 by done. done.
  - apply Z.eqb_eq, Z.bits_inj'. intros n Hn. rewrite Z.land_spec, Z.bits_0, Z.pow2_bits_eqb by done.
    destruct (Z.eqb_spec k n) as [<-|]; [by rewrite E|apply andb_false_r].
Qed.

Lemma place_range h : 0 <= h mod 2 ^ FILTER_SIZE < 16384.
Proof. apply Z.mod_pos_bound. done. Qed.

Lemma place_mod h : (h mod 2 ^ FILTER_SIZE) mod 2 ^ FILTER_SIZE = h mod 2 ^ FILTER_SIZE.
Proof. by rewrite Zmod_mod. Qed.

Lemma row_get row p : row_ok row -> 0 <= p < 16384 -> exists x, zget row (p / 8) = Some x /\ 0 <= x < 256.
Proof.
  intros [Hl Hf] Hp. destruct (zget_is_Some row (p / 8)) as [x Hx].
  { rewrite Hl. unfold FILTER_SIZE_BYTES. split; [apply Z.div_pos; lia|apply Z.div_lt_upper_bound; lia]. }
  exists x. split; [done|]. exact (zget_Forall _ _ _ _ Hf Hx).
Qed.

(** Setting one bit of a filter. *)
Definition set_bit (row : list Z) (x h : Z) : list Z := zset (h / 8) (u8 (Z.lor x (Z.shiftl 1 (h mod 8)))) row.

Lemma set_bit_ok row x h : row_ok row -> row_ok (set_bit row x h).
Proof.
  intros [Hl Hf]. split; [unfold set_bit; by rewrite zlen_zset|].
  apply Forall_zset; [done|]. apply Z.mod_pos_bound. done.
Qed.

Lemma bit_set_bit row x h p : row_ok row -> 0 <= h < 16384 -> 0 <= p < 16384 -> zget row (h / 8) = Some x ->
  bit (set_bit row x h) p = bit row p || (p =? h).
Proof.
  intros Hr Hh Hp Hx. unfold bit, set_bit. rewrite zget_zset by exact (zget_Some_range _ _ _ Hx).
  pose proof (Z.div_mod p 8 ltac:(lia)). pose proof (Z.div_mod h 8 ltac:(lia)).
  pose proof (Z.mod_pos_bound p 8 ltac:(lia)). pose proof (Z.mod_pos_bound h 8 ltac:(lia)).
  destruct (Z.eqb_spec (h / 8) (p / 8)) as [E|E]; simpl.
  - rewrite <- E, Hx. unfold u8. rewrite Z.mod_pow2_bits_low, Z.lor_spec, Z.shiftl_1_l, Z.pow2_bits_eqb by lia. f_equal. lia.
  - replace (p =? h) with false by lia. by rewrite orb_false_r.
Qed.

(** ** The operations on one filter *)

Lemma places_cons h hash : places (h :: hash) = h mod 2 ^ FILTER_SIZE :: places hash.
Proof. done. Qed.

Lemma places_fold h hash hash' : places hash' = places hash ->
  places (h mod 2 ^ FILTER_SIZE :: hash') = places (h :: hash).
Proof. intros E. by rewrite !places_cons, place_mod, E. Qed.

Lemma in_dict_spec row hash b : row_ok row ->
  wp (in_dict row hash) (fun r b' => b' = b /\ r.1 = b2z (knows row hash) /\ places r.2 = places hash) b.
Proof.
  intros Hr. induction hash as [|h hash IH]; [done|]. simpl.
  set (p := h mod 2 ^ FILTER_SIZE). pose proof (place_range h) as Hp. fold p in Hp.
  destruct (row_get row p Hr Hp) as (x & Hx & _). rewrite shiftr_3, land_7.
  wp_step. apply (wp_idx _ _ x); [done|]. rewrite land_bit by (apply Z.mod_pos_bound; lia).
  unfold knows. rewrite places_cons. simpl. fold p. unfold bit at 1. rewrite Hx.
  destruct (Z.testbit x (p mod 8)); simpl.
  - wp_step. eapply wp_mono; [exact IH|]. intros r b' (-> & E1 & E2). wp_step.
    split; [done|]. split; [exact E1|by apply places_fold].
  - wp_step. split; [done|]. split; [done|by apply places_fold].
Qed.

Lemma insert_word_spec row hash b : row_ok row ->
  wp (insert_word row hash) (fun r b' => b' = b /\ row_ok r.1 /\
    forall p, 0 <= p < 16384 -> bit r.1 p = bit row p || existsb (Z.eqb p) (places hash)) b.
Proof.
  revert row. induction hash as [|h hash IH]; intros row Hr.
  { simpl. wp_step. split; [done|]. split; [done|]. intros p _. by rewrite orb_false_r. }
  simpl. pose proof (place_range h) as Hp.
  destruct (row_get row _ Hr Hp) as (x & Hx & _). rewrite shiftr_3, land_7.
  wp_step. apply (wp_idx _ _ x); [done|]. wp_step.
  eapply wp_mono; [apply IH, set_bit_ok, Hr|]. intros r b' (-> & Hok & Hb). wp_step.
  split; [done|]. split; [done|]. intros p Hp'. simpl. rewrite Hb by done.
  fold (set_bit row x (h mod 2 ^ FILTER_SIZE)). rewrite (bit_set_bit _ _ _ _ Hr Hp Hp' Hx). by rewrite orb_assoc.
Qed.

Lemma knows_ext row row' hash : (forall p, 0 <= p < 16384 -> bit row p = bit row' p) -> knows row hash = knows row' hash.
Proof.
  intros E. unfold knows. induction hash as [|h hash IH]; [done|].
  rewrite places_cons. simpl. rewrite IH, E; [done|]. apply place_range.
Qed.

Lemma knows_places row hash hash' : places hash' = places hash -> knows row hash' = knows row hash.
Proof. unfold knows. by intros ->. Qed.

(** ** The requests recorded *)

Lemma wf_row b k : bloom_wf b -> 0 <= k < FILTER_NUMBER ->
  exists row, zget (filter b) k = Some row /\ row_ok row /\ default [] (zget (filter b) k) = row.
Proof.
  intros Hb Hk. rewrite <- (wf_filters b Hb) in Hk. destruct (zget_is_Some _ _ Hk) as [row E].
  exists row. split; [done|]. split; [exact (zget_Forall _ _ _ _ (wf_rows b Hb) E)|by rewrite E].
Qed.

(** What recording a request changes. *)
Record recorded (hash : list Z) (b b' : bloom) : Prop := {
  rec_wf : bloom_wf b';
  rec_weight : filter_weight b' = filter_weight b;
  rec_current : current_filter b' = current_filter b;
  rec_decay : current_decay_filter b' = current_decay_filter b;
  rec_counter : data_buffer_counter b' = data_buffer_counter b;
  rec_bits : forall k p, 0 <= k < FILTER_NUMBER -> 0 <= p < 16384 ->
    bit_at b' k p = bit_at b k p || (bool_decide (first_unknown b hash = Some k) && existsb (Z.eqb p) (places hash))
}.

Lemma insert_at_spec b k hash hash' : bloom_wf b -> 0 <= k < FILTER_NUMBER -> first_unknown b hash = Some k ->
  places hash' = places hash -> wp (insert_at k hash') (fun _ b' => recorded hash b b') b.
Proof.
  intros Hb Hk Hf E. destruct (wf_row b k Hb Hk) as (row & Hg & Hr & Hd). unfold insert_at. wp_steps.
  apply (wp_idx _ _ row); [done|]. wp_steps. eapply wp_mono; [by apply insert_word_spec|].
  intros r b' (-> & Hok & Hbits). wp_step. rewrite E in Hbits. destruct Hb as [H1 H2 H3 H4 H5].
  split; try done.
  - split; try done; simpl; [by rewrite zlen_zset|by apply Forall_zset].
  - intros j p Hj Hp. unfold bit_at. simpl. rewrite zget_zset by lia. rewrite Hf.
    destruct (Z.eqb_spec k j) as [<-|Hne]; simpl.
    + rewrite Hbits, Hd by done. by rewrite bool_decide_eq_true_2.
    + rewrite bool_decide_eq_false_2 by congruence. by rewrite orb_false_r.
Qed.

Lemma not_recorded b hash : bloom_wf b -> first_unknown b hash = None -> recorded hash b b.
Proof. intros Hb Hf. split; try done. intros k p _ _. rewrite Hf. by rewrite bool_decide_eq_false_2, orb_false_r. Qed.

Lemma in_dict_at b k hash hash' (Q : Z * list Z -> bloom -> Prop) : bloom_wf b -> 0 <= k < FILTER_NUMBER ->
  places hash' = places hash ->
  (forall h, places h = places hash -> Q (b2z (knows_at b k hash), h) b) ->
  wp (row ← idx (filter b) k; in_dict row hash') Q b.
Proof.
  intros Hb Hk E HQ. destruct (wf_row b k Hb Hk) as (row & Hg & Hr & Hd). wp_step.
  apply (wp_idx _ _ row); [done|]. eapply wp_mono; [by apply in_dict_spec|].
  intros [v h] b' (-> & Ev & Eh). simpl in *. rewrite Ev, (knows_places _ _ _ E), <- Hd. apply HQ. congruence.
Qed.

Lemma turn_range c i : 0 <= (c + i) mod FILTER_NUMBER < FILTER_NUMBER.
Proof. apply Z.mod_pos_bound. done. Qed.

Lemma next_turn b i : bloom_wf b -> 0 <= i -> u32 (Z.rem (current_filter b + i) FILTER_NUMBER) = (current_filter b + i) mod FILTER_NUMBER.
Proof.
  intros Hb Hi. pose proof (wf_current b Hb). rewrite Z.rem_mod_nonneg by (unfold FILTER_NUMBER in *; lia).
  pose proof (turn_range (current_filter b) i). unfold FILTER_NUMBER in *. apply u32_small. lia.
Qed.

Lemma next_miss_spec b hash : bloom_wf b -> forall fuel i hash',
  0 <= i -> Z.of_nat fuel = FILTER_NUMBER - i -> (0 < fuel)%nat -> places hash' = places hash ->
  wp (next_miss fuel i hash') (fun x b' => b' = b /\ places x.2 = places hash /\
    match List.find (fun k => negb (knows_at b k hash))
            (map (fun j => (current_filter b + j) mod FILTER_NUMBER) (seqZ (i + 1) (FILTER_NUMBER - 1 - i))) with
    | Some k => x.1.1 < FILTER_NUMBER /\ x.1.2 = k
    | None => x.1.1 = FILTER_NUMBER
    end) b.
Proof.
  intros Hb. induction fuel as [|fuel IH]; intros i hash' Hi Hf Hpos E; [lia|]. simpl.
  apply wp_bind, wp_gets. rewrite next_turn by (done || lia).
  destruct (Z.ltb_spec (FILTER_NUMBER - 1) (i + 1)) as [Hlt|Hge].
  { wp_step. split; [done|]. split; [done|]. simpl.
    replace (FILTER_NUMBER - 1 - i) with 0 by (unfold FILTER_NUMBER in *; lia). simpl. unfold FILTER_NUMBER in *. lia. }
  wp_steps. apply wp_bind_inv, wp_bind_assoc, wp_bind, (in_dict_at b _ hash); [done|apply turn_range|done|].
  intros h Eh. simpl. rewrite seqZ_cons by lia. simpl.
  destruct (knows_at b ((current_filter b + (i + 1)) mod FILTER_NUMBER) hash); simpl.
  - eapply wp_mono; [apply IH; (done || unfold FILTER_NUMBER in *; lia)|]. intros x b' (-> & Ex & Hx).
    split; [done|]. split; [done|].
    replace (Z.succ (i + 1)) with (i + 1 + 1) by lia.
    by replace (Z.pred (FILTER_NUMBER - 1 - i)) with (FILTER_NUMBER - 1 - (i + 1)) by lia.
  - wp_step. split; [done|]. split; [done|]. simpl. split; [lia|done].
Qed.

Lemma first_unknown_range b hash k : first_unknown b hash = Some k -> 0 <= k < FILTER_NUMBER.
Proof. intros [Hin _]%find_some. unfold turns in Hin. apply in_map_iff in Hin as (i & <- & _). apply turn_range. Qed.

Lemma record_request_spec b hash : bloom_wf b -> wp (record_request hash) (fun _ b' => recorded hash b b') b.
Proof.
  intros Hb. pose proof (wf_current b Hb) as Hc. unfold record_request. wp_steps.
  apply wp_bind_inv, wp_bind_assoc, wp_bind, (in_dict_at b _ hash); [done..|]. intros h Eh.
  assert (Hu : first_unknown b hash = if knows_at b (current_filter b) hash
    then List.find (fun k => negb (knows_at b k hash)) (map (fun j => (current_filter b + j) mod FILTER_NUMBER) (seqZ (0 + 1) (FILTER_NUMBER - 1 - 0)))
    else Some (current_filter b)).
  { unfold first_unknown, turns. simpl. rewrite Z.add_0_r, Z.mod_small by done. by destruct (knows_at _ _ _). }
  destruct (knows_at b (current_filter b) hash); cbn -[next_miss seqZ]; [|by apply insert_at_spec].
  change (Pos.to_nat 4) with (Z.to_nat FILTER_NUMBER).
  wp_step. eapply wp_mono; [exact (next_miss_spec b hash Hb (Z.to_nat FILTER_NUMBER) 0 h ltac:(done) eq_refl ltac:(vm_compute; lia) Eh)|].
  intros [[i next] h'] b' (-> & Eh' & Hm). rewrite <- Hu in Hm. simpl in *.
  destruct (first_unknown b hash) as [k|] eqn:Hk.
  - destruct Hm as [Hi ->]. destruct (Z.ltb_spec i FILTER_NUMBER); [|lia].
    apply insert_at_spec; [done|exact (first_unknown_range _ _ _ Hk)|done..].
  - rewrite Hm. simpl. wp_step. by apply not_recorded.
Qed.

(** What was known stays known, and the request is known in one filter more. *)
Lemma recorded_knows hash b b' k key : recorded hash b b' -> 0 <= k < FILTER_NUMBER ->
  knows_at b k key = true -> knows_at b' k key = true.
Proof.
  intros Hr Hk. unfold knows_at, knows. induction key as [|h key IH]; [done|]. rewrite places_cons. simpl.
  intros [Hb Hrest]%andb_prop. apply andb_true_intro. split; [|by apply IH].
  pose proof (rec_bits _ _ _ Hr k _ Hk (place_range h)) as E. unfold bit_at in E. by rewrite E, Hb.
Qed.

Lemma recorded_self hash b b' k : recorded hash b b' -> 0 <= k < FILTER_NUMBER ->
  knows_at b' k hash = knows_at b k hash || bool_decide (first_unknown b hash = Some k).
Proof.
  intros Hr Hk. pose proof (fun p => rec_bits _ _ _ Hr k p Hk) as E. unfold bit_at in E. unfold knows_at.
  case_bool_decide; simpl in E.
  - rewrite orb_true_r. apply forallb_forall. intros p Hp. pose proof Hp as Hp'.
    unfold places in Hp. apply in_map_iff in Hp as (h & Ep & _). subst p. rewrite E by apply place_range.
    apply orb_true_intro. right. apply existsb_exists. eexists. split; [exact Hp'|apply Z.eqb_refl].
  - rewrite orb_false_r. apply knows_ext. intros p Hp. rewrite E by done. apply orb_false_r.
Qed.

Lemma turns_cover c k : 0 <= c < FILTER_NUMBER -> 0 <= k < FILTER_NUMBER -> In k (turns c).
Proof.
  intros Hc Hk. apply in_map_iff. exists ((k - c) mod FILTER_NUMBER). unfold FILTER_NUMBER in *. split.
  - rewrite Zplus_mod_idemp_r, Zplus_minus. by apply Z.mod_small.
  - pose proof (Z.mod_pos_bound (k - c) 4 ltac:(lia)). simpl. lia.
Qed.

Lemma known_by_le b hash : known_by b hash <= FILTER_NUMBER.
Proof.
  unfold known_by. etransitivity; [apply (sumZ_le _ _ (fun _ => 1))|by rewrite sumZ_const].
  intros i _. by destruct (knows_at b i hash).
Qed.

Lemma recorded_count hash b b' : bloom_wf b -> recorded hash b b' ->
  known_by b' hash = Z.min FILTER_NUMBER (known_by b hash + 1).
Proof.
  intros Hb Hr. pose proof (known_by_le b' hash) as Hle. unfold known_by in *.
  destruct (first_unknown b hash) as [k|] eqn:Hf.
  - pose proof (first_unknown_range _ _ _ Hf) as Hk. pose proof (find_some _ _ Hf) as [_ Hn%negb_true_iff].
    assert (Hs : sumZ FILTER_NUMBER (fun k => b2z (knows_at b' k hash)) =
      sumZ FILTER_NUMBER (fun k => b2z (knows_at b k hash)) - b2z (knows_at b k hash) + b2z (knows_at b' k hash)).
    { apply (sumZ_upd _ (fun k => b2z (knows_at b k hash)) (fun k => b2z (knows_at b' k hash))); [done|].
      intros i Hi Hne. rewrite (recorded_self _ _ _ i Hr Hi), Hf, bool_decide_eq_false_2 by congruence. by rewrite orb_false_r. }
    rewrite (recorded_self _ _ _ k Hr Hk), Hf, Hn, bool_decide_eq_true_2 in Hs by done. simpl in Hs. lia.
  - assert (Hall : forall k, 0 <= k < FILTER_NUMBER -> knows_at b k hash = true).
    { intros k Hk. apply negb_false_iff. apply (find_none _ _ Hf), turns_cover, Hk. by apply wf_current. }
    rewrite (sumZ_ext _ _ (fun _ => 1)), (sumZ_ext _ (fun k => b2z (knows_at b k hash)) (fun _ => 1)), sumZ_const; [done..| |].
    + intros k Hk. by rewrite Hall.
    + intros k Hk. by rewrite (recorded_self _ _ _ k Hr Hk), Hall.
Qed.

(** ** The weight of a request *)

Definition weight_sum (b : bloom) (hash : list Z) (n : Z) : spec_float :=
  foldl (fun acc k => if knows_at b k hash then f_add acc (default f_zero (zget (filter_weight b) k)) else acc) f_zero (seqZ 0 n).

Definition classify (w : spec_float) : Z :=
  let max_weight := if SFltb f_zero w then w else f_zero in
  if SFleb (binary_normalize 24 128 3 0 false) max_weight then HOT else COLD.

Lemma check_hot_spec b hash : bloom_wf b ->
  wp (check_hot hash) (fun w b' => b' = b /\ w.1 = weight_sum b hash FILTER_NUMBER) b.
Proof.
  intros Hb. unfold check_hot. eapply wp_mono.
  - apply (wp_mfold (fun i (x : spec_float * list Z) b' => 0 <= i /\ b' = b /\ places x.2 = places hash /\ x.1 = weight_sum b hash i));
      [done|].
    intros i [acc h] b' Hi (Hi0 & -> & Eh & Ea). simpl in Eh, Ea.
    change (0 + Z.of_nat (Z.to_nat FILTER_NUMBER)) with FILTER_NUMBER in Hi. wp_steps.
    apply wp_bind_inv, wp_bind_assoc, wp_bind, (in_dict_at b _ hash); [done|lia|done|].
    intros h' Eh'. assert (Hs : seqZ 0 (i + 1) = seqZ 0 i ++ [i]).
    { replace i with (Z.of_nat (Z.to_nat i)) at 1 2 3 by lia.
      replace (Z.of_nat (Z.to_nat i) + 1) with (Z.of_nat (S (Z.to_nat i))) by lia. by rewrite seqZ_S. }
    destruct (knows_at b i hash) eqn:Hk; simpl.
    + destruct (zget_is_Some (filter_weight b) i) as [w Hw]; [rewrite (wf_weights b Hb); lia|].
      wp_steps. apply (wp_idx _ _ w); [done|]. wp_step. split; [lia|]. split; [done|]. split; [done|].
      unfold weight_sum. rewrite Hs, foldl_app. simpl. fold (weight_sum b hash i). by rewrite Hk, Hw, Ea.
    + wp_step. split; [lia|]. split; [done|]. split; [done|].
      unfold weight_sum. rewrite Hs, foldl_app. simpl. fold (weight_sum b hash i). by rewrite Hk.
  - intros x b' (_ & -> & _ & Ex). done.
Qed.

(** ** Decay *)

(** The weights a decay sets while [c] is the current filter: 2, 1.5, 1 and 0.5
    from the current filter back. *)
Definition weights_at (c : Z) : list spec_float := ztab FILTER_NUMBER (fun k => weight_of ((c - k) mod FILTER_NUMBER)).

(** The filter a decay empties. *)
Definition victim_filter (b : bloom) : Z := Z.max 0 (current_decay_filter b).

Record decayed (b b' : bloom) : Prop := {
  dec_wf : bloom_wf b';
  dec_weight : filter_weight b' = weights_at (current_filter b);
  dec_current : current_filter b' = current_filter b;
  dec_next : current_decay_filter b' = (victim_filter b + 1) mod FILTER_NUMBER;
  dec_counter : data_buffer_counter b' = data_buffer_counter b;
  dec_bits : forall k p, 0 <= k < FILTER_NUMBER -> 0 <= p < 16384 ->
    bit_at b' k p = (if k =? victim_filter b then false else bit_at b k p)
}.

Lemma weights_loop b : bloom_wf b ->
  wp set_weights (fun _ b' => b' = set_weight (weights_at (current_filter b)) b) b.
Proof.
  intros Hb. pose proof (wf_current b Hb) as Hc. unfold set_weights. eapply wp_mono.
  - apply (wp_mfor (fun j b' => exists ws, b' = set_weight ws b /\ zlen ws = FILTER_NUMBER /\
      forall i, 0 <= i < j -> zget ws ((current_filter b - i) mod FILTER_NUMBER) = Some (weight_of i))).
    { exists (filter_weight b). split; [by destruct b|]. split; [by apply wf_weights|]. lia. }
    intros j b' Hj (ws & -> & Hl & Hw). wp_steps. simpl.
    change (0 + Z.of_nat (Z.to_nat FILTER_NUMBER)) with 4 in Hj. unfold FILTER_NUMBER in *.
    replace (Z.rem (4 + current_filter b - j) 4) with ((current_filter b - j) mod 4) by (Z.to_euclidean_division_equations; lia).
    pose proof (Z.mod_pos_bound (current_filter b - j) 4 ltac:(lia)).
    destruct (zget_is_Some ws ((current_filter b - j) mod 4)) as [w0 Hw0]; [lia|].
    apply (wp_idx _ _ w0); [done|]. wp_step. eexists. split; [done|]. split; [by rewrite zlen_zset|].
    intros i Hi. rewrite zget_zset by lia. destruct (Z.eqb_spec ((current_filter b - j) mod 4) ((current_filter b - i) mod 4)) as [E|E].
    + assert (i = j) as -> by (Z.to_euclidean_division_equations; lia). done.
    + apply Hw. assert (i <> j) by congruence. lia.
  - intros [] b' (ws & -> & Hl & Hw). f_equal. apply zget_ext; [done|]. intros k Hk. rewrite Hl in Hk.
    unfold weights_at. rewrite zget_ztab by done. rewrite <- Hw by (unfold FILTER_NUMBER; apply Z.mod_pos_bound; lia).
    f_equal. unfold FILTER_NUMBER in *. Z.to_euclidean_division_equations; lia.
Qed.

Lemma zeros_row_ok : row_ok (ztab FILTER_SIZE_BYTES (fun _ => 0)).
Proof.
  split; [by rewrite zlen_ztab|]. apply Forall_zget. intros i x Hx. pose proof (zget_Some_range _ _ _ Hx) as Hi.
  rewrite zlen_ztab in Hi by done. rewrite zget_ztab in Hx by done. injection Hx as <-. lia.
Qed.

Lemma zeros_bit p : 0 <= p < 16384 -> bit (ztab FILTER_SIZE_BYTES (fun _ => 0)) p = false.
Proof.
  intros Hp. unfold bit. rewrite zget_ztab; [apply Z.testbit_0_l|].
  unfold FILTER_SIZE_BYTES. split; [apply Z.div_pos; lia|apply Z.div_lt_upper_bound; lia].
Qed.

Lemma decay_spec b : bloom_wf b -> wp decay (fun _ b' => decayed b b') b.
Proof.
  intros Hb. pose proof (wf_decay b Hb) as Hd. unfold decay. apply wp_bind, wp_gets, wp_bind.
  apply (wp_mono _ (fun _ b' => b' = set_decay (victim_filter b) b)).
  { unfold victim_filter. destruct (Z.eqb_spec (current_decay_filter b) (-1)) as [E|E].
    - apply wp_modify. by rewrite E.
    - apply wp_ret. rewrite Z.max_r by lia. by destruct b. }
  intros _ b1 ->. wp_steps. simpl.
  assert (Hv : 0 <= victim_filter b < FILTER_NUMBER) by (unfold victim_filter, FILTER_NUMBER in *; lia).
  destruct (wf_row b _ Hb Hv) as (row & Hg & _ & _). apply (wp_idx _ _ row); [done|]. wp_steps.
  set (b2 := set_filter _ _).
  assert (Hb2 : bloom_wf b2).
  { destruct Hb as [H1 H2 H3 H4 H5].
    split; simpl; [by rewrite zlen_zset|apply Forall_zset; [done|apply zeros_row_ok]|done|done|lia]. }
  eapply wp_mono; [by apply weights_loop|]. intros _ b3 ->. wp_step.
  assert (En : Z.rem (FILTER_NUMBER + victim_filter b + 1) FILTER_NUMBER = (victim_filter b + 1) mod FILTER_NUMBER).
  { unfold FILTER_NUMBER in *. Z.to_euclidean_division_equations; lia. }
  rewrite En. split; try done.
  - destruct Hb2 as [H1 H2 H3 H4 H5]. pose proof (turn_range (victim_filter b) 1). split; try done. simpl. lia.
  - intros k p Hk Hp. unfold bit_at. simpl. rewrite zget_zset by (rewrite (wf_filters b Hb); lia). rewrite (Z.eqb_sym k).
    destruct (Z.eqb_spec (victim_filter b) k); [by apply zeros_bit|done].
Qed.

(** ** A request *)

(** The parts of a call: the answer, the decay when it is time, the record, the
    turn of the next filter. *)
Record answered (ino off : Z) (b : bloom) (t : Z) (b' : bloom) : Prop := {
  ans_temp : t = classify (weight_sum b (request_hashes ino off) FILTER_NUMBER);
  ans_state : exists b1 b2,
    (if data_buffer_counter b mod DACAY =? 1 then decayed b b1 else b1 = b) /\
    recorded (request_hashes ino off) b1 b2 /\
    b' = set_current ((current_filter b + 1) mod FILTER_NUMBER) b2
}.

Lemma Bloom_filter_spec b ino off : bloom_wf b -> wp (Bloom_filter ino off) (fun t b' => answered ino off b t b') b.
Proof.
  intros Hb. unfold Bloom_filter. wp_step. eapply wp_mono; [by apply check_hot_spec|].
  intros [w h] b0 (-> & Ew). simpl in Ew. apply wp_bind, wp_gets, wp_bind.
  apply (wp_mono _ (fun _ b1 => (if data_buffer_counter b mod DACAY =? 1 then decayed b b1 else b1 = b) /\
    bloom_wf b1 /\ current_filter b1 = current_filter b)).
  { destruct (data_buffer_counter b mod DACAY =? 1); [|by apply wp_ret].
    eapply wp_mono; [by apply decay_spec|]. intros [] b1 Hd. split; [done|]. by destruct Hd. }
  intros _ b1 (Hd & Hb1 & Hc1). wp_step. eapply wp_mono; [by apply record_request_spec|].
  intros [] b2 Hr. pose proof (rec_current _ _ _ Hr) as Hc2. pose proof (wf_current b Hb) as Hc. wp_steps.
  apply (wp_mono _ (fun _ b3 => b3 = set_current ((current_filter b + 1) mod FILTER_NUMBER) b2)).
  { simpl. rewrite Hc2, Hc1. destruct (Z.ltb_spec (FILTER_NUMBER - 1) (current_filter b + 1)).
    - apply wp_modify. replace (current_filter b + 1) with FILTER_NUMBER by lia. done.
    - apply wp_ret. rewrite Z.mod_small by lia. done. }
  intros _ b3 ->. wp_step. split; [by rewrite <- Ew|]. by exists b1, b2.
Qed.

Lemma set_current_wf c b : bloom_wf b -> 0 <= c < FILTER_NUMBER -> bloom_wf (set_current c b).
Proof. intros [H1 H2 H3 H4 H5] Hc. by split. Qed.

Lemma answered_wf ino off b t b' : bloom_wf b -> answered ino off b t b' -> bloom_wf b'.
Proof. intros Hb [_ (b1 & b2 & _ & Hr & ->)]. apply set_current_wf; [by destruct Hr|apply turn_range]. Qed.

Lemma known_by_turn c b hash : known_by (set_current c b) hash = known_by b hash.
Proof. done. Qed.

Lemma knows_at_turn c b k hash : knows_at (set_current c b) k hash = knows_at b k hash.
Proof. done. Qed.

Lemma classify_weights (f : Z -> bool) c : 0 <= c < FILTER_NUMBER ->
  classify (foldl (fun acc k => if f k then f_add acc (default f_zero (zget (weights_at c) k)) else acc) f_zero [0; 1; 2; 3]) =
  if 6 <=? sumZ FILTER_NUMBER (fun k => b2z (f k) * (4 - (c - k) mod FILTER_NUMBER)) then HOT else COLD.
Proof.
  intros Hc. assert (c = 0 \/ c = 1 \/ c = 2 \/ c = 3) as Hcs by (unfold FILTER_NUMBER in Hc; lia).
  change (sumZ FILTER_NUMBER ?g) with (0 + g 0 + g 1 + g 2 + g 3). cbv beta. simpl foldl.
  destruct (f 0), (f 1), (f 2), (f 3), Hcs as [->|[->|[->| ->]]]; vm_compute; reflexivity.
Qed.

#[local] Opaque request_hashes.

(** ** Properties *)

(** C32: A call between decays loses nothing: every request a filter knew is
    still known by it, the request of the call is known by one filter more
    until all four know it, the next filter takes its turn, and the weights,
    the decay position and the counter are as before. *)
Theorem request_recorded b ino off :
  bloom_wf b -> data_buffer_counter b mod DACAY <> 1 ->
  wp (Bloom_filter ino off) (fun _ b' =>
    bloom_wf b' /\
    (forall k i o, 0 <= k < FILTER_NUMBER -> knows_at b k (request_hashes i o) = true ->
       knows_at b' k (request_hashes i o) = true) /\
    known_by b' (request_hashes ino off) = Z.min FILTER_NUMBER (known_by b (request_hashes ino off) + 1) /\
    current_filter b' = (current_filter b + 1) mod FILTER_NUMBER /\
    filter_weight b' = filter_weight b /\
    current_decay_filter b' = current_decay_filter b /\
    data_buffer_counter b' = data_buffer_counter b) b.
Proof.
  intros Hb Hn. eapply wp_mono; [by apply Bloom_filter_spec|]. intros t b' Ha.
  split; [by apply (answered_wf _ _ _ _ _ Hb Ha)|]. destruct Ha as [_ (b1 & b2 & Hd & Hr & ->)].
  rewrite (proj2 (Z.eqb_neq _ _) Hn) in Hd. subst b1.
  split; [intros k i o; rewrite knows_at_turn; by apply (recorded_knows _ _ _ _ _ Hr)|].
  split; [rewrite known_by_turn; by apply recorded_count|]. by destruct Hr.
Qed.

(** From the values the device starts with, no sequence of requests is
    ever called hot, however often a request repeats: only a decay sets the
    weights, and the counter it waits for never moves. *)
Lemma never_hot reqs : wp (Bloom_filters reqs) (fun ts _ => ts = replicate (length reqs) COLD) bloom_init.
Proof.
  assert (H : forall b, bloom_wf b -> filter_weight b = filter_weight bloom_init -> data_buffer_counter b = 0 ->
    wp (Bloom_filters reqs) (fun ts _ => ts = replicate (length reqs) COLD) b).
  { induction reqs as [|[ino off] reqs IH]; intros b Hb Hw Hc; [done|]. simpl. wp_step.
    eapply wp_mono; [by apply Bloom_filter_spec|]. intros t b' Ha. pose proof (answered_wf _ _ _ _ _ Hb Ha) as Hb'.
    destruct Ha as [-> (b1 & b2 & Hd & Hr & ->)]. rewrite Hc in Hd. simpl in Hd. subst b1.
    wp_step. eapply wp_mono; [apply IH; [done|..]|].
    - simpl. by rewrite (rec_weight _ _ _ Hr).
    - simpl. by rewrite (rec_counter _ _ _ Hr).
    - intros ts b3 ->. wp_step. f_equal. unfold weight_sum. rewrite Hw. simpl. by repeat case_match. }
  apply H; [apply bloom_init_wf|done..].
Qed.

(** Once a decay has set the weights while [c] was the current filter, the
    answer is hot exactly when the filters that know the request weigh three
    together, the filter [d] turns behind [c] weighing [(4 - d) / 2]. *)
Lemma hot_by_weight b ino off c :
  bloom_wf b -> 0 <= c < FILTER_NUMBER -> filter_weight b = weights_at c ->
  wp (Bloom_filter ino off) (fun t _ =>
    t = if 6 <=? sumZ FILTER_NUMBER (fun k => b2z (knows_at b k (request_hashes ino off)) * (4 - (c - k) mod FILTER_NUMBER))
        then HOT else COLD) b.
Proof.
  intros Hb Hc Hw. eapply wp_mono; [by apply Bloom_filter_spec|]. intros t b' [-> _].
  unfold weight_sum. rewrite Hw. exact (classify_weights (fun k => knows_at b k (request_hashes ino off)) c Hc).
Qed.

(** A call at a decay: the victim forgets all it knew and knows at most the
    request of the call, the others forget nothing, and the weights follow the
    current filter. *)
Lemma decay_forgets b ino off :
  bloom_wf b -> data_buffer_counter b mod DACAY = 1 ->
  wp (Bloom_filter ino off) (fun _ b' =>
    filter_weight b' = weights_at (current_filter b) /\
    current_decay_filter b' = (victim_filter b + 1) mod FILTER_NUMBER /\
    forall k p, 0 <= k < FILTER_NUMBER -> 0 <= p < 16384 ->
      if k =? victim_filter b
      then bit_at b' k p = true -> In p (places (request_hashes ino off))
      else bit_at b k p = true -> bit_at b' k p = true) b.
Proof.
  intros Hb Hn. eapply wp_mono; [by apply Bloom_filter_spec|]. intros t b' [_ (b1 & b2 & Hd & Hr & ->)].
  rewrite Hn in Hd. simpl in Hd. destruct Hr as [_ E1 _ E2 _ Eb], Hd as [_ F1 _ F2 _ Fb]. simpl.
  split; [congruence|]. split; [congruence|]. intros k p Hk Hp. specialize (Eb k p Hk Hp).
  rewrite (Fb k p Hk Hp) in Eb. change (bit_at (set_current _ b2) k p) with (bit_at b2 k p). rewrite Eb.
  destruct (k =? victim_filter b); [|by intros ->].
  simpl. intros [_ (q & Hq & ->%Z.eqb_eq)%existsb_exists]%andb_prop. done.
Qed.

Lemma Bloom_filters_wf reqs b : bloom_wf b -> wp (Bloom_filters reqs) (fun _ b' => bloom_wf b') b.
Proof.
  revert b. induction reqs as [|[ino off] reqs IH]; intros b Hb; [done|]. simpl. wp_step.
  eapply wp_mono; [by apply Bloom_filter_spec|]. intros t b' Ha. wp_step.
  eapply wp_mono; [apply IH, (answered_wf _ _ _ _ _ Hb Ha)|]. intros ts b'' Hb''. by wp_step.
Qed.

(** ** Witnesses *)

(** The same request three times, then the weights of a decay. *)
Definition final (reqs : list (Z * Z)) (b : bloom) : bloom :=
  match Bloom_filters reqs b with Ok _ b' => b' | _ => b end.
Definition after_three : bloom := final [(5, 7); (5, 7); (5, 7)] bloom_init.
Definition warm : bloom := set_weight (weights_at 2) after_three.

Lemma final_wf reqs b : bloom_wf b -> bloom_wf (final reqs b).
Proof.
  intros Hb. pose proof (Bloom_filters_wf reqs b Hb) as H. unfold wp in H. unfold final.
  by destruct (Bloom_filters reqs b).
Qed.

Lemma after_three_wf : bloom_wf after_three.
Proof. apply final_wf, bloom_init_wf. Qed.

Lemma warm_wf : bloom_wf warm.
Proof. destruct after_three_wf as [H1 H2 H3 H4 H5]. by split. Qed.

Lemma request_recorded_witness :
  wp (Bloom_filter 5 7) (fun _ b' => bloom_wf b' /\ known_by b' (request_hashes 5 7) = 4) after_three.
Proof.
  refine (wp_mono _ _ _ _ (request_recorded after_three 5 7 after_three_wf _) _); [by vm_compute|].
  intros t b' (Hb & _ & -> & _). split; [done|]. by vm_compute.
Defined.

Lemma hot_by_weight_witness : wp (Bloom_filter 5 7) (fun t _ => t = HOT) warm /\ wp (Bloom_filter 6 7) (fun t _ => t = COLD) warm.
Proof.
  split.
  - refine (wp_mono _ _ _ _ (hot_by_weight warm 5 7 2 warm_wf _ eq_refl) _); [by vm_compute|].
    intros t b' ->. by vm_compute.
  - refine (wp_mono _ _ _ _ (hot_by_weight warm 6 7 2 warm_wf _ eq_refl) _); [by vm_compute|].
    intros t b' ->. by vm_compute.
Defined.
