(* ===== verification/State.v ===== *)
(** * The state of the emulated device

    The structures of ftl_inverse_mapping_manager.h, ftl_perf_manager.h and
    vssim_config_manager.h that the FTL works on, the monad of its operations
    and the statistics counters.

    - A linked list owned by one structure ([inverse_node], the chains of
      empty and victim blocks, the queue of [io_request]s) is the list of its
      nodes from head to tail.
    - The scalar counters of [struct ssdstate] are one function [ctrs] from
      counter names to values; a store into an unsigned counter wraps at its
      width.
    - Reading a clock is the [k]-th read of an environment ([Clock]); the state
      counts the reads.
    - [nand_log] is the trace of the page reads, page programs and block erases
      the FTL has issued through ssd_io_manager.c, newest first; no operation
      reads it. *)

From Stdlib Require Import ZArith Lia List SpecFloat.
From stdpp Require Import base tactics numbers list functions.
From S2P Require Import Prelude Config.

Open Scope Z_scope.

(** ** Structures *)

Record NVRAM_OOB_seg : Type := mk_NVRAM_OOB_seg {
  alloc_seg : Z;
  free_entry : Z;
  invalid_entry : Z
}.

Record block_state_entry : Type := mk_block_state_entry {
  valid_page_nb : Z;
  btype : Z;
  erase_count : Z;
  valid_array : list Z
}.

Record empty_block_entry : Type := mk_empty_block_entry {
  phy_flash_nb : Z;
  phy_block_nb : Z;
  curr_phy_page_nb : Z
}.

(** [empty_head] is the chain from [empty_head] to [tail]; [head] is the block
    being written. *)
Record empty_block_root : Type := mk_empty_block_root {
  empty_head : list empty_block_entry;
  head : option empty_block_entry;
  empty_block_nb : Z
}.

Record victim_block_entry : Type := mk_victim_block_entry {
  v_phy_flash_nb : Z;
  v_phy_block_nb : Z
}.

Record victim_block_root : Type := mk_victim_block_root {
  v_list : list victim_block_entry;
  victim_block_nb : Z
}.

Record inverse_mapping_entry : Type := mk_inverse_mapping_entry {
  fingerprint : Z;
  lpn_cnt : Z;
  i_list : list Z
}.

Record sb_debug : Type := mk_sb_debug {
  sb_plane_nb : Z;
  sb_block_nb : Z
}.

Record io_request : Type := mk_io_request {
  request_nb : Z;
  request_type : Z;
  request_size : Z;
  start_count : Z;
  end_count : Z;
  start_time : list Z;
  end_time : list Z
}.

Record nand_io_info : Type := mk_nand_io_info {
  n_offset : Z;
  n_type : Z;
  n_io_page_nb : Z;
  n_io_seq_nb : Z
}.

Record lpn_info : Type := mk_lpn_info {
  tx_id : Z;
  flag : Z;
  h_lpn : Z
}.

Record request_meta : Type := mk_request_meta {
  req_length : Z;
  req_sector_nb : Z;
  lpns_info : list lpn_info
}.

(** The commands the FTL issues to the flash chips. *)
Inductive nand_cmd : Type :=
| NandRead (flash block page : Z)
| NandProgram (io_type flash block page : Z)
| NandErase (flash block : Z).

(** ** Counters *)

Inductive ctr : Type :=
| nb_total_reads | nb_blocked_reads | nb_blocked_writes | nb_total_writes
| nb_total_wr_sz | nb_total_rd_sz | in_warmup_stage | fail_cnt | gc_count
| stacking_gc_count | max_valid_array | mygc_cnt | mycopy_page_nb | time_gc | time_svb
| time_cp | time_up | io_alloc_overhead | stat_type | stat_time | stat_temp
| stat_total_read_count | stat_total_write_count | stat_host_write_count
| stat_gc_count | stat_erase_count | stat_gc_write_count | stat_remap_cnt
| stat_commit_cnt | stat_reduced_write | stat_ppn_valid | stat_ppn_n21
| stat_ppn_invalid | stat_ppn_free | stat_lpn_valid | stat_use_remap_fail
| stat_gc_remap_fail | stat_total_alloc_seg | stat_total_OOB_entry
| stat_total_invalid_entry | stat_total_seg_bytes | stat_max_alloc_seg
| stat_min_alloc_seg | stat_avg_write_delay | stat_write_req_print
| stat_write_delay_print | stat_min_write_delay | stat_max_write_delay
| stat_write_size_print | stat_avg_req_size | stat_read_size_print
| stat_avg_GCRNVRAM_delay | stat_GCRNVRAM_print | stat_GCRNVRAM_delay_print
| stat_avg_NVRAMGC_delay | stat_NVRAMGC_print | stat_NVRAMGC_delay_print
| io_request_nb | io_request_seq_nb.

#[global] Instance ctr_eq_dec : EqDecision ctr.
Proof. solve_decision. Defined.

Definition ctr_wrap (c : ctr) (v : Z) : Z :=
  match c with
  | stat_type => u8 v
  | stat_total_read_count | stat_total_write_count | stat_host_write_count
  | stat_gc_count | stat_erase_count | stat_gc_write_count | stat_remap_cnt
  | stat_commit_cnt | stat_reduced_write | stat_use_remap_fail | stat_gc_remap_fail
  | stat_max_alloc_seg | stat_min_alloc_seg | stat_write_req_print
  | stat_GCRNVRAM_print | stat_NVRAMGC_print | io_request_nb | io_request_seq_nb => u32 v
  | stat_time | stat_temp | stat_ppn_valid | stat_ppn_n21 | stat_ppn_invalid
  | stat_ppn_free | stat_lpn_valid | stat_total_alloc_seg | stat_total_OOB_entry
  | stat_total_invalid_entry | stat_total_seg_bytes | stat_avg_write_delay
  | stat_write_delay_print | stat_min_write_delay | stat_max_write_delay
  | stat_write_size_print | stat_avg_req_size | stat_read_size_print
  | stat_avg_GCRNVRAM_delay | stat_GCRNVRAM_delay_print | stat_avg_NVRAMGC_delay
  | stat_NVRAMGC_delay_print => u64 v
  | _ => v
  end.

(** ** The state *)

Record ssdstate : Type := mk_ssdstate {
  ssdparams : ssdconf;
  mapping_table : list Z;
  in_nvram : list Z;
  inverse_mapping_table : list inverse_mapping_entry;
  block_state_table : list block_state_entry;
  NVRAM_OOB_TABLE : list NVRAM_OOB_seg;
  empty_block_list : list empty_block_root;
  victim_block_list : list victim_block_root;
  total_empty_block_nb : Z;
  total_victim_block_nb : Z;
  empty_block_table_index : Z;
  sb_deb : sb_debug;
  xl2p_ppn : Z;
  gc_slot : list Z;
  chnl_next_avail_time : list Z;
  chip_next_avail_time : list Z;
  nvram_next_avail_time : list Z;
  blocking_to : Z;
  ctrs : ctr -> Z;
  io_requests : list io_request;
  clock_reads : nat;
  nand_log : list nand_cmd
}.

Definition set_ssdparams (v : ssdconf) (s : ssdstate) : ssdstate :=
  mk_ssdstate
    v (mapping_table s) (in_nvram s) (inverse_mapping_table s) (block_state_table s)
    (NVRAM_OOB_TABLE s) (empty_block_list s) (victim_block_list s)
    (total_empty_block_nb s) (total_victim_block_nb s) (empty_block_table_index s)
    (sb_deb s) (xl2p_ppn s) (gc_slot s) (chnl_next_avail_time s)
    (chip_next_avail_time s) (nvram_next_avail_time s) (blocking_to s) (ctrs s)
    (io_requests s) (clock_reads s) (nand_log s).
Definition set_mapping_table (v : list Z) (s : ssdstate) : ssdstate :=
  mk_ssdstate
    (ssdparams s) v (in_nvram s) (inverse_mapping_table s) (block_state_table s)
    (NVRAM_OOB_TABLE s) (empty_block_list s) (victim_block_list s)
    (total_empty_block_nb s) (total_victim_block_nb s) (empty_block_table_index s)
    (sb_deb s) (xl2p_ppn s) (gc_slot s) (chnl_next_avail_time s)
    (chip_next_avail_time s) (nvram_next_avail_time s) (blocking_to s) (ctrs s)
    (io_requests s) (clock_reads s) (nand_log s).
Definition set_in_nvram (v : list Z) (s : ssdstate) : ssdstate :=
  mk_ssdstate
    (ssdparams s) (mapping_table s) v (inverse_mapping_table s) (block_state_table s)
    (NVRAM_OOB_TABLE s) (empty_block_list s) (victim_block_list s)
    (total_empty_block_nb s) (total_victim_block_nb s) (empty_block_table_index s)
    (sb_deb s) (xl2p_ppn s) (gc_slot s) (chnl_next_avail_time s)
    (chip_next_avail_time s) (nvram_next_avail_time s) (blocking_to s) (ctrs s)
    (io_requests s) (clock_reads s) (nand_log s).
Definition set_inverse_mapping_table (v : list inverse_mapping_entry) (s : ssdstate) : ssdstate :=
  mk_ssdstate
    (ssdparams s) (mapping_table s) (in_nvram s) v (block_state_table s)
    (NVRAM_OOB_TABLE s) (empty_block_list s) (victim_block_list s)
    (total_empty_block_nb s) (total_victim_block_nb s) (empty_block_table_index s)
    (sb_deb s) (xl2p_ppn s) (gc_slot s) (chnl_next_avail_time s)
    (chip_next_avail_time s) (nvram_next_avail_time s) (blocking_to s) (ctrs s)
    (io_requests s) (clock_reads s) (nand_log s).
Definition set_block_state_table (v : list block_state_entry) (s : ssdstate) : ssdstate :=
  mk_ssdstate
    (ssdparams s) (mapping_table s) (in_nvram s) (inverse_mapping_table s) v
    (NVRAM_OOB_TABLE s) (empty_block_list s) (victim_block_list s)
    (total_empty_block_nb s) (total_victim_block_nb s) (empty_block_table_index s)
    (sb_deb s) (xl2p_ppn s) (gc_slot s) (chnl_next_avail_time s)
    (chip_next_avail_time s) (nvram_next_avail_time s) (blocking_to s) (ctrs s)
    (io_requests s) (clock_reads s) (nand_log s).
Definition set_NVRAM_OOB_TABLE (v : list NVRAM_OOB_seg) (s : ssdstate) : ssdstate :=
  mk_ssdstate
    (ssdparams s) (mapping_table s) (in_nvram s) (inverse_mapping_table s)
    (block_state_table s) v (empty_block_list s) (victim_block_list s)
    (total_empty_block_nb s) (total_victim_block_nb s) (empty_block_table_index s)
    (sb_deb s) (xl2p_ppn s) (gc_slot s) (chnl_next_avail_time s)
    (chip_next_avail_time s) (nvram_next_avail_time s) (blocking_to s) (ctrs s)
    (io_requests s) (clock_reads s) (nand_log s).
Definition set_empty_block_list (v : list empty_block_root) (s : ssdstate) : ssdstate :=
  mk_ssdstate
    (ssdparams s) (mapping_table s) (in_nvram s) (inverse_mapping_table s)
    (block_state_table s) (NVRAM_OOB_TABLE s) v (victim_block_list s)
    (total_empty_block_nb s) (total_victim_block_nb s) (empty_block_table_index s)
    (sb_deb s) (xl2p_ppn s) (gc_slot s) (chnl_next_avail_time s)
    (chip_next_avail_time s) (nvram_next_avail_time s) (blocking_to s) (ctrs s)
    (io_requests s) (clock_reads s) (nand_log s).
Definition set_victim_block_list (v : list victim_block_root) (s : ssdstate) : ssdstate :=
  mk_ssdstate
    (ssdparams s) (mapping_table s) (in_nvram s) (inverse_mapping_table s)
    (block_state_table s) (NVRAM_OOB_TABLE s) (empty_block_list s) v
    (total_empty_block_nb s) (total_victim_block_nb s) (empty_block_table_index s)
    (sb_deb s) (xl2p_ppn s) (gc_slot s) (chnl_next_avail_time s)
    (chip_next_avail_time s) (nvram_next_avail_time s) (blocking_to s) (ctrs s)
    (io_requests s) (clock_reads s) (nand_log s).
Definition set_total_empty_block_nb (v : Z) (s : ssdstate) : ssdstate :=
  mk_ssdstate
    (ssdparams s) (mapping_table s) (in_nvram s) (inverse_mapping_table s)
    (block_state_table s) (NVRAM_OOB_TABLE s) (empty_block_list s)
    (victim_block_list s) v (total_victim_block_nb s) (empty_block_table_index s)
    (sb_deb s) (xl2p_ppn s) (gc_slot s) (chnl_next_avail_time s)
    (chip_next_avail_time s) (nvram_next_avail_time s) (blocking_to s) (ctrs s)
    (io_requests s) (clock_reads s) (nand_log s).
Definition set_total_victim_block_nb (v : Z) (s : ssdstate) : ssdstate :=
  mk_ssdstate
    (ssdparams s) (mapping_table s) (in_nvram s) (inverse_mapping_table s)
    (block_state_table s) (NVRAM_OOB_TABLE s) (empty_block_list s)
    (victim_block_list s) (total_empty_block_nb s) v (empty_block_table_index s)
    (sb_deb s) (xl2p_ppn s) (gc_slot s) (chnl_next_avail_time s)
    (chip_next_avail_time s) (nvram_next_avail_time s) (blocking_to s) (ctrs s)
    (io_requests s) (clock_reads s) (nand_log s).
Definition set_empty_block_table_index (v : Z) (s : ssdstate) : ssdstate :=
  mk_ssdstate
    (ssdparams s) (mapping_table s) (in_nvram s) (inverse_mapping_table s)
    (block_state_table s) (NVRAM_OOB_TABLE s) (empty_block_list s)
    (victim_block_list s) (total_empty_block_nb s) (total_victim_block_nb s) v
    (sb_deb s) (xl2p_ppn s) (gc_slot s) (chnl_next_avail_time s)
    (chip_next_avail_time s) (nvram_next_avail_time s) (blocking_to s) (ctrs s)
    (io_requests s) (clock_reads s) (nand_log s).
Definition set_sb_deb (v : sb_debug) (s : ssdstate) : ssdstate :=
  mk_ssdstate
    (ssdparams s) (mapping_table s) (in_nvram s) (inverse_mapping_table s)
    (block_state_table s) (NVRAM_OOB_TABLE s) (empty_block_list s)
    (victim_block_list s) (total_empty_block_nb s) (total_victim_block_nb s)
    (empty_block_table_index s) v (xl2p_ppn s) (gc_slot s) (chnl_next_avail_time s)
    (chip_next_avail_time s) (nvram_next_avail_time s) (blocking_to s) (ctrs s)
    (io_requests s) (clock_reads s) (nand_log s).
Definition set_xl2p_ppn (v : Z) (s : ssdstate) : ssdstate :=
  mk_ssdstate
    (ssdparams s) (mapping_table s) (in_nvram s) (inverse_mapping_table s)
    (block_state_table s) (NVRAM_OOB_TABLE s) (empty_block_list s)
    (victim_block_list s) (total_empty_block_nb s) (total_victim_block_nb s)
    (empty_block_table_index s) (sb_deb s) v (gc_slot s) (chnl_next_avail_time s)
    (chip_next_avail_time s) (nvram_next_avail_time s) (blocking_to s) (ctrs s)
    (io_requests s) (clock_reads s) (nand_log s).
Definition set_gc_slot (v : list Z) (s : ssdstate) : ssdstate :=
  mk_ssdstate
    (ssdparams s) (mapping_table s) (in_nvram s) (inverse_mapping_table s)
    (block_state_table s) (NVRAM_OOB_TABLE s) (empty_block_list s)
    (victim_block_list s) (total_empty_block_nb s) (total_victim_block_nb s)
    (empty_block_table_index s) (sb_deb s) (xl2p_ppn s) v (chnl_next_avail_time s)
    (chip_next_avail_time s) (nvram_next_avail_time s) (blocking_to s) (ctrs s)
    (io_requests s) (clock_reads s) (nand_log s).
Definition set_chnl_next_avail_time (v : list Z) (s : ssdstate) : ssdstate :=
  mk_ssdstate
    (ssdparams s) (mapping_table s) (in_nvram s) (inverse_mapping_table s)
    (block_state_table s) (NVRAM_OOB_TABLE s) (empty_block_list s)
    (victim_block_list s) (total_empty_block_nb s) (total_victim_block_nb s)
    (empty_block_table_index s) (sb_deb s) (xl2p_ppn s) (gc_slot s) v
    (chip_next_avail_time s) (nvram_next_avail_time s) (blocking_to s) (ctrs s)
    (io_requests s) (clock_reads s) (nand_log s).
Definition set_chip_next_avail_time (v : list Z) (s : ssdstate) : ssdstate :=
  mk_ssdstate
    (ssdparams s) (mapping_table s) (in_nvram s) (inverse_mapping_table s)
    (block_state_table s) (NVRAM_OOB_TABLE s) (empty_block_list s)
    (victim_block_list s) (total_empty_block_nb s) (total_victim_block_nb s)
    (empty_block_table_index s) (sb_deb s) (xl2p_ppn s) (gc_slot s)
    (chnl_next_avail_time s) v (nvram_next_avail_time s) (blocking_to s) (ctrs s)
    (io_requests s) (clock_reads s) (nand_log s).
Definition set_nvram_next_avail_time (v : list Z) (s : ssdstate) : ssdstate :=
  mk_ssdstate
    (ssdparams s) (mapping_table s) (in_nvram s) (inverse_mapping_table s)
    (block_state_table s) (NVRAM_OOB_TABLE s) (empty_block_list s)
    (victim_block_list s) (total_empty_block_nb s) (total_victim_block_nb s)
    (empty_block_table_index s) (sb_deb s) (xl2p_ppn s) (gc_slot s)
    (chnl_next_avail_time s) (chip_next_avail_time s) v (blocking_to s) (ctrs s)
    (io_requests s) (clock_reads s) (nand_log s).
Definition set_blocking_to (v : Z) (s : ssdstate) : ssdstate :=
  mk_ssdstate
    (ssdparams s) (mapping_table s) (in_nvram s) (inverse_mapping_table s)
    (block_state_table s) (NVRAM_OOB_TABLE s) (empty_block_list s)
    (victim_block_list s) (total_empty_block_nb s) (total_victim_block_nb s)
    (empty_block_table_index s) (sb_deb s) (xl2p_ppn s) (gc_slot s)
    (chnl_next_avail_time s) (chip_next_avail_time s) (nvram_next_avail_time s) v
    (ctrs s) (io_requests s) (clock_reads s) (nand_log s).
Definition set_ctrs (v : ctr -> Z) (s : ssdstate) : ssdstate :=
  mk_ssdstate
    (ssdparams s) (mapping_table s) (in_nvram s) (inverse_mapping_table s)
    (block_state_table s) (NVRAM_OOB_TABLE s) (empty_block_list s)
    (victim_block_list s) (total_empty_block_nb s) (total_victim_block_nb s)
    (empty_block_table_index s) (sb_deb s) (xl2p_ppn s) (gc_slot s)
    (chnl_next_avail_time s) (chip_next_avail_time s) (nvram_next_avail_time s)
    (blocking_to s) v (io_requests s) (clock_reads s) (nand_log s).
Definition set_io_requests (v : list io_request) (s : ssdstate) : ssdstate :=
  mk_ssdstate
    (ssdparams s) (mapping_table s) (in_nvram s) (inverse_mapping_table s)
    (block_state_table s) (NVRAM_OOB_TABLE s) (empty_block_list s)
    (victim_block_list s) (total_empty_block_nb s) (total_victim_block_nb s)
    (empty_block_table_index s) (sb_deb s) (xl2p_ppn s) (gc_slot s)
    (chnl_next_avail_time s) (chip_next_avail_time s) (nvram_next_avail_time s)
    (blocking_to s) (ctrs s) v (clock_reads s) (nand_log s).
Definition set_clock_reads (v : nat) (s : ssdstate) : ssdstate :=
  mk_ssdstate
    (ssdparams s) (mapping_table s) (in_nvram s) (inverse_mapping_table s)
    (block_state_table s) (NVRAM_OOB_TABLE s) (empty_block_list s)
    (victim_block_list s) (total_empty_block_nb s) (total_victim_block_nb s)
    (empty_block_table_index s) (sb_deb s) (xl2p_ppn s) (gc_slot s)
    (chnl_next_avail_time s) (chip_next_avail_time s) (nvram_next_avail_time s)
    (blocking_to s) (ctrs s) (io_requests s) v (nand_log s).
Definition set_nand_log (v : list nand_cmd) (s : ssdstate) : ssdstate :=
  mk_ssdstate
    (ssdparams s) (mapping_table s) (in_nvram s) (inverse_mapping_table s)
    (block_state_table s) (NVRAM_OOB_TABLE s) (empty_block_list s)
    (victim_block_list s) (total_empty_block_nb s) (total_victim_block_nb s)
    (empty_block_table_index s) (sb_deb s) (xl2p_ppn s) (gc_slot s)
    (chnl_next_avail_time s) (chip_next_avail_time s) (nvram_next_avail_time s)
    (blocking_to s) (ctrs s) (io_requests s) (clock_reads s) v.

(** ** The monad and its primitives *)

Abbreviation SM A := (M ssdstate A).

Definition get_conf : SM ssdconf := gets ssdparams.
Notation "'conf' sc ; z" := (mbind (fun sc : ssdconf => z) get_conf)
  (at level 20, sc name, z at level 200) : stdpp_scope.
Definition ctr_get (c : ctr) : SM Z := gets (fun s => ctrs s c).
Definition ctr_upd (c : ctr) (v : Z) (s : ssdstate) : ssdstate :=
  set_ctrs (<[c := ctr_wrap c v]> (ctrs s)) s.
Definition ctr_set (c : ctr) (v : Z) : SM unit := modify (ctr_upd c v).
Definition ctr_add (c : ctr) (d : Z) : SM unit :=
  modify (fun s => ctr_upd c (ctrs s c + d) s).

(** A store [arr[i] = x] into an array of the state. *)
Definition arr_store {A} (get : ssdstate -> list A) (set : list A -> ssdstate -> ssdstate)
  (i : Z) (x : A) : SM unit := fun s =>
  if (0 <=? i) && (i <? zlen (get s)) then Ok tt (set (zset i x (get s)) s)
  else Crash OutOfBounds.

Definition st_mapping_table := arr_store mapping_table set_mapping_table.
Definition st_in_nvram := arr_store in_nvram set_in_nvram.
Definition st_inverse := arr_store inverse_mapping_table set_inverse_mapping_table.
Definition st_block_state := arr_store block_state_table set_block_state_table.
Definition st_OOB := arr_store NVRAM_OOB_TABLE set_NVRAM_OOB_TABLE.
Definition st_empty := arr_store empty_block_list set_empty_block_list.
Definition st_victim := arr_store victim_block_list set_victim_block_list.
Definition st_gc_slot := arr_store gc_slot set_gc_slot.
Definition st_chnl := arr_store chnl_next_avail_time set_chnl_next_avail_time.
Definition st_chip := arr_store chip_next_avail_time set_chip_next_avail_time.
Definition st_nvram_time := arr_store nvram_next_avail_time set_nvram_next_avail_time.

(** An array read [arr[i]]. *)
Definition arr_load {A} (get : ssdstate -> list A) (i : Z) : SM A := fun s =>
  match zget (get s) i with Some x => Ok x s | None => Crash OutOfBounds end.

(** ** Clocks *)

Class Clock : Type := {
  gettimeofday : nat -> Z * Z;
  clock_gettime : nat -> Z * Z;
  qemu_clock_get_ns : nat -> Z
}.

Definition read_clock {A} (f : nat -> A) : SM A := fun s =>
  Ok (f (clock_reads s)) (set_clock_reads (S (clock_reads s)) s).

Section Clocks.
Context `{Clock}.

(** [get_usec] of ssd_io_manager.c. *)
Definition get_usec : SM Z :=
  tv ← read_clock gettimeofday; mret (tv.1 * 1000000 + tv.2).

(** [get_ts_in_ns] of util/god.c: the sum is computed in double. *)
Definition get_ts_in_ns : SM Z :=
  ts ← read_clock clock_gettime;
  mret (d_trunc (d_add (d_mul (d_of_Z ts.1) (d_of_Z 1000000000)) (d_of_Z ts.2))).

Definition qemu_clock_ns : SM Z := read_clock qemu_clock_get_ns.
End Clocks.

(** ** Statistics: INIT_STAT_COUNT and stat_print *)

Definition set_ctr_list (l : list (ctr * Z)) : SM unit :=
  modify (fun s => foldl (fun s cv => ctr_upd cv.1 cv.2 s) s l).

Definition INIT_STAT_COUNT : SM unit :=
  conf sc;
  set_ctr_list
    [ (stat_type, 0); (stat_time, 0); (stat_temp, 0);
      (stat_total_read_count, 0); (stat_total_write_count, 0);
      (stat_host_write_count, 0); (gc_count, 0); (stat_gc_count, 0);
      (stat_erase_count, 0); (stat_gc_write_count, 0); (stat_remap_cnt, 0);
      (stat_commit_cnt, 0); (stat_reduced_write, 0); (stat_ppn_valid, 0);
      (stat_ppn_n21, 0); (stat_ppn_invalid, 0);
      (stat_ppn_free, PAGE_MAPPING_ENTRY_NB sc);
      (stat_lpn_valid, 0); (max_valid_array, 0); (stat_use_remap_fail, 0);
      (stat_gc_remap_fail, 0); (stat_total_alloc_seg, 0);
      (stat_total_OOB_entry, 0); (stat_total_invalid_entry, 0);
      (stat_total_seg_bytes, 0); (stat_max_alloc_seg, 0);
      (stat_min_alloc_seg, 100); (stat_avg_write_delay, 0);
      (stat_write_req_print, 0); (stat_write_delay_print, 0);
      (stat_min_write_delay, 10000000000); (stat_max_write_delay, 0);
      (stat_write_size_print, 0); (stat_avg_req_size, 0);
      (stat_read_size_print, 0); (stat_avg_GCRNVRAM_delay, 0);
      (stat_GCRNVRAM_print, 0); (stat_GCRNVRAM_delay_print, 0);
      (stat_avg_NVRAMGC_delay, 0); (stat_NVRAMGC_print, 0);
      (stat_NVRAMGC_delay_print, 0) ].

(** The line appended to the statistics file is output only; what remains is
    the reset of the per-interval counters. *)
Definition stat_print : SM unit :=
  t ← ctr_get stat_type;
  (if t =? 3 then
     set_ctr_list
       [ (stat_write_req_print, 0); (stat_write_delay_print, 0);
         (stat_avg_write_delay, 0); (stat_min_write_delay, 10000000000);
         (stat_max_write_delay, 0); (stat_write_size_print, 0);
         (stat_avg_req_size, 0); (stat_read_size_print, 0);
         (stat_avg_GCRNVRAM_delay, 0); (stat_GCRNVRAM_print, 0);
         (stat_GCRNVRAM_delay_print, 0); (stat_avg_NVRAMGC_delay, 0);
         (stat_NVRAMGC_print, 0); (stat_NVRAMGC_delay_print, 0) ]
   else mret tt);;
  ctr_set stat_type 0.

(** The block under [#ifdef STAT_COUNT] of ftl.c and ftl_gc_manager.c: print
    when five seconds have passed ([1e9 * PRINT_INTERVAL], exact in double). *)
Definition stat_tick `{Clock} : SM unit :=
  now ← get_ts_in_ns;
  ctr_set stat_temp now;;
  temp ← ctr_get stat_temp;
  last ← ctr_get stat_time;
  (if 1000000000 * PRINT_INTERVAL <=? u64 (temp - last) then
     ctr_set stat_type 3;; stat_print;; ctr_set stat_time temp
   else mret tt).

(** ** Rules of the primitives *)

Section Rules.
Implicit Types (s : ssdstate).

Lemma wp_conf Q s : Q (ssdparams s) s -> wp get_conf Q s.
Proof. done. Qed.

Lemma wp_ctr_get c Q s : Q (ctrs s c) s -> wp (ctr_get c) Q s.
Proof. done. Qed.

Lemma wp_ctr_set c v Q s : Q tt (ctr_upd c v s) -> wp (ctr_set c v) Q s.
Proof. done. Qed.

Lemma wp_ctr_add c d Q s : Q tt (ctr_upd c (ctrs s c + d) s) -> wp (ctr_add c d) Q s.
Proof. done. Qed.

Lemma wp_arr_load {A} (get : ssdstate -> list A) i x Q s :
  zget (get s) i = Some x -> Q x s -> wp (arr_load get i) Q s.
Proof. unfold wp, arr_load. by intros ->. Qed.

Lemma wp_arr_load_in {A} (get : ssdstate -> list A) i Q s :
  0 <= i < zlen (get s) -> (forall x, zget (get s) i = Some x -> Q x s) ->
  wp (arr_load get i) Q s.
Proof. intros Hi HQ. destruct (zget_is_Some _ _ Hi) as [x Hx]. by eapply wp_arr_load; eauto. Qed.

Lemma wp_arr_store {A} (get : ssdstate -> list A) set i x Q s :
  0 <= i < zlen (get s) -> Q tt (set (zset i x (get s)) s) ->
  wp (arr_store get set i x) Q s.
Proof.
  unfold wp, arr_store. intros Hi HQ.
  destruct (Z.leb_spec 0 i); [|lia]. destruct (Z.ltb_spec i (zlen (get s))); [done|lia].
Qed.

Lemma wp_read_clock {A} (f : nat -> A) Q s :
  Q (f (clock_reads s)) (set_clock_reads (S (clock_reads s)) s) -> wp (read_clock f) Q s.
Proof. done. Qed.

Lemma ctrs_upd_eq c v s : ctrs (ctr_upd c v s) c = ctr_wrap c v.
Proof. apply fn_lookup_insert. Qed.

Lemma ctrs_upd_ne c c' v s : c' <> c -> ctrs (ctr_upd c v s) c' = ctrs s c'.
Proof. intros Hc. apply fn_lookup_insert_ne. done. Qed.

Lemma ctrs_upd_rew_eq c v s (P : Z -> Prop) :
  P (ctr_wrap c v) -> P (ctrs (ctr_upd c v s) c).
Proof. by rewrite ctrs_upd_eq. Qed.

Lemma ctrs_upd_rew_ne c k v s (P : Z -> Prop) :
  k <> c -> P (ctrs s k) -> P (ctrs (ctr_upd c v s) k).
Proof. intros Hk. by rewrite ctrs_upd_ne. Qed.

Lemma ctrs_set_rew (f : ssdstate -> ssdstate) s (P : (ctr -> Z) -> Prop) :
  (forall x, ctrs (f x) = ctrs x) -> P (ctrs s) -> P (ctrs (f s)).
Proof. by intros ->. Qed.

End Rules.

(** A store into a counter changes that counter only, a store elsewhere none.
    The occurrence is abstracted first: unifying the states would unfold
    them. *)
Ltac ctr_simpl :=
  repeat match goal with
  | |- context [ctrs (ctr_upd ?c ?v ?s) ?k] =>
      pattern (ctrs (ctr_upd c v s) k);
      first
        [ constr_eq c k; apply (ctrs_upd_rew_eq c v s)
        | apply (ctrs_upd_rew_ne c k v s);
          [ first [discriminate | let E := fresh in intros E;
              match type of E with ?x = _ => subst x end; discriminate] | ] ];
      cbv beta
  | |- context [ctrs (?f ?v ?s)] =>
      lazymatch f with
      | ctr_upd _ => fail
      | set_ctrs => fail
      | _ => pattern (ctrs (f v s)); apply (ctrs_set_rew (f v) s); [reflexivity|]; cbv beta
      end
  end.

(** The counters outside [f] are unchanged. *)
Definition ctr_frame (f : ctr -> bool) (c c' : ctr -> Z) : Prop :=
  forall k, f k = false -> c' k = c k.

(** Run the primitives that cannot fail. *)
Ltac st_step :=
  lazymatch goal with
  | |- wp get_conf _ _ => apply wp_conf
  | |- wp (ctr_get _) _ _ => apply wp_ctr_get; ctr_simpl
  | |- wp (ctr_set _ _) _ _ => apply wp_ctr_set
  | |- wp (ctr_add _ _) _ _ => apply wp_ctr_add; ctr_simpl
  | |- wp (read_clock _) _ _ => apply wp_read_clock
  | |- wp qemu_clock_ns _ _ => apply wp_read_clock
  | |- _ => wp_step
  end; cbv beta.
Ltac st_steps := repeat st_step.
