(* ===== verification/Timing.v ===== *)
(** * Latency emulation: ssd_io_manager.c

    The page read, page program and block erase commands, which book time on
    one channel and one chip, and the booking of NVRAM time.  Only the code in
    front of the [#if 0] parts is compiled; it uses neither the local [reg] nor
    the argument [n_io_info], whose type only the trace of commands records.

    [booked] is the frame of these operations: they touch the booking arrays,
    the clock, the two command counters and the trace of commands, and nothing
    else. *)

From Stdlib Require Import ZArith Lia List.
From stdpp Require Import base tactics numbers list functions.
From S2P Require Import Prelude Config State.

Open Scope Z_scope.

Section Timing.
Context `{Clock}.

Definition nand_issue (c : nand_cmd) : SM unit :=
  modify (fun s => set_nand_log (c :: nand_log s) s).

(** [flash_nb % CHANNEL_NB] of an unsigned and an [int]. *)
Definition channel_of (flash_nb : Z) (sc : ssdconf) : SM Z :=
  if u32 (CHANNEL_NB sc) =? 0 then mcrash DivByZero
  else mret (flash_nb mod u32 (CHANNEL_NB sc)).

Definition SSD_PAGE_WRITE (flash_nb block_nb page_nb : Z) (n_io_info : nand_io_info) : SM Z :=
  ctr_add stat_total_write_count 1;;
  nand_issue (NandProgram (n_type n_io_info) flash_nb block_nb page_nb);;
  conf sc;
  now ← qemu_clock_ns;
  num_channel ← channel_of flash_nb sc;
  chnl ← arr_load chnl_next_avail_time num_channel;
  let start_data_transfer_ts := if now <? chnl then chnl else now in
  st_chnl num_channel (start_data_transfer_ts + REG_WRITE_DELAY sc);;
  chnl ← arr_load chnl_next_avail_time num_channel;
  chip ← arr_load chip_next_avail_time flash_nb;
  (if chnl <? chip then st_chip flash_nb (chip + CELL_PROGRAM_DELAY sc)
   else st_chip flash_nb (chnl + CELL_PROGRAM_DELAY sc));;
  chip ← arr_load chip_next_avail_time flash_nb;
  mret (chip - now).

(** Only the old page's chip is booked, with the delays of a program. *)
Definition SSD_PAGE_PARTIAL_WRITE (old_flash_nb old_block_nb old_page_nb
    new_flash_nb new_block_nb new_page_nb : Z) (n_io_info : nand_io_info) : SM Z :=
  ctr_add stat_total_read_count 1;;
  ctr_add stat_total_write_count 1;;
  nand_issue (NandRead old_flash_nb old_block_nb old_page_nb);;
  nand_issue (NandProgram (n_type n_io_info) new_flash_nb new_block_nb new_page_nb);;
  conf sc;
  now ← qemu_clock_ns;
  num_channel ← channel_of old_flash_nb sc;
  chnl ← arr_load chnl_next_avail_time num_channel;
  let start_data_transfer_ts := if now <? chnl then chnl else now in
  st_chnl num_channel (start_data_transfer_ts + REG_WRITE_DELAY sc);;
  chnl ← arr_load chnl_next_avail_time num_channel;
  chip ← arr_load chip_next_avail_time old_flash_nb;
  (if chnl <? chip then st_chip old_flash_nb (chip + CELL_PROGRAM_DELAY sc)
   else st_chip old_flash_nb (chnl + CELL_PROGRAM_DELAY sc));;
  chip ← arr_load chip_next_avail_time old_flash_nb;
  mret (chip - now).

Definition SSD_PAGE_READ (flash_nb block_nb page_nb : Z) (n_io_info : nand_io_info) : SM Z :=
  ctr_add stat_total_read_count 1;;
  nand_issue (NandRead flash_nb block_nb page_nb);;
  conf sc;
  num_channel ← channel_of flash_nb sc;
  now ← qemu_clock_ns;
  chip ← arr_load chip_next_avail_time flash_nb;
  (if now <? chip then st_chip flash_nb (chip + CELL_READ_DELAY sc)
   else st_chip flash_nb (now + CELL_READ_DELAY sc));;
  start_data_transfer_ts ← arr_load chip_next_avail_time flash_nb;
  chnl ← arr_load chnl_next_avail_time num_channel;
  (if start_data_transfer_ts <? chnl
   then st_chnl num_channel (chnl + REG_READ_DELAY sc)
   else st_chnl num_channel (start_data_transfer_ts + REG_READ_DELAY sc));;
  chnl ← arr_load chnl_next_avail_time num_channel;
  st_chip flash_nb chnl;;
  mret (chnl - now).

Definition SSD_BLOCK_ERASE (flash_nb block_nb : Z) : SM Z :=
  nand_issue (NandErase flash_nb block_nb);;
  conf sc;
  now ← qemu_clock_ns;
  num_channel ← channel_of flash_nb sc;
  chnl ← arr_load chnl_next_avail_time num_channel;
  let ss := if now <? chnl then chnl else now in
  chip ← arr_load chip_next_avail_time flash_nb;
  (if ss <? chip then st_chip flash_nb (chip + BLOCK_ERASE_DELAY sc)
   else st_chip flash_nb (ss + BLOCK_ERASE_DELAY sc));;
  mret SUCCESS.

Definition UPDATE_FLASH_TS (need_time : Z) : SM unit :=
  conf sc;
  now ← qemu_clock_ns;
  mfor (Z.to_nat (FLASH_NB sc)) 0 (fun i =>
    chip ← arr_load chip_next_avail_time i;
    if chip <? now then st_chip i (now + need_time)
    else st_chip i (chip + need_time)).

Definition UPDATE_NVRAM_TS (block_nb need_time : Z) : SM Z :=
  now ← qemu_clock_ns;
  t ← arr_load nvram_next_avail_time block_nb;
  (if now <? t then st_nvram_time block_nb (t + need_time)
   else st_nvram_time block_nb (now + need_time));;
  t ← arr_load nvram_next_avail_time block_nb;
  mret (t - now).

End Timing.

(** ** The frame *)

(** The counters the operations of this file write. *)
Definition io_ctr (c : ctr) : bool :=
  match c with stat_total_read_count | stat_total_write_count => true | _ => false end.

Record booked (cmds : list nand_cmd) (s s' : ssdstate) : Prop := mk_booked {
  bk_params : ssdparams s' = ssdparams s;
  bk_map : mapping_table s' = mapping_table s;
  bk_nv : in_nvram s' = in_nvram s;
  bk_inv : inverse_mapping_table s' = inverse_mapping_table s;
  bk_bst : block_state_table s' = block_state_table s;
  bk_oob : NVRAM_OOB_TABLE s' = NVRAM_OOB_TABLE s;
  bk_empty : empty_block_list s' = empty_block_list s;
  bk_victim : victim_block_list s' = victim_block_list s;
  bk_tempty : total_empty_block_nb s' = total_empty_block_nb s;
  bk_tvictim : total_victim_block_nb s' = total_victim_block_nb s;
  bk_index : empty_block_table_index s' = empty_block_table_index s;
  bk_sb : sb_deb s' = sb_deb s;
  bk_xl2p : xl2p_ppn s' = xl2p_ppn s;
  bk_slot : gc_slot s' = gc_slot s;
  bk_block : blocking_to s' = blocking_to s;
  bk_io : io_requests s' = io_requests s;
  bk_ctrs : forall c, io_ctr c = false -> ctrs s' c = ctrs s c;
  bk_chnl : zlen (chnl_next_avail_time s') = zlen (chnl_next_avail_time s);
  bk_chip : zlen (chip_next_avail_time s') = zlen (chip_next_avail_time s);
  bk_nvram : zlen (nvram_next_avail_time s') = zlen (nvram_next_avail_time s);
  bk_log : nand_log s' = cmds ++ nand_log s
}.

(** The arrays of [INIT_SSD_CONFIG] have an entry for every channel, chip and
    block row. *)
Record timing_wf (s : ssdstate) : Prop := mk_timing_wf {
  tw_chan : 0 < CHANNEL_NB (ssdparams s) < 2 ^ 31;
  tw_chnl : zlen (chnl_next_avail_time s) = CHANNEL_NB (ssdparams s);
  tw_chip : zlen (chip_next_avail_time s) = FLASH_NB (ssdparams s);
  tw_nvram : zlen (nvram_next_avail_time s) = BLOCK_NB (ssdparams s)
}.

(** ** Specifications *)

Lemma booked_refl s : booked [] s s.
Proof. by constructor. Qed.

Lemma booked_trans c1 c2 s1 s2 s3 :
  booked c1 s1 s2 -> booked c2 s2 s3 -> booked (c2 ++ c1) s1 s3.
Proof.
  intros [] []; constructor; try congruence.
  - intros c Hc. rewrite bk_ctrs1, bk_ctrs0; auto.
  - rewrite bk_log1, bk_log0. apply app_assoc.
Qed.

Lemma booked_timing_wf c s s' : booked c s s' -> timing_wf s -> timing_wf s'.
Proof. intros [] []; constructor; rewrite ?bk_params0; congruence. Qed.

Section Specs.
Context `{Clock}.
Implicit Types (s : ssdstate).

(** The [k]-th reading of the QEMU clock, for the reading the state is at. *)
Definition now_of s : Z := qemu_clock_get_ns (clock_reads s).

Lemma wp_channel_of flash (sc : ssdconf) s Q :
  0 < CHANNEL_NB sc < 2 ^ 31 -> Q (flash mod CHANNEL_NB sc) s ->
  wp (channel_of flash sc) Q s.
Proof.
  intros Hc HQ. unfold channel_of. rewrite u32_small by lia. zcase. by apply wp_ret.
Qed.

Ltac booked_solve :=
  constructor; simpl; auto; try (by rewrite ?zlen_zset);
  let c := fresh "c" in let Hc := fresh "Hc" in intros c Hc; destruct c; done.

Ltac time_load := eapply wp_arr_load; [simpl; rewrite ?zget_zset_eq by lia; eassumption || reflexivity|].
Ltac time_store := apply wp_arr_store; [simpl; rewrite ?zlen_zset; lia|].

(** Booking a page program: the channel is taken from [max now chnl] for the
    transfer, then the chip from [max] of its end and the chip's own queue. *)
Lemma SSD_PAGE_WRITE_spec f b p n s chnl chip :
  timing_wf s -> 0 <= f ->
  let sc := ssdparams s in
  let ch := f mod CHANNEL_NB sc in
  zget (chnl_next_avail_time s) ch = Some chnl ->
  zget (chip_next_avail_time s) f = Some chip ->
  let chnl' := Z.max (now_of s) chnl + REG_WRITE_DELAY sc in
  let chip' := Z.max chnl' chip + CELL_PROGRAM_DELAY sc in
  wp (SSD_PAGE_WRITE f b p n)
     (fun r s' => booked [NandProgram (n_type n) f b p] s s' /\ r = chip' - now_of s /\
        chnl_next_avail_time s' = zset ch chnl' (chnl_next_avail_time s) /\
        chip_next_avail_time s' = zset f chip' (chip_next_avail_time s)) s.
Proof.
  intros Hwf Hf sc ch Hc Hk chnl' chip'.
  pose proof (zget_Some_range _ _ _ Hc). pose proof (zget_Some_range _ _ _ Hk).
  unfold SSD_PAGE_WRITE, nand_issue. st_steps.
  apply wp_channel_of; [by destruct Hwf|]. change (ssdparams _) with sc.
  st_step. time_load. change (qemu_clock_get_ns _) with (now_of s). fold ch.
  replace (if now_of s <? chnl then chnl else now_of s) with (Z.max (now_of s) chnl) by (zcases; lia).
  fold chnl'. st_step. time_store. st_step. time_load. st_step. time_load. st_step.
  replace (if chnl' <? chip then st_chip f (chip + CELL_PROGRAM_DELAY sc) else _)
    with (st_chip f chip')
    by (subst chip'; zcase; [rewrite Z.max_r by lia|rewrite Z.max_l by lia]; done).
  time_store. st_step. time_load. st_step.
  split_and!; [booked_solve|reflexivity..].
Qed.

(** A partial write books the old page's chip like a program. *)
Lemma SSD_PAGE_PARTIAL_WRITE_spec f b p f' b' p' n s chnl chip :
  timing_wf s -> 0 <= f ->
  let sc := ssdparams s in
  let ch := f mod CHANNEL_NB sc in
  zget (chnl_next_avail_time s) ch = Some chnl ->
  zget (chip_next_avail_time s) f = Some chip ->
  let chnl' := Z.max (now_of s) chnl + REG_WRITE_DELAY sc in
  let chip' := Z.max chnl' chip + CELL_PROGRAM_DELAY sc in
  wp (SSD_PAGE_PARTIAL_WRITE f b p f' b' p' n)
     (fun r s' => booked [NandProgram (n_type n) f' b' p'; NandRead f b p] s s' /\
        r = chip' - now_of s /\
        chnl_next_avail_time s' = zset ch chnl' (chnl_next_avail_time s) /\
        chip_next_avail_time s' = zset f chip' (chip_next_avail_time s)) s.
Proof.
  intros Hwf Hf sc ch Hc Hk chnl' chip'.
  pose proof (zget_Some_range _ _ _ Hc). pose proof (zget_Some_range _ _ _ Hk).
  unfold SSD_PAGE_PARTIAL_WRITE, nand_issue. st_steps.
  apply wp_channel_of; [by destruct Hwf|]. change (ssdparams _) with sc.
  st_step. time_load. change (qemu_clock_get_ns _) with (now_of s). fold ch.
  replace (if now_of s <? chnl then chnl else now_of s) with (Z.max (now_of s) chnl) by (zcases; lia).
  fold chnl'. st_step. time_store. st_step. time_load. st_step. time_load. st_step.
  replace (if chnl' <? chip then st_chip f (chip + CELL_PROGRAM_DELAY sc) else _)
    with (st_chip f chip')
    by (subst chip'; zcase; [rewrite Z.max_r by lia|rewrite Z.max_l by lia]; done).
  time_store. st_step. time_load. st_step.
  split_and!; [booked_solve|reflexivity..].
Qed.

(** Booking a page read: the cell read on the chip, then the transfer on the
    channel; the chip stays busy until the transfer ends. *)
Lemma SSD_PAGE_READ_spec f b p n s chnl chip :
  timing_wf s -> 0 <= f ->
  let sc := ssdparams s in
  let ch := f mod CHANNEL_NB sc in
  zget (chnl_next_avail_time s) ch = Some chnl ->
  zget (chip_next_avail_time s) f = Some chip ->
  let cell := Z.max (now_of s) chip + CELL_READ_DELAY sc in
  let done_ := Z.max cell chnl + REG_READ_DELAY sc in
  wp (SSD_PAGE_READ f b p n)
     (fun r s' => booked [NandRead f b p] s s' /\ r = done_ - now_of s /\
        zget (chnl_next_avail_time s') ch = Some done_ /\
        zget (chip_next_avail_time s') f = Some done_) s.
Proof.
  intros Hwf Hf sc ch Hc Hk cell done_.
  pose proof (zget_Some_range _ _ _ Hc). pose proof (zget_Some_range _ _ _ Hk).
  unfold SSD_PAGE_READ, nand_issue. st_steps.
  apply wp_channel_of; [by destruct Hwf|]. change (ssdparams _) with sc. fold ch.
  st_steps. time_load. st_step.
  change (qemu_clock_get_ns _) with (now_of s).
  replace (if now_of s <? chip then st_chip f (chip + CELL_READ_DELAY sc) else _)
    with (st_chip f cell)
    by (subst cell; zcase; [rewrite Z.max_r by lia|rewrite Z.max_l by lia]; done).
  time_store. st_step. time_load. st_step. time_load. st_step.
  replace (if cell <? chnl then st_chnl ch (chnl + REG_READ_DELAY sc) else _)
    with (st_chnl ch done_)
    by (subst done_; zcase; [rewrite Z.max_r by lia|rewrite Z.max_l by lia]; done).
  time_store. st_step. time_load. st_step. time_store. st_step. simpl.
  split; [booked_solve|]. split; [done|].
  rewrite !zget_zset_eq; rewrite ?zlen_zset; auto.
Qed.

Lemma SSD_BLOCK_ERASE_spec f b s chnl chip :
  timing_wf s -> 0 <= f ->
  let sc := ssdparams s in
  let ch := f mod CHANNEL_NB sc in
  zget (chnl_next_avail_time s) ch = Some chnl ->
  zget (chip_next_avail_time s) f = Some chip ->
  wp (SSD_BLOCK_ERASE f b)
     (fun r s' => booked [NandErase f b] s s' /\ r = SUCCESS /\
        chnl_next_avail_time s' = chnl_next_avail_time s /\
        chip_next_avail_time s' =
          zset f (Z.max (Z.max (now_of s) chnl) chip + BLOCK_ERASE_DELAY sc)
            (chip_next_avail_time s)) s.
Proof.
  intros Hwf Hf sc ch Hc Hk.
  pose proof (zget_Some_range _ _ _ Hc). pose proof (zget_Some_range _ _ _ Hk).
  unfold SSD_BLOCK_ERASE, nand_issue. st_steps.
  apply wp_channel_of; [by destruct Hwf|]. change (ssdparams _) with sc. fold ch.
  st_steps. time_load. st_steps. time_load. st_step.
  change (qemu_clock_get_ns _) with (now_of s).
  replace (if now_of s <? chnl then chnl else now_of s) with (Z.max (now_of s) chnl) by (zcases; lia).
  set (ss := Z.max (now_of s) chnl).
  replace (if ss <? chip then st_chip f (chip + BLOCK_ERASE_DELAY sc) else _)
    with (st_chip f (Z.max ss chip + BLOCK_ERASE_DELAY sc))
    by (zcase; [rewrite Z.max_r by lia|rewrite Z.max_l by lia]; done).
  time_store. st_step. split_and!; [booked_solve|reflexivity..].
Qed.

Lemma UPDATE_NVRAM_TS_spec b d s t :
  zget (nvram_next_avail_time s) b = Some t ->
  wp (UPDATE_NVRAM_TS b d)
     (fun r s' => booked [] s s' /\ r = Z.max (now_of s) t + d - now_of s /\
        nvram_next_avail_time s' = zset b (Z.max (now_of s) t + d) (nvram_next_avail_time s)) s.
Proof.
  intros Ht. pose proof (zget_Some_range _ _ _ Ht).
  unfold UPDATE_NVRAM_TS. st_steps. time_load. st_step.
  change (qemu_clock_get_ns _) with (now_of s).
  replace (if now_of s <? t then st_nvram_time b (t + d) else _)
    with (st_nvram_time b (Z.max (now_of s) t + d))
    by (zcase; [rewrite Z.max_r by lia|rewrite Z.max_l by lia]; done).
  time_store. st_step. time_load. st_step. split_and!; [booked_solve|reflexivity..].
Qed.

(** All chips are pushed back by [d] from the later of now and their queue. *)
Lemma UPDATE_FLASH_TS_spec d s :
  zlen (chip_next_avail_time s) = FLASH_NB (ssdparams s) ->
  wp (UPDATE_FLASH_TS d)
     (fun _ s' => booked [] s s' /\ forall i t, zget (chip_next_avail_time s) i = Some t ->
        zget (chip_next_avail_time s') i = Some (Z.max (now_of s) t + d)) s.
Proof.
  intros Hl. unfold UPDATE_FLASH_TS. st_steps. change (qemu_clock_get_ns _) with (now_of s).
  eapply wp_mono; [eapply (wp_mfor (fun k s' => booked [] s s' /\ forall i t,
    zget (chip_next_avail_time s) i = Some t ->
    zget (chip_next_avail_time s') i = Some (if i <? k then Z.max (now_of s) t + d else t)))|].
  - split; [booked_solve|]. intros i t Ht. pose proof (zget_Some_range _ _ _ Ht). by zcase.
  - intros i s' Hi [Hb Hv]. st_step.
    destruct (zget_is_Some (chip_next_avail_time s) i) as [t Ht]; [lia|].
    specialize (Hv i t Ht) as Hvi. rewrite Z.ltb_irrefl in Hvi.
    eapply wp_arr_load; [exact Hvi|]. pose proof (zget_Some_range _ _ _ Hvi).
    replace (if t <? now_of s then st_chip i (now_of s + d) else _)
      with (st_chip i (Z.max (now_of s) t + d))
      by (zcase; [rewrite Z.max_l by lia|rewrite Z.max_r by lia]; done).
    time_store. split.
    + destruct Hb. constructor; simpl; auto. by rewrite zlen_zset.
    + intros j t' Ht'. simpl. rewrite zget_zset by lia. zcase.
      * subst j. rewrite Ht in Ht'. simplify_eq. by zcase.
      * rewrite (Hv j t' Ht'). zcase; zcase; done.
  - intros ? s' [Hb Hv]. split; [done|]. intros i t Ht. rewrite (Hv i t Ht).
    pose proof (zget_Some_range _ _ _ Ht). by zcase.
Qed.
End Specs.

(** ** The frame of each operation, for its callers *)

Section Frames.
Context `{Clock}.
Implicit Types (s : ssdstate).

Lemma timing_lookup s f :
  timing_wf s -> 0 <= f < FLASH_NB (ssdparams s) ->
  exists chnl chip,
    zget (chnl_next_avail_time s) (f mod CHANNEL_NB (ssdparams s)) = Some chnl /\
    zget (chip_next_avail_time s) f = Some chip.
Proof.
  intros [] Hf.
  destruct (zget_is_Some (chnl_next_avail_time s) (f mod CHANNEL_NB (ssdparams s))) as [a Ha].
  { rewrite tw_chnl0. apply Z.mod_pos_bound. lia. }
  destruct (zget_is_Some (chip_next_avail_time s) f) as [b Hb]; [lia|]. eauto.
Qed.

Lemma SSD_PAGE_WRITE_ok f b p n s :
  timing_wf s -> 0 <= f < FLASH_NB (ssdparams s) ->
  wp (SSD_PAGE_WRITE f b p n) (fun _ s' => booked [NandProgram (n_type n) f b p] s s') s.
Proof.
  intros Hwf Hf. destruct (timing_lookup s f Hwf Hf) as (chnl & chip & Hc & Hk).
  eapply wp_mono; [eapply SSD_PAGE_WRITE_spec; eauto; lia|]. by intros ? s' [Hb _].
Qed.

Lemma SSD_PAGE_PARTIAL_WRITE_ok f b p f' b' p' n s :
  timing_wf s -> 0 <= f < FLASH_NB (ssdparams s) ->
  wp (SSD_PAGE_PARTIAL_WRITE f b p f' b' p' n)
     (fun _ s' => booked [NandProgram (n_type n) f' b' p'; NandRead f b p] s s') s.
Proof.
  intros Hwf Hf. destruct (timing_lookup s f Hwf Hf) as (chnl & chip & Hc & Hk).
  eapply wp_mono; [eapply SSD_PAGE_PARTIAL_WRITE_spec; eauto; lia|]. by intros ? s' [Hb _].
Qed.

Lemma SSD_PAGE_READ_ok f b p n s :
  timing_wf s -> 0 <= f < FLASH_NB (ssdparams s) ->
  wp (SSD_PAGE_READ f b p n) (fun _ s' => booked [NandRead f b p] s s') s.
Proof.
  intros Hwf Hf. destruct (timing_lookup s f Hwf Hf) as (chnl & chip & Hc & Hk).
  eapply wp_mono; [eapply SSD_PAGE_READ_spec; eauto; lia|]. by intros ? s' [Hb _].
Qed.

Lemma SSD_BLOCK_ERASE_ok f b s :
  timing_wf s -> 0 <= f < FLASH_NB (ssdparams s) ->
  wp (SSD_BLOCK_ERASE f b) (fun _ s' => booked [NandErase f b] s s') s.
Proof.
  intros Hwf Hf. destruct (timing_lookup s f Hwf Hf) as (chnl & chip & Hc & Hk).
  eapply wp_mono; [eapply SSD_BLOCK_ERASE_spec; eauto; lia|]. by intros ? s' [Hb _].
Qed.

Lemma UPDATE_NVRAM_TS_ok b d s :
  timing_wf s -> 0 <= b < BLOCK_NB (ssdparams s) ->
  wp (UPDATE_NVRAM_TS b d) (fun _ s' => booked [] s s') s.
Proof.
  intros [] Hb. destruct (zget_is_Some (nvram_next_avail_time s) b) as [t Ht]; [lia|].
  eapply wp_mono; [by eapply UPDATE_NVRAM_TS_spec|]. by intros ? s' [? _].
Qed.

Lemma UPDATE_FLASH_TS_ok d s :
  timing_wf s -> wp (UPDATE_FLASH_TS d) (fun _ s' => booked [] s s') s.
Proof.
  intros []. eapply wp_mono; [by apply UPDATE_FLASH_TS_spec|]. by intros ? s' [? _].
Qed.
End Frames.

(** ** The part of the state that neither the page tables nor the booking of
    time touch *)

Record same_rest (s s' : ssdstate) : Prop := mk_same_rest {
  sm_params : ssdparams s' = ssdparams s;
  sm_map : mapping_table s' = mapping_table s;
  sm_nv : in_nvram s' = in_nvram s;
  sm_empty : empty_block_list s' = empty_block_list s;
  sm_victim : victim_block_list s' = victim_block_list s;
  sm_tempty : total_empty_block_nb s' = total_empty_block_nb s;
  sm_tvictim : total_victim_block_nb s' = total_victim_block_nb s;
  sm_index : empty_block_table_index s' = empty_block_table_index s;
  sm_sb : sb_deb s' = sb_deb s;
  sm_xl2p : xl2p_ppn s' = xl2p_ppn s;
  sm_slot : gc_slot s' = gc_slot s;
  sm_chnl : zlen (chnl_next_avail_time s') = zlen (chnl_next_avail_time s);
  sm_chip : zlen (chip_next_avail_time s') = zlen (chip_next_avail_time s);
  sm_nvram : zlen (nvram_next_avail_time s') = zlen (nvram_next_avail_time s)
}.

#[global] Instance same_rest_preorder : PreOrder same_rest.
Proof.
  split; [by intros s|]. intros s1 s2 s3 [] []; constructor; congruence.
Qed.

Lemma booked_rest c s s' : booked c s s' -> same_rest s s'.
Proof. intros []; by constructor. Qed.

Lemma same_rest_timing s s' : same_rest s s' -> timing_wf s -> timing_wf s'.
Proof. intros [] []; constructor; rewrite ?sm_params0; congruence. Qed.
