(* ===== verification/Perf.v ===== *)
(** * Requests: splitting into pages and the request queue

    The arithmetic by which ftl.c, ssd.c and ftl_perf_manager.c cut a request
    of sectors into pages, and the queue of [io_request]s of
    ftl_perf_manager.c. *)

From Stdlib Require Import ZArith Lia List.
From stdpp Require Import base tactics numbers list functions.
From S2P Require Import Prelude Config State Timing.

Open Scope Z_scope.

(** ** Splitting

    [remain > SECTORS_PER_PAGE - left_skip] compares in 64 bits; [right_skip]
    and the number of sectors are stored as unsigned int. *)

Definition right_skip_of (spp left_skip remain : Z) : Z :=
  if spp - left_skip <? remain then 0 else u32 (spp - left_skip - remain).

Definition sects_of (spp left_skip remain : Z) : Z :=
  u32 (spp - left_skip - right_skip_of spp left_skip remain).

(** [sector_nb % SECTORS_PER_PAGE], stored as unsigned int. *)
Definition left_skip_of (spp sector_nb : Z) : Z := u32 (Z.rem sector_nb spp).

(** [while (remain > 0)] with a local counter: the number of pages, or [None]
    when [fuel] iterations are not enough. *)
Fixpoint count_pages (fuel : nat) (spp left_skip remain io_page_nb : Z) : option Z :=
  if remain =? 0 then Some io_page_nb else
  match fuel with
  | O => None
  | S fuel' =>
      count_pages fuel' spp 0 (u32 (remain - sects_of spp left_skip remain)) (io_page_nb + 1)
  end.

Section Perf.
Context `{Clock}.

(** The new request is linked behind the last one; when the queue pointer is
    null but the counter is not zero it is linked nowhere.  The result is the
    measured time and [*page_nb]. *)
Definition ALLOC_IO_REQUEST (sector_nb length io_type : Z) : SM (Z * Z) :=
  conf sc;
  start ← get_usec;
  let spp := SECTORS_PER_PAGE sc in
  if spp =? 0 then mcrash DivByZero else
  match count_pages (Z.to_nat length) spp (left_skip_of spp sector_nb) length 0 with
  | None => mhang
  | Some io_page_nb =>
      seq ← ctr_get io_request_seq_nb;
      let curr_io_request :=
        mk_io_request seq (s16 io_type) (s16 io_page_nb) 0 0
          (ztab io_page_nb (fun _ => 0)) (ztab io_page_nb (fun _ => 0)) in
      nb ← ctr_get io_request_nb;
      modify (fun s =>
        match io_requests s with
        | [] => if nb =? 0 then set_io_requests [curr_io_request] s else s
        | l => set_io_requests (l ++ [curr_io_request]) s
        end);;
      ctr_add io_request_nb 1;;
      end_ ← get_usec;
      mret (end_ - start, io_page_nb)
  end.

Definition INCREASE_IO_REQUEST_SEQ_NB : SM unit :=
  n ← ctr_get io_request_seq_nb;
  if n =? 4294967295 then ctr_set io_request_seq_nb 0 else ctr_add io_request_seq_nb 1.

Definition CREATE_NAND_IO_INFO (offset type io_page_nb io_seq_nb : Z) : nand_io_info :=
  mk_nand_io_info offset type io_page_nb io_seq_nb.

End Perf.

(** ** Lemmas: the span of a request *)

Section Span.
Variables spp : Z.
Hypothesis Hspp : 0 < spp < 2 ^ 32.

Lemma sects_of_min left remain :
  0 <= left < spp -> 0 <= remain < 2 ^ 32 ->
  sects_of spp left remain = Z.min (spp - left) remain.
Proof.
  intros Hl Hr. unfold sects_of, right_skip_of. zcase.
  - rewrite u32_small by lia. lia.
  - rewrite (u32_small (spp - left - remain)) by lia. rewrite u32_small by lia. lia.
Qed.

(** The number of pages that [remain] sectors starting [left] sectors into a
    page lie in. *)
Definition pages_spanned (left remain : Z) : Z := (left + remain + spp - 1) / spp.

Lemma pages_spanned_step left remain :
  0 <= left < spp -> 0 < remain ->
  pages_spanned left remain =
  (if remain - Z.min (spp - left) remain =? 0 then 0
   else pages_spanned 0 (remain - Z.min (spp - left) remain)) + 1.
Proof.
  intros Hl Hr. unfold pages_spanned.
  destruct (Z.min_spec (spp - left) remain) as [[H1 ->]|[H1 ->]].
  - zcase. replace (left + remain + spp - 1) with (0 + (remain - (spp - left)) + spp - 1 + 1 * spp) by lia.
    rewrite Z.div_add by lia. lia.
  - zcase. replace (left + remain + spp - 1) with (left + remain - 1 + 1 * spp) by lia.
    rewrite Z.div_add by lia. rewrite Z.div_small by lia. lia.
Qed.

Lemma count_pages_spanned fuel left remain n :
  0 <= left < spp -> 0 <= remain < 2 ^ 32 -> (Z.to_nat remain <= fuel)%nat ->
  count_pages fuel spp left remain n =
  Some (n + if remain =? 0 then 0 else pages_spanned left remain).
Proof.
  revert left remain n. induction fuel as [|fuel IH]; intros left remain n Hl Hr Hf; simpl.
  - zcase. f_equal. lia.
  - zcase; [f_equal; lia|]. rewrite sects_of_min by lia.
    rewrite u32_small by lia. rewrite IH by lia. f_equal.
    rewrite (pages_spanned_step left remain) by lia. lia.
Qed.
End Span.
