(* ===== verification/Inverse.v ===== *)
(** * Physical pages: addresses, owners and state

    The address arithmetic of ftl_mapping_manager.c ([CALC_FLASH],
    [CALC_BLOCK], [CALC_PAGE]) and, from ftl_inverse_mapping_manager.c, the
    inverse mapping (the list of logical pages that share a physical page) and
    the block state table (a reference count per physical page: [-1] invalid,
    [0] free).  Messages printed on errors are output only. *)

From Stdlib Require Import ZArith Lia List.
From stdpp Require Import base tactics numbers list functions.
From S2P Require Import Prelude Config State Timing.

Open Scope Z_scope.

(** ** Addresses: 64-bit division, truncated to unsigned int *)

Definition CALC_FLASH (ppn : Z) : SM Z :=
  conf sc;
  if (PAGE_NB sc =? 0) || (BLOCK_NB sc =? 0) then mcrash DivByZero
  else mret (u32 (Z.quot (Z.quot ppn (PAGE_NB sc)) (BLOCK_NB sc))).

Definition CALC_BLOCK (ppn : Z) : SM Z :=
  conf sc;
  if (PAGE_NB sc =? 0) || (BLOCK_NB sc =? 0) then mcrash DivByZero
  else mret (u32 (Z.rem (Z.quot ppn (PAGE_NB sc)) (BLOCK_NB sc))).

Definition CALC_PAGE (ppn : Z) : SM Z :=
  conf sc;
  if PAGE_NB sc =? 0 then mcrash DivByZero
  else mret (u32 (Z.rem ppn (PAGE_NB sc))).

(** ** Inverse mapping *)

Definition GET_INVERSE_MAPPING_INFO (ppn : Z) : SM inverse_mapping_entry :=
  arr_load inverse_mapping_table ppn.

Definition INCREASE_INVERSE_MAPPING (ppn lpn : Z) : SM Z :=
  if ppn =? -1 then mret FAIL else
  e ← arr_load inverse_mapping_table ppn;
  (if lpn_cnt e =? 0 then
     st_inverse ppn (mk_inverse_mapping_entry (fingerprint e) 1 [lpn])
   else
     match i_list e with
     | [] => mcrash NullDeref
     | l => st_inverse ppn
              (mk_inverse_mapping_entry (fingerprint e) (s8 (lpn_cnt e + 1)) (l ++ [lpn]))
     end);;
  mret SUCCESS.

(** Unlinking the first node that holds [lpn]; [None] is the dereference of a
    null pointer.  The search ends at the null pointer when no node holds
    [lpn], and a null pointer is the head of an empty list. *)
Definition unlink_node (cnt lpn : Z) (l : list Z) : option (list Z) :=
  match find_pos lpn l with
  | Some O =>
      if cnt =? 1 then Some []
      else match l with _ :: x :: r => Some (x :: r) | _ => None end
  | Some k => Some (delete k l)
  | None =>
      match l with
      | [] => if cnt =? 1 then Some [] else None
      | _ => None
      end
  end.

Definition DECREASE_INVERSE_MAPPING (ppn lpn : Z) : SM Z :=
  if ppn =? -1 then mret FAIL else
  e ← arr_load inverse_mapping_table ppn;
  if lpn_cnt e =? 0 then mret FAIL else
  l ← deref (unlink_node (lpn_cnt e) lpn (i_list e));
  st_inverse ppn (mk_inverse_mapping_entry (fingerprint e) (s8 (lpn_cnt e - 1)) l);;
  mret SUCCESS.

(** ** Block state *)

(** A pointer into the block state table is the index of the entry. *)
Definition GET_BLOCK_STATE_ENTRY (phy_flash_nb phy_block_nb : Z) : SM Z :=
  conf sc; mret (u32 (phy_flash_nb * BLOCK_NB sc + phy_block_nb)).

Definition ld_valid (b_s_entry phy_page_nb : Z) : SM Z :=
  e ← arr_load block_state_table b_s_entry; idx (valid_array e) phy_page_nb.

Definition st_valid (b_s_entry phy_page_nb v : Z) : SM unit :=
  e ← arr_load block_state_table b_s_entry;
  _ ← idx (valid_array e) phy_page_nb;
  st_block_state b_s_entry
    (mk_block_state_entry (valid_page_nb e) (btype e) (erase_count e)
       (zset phy_page_nb v (valid_array e))).

(** The three branches of [UPDATE_BLOCK_STATE_ENTRY]; [false] is its early
    [return FAIL]. *)
Definition mark_valid (b_s_entry phy_page_nb : Z) : SM bool :=
  v ← ld_valid b_s_entry phy_page_nb;
  if 0 <=? v then
    (if v =? 0 then ctr_add stat_ppn_free (-1);; ctr_add stat_ppn_valid 1
     else if v =? 1 then ctr_add stat_ppn_n21 1
     else mret tt);;
    st_valid b_s_entry phy_page_nb (s8 (v + 1));;
    v' ← ld_valid b_s_entry phy_page_nb;
    m ← ctr_get max_valid_array;
    (if m <? v' then ctr_set max_valid_array v' else mret tt);;
    ctr_add stat_lpn_valid 1;;
    mret true
  else mret false.

Definition mark_invalid (b_s_entry phy_page_nb : Z) : SM bool :=
  v ← ld_valid b_s_entry phy_page_nb;
  if 0 <? v then
    (if v =? 1 then
       ctr_add stat_ppn_invalid 1;;
       ctr_add stat_ppn_valid (-1);;
       st_valid b_s_entry phy_page_nb (-1)
     else
       (if v =? 2 then ctr_add stat_ppn_n21 (-1) else mret tt);;
       st_valid b_s_entry phy_page_nb (s8 (v - 1)));;
    ctr_add stat_lpn_valid (-1);;
    mret true
  else mret false.

Definition mark_free (b_s_entry phy_page_nb : Z) : SM bool :=
  v ← ld_valid b_s_entry phy_page_nb;
  if 0 <? v then
    ctr_add stat_ppn_valid (-1);;
    (if 1 <? v then ctr_add stat_ppn_n21 (-1) else mret tt);;
    ctr_add stat_lpn_valid (- v);;
    st_valid b_s_entry phy_page_nb 0;;
    ctr_add stat_ppn_free 1;;
    mret true
  else if v =? -1 then
    ctr_add stat_ppn_invalid (-1);;
    st_valid b_s_entry phy_page_nb 0;;
    ctr_add stat_ppn_free 1;;
    mret true
  else if v =? 0 then mret true
  else mret false.

(** The final recount of the block's valid pages. *)
Definition recount (b_s_entry page_nb : Z) : SM unit :=
  valid_count ← mfold (Z.to_nat page_nb) 0 0 (fun i n =>
    v ← ld_valid b_s_entry i; mret (if 0 <? v then n + 1 else n));
  e ← arr_load block_state_table b_s_entry;
  st_block_state b_s_entry
    (mk_block_state_entry valid_count (btype e) (erase_count e) (valid_array e)).

Definition UPDATE_BLOCK_STATE_ENTRY (phy_flash_nb phy_block_nb phy_page_nb valid : Z) : SM Z :=
  conf sc;
  if (u32 (FLASH_NB sc) <=? phy_flash_nb) || (u32 (BLOCK_NB sc) <=? phy_block_nb)
     || (u32 (PAGE_NB sc) <=? phy_page_nb)
  then mret FAIL else
  b_s_entry ← GET_BLOCK_STATE_ENTRY phy_flash_nb phy_block_nb;
  ok ← (if valid =? VALID then mark_valid b_s_entry phy_page_nb
        else if valid =? INVALID then mark_invalid b_s_entry phy_page_nb
        else if valid =? 0 then mark_free b_s_entry phy_page_nb
        else mret true);
  if (ok : bool) then recount b_s_entry (PAGE_NB sc);; mret SUCCESS
  else mret FAIL.

Definition UPDATE_BLOCK_STATE (phy_flash_nb phy_block_nb type : Z) : SM Z :=
  conf sc;
  b_s_entry ← GET_BLOCK_STATE_ENTRY phy_flash_nb phy_block_nb;
  e ← arr_load block_state_table b_s_entry;
  st_block_state b_s_entry
    (mk_block_state_entry (valid_page_nb e) type (erase_count e) (valid_array e));;
  (if type =? EMPTY_BLOCK then
     mfor (Z.to_nat (PAGE_NB sc)) 0 (fun i =>
       _ ← UPDATE_BLOCK_STATE_ENTRY phy_flash_nb phy_block_nb i 0; mret tt)
   else mret tt);;
  mret SUCCESS.

(** ** The address of a page *)

Definition pages (sc : ssdconf) : Z := FLASH_NB sc * BLOCK_NB sc * PAGE_NB sc.
Definition flash_of (sc : ssdconf) (p : Z) : Z := p / PAGE_NB sc / BLOCK_NB sc.
Definition block_of (sc : ssdconf) (p : Z) : Z := p / PAGE_NB sc mod BLOCK_NB sc.
Definition page_of (sc : ssdconf) (p : Z) : Z := p mod PAGE_NB sc.
Definition addr (sc : ssdconf) (f b i : Z) : Z :=
  (f * BLOCK_NB sc + b) * PAGE_NB sc + i.

(** ** Representation of the two tables

    [R l p] is the number of nodes of physical page [p] that hold [l], [C p]
    its number of nodes, [V p] its reference count in the block state. *)

Record inv_rep (N : Z) (R : Z -> Z -> Z) (C : Z -> Z) (t : list inverse_mapping_entry)
  : Prop := mk_inv_rep {
  ir_len : zlen t = N;
  ir_entry : forall p, 0 <= p < N -> exists fp l,
    zget t p = Some (mk_inverse_mapping_entry fp (C p) l) /\
    zlen l = C p /\ C p <= 127 /\ forall x, occ x l = R x p
}.

(** The count of valid pages may be out of date for the block [stale]. *)
Record blk_rep (sc : ssdconf) (V : Z -> Z) (stale : option Z) (t : list block_state_entry)
  : Prop := mk_blk_rep {
  br_len : zlen t = FLASH_NB sc * BLOCK_NB sc;
  br_entry : forall k, 0 <= k < FLASH_NB sc * BLOCK_NB sc -> exists e,
    zget t k = Some e /\ zlen (valid_array e) = PAGE_NB sc /\
    (forall i, 0 <= i < PAGE_NB sc -> zget (valid_array e) i = Some (V (k * PAGE_NB sc + i))) /\
    (stale <> Some k ->
     valid_page_nb e = sumZ (PAGE_NB sc) (fun i => b2z (0 <? V (k * PAGE_NB sc + i))));
  br_range : forall p, 0 <= p < pages sc -> -1 <= V p <= 127
}.

(** The page statistics are the counts over all pages, modulo 2^64. *)
Record stat_rep (N : Z) (V : Z -> Z) (c : ctr -> Z) : Prop := mk_stat_rep {
  sr_free : c stat_ppn_free = u64 (sumZ N (fun p => b2z (V p =? 0)));
  sr_valid : c stat_ppn_valid = u64 (sumZ N (fun p => b2z (0 <? V p)));
  sr_invalid : c stat_ppn_invalid = u64 (sumZ N (fun p => b2z (V p =? -1)));
  sr_n21 : c stat_ppn_n21 = u64 (sumZ N (fun p => b2z (1 <? V p)));
  sr_lpn : c stat_lpn_valid = u64 (sumZ N (fun p => Z.max 0 (V p)))
}.

Definition page_ctr (c : ctr) : bool :=
  match c with
  | stat_ppn_free | stat_ppn_valid | stat_ppn_invalid | stat_ppn_n21
  | stat_lpn_valid | max_valid_array => true
  | _ => false
  end.

(** The reference count of a page that loses an owner. *)
Definition vdec (v : Z) : Z := if v =? 1 then -1 else v - 1.

(** The [n] pages from [lo] on are free. *)
Definition fclear (V : Z -> Z) (lo n : Z) : Z -> Z := fun q =>
  if (lo <=? q) && (q <? lo + n) then 0 else V q.

(** ** Lemmas: addresses *)

Section Addresses.
Variable sc : ssdconf.
Hypothesis G : geom sc.

Lemma addr_range f b i :
  0 <= f < FLASH_NB sc -> 0 <= b < BLOCK_NB sc -> 0 <= i < PAGE_NB sc ->
  0 <= addr sc f b i < pages sc.
Proof. intros. apply radix_range; [|done]. by apply radix_range. Qed.

Lemma flash_of_addr f b i :
  0 <= b < BLOCK_NB sc -> 0 <= i < PAGE_NB sc -> flash_of sc (addr sc f b i) = f.
Proof.
  intros. unfold flash_of, addr.
  rewrite Z.div_add_l, (Z.div_small i), Z.add_0_r by lia.
  rewrite Z.div_add_l, (Z.div_small b) by lia. lia.
Qed.

Lemma block_of_addr f b i :
  0 <= b < BLOCK_NB sc -> 0 <= i < PAGE_NB sc -> block_of sc (addr sc f b i) = b.
Proof.
  intros. unfold block_of, addr.
  rewrite Z.div_add_l, (Z.div_small i), Z.add_0_r by lia.
  rewrite Z.add_comm, Z.mod_add by lia. apply Z.mod_small. lia.
Qed.

Lemma page_of_addr f b i : 0 <= i < PAGE_NB sc -> page_of sc (addr sc f b i) = i.
Proof.
  intros. unfold page_of, addr. rewrite Z.add_comm, Z.mod_add by lia. apply Z.mod_small. lia.
Qed.

Lemma page_of_range p : 0 <= page_of sc p < PAGE_NB sc.
Proof. destruct G. apply Z.mod_pos_bound. lia. Qed.

Lemma block_of_range p : 0 <= block_of sc p < BLOCK_NB sc.
Proof. destruct G. apply Z.mod_pos_bound. lia. Qed.

Lemma flash_of_range p : 0 <= p < pages sc -> 0 <= flash_of sc p < FLASH_NB sc.
Proof.
  destruct G. intros Hp. unfold flash_of, pages in *. split.
  - apply Z.div_pos; [apply Z.div_pos|]; lia.
  - apply Z.div_lt_upper_bound; [lia|]. apply Z.div_lt_upper_bound; nia.
Qed.

Lemma block_index p : flash_of sc p * BLOCK_NB sc + block_of sc p = p / PAGE_NB sc.
Proof.
  destruct G. unfold flash_of, block_of.
  rewrite (Z.div_mod (p / PAGE_NB sc) (BLOCK_NB sc)) at 3 by lia. lia.
Qed.

Lemma addr_parts p : addr sc (flash_of sc p) (block_of sc p) (page_of sc p) = p.
Proof.
  unfold addr. rewrite block_index. unfold page_of. destruct G.
  rewrite (Z.div_mod p (PAGE_NB sc)) at 3 by lia. lia.
Qed.

Lemma block_index_range p : 0 <= p < pages sc -> 0 <= p / PAGE_NB sc < FLASH_NB sc * BLOCK_NB sc.
Proof.
  destruct G. intros Hp. unfold pages in *. split; [apply Z.div_pos; lia|].
  apply Z.div_lt_upper_bound; nia.
Qed.

Lemma pages_bound : 0 < pages sc < 2 ^ 31.
Proof. destruct G. unfold pages. nia. Qed.
End Addresses.

Section CalcRules.
Implicit Types (s : ssdstate).

Lemma wp_CALC_FLASH p Q s :
  geom (ssdparams s) -> 0 <= p < pages (ssdparams s) ->
  Q (flash_of (ssdparams s) p) s -> wp (CALC_FLASH p) Q s.
Proof.
  intros G Hp HQ. unfold CALC_FLASH. st_steps.
  pose proof (flash_of_range _ G p Hp). pose proof (geom_bounds _ G). destruct G.
  zcase; simpl. zcase; simpl. st_step.
  assert (0 <= p / PAGE_NB (ssdparams s)) by (apply Z.div_pos; lia).
  rewrite (Z.quot_div_nonneg p), Z.quot_div_nonneg, u32_small by (unfold flash_of in *; lia).
  done.
Qed.

Lemma wp_CALC_BLOCK p Q s :
  geom (ssdparams s) -> 0 <= p < pages (ssdparams s) ->
  Q (block_of (ssdparams s) p) s -> wp (CALC_BLOCK p) Q s.
Proof.
  intros G Hp HQ. unfold CALC_BLOCK. st_steps.
  pose proof (block_of_range _ G p). pose proof (geom_bounds _ G). destruct G.
  zcase; simpl. zcase; simpl. st_step.
  assert (0 <= p / PAGE_NB (ssdparams s)) by (apply Z.div_pos; lia).
  rewrite (Z.quot_div_nonneg p), Z.rem_mod_nonneg, u32_small by (unfold block_of in *; lia).
  done.
Qed.

Lemma wp_CALC_PAGE p Q s :
  geom (ssdparams s) -> 0 <= p < pages (ssdparams s) ->
  Q (page_of (ssdparams s) p) s -> wp (CALC_PAGE p) Q s.
Proof.
  intros G Hp HQ. unfold CALC_PAGE. st_steps.
  pose proof (page_of_range _ G p). pose proof (geom_bounds _ G). destruct G.
  zcase; simpl. st_step. rewrite Z.rem_mod_nonneg, u32_small by (try unfold page_of in *; lia). done.
Qed.
End CalcRules.

(** ** Lemmas: the inverse mapping *)

Lemma unlink_node_spec cnt x l :
  zlen l = cnt -> 0 < occ x l ->
  exists k, l !! k = Some x /\ unlink_node cnt x l = Some (delete k l).
Proof.
  intros <- Ho. destruct (find_pos_is_Some x l Ho) as [k Hk].
  destruct (find_pos_Some _ _ _ Hk) as [Hx _]. exists k. split; [done|].
  unfold unlink_node. rewrite Hk. destruct k as [|k]; [|done].
  destruct l as [|a [|b l]]; [done|done|].
  zcase; [unfold zlen in *; simpl in *; lia|done].
Qed.

(** Appending a node and unlinking it again, on the table itself. *)
Lemma unlink_last l (L : list Z) : l ∉ L -> unlink_node (zlen L + 1) l (L ++ [l]) = Some L.
Proof.
  intros Hl. destruct (unlink_node_spec (zlen L + 1) l (L ++ [l])) as (k & Hk & ->).
  - unfold zlen. rewrite length_app. simpl. lia.
  - rewrite occ_app. cbn. rewrite Z.eqb_refl. pose proof (occ_nonneg l L). lia.
  - f_equal. apply lookup_app_Some in Hk as [Hk|[Hk E]].
    + exfalso. apply Hl. by eapply list_elem_of_lookup_2.
    + apply list_lookup_singleton_Some in E as [E _]. replace k with (length L) by lia.
      by rewrite delete_middle, app_nil_r.
Qed.

Lemma INCREASE_append p l fp L (s : ssdstate) :
  zget (inverse_mapping_table s) p = Some (mk_inverse_mapping_entry fp (zlen L) L) -> zlen L < 127 ->
  INCREASE_INVERSE_MAPPING p l s = Ok SUCCESS (set_inverse_mapping_table
    (zset p (mk_inverse_mapping_entry fp (zlen L + 1) (L ++ [l])) (inverse_mapping_table s)) s).
Proof.
  intros He Hlt. pose proof (zget_Some_range _ _ _ He) as Hp. pose proof (zlen_nonneg L).
  apply wp_exact. unfold INCREASE_INVERSE_MAPPING. destruct (Z.eqb_spec p (-1)); [lia|]. st_step.
  eapply wp_arr_load; [exact He|]. cbn [lpn_cnt fingerprint i_list]. st_step. destruct L as [|x L].
  - cbn. by apply wp_arr_store; [lia|].
  - destruct (Z.eqb_spec (zlen (x :: L)) 0) as [E|]; [unfold zlen in E; simpl in E; lia|].
    rewrite s8_small by lia. by apply wp_arr_store; [lia|].
Qed.

Lemma DECREASE_last p l fp L (s : ssdstate) :
  zget (inverse_mapping_table s) p = Some (mk_inverse_mapping_entry fp (zlen L + 1) (L ++ [l])) ->
  zlen L < 127 -> l ∉ L ->
  DECREASE_INVERSE_MAPPING p l s = Ok SUCCESS (set_inverse_mapping_table
    (zset p (mk_inverse_mapping_entry fp (zlen L) L) (inverse_mapping_table s)) s).
Proof.
  intros He Hlt Hl. pose proof (zget_Some_range _ _ _ He) as Hp. pose proof (zlen_nonneg L).
  apply wp_exact. unfold DECREASE_INVERSE_MAPPING. destruct (Z.eqb_spec p (-1)); [lia|]. st_step.
  eapply wp_arr_load; [exact He|]. cbn [lpn_cnt fingerprint i_list].
  destruct (Z.eqb_spec (zlen L + 1) 0); [lia|]. rewrite unlink_last by done. st_step.
  eapply wp_deref; [done|]. st_step. rewrite Z.add_simpl_r, s8_small by lia.
  by apply wp_arr_store; [lia|].
Qed.

Section InverseRules.
Implicit Types (s : ssdstate).

Lemma inv_rep_set N R C t p fp l x d :
  inv_rep N R C t -> 0 <= p < N -> C p + d <= 127 -> zlen l = C p + d ->
  (forall y, occ y l = R y p + if y =? x then d else 0) ->
  inv_rep N (radd R x p d) (fadd C p d)
    (zset p (mk_inverse_mapping_entry fp (C p + d) l) t).
Proof.
  intros [Hl He] Hp Hd Hn Ho. constructor; [by rewrite zlen_zset|].
  intros q Hq. unfold fadd, fset, radd. rewrite zget_zset by lia.
  destruct (Z.eqb_spec p q) as [->|Hne].
  - rewrite Z.eqb_refl. exists fp, l. split; [done|]. split; [done|]. split; [done|].
    intros y. rewrite Ho, andb_true_r. done.
  - destruct (Z.eqb_spec q p) as [->|_]; [done|].
    destruct (He q Hq) as (fp' & l' & H1 & H2 & H3 & H4). exists fp', l'.
    split; [done|]. split; [done|]. split; [done|]. intros y.
    rewrite andb_false_r, H4. lia.
Qed.

(** One more owner; the [int8_t] counter holds at most 127. *)
Lemma INCREASE_spec N R C p l Q s :
  inv_rep N R C (inverse_mapping_table s) -> 0 <= p < N -> C p < 127 ->
  (forall t, inv_rep N (radd R l p 1) (fadd C p 1) t ->
     Q SUCCESS (set_inverse_mapping_table t s)) ->
  wp (INCREASE_INVERSE_MAPPING p l) Q s.
Proof.
  intros HI Hp Hc HQ. destruct (HI) as [Hl He].
  destruct (He p Hp) as (fp & nodes & Hg & Hn & _ & Ho).
  unfold INCREASE_INVERSE_MAPPING. zcase. st_step.
  eapply wp_arr_load; [exact Hg|]. simpl. pose proof (zlen_nonneg nodes).
  st_step. zcase.
  - apply wp_arr_store; [lia|]. st_step. apply HQ.
    replace 1 with (C p + 1) at 3 by lia.
    apply inv_rep_set; try done; [lia|unfold zlen; simpl; lia|].
    destruct nodes; [|unfold zlen in Hn; simpl in Hn; lia].
    intros y. rewrite <- Ho. simpl. lia.
  - destruct nodes as [|a nodes]; [unfold zlen in Hn; simpl in Hn; lia|].
    apply wp_arr_store; [lia|]. st_step. apply HQ. rewrite s8_small by lia.
    apply inv_rep_set; try done; [lia| |].
    + unfold zlen in *. simpl in *. rewrite length_app. simpl. lia.
    + intros y. rewrite <- Ho. simpl. rewrite occ_app. simpl. lia.
Qed.

Lemma DECREASE_spec N R C p l Q s :
  inv_rep N R C (inverse_mapping_table s) -> 0 <= p < N -> 0 < R l p ->
  (forall t, inv_rep N (radd R l p (-1)) (fadd C p (-1)) t ->
     Q SUCCESS (set_inverse_mapping_table t s)) ->
  wp (DECREASE_INVERSE_MAPPING p l) Q s.
Proof.
  intros HI Hp Hr HQ. destruct (HI) as [Hl He].
  destruct (He p Hp) as (fp & nodes & Hg & Hn & Hc & Ho).
  unfold DECREASE_INVERSE_MAPPING. zcase. st_step.
  eapply wp_arr_load; [exact Hg|]. simpl.
  assert (0 < occ l nodes) as Hol by (rewrite Ho; lia).
  pose proof (occ_le_length l nodes). zcase. st_step.
  destruct (unlink_node_spec (C p) l nodes Hn Hol) as (k & Hk & Hu).
  eapply wp_deref; [exact Hu|]. st_step. apply wp_arr_store; [lia|]. st_step.
  apply HQ. rewrite s8_small by lia.
  apply inv_rep_set; try done; [lia| |].
  - unfold zlen in *. rewrite length_delete by eauto. apply lookup_lt_Some in Hk. lia.
  - intros y. rewrite (occ_delete y l nodes k Hk), Ho. zcase; lia.
Qed.

Lemma inv_rep_ext N R R' C C' t :
  (forall x p, 0 <= p < N -> R x p = R' x p) -> (forall p, 0 <= p < N -> C p = C' p) ->
  inv_rep N R C t -> inv_rep N R' C' t.
Proof.
  intros HR HC [Hl He]. constructor; [done|]. intros p Hp.
  destruct (He p Hp) as (fp & l & H1 & H2 & H3 & H4). rewrite <- (HC p Hp).
  exists fp, l. split; [done|]. split; [done|]. split; [done|].
  intros x. rewrite H4. by apply HR.
Qed.

(** A page has owners exactly when some logical page is among its nodes. *)
Lemma inv_rep_empty N R C t p :
  inv_rep N R C t -> 0 <= p < N -> C p = 0 -> forall x, R x p = 0.
Proof.
  intros [_ He] Hp Hc x. destruct (He p Hp) as (fp & l & _ & Hn & _ & Ho).
  rewrite <- Ho. destruct l; [done|]. unfold zlen in Hn. simpl in Hn. lia.
Qed.

Lemma inv_rep_owner N R C t p :
  inv_rep N R C t -> 0 <= p < N -> 0 < C p -> exists x, 0 < R x p.
Proof.
  intros [_ He] Hp Hc. destruct (He p Hp) as (fp & [|a l] & _ & Hn & _ & Ho).
  - unfold zlen in Hn. simpl in Hn. lia.
  - exists a. rewrite <- Ho. simpl. rewrite Z.eqb_refl. pose proof (occ_nonneg a l). lia.
Qed.

Lemma inv_rep_nonneg N R C t p x :
  inv_rep N R C t -> 0 <= p < N -> 0 <= R x p <= C p.
Proof.
  intros [_ He] Hp. destruct (He p Hp) as (fp & l & _ & Hn & _ & Ho).
  rewrite <- Ho, <- Hn. split; [apply occ_nonneg|apply occ_le_length].
Qed.
End InverseRules.

(** ** Lemmas: the block state table *)

Lemma stat_upd N (V : Z -> Z) p v (g : Z -> Z) c :
  0 <= p < N -> c = u64 (sumZ N (fun q => g (V q))) ->
  u64 (sumZ N (fun q => g (fset V p v q))) = u64 (c + (g v - g (V p))).
Proof.
  intros Hp ->. rewrite u64_add_l. f_equal.
  rewrite (sumZ_upd N (fun q => g (V q)) (fun q => g (fset V p v q)) p Hp).
  - unfold fset. rewrite Z.eqb_refl. lia.
  - intros q _ Hq. unfold fset. by zcase.
Qed.

Lemma stat_same N (V : Z -> Z) p v (g : Z -> Z) c :
  0 <= p < N -> g v = g (V p) -> c = u64 (sumZ N (fun q => g (V q))) ->
  c = u64 (sumZ N (fun q => g (fset V p v q))).
Proof.
  intros Hp Hg Hc. rewrite (stat_upd N V p v g c Hp Hc), Hg, Hc.
  rewrite u64_add_l. f_equal. lia.
Qed.

Section BlockRules.
Implicit Types (s : ssdstate).
Variable sc : ssdconf.
Hypothesis G : geom sc.
Local Abbreviation FB := (FLASH_NB sc * BLOCK_NB sc).
Local Abbreviation P := (PAGE_NB sc).

Lemma ld_valid_spec V st k i Q s :
  blk_rep sc V st (block_state_table s) -> 0 <= k < FB -> 0 <= i < P ->
  Q (V (k * P + i)) s -> wp (ld_valid k i) Q s.
Proof.
  intros [Hl He _] Hk Hi HQ. destruct (He k Hk) as (e & Hg & _ & Hv & _).
  unfold ld_valid. st_step. eapply wp_arr_load; [exact Hg|].
  eapply wp_idx; [by apply Hv|done].
Qed.

Lemma blk_rep_set V st k i v t e :
  blk_rep sc V st t -> 0 <= k < FB -> 0 <= i < P -> zget t k = Some e ->
  st = None \/ st = Some k -> -1 <= v <= 127 ->
  blk_rep sc (fset V (k * P + i) v) (Some k)
    (zset k (mk_block_state_entry (valid_page_nb e) (btype e) (erase_count e)
               (zset i v (valid_array e))) t).
Proof.
  intros [Hl He Hr] Hk Hi Hg Hst Hv.  constructor.
  - by rewrite zlen_zset.
  - intros j Hj. rewrite zget_zset by lia. destruct (Z.eqb_spec k j) as [<-|Hne].
    + destruct (He k Hk) as (e' & Hg' & Hn & Ha & _). rewrite Hg in Hg'. simplify_eq.
      eexists. split; [done|]. simpl. rewrite zlen_zset. split; [done|]. split; [|done].
      intros i' Hi'. rewrite zget_zset by lia. unfold fset. zcase.
      * subst. by rewrite Z.eqb_refl.
      * zcase. by apply Ha.
    + destruct (He j Hj) as (e' & Hg' & Hn & Ha & Hc). exists e'.
      assert (forall i', 0 <= i' < PAGE_NB sc ->
                fset V (k * PAGE_NB sc + i) v (j * PAGE_NB sc + i') = V (j * PAGE_NB sc + i')) as Hf.
      { intros i' Hi'. unfold fset. zcase. nia. }
      split; [done|]. split; [done|]. split.
      * intros i' Hi'. rewrite Hf by done. by apply Ha.
      * intros _. rewrite Hc by (destruct Hst as [->| ->]; congruence).
        apply sumZ_ext. intros i' Hi'. by rewrite Hf.
  - intros p Hp. unfold fset. zcase. by apply Hr.
Qed.

Lemma st_valid_spec V st k i v Q s :
  blk_rep sc V st (block_state_table s) -> 0 <= k < FB -> 0 <= i < P ->
  st = None \/ st = Some k -> -1 <= v <= 127 ->
  (forall t, blk_rep sc (fset V (k * P + i) v) (Some k) t -> Q tt (set_block_state_table t s)) ->
  wp (st_valid k i v) Q s.
Proof.
  intros HB Hk Hi Hst Hv HQ. destruct (HB) as [Hl He _].
  destruct (He k Hk) as (e & Hg & Hn & Ha & _).
  unfold st_valid. st_step. eapply wp_arr_load; [exact Hg|]. st_step.
  eapply wp_idx; [by apply Ha|]. apply wp_arr_store; [lia|]. apply HQ.
  by eapply blk_rep_set.
Qed.

Lemma recount_spec V k Q s :
  blk_rep sc V (Some k) (block_state_table s) -> 0 <= k < FB ->
  (forall t, blk_rep sc V None t -> Q tt (set_block_state_table t s)) ->
  wp (recount k P) Q s.
Proof.
  intros HB Hk HQ. destruct (HB) as [Hl He Hr].
  unfold recount. st_step. pose proof (g_page sc G).
  eapply wp_mono.
  { apply (wp_mfold (fun i n s' => s' = s /\
             n = sumZ i (fun j => b2z (0 <? V (k * PAGE_NB sc + j))))).
    - done.
    - intros i n s' Hi [-> ->]. st_step. eapply ld_valid_spec; [done|done|lia|]. st_step.
      split; [done|]. unfold sumZ. replace (Z.to_nat (i + 1)) with (S (Z.to_nat i)) by lia.
      simpl. rewrite Z2Nat.id by lia. unfold b2z. destruct (0 <? _); lia. }
  intros n s' [-> ->]. st_step. destruct (He k Hk) as (e & Hg & Hn & Ha & _).
  eapply wp_arr_load; [exact Hg|]. apply wp_arr_store; [lia|]. apply HQ.
  constructor; [by rewrite zlen_zset| |done].
  intros j Hj. rewrite zget_zset by lia. destruct (Z.eqb_spec k j) as [<-|Hne].
  - eexists. split; [done|]. simpl. split; [done|]. split; [done|]. intros _.
    f_equal. lia.
  - destruct (He j Hj) as (e' & Hg' & Hn' & Ha' & Hc). exists e'.
    split; [done|]. split; [done|]. split; [done|]. intros _. apply Hc. congruence.
Qed.

Local Abbreviation N := (pages sc).

(** What a change of the count of page [p] to [v] leaves behind. *)
Definition marked (V : Z -> Z) (stale : option Z) (p v : Z) (s s' : ssdstate) : Prop :=
  exists t c, s' = set_block_state_table t (set_ctrs c s) /\
    blk_rep sc (fset V p v) stale t /\ stat_rep N (fset V p v) c /\
    ctr_frame page_ctr (ctrs s) c.

Lemma blk_rep_ext V V' st t :
  (forall p, V' p = V p) -> blk_rep sc V st t -> blk_rep sc V' st t.
Proof.
  intros HV [Hl He Hr]. constructor; [done| |intros; rewrite HV; auto].
  intros k Hk. destruct (He k Hk) as (e & Hg & Hn & Ha & Hc). exists e.
  split; [done|]. split; [done|]. split; [intros; rewrite HV; auto|].
  intros Hs. rewrite (Hc Hs). apply sumZ_ext. intros. by rewrite HV.
Qed.

Lemma stat_rep_ext V V' c :
  (forall p, V' p = V p) -> stat_rep N V c -> stat_rep N V' c.
Proof.
  intros HV []. constructor;
    [rewrite sr_free0|rewrite sr_valid0|rewrite sr_invalid0|rewrite sr_n22|rewrite sr_lpn0];
    f_equal; apply sumZ_ext; intros; by rewrite HV.
Qed.

Lemma stat_rep_range V V' c :
  (forall p, 0 <= p < N -> V' p = V p) -> stat_rep N V c -> stat_rep N V' c.
Proof.
  intros HV []. constructor; etrans; try eassumption; f_equal; apply sumZ_ext; intros p Hp; by rewrite HV.
Qed.

(** One line of [stat_rep]: [g] counts the page with the old and new value. *)
Ltac stat_line g :=
  first
    [ apply (stat_same _ _ _ _ g); [assumption|unfold b2z; zcases; lia|assumption]
    | erewrite (stat_upd _ _ _ _ g) by eassumption; f_equal; unfold b2z; zcases; lia ].

Ltac marked_solve :=
  match goal with |- marked _ _ _ _ _ ?S =>
    exists (block_state_table S), (ctrs S) end;
  split; [reflexivity|]; split; [assumption|]; split;
  [ constructor; ctr_simpl; simpl ctr_wrap;
    [ stat_line (fun x => b2z (x =? 0)) | stat_line (fun x => b2z (0 <? x))
    | stat_line (fun x => b2z (x =? -1)) | stat_line (fun x => b2z (1 <? x))
    | stat_line (fun x => Z.max 0 x) ]
  | let k := fresh "k" in let Hk := fresh "Hk" in intros k Hk; ctr_simpl; reflexivity ].

Lemma mark_valid_spec V k i Q s :
  blk_rep sc V None (block_state_table s) -> stat_rep N V (ctrs s) ->
  0 <= k < FB -> 0 <= i < P -> 0 <= V (k * P + i) < 127 ->
  (forall s', marked V (Some k) (k * P + i) (V (k * P + i) + 1) s s' -> Q true s') ->
  wp (mark_valid k i) Q s.
Proof.
  intros HB HS Hk Hi Hv HQ. destruct HS.
  assert (0 <= k * P + i < N) as Hp by (apply radix_range; done).
  unfold mark_valid. st_step. eapply ld_valid_spec; [done|done|done|].
  destruct (Z.leb_spec 0 (V (k * P + i))); [|lia]. rewrite s8_small by lia.
  assert (forall s1, block_state_table s1 = block_state_table s ->
    (forall t, blk_rep sc (fset V (k * P + i) (V (k * P + i) + 1)) (Some k) t ->
       forall s2, s2 = set_block_state_table t s1 \/
         s2 = ctr_upd max_valid_array (V (k * P + i) + 1) (set_block_state_table t s1) ->
       Q true (ctr_upd stat_lpn_valid (ctrs s1 stat_lpn_valid + 1) s2)) ->
    wp (st_valid k i (V (k * P + i) + 1);;
        v' ← ld_valid k i; m ← ctr_get max_valid_array;
        (if m <? v' then ctr_set max_valid_array v' else mret tt);;
        ctr_add stat_lpn_valid 1;; mret true) Q s1) as Hrest.
  { intros s1 E1 HQ1. st_step. eapply st_valid_spec; [by rewrite E1|done|done|by left|lia|].
    intros t Ht. st_step. eapply ld_valid_spec; [exact Ht|done|done|].
    rewrite fset_eq. st_steps. zcase; st_steps; eapply HQ1; eauto. }
  match type of Hrest with context [wp ?r Q _] => set (rest := r) in * end.
  st_step. repeat zcase; st_steps; (apply Hrest; [reflexivity|]);
    intros t Ht s2 [-> | ->]; apply HQ; marked_solve.
Qed.

Lemma mark_invalid_spec V k i Q s :
  blk_rep sc V None (block_state_table s) -> stat_rep N V (ctrs s) ->
  0 <= k < FB -> 0 <= i < P -> 0 < V (k * P + i) ->
  (forall s', marked V (Some k) (k * P + i) (vdec (V (k * P + i))) s s' -> Q true s') ->
  wp (mark_invalid k i) Q s.
Proof.
  intros HB HS Hk Hi Hv HQ. destruct HS.
  assert (0 <= k * P + i < N) as Hp by (apply radix_range; done).
  pose proof (br_range _ _ _ _ HB _ Hp) as Hr. unfold vdec in HQ.
  unfold mark_invalid. st_step. eapply ld_valid_spec; [done|done|done|].
  destruct (Z.ltb_spec 0 (V (k * P + i))); [|lia]. st_step. revert HQ.
  destruct (Z.eqb_spec (V (k * P + i)) 1) as [E|E]; intros HQ.
  - st_steps. eapply st_valid_spec; [done|done|done|by left|lia|].
    intros t Ht. st_steps. apply HQ. marked_solve.
  - rewrite s8_small by lia. st_step. zcase; st_steps;
      (eapply st_valid_spec; [done|done|done|by left|lia|]);
      intros t Ht; st_steps; apply HQ; marked_solve.
Qed.

Lemma mark_free_spec V k i Q s :
  blk_rep sc V None (block_state_table s) -> stat_rep N V (ctrs s) ->
  0 <= k < FB -> 0 <= i < P ->
  (forall s' st, st = None \/ st = Some k -> marked V st (k * P + i) 0 s s' -> Q true s') ->
  wp (mark_free k i) Q s.
Proof.
  intros HB HS Hk Hi HQ.
  assert (0 <= k * P + i < N) as Hp by (apply radix_range; done).
  pose proof (br_range _ _ _ _ HB _ Hp) as Hr.
  unfold mark_free. st_step. eapply ld_valid_spec; [done|done|done|].
  destruct (Z.ltb_spec 0 (V (k * P + i))).
  - destruct HS. st_steps. zcase; st_steps;
      (eapply st_valid_spec; [done|done|done|by left|lia|]);
      intros t Ht; st_steps; eapply HQ; [by right|marked_solve|by right|marked_solve].
  - destruct (Z.eqb_spec (V (k * P + i)) (-1)).
    + destruct HS. st_steps. eapply st_valid_spec; [done|done|done|by left|lia|].
      intros t Ht. st_steps. eapply HQ; [by right|marked_solve].
    + zcase. st_step. apply (HQ s None); [by left|].
      assert (forall q, fset V (k * P + i) 0 q = V q) as Hf.
      { intros q. unfold fset. zcase. by subst. }
      exists (block_state_table s), (ctrs s). split; [by destruct s|].
      split; [by apply (blk_rep_ext V)|]. split; [by apply (stat_rep_ext V)|done].
Qed.

(** The three uses of [UPDATE_BLOCK_STATE_ENTRY] on a page of the device. *)
Inductive ref_change (v : Z) : Z -> Z -> Prop :=
| RefValid : 0 <= v < 127 -> ref_change v VALID (v + 1)
| RefInvalid : 0 < v -> ref_change v INVALID (vdec v)
| RefFree : ref_change v 0 0.

Lemma GET_BLOCK_STATE_ENTRY_spec f b Q s :
  ssdparams s = sc -> 0 <= f < FLASH_NB sc -> 0 <= b < BLOCK_NB sc ->
  Q (f * BLOCK_NB sc + b) s -> wp (GET_BLOCK_STATE_ENTRY f b) Q s.
Proof.
  intros <- Hf Hb HQ. unfold GET_BLOCK_STATE_ENTRY. st_steps.
  pose proof (radix_range f (FLASH_NB (ssdparams s)) b (BLOCK_NB (ssdparams s)) Hf Hb).
  destruct G. rewrite u32_small by nia. done.
Qed.

Lemma UPDATE_BLOCK_STATE_ENTRY_spec V f b i valid v Q s :
  ssdparams s = sc ->
  blk_rep sc V None (block_state_table s) -> stat_rep N V (ctrs s) ->
  0 <= f < FLASH_NB sc -> 0 <= b < BLOCK_NB sc -> 0 <= i < P ->
  ref_change (V (addr sc f b i)) valid v ->
  (forall s', marked V None (addr sc f b i) v s s' -> Q SUCCESS s') ->
  wp (UPDATE_BLOCK_STATE_ENTRY f b i valid) Q s.
Proof.
  intros Hsc HB HS Hf Hb Hi Hch HQ. unfold UPDATE_BLOCK_STATE_ENTRY.
  destruct (geom_bounds _ G) as (? & ? & ?). st_steps. rewrite Hsc.
  rewrite !u32_small by lia.
  replace (_ || _ || _) with false by (symmetry; rewrite !orb_false_iff, !Z.leb_gt; lia). st_step.
  apply GET_BLOCK_STATE_ENTRY_spec; try done. st_step.
  set (k := f * BLOCK_NB sc + b).
  assert (0 <= k < FB) as Hk by (by apply radix_range).
  assert (forall s' st, st = None \/ st = Some k -> marked V st (k * P + i) v s s' ->
    wp (recount k P;; mret SUCCESS) Q s') as Hfin.
  { intros s' st Hst (t & c & -> & Ht & Hs & Hfr). st_step.
    eapply (recount_spec (fset V (k * P + i) v)); [|done|].
    - destruct Ht as [H3 H4 H5]. constructor; [done| |done].
      intros j Hj. destruct (H4 j Hj) as (e & ? & ? & ? & H9). exists e.
      split; [done|]. split; [done|]. split; [done|]. intros Hne. apply H9.
      destruct Hst as [->| ->]; congruence.
    - intros t' Ht'. st_step. apply HQ. by exists t', c. }
  unfold addr in Hch. fold k in Hch.
  destruct Hch as [Hv|Hv|]; simpl.
  - eapply mark_valid_spec; eauto.
  - eapply mark_invalid_spec; eauto.
  - eapply mark_free_spec; eauto.
Qed.

(** The refusals leave the state alone. *)
Lemma UPDATE_BLOCK_STATE_ENTRY_refused V f b i valid s :
  ssdparams s = sc -> blk_rep sc V None (block_state_table s) -> 0 <= f -> 0 <= b -> 0 <= i ->
  (FLASH_NB sc <= f \/ BLOCK_NB sc <= b \/ P <= i \/
   f < FLASH_NB sc /\ b < BLOCK_NB sc /\ i < P /\
   (valid = VALID /\ V (addr sc f b i) < 0 \/ valid = INVALID /\ V (addr sc f b i) <= 0)) ->
  wp (UPDATE_BLOCK_STATE_ENTRY f b i valid) (fun r s' => r = FAIL /\ s' = s) s.
Proof.
  intros Hs HR Hf Hb Hi Hc. destruct (geom_bounds _ G) as (? & ? & ?). destruct G.
  unfold UPDATE_BLOCK_STATE_ENTRY. st_step. st_step. rewrite Hs, !u32_small by lia.
  destruct (Z.leb_spec (FLASH_NB sc) f); [cbn [orb]; by st_step|]. destruct (Z.leb_spec (BLOCK_NB sc) b); [cbn [orb]; by st_step|].
  destruct (Z.leb_spec P i); [cbn [orb]; by st_step|]. cbn [orb]. st_step.
  apply GET_BLOCK_STATE_ENTRY_spec; [done|lia..|]. st_step.
  pose proof (radix_range f (FLASH_NB sc) b (BLOCK_NB sc) ltac:(lia) ltac:(lia)) as Hk.
  destruct Hc as [?|[?|[?|(_ & _ & _ & [[-> Hv]|[-> Hv]])]]]; try lia.
  - change (VALID =? VALID) with true. cbv iota. unfold mark_valid. st_step.
    eapply ld_valid_spec; [exact HR|done|lia|]. fold (addr sc f b i).
    destruct (Z.leb_spec 0 (V (addr sc f b i))); [lia|]. by st_steps.
  - change (INVALID =? VALID) with false. change (INVALID =? INVALID) with true. cbv iota.
    unfold mark_invalid. st_step. eapply ld_valid_spec; [exact HR|done|lia|]. fold (addr sc f b i).
    destruct (Z.ltb_spec 0 (V (addr sc f b i))); [lia|]. by st_steps.
Qed.

(** [UPDATE_BLOCK_STATE] with a type other than [EMPTY_BLOCK] only stores it. *)
Lemma UPDATE_BLOCK_STATE_type_spec V f b ty Q s :
  ssdparams s = sc -> blk_rep sc V None (block_state_table s) ->
  0 <= f < FLASH_NB sc -> 0 <= b < BLOCK_NB sc -> ty <> EMPTY_BLOCK ->
  (forall t, blk_rep sc V None t -> Q SUCCESS (set_block_state_table t s)) ->
  wp (UPDATE_BLOCK_STATE f b ty) Q s.
Proof.
  intros Hsc [Hl He Hr] Hf Hb Hty HQ. unfold UPDATE_BLOCK_STATE. st_steps.
  apply GET_BLOCK_STATE_ENTRY_spec; try done. st_step.
  assert (0 <= f * BLOCK_NB sc + b < FB) as Hk by (by apply radix_range).
  destruct (He _ Hk) as (e & Hg & Hn & Ha & Hc).
  eapply wp_arr_load; [exact Hg|]. st_step. apply wp_arr_store; [lia|].
  destruct (Z.eqb_spec ty EMPTY_BLOCK); [done|]. st_steps. apply HQ.
  constructor; [by rewrite zlen_zset| |done].
  intros j Hj. rewrite zget_zset by lia. zcase; [|by apply He].
  subst j. eexists. split; [done|]. simpl. auto.
Qed.

(** [EMPTY_BLOCK] frees every page of the block. *)
Lemma UPDATE_BLOCK_STATE_empty_spec V f b Q s :
  ssdparams s = sc ->
  blk_rep sc V None (block_state_table s) -> stat_rep N V (ctrs s) ->
  0 <= f < FLASH_NB sc -> 0 <= b < BLOCK_NB sc ->
  let V' := fclear V (addr sc f b 0) P in
  (forall t c, blk_rep sc V' None t -> stat_rep N V' c -> ctr_frame page_ctr (ctrs s) c ->
     Q SUCCESS (set_block_state_table t (set_ctrs c s))) ->
  wp (UPDATE_BLOCK_STATE f b EMPTY_BLOCK) Q s.
Proof.
  intros Hsc HB HS Hf Hb V' HQ. destruct (HB) as [Hl He Hr].
  unfold UPDATE_BLOCK_STATE. st_steps. apply GET_BLOCK_STATE_ENTRY_spec; try done. st_step.
  assert (0 <= f * BLOCK_NB sc + b < FB) as Hk by (by apply radix_range).
  destruct (He _ Hk) as (e & Hg & Hn & Ha & Hc). pose proof (g_page sc G).
  eapply wp_arr_load; [exact Hg|]. st_step. apply wp_arr_store; [lia|].
  simpl (EMPTY_BLOCK =? EMPTY_BLOCK). cbv iota. rewrite Hsc. st_step.
  assert (forall q, fclear V (addr sc f b 0) 0 q = V q) as H0.
  { intros q. unfold fclear. zcases; done. }
  eapply wp_mono.
  { apply (wp_mfor (fun i s' => exists t c, s' = set_block_state_table t (set_ctrs c s) /\
      blk_rep sc (fclear V (addr sc f b 0) i) None t /\
      stat_rep N (fclear V (addr sc f b 0) i) c /\ ctr_frame page_ctr (ctrs s) c)).
    - eexists _, (ctrs s). split; [reflexivity|]. split.
      + apply (blk_rep_ext V); [done|]. constructor; [by rewrite zlen_zset| |done].
        intros j Hj. rewrite zget_zset by lia. zcase; [|by apply He].
        subst j. eexists. split; [done|]. simpl. auto.
      + split; [by apply (stat_rep_ext V)|done].
    - intros i s' Hi (t & c & -> & Ht & Hs & Hfr). st_step.
      eapply UPDATE_BLOCK_STATE_ENTRY_spec; try done; [lia|constructor|].
      intros s2 (t2 & c2 & -> & Ht2 & Hs2 & Hfr2). st_step.
      assert (forall q, fclear V (addr sc f b 0) (i + 1) q =
                fset (fclear V (addr sc f b 0) i) (addr sc f b i) 0 q) as Hq.
      { intros q. unfold fset, fclear, addr. zcases; done. }
      exists t2, c2. split; [done|]. split; [by eapply blk_rep_ext|].
      split; [by eapply stat_rep_ext|]. intros k Hk'. rewrite Hfr2 by done. by apply Hfr. }
  intros _ s' (t & c & -> & Ht & Hs & Hfr). st_step.
  rewrite Z2Nat.id, Z.add_0_l in Ht, Hs by lia. by apply HQ.
Qed.
End BlockRules.
