(* ===== verification/Nvram.v ===== *)
(** * NVRAM segments of remapped entries: ftl_inverse_mapping_manager.c

    A logical page whose mapping did not fit the spare area of its physical
    page has its entry in NVRAM; each superblock (a block row over all chips)
    owns segments of [OOB_ENTRY_PER_SEG] entries.  [USE_REMAP] decides whether
    a remap may add an entry, collecting invalid entries when the segments are
    used up. *)

From Stdlib Require Import ZArith Lia List SpecFloat.
From stdpp Require Import base tactics numbers list functions.
From S2P Require Import Prelude Config State Timing.

Open Scope Z_scope.

Section Nvram.
Context `{Clock}.

(** The allocation of a segment and the entry written into it, shared in the
    text of [UPDATE_NVRAM_OOB] and [NVRAM_OOB_GC]. *)
Definition oob_write_entry (phy_block_nb : Z) : SM unit :=
  seg ← arr_load NVRAM_OOB_TABLE phy_block_nb;
  (if free_entry seg =? 0 then
     st_OOB phy_block_nb
       (mk_NVRAM_OOB_seg (alloc_seg seg + 1) OOB_ENTRY_PER_SEG (invalid_entry seg));;
     m ← ctr_get stat_max_alloc_seg;
     (if m <? u32 (alloc_seg seg + 1)
      then ctr_set stat_max_alloc_seg (alloc_seg seg + 1) else mret tt);;
     ctr_add stat_total_alloc_seg 1;;
     ctr_add stat_total_seg_bytes (OOB_ENTRY_PER_SEG * OOB_ENTRY_BYTES)
   else mret tt);;
  seg ← arr_load NVRAM_OOB_TABLE phy_block_nb;
  st_OOB phy_block_nb
    (mk_NVRAM_OOB_seg (alloc_seg seg) (free_entry seg - 1) (invalid_entry seg));;
  ctr_add stat_total_OOB_entry 1.

Definition oob_reset (phy_block_nb : Z) : SM unit :=
  seg ← arr_load NVRAM_OOB_TABLE phy_block_nb;
  let entry_cnt := alloc_seg seg * OOB_ENTRY_PER_SEG - free_entry seg in
  let seg_bytes := alloc_seg seg * OOB_ENTRY_PER_SEG * OOB_ENTRY_BYTES in
  m ← ctr_get stat_min_alloc_seg;
  (if u32 (alloc_seg seg) <? m
   then ctr_set stat_min_alloc_seg (alloc_seg seg) else mret tt);;
  ctr_add stat_total_alloc_seg (- alloc_seg seg);;
  ctr_add stat_total_OOB_entry (- entry_cnt);;
  ctr_add stat_total_invalid_entry (- invalid_entry seg);;
  ctr_add stat_total_seg_bytes (- seg_bytes);;
  st_OOB phy_block_nb (mk_NVRAM_OOB_seg 0 0 0).

Definition UPDATE_NVRAM_OOB (phy_block_nb valid : Z) : SM Z :=
  conf sc;
  if u32 (BLOCK_NB sc) <=? phy_block_nb then mret FAIL else
  (if valid =? VALID then
     seg ← arr_load NVRAM_OOB_TABLE phy_block_nb;
     total ← ctr_get stat_total_alloc_seg;
     (if (free_entry seg =? 0) && (total =? TOTAL_OOB_SEG)
      then ctr_add stat_gc_remap_fail 1 else mret tt);;
     oob_write_entry phy_block_nb
   else if valid =? 0 then oob_reset phy_block_nb
   else mret tt);;
  mret SUCCESS.

Definition INCREASE_INVALID_OOB_ENTRY_COUNT (phy_block_nb : Z) : SM Z :=
  conf sc;
  if u32 (BLOCK_NB sc) <=? phy_block_nb then mret FAIL else
  seg ← arr_load NVRAM_OOB_TABLE phy_block_nb;
  st_OOB phy_block_nb
    (mk_NVRAM_OOB_seg (alloc_seg seg) (free_entry seg) (invalid_entry seg + 1));;
  ctr_add stat_total_invalid_entry 1;;
  mret SUCCESS.

(** The superblock with the most invalid entries, the first one of those:
    [(max_invalid_entry_cnt, victim_OOB_nb)]. *)
Definition select_oob_victim (block_nb : Z) : SM (Z * Z) :=
  mfold (Z.to_nat block_nb) 0 (0, -1) (fun i best =>
    seg ← arr_load NVRAM_OOB_TABLE i;
    mret (if best.1 <? invalid_entry seg then (invalid_entry seg, i) else best)).

Definition NVRAM_OOB_GC : SM Z :=
  conf sc;
  best ← select_oob_victim (BLOCK_NB sc);
  let victim_OOB_nb := best.2 in
  if victim_OOB_nb =? -1 then mret FAIL else
  seg ← arr_load NVRAM_OOB_TABLE victim_OOB_nb;
  let entry_nb := alloc_seg seg * OOB_ENTRY_PER_SEG - free_entry seg in
  let valid_entry_nb := entry_nb - invalid_entry seg in
  _ ← UPDATE_NVRAM_OOB victim_OOB_nb 0;
  mfor (Z.to_nat valid_entry_nb) 0 (fun _ => oob_write_entry victim_OOB_nb);;
  let NVRAM_OOB_rw_time :=
    Z.quot (entry_nb * OOB_ENTRY_BYTES * NVRAM_READ_DELAY) 64
    + Z.quot (valid_entry_nb * OOB_ENTRY_BYTES * NVRAM_WRITE_DELAY) 64 in
  _ ← UPDATE_NVRAM_TS victim_OOB_nb NVRAM_OOB_rw_time;
  ctr_add stat_NVRAMGC_print 1;;
  ctr_add stat_NVRAMGC_delay_print NVRAM_OOB_rw_time;;
  d ← ctr_get stat_NVRAMGC_delay_print;
  n ← ctr_get stat_NVRAMGC_print;
  (if n =? 0 then mcrash DivByZero else ctr_set stat_avg_NVRAMGC_delay (d / n));;
  mret SUCCESS.

(** [(double) stat_total_invalid_entry / stat_total_OOB_entry > 0.05] *)
Definition above_thre (invalid_ratio : spec_float) : bool :=
  SFltb INVALID_ENTRY_THRE invalid_ratio.

Definition remap_fail : SM Z := ctr_add stat_use_remap_fail 1;; mret FAIL.

(** The body of the [do ... while (count <= BLOCK_NB)] loop of [USE_REMAP];
    [next] is what follows a collection. *)
Definition use_remap_body (phy_block_nb : Z) (invalid_ratio : spec_float)
  (next : spec_float -> SM Z) : SM Z :=
  seg ← arr_load NVRAM_OOB_TABLE phy_block_nb;
  if 0 <? free_entry seg then mret SUCCESS else
  total ← ctr_get stat_total_alloc_seg;
  if total <? TOTAL_OOB_SEG then mret SUCCESS else
  entries ← ctr_get stat_total_OOB_entry;
  invalid ← ctr_get stat_total_invalid_entry;
  let invalid_ratio :=
    if 0 <? entries then d_div (d_of_Z invalid) (d_of_Z entries) else invalid_ratio in
  if negb (above_thre invalid_ratio) then remap_fail else
  r ← NVRAM_OOB_GC;
  if r =? FAIL then remap_fail else next invalid_ratio.

(** [n] is the number of collections left before [count] exceeds
    [BLOCK_NB]. *)
Fixpoint use_remap_loop (n : nat) (phy_block_nb : Z) (invalid_ratio : spec_float) : SM Z :=
  use_remap_body phy_block_nb invalid_ratio (fun invalid_ratio =>
    match n with
    | O => remap_fail
    | S n' => use_remap_loop n' phy_block_nb invalid_ratio
    end).

Definition USE_REMAP (phy_block_nb : Z) : SM Z :=
  conf sc;
  if u32 (BLOCK_NB sc) <=? phy_block_nb then mret FAIL else
  use_remap_loop (Z.to_nat (BLOCK_NB sc)) phy_block_nb (S754_zero false).

End Nvram.

(** ** Representation

    [L b] is the number of live entries of superblock [b]: those written and
    not invalidated since.  The four totals are the sums over the table,
    modulo 2^64. *)

Definition seg_at (t : list NVRAM_OOB_seg) (b : Z) : NVRAM_OOB_seg :=
  match zget t b with Some e => e | None => mk_NVRAM_OOB_seg 0 0 0 end.

Definition seg_entries (e : NVRAM_OOB_seg) : Z := alloc_seg e * OOB_ENTRY_PER_SEG - free_entry e.

Record oob_rep (n : Z) (L : Z -> Z) (t : list NVRAM_OOB_seg) (c : ctr -> Z) : Prop := mk_oob_rep {
  or_len : zlen t = n;
  or_seg : forall b, 0 <= b < n -> let e := seg_at t b in
    0 <= alloc_seg e /\ 0 <= free_entry e < OOB_ENTRY_PER_SEG /\ 0 <= seg_entries e /\
    0 <= invalid_entry e /\ seg_entries e - invalid_entry e = L b;
  or_alloc : c stat_total_alloc_seg = u64 (sumZ n (fun b => alloc_seg (seg_at t b)));
  or_entry : c stat_total_OOB_entry = u64 (sumZ n (fun b => seg_entries (seg_at t b)));
  or_invalid : c stat_total_invalid_entry = u64 (sumZ n (fun b => invalid_entry (seg_at t b)));
  or_bytes : c stat_total_seg_bytes =
    u64 (sumZ n (fun b => alloc_seg (seg_at t b) * (OOB_ENTRY_PER_SEG * OOB_ENTRY_BYTES)))
}.

(** The counters of the table updates, and those of all operations here. *)
Definition seg_ctr (c : ctr) : bool :=
  match c with
  | stat_total_alloc_seg | stat_total_OOB_entry | stat_total_invalid_entry
  | stat_total_seg_bytes | stat_max_alloc_seg | stat_min_alloc_seg
  | stat_gc_remap_fail => true
  | _ => false
  end.

Definition nv_ctr (c : ctr) : bool :=
  io_ctr c || seg_ctr c ||
  match c with
  | stat_use_remap_fail
  | stat_avg_NVRAMGC_delay | stat_NVRAMGC_print | stat_NVRAMGC_delay_print => true
  | _ => false
  end.

Definition oob_total (c : ctr) : bool :=
  match c with
  | stat_total_alloc_seg | stat_total_OOB_entry | stat_total_invalid_entry
  | stat_total_seg_bytes => true
  | _ => false
  end.

(** The 32-bit counters the averages are divided by; each stays below its
    width for [n] more increments. *)
Definition print_ctr (c : ctr) : bool :=
  match c with
  | stat_write_req_print | stat_GCRNVRAM_print | stat_NVRAMGC_print => true
  | _ => false
  end.
Definition budget (n : Z) (c : ctr -> Z) : Prop :=
  forall k, print_ctr k = true -> 0 <= c k /\ c k + n < 2 ^ 32.

(** The frame of the NVRAM operations. *)
Record nv_frame (s s' : ssdstate) : Prop := mk_nv_frame {
  nf_rest : same_rest s s';
  nf_inv : inverse_mapping_table s' = inverse_mapping_table s;
  nf_bst : block_state_table s' = block_state_table s;
  nf_log : nand_log s' = nand_log s;
  nf_ctrs : ctr_frame nv_ctr (ctrs s) (ctrs s')
}.

(** One more entry of superblock [b] does not take a segment beyond the
    capacity. *)
Definition oob_room (b : Z) (s : ssdstate) : Prop :=
  0 < free_entry (seg_at (NVRAM_OOB_TABLE s) b) \/
  ctrs s stat_total_alloc_seg < TOTAL_OOB_SEG.

(** ** Lemmas *)

#[global] Instance nv_frame_preorder : PreOrder nv_frame.
Proof.
  split.
  - intros s. constructor; reflexivity || by intros k.
  - intros s1 s2 s3 [] []. constructor; [by etrans|congruence..|].
    intros k Hk. rewrite nf_ctrs1, nf_ctrs0; done.
Qed.

Lemma budget_le n m c : m <= n -> budget n c -> budget m c.
Proof. intros Hle Hb k Hk. destruct (Hb k Hk). lia. Qed.

Lemma seg_at_get t b : 0 <= b < zlen t -> zget t b = Some (seg_at t b).
Proof. intros Hb. unfold seg_at. destruct (zget_is_Some t b Hb) as [x ->]. done. Qed.

Lemma seg_at_set t b e q :
  0 <= b < zlen t -> seg_at (zset b e t) q = if b =? q then e else seg_at t q.
Proof. intros Hb. unfold seg_at. rewrite zget_zset by done. by destruct (b =? q). Qed.

Lemma oob_sum_set t b e n (g : NVRAM_OOB_seg -> Z) c d :
  zlen t = n -> 0 <= b < n -> g e = g (seg_at t b) + d ->
  c = u64 (sumZ n (fun q => g (seg_at t q))) ->
  u64 (c + d) = u64 (sumZ n (fun q => g (seg_at (zset b e t) q))).
Proof.
  intros Hl Hb Hg ->. rewrite u64_add_l. f_equal.
  rewrite (sumZ_upd n (fun q => g (seg_at t q)) (fun q => g (seg_at (zset b e t) q)) b Hb).
  - rewrite seg_at_set by lia. rewrite Z.eqb_refl. lia.
  - intros q _ Hq. rewrite seg_at_set by lia. by zcase.
Qed.

(** The table after the segments of [b] become [e]; the totals follow. *)
Lemma oob_rep_set n L t c c' b e l :
  oob_rep n L t c -> 0 <= b < n ->
  0 <= alloc_seg e -> 0 <= free_entry e < OOB_ENTRY_PER_SEG -> 0 <= seg_entries e ->
  0 <= invalid_entry e -> seg_entries e - invalid_entry e = l ->
  c' stat_total_alloc_seg =
    u64 (c stat_total_alloc_seg + (alloc_seg e - alloc_seg (seg_at t b))) ->
  c' stat_total_OOB_entry =
    u64 (c stat_total_OOB_entry + (seg_entries e - seg_entries (seg_at t b))) ->
  c' stat_total_invalid_entry =
    u64 (c stat_total_invalid_entry + (invalid_entry e - invalid_entry (seg_at t b))) ->
  c' stat_total_seg_bytes =
    u64 (c stat_total_seg_bytes + (alloc_seg e - alloc_seg (seg_at t b))
           * (OOB_ENTRY_PER_SEG * OOB_ENTRY_BYTES)) ->
  oob_rep n (fset L b l) (zset b e t) c'.
Proof.
  intros [] Hb H1 H2 H3 H4 H5 E1 E2 E3 E4. constructor.
  - by rewrite zlen_zset.
  - intros q Hq. rewrite seg_at_set by lia. unfold fset.
    rewrite (Z.eqb_sym q b). destruct (b =? q); [done|by apply or_seg0].
  - rewrite E1. apply (oob_sum_set t b e n alloc_seg); auto; lia.
  - rewrite E2. apply (oob_sum_set t b e n seg_entries); auto; lia.
  - rewrite E3. apply (oob_sum_set t b e n invalid_entry); auto; lia.
  - rewrite E4. apply (oob_sum_set t b e n
      (fun x => alloc_seg x * (OOB_ENTRY_PER_SEG * OOB_ENTRY_BYTES))); auto; lia.
Qed.

Lemma oob_rep_ext n L L' t c c' :
  (forall b, 0 <= b < n -> L b = L' b) ->
  (forall k, oob_total k = true -> c' k = c k) -> oob_rep n L t c -> oob_rep n L' t c'.
Proof.
  intros HL Hc []. constructor; try (rewrite Hc by done; done); [done|].
  intros b Hb. rewrite <- HL by done. by apply or_seg0.
Qed.

Section NvramRules.
Context `{Clock}.
Implicit Types (s : ssdstate).
Variable n : Z.

(** The rest of a state in which only the table and the counters changed. *)
Lemma nv_frame_oob t c s :
  ctr_frame seg_ctr (ctrs s) c -> nv_frame s (set_NVRAM_OOB_TABLE t (set_ctrs c s)).
Proof.
  intros Hc. constructor; try done. intros k Hk. apply Hc. unfold nv_ctr in Hk.
  by rewrite !orb_false_iff in Hk; destruct Hk as [[_ ?] _].
Qed.

(** Normalise the table of the final state, leaving the counters folded. *)
Ltac oob_finish HQ :=
  match goal with |- ?Q _ ?S => apply (HQ (NVRAM_OOB_TABLE S) (ctrs S)) end;
  [ unfold fadd; match goal with |- oob_rep _ _ ?T _ => let T' := eval simpl in T in change T with T' end;
    rewrite ?zset_zset;
    apply (oob_rep_set n _ _ _ _ _ _ _ ltac:(eassumption));
    ctr_simpl; simpl ctr_wrap;
    unfold seg_entries, OOB_ENTRY_PER_SEG, OOB_ENTRY_BYTES in *;
    cbn [alloc_seg free_entry invalid_entry];
    first [ lia | eapply u64_stay; [eassumption|lia] | rewrite ?u64_add_l; f_equal; lia ]
  | let k := fresh "k" in let Hk := fresh "Hk" in intros k Hk; ctr_simpl; reflexivity ].

Lemma oob_write_entry_spec L b Q s :
  oob_rep n L (NVRAM_OOB_TABLE s) (ctrs s) -> 0 <= b < n ->
  (forall t c, oob_rep n (fadd L b 1) t c ->
     ctr_frame seg_ctr (ctrs s) c -> Q tt (set_NVRAM_OOB_TABLE t (set_ctrs c s))) ->
  wp (oob_write_entry b) Q s.
Proof.
  intros HR Hb HQ. destruct (HR) as [Hl Hseg Hta Hte Hti Htb].
  pose proof (seg_at_get (NVRAM_OOB_TABLE s) b ltac:(lia)) as Hg.
  destruct (Hseg b Hb) as (Ha & Hf & He & Hi & HL).
  unfold oob_write_entry. st_step. eapply wp_arr_load; [exact Hg|]. st_step. zcase.
  - st_step. apply wp_arr_store; [lia|]. st_steps. zcase; st_steps.
    all: eapply wp_arr_load; [simpl; by rewrite zget_zset_eq by lia|];
      st_step; (apply wp_arr_store; [simpl; rewrite zlen_zset; lia|]); st_steps.
    all: oob_finish HQ.
  - st_steps. eapply wp_arr_load; [exact Hg|]. st_step. apply wp_arr_store; [simpl; lia|].
    st_steps. oob_finish HQ.
Qed.

(** With room for it, an entry does not take the segments beyond the capacity. *)
Lemma oob_write_entry_total b s :
  0 <= b < zlen (NVRAM_OOB_TABLE s) -> oob_room b s ->
  0 <= free_entry (seg_at (NVRAM_OOB_TABLE s) b) ->
  0 <= ctrs s stat_total_alloc_seg <= TOTAL_OOB_SEG ->
  wp (oob_write_entry b) (fun _ s' => 0 <= ctrs s' stat_total_alloc_seg <= TOTAL_OOB_SEG) s.
Proof.
  intros Hb Hroom Hf Ht. unfold oob_room, TOTAL_OOB_SEG in *.
  pose proof (seg_at_get (NVRAM_OOB_TABLE s) b Hb) as Hg.
  unfold oob_write_entry. st_step. eapply wp_arr_load; [exact Hg|]. st_step. zcase.
  - st_step. apply wp_arr_store; [lia|]. st_steps. zcase; st_steps.
    all: eapply wp_arr_load; [simpl; by rewrite zget_zset_eq by lia|];
      st_step; (apply wp_arr_store; [simpl; rewrite zlen_zset; lia|]); st_steps.
    all: ctr_simpl; simpl ctr_wrap; rewrite u64_small; lia.
  - st_steps. eapply wp_arr_load; [exact Hg|]. st_step. apply wp_arr_store; [simpl; lia|].
    st_steps. ctr_simpl. lia.
Qed.

Lemma oob_reset_spec L b Q s :
  oob_rep n L (NVRAM_OOB_TABLE s) (ctrs s) -> 0 <= b < n ->
  (forall c, let t := zset b (mk_NVRAM_OOB_seg 0 0 0) (NVRAM_OOB_TABLE s) in
     oob_rep n (fset L b 0) t c -> ctr_frame seg_ctr (ctrs s) c ->
     Q tt (set_NVRAM_OOB_TABLE t (set_ctrs c s))) ->
  wp (oob_reset b) Q s.
Proof.
  intros HR Hb HQ. destruct (HR) as [Hl Hseg Hta Hte Hti Htb].
  destruct (Hseg b Hb) as (Ha & Hf & He & Hi & HL).
  unfold oob_reset. st_step. eapply wp_arr_load; [by apply seg_at_get; lia|]. st_steps.
  zcase; st_steps; (apply wp_arr_store; [simpl; lia|]); oob_finish (fun t : list NVRAM_OOB_seg => HQ).
Qed.

Lemma UPDATE_NVRAM_OOB_valid_spec L b Q s :
  geom (ssdparams s) -> BLOCK_NB (ssdparams s) = n ->
  oob_rep n L (NVRAM_OOB_TABLE s) (ctrs s) -> 0 <= b < n ->
  (forall t c, oob_rep n (fadd L b 1) t c -> ctr_frame seg_ctr (ctrs s) c ->
     Q SUCCESS (set_NVRAM_OOB_TABLE t (set_ctrs c s))) ->
  wp (UPDATE_NVRAM_OOB b VALID) Q s.
Proof.
  intros G Hn HR Hb HQ. destruct (geom_bounds _ G) as (_ & ? & _).
  unfold UPDATE_NVRAM_OOB. st_steps. rewrite u32_small by lia.
  destruct (Z.leb_spec (BLOCK_NB (ssdparams s)) b); [lia|].
  change (VALID =? VALID) with true. cbv iota. st_steps.
  pose proof (or_len _ _ _ _ HR) as Hl.
  eapply wp_arr_load; [by apply seg_at_get; lia|]. st_steps.
  destruct ((free_entry _ =? 0) && _); st_steps;
    (eapply (oob_write_entry_spec L); [|done|]).
  - eapply oob_rep_ext; [done| |exact HR]. intros k Hk. ctr_simpl. reflexivity.
  - intros t c Ht Hc. st_step. apply (HQ t c Ht). intros k Hk. rewrite Hc by done.
    ctr_simpl. reflexivity.
  - done.
  - intros t c Ht Hc. st_step. by apply HQ.
Qed.

Lemma UPDATE_NVRAM_OOB_reset_spec L b Q s :
  geom (ssdparams s) -> BLOCK_NB (ssdparams s) = n ->
  oob_rep n L (NVRAM_OOB_TABLE s) (ctrs s) -> 0 <= b < n ->
  (forall c, let t := zset b (mk_NVRAM_OOB_seg 0 0 0) (NVRAM_OOB_TABLE s) in
     oob_rep n (fset L b 0) t c -> ctr_frame seg_ctr (ctrs s) c ->
     Q SUCCESS (set_NVRAM_OOB_TABLE t (set_ctrs c s))) ->
  wp (UPDATE_NVRAM_OOB b 0) Q s.
Proof.
  intros G Hn HR Hb HQ. destruct (geom_bounds _ G) as (_ & ? & _).
  unfold UPDATE_NVRAM_OOB. st_steps. rewrite u32_small by lia.
  destruct (Z.leb_spec (BLOCK_NB (ssdparams s)) b); [lia|].
  change (0 =? VALID) with false. change (0 =? 0) with true. cbv iota. st_step.
  eapply oob_reset_spec; [done|done|]. intros c t Ht Hc. st_step. by apply HQ.
Qed.

Lemma INCREASE_INVALID_spec L b Q s :
  geom (ssdparams s) -> BLOCK_NB (ssdparams s) = n ->
  oob_rep n L (NVRAM_OOB_TABLE s) (ctrs s) -> 0 <= b < n ->
  (forall t c, oob_rep n (fadd L b (-1)) t c -> ctr_frame seg_ctr (ctrs s) c ->
     Q SUCCESS (set_NVRAM_OOB_TABLE t (set_ctrs c s))) ->
  wp (INCREASE_INVALID_OOB_ENTRY_COUNT b) Q s.
Proof.
  intros G Hn HR Hb HQ. destruct (HR) as [Hl Hseg Hta Hte Hti Htb].
  destruct (geom_bounds _ G) as (_ & ? & _).
  destruct (Hseg b Hb) as (Ha & Hf & He & Hi & HL).
  unfold INCREASE_INVALID_OOB_ENTRY_COUNT. st_steps. rewrite u32_small by lia.
  zcase. st_step. eapply wp_arr_load; [by apply seg_at_get; lia|]. st_step.
  apply wp_arr_store; [lia|]. st_steps. oob_finish HQ.
Qed.

(** The first superblock with the most invalid entries, if any has one. *)
Definition oob_victim (t : list NVRAM_OOB_seg) (k m v : Z) : Prop :=
  (v = -1 /\ m = 0 \/ 0 <= v < k /\ m = invalid_entry (seg_at t v) /\ 0 < m) /\
  (forall b, 0 <= b < k -> invalid_entry (seg_at t b) <= m) /\
  (forall b, 0 <= b < v -> invalid_entry (seg_at t b) < m).

Lemma select_oob_victim_spec Q s :
  zlen (NVRAM_OOB_TABLE s) = n -> 0 <= n ->
  (forall m v, oob_victim (NVRAM_OOB_TABLE s) n m v -> Q (m, v) s) ->
  wp (select_oob_victim n) Q s.
Proof.
  intros Hl Hn HQ. unfold select_oob_victim. eapply wp_mono.
  - apply (wp_mfold (fun k a s' => s' = s /\ oob_victim (NVRAM_OOB_TABLE s) k a.1 a.2)).
    + split; [done|]. split; [by left|]. split; intros; simpl in *; lia.
    + intros i [m v] s' Hi [-> (Hv & Hle & Hlt)]. simpl in *. st_step.
      eapply wp_arr_load; [by apply seg_at_get; lia|]. st_step. split; [done|].
      destruct (Z.ltb_spec m (invalid_entry (seg_at (NVRAM_OOB_TABLE s) i))); simpl.
      * split; [right; lia|]. split.
        -- intros b Hb. destruct (decide (b = i)) as [->|]; [lia|].
           specialize (Hle b ltac:(lia)). lia.
        -- intros b Hb. specialize (Hle b ltac:(lia)). lia.
      * split; [lia|]. split; [|done]. intros b Hb. destruct (decide (b = i)) as [->|]; [lia|].
        apply Hle. lia.
  - intros [m v] s' [-> Hv]. apply HQ. by rewrite Z2Nat.id, Z.add_0_l in Hv by lia.
Qed.

Lemma oob_write_entries_spec L b m s0 s :
  oob_rep n L (NVRAM_OOB_TABLE s) (ctrs s) -> 0 <= b < n -> nv_frame s0 s ->
  wp (mfor m 0 (fun _ => oob_write_entry b))
     (fun _ s' => oob_rep n (fadd L b (Z.of_nat m)) (NVRAM_OOB_TABLE s') (ctrs s') /\
        nv_frame s0 s' /\
        forall k, print_ctr k = true -> ctrs s' k = ctrs s k) s.
Proof.
  intros HR Hb Hf. eapply wp_mono.
  - apply (wp_mfor (fun i s' => oob_rep n (fadd L b i) (NVRAM_OOB_TABLE s') (ctrs s') /\
      nv_frame s0 s' /\ forall k, print_ctr k = true -> ctrs s' k = ctrs s k)).
    + split; [|done]. eapply oob_rep_ext; [| |exact HR]; [|done].
      intros q _. unfold fadd, fset. zcase. subst. lia.
    + intros i s' Hi (HR' & Hf' & Hp). eapply oob_write_entry_spec; [exact HR'|done|].
      intros t c Ht Hc. split.
      * eapply oob_rep_ext; [| |exact Ht]; [|done]. intros q _. unfold fadd, fset. zcases; lia.
      * split; [etrans; [exact Hf'|by apply nv_frame_oob]|].
        intros k Hk. simpl. rewrite <- Hp by done. apply Hc. by destruct k.
  - intros ? s' H'. simpl in H'. exact H'.
Qed.

Lemma booked_nv_frame s s' : booked [] s s' -> nv_frame s s'.
Proof.
  intros Hb. pose proof (booked_rest _ _ _ Hb). destruct Hb. constructor; try done.
  intros k Hk. apply bk_ctrs. unfold nv_ctr in Hk. by destruct (io_ctr k).
Qed.

(** Collecting the invalid entries of one superblock keeps every live entry. *)
Lemma NVRAM_OOB_GC_spec L k s :
  geom (ssdparams s) -> BLOCK_NB (ssdparams s) = n -> timing_wf s ->
  oob_rep n L (NVRAM_OOB_TABLE s) (ctrs s) -> (forall b, 0 <= b < n -> 0 <= L b) ->
  0 <= k -> budget (k + 1) (ctrs s) ->
  wp NVRAM_OOB_GC (fun r s' => nv_frame s s' /\
    oob_rep n L (NVRAM_OOB_TABLE s') (ctrs s') /\ budget k (ctrs s') /\
    (r = FAIL \/ r = SUCCESS)) s.
Proof.
  intros G Hn Htw HR HL Hk Hbud. pose proof (or_len _ _ _ _ HR) as Hl.
  pose proof (g_block _ G). unfold NVRAM_OOB_GC. st_steps. rewrite Hn.
  apply select_oob_victim_spec; [done|lia|]. intros m v (Hv & _ & _). cbn [snd].
  destruct (Z.eqb_spec v (-1)) as [->|Hne].
  { st_step. split; [done|]. split; [done|]. split; [|by left].
    eapply budget_le; [|exact Hbud]; lia. }
  assert (0 <= v < n) as Hvn by lia. st_step.
  eapply wp_arr_load; [by apply seg_at_get; lia|]. st_step.
  eapply UPDATE_NVRAM_OOB_reset_spec; [done|done|exact HR|done|].
  intros c t Ht Hc. st_step.
  destruct (or_seg _ _ _ _ HR v Hvn) as (_ & _ & _ & _ & HLv).
  change (alloc_seg (seg_at (NVRAM_OOB_TABLE s) v) * OOB_ENTRY_PER_SEG
          - free_entry (seg_at (NVRAM_OOB_TABLE s) v))
    with (seg_entries (seg_at (NVRAM_OOB_TABLE s) v)).
  rewrite HLv.
  eapply wp_mono; [apply (oob_write_entries_spec (fset L v 0) v _ s); [exact Ht|done|]|].
  { by apply nv_frame_oob. }
  intros ? s1 (HR1 & Hf1 & Hp1). cbv beta. st_step.
  assert (ssdparams s1 = ssdparams s) as Hs1 by apply Hf1.
  eapply wp_mono; [apply UPDATE_NVRAM_TS_ok|].
  { eapply same_rest_timing; [apply Hf1|done]. }
  { rewrite Hs1. lia. }
  intros ? s2 Hb2. pose proof (booked_nv_frame _ _ Hb2) as Hf2. st_steps.
  assert (forall q, print_ctr q = true -> ctrs s2 q = ctrs s q) as Hp2.
  { intros q Hq. rewrite (bk_ctrs _ _ _ Hb2) by (by destruct q). rewrite Hp1 by done.
    simpl. apply Hc. by destruct q. }
  rewrite (Hp2 stat_NVRAMGC_print) by done.
  destruct (Hbud stat_NVRAMGC_print eq_refl) as [Hp0 Hp3].
  simpl (ctr_wrap stat_NVRAMGC_print _). rewrite u32_small by lia.
  destruct (Z.eqb_spec (ctrs s stat_NVRAMGC_print + 1) 0); [lia|]. st_steps.
  split; [|split; [|split; [|by right]]].
  - etrans; [exact Hf1|]. etrans; [exact Hf2|]. constructor; try done.
    intros q Hq. ctr_simpl. done.
  - assert (oob_rep n L (NVRAM_OOB_TABLE s2) (ctrs s2)) as HR2.
    { rewrite (bk_oob _ _ _ Hb2). eapply oob_rep_ext; [| |exact HR1].
      - intros q Hq. unfold fadd, fset. rewrite Z2Nat.id by auto.
        rewrite Z.eqb_refl. zcase. by subst.
      - intros q Hq. apply (bk_ctrs _ _ _ Hb2). by destruct q. }
    eapply oob_rep_ext; [done| |exact HR2]. intros q Hq. ctr_simpl. done.
  - intros q Hq. destruct (Hbud q Hq) as [Hq0 Hq1].
    destruct (decide (q = stat_NVRAMGC_print)) as [->|Hqn].
    + ctr_simpl. simpl ctr_wrap. rewrite u32_small by lia. lia.
    + assert (q <> stat_avg_NVRAMGC_delay /\ q <> stat_NVRAMGC_delay_print) as [] by (by destruct q).
      rewrite !ctrs_upd_ne by done. rewrite Hp2 by done. lia.
Qed.

(** What [USE_REMAP] promises when it started in [s0]. *)
Definition remap_post (L : Z -> Z) (b k : Z) (s0 : ssdstate) (r : Z) (s : ssdstate) : Prop :=
  nv_frame s0 s /\ oob_rep n L (NVRAM_OOB_TABLE s) (ctrs s) /\ budget k (ctrs s) /\
  (r = FAIL \/ r = SUCCESS /\ oob_room b s).

Lemma remap_fail_spec L b k s0 s :
  nv_frame s0 s -> oob_rep n L (NVRAM_OOB_TABLE s) (ctrs s) -> budget k (ctrs s) ->
  wp remap_fail (remap_post L b k s0) s.
Proof.
  intros Hf HR Hb. unfold remap_fail. st_steps. split; [|split; [|split; [|by left]]].
  - etrans; [exact Hf|]. constructor; try done. intros q Hq. ctr_simpl. done.
  - eapply oob_rep_ext; [done| |exact HR]. intros q Hq. ctr_simpl. done.
  - intros q Hq. ctr_simpl. by apply Hb.
Qed.

Lemma use_remap_body_spec L b k m ratio next s0 s :
  geom (ssdparams s) -> BLOCK_NB (ssdparams s) = n -> timing_wf s ->
  oob_rep n L (NVRAM_OOB_TABLE s) (ctrs s) -> (forall b, 0 <= b < n -> 0 <= L b) ->
  0 <= b < n -> 0 <= k <= m -> budget (m + 1) (ctrs s) -> nv_frame s0 s ->
  (forall ratio' s1, nv_frame s s1 -> oob_rep n L (NVRAM_OOB_TABLE s1) (ctrs s1) ->
     budget m (ctrs s1) -> wp (next ratio') (remap_post L b k s0) s1) ->
  wp (use_remap_body b ratio next) (remap_post L b k s0) s.
Proof.
  intros G Hn Htw HR HL Hb Hk Hbud Hf Hnext. unfold use_remap_body.
  pose proof (or_len _ _ _ _ HR) as Hl.
  assert (budget k (ctrs s)) as Hbk by (eapply budget_le; [|exact Hbud]; lia).
  st_step. eapply wp_arr_load; [by apply seg_at_get; lia|].
  destruct (Z.ltb_spec 0 (free_entry (seg_at (NVRAM_OOB_TABLE s) b))).
  { st_step. split; [done|]. split; [done|]. split; [done|]. right. split; [done|by left]. }
  st_steps. destruct (Z.ltb_spec (ctrs s stat_total_alloc_seg) TOTAL_OOB_SEG).
  { st_step. split; [done|]. split; [done|]. split; [done|]. right. split; [done|by right]. }
  st_steps. match goal with |- context [above_thre ?r] => generalize r end. intros ratio'.
  destruct (negb (above_thre ratio')); [by apply remap_fail_spec|]. st_step.
  eapply wp_mono; [apply (NVRAM_OOB_GC_spec L m); try done; lia|].
  intros r s1 (Hf1 & HR1 & Hb1 & [-> | ->]); simpl (_ =? FAIL); cbv iota.
  - apply remap_fail_spec; [by etrans|done|]. eapply budget_le; [|exact Hb1]; lia.
  - by apply Hnext.
Qed.

Lemma use_remap_loop_spec L b m k ratio s0 s :
  geom (ssdparams s) -> BLOCK_NB (ssdparams s) = n -> timing_wf s ->
  oob_rep n L (NVRAM_OOB_TABLE s) (ctrs s) -> (forall b, 0 <= b < n -> 0 <= L b) ->
  0 <= b < n -> 0 <= k -> budget (k + Z.of_nat m + 1) (ctrs s) -> nv_frame s0 s ->
  wp (use_remap_loop m b ratio) (remap_post L b k s0) s.
Proof.
  revert s ratio. induction m as [|m IH]; intros s ratio G Hn Htw HR HL Hb Hk Hbud Hf;
    cbn [use_remap_loop].
  - apply (use_remap_body_spec L b k k); try done; try lia.
    { by rewrite Z.add_0_r in Hbud. }
    intros ratio' s1 Hf1 HR1 Hb1. apply remap_fail_spec; [by etrans|done|done].
  - apply (use_remap_body_spec L b k (k + Z.of_nat m + 1)); try done; try lia.
    { eapply budget_le; [|exact Hbud]; lia. }
    intros ratio' s1 Hf1 HR1 Hb1.
    assert (ssdparams s1 = ssdparams s) as Hs1 by apply Hf1.
    apply IH; try rewrite Hs1; try done; [|by etrans].
    eapply same_rest_timing; [apply Hf1|done].
Qed.

Lemma USE_REMAP_spec L b k s :
  geom (ssdparams s) -> BLOCK_NB (ssdparams s) = n -> timing_wf s ->
  oob_rep n L (NVRAM_OOB_TABLE s) (ctrs s) -> (forall b, 0 <= b < n -> 0 <= L b) ->
  0 <= b < n -> 0 <= k -> budget (k + n + 1) (ctrs s) ->
  wp (USE_REMAP b) (remap_post L b k s) s.
Proof.
  intros G Hn Htw HR HL Hb Hk Hbud. destruct (geom_bounds _ G) as (_ & ? & _).
  pose proof (g_block _ G). unfold USE_REMAP. st_steps. rewrite Hn, u32_small by lia. zcase.
  apply use_remap_loop_spec; try done. by rewrite Z2Nat.id by lia.
Qed.
End NvramRules.
