(* ===== verification/Mapping.v ===== *)
(** * The page mapping: ftl_mapping_manager.c

    Reading the mapping table, dropping the physical page of a logical page
    ([UPDATE_OLD_PAGE_MAPPING]) and installing a new one
    ([UPDATE_NEW_PAGE_MAPPING]). *)

From Stdlib Require Import ZArith Lia List.
From stdpp Require Import base tactics numbers list functions.
From S2P Require Import Prelude Config State Timing Inverse Nvram.

Open Scope Z_scope.

Definition GET_MAPPING_INFO (lpn : Z) : SM Z := arr_load mapping_table lpn.

Definition UPDATE_OLD_PAGE_MAPPING (lpn : Z) : SM Z :=
  old_ppn ← GET_MAPPING_INFO lpn;
  if old_ppn =? -1 then mret SUCCESS else
  r ← DECREASE_INVERSE_MAPPING old_ppn lpn;
  (if r =? SUCCESS then
     flash ← CALC_FLASH old_ppn;
     block ← CALC_BLOCK old_ppn;
     page ← CALC_PAGE old_ppn;
     _ ← UPDATE_BLOCK_STATE_ENTRY flash block page INVALID;
     nv ← arr_load in_nvram lpn;
     (if nv =? 1 then _ ← INCREASE_INVALID_OOB_ENTRY_COUNT block; mret tt else mret tt)
   else mret tt);;
  mret SUCCESS.

Definition UPDATE_NEW_PAGE_MAPPING (lpn ppn block_type : Z) : SM Z :=
  r ← INCREASE_INVERSE_MAPPING ppn lpn;
  (if r =? SUCCESS then
     st_mapping_table lpn ppn;;
     flash ← CALC_FLASH ppn;
     block ← CALC_BLOCK ppn;
     page ← CALC_PAGE ppn;
     _ ← UPDATE_BLOCK_STATE flash block block_type;
     _ ← UPDATE_BLOCK_STATE_ENTRY flash block page VALID;
     mret tt
   else mret tt);;
  mret SUCCESS.

(** ** The page tables together

    [R], [C] and [V] represent the inverse mapping and the block state as in
    Inverse.v, [L] the NVRAM table as in Nvram.v; the statistics counters [k]
    more requests can count on are in [budget]. *)
Record core (sc : ssdconf) (k : Z) (R : Z -> Z -> Z) (C V L : Z -> Z) (s : ssdstate)
  : Prop := mk_core {
  co_params : ssdparams s = sc;
  co_geom : geom sc;
  co_time : timing_wf s;
  co_inv : inv_rep (pages sc) R C (inverse_mapping_table s);
  co_blk : blk_rep sc V None (block_state_table s);
  co_stat : stat_rep (pages sc) V (ctrs s);
  co_oob : oob_rep (BLOCK_NB sc) L (NVRAM_OOB_TABLE s) (ctrs s);
  co_bud : budget k (ctrs s)
}.

(** The counters [core] speaks about. *)
Definition core_ctr (c : ctr) : bool :=
  page_ctr c || oob_total c || print_ctr c.

(** Nothing but the page tables, the counters and the clock has changed. *)
Record quiet (s s' : ssdstate) : Prop := mk_quiet {
  qu_rest : same_rest s s';
  qu_log : nand_log s' = nand_log s
}.

(** ** Lemmas *)

#[global] Instance quiet_preorder : PreOrder quiet.
Proof.
  split; [by intros s|]. intros s1 s2 s3 [] []. constructor; [by etrans|congruence].
Qed.

Lemma stat_rep_ctrs N V c c' :
  (forall q, page_ctr q = true -> c' q = c q) -> stat_rep N V c -> stat_rep N V c'.
Proof. intros Hc []. by constructor; rewrite Hc. Qed.

Lemma budget_ctrs k c c' :
  (forall q, print_ctr q = true -> c' q = c q) -> budget k c -> budget k c'.
Proof. intros Hc Hb q Hq. rewrite Hc by done. by apply Hb. Qed.

(** [core] only depends on the tables and its own counters. *)
Lemma core_frame sc k R C V L s s' :
  core sc k R C V L s -> same_rest s s' ->
  inverse_mapping_table s' = inverse_mapping_table s ->
  block_state_table s' = block_state_table s ->
  NVRAM_OOB_TABLE s' = NVRAM_OOB_TABLE s ->
  (forall q, core_ctr q = true -> ctrs s' q = ctrs s q) -> core sc k R C V L s'.
Proof.
  intros [] Hr E1 E2 E3 Hc. pose proof (sm_params _ _ Hr) as E0.
  assert (forall q, page_ctr q = true \/ oob_total q = true \/ print_ctr q = true ->
            ctrs s' q = ctrs s q) as Hc'.
  { intros q Hq. apply Hc. unfold core_ctr. rewrite !orb_true_iff. tauto. }
  constructor; rewrite ?E1, ?E2, ?E3; try done.
  - congruence.
  - by eapply same_rest_timing.
  - eapply stat_rep_ctrs; [|done]. auto.
  - eapply oob_rep_ext; [done| |done]. auto.
  - eapply budget_ctrs; [|done]. auto.
Qed.

Lemma core_booked sc k R C V L c s s' : core sc k R C V L s -> booked c s s' -> core sc k R C V L s'.
Proof.
  intros Hc Hb. eapply core_frame; [exact Hc|by eapply booked_rest|by apply Hb..|].
  intros q Hq. apply Hb. by destruct q.
Qed.

Lemma core_le sc k k' R C V L s : k' <= k -> core sc k R C V L s -> core sc k' R C V L s.
Proof. intros Hk []. constructor; try done. by eapply budget_le. Qed.

Lemma core_ext (sc : ssdconf) k R R' C C' V V' L L' s :
  (forall x p, 0 <= p < pages sc -> R x p = R' x p) -> (forall p, C p = C' p) ->
  (forall p, V p = V' p) -> (forall b, 0 <= b < BLOCK_NB sc -> L b = L' b) ->
  core sc k R C V L s -> core sc k R' C' V' L' s.
Proof.
  intros HR HC HV HL []. constructor; try done.
  - by eapply inv_rep_ext; [exact HR| |exact co_inv0].
  - by eapply blk_rep_ext; [|exact co_blk0].
  - by eapply stat_rep_ext; [|exact co_stat0].
  - by eapply oob_rep_ext; [| |exact co_oob0].
Qed.

Section CoreRules.
Implicit Types (s : ssdstate).
Variable sc : ssdconf.

Lemma core_INCREASE k R C V L p l Q s :
  core sc k R C V L s -> 0 <= p < pages sc -> C p < 127 ->
  (forall s', core sc k (radd R l p 1) (fadd C p 1) V L s' -> quiet s s' -> Q SUCCESS s') ->
  wp (INCREASE_INVERSE_MAPPING p l) Q s.
Proof.
  intros [] Hp Hc HQ. eapply INCREASE_spec; [done|done|done|]. intros t Ht.
  apply HQ; [|by constructor]. constructor; try done. by destruct co_time0.
Qed.

Lemma core_DECREASE k R C V L p l Q s :
  core sc k R C V L s -> 0 <= p < pages sc -> 0 < R l p ->
  (forall s', core sc k (radd R l p (-1)) (fadd C p (-1)) V L s' -> quiet s s' -> Q SUCCESS s') ->
  wp (DECREASE_INVERSE_MAPPING p l) Q s.
Proof.
  intros [] Hp Hc HQ. eapply DECREASE_spec; [done|done|done|]. intros t Ht.
  apply HQ; [|by constructor]. constructor; try done. by destruct co_time0.
Qed.

(** A change of the block state, with its counters. *)
Lemma core_blocks k R C V V' L t c s :
  core sc k R C V L s -> blk_rep sc V' None t -> stat_rep (pages sc) V' c ->
  ctr_frame page_ctr (ctrs s) c -> core sc k R C V' L (set_block_state_table t (set_ctrs c s)).
Proof.
  intros [] Ht Hs Hc. constructor; try done.
  - by destruct co_time0.
  - eapply oob_rep_ext; [done| |exact co_oob0]. intros q Hq. apply Hc. by destruct q.
  - eapply budget_ctrs; [|exact co_bud0]. intros q Hq. apply Hc. by destruct q.
Qed.

Lemma core_mark k R C V L f b i valid v Q s :
  core sc k R C V L s ->
  0 <= f < FLASH_NB sc -> 0 <= b < BLOCK_NB sc -> 0 <= i < PAGE_NB sc ->
  ref_change (V (addr sc f b i)) valid v ->
  (forall s', core sc k R C (fset V (addr sc f b i) v) L s' -> quiet s s' -> Q SUCCESS s') ->
  wp (UPDATE_BLOCK_STATE_ENTRY f b i valid) Q s.
Proof.
  intros Hc Hf Hb Hi Hch HQ. destruct (Hc).
  eapply (UPDATE_BLOCK_STATE_ENTRY_spec sc); try done.
  intros s' (t & c & -> & Ht & Hs & Hfr). apply HQ; [|by constructor].
  by eapply core_blocks.
Qed.

Lemma core_type k R C V L f b ty Q s :
  core sc k R C V L s ->
  0 <= f < FLASH_NB sc -> 0 <= b < BLOCK_NB sc -> ty <> EMPTY_BLOCK ->
  (forall s', core sc k R C V L s' -> quiet s s' -> Q SUCCESS s') ->
  wp (UPDATE_BLOCK_STATE f b ty) Q s.
Proof.
  intros Hc Hf Hb Hty HQ. destruct (Hc).
  eapply (UPDATE_BLOCK_STATE_type_spec sc); try done.
  intros t Ht. apply HQ; [|by constructor]. constructor; try done. by destruct co_time0.
Qed.

Lemma core_erase k R C V L f b Q s :
  core sc k R C V L s ->
  0 <= f < FLASH_NB sc -> 0 <= b < BLOCK_NB sc ->
  (forall s', core sc k R C (fclear V (addr sc f b 0) (PAGE_NB sc)) L s' -> quiet s s' -> Q SUCCESS s') ->
  wp (UPDATE_BLOCK_STATE f b EMPTY_BLOCK) Q s.
Proof.
  intros Hc Hf Hb HQ. destruct (Hc).
  eapply (UPDATE_BLOCK_STATE_empty_spec sc); try done.
  intros t c Ht Hs Hfr. apply HQ; [|by constructor]. by eapply core_blocks.
Qed.

(** A change of the NVRAM table, with its counters. *)
Lemma core_segs k R C V L L' t c s :
  core sc k R C V L s -> oob_rep (BLOCK_NB sc) L' t c ->
  ctr_frame seg_ctr (ctrs s) c -> core sc k R C V L' (set_NVRAM_OOB_TABLE t (set_ctrs c s)).
Proof.
  intros [] Ht Hc. constructor; try done.
  - by destruct co_time0.
  - eapply stat_rep_ctrs; [|exact co_stat0]. intros q Hq. apply Hc. by destruct q.
  - eapply budget_ctrs; [|exact co_bud0]. intros q Hq. apply Hc. by destruct q.
Qed.

Lemma core_oob_valid k R C V L b Q s :
  core sc k R C V L s -> 0 <= b < BLOCK_NB sc ->
  (forall s', core sc k R C V (fadd L b 1) s' -> quiet s s' -> Q SUCCESS s') ->
  wp (UPDATE_NVRAM_OOB b VALID) Q s.
Proof.
  intros Hc Hb HQ. destruct (Hc). eapply (UPDATE_NVRAM_OOB_valid_spec (BLOCK_NB sc)); rewrite ?co_params0; try done.
  intros t c Ht Hfr. apply HQ; [|by constructor]. by eapply core_segs.
Qed.

Lemma core_oob_reset k R C V L b Q s :
  core sc k R C V L s -> 0 <= b < BLOCK_NB sc ->
  (forall s', core sc k R C V (fset L b 0) s' -> quiet s s' -> Q SUCCESS s') ->
  wp (UPDATE_NVRAM_OOB b 0) Q s.
Proof.
  intros Hc Hb HQ. destruct (Hc). eapply (UPDATE_NVRAM_OOB_reset_spec (BLOCK_NB sc)); rewrite ?co_params0; try done.
  intros c t Ht Hfr. apply HQ; [|by constructor]. by eapply core_segs.
Qed.

Lemma core_oob_invalid k R C V L b Q s :
  core sc k R C V L s -> 0 <= b < BLOCK_NB sc ->
  (forall s', core sc k R C V (fadd L b (-1)) s' -> quiet s s' -> Q SUCCESS s') ->
  wp (INCREASE_INVALID_OOB_ENTRY_COUNT b) Q s.
Proof.
  intros Hc Hb HQ. destruct (Hc). eapply (INCREASE_INVALID_spec (BLOCK_NB sc)); rewrite ?co_params0; try done.
  intros t c Ht Hfr. apply HQ; [|by constructor]. by eapply core_segs.
Qed.

Lemma wp_CALC_FLASH_core k R C V L p Q s :
  core sc k R C V L s -> 0 <= p < pages sc -> Q (flash_of sc p) s -> wp (CALC_FLASH p) Q s.
Proof. intros [] Hp HQ. apply wp_CALC_FLASH; by rewrite ?co_params0. Qed.

Lemma wp_CALC_BLOCK_core k R C V L p Q s :
  core sc k R C V L s -> 0 <= p < pages sc -> Q (block_of sc p) s -> wp (CALC_BLOCK p) Q s.
Proof. intros [] Hp HQ. apply wp_CALC_BLOCK; by rewrite ?co_params0. Qed.

Lemma wp_CALC_PAGE_core k R C V L p Q s :
  core sc k R C V L s -> 0 <= p < pages sc -> Q (page_of sc p) s -> wp (CALC_PAGE p) Q s.
Proof. intros [] Hp HQ. apply wp_CALC_PAGE; by rewrite ?co_params0. Qed.

(** The reference count of the page at its computed address. *)
Lemma core_mark_page k R C V L p valid v Q s :
  core sc k R C V L s -> 0 <= p < pages sc -> ref_change (V p) valid v ->
  (forall s', core sc k R C (fset V p v) L s' -> quiet s s' -> Q SUCCESS s') ->
  wp (UPDATE_BLOCK_STATE_ENTRY (flash_of sc p) (block_of sc p) (page_of sc p) valid) Q s.
Proof.
  intros Hc Hp Hch HQ. pose proof (co_geom _ _ _ _ _ _ _ Hc) as G.
  eapply core_mark; [exact Hc|by apply flash_of_range|by apply block_of_range|
    by apply page_of_range|rewrite addr_parts by done; exact Hch|].
  rewrite addr_parts by done. exact HQ.
Qed.

(** Dropping the page of [l]: one owner less, and one live NVRAM entry less
    when the entry of [l] was in NVRAM. *)
Lemma UPDATE_OLD_spec k R C V L l p nv Q s :
  core sc k R C V L s -> 0 <= p < pages sc -> zget (mapping_table s) l = Some p ->
  zget (in_nvram s) l = Some nv -> 0 < R l p -> 0 < V p ->
  (forall s', core sc k (radd R l p (-1)) (fadd C p (-1)) (fset V p (vdec (V p)))
       (if nv =? 1 then fadd L (block_of sc p) (-1) else L) s' -> quiet s s' ->
     Q SUCCESS s') ->
  wp (UPDATE_OLD_PAGE_MAPPING l) Q s.
Proof.
  intros Hc Hp Hm Hnv Hr Hv HQ. pose proof (co_geom _ _ _ _ _ _ _ Hc) as G.
  unfold UPDATE_OLD_PAGE_MAPPING, GET_MAPPING_INFO. st_step.
  eapply wp_arr_load; [exact Hm|]. destruct (Z.eqb_spec p (-1)); [lia|]. st_step.
  eapply core_DECREASE; [exact Hc|done|done|]. intros s1 Hc1 Hq1.
  change (SUCCESS =? SUCCESS) with true. cbv iota. st_step. st_step.
  eapply wp_CALC_FLASH_core; [exact Hc1|done|]. st_step.
  eapply wp_CALC_BLOCK_core; [exact Hc1|done|]. st_step.
  eapply wp_CALC_PAGE_core; [exact Hc1|done|]. st_step.
  eapply core_mark_page; [exact Hc1|done|by constructor|]. intros s2 Hc2 Hq2.
  assert (quiet s s2) as Hq by (by etrans).
  st_step. eapply wp_arr_load; [by rewrite (sm_nv _ _ (qu_rest _ _ Hq))|].
  destruct (nv =? 1); st_step.
  - eapply core_oob_invalid; [exact Hc2|by apply block_of_range|]. intros s3 Hc3 Hq3.
    st_steps. apply HQ; [done|by etrans].
  - st_step. by apply HQ.
Qed.

Lemma UPDATE_OLD_unmapped l Q s :
  zget (mapping_table s) l = Some (-1) -> Q SUCCESS s -> wp (UPDATE_OLD_PAGE_MAPPING l) Q s.
Proof.
  intros Hm HQ. unfold UPDATE_OLD_PAGE_MAPPING, GET_MAPPING_INFO. st_step.
  eapply wp_arr_load; [exact Hm|]. simpl. by st_step.
Qed.

(** Installing page [p] for [l]: one owner more. *)
Lemma UPDATE_NEW_spec k R C V L l p ty Q s :
  core sc k R C V L s -> 0 <= p < pages sc -> 0 <= l < zlen (mapping_table s) ->
  C p < 127 -> 0 <= V p < 127 -> ty <> EMPTY_BLOCK ->
  (forall s', core sc k (radd R l p 1) (fadd C p 1) (fset V p (V p + 1)) L s' ->
     quiet (set_mapping_table (zset l p (mapping_table s)) s) s' -> Q SUCCESS s') ->
  wp (UPDATE_NEW_PAGE_MAPPING l p ty) Q s.
Proof.
  intros Hc Hp Hl HC HV Hty HQ. pose proof (co_geom _ _ _ _ _ _ _ Hc) as G.
  unfold UPDATE_NEW_PAGE_MAPPING. st_step.
  eapply core_INCREASE; [exact Hc|done|done|]. intros s1 Hc1 Hq1.
  change (SUCCESS =? SUCCESS) with true. cbv iota. st_step. st_step.
  pose proof (sm_map _ _ (qu_rest _ _ Hq1)) as Hm.
  apply wp_arr_store; [by rewrite Hm|]. rewrite Hm.
  set (s2 := set_mapping_table _ s1).
  assert (core sc k (radd R l p 1) (fadd C p 1) V L s2) as Hc2.
  { destruct Hc1. constructor; try done. by destruct co_time0. }
  assert (quiet (set_mapping_table (zset l p (mapping_table s)) s) s2) as Hq2.
  { destruct Hq1 as [[] ?]. constructor; [constructor|]; done. }
  st_step. eapply wp_CALC_FLASH_core; [exact Hc2|done|]. st_step.
  eapply wp_CALC_BLOCK_core; [exact Hc2|done|]. st_step.
  eapply wp_CALC_PAGE_core; [exact Hc2|done|]. st_step.
  eapply core_type; [exact Hc2|by apply flash_of_range|by apply block_of_range|done|].
  intros s3 Hc3 Hq3. st_step.
  eapply core_mark_page; [exact Hc3|done|by constructor|]. intros s4 Hc4 Hq4. st_steps.
  apply HQ; [done|]. etrans; [exact Hq2|]. by etrans.
Qed.
End CoreRules.
