(* ===== verification/Alloc.v ===== *)
(** * Block lists and page allocation

    The per-chip lists of empty and victim blocks of
    ftl_inverse_mapping_manager.c and [GET_NEW_PAGE] of ftl_mapping_manager.c.
    A pointer to the block being written is the index of the root that holds
    it in its [head]; [None] is the null pointer. *)

From Stdlib Require Import ZArith Lia List.
From stdpp Require Import base tactics numbers list functions.
From S2P Require Import Prelude Config State Timing Inverse.

Open Scope Z_scope.

(** [plane_nb * FLASH_NB + phy_flash_nb] with [plane_nb = block % PLANES]. *)
Definition list_index (phy_flash_nb phy_block_nb : Z) : SM Z :=
  conf sc;
  if u32 (PLANES_PER_FLASH sc) =? 0 then mcrash DivByZero
  else mret (s32 (phy_block_nb mod u32 (PLANES_PER_FLASH sc) * FLASH_NB sc + phy_flash_nb)).

Definition INSERT_EMPTY_BLOCK (phy_flash_nb phy_block_nb : Z) : SM Z :=
  mapping_index ← list_index phy_flash_nb phy_block_nb;
  let new_empty_block := mk_empty_block_entry phy_flash_nb phy_block_nb 0 in
  r ← arr_load empty_block_list mapping_index;
  st_empty mapping_index
    (match empty_head r with
     | [] => mk_empty_block_root [new_empty_block] (head r) 1
     | l => mk_empty_block_root (l ++ [new_empty_block]) (head r)
              (u32 (empty_block_nb r + 1))
     end);;
  modify (fun s => set_total_empty_block_nb (total_empty_block_nb s + 1) s);;
  mret SUCCESS.

Definition INSERT_VICTIM_BLOCK (full_block : empty_block_entry) : SM Z :=
  let new_v_b_entry :=
    mk_victim_block_entry (phy_flash_nb full_block) (phy_block_nb full_block) in
  mapping_index ← list_index (phy_flash_nb full_block) (phy_block_nb full_block);
  r ← arr_load victim_block_list mapping_index;
  (if victim_block_nb r =? 0 then
     st_victim mapping_index (mk_victim_block_root [new_v_b_entry] 1)
   else
     match v_list r with
     | [] => mcrash NullDeref
     | l => st_victim mapping_index
              (mk_victim_block_root (l ++ [new_v_b_entry]) (u32 (victim_block_nb r + 1)))
     end);;
  modify (fun s => set_total_victim_block_nb (total_victim_block_nb s + 1) s);;
  mret SUCCESS.

(** Unlinking the [k]-th node of a chain of [nb] victims. *)
Definition unlink_victim (nb : Z) (k : nat) (l : list victim_block_entry)
  : option (list victim_block_entry) :=
  match k with
  | O => if nb =? 1 then Some []
         else match l with _ :: x :: r => Some (x :: r) | _ => None end
  | _ => Some (delete k l)
  end.

(** The argument is a pointer to the [k]-th node of the chain of root [j];
    the root it is ejected from is computed from the node's own address. *)
Definition EJECT_VICTIM_BLOCK (j : Z) (k : nat) : SM Z :=
  rj ← arr_load victim_block_list j;
  victim_block ← deref (v_list rj !! k);
  mapping_index ← list_index (v_phy_flash_nb victim_block) (v_phy_block_nb victim_block);
  r ← arr_load victim_block_list mapping_index;
  l ← deref (unlink_victim (victim_block_nb r) k (v_list r));
  st_victim mapping_index (mk_victim_block_root l (u32 (victim_block_nb r - 1)));;
  modify (fun s => set_total_victim_block_nb (total_victim_block_nb s - 1) s);;
  mret SUCCESS.

(** ** GET_EMPTY_BLOCK *)

Definition set_index (v : Z) : SM unit := modify (set_empty_block_table_index (u32 v)).

(** Every chip takes the first block of its chain as the block to write. *)
Definition open_superblock (n : Z) : SM unit :=
  mfor (Z.to_nat n) 0 (fun i =>
    r ← arr_load empty_block_list i;
    match empty_head r with
    | [] => mcrash NullDeref
    | e :: l => st_empty i (mk_empty_block_root l (Some e) (u32 (empty_block_nb r - 1)))
    end).

(** Every chip's block is full: they become victims. *)
Definition retire_superblock (n : Z) : SM unit :=
  mfor (Z.to_nat n) 0 (fun i =>
    r ← arr_load empty_block_list i;
    e ← deref (head r);
    _ ← INSERT_VICTIM_BLOCK e;
    modify (fun s => set_total_empty_block_nb (total_empty_block_nb s - 1) s);;
    r ← arr_load empty_block_list i;
    st_empty i (mk_empty_block_root (empty_head r) None (empty_block_nb r))).

Inductive found : Type :=
| Again
| Found (root : Z).

(** One iteration of the loop in mode [VICTIM_OVERALL]. *)
Definition empty_block_step : SM found :=
  conf sc;
  let n := EMPTY_TABLE_ENTRY_NB sc in
  i ← gets empty_block_table_index;
  r ← arr_load empty_block_list i;
  match head r with
  | None =>
      match empty_head r with
      | [] =>
          set_index (i + 1);;
          i' ← gets empty_block_table_index;
          (if i' =? n then set_index 0 else mret tt);;
          mret Again
      | _ =>
          if i =? 0 then open_superblock n;; set_index (i + 1);; mret (Found 0)
          else mret Again
      end
  | Some curr_empty_block =>
      if curr_phy_page_nb curr_empty_block =? u32 (PAGE_NB sc) then
        (if u32 (PLANES_PER_FLASH sc) =? 0 then mcrash DivByZero else mret tt);;
        (if (phy_flash_nb curr_empty_block =? u32 (FLASH_NB sc - 1))
            && (phy_block_nb curr_empty_block mod u32 (PLANES_PER_FLASH sc)
                =? u32 (PLANES_PER_FLASH sc - 1))
         then retire_superblock n;; set_index 0
         else
           set_index (i + 1);;
           i' ← gets empty_block_table_index;
           (if i' =? n then set_index 0 else mret tt));;
        mret Again
      else
        set_index (i + 1);;
        i' ← gets empty_block_table_index;
        (if i' =? n then set_index 0 else mret tt);;
        mret (Found i)
  end.

(** [while (total_empty_block_nb != 0)]; the loop goes round the roots at most
    twice unless it never ends. *)
Fixpoint empty_block_loop (fuel : nat) : SM (option Z) :=
  total ← gets total_empty_block_nb;
  if total =? 0 then mret None else
  match fuel with
  | O => mhang
  | S fuel' =>
      r ← empty_block_step;
      match r with
      | Found i => mret (Some i)
      | Again => empty_block_loop fuel'
      end
  end.

(** Mode [VICTIM_INCHIP]: the loop walks the planes of a chip that has no
    empty block; when it finds one it returns a pointer that was never
    assigned. *)
Fixpoint inchip_loop (fuel : nat) (input_mapping_index mapping_index : Z) : SM (option Z) :=
  conf sc;
  r ← arr_load empty_block_list mapping_index;
  if empty_block_nb r =? 0 then
    if PLANES_PER_FLASH sc =? 1 then mret None
    else if PLANES_PER_FLASH sc =? 0 then mcrash DivByZero
    else
      let m := mapping_index + 1 in
      let m := if Z.rem m (PLANES_PER_FLASH sc) =? 0
               then m - (PLANES_PER_FLASH sc - 1) else m in
      if m =? input_mapping_index then mret None
      else match fuel with
           | O => mhang
           | S fuel' => inchip_loop fuel' input_mapping_index m
           end
  else mcrash Uninitialised.

(** Mode [VICTIM_NOPARAL]: likewise, the block is read through a pointer that
    was never assigned. *)
Fixpoint noparal_loop (fuel : nat) (mapping_index : Z) : SM (option Z) :=
  conf sc;
  r ← arr_load empty_block_list mapping_index;
  if empty_block_nb r =? 0 then
    let m := mapping_index + 1 in
    i ← gets empty_block_table_index;
    set_index (i + 1);;
    (if m =? EMPTY_TABLE_ENTRY_NB sc then set_index 0 else mret tt);;
    match fuel with
    | O => mhang
    | S fuel' => noparal_loop fuel' (if m =? EMPTY_TABLE_ENTRY_NB sc then 0 else m)
    end
  else mcrash Uninitialised.

Definition GET_EMPTY_BLOCK (mode mapping_index : Z) : SM (option Z) :=
  conf sc;
  total ← gets total_empty_block_nb;
  let fuel := Z.to_nat (2 * EMPTY_TABLE_ENTRY_NB sc + 2) in
  if total =? 0 then mret None
  else if mode =? VICTIM_OVERALL then empty_block_loop fuel
  else if mode =? VICTIM_INCHIP then inchip_loop fuel mapping_index mapping_index
  else if mode =? VICTIM_NOPARAL then noparal_loop fuel mapping_index
  else mhang.

(** ** GET_NEW_PAGE *)

(** [*curr_empty_block] for a pointer returned by [GET_EMPTY_BLOCK]. *)
Definition deref_block (p : option Z) : SM empty_block_entry :=
  i ← deref p; r ← arr_load empty_block_list i; deref (head r).

(** The order check under [SB_DEBUG]; [false] is its [return FAIL]. *)
Definition sb_check (plane_nb block_nb : Z) : SM bool :=
  conf sc;
  d ← gets sb_deb;
  if plane_nb =? 0 then
    if sb_plane_nb d =? PLANES_PER_FLASH sc * FLASH_NB sc - 1
    then modify (set_sb_deb (mk_sb_debug 0 block_nb));; mret true
    else mret false
  else if negb (sb_block_nb d =? block_nb) then mret false
  else if negb (sb_plane_nb d =? plane_nb - 1) then mret false
  else modify (set_sb_deb (mk_sb_debug plane_nb (sb_block_nb d)));; mret true.

(** The result is [*ppn] when [SUCCESS] is returned.  The block is read under
    [SB_DEBUG] before the checks for a null pointer, which are therefore not
    reached with one. *)
Definition GET_NEW_PAGE (mode mapping_index : Z) : SM (option Z) :=
  conf sc;
  curr_empty_block ← GET_EMPTY_BLOCK mode mapping_index;
  e ← deref_block curr_empty_block;
  (if u32 (PLANES_PER_FLASH sc) =? 0 then mcrash DivByZero else mret tt);;
  let planes := u32 (PLANES_PER_FLASH sc) in
  let plane_nb := s32 (u32 (phy_flash_nb e * planes) + phy_block_nb e mod planes) in
  let block_nb := s32 (phy_block_nb e / planes) in
  ok ← sb_check plane_nb block_nb;
  if negb ok then mret None else
  i ← deref curr_empty_block;
  r ← arr_load empty_block_list i;
  e ← deref (head r);
  let ppn := u32 (phy_flash_nb e * BLOCK_NB sc * PAGE_NB sc
                  + phy_block_nb e * PAGE_NB sc + curr_phy_page_nb e) in
  st_empty i
    (mk_empty_block_root (empty_head r)
       (Some (mk_empty_block_entry (phy_flash_nb e) (phy_block_nb e)
                (u32 (curr_phy_page_nb e + 1))))
       (empty_block_nb r));;
  mret (Some ppn).

(** ** The allocator, abstractly

    Superblock rows wait in a queue, one row is being written ([n] of its
    pages are used, taken round the chips) and the full rows wait to be
    collected. *)

Record alloc : Type := mk_alloc {
  aq : list Z;
  acur : option (Z * Z);
  av : list Z
}.

Definition cur_rows (A : alloc) : list Z := match acur A with Some (b, _) => [b] | None => [] end.
Definition rows (A : alloc) : list Z := aq A ++ cur_rows A ++ av A.

(** The next page: chip, row, page within the block; and the allocator after
    it. *)
Definition alloc_next (sc : ssdconf) (A : alloc) : option (Z * Z * Z * alloc) :=
  let open v :=
    match aq A with
    | [] => None
    | b :: q => Some (0, b, 0, mk_alloc q (Some (b, 1)) v)
    end in
  match acur A with
  | None => open (av A)
  | Some (b, n) =>
      if n <? FLASH_NB sc * PAGE_NB sc
      then Some (n mod FLASH_NB sc, b, n / FLASH_NB sc, mk_alloc (aq A) (Some (b, n + 1)) (av A))
      else open (av A ++ [b])
  end.

(** The pages that can still be allocated. *)
Definition free_pages (sc : ssdconf) (A : alloc) : Z :=
  zlen (aq A) * (FLASH_NB sc * PAGE_NB sc) +
  match acur A with Some (_, n) => FLASH_NB sc * PAGE_NB sc - n | None => 0 end.

(** Page [i] of the block of row [b] on chip [f] has not been allocated. *)
Definition is_free (sc : ssdconf) (A : alloc) (f b i : Z) : Prop :=
  b ∈ aq A \/ exists n, acur A = Some (b, n) /\ n <= i * FLASH_NB sc + f.

(** *** Its representation *)

(** Pages of chip [i] among the first [n] of the row. *)
Definition pages_used (F n i : Z) : Z := (n + F - 1 - i) / F.

Definition empty_root (F : Z) (A : alloc) (i : Z) : empty_block_root :=
  mk_empty_block_root
    ((fun b => mk_empty_block_entry i b 0) <$> aq A)
    (match acur A with
     | Some (b, n) => Some (mk_empty_block_entry i b (pages_used F n i))
     | None => None
     end)
    (zlen (aq A)).

Definition victim_root (A : alloc) (i : Z) : victim_block_root :=
  mk_victim_block_root ((fun b => mk_victim_block_entry i b) <$> av A) (zlen (av A)).

(** Well-formed: the rows are distinct rows of the device. *)
Record alloc_wf (sc : ssdconf) (A : alloc) : Prop := mk_alloc_wf {
  aw_nodup : NoDup (rows A);
  aw_range : forall b, b ∈ rows A -> 0 <= b < BLOCK_NB sc;
  aw_cur : forall b n, acur A = Some (b, n) -> 0 <= n <= FLASH_NB sc * PAGE_NB sc
}.

Record lists_rep (sc : ssdconf) (A : alloc) (s : ssdstate) : Prop := mk_lists_rep {
  lr_empty : empty_block_list s = ztab (FLASH_NB sc) (empty_root (FLASH_NB sc) A);
  lr_victim : victim_block_list s = ztab (FLASH_NB sc) (victim_root A);
  lr_tempty : total_empty_block_nb s =
    FLASH_NB sc * (zlen (aq A) + zlen (cur_rows A));
  lr_tvictim : total_victim_block_nb s = FLASH_NB sc * zlen (av A)
}.

(** The position in the row is in the table index and, for the previous
    page, in the order check. *)
Definition sb_at (sc : ssdconf) (A : alloc) (d : sb_debug) : Prop :=
  match acur A with
  | Some (b, n) => sb_plane_nb d = (n - 1) mod FLASH_NB sc /\ (0 < n -> sb_block_nb d = b)
  | None => sb_plane_nb d = FLASH_NB sc - 1
  end.

Record alloc_rep (sc : ssdconf) (A : alloc) (s : ssdstate) : Prop := mk_alloc_rep {
  ar_wf : alloc_wf sc A;
  ar_started : forall b n, acur A = Some (b, n) -> 1 <= n;
  ar_lists : lists_rep sc A s;
  ar_index : empty_block_table_index s =
    match acur A with Some (_, n) => n mod FLASH_NB sc | None => 0 end;
  ar_sb : sb_at sc A (sb_deb s)
}.

(** The frame of the allocation. *)
Record alloc_frame (s s' : ssdstate) : Prop := mk_alloc_frame {
  af_params : ssdparams s' = ssdparams s;
  af_map : mapping_table s' = mapping_table s;
  af_nv : in_nvram s' = in_nvram s;
  af_inv : inverse_mapping_table s' = inverse_mapping_table s;
  af_bst : block_state_table s' = block_state_table s;
  af_oob : NVRAM_OOB_TABLE s' = NVRAM_OOB_TABLE s;
  af_xl2p : xl2p_ppn s' = xl2p_ppn s;
  af_slot : gc_slot s' = gc_slot s;
  af_chnl : chnl_next_avail_time s' = chnl_next_avail_time s;
  af_chip : chip_next_avail_time s' = chip_next_avail_time s;
  af_nvram : nvram_next_avail_time s' = nvram_next_avail_time s;
  af_ctrs : ctrs s' = ctrs s;
  af_log : nand_log s' = nand_log s
}.

(** ** Lemmas *)

#[global] Instance alloc_frame_preorder : PreOrder alloc_frame.
Proof. split; [by intros s|]. intros s1 s2 s3 [] []. constructor; congruence. Qed.

Section Positions.
Variable F : Z.
Hypothesis HF : 2 <= F.

Lemma pages_used_next n i :
  0 <= n -> 0 <= i < F ->
  pages_used F (n + 1) i = pages_used F n i + if i =? n mod F then 1 else 0.
Proof.
  intros Hn Hi. unfold pages_used. pose proof (Z.div_mod n F ltac:(lia)) as E.
  pose proof (Z.mod_pos_bound n F ltac:(lia)) as Hm.
  set (q := n / F) in *. set (r := n mod F) in *. rewrite E.
  assert (forall x, F * q + x = x + q * F) as Hx by lia.
  zcase.
  - subst i. replace (F * q + r + 1 + F - 1 - r) with (0 + (q + 1) * F) by lia.
    replace (F * q + r + F - 1 - r) with (F - 1 + q * F) by lia.
    rewrite !Z.div_add, (Z.div_small (F - 1)) by lia. rewrite Z.div_0_l by lia. lia.
  - destruct (Z_lt_le_dec i r).
    + replace (F * q + r + 1 + F - 1 - i) with (r - i + (q + 1) * F) by lia.
      replace (F * q + r + F - 1 - i) with (r - i - 1 + (q + 1) * F) by lia.
      rewrite !Z.div_add, !Z.div_small by lia. lia.
    + replace (F * q + r + 1 + F - 1 - i) with (F + r - i + q * F) by lia.
      replace (F * q + r + F - 1 - i) with (F + r - i - 1 + q * F) by lia.
      rewrite !Z.div_add, !Z.div_small by lia. lia.
Qed.

Lemma pages_used_at n : 0 <= n -> pages_used F n (n mod F) = n / F.
Proof.
  intros Hn. unfold pages_used. pose proof (Z.mod_pos_bound n F ltac:(lia)).
  rewrite (Z.div_mod n F) at 1 by lia.
  replace (F * (n / F) + n mod F + F - 1 - n mod F) with (F - 1 + n / F * F) by lia.
  rewrite Z.div_add, Z.div_small by lia. lia.
Qed.

Lemma pages_used_full P i : 0 <= i < F -> pages_used F (F * P) i = P.
Proof.
  intros Hi. unfold pages_used. replace (F * P + F - 1 - i) with (F - 1 - i + P * F) by lia.
  rewrite Z.div_add, Z.div_small by lia. lia.
Qed.

Lemma pages_used_zero i : 0 <= i < F -> pages_used F 0 i = 0.
Proof. intros Hi. unfold pages_used. rewrite Z.div_small; lia. Qed.
End Positions.

Section AllocRules.
Variable sc : ssdconf.
Hypothesis G : geom sc.
Implicit Types (s : ssdstate) (A : alloc).
Local Abbreviation F := (FLASH_NB sc).
Local Abbreviation P := (PAGE_NB sc).

Lemma list_index_spec f b Q s :
  ssdparams s = sc -> 0 <= f < F -> Q f s -> wp (list_index f b) Q s.
Proof.
  intros Hsc Hf HQ. unfold list_index. st_steps. rewrite Hsc.
  destruct (geom_bounds _ G) as (? & _ & _). rewrite (g_planes _ G).
  change (u32 1) with 1. simpl (1 =? 0). cbv iota. st_step.
  rewrite Z.mod_1_r, s32_small by lia. simpl. done.
Qed.

Lemma alloc_wf_len A : alloc_wf sc A -> zlen (aq A) + zlen (cur_rows A) + zlen (av A) <= BLOCK_NB sc.
Proof.
  intros [Hn Hr _].
  assert (zlen (rows A) <= BLOCK_NB sc) as H.
  { pose proof (g_block _ G). unfold zlen.
    assert (length (rows A) <= length (seqZ 0 (BLOCK_NB sc)))%nat as Hle.
    { apply submseteq_length, NoDup_submseteq; [done|].
      intros b Hb. apply elem_of_seqZ. specialize (Hr b Hb). lia. }
    rewrite length_seqZ in Hle. lia. }
  unfold rows, zlen in *. rewrite !length_app in H. lia.
Qed.

(** A block is appended to its chip's list of victims. *)
Lemma INSERT_VICTIM_spec vr f b pg l Q s :
  ssdparams s = sc -> 0 <= f < F -> victim_block_list s = ztab F vr ->
  vr f = mk_victim_block_root l (zlen l) -> zlen l < 2 ^ 31 ->
  Q SUCCESS (set_total_victim_block_nb (total_victim_block_nb s + 1)
    (set_victim_block_list
       (ztab F (fun k => if k =? f
          then mk_victim_block_root (l ++ [mk_victim_block_entry f b]) (zlen l + 1)
          else vr k)) s)) ->
  wp (INSERT_VICTIM_BLOCK (mk_empty_block_entry f b pg)) Q s.
Proof.
  intros Hsc Hf Hv Hr Hl HQ. unfold INSERT_VICTIM_BLOCK. simpl. st_step.
  apply list_index_spec; [done|done|]. st_step. pose proof (zlen_nonneg l).
  eapply wp_arr_load; [rewrite Hv; by apply zget_ztab|]. rewrite Hr. simpl. st_step.
  rewrite <- zset_ztab, <- Hv in HQ by done.
  zcase.
  - apply wp_arr_store; [rewrite Hv, zlen_ztab; lia|]. st_steps.
    destruct l; [exact HQ|unfold zlen in *; simpl in *; lia].
  - destruct l as [|x l']; [unfold zlen in *; simpl in *; lia|].
    apply wp_arr_store; [rewrite Hv, zlen_ztab; lia|]. st_steps.
    rewrite u32_small by lia. exact HQ.
Qed.

Definition retired A : alloc :=
  mk_alloc (aq A) None (av A ++ cur_rows A).

Lemma retire_spec A b n s :
  ssdparams s = sc -> alloc_wf sc A -> acur A = Some (b, n) -> lists_rep sc A s ->
  wp (retire_superblock F)
     (fun _ s' => lists_rep sc (retired A) s' /\ alloc_frame s s' /\
        empty_block_table_index s' = empty_block_table_index s /\ sb_deb s' = sb_deb s) s.
Proof.
  intros Hsc Hwf Hcur [He Hv Hte Htv]. pose proof (alloc_wf_len A Hwf) as Hlen.
  destruct (geom_bounds _ G) as (? & ? & _). pose proof (g_flash _ G).
  unfold retire_superblock. eapply wp_mono.
  - apply (wp_mfor (fun i s' => alloc_frame s s' /\
      empty_block_table_index s' = empty_block_table_index s /\ sb_deb s' = sb_deb s /\
      empty_block_list s' = ztab F (fun k => if k <? i then empty_root F (retired A) k else empty_root F A k) /\
      victim_block_list s' = ztab F (fun k => if k <? i then victim_root (retired A) k else victim_root A k) /\
      total_empty_block_nb s' = total_empty_block_nb s - i /\
      total_victim_block_nb s' = total_victim_block_nb s + i)).
    + split; [done|]. split; [done|]. split; [done|]. rewrite He, Hv.
      split; [apply ztab_ext; intros; by zcase|]. split; [apply ztab_ext; intros; by zcase|]. lia.
    + intros i s' Hi (Hf & Hix & Hsb & He' & Hv' & Hte' & Htv'). st_step.
      eapply wp_arr_load; [rewrite He'; apply zget_ztab; lia|].
      rewrite Z.ltb_irrefl. unfold empty_root at 1. rewrite Hcur. simpl head. st_step.
      eapply wp_deref; [reflexivity|]. st_step.
      pose proof (zlen_nonneg (aq A)). pose proof (zlen_nonneg (cur_rows A)).
      assert (zlen ((fun b => mk_victim_block_entry i b) <$> av A) = zlen (av A)) as Hlv
        by (unfold zlen; by rewrite length_fmap).
      eapply (INSERT_VICTIM_spec _ i b _ ((fun b => mk_victim_block_entry i b) <$> av A));
        [by rewrite (af_params _ _ Hf)|lia|exact Hv'|cbv beta; by rewrite Z.ltb_irrefl, Hlv|lia|].
      st_steps. eapply wp_arr_load; [simpl; rewrite He'; apply zget_ztab; lia|].
      rewrite Z.ltb_irrefl. apply wp_arr_store; [simpl; rewrite He', zlen_ztab; lia|]. simpl.
      split; [destruct Hf; by constructor|]. split; [done|]. split; [done|].
      rewrite He', zset_ztab by lia.
      split; [|split; [|lia]].
      * apply ztab_ext. intros k Hk. zcases; subst; done.
      * apply ztab_ext. intros k Hk. zcases; subst; try done.
        unfold victim_root, retired, cur_rows. simpl. rewrite Hcur, fmap_app. unfold zlen.
        rewrite !length_app, length_fmap. simpl. f_equal. lia.
  - intros ? s' (Hf & Hix & Hsb & He' & Hv' & Hte' & Htv').
    rewrite Z2Nat.id, Z.add_0_l in * by lia. split; [|done].
    assert (zlen (cur_rows A) = 1) as Hc1 by (unfold cur_rows; by rewrite Hcur).
    constructor.
    + rewrite He'. apply ztab_ext. intros. by zcase.
    + rewrite Hv'. apply ztab_ext. intros. by zcase.
    + rewrite Hte', Hte, Hc1. change (zlen (cur_rows (retired A))) with 0. simpl aq. lia.
    + rewrite Htv', Htv. unfold retired, zlen in *. simpl av. rewrite length_app. lia.
Qed.

Definition opened A b q : alloc := mk_alloc q (Some (b, 0)) (av A).

Lemma open_spec A b q s :
  ssdparams s = sc -> alloc_wf sc A -> acur A = None -> aq A = b :: q -> lists_rep sc A s ->
  wp (open_superblock F)
     (fun _ s' => lists_rep sc (opened A b q) s' /\ alloc_frame s s' /\
        empty_block_table_index s' = empty_block_table_index s /\ sb_deb s' = sb_deb s) s.
Proof.
  intros Hsc Hwf Hcur Hq [He Hv Hte Htv]. pose proof (alloc_wf_len A Hwf) as Hlen.
  destruct (geom_bounds _ G) as (? & ? & _). pose proof (g_flash _ G).
  pose proof (zlen_nonneg q). pose proof (zlen_nonneg (cur_rows A)).
  pose proof (zlen_nonneg (av A)).
  assert (zlen (aq A) = zlen q + 1) as Hlq by (rewrite Hq; unfold zlen; simpl; lia).
  unfold open_superblock. eapply wp_mono.
  - apply (wp_mfor (fun i s' => alloc_frame s s' /\
      empty_block_table_index s' = empty_block_table_index s /\ sb_deb s' = sb_deb s /\
      empty_block_list s' = ztab F (fun k => if k <? i then empty_root F (opened A b q) k else empty_root F A k) /\
      victim_block_list s' = victim_block_list s /\
      total_empty_block_nb s' = total_empty_block_nb s /\
      total_victim_block_nb s' = total_victim_block_nb s)).
    + split; [done|]. split; [done|]. split; [done|]. rewrite He.
      split; [apply ztab_ext; intros; by zcase|done].
    + intros i s' Hi (Hf & Hix & Hsb & He' & Hr). st_step.
      eapply wp_arr_load; [rewrite He'; apply zget_ztab; lia|].
      rewrite Z.ltb_irrefl. unfold empty_root at 1. rewrite Hcur, Hq. simpl.
      apply wp_arr_store; [rewrite He', zlen_ztab; lia|].
      split; [destruct Hf; by constructor|]. split; [done|]. split; [done|]. split; [|done].
      simpl. rewrite He', zset_ztab by lia. apply ztab_ext. intros k Hk. zcases; subst; try done.
      unfold empty_root, opened. simpl. rewrite Hlq. rewrite u32_small by lia.
      rewrite pages_used_zero by lia. f_equal. lia.
  - intros ? s' (Hf & Hix & Hsb & He' & Hv' & Hte' & Htv').
    rewrite Z2Nat.id, Z.add_0_l in * by lia. split; [|done].
    assert (zlen (cur_rows A) = 0) as Hc0 by (unfold cur_rows; by rewrite Hcur).
    constructor; [|by rewrite Hv', Hv| |by rewrite Htv', Htv].
    + rewrite He'. apply ztab_ext. intros. by zcase.
    + rewrite Hte', Hte, Hc0, Hlq. change (zlen (cur_rows (opened A b q))) with 1. simpl aq. lia.
Qed.

Lemma set_index_frame i s : alloc_frame s (set_empty_block_table_index i s).
Proof. by constructor. Qed.

(** The index moves on to the next chip. *)
Lemma advance_spec i {X} (x : X) Q s :
  ssdparams s = sc -> 0 <= i < F ->
  Q x (set_empty_block_table_index ((i + 1) mod F) s) ->
  wp (set_index (i + 1);;
      i' ← gets empty_block_table_index;
      (if i' =? EMPTY_TABLE_ENTRY_NB sc then set_index 0 else mret tt);;
      mret x) Q s.
Proof.
  intros Hsc Hi HQ. destruct (geom_bounds _ G) as (? & _ & _).
  unfold set_index. st_steps. simpl. rewrite u32_small by lia. rewrite (g_empty _ G).
  zcase; st_steps.
  - rewrite e, Z.mod_same in HQ by lia. exact HQ.
  - rewrite Z.mod_small in HQ by lia. exact HQ.
Qed.

Lemma step_found A b n Q s :
  ssdparams s = sc -> acur A = Some (b, n) -> 0 <= n < F * P -> lists_rep sc A s ->
  empty_block_table_index s = n mod F ->
  Q (Found (n mod F)) (set_empty_block_table_index ((n + 1) mod F) s) ->
  wp empty_block_step Q s.
Proof.
  intros Hsc Hcur Hn [He _ _ _] Hix HQ. pose proof (g_flash _ G).
  destruct (geom_bounds _ G) as (? & _ & ?).
  pose proof (Z.mod_pos_bound n F ltac:(lia)) as Hm.
  assert (n / F < P) by (apply Z.div_lt_upper_bound; lia).
  unfold empty_block_step. st_steps. rewrite Hsc, Hix.
  eapply wp_arr_load; [rewrite He; by apply zget_ztab|].
  unfold empty_root at 1. rewrite Hcur. simpl. rewrite pages_used_at, u32_small by lia.
  destruct (Z.eqb_spec (n / F) P); [lia|]. apply advance_spec; [done|done|].
  by rewrite Zplus_mod_idemp_l.
Qed.

Lemma step_full A b i Q s :
  ssdparams s = sc -> acur A = Some (b, F * P) -> 0 <= i < F - 1 -> lists_rep sc A s ->
  empty_block_table_index s = i ->
  Q Again (set_empty_block_table_index (i + 1) s) ->
  wp empty_block_step Q s.
Proof.
  intros Hsc Hcur Hi [He _ _ _] Hix HQ. destruct (geom_bounds _ G) as (? & _ & ?).
  pose proof (g_page _ G).
  unfold empty_block_step. st_steps. rewrite Hsc, Hix.
  eapply wp_arr_load; [rewrite He; apply zget_ztab; lia|].
  unfold empty_root at 1. rewrite Hcur. cbn [head curr_phy_page_nb phy_flash_nb phy_block_nb].
  rewrite pages_used_full, (u32_small P), Z.eqb_refl by lia. rewrite (g_planes _ G).
  change (u32 1 =? 0) with false. cbv iota. st_steps.
  rewrite (u32_small (F - 1)) by lia.
  destruct (Z.eqb_spec i (F - 1)); [lia|]. simpl andb. cbv iota.
  unfold set_index. st_steps. simpl. rewrite (u32_small (i + 1)) by lia. rewrite (g_empty _ G).
  destruct (Z.eqb_spec (i + 1) F); [lia|]. st_steps. exact HQ.
Qed.

Lemma step_retire A b Q s :
  ssdparams s = sc -> alloc_wf sc A -> acur A = Some (b, F * P) -> lists_rep sc A s ->
  empty_block_table_index s = F - 1 ->
  (forall s', lists_rep sc (retired A) s' -> alloc_frame s s' ->
     empty_block_table_index s' = 0 -> sb_deb s' = sb_deb s -> Q Again s') ->
  wp empty_block_step Q s.
Proof.
  intros Hsc Hwf Hcur Hl Hix HQ. pose proof (lr_empty _ _ _ Hl) as He.
  destruct (geom_bounds _ G) as (? & _ & ?). pose proof (g_page _ G). pose proof (g_flash _ G).
  unfold empty_block_step. st_steps. rewrite Hsc, Hix.
  eapply wp_arr_load; [rewrite He; apply zget_ztab; lia|].
  unfold empty_root at 1. rewrite Hcur. cbn [head curr_phy_page_nb phy_flash_nb phy_block_nb].
  rewrite pages_used_full, (u32_small P), Z.eqb_refl by lia. rewrite (g_planes _ G).
  change (u32 1 =? 0) with false. cbv iota. st_steps.
  rewrite (u32_small (F - 1)), Z.eqb_refl by lia. change (u32 1) with 1.
  change (u32 (1 - 1)) with 0. rewrite Z.mod_1_r. simpl andb. cbv iota. rewrite (g_empty _ G).
  st_step. eapply wp_mono; [by eapply retire_spec|]. intros ? s' (Hl' & Hf & _ & Hsb).
  unfold set_index. st_steps. apply HQ; try done.
  - by destruct Hl'.
  - etrans; [exact Hf|]. apply set_index_frame.
Qed.

Lemma step_open A b q Q s :
  ssdparams s = sc -> alloc_wf sc A -> acur A = None -> aq A = b :: q -> lists_rep sc A s ->
  empty_block_table_index s = 0 ->
  (forall s', lists_rep sc (opened A b q) s' -> alloc_frame s s' ->
     empty_block_table_index s' = 1 -> sb_deb s' = sb_deb s -> Q (Found 0) s') ->
  wp empty_block_step Q s.
Proof.
  intros Hsc Hwf Hcur Hq Hl Hix HQ. pose proof (lr_empty _ _ _ Hl) as He. pose proof (g_flash _ G).
  unfold empty_block_step. st_steps. rewrite Hsc, Hix.
  eapply wp_arr_load; [rewrite He; apply zget_ztab; lia|].
  unfold empty_root. rewrite Hcur, Hq, fmap_cons. cbn [head empty_head].
  change (0 =? 0) with true. cbv iota. rewrite (g_empty _ G). st_step.
  eapply wp_mono; [by eapply open_spec|]. intros ? s' (Hl' & Hf & _ & Hsb).
  unfold set_index. st_steps. apply HQ; try done.
  - by destruct Hl'.
  - etrans; [exact Hf|]. apply set_index_frame.
Qed.

(** The block for page [n] of row [b] has been found. *)
Definition ready A b n s0 (r : option Z) s : Prop :=
  r = Some (n mod F) /\ acur A = Some (b, n) /\ 0 <= n < F * P /\ lists_rep sc A s /\
  empty_block_table_index s = (n + 1) mod F /\ sb_deb s = sb_deb s0 /\ alloc_frame s0 s.

Lemma loop_step fuel Q s :
  total_empty_block_nb s <> 0 ->
  wp empty_block_step (fun r s' => match r with
    | Found i => Q (Some i) s' | Again => wp (empty_block_loop fuel) Q s' end) s ->
  wp (empty_block_loop (S fuel)) Q s.
Proof.
  intros Ht Hw. cbn [empty_block_loop]. st_steps.
  destruct (Z.eqb_spec (total_empty_block_nb s) 0); [done|]. st_step.
  eapply wp_mono; [exact Hw|]. by intros [|i] s' HQ; [|st_step].
Qed.

Lemma total_pos A s : lists_rep sc A s -> rows A <> av A -> total_empty_block_nb s <> 0.
Proof.
  intros [_ _ -> _] Hr. pose proof (g_flash _ G).
  assert (0 < zlen (aq A) + zlen (cur_rows A)); [|nia].
  unfold rows in Hr. unfold zlen. destruct (aq A); simpl in *; [|lia].
  destruct (cur_rows A); simpl in *; [done|lia].
Qed.

Lemma loop_open A b q fuel s0 s :
  ssdparams s = sc -> alloc_wf sc A -> acur A = None -> aq A = b :: q -> lists_rep sc A s ->
  empty_block_table_index s = 0 -> alloc_frame s0 s -> sb_deb s = sb_deb s0 ->
  wp (empty_block_loop (S fuel)) (ready (opened A b q) b 0 s0) s.
Proof.
  intros Hsc Hwf Hcur Hq Hl Hix Hf Hsb. pose proof (g_flash _ G). pose proof (g_page _ G).
  apply loop_step.
  { eapply total_pos; [done|]. unfold rows. rewrite Hq. intros E.
    apply (f_equal length) in E. rewrite !length_app in E. simpl in E. lia. }
  eapply step_open; try done. intros s' Hl' Hf' Hix' Hsb'.
  split; [by rewrite Z.mod_0_l by lia|]. split; [done|]. split; [nia|]. split; [done|].
  split; [by rewrite Z.add_0_l, Z.mod_1_l by lia|]. split; [congruence|by etrans].
Qed.

Lemma retired_rows A : rows (retired A) ≡ₚ rows A.
Proof. unfold rows, retired. simpl. by rewrite (Permutation_app_comm (av A)). Qed.

Lemma retired_wf A : alloc_wf sc A -> alloc_wf sc (retired A).
Proof.
  intros [Hn Hr _]. pose proof (retired_rows A) as Hp.
  constructor; [by rewrite Hp|intros b Hb; apply Hr; by rewrite <- Hp|done].
Qed.

Lemma loop_full A b b' q k fuel s0 s :
  ssdparams s = sc -> alloc_wf sc A -> acur A = Some (b, F * P) -> aq A = b' :: q ->
  lists_rep sc A s -> empty_block_table_index s = F - 1 - Z.of_nat k -> Z.of_nat k < F ->
  alloc_frame s0 s -> sb_deb s = sb_deb s0 ->
  wp (empty_block_loop (S (S (k + fuel)))) (ready (opened (retired A) b' q) b' 0 s0) s.
Proof.
  revert s. induction k as [|k IH]; intros s Hsc Hwf Hcur Hq Hl Hix Hk Hf Hsb.
  - apply loop_step.
    { eapply total_pos; [done|]. unfold rows. rewrite Hq. intros E.
      apply (f_equal length) in E. rewrite !length_app in E. simpl in E. lia. }
    eapply step_retire; try done; [lia|]. intros s' Hl' Hf' Hix' Hsb'.
    eapply loop_open; try done; [by rewrite (af_params _ _ Hf')|by apply retired_wf|by etrans|congruence].
  - apply loop_step.
    { eapply total_pos; [done|]. unfold rows. rewrite Hq. intros E.
      apply (f_equal length) in E. rewrite !length_app in E. simpl in E. lia. }
    eapply (step_full A b (F - 1 - Z.of_nat (S k))); try done; [lia|].
    apply IH; try done.
    + by destruct Hl.
    + simpl. lia.
    + lia.
    + etrans; [exact Hf|]. apply set_index_frame.
Qed.

Lemma mod_pred n : 0 < n -> n mod F <> 0 -> (n - 1) mod F = n mod F - 1.
Proof.
  intros Hn Hm. pose proof (g_flash _ G). pose proof (Z.mod_pos_bound n F ltac:(lia)).
  symmetry. apply (Z.mod_unique_pos _ _ (n / F)); [lia|].
  pose proof (Z.div_mod n F ltac:(lia)). lia.
Qed.

Lemma mod_pred_0 n : n mod F = 0 -> (n - 1) mod F = F - 1.
Proof.
  intros Hm. pose proof (g_flash _ G). symmetry.
  apply (Z.mod_unique_pos _ _ (n / F - 1)); [lia|].
  pose proof (Z.div_mod n F ltac:(lia)). lia.
Qed.

Lemma sb_check_spec b n d Q s :
  ssdparams s = sc -> sb_deb s = d -> 0 <= n ->
  sb_plane_nb d = (n - 1) mod F -> (0 < n -> sb_block_nb d = b) ->
  Q true (set_sb_deb (mk_sb_debug (n mod F) b) s) ->
  wp (sb_check (n mod F) b) Q s.
Proof.
  intros Hsc Hd Hn Hpl Hbl HQ. pose proof (g_flash _ G). unfold sb_check. st_steps.
  rewrite Hsc, Hd, (g_planes _ G), Z.mul_1_l.
  destruct (Z.eqb_spec (n mod F) 0) as [E|E].
  - rewrite Hpl, mod_pred_0 by done. rewrite Z.eqb_refl. st_steps. by rewrite E in HQ.
  - assert (0 < n) by (destruct (decide (n = 0)) as [->|]; [by rewrite Z.mod_0_l in E by lia|lia]).
    rewrite Hbl, Hpl, mod_pred, !Z.eqb_refl by done. simpl. st_steps. done.
Qed.

Lemma deref_block_spec A b n i s Q :
  lists_rep sc A s -> acur A = Some (b, n) -> 0 <= i < F ->
  Q (mk_empty_block_entry i b (pages_used F n i)) s -> wp (deref_block (Some i)) Q s.
Proof.
  intros [He _ _ _] Hcur Hi HQ. unfold deref_block. st_step. eapply wp_deref; [done|]. st_step.
  eapply wp_arr_load; [rewrite He; by apply zget_ztab|]. unfold empty_root. rewrite Hcur.
  by eapply wp_deref.
Qed.

Lemma addr_alt f b i : f * BLOCK_NB sc * P + b * P + i = addr sc f b i.
Proof. unfold addr. lia. Qed.

(** From the block found to the page taken from it. *)
Lemma take_page A b n s0 s :
  ssdparams s0 = sc -> alloc_wf sc A -> acur A = Some (b, n) -> 0 <= n < F * P ->
  lists_rep sc A s -> alloc_frame s0 s ->
  let i := n mod F in
  let A' := mk_alloc (aq A) (Some (b, n + 1)) (av A) in
  wp (r ← arr_load empty_block_list i;
      e ← deref (head r);
      let ppn := u32 (phy_flash_nb e * BLOCK_NB sc * PAGE_NB sc
                      + phy_block_nb e * PAGE_NB sc + curr_phy_page_nb e) in
      st_empty i (mk_empty_block_root (empty_head r)
         (Some (mk_empty_block_entry (phy_flash_nb e) (phy_block_nb e)
                  (u32 (curr_phy_page_nb e + 1)))) (empty_block_nb r));;
      mret (Some ppn))
     (fun r s' => r = Some (addr sc i b (n / F)) /\ lists_rep sc A' s' /\ alloc_frame s0 s' /\
        empty_block_table_index s' = empty_block_table_index s /\ sb_deb s' = sb_deb s) s.
Proof.
  intros Hsc Hwf Hcur Hn Hl Hf i A'. pose proof (g_flash _ G).
  destruct (geom_bounds _ G) as (_ & _ & ?).
  pose proof (Z.mod_pos_bound n F ltac:(lia)) as Hi. fold i in Hi.
  assert (0 <= n / F < P) as Hd by (split; [apply Z.div_pos|apply Z.div_lt_upper_bound]; lia).
  destruct (Hl) as [He Hv Hte Htv]. st_step.
  eapply wp_arr_load; [rewrite He; by apply zget_ztab|].
  st_step. eapply wp_deref; [unfold empty_root; rewrite Hcur; reflexivity|].
  cbn [phy_flash_nb phy_block_nb curr_phy_page_nb].
  assert (pages_used F n i = n / F) as Hpu by (apply pages_used_at; lia). rewrite Hpu. st_step.
  apply wp_arr_store; [rewrite He, zlen_ztab; lia|]. st_step.
  assert (0 <= b < BLOCK_NB sc) as Hb.
  { apply (aw_range _ _ Hwf). unfold rows, cur_rows. rewrite Hcur, !elem_of_app.
    right. left. constructor. }
  rewrite addr_alt, (u32_small (addr sc i b (n / F))).
  2: { pose proof (addr_range sc i b (n / F) Hi Hb Hd). pose proof (pages_bound sc G). lia. }
  split; [done|]. split; [|split; [destruct Hf; by constructor|done]].
  constructor; simpl; try done.
  - rewrite He, zset_ztab by done. apply ztab_ext. intros k Hk. rewrite u32_small by lia.
    unfold empty_root, A'. simpl. rewrite pages_used_next by lia. fold i. zcase.
    + subst k. by rewrite Hpu.
    + rewrite Hcur. do 3 f_equal. lia.
  - rewrite Hte. unfold cur_rows. rewrite Hcur. done.
Qed.

Lemma opened_rows A b q : acur A = None -> aq A = b :: q -> rows (opened A b q) ≡ₚ rows A.
Proof.
  intros Hc Hq. unfold rows, opened, cur_rows. simpl. rewrite Hc, Hq. simpl.
  by rewrite Permutation_middle.
Qed.

Lemma opened_wf A b q : acur A = None -> aq A = b :: q -> alloc_wf sc A -> alloc_wf sc (opened A b q).
Proof.
  intros Hc Hq [Hn Hr _]. pose proof (g_flash _ G). pose proof (g_page _ G).
  pose proof (opened_rows A b q Hc Hq) as Hp.
  constructor; [by rewrite Hp|intros x Hx; apply Hr; by rewrite <- Hp|].
  intros b' n [= <- <-]. nia.
Qed.

(** The allocator is about to hand out page [n] of row [b]. *)
Definition about A A1 b n : Prop :=
  alloc_wf sc A1 /\ acur A1 = Some (b, n) /\ 0 <= n < F * P /\
  (forall s, alloc_rep sc A s -> sb_at sc A1 (sb_deb s)) /\
  (forall f x i, 0 <= f < F -> 0 <= i < P -> is_free sc A f x i <-> is_free sc A1 f x i) /\
  free_pages sc A1 = free_pages sc A /\ rows A1 ≡ₚ rows A /\
  (forall m s, ssdparams s = sc -> alloc_rep sc A s ->
     wp (GET_EMPTY_BLOCK VICTIM_OVERALL m) (ready A1 b n s) s).

Lemma GET_EMPTY_BLOCK_loop m Q s :
  ssdparams s = sc -> total_empty_block_nb s <> 0 ->
  wp (empty_block_loop (Z.to_nat (2 * F + 2))) Q s -> wp (GET_EMPTY_BLOCK VICTIM_OVERALL m) Q s.
Proof.
  intros Hsc Ht Hw. unfold GET_EMPTY_BLOCK. st_steps. rewrite Hsc, (g_empty _ G).
  destruct (Z.eqb_spec (total_empty_block_nb s) 0); [done|]. exact Hw.
Qed.

Lemma total_queue A b q s : aq A = b :: q -> lists_rep sc A s -> total_empty_block_nb s <> 0.
Proof.
  intros Hq Hl. eapply total_pos; [done|]. unfold rows. rewrite Hq. intros E.
  apply (f_equal length) in E. rewrite !length_app in E. simpl in E. lia.
Qed.

Lemma total_cur A b n s : acur A = Some (b, n) -> lists_rep sc A s -> total_empty_block_nb s <> 0.
Proof.
  intros Hc Hl. eapply total_pos; [done|]. unfold rows, cur_rows. rewrite Hc. intros E.
  apply (f_equal length) in E. rewrite !length_app in E. simpl in E. lia.
Qed.

Lemma about_cur A b n :
  alloc_wf sc A -> acur A = Some (b, n) -> 0 <= n < F * P -> about A A b n.
Proof.
  intros Hwf Hcur Hn. pose proof (g_flash _ G). split; [done|]. split; [done|]. split; [lia|].
  split; [intros s []; done|]. split; [done|]. split; [done|]. split; [done|].
  intros m s Hsc [_ _ Hl Hix _]. rewrite Hcur in Hix.
  pose proof (total_cur _ _ _ _ Hcur Hl). apply GET_EMPTY_BLOCK_loop; [done|done|].
  replace (Z.to_nat (2 * F + 2)) with (S (Z.to_nat (2 * F + 1))) by lia.
  apply loop_step; [done|]. eapply step_found; try done.
  split; [done|]. split; [done|]. split; [lia|].
  split; [by destruct Hl|]. split; [done|]. split; [done|]. apply set_index_frame.
Qed.

Lemma about_none A b q :
  alloc_wf sc A -> acur A = None -> aq A = b :: q -> about A (opened A b q) b 0.
Proof.
  intros Hwf Hcur Hq. pose proof (g_flash _ G). pose proof (g_page _ G).
  split; [by apply opened_wf|]. split; [done|]. split; [nia|].
  split.
  { intros s [_ _ _ _ Hsb]. unfold sb_at in *. rewrite Hcur in Hsb. simpl.
    split; [|lia]. rewrite Hsb. by rewrite mod_pred_0 by (by rewrite Z.mod_0_l by lia). }
  split; [|split; [|split; [by apply opened_rows|]]].
  - intros f x i Hf Hi. unfold is_free. rewrite Hcur, Hq. simpl. split.
    + intros [[->|Hx]%elem_of_cons|(n & ? & Hle)]; [right; exists 0; split; [done|nia]|by left|done].
    + intros [Hx|(n & [= -> <-] & Hle)]; left; [by right|by left].
  - unfold free_pages. rewrite Hcur, Hq. simpl. unfold zlen. simpl. lia.
  - intros m s Hsc [_ _ Hl Hix _]. rewrite Hcur in Hix.
    pose proof (total_queue _ _ _ _ Hq Hl). apply GET_EMPTY_BLOCK_loop; [done|done|].
    replace (Z.to_nat (2 * F + 2)) with (S (Z.to_nat (2 * F + 1))) by lia.
    by eapply loop_open.
Qed.

Lemma about_full A b0 b q :
  alloc_wf sc A -> acur A = Some (b0, F * P) -> aq A = b :: q ->
  about A (opened (retired A) b q) b 0.
Proof.
  intros Hwf Hcur Hq. pose proof (g_flash _ G). pose proof (g_page _ G).
  assert ((F * P) mod F = 0) as Hm by (by rewrite Z.mul_comm, Z.mod_mul by lia).
  split; [by apply opened_wf; [| |apply retired_wf]|]. split; [done|]. split; [nia|].
  split.
  { intros s [_ _ _ _ Hsb]. unfold sb_at in *. rewrite Hcur in Hsb. simpl.
    split; [|lia]. rewrite (proj1 Hsb), mod_pred_0 by done.
    by rewrite mod_pred_0 by (by rewrite Z.mod_0_l by lia). }
  split; [|split; [|split; [rewrite opened_rows by done; apply retired_rows|]]].
  - intros f x i Hf Hi. unfold is_free. rewrite Hcur, Hq. simpl. split.
    + intros [[->|Hx]%elem_of_cons|(n & [= -> <-] & Hle)];
        [right; exists 0; split; [done|nia]|by left|nia].
    + intros [Hx|(n & [= -> <-] & Hle)]; left; [by right|by left].
  - unfold free_pages. rewrite Hcur, Hq. simpl. unfold zlen. simpl. lia.
  - intros m s Hsc [_ _ Hl Hix _]. rewrite Hcur, Hm in Hix.
    pose proof (total_queue _ _ _ _ Hq Hl). apply GET_EMPTY_BLOCK_loop; [done|done|].
    replace (Z.to_nat (2 * F + 2)) with (S (S (Z.to_nat (F - 1) + Z.to_nat (F + 1)))) by lia.
    eapply loop_full; try done; lia.
Qed.

Lemma alloc_next_about A f b i A' :
  alloc_wf sc A -> (forall b n, acur A = Some (b, n) -> 1 <= n) ->
  alloc_next sc A = Some (f, b, i, A') ->
  exists A1 n, about A A1 b n /\ f = n mod F /\ i = n / F /\
    A' = mk_alloc (aq A1) (Some (b, n + 1)) (av A1).
Proof.
  intros Hwf Hst Hnx. pose proof (g_flash _ G).
  unfold alloc_next in Hnx. destruct (acur A) as [[b0 n]|] eqn:Hcur.
  - pose proof (Hst _ _ eq_refl). pose proof (aw_cur _ _ Hwf _ _ Hcur) as Hn.
    revert Hnx. zcase; intros Hnx.
    + simplify_eq. exists A, n. split; [|done]. apply about_cur; [done|done|lia].
    + assert (n = F * P) as -> by lia. destruct (aq A) as [|b1 q] eqn:Hq; [done|]. simplify_eq.
      exists (opened (retired A) b q), 0. split; [by eapply about_full|].
      rewrite Z.mod_0_l, Z.div_0_l by lia. unfold opened, retired, cur_rows. simpl.
      by rewrite Hcur.
  - destruct (aq A) as [|b1 q] eqn:Hq; [done|]. simplify_eq.
    exists (opened A b q), 0. split; [by apply about_none|].
    by rewrite Z.mod_0_l, Z.div_0_l by lia.
Qed.

(** The refinement: [GET_NEW_PAGE] hands out the page the abstract allocator
    hands out, at its address, and represents the allocator after it. *)
Lemma GET_NEW_PAGE_spec A f b i A' m Q s :
  ssdparams s = sc -> alloc_rep sc A s -> alloc_next sc A = Some (f, b, i, A') ->
  (forall s', alloc_rep sc A' s' -> alloc_frame s s' -> Q (Some (addr sc f b i)) s') ->
  wp (GET_NEW_PAGE VICTIM_OVERALL m) Q s.
Proof.
  intros Hsc Hr Hnx HQ. destruct (Hr) as [Hwf Hst _ _ _].
  destruct (alloc_next_about _ _ _ _ _ Hwf Hst Hnx)
    as (A1 & n & (Hwf1 & Hc1 & Hn & Hsb1 & _ & _ & _ & Hget) & -> & -> & ->).
  pose proof (g_flash _ G). destruct (geom_bounds _ G) as (? & ? & _).
  pose proof (Z.mod_pos_bound n F ltac:(lia)) as Hi.
  unfold GET_NEW_PAGE. st_steps. rewrite Hsc.
  eapply wp_mono; [by apply Hget|]. intros r s1 (-> & _ & _ & Hl1 & Hix1 & Hsb & Hf1).
  st_step. eapply deref_block_spec; [exact Hl1|done|done|].
  rewrite (g_planes _ G). change (u32 1 =? 0) with false. cbv iota. st_steps.
  change (u32 1) with 1. cbn [phy_flash_nb phy_block_nb]. rewrite Z.mod_1_r, Z.div_1_r.
  assert (0 <= b < BLOCK_NB sc) as Hb.
  { apply (aw_range _ _ Hwf1). unfold rows, cur_rows. rewrite Hc1, !elem_of_app.
    right. left. constructor. }
  rewrite Z.mul_1_r, Z.add_0_r, (u32_small (n mod F)), !s32_small by lia.
  specialize (Hsb1 s Hr). unfold sb_at in Hsb1. rewrite Hc1 in Hsb1.
  eapply sb_check_spec; [by rewrite (af_params _ _ Hf1)|exact Hsb|lia|apply Hsb1|apply Hsb1|].
  simpl negb. cbv iota. st_step. eapply wp_deref; [done|].
  eapply wp_mono; [apply (take_page A1 b n s); try done|].
  { by destruct Hl1. }
  { etrans; [exact Hf1|]. by constructor. }
  intros r s2 (-> & Hl2 & Hf2 & Hix2 & Hsb2). apply HQ; [|done].
  constructor.
  - destruct Hwf1 as [Hnd Hrg _]. constructor.
    + unfold rows, cur_rows in *. simpl. by rewrite Hc1 in Hnd.
    + intros x Hx. apply Hrg. unfold rows, cur_rows in *. by rewrite Hc1.
    + intros b' n' [= <- <-]. lia.
  - intros b' n' [= <- <-]. lia.
  - done.
  - simpl. by rewrite Hix2.
  - rewrite Hsb2. unfold sb_at. simpl. by replace (n + 1 - 1) with n by lia.
Qed.

(** What the abstract allocator guarantees about the page. *)
Lemma alloc_next_facts A f b i A' :
  alloc_wf sc A -> (forall b n, acur A = Some (b, n) -> 1 <= n) ->
  alloc_next sc A = Some (f, b, i, A') ->
  0 <= f < F /\ 0 <= b < BLOCK_NB sc /\ 0 <= i < P /\ is_free sc A f b i /\
  (forall f' x i', 0 <= f' < F -> 0 <= i' < P ->
     is_free sc A' f' x i' <-> is_free sc A f' x i' /\ (f', x, i') <> (f, b, i)) /\
  free_pages sc A' = free_pages sc A - 1 /\ rows A' ≡ₚ rows A.
Proof.
  intros Hwf Hst Hnx. pose proof (g_flash _ G).
  destruct (alloc_next_about _ _ _ _ _ Hwf Hst Hnx)
    as (A1 & n & (Hwf1 & Hc1 & Hn & _ & Hfr & Hfp & Hro & _) & -> & -> & ->).
  pose proof (Z.mod_pos_bound n F ltac:(lia)) as Hi. pose proof (Z.div_mod n F ltac:(lia)) as Hdm.
  assert (0 <= n / F < P) as Hd by (split; [apply Z.div_pos|apply Z.div_lt_upper_bound]; lia).
  split; [done|]. split; [|split; [done|]].
  { apply (aw_range _ _ Hwf1). unfold rows, cur_rows. rewrite Hc1, !elem_of_app.
    right. left. constructor. }
  split; [apply Hfr; [done|done|]; right; exists n; split; [done|lia]|]. split; [|split].
  - intros f' x i' Hf' Hi'. rewrite Hfr by done. unfold is_free. simpl. rewrite Hc1. split.
    + intros [Hx|(m & [= <- <-] & Hle)].
      * split; [by left|]. intros [= -> -> ->]. destruct Hwf1 as [Hnd _ _].
        unfold rows, cur_rows in Hnd. rewrite Hc1 in Hnd.
        apply list.NoDup_app in Hnd as (_ & Hnd & _). apply (Hnd b Hx). rewrite elem_of_app. left. constructor.
      * split; [right; exists n; split; [done|lia]|]. intros [= -> ->]. lia.
    + intros [[Hx|(m & [= -> <-] & Hle)] Hne]; [by left|]. right. exists (n + 1). split; [done|].
      enough (n <> i' * F + f') by lia. intros ->. apply Hne.
      rewrite Z.add_comm, Z.mod_add, Z.div_add by lia.
      rewrite Z.mod_small, Z.div_small by lia. done.
  - rewrite <- Hfp. unfold free_pages. simpl. rewrite Hc1. lia.
  - rewrite <- Hro. unfold rows, cur_rows. simpl. by rewrite Hc1.
Qed.

Lemma alloc_next_is_Some A :
  alloc_wf sc A -> 0 < free_pages sc A ->
  exists f b i A', alloc_next sc A = Some (f, b, i, A').
Proof.
  intros Hwf Hfp. unfold free_pages in Hfp. unfold alloc_next.
  pose proof (aw_cur _ _ Hwf) as Hc. destruct (acur A) as [[b n]|].
  - specialize (Hc _ _ eq_refl). zcase; [by eauto 10|].
    destruct (aq A); [unfold zlen in Hfp; simpl in Hfp; lia|eauto 10].
  - destruct (aq A); [unfold zlen in Hfp; simpl in Hfp; lia|eauto 10].
Qed.

(** A row of victims is taken out of the lists of all chips. *)
Definition ejected A off : alloc := mk_alloc (aq A) (acur A) (delete off (av A)).

Lemma ejected_rows A off b :
  av A !! off = Some b -> rows A ≡ₚ b :: rows (ejected A off).
Proof.
  intros Hb. unfold rows, ejected, cur_rows. simpl.
  rewrite (delete_Permutation _ _ _ Hb) at 1. by rewrite !app_assoc, Permutation_middle.
Qed.

Lemma unlink_victim_spec off (l : list victim_block_entry) :
  (off < length l)%nat -> unlink_victim (zlen l) off l = Some (delete off l).
Proof.
  intros Ho. unfold unlink_victim, zlen. destruct off; [|done].
  destruct l as [|x [|y l]]; [simpl in Ho; lia|done|].
  rewrite (proj2 (Z.eqb_neq _ 1)) by (simpl; lia). done.
Qed.

Lemma EJECT_row_spec A off b s :
  ssdparams s = sc -> alloc_rep sc A s -> av A !! off = Some b ->
  wp (mfor (Z.to_nat F) 0 (fun j => _ ← EJECT_VICTIM_BLOCK j off; mret tt))
     (fun _ s' => alloc_rep sc (ejected A off) s' /\ alloc_frame s s') s.
Proof.
  intros Hsc [Hwf Hst [He Hv Hte Htv] Hix Hsb] Hb. pose proof (alloc_wf_len A Hwf) as Hlen.
  destruct (geom_bounds _ G) as (? & ? & _). pose proof (g_flash _ G).
  pose proof (zlen_nonneg (aq A)). pose proof (zlen_nonneg (cur_rows A)).
  pose proof (lookup_lt_Some _ _ _ Hb) as Hoff.
  assert (zlen (delete off (av A)) = zlen (av A) - 1) as Hdel.
  { unfold zlen. rewrite length_delete by eauto. lia. }
  eapply wp_mono.
  - apply (wp_mfor (fun i s' => alloc_frame s s' /\
      empty_block_table_index s' = empty_block_table_index s /\ sb_deb s' = sb_deb s /\
      empty_block_list s' = empty_block_list s /\ total_empty_block_nb s' = total_empty_block_nb s /\
      victim_block_list s' = ztab F (fun k => if k <? i then victim_root (ejected A off) k else victim_root A k) /\
      total_victim_block_nb s' = total_victim_block_nb s - i)).
    + repeat (split; [done|]). rewrite Hv. split; [apply ztab_ext; intros; by zcase|lia].
    + intros i s' Hi (Hf & Hix' & Hsb' & He' & Hte' & Hv' & Htv'). st_step.
      unfold EJECT_VICTIM_BLOCK. st_step.
      eapply wp_arr_load; [rewrite Hv'; apply zget_ztab; lia|]. rewrite Z.ltb_irrefl. st_step.
      eapply wp_deref; [unfold victim_root; cbn [v_list]; by rewrite list_lookup_fmap, Hb|].
      st_step. apply list_index_spec; [by rewrite (af_params _ _ Hf)|simpl; lia|]. st_step.
      cbn [v_phy_flash_nb].
      eapply wp_arr_load; [rewrite Hv'; apply zget_ztab; lia|]. rewrite Z.ltb_irrefl. st_step.
      unfold victim_root at 1 2. cbn [v_list victim_block_nb].
      eapply wp_deref.
      { rewrite <- (unlink_victim_spec off ((fun b => mk_victim_block_entry i b) <$> av A))
          by (by rewrite length_fmap). unfold zlen at 2. by rewrite length_fmap. }
      st_step. apply wp_arr_store; [rewrite Hv', zlen_ztab; lia|]. st_steps.
      split; [destruct Hf; by constructor|]. simpl. repeat (split; [done|]).
      split; [|lia]. rewrite Hv', zset_ztab by lia. apply ztab_ext. intros k Hk.
      zcases; subst; try done. unfold victim_root, ejected. simpl.
      rewrite Hdel, u32_small by (unfold zlen in *; lia). by rewrite list_fmap_delete.
  - intros ? s' (Hf & Hix' & Hsb' & He' & Hte' & Hv' & Htv').
    rewrite Z2Nat.id, Z.add_0_l in * by lia. split; [|done]. constructor.
    + destruct Hwf. pose proof (ejected_rows A off b Hb) as Hro.
      rewrite Hro in aw_nodup0. apply list.NoDup_cons in aw_nodup0 as [_ ?].
      constructor; [done| |done].
      intros x Hx. apply aw_range0. rewrite Hro. by right.
    + done.
    + constructor; simpl; [by rewrite He', He| |by rewrite Hte', Hte|lia].
      rewrite Hv'. apply ztab_ext. intros. by zcase.
    + by rewrite Hix'.
    + by rewrite Hsb'.
Qed.

(** A row returns to the queue, chip by chip. *)
Definition recycled A g : alloc := mk_alloc (aq A ++ [g]) (acur A) (av A).

Record recycling A g f s : Prop := mk_recycling {
  rc_wf : alloc_wf sc A;
  rc_started : forall b n, acur A = Some (b, n) -> 1 <= n;
  rc_empty : empty_block_list s =
    ztab F (fun k => if k <? f then empty_root F (recycled A g) k else empty_root F A k);
  rc_victim : victim_block_list s = ztab F (victim_root A);
  rc_tempty : total_empty_block_nb s = F * (zlen (aq A) + zlen (cur_rows A)) + f;
  rc_tvictim : total_victim_block_nb s = F * zlen (av A);
  rc_index : empty_block_table_index s =
    match acur A with Some (_, n) => n mod F | None => 0 end;
  rc_sb : sb_at sc A (sb_deb s)
}.

Lemma recycling_start A g s : alloc_rep sc A s -> recycling A g 0 s.
Proof.
  intros [? ? [] ? ?]. constructor; try done; [|lia].
  rewrite lr_empty0. apply ztab_ext. intros. by zcase.
Qed.

Lemma recycling_end A g s :
  recycling A g F s -> 0 <= g < BLOCK_NB sc -> g ∉ rows A -> alloc_rep sc (recycled A g) s.
Proof.
  intros [[]] Hg Hn. pose proof (g_flash _ G).
  assert (rows (recycled A g) ≡ₚ g :: rows A) as Hp.
  { unfold rows, recycled, cur_rows. simpl. rewrite <- app_assoc. simpl.
    symmetry. apply Permutation_middle. }
  constructor; try done.
  - constructor; [rewrite Hp; by constructor| |done]. intros b. rewrite Hp, elem_of_cons.
    intros [->|?]; [done|auto].
  - constructor; try done.
    + rewrite rc_empty0. apply ztab_ext. intros. by zcase.
    + rewrite rc_tempty0. unfold recycled, cur_rows, zlen. simpl. rewrite length_app. simpl. lia.
Qed.

Lemma INSERT_EMPTY_spec A g f Q s :
  ssdparams s = sc -> recycling A g f s -> 0 <= f < F ->
  (forall s', recycling A g (f + 1) s' -> alloc_frame s s' -> Q SUCCESS s') ->
  wp (INSERT_EMPTY_BLOCK f g) Q s.
Proof.
  intros Hsc [] Hf HQ. unfold INSERT_EMPTY_BLOCK. st_step.
  apply list_index_spec; [done|done|]. st_step.
  eapply wp_arr_load; [rewrite rc_empty0; by apply zget_ztab|]. rewrite Z.ltb_irrefl. st_step.
  apply wp_arr_store; [rewrite rc_empty0, zlen_ztab; lia|]. st_steps.
  apply HQ; [|by constructor]. constructor; simpl; try done; [|lia].
  rewrite rc_empty0, zset_ztab by done. apply ztab_ext. intros k Hk.
  pose proof (alloc_wf_len A rc_wf0) as Hlen. destruct (geom_bounds _ G) as (? & ? & _).
  pose proof (zlen_nonneg (cur_rows A)). pose proof (zlen_nonneg (av A)).
  zcases; subst; try done. unfold empty_root, recycled. simpl. rewrite fmap_app. simpl.
  destruct (aq A) as [|x q]; [done|]. simpl. f_equal.
  unfold zlen in *. simpl in *. rewrite length_app. simpl. rewrite u32_small; lia.
Qed.
End AllocRules.
