(* ===== verification/Flash.v ===== *)
(** * The discipline of NAND flash

    A block is programmed page after page from its first one and must be
    erased before a page is programmed again.  [nand_replay] runs a log of
    commands against a chip that refuses anything else; [nand_wf] says that
    the commands issued so far were accepted and that the blocks are filled as
    far as the allocator believes.

    The emulator moves no data, but its commands say where the data of a drive
    would go.  [evolves] is that reading of a trace: a host program stores what
    the host sent, and the program of a garbage collection ([GC_WRITE]) stores
    what the last read returned. *)

From Stdlib Require Import ZArith Lia List.
From stdpp Require Import base tactics numbers list functions.
From S2P Require Import Prelude Config State Timing Inverse Alloc.

Open Scope Z_scope.

(** The number of programmed pages of each block. *)
Definition fill_map : Type := Z -> Z -> Z.

Definition fill_set (W : fill_map) (f b v : Z) : fill_map := fun f' b' =>
  if (f' =? f) && (b' =? b) then v else W f' b'.

Definition nand_step (P : Z) (W : fill_map) (c : nand_cmd) : option fill_map :=
  match c with
  | NandRead _ _ _ => Some W
  | NandProgram _ f b i =>
      if (W f b =? i) && (i <? P) then Some (fill_set W f b (i + 1)) else None
  | NandErase f b => Some (fill_set W f b 0)
  end.

(** The newest command is the first of the log. *)
Fixpoint nand_replay (P : Z) (log : list nand_cmd) : option fill_map :=
  match log with
  | [] => Some (fun _ _ => 0)
  | c :: log' => W ← nand_replay P log'; nand_step P W c
  end.

(** How far the allocator has filled a block. *)
Definition filled (sc : ssdconf) (A : alloc) (f b : Z) : Z :=
  if bool_decide (b ∈ aq A) then 0
  else match acur A with
       | Some (b', n) => if b =? b' then pages_used (FLASH_NB sc) n f else PAGE_NB sc
       | None => PAGE_NB sc
       end.

Definition nand_wf (sc : ssdconf) (A : alloc) (log : list nand_cmd) : Prop :=
  exists W, nand_replay (PAGE_NB sc) log = Some W /\
    forall f b, 0 <= f < FLASH_NB sc -> 0 <= b < BLOCK_NB sc -> W f b = filled sc A f b.

(** The erasure of row [g], chip by chip. *)
Fixpoint erases (n : nat) (g : Z) : list nand_cmd :=
  match n with O => [] | S m => NandErase (Z.of_nat m) g :: erases m g end.

(** ** The data the pages hold *)

(** The data of every physical page, as a version number, and the data of the
    last page read. *)
Record contents : Type := mk_contents {
  cell : Z -> Z;
  buffer : Z
}.

(** The newest command is the first of the list.  An erased block holds
    anything. *)
Inductive evolves (sc : ssdconf) (D : contents) : list nand_cmd -> contents -> Prop :=
| ev_nil : evolves sc D [] D
| ev_read f b i cmds D' :
    evolves sc D cmds D' ->
    evolves sc D (NandRead f b i :: cmds) (mk_contents (cell D') (cell D' (addr sc f b i)))
| ev_host ty f b i v cmds D' :
    ty <> GC_WRITE -> evolves sc D cmds D' ->
    evolves sc D (NandProgram ty f b i :: cmds)
      (mk_contents (fset (cell D') (addr sc f b i) v) (buffer D'))
| ev_copy f b i cmds D' :
    evolves sc D cmds D' ->
    evolves sc D (NandProgram GC_WRITE f b i :: cmds)
      (mk_contents (fset (cell D') (addr sc f b i) (buffer D')) (buffer D'))
| ev_erase f b cell' cmds D' :
    evolves sc D cmds D' ->
    (forall p, ~ (flash_of sc p = f /\ block_of sc p = b) -> cell' p = cell D' p) ->
    evolves sc D (NandErase f b :: cmds) (mk_contents cell' (buffer D')).

(** From contents [D] in state [s] to contents [D'] in state [s']. *)
Definition evolved (sc : ssdconf) (D : contents) (s : ssdstate) (D' : contents) (s' : ssdstate) : Prop :=
  exists cmds, nand_log s' = cmds ++ nand_log s /\ evolves sc D cmds D'.

(** ** Lemmas *)

Lemma evolves_app sc D cmds D' cmds' D'' :
  evolves sc D cmds D' -> evolves sc D' cmds' D'' -> evolves sc D (cmds' ++ cmds) D''.
Proof. intros H1 H2. induction H2; simpl; eauto using evolves. Qed.

Lemma evolved_trans sc D s D' s' D'' s'' :
  evolved sc D s D' s' -> evolved sc D' s' D'' s'' -> evolved sc D s D'' s''.
Proof.
  intros (c & E & H) (c' & E' & H'). exists (c' ++ c). rewrite E', E, app_assoc.
  split; [done|by eapply evolves_app].
Qed.

Lemma evolved_quiet sc D s s' : nand_log s' = nand_log s -> evolved sc D s D s'.
Proof. intros E. exists []. split; [done|constructor]. Qed.

(** Reads change no page. *)
Definition is_read (c : nand_cmd) : Prop := match c with NandRead _ _ _ => True | _ => False end.

Lemma evolves_reads sc D cmds :
  Forall is_read cmds -> exists D', evolves sc D cmds D' /\ cell D' = cell D.
Proof.
  induction 1 as [|c cmds Hc _ (D' & HD & E)]; [by exists D; split; [constructor|]|].
  destruct c as [f b i| |]; [|done..]. eexists. split; [by constructor|done].
Qed.

(** Erasing a row changes the pages of the row only. *)
Lemma evolves_erases sc D n g :
  exists D', evolves sc D (erases n g) D' /\
    forall p, block_of sc p <> g -> cell D' p = cell D p.
Proof.
  induction n as [|n (D' & HD & E)]; [by exists D; split; [constructor|]|].
  eexists (mk_contents (cell D') (buffer D')). split; [by econstructor|done].
Qed.

Lemma nand_replay_erases P g n log W :
  nand_replay P log = Some W ->
  exists W', nand_replay P (erases n g ++ log) = Some W' /\
    forall f b, 0 <= f -> W' f b = if (b =? g) && (f <? Z.of_nat n) then 0 else W f b.
Proof.
  intros HW. induction n as [|n (W' & HW' & IH)].
  - exists W. split; [done|]. intros f b Hf. zcases; by rewrite ?andb_false_r.
  - exists (fill_set W' (Z.of_nat n) g 0).
    split; [cbn [erases app nand_replay]; by rewrite HW'|]. intros f b Hf. unfold fill_set.
    rewrite IH by done. zcases; simpl; done || lia.
Qed.

Section FlashRules.
Variable sc : ssdconf.
Hypothesis G : geom sc.

Lemma nand_wf_init A :
  (forall b, 0 <= b < BLOCK_NB sc -> b ∈ aq A) -> nand_wf sc A [].
Proof.
  intros Hq. exists (fun _ _ => 0). split; [done|]. intros f b _ Hb. unfold filled.
  by rewrite bool_decide_eq_true_2 by auto.
Qed.

Lemma nand_wf_read A f b i log : nand_wf sc A log -> nand_wf sc A (NandRead f b i :: log).
Proof. intros (W & HW & H). exists W. split; [simpl; by rewrite HW|done]. Qed.

(** Filling goes on where the allocator points. *)
Lemma filled_next A A' f b i :
  alloc_wf sc A -> (forall b n, acur A = Some (b, n) -> 1 <= n) ->
  alloc_next sc A = Some (f, b, i, A') ->
  filled sc A f b = i /\
  forall f' b', 0 <= f' < FLASH_NB sc ->
    filled sc A' f' b' = filled sc A f' b' + if (f' =? f) && (b' =? b) then 1 else 0.
Proof.
  intros [Hnd _ Hc] Hst Hn. pose proof (g_flash _ G) as HF. unfold rows, cur_rows in Hnd.
  assert (forall v, match aq A with
     | [] => None | b :: q => Some (0, b, 0, mk_alloc q (Some (b, 1)) v) end = Some (f, b, i, A') ->
     (forall b' n, acur A = Some (b', n) -> n = FLASH_NB sc * PAGE_NB sc) ->
     filled sc A f b = i /\
     forall f' b', 0 <= f' < FLASH_NB sc ->
       filled sc A' f' b' = filled sc A f' b' + if (f' =? f) && (b' =? b) then 1 else 0) as Hopen.
  { intros v E Hfull. destruct (aq A) as [|b0 q] eqn:Eq; [done|]. simplify_eq.
    rewrite <- app_comm_cons in Hnd. apply list.NoDup_cons in Hnd as [Hni _].
    rewrite !elem_of_app in Hni. unfold filled. simpl. rewrite Eq.
    rewrite (bool_decide_eq_true_2 (b ∈ b :: q)) by (by left). split; [done|].
    intros f' b' Hf'. destruct (decide (b' ∈ q)) as [Hq|Hq].
    - rewrite !bool_decide_eq_true_2 by (done || by right).
      destruct (Z.eqb_spec b' b) as [->|]; [tauto|]. by rewrite andb_false_r.
    - rewrite (bool_decide_eq_false_2 (b' ∈ q)) by done. destruct (Z.eqb_spec b' b) as [->|Hne].
      + rewrite bool_decide_eq_true_2 by (by left). rewrite andb_true_r.
        change 1 with (0 + 1) at 1. rewrite pages_used_next by lia. rewrite Z.mod_0_l by lia.
        by rewrite pages_used_zero by lia.
      + rewrite bool_decide_eq_false_2 by (rewrite elem_of_cons; tauto).
        rewrite andb_false_r. destruct (acur A) as [[b1 n1]|]; [|lia].
        rewrite (Hfull _ _ eq_refl), pages_used_full by done. destruct (_ =? _); lia. }
  unfold alloc_next in Hn. destruct (acur A) as [[b0 n]|] eqn:Ec; [|by eapply Hopen].
  specialize (Hst _ _ eq_refl). specialize (Hc _ _ eq_refl).
  destruct (Z.ltb_spec n (FLASH_NB sc * PAGE_NB sc));
    [|eapply Hopen; [done|]; intros; simplify_eq; lia].
  simplify_eq. apply list.NoDup_app in Hnd as (_ & Hd & _).
  assert (b ∉ aq A) as Hb by (intros Hin; apply (Hd b Hin), elem_of_app; left; by left).
  unfold filled. simpl. rewrite Ec, (bool_decide_eq_false_2 (b ∈ aq A)), Z.eqb_refl by done.
  split; [apply pages_used_at; lia|]. intros f' b' Hf'.
  destruct (decide (b' ∈ aq A)) as [Hq|Hq].
  - rewrite bool_decide_eq_true_2 by done. destruct (Z.eqb_spec b' b) as [->|]; [done|].
    by rewrite andb_false_r.
  - rewrite bool_decide_eq_false_2 by done. destruct (Z.eqb_spec b' b) as [->|].
    + rewrite andb_true_r. apply pages_used_next; lia.
    + rewrite andb_false_r. lia.
Qed.

(** The page the allocator hands out is the next one of its block. *)
Lemma nand_wf_program ty A A' f b i log :
  alloc_wf sc A -> (forall b n, acur A = Some (b, n) -> 1 <= n) ->
  alloc_next sc A = Some (f, b, i, A') -> nand_wf sc A log ->
  nand_wf sc A' (NandProgram ty f b i :: log).
Proof.
  intros Hwf Hst Hn (W & HW & HWf).
  destruct (alloc_next_facts sc G _ _ _ _ _ Hwf Hst Hn) as (Hf & Hb & Hi & _).
  destruct (filled_next _ _ _ _ _ Hwf Hst Hn) as [Hfi Hnx].
  exists (fill_set W f b (i + 1)). split.
  - simpl. rewrite HW. simpl. rewrite HWf, Hfi, Z.eqb_refl by done. by zcase.
  - intros f' b' Hf' Hb'. unfold fill_set. rewrite Hnx, HWf by done.
    destruct (Z.eqb_spec f' f) as [->|]; simpl; [|lia].
    destruct (Z.eqb_spec b' b) as [->|]; lia.
Qed.

(** A collected row is empty again. *)
Lemma nand_wf_erase A g log :
  nand_wf sc A log ->
  nand_wf sc (recycled A g) (erases (Z.to_nat (FLASH_NB sc)) g ++ log).
Proof.
  intros (W & HW & HWf). pose proof (g_flash _ G).
  destruct (nand_replay_erases _ g (Z.to_nat (FLASH_NB sc)) _ _ HW) as (W' & HW' & HWf').
  exists W'. split; [done|]. intros f b Hf Hb. rewrite HWf' by lia. rewrite HWf by done.
  unfold filled, recycled. simpl. destruct (Z.eqb_spec b g) as [->|Hne]; simpl.
  - rewrite (bool_decide_eq_true_2 (g ∈ aq A ++ [g])) by (apply elem_of_app; right; by left).
    by zcase.
  - assert (b ∈ aq A ++ [g] <-> b ∈ aq A) as E.
    { rewrite elem_of_app, list_elem_of_singleton. tauto. }
    by rewrite (bool_decide_ext _ _ E).
Qed.
End FlashRules.
