(* ===== verification/Invariant.v ===== *)
(** * The invariant of the flash translation layer

    What every request preserves: the mapping table, the inverse mapping, the
    reference counts, the statistics, the NVRAM table and the block lists
    describe one assignment of logical to physical pages.

    [pinv] is the invariant in the middle of an operation: the owner relation
    [R] and the live NVRAM entries [L] are not yet those of the mapping table,
    and the free pages may still be those of an earlier state [Af] of the
    allocator.  [ginv] is the invariant while superblock [g] is collected;
    with [g = -1] it is the invariant between requests. *)

From Stdlib Require Import ZArith Lia List.
From stdpp Require Import base tactics numbers list functions.
From S2P Require Import Prelude Config State Timing Perf Inverse Nvram Mapping Alloc Flash.

Open Scope Z_scope.

(** ** Views of the mapping *)

(** The physical page of [l], [-1] when it has none. *)
Definition lmap (s : ssdstate) (l : Z) : Z :=
  match zget (mapping_table s) l with Some p => p | None => -1 end.

Definition nvf (s : ssdstate) (l : Z) : Z :=
  match zget (in_nvram s) l with Some n => n | None => 0 end.

(** [l] is an owner of [p]. *)
Definition owner (m : list Z) (l p : Z) : Z :=
  match zget m l with Some q => b2z (q =? p) | None => 0 end.

(** A logical page on physical page [p] with NVRAM flag [n] has a live NVRAM
    entry in superblock [b]. *)
Definition entry_in (sc : ssdconf) (p n b : Z) : Z :=
  b2z (negb (p =? -1) && (block_of sc p =? b) && (n =? 1)).

Definition live (sc : ssdconf) (s : ssdstate) (b : Z) : Z :=
  sumZ (pages sc) (fun l => entry_in sc (lmap s l) (nvf s l) b).

(** Owners, reference counts and free pages agree.  In the superblock [g]
    that is being collected the references of owners that have moved on are
    still counted. *)
Record vlink (sc : ssdconf) (g : Z) (C V : Z -> Z) (Af : alloc) : Prop := mk_vlink {
  vl_refs : forall p, 0 <= p < pages sc -> block_of sc p <> g -> C p = Z.max 0 (V p);
  vl_owned : forall p, 0 <= p < pages sc -> 0 < C p -> 0 < V p;
  vl_free : forall p, 0 <= p < pages sc ->
    V p = 0 <-> is_free sc Af (flash_of sc p) (block_of sc p) (page_of sc p);
  vl_count : sumZ (pages sc) (fun p => b2z (V p =? 0)) = free_pages sc Af
}.

(** The rest of the state: the mapping holds pages, the lists hold every
    superblock but [g]. *)
Record outer (sc : ssdconf) (g : Z) (A : alloc) (s : ssdstate) : Prop := mk_outer {
  ou_map : zlen (mapping_table s) = pages sc;
  ou_nv : zlen (in_nvram s) = pages sc;
  ou_range : forall l, 0 <= l < pages sc -> -1 <= lmap s l < pages sc;
  ou_alloc : alloc_rep sc A s;
  ou_rows : forall b, 0 <= b < BLOCK_NB sc -> b <> g <-> b ∈ rows A;
  ou_xl2p : xl2p_ppn s = -1;
  ou_slot : num_gc_slots sc = Some (zlen (gc_slot s))
}.

Record pinv (sc : ssdconf) (k g : Z) (R : Z -> Z -> Z) (C V L : Z -> Z) (A Af : alloc)
  (s : ssdstate) : Prop := mk_pinv {
  pi_core : core sc k R C V L s;
  pi_link : vlink sc g C V Af;
  pi_outer : outer sc g A s
}.

Record ginv (sc : ssdconf) (k g : Z) (C V : Z -> Z) (A : alloc) (s : ssdstate) : Prop :=
  mk_ginv {
  gi_pinv : pinv sc k g (owner (mapping_table s)) C V
    (fun b => if b =? g then 0 else live sc s b) A A s;
  gi_log : nand_wf sc A (nand_log s)
}.

(** No physical page has more than [m] owners. *)
Definition shares (sc : ssdconf) (m : Z) (C : Z -> Z) : Prop := forall q, 0 <= q < pages sc -> C q <= m.

(** The pages that are not free. *)
Definition used (sc : ssdconf) (A : alloc) : Z := pages sc - free_pages sc A.

(** The invariant between requests.  The 32-bit interval counters can be
    incremented [k] times, and once more for every used page: a collection
    increments one and frees a page. *)
Definition ssd_inv (sc : ssdconf) (k m : Z) (A : alloc) (s : ssdstate) : Prop :=
  exists C V, ginv sc (k + used sc A) (-1) C V A s /\ shares sc m C.

(** The number of logical pages on physical page [p]. *)
Definition sharers (sc : ssdconf) (s : ssdstate) (p : Z) : Z :=
  sumZ (pages sc) (fun l => b2z (lmap s l =? p)).

(** Statistics, clocks and the request queue: all that changes is outside of
    the invariant, or an interval counter starts again from zero. *)
Record idle (s s' : ssdstate) : Prop := mk_idle {
  id_rest : same_rest s s';
  id_inv : inverse_mapping_table s' = inverse_mapping_table s;
  id_bst : block_state_table s' = block_state_table s;
  id_oob : NVRAM_OOB_TABLE s' = NVRAM_OOB_TABLE s;
  id_log : nand_log s' = nand_log s;
  id_ctrs : forall q, core_ctr q = true ->
    ctrs s' q = ctrs s q \/ print_ctr q = true /\ ctrs s' q = 0
}.

(** Like [idle], but an interval counter may have been incremented once. *)
Record spent (s s' : ssdstate) : Prop := mk_spent {
  sp_rest : same_rest s s';
  sp_inv : inverse_mapping_table s' = inverse_mapping_table s;
  sp_bst : block_state_table s' = block_state_table s;
  sp_oob : NVRAM_OOB_TABLE s' = NVRAM_OOB_TABLE s;
  sp_log : nand_log s' = nand_log s;
  sp_ctrs : forall q, core_ctr q = true ->
    ctrs s' q = ctrs s q \/ print_ctr q = true /\ ctrs s' q = u32 (ctrs s q + 1)
}.

(** The mapping is the same. *)
Record same_map (s s' : ssdstate) : Prop := mk_same_map {
  mp_map : mapping_table s' = mapping_table s;
  mp_nv : in_nvram s' = in_nvram s
}.

(** ** Lemmas *)

#[global] Instance same_map_preorder : PreOrder same_map.
Proof. split; [by intros s|]. intros s1 s2 s3 [] []. constructor; congruence. Qed.

Lemma same_rest_map s s' : same_rest s s' -> same_map s s'.
Proof. by intros []. Qed.

(** The mapping is the same and no command was issued. *)
Record still (s s' : ssdstate) : Prop := mk_still {
  st_same_map : same_map s s';
  st_same_log : nand_log s' = nand_log s
}.

#[global] Instance still_preorder : PreOrder still.
Proof. split; [by intros s|]. intros s1 s2 s3 [] []. constructor; [by etrans|congruence]. Qed.

Lemma idle_still s s' : idle s s' -> still s s'.
Proof. intros []. constructor; [by apply same_rest_map|done]. Qed.

Lemma spent_still s s' : spent s s' -> still s s'.
Proof. intros []. constructor; [by apply same_rest_map|done]. Qed.

Lemma alloc_frame_map s s' : alloc_frame s s' -> same_map s s'.
Proof. by intros []. Qed.

Lemma alloc_frame_still s s' : alloc_frame s s' -> still s s'.
Proof. intros Hf. constructor; [by apply alloc_frame_map|apply Hf]. Qed.

Lemma booked_map c s s' : booked c s s' -> same_map s s'.
Proof. by intros []. Qed.

Lemma booked_still s s' : booked [] s s' -> still s s'.
Proof. intros Hb. constructor; [by eapply booked_map|apply (bk_log _ _ _ Hb)]. Qed.

Lemma quiet_still s s' : quiet s s' -> still s s'.
Proof. intros Hq. constructor; [apply same_rest_map, Hq|apply Hq]. Qed.

#[global] Instance idle_preorder : PreOrder idle.
Proof.
  split.
  - intros s. constructor; try done. by left.
  - intros s1 s2 s3 [] []. constructor; [by etrans|congruence..|]. intros q Hq.
    destruct (id_ctrs0 q Hq) as [E|[? E]], (id_ctrs1 q Hq) as [E'|[? E']]; rewrite E', ?E; auto.
Qed.

(** A state reached by stores into fields and counters outside of the
    invariant. *)
Ltac idle_tac :=
  constructor; [constructor; reflexivity|reflexivity..|
    let q := fresh "q" in let Hq := fresh in intros q Hq; ctr_simpl; left; reflexivity].

(** Likewise, and counter [c] has been incremented. *)
Ltac spent_tac c :=
  constructor; [constructor; reflexivity|reflexivity..|
    let q := fresh "q" in let Hq := fresh in intros q Hq;
    destruct (decide (q = c)) as [->|];
      [right; split; [reflexivity|ctr_simpl; reflexivity]
      |left; rewrite !ctrs_upd_ne by (first [done | intros ->; done]); reflexivity]].

(** Name the state a program is about to run in. *)
Ltac name_state x := lazymatch goal with |- wp _ _ ?s => set (x := s) end.

Lemma core_idle sc k R C V L s s' : core sc k R C V L s -> idle s s' -> core sc k R C V L s'.
Proof.
  intros [] []. constructor; rewrite ?id_inv0, ?id_bst0, ?id_oob0; try done.
  - rewrite (sm_params _ _ id_rest0). done.
  - by eapply same_rest_timing.
  - eapply stat_rep_ctrs; [|done]. intros q Hq.
    destruct (id_ctrs0 q) as [?|[Hp _]]; [by destruct q|done|by destruct q].
  - eapply oob_rep_ext; [done| |done]. intros q Hq.
    destruct (id_ctrs0 q) as [?|[Hp _]]; [by destruct q|done|by destruct q].
  - intros q Hq. destruct (co_bud q Hq).
    destruct (id_ctrs0 q) as [->|[_ ->]]; [by destruct q|done|lia].
Qed.

Lemma core_spent sc k R C V L s s' :
  core sc (k + 1) R C V L s -> 0 <= k -> spent s s' -> core sc k R C V L s'.
Proof.
  intros [] Hk []. constructor; rewrite ?sp_inv0, ?sp_bst0, ?sp_oob0; try done.
  - rewrite (sm_params _ _ sp_rest0). done.
  - by eapply same_rest_timing.
  - eapply stat_rep_ctrs; [|done]. intros q Hq.
    destruct (sp_ctrs0 q) as [?|[Hp _]]; [by destruct q|done|by destruct q].
  - eapply oob_rep_ext; [done| |done]. intros q Hq.
    destruct (sp_ctrs0 q) as [?|[Hp _]]; [by destruct q|done|by destruct q].
  - intros q Hq. destruct (co_bud q Hq).
    destruct (sp_ctrs0 q) as [->|[_ ->]]; [by destruct q|lia|rewrite u32_small; lia].
Qed.

Lemma stat_print_spec s : wp stat_print (fun _ s' => idle s s') s.
Proof.
  unfold stat_print. st_steps. destruct (_ =? 3); st_steps.
  - unfold set_ctr_list. st_steps. cbn [foldl fst snd].
    constructor; [constructor; reflexivity|reflexivity..|]. intros q Hq.
    destruct (print_ctr q) eqn:Hp.
    + right. split; [done|]. destruct q; try done; ctr_simpl; done.
    + left. destruct q; try done; ctr_simpl; done.
  - idle_tac.
Qed.

Lemma stat_tick_spec `{Clock} s : wp stat_tick (fun _ s' => idle s s') s.
Proof.
  unfold stat_tick, get_ts_in_ns. st_steps. zcase; st_steps; [|idle_tac].
  eapply wp_mono; [apply stat_print_spec|]. intros ? s' Hs'. st_steps.
  etrans; [|etrans; [exact Hs'|idle_tac]]. idle_tac.
Qed.

Lemma lmap_get s l : 0 <= l < zlen (mapping_table s) -> zget (mapping_table s) l = Some (lmap s l).
Proof. intros Hl. unfold lmap. destruct (zget_is_Some _ _ Hl) as [p ->]. done. Qed.

Lemma nvf_get s l : 0 <= l < zlen (in_nvram s) -> zget (in_nvram s) l = Some (nvf s l).
Proof. intros Hl. unfold nvf. destruct (zget_is_Some _ _ Hl) as [p ->]. done. Qed.

Lemma entry_in_range sc p n b : 0 <= entry_in sc p n b <= 1.
Proof. unfold entry_in. destruct (_ && _); simpl; lia. Qed.

Lemma live_nonneg sc s b : 0 <= live sc s b.
Proof. apply sumZ_nonneg. intros l _. apply entry_in_range. Qed.

Lemma lmap_mapped s l : lmap s l <> -1 -> 0 <= l < zlen (mapping_table s).
Proof.
  unfold lmap. destruct (zget (mapping_table s) l) eqn:E; [|done]. intros _. by eapply zget_Some_range.
Qed.

Lemma owner_lmap s l p :
  0 <= l < zlen (mapping_table s) -> owner (mapping_table s) l p = b2z (lmap s l =? p).
Proof. intros Hl. unfold owner. by rewrite lmap_get. Qed.

(** One entry of the mapping changes. *)
Lemma owner_set m l p' p x q :
  zget m l = Some p ->
  owner (zset l p' m) x q =
  owner m x q + if x =? l then b2z (p' =? q) - b2z (p =? q) else 0.
Proof.
  intros Hg. pose proof (zget_Some_range _ _ _ Hg). unfold owner. rewrite zget_zset by done.
  destruct (Z.eqb_spec l x) as [->|Hne].
  - rewrite Hg, Z.eqb_refl. lia.
  - destruct (Z.eqb_spec x l); [by subst|lia].
Qed.

Lemma live_set sc s s' l b :
  0 <= l < pages sc ->
  (forall x, x <> l -> lmap s' x = lmap s x) -> (forall x, x <> l -> nvf s' x = nvf s x) ->
  live sc s' b = live sc s b - entry_in sc (lmap s l) (nvf s l) b
                 + entry_in sc (lmap s' l) (nvf s' l) b.
Proof.
  intros Hl Hm Hn. unfold live.
  apply (sumZ_upd _ (fun x => entry_in sc (lmap s x) (nvf s x) b)
           (fun x => entry_in sc (lmap s' x) (nvf s' x) b) l); [done|].
  intros x _ Hx. by rewrite Hm, Hn by done.
Qed.

Section Pinv.
Variable sc : ssdconf.
Hypothesis G : geom sc.
Implicit Types (s : ssdstate).

(** *** The parts of the invariant under a change of the state *)

Lemma outer_rest g A s s' : outer sc g A s -> same_rest s s' -> outer sc g A s'.
Proof.
  intros [] Hr. destruct (Hr). constructor; try done.
  - by rewrite sm_map.
  - by rewrite sm_nv.
  - unfold lmap. rewrite sm_map. exact ou_range0.
  - destruct ou_alloc0 as [? ? [] ? ?]. constructor; try done; try congruence.
    constructor; congruence.
  - congruence.
  - by rewrite sm_slot.
Qed.

Lemma lmap_zset s s' l p x :
  mapping_table s' = zset l p (mapping_table s) -> 0 <= l < zlen (mapping_table s) ->
  lmap s' x = if x =? l then p else lmap s x.
Proof.
  intros E Hl. unfold lmap. rewrite E, zget_zset by done. rewrite (Z.eqb_sym l x).
  by destruct (x =? l).
Qed.

Lemma nvf_zset s s' l n x :
  in_nvram s' = zset l n (in_nvram s) -> 0 <= l < zlen (in_nvram s) ->
  nvf s' x = if x =? l then n else nvf s x.
Proof.
  intros E Hl. unfold nvf. rewrite E, zget_zset by done. rewrite (Z.eqb_sym l x).
  by destruct (x =? l).
Qed.

Lemma outer_map g A s l p :
  outer sc g A s -> 0 <= l < pages sc -> -1 <= p < pages sc ->
  outer sc g A (set_mapping_table (zset l p (mapping_table s)) s).
Proof.
  intros [] Hl Hp. constructor; try done.
  - cbn [mapping_table set_mapping_table]. by rewrite zlen_zset.
  - intros x Hx. rewrite (lmap_zset s _ l p) by (try done; lia). zcase. by apply ou_range0.
  - destruct ou_alloc0 as [? ? [] ? ?]. by constructor.
Qed.

Lemma outer_nv g A s l n :
  outer sc g A s -> outer sc g A (set_in_nvram (zset l n (in_nvram s)) s).
Proof.
  intros []. constructor; try done.
  - cbn [in_nvram set_in_nvram]. by rewrite zlen_zset.
  - destruct ou_alloc0 as [? ? [] ? ?]. by constructor.
Qed.

Lemma outer_alloc g A A' s s' :
  outer sc g A s -> alloc_rep sc A' s' -> alloc_frame s s' ->
  (forall b, b ∈ rows A' <-> b ∈ rows A) -> outer sc g A' s'.
Proof.
  intros [] Ha [] Hro. constructor; try done; try congruence.
  - unfold lmap. by rewrite af_map.
  - intros b Hb. by rewrite Hro, ou_rows0.
Qed.

Lemma core_alloc k R C V L s s' : core sc k R C V L s -> alloc_frame s s' -> core sc k R C V L s'.
Proof.
  intros [? ? [] ? ? ? ? ?] [].
  constructor; rewrite ?af_params, ?af_inv, ?af_bst, ?af_oob, ?af_ctrs; try done.
  constructor; congruence.
Qed.

Lemma core_map k R C V L s m : core sc k R C V L s -> core sc k R C V L (set_mapping_table m s).
Proof. intros []. constructor; try done. by destruct co_time. Qed.

Lemma core_nv k R C V L s m : core sc k R C V L s -> core sc k R C V L (set_in_nvram m s).
Proof. intros []. constructor; try done. by destruct co_time. Qed.

(** *** The links under a change of one page *)

Lemma vlink_ext g C C' V V' A :
  (forall p, C p = C' p) -> (forall p, V p = V' p) -> vlink sc g C V A -> vlink sc g C' V' A.
Proof.
  intros HC HV []. constructor; intros.
  - rewrite <- HV, <- HC in *. auto.
  - rewrite <- HV, <- HC in *. auto.
  - rewrite <- HV. auto.
  - rewrite <- vl_count0. apply sumZ_ext. intros. by rewrite HV.
Qed.

(** A used page stays used. *)
Lemma vlink_used g C V A p c v :
  vlink sc g C V A -> 0 <= p < pages sc -> V p <> 0 -> v <> 0 ->
  (block_of sc p <> g -> c = Z.max 0 v) -> (0 < c -> 0 < v) ->
  vlink sc g (fset C p c) (fset V p v) A.
Proof.
  intros [] Hp HV Hv H1 H2. constructor.
  - intros q Hq. destruct (decide (q = p)) as [->|]; [rewrite !fset_eq; auto|].
    rewrite !fset_ne by done. auto.
  - intros q Hq. destruct (decide (q = p)) as [->|]; [rewrite !fset_eq; auto|].
    rewrite !fset_ne by done. auto.
  - intros q Hq. rewrite <- vl_free0 by done.
    destruct (decide (q = p)) as [->|]; [rewrite fset_eq; tauto|]. by rewrite fset_ne.
  - rewrite <- vl_count0. apply sumZ_ext. intros q Hq.
    destruct (decide (q = p)) as [->|]; [rewrite fset_eq; by zcases|]. by rewrite fset_ne.
Qed.

Lemma vlink_drop g C V A p :
  vlink sc g C V A -> 0 <= p < pages sc -> block_of sc p <> g -> 0 < C p ->
  vlink sc g (fadd C p (-1)) (fset V p (vdec (V p))) A.
Proof.
  intros Hl Hp Hg Hc. pose proof (vl_refs _ _ _ _ _ Hl p Hp Hg) as E. unfold fadd, vdec.
  apply vlink_used; try done; try lia; zcases.
Qed.

Lemma vlink_share g C V A p :
  vlink sc g C V A -> 0 <= p < pages sc -> block_of sc p <> g -> 0 < C p ->
  vlink sc g (fadd C p 1) (fset V p (V p + 1)) A.
Proof.
  intros Hl Hp Hg Hc. pose proof (vl_refs _ _ _ _ _ Hl p Hp Hg) as E. unfold fadd.
  apply vlink_used; try done; lia.
Qed.

(** An owner moves out of the superblock that is being collected. *)
Lemma vlink_move C V A p d :
  vlink sc (block_of sc p) C V A -> 0 <= p < pages sc -> d <= 0 ->
  vlink sc (block_of sc p) (fadd C p d) V A.
Proof.
  intros [] Hp Hd. constructor; try done.
  - intros q Hq Hne. rewrite fadd_ne by (by intros ->). auto.
  - intros q Hq. destruct (decide (q = p)) as [->|]; [|rewrite fadd_ne; auto].
    rewrite fadd_eq. intros. apply vl_owned0; [done|lia].
Qed.

(** The page the allocator handed out gets its first owner. *)
Lemma vlink_install g C V A A' f b i :
  vlink sc g C V A -> alloc_wf sc A -> (forall b n, acur A = Some (b, n) -> 1 <= n) ->
  alloc_next sc A = Some (f, b, i, A') -> C (addr sc f b i) = 0 ->
  V (addr sc f b i) = 0 /\
  vlink sc g (fadd C (addr sc f b i) 1) (fset V (addr sc f b i) (V (addr sc f b i) + 1)) A'.
Proof.
  intros [] Hwf Hst Hn HC.
  destruct (alloc_next_facts sc G _ _ _ _ _ Hwf Hst Hn) as (Hf & Hb & Hi & Hfr & Hfr' & Hfp & _).
  pose proof (addr_range sc f b i Hf Hb Hi) as Hp.
  set (p := addr sc f b i) in *.
  assert (flash_of sc p = f /\ block_of sc p = b /\ page_of sc p = i) as (Ef & Eb & Ei).
  { unfold p. by rewrite flash_of_addr, block_of_addr, page_of_addr. }
  assert (V p = 0) as HV by (apply vl_free0; by rewrite ?Ef, ?Eb, ?Ei).
  split; [done|]. unfold fadd. rewrite HC, HV. constructor.
  - intros q Hq. destruct (decide (q = p)) as [->|]; [by rewrite !fset_eq|].
    rewrite !fset_ne by done. auto.
  - intros q Hq. destruct (decide (q = p)) as [->|]; [by rewrite !fset_eq|].
    rewrite !fset_ne by done. auto.
  - intros q Hq. rewrite Hfr' by (first [by apply flash_of_range | by apply page_of_range]).
    destruct (decide (q = p)) as [->|Hne].
    + rewrite fset_eq, Ef, Eb, Ei. split; [lia|]. by intros [_ ?].
    + rewrite fset_ne, <- vl_free0 by done. split; [|tauto]. intros Hz. split; [done|].
      intros [= E1 E2 E3]. apply Hne. by rewrite <- (addr_parts sc G q), E1, E2, E3.
  - rewrite (sumZ_upd _ (fun q => b2z (V q =? 0)) (fun q => b2z (fset V p (0 + 1) q =? 0)) p);
      [|done|intros q _ Hq; by rewrite fset_ne].
    rewrite vl_count0, fset_eq, HV, Hfp. simpl. lia.
Qed.

(** *** The invariant under the steps of a request *)

(** [p] is the page the allocator hands out in state [A]. *)
Definition fresh (A A' : alloc) (p : Z) : Prop :=
  alloc_wf sc A /\ (forall b n, acur A = Some (b, n) -> 1 <= n) /\
  exists f b i, alloc_next sc A = Some (f, b, i, A') /\ p = addr sc f b i.

Lemma fresh_range A A' p :
  fresh A A' p -> 0 <= p < pages sc /\ block_of sc p ∈ rows A' /\
  free_pages sc A' = free_pages sc A - 1.
Proof.
  intros (Hwf & Hst & f & b & i & Hn & ->).
  destruct (alloc_next_facts sc G _ _ _ _ _ Hwf Hst Hn) as (Hf & Hb & Hi & Hfr & _ & Hfp & Hro).
  split; [by apply addr_range|]. split; [|done]. rewrite block_of_addr, Hro by done.
  unfold rows. rewrite !elem_of_app. destruct Hfr as [?|(n & E & _)]; [by left|].
  right. left. unfold cur_rows. rewrite E. apply list_elem_of_singleton. done.
Qed.

Lemma pinv_rest k g R C V L A Af s s' :
  pinv sc k g R C V L A Af s -> core sc k R C V L s' -> same_rest s s' ->
  pinv sc k g R C V L A Af s'.
Proof. intros [] Hc Hr. constructor; [done..|]. by eapply outer_rest. Qed.

Lemma pinv_booked k g R C V L A Af c s s' :
  pinv sc k g R C V L A Af s -> booked c s s' -> pinv sc k g R C V L A Af s'.
Proof.
  intros Hp Hb. eapply pinv_rest; [exact Hp| |by eapply booked_rest].
  eapply core_booked; [apply Hp|exact Hb].
Qed.

Lemma pinv_idle k g R C V L A Af s s' :
  pinv sc k g R C V L A Af s -> idle s s' -> pinv sc k g R C V L A Af s'.
Proof.
  intros Hp Hi. eapply pinv_rest; [exact Hp| |apply Hi]. eapply core_idle; [apply Hp|done].
Qed.

Lemma pinv_le k k' g R C V L A Af s :
  k' <= k -> pinv sc k g R C V L A Af s -> pinv sc k' g R C V L A Af s.
Proof. intros Hk []. constructor; try done. by eapply core_le. Qed.

Lemma pinv_ext k g R R' C V L L' A Af s :
  (forall x q, 0 <= q < pages sc -> R x q = R' x q) ->
  (forall b, 0 <= b < BLOCK_NB sc -> L b = L' b) ->
  pinv sc k g R C V L A Af s -> pinv sc k g R' C V L' A Af s.
Proof. intros HR HL []. constructor; try done. by eapply core_ext; [exact HR| | |exact HL|]. Qed.

Lemma pinv_owned k g R C V L A Af s l p :
  pinv sc k g R C V L A Af s -> 0 <= p < pages sc -> block_of sc p <> g -> 0 < R l p ->
  0 < C p <= 127 /\ V p = C p.
Proof.
  intros [[] [] _] Hp Hg HR. destruct (ir_entry _ _ _ _ co_inv p Hp) as (fp & n & _ & Hn & Hc & Ho).
  assert (0 < C p) by (pose proof (occ_le_length l n); rewrite Ho in *; lia).
  pose proof (vl_refs0 p Hp Hg). lia.
Qed.

Lemma new_page_spec k g R C V L A m Q s :
  pinv sc k g R C V L A A s -> 0 < free_pages sc A ->
  (forall p A' s', fresh A A' p -> pinv sc k g R C V L A' A s' -> alloc_frame s s' ->
     Q (Some p) s') ->
  wp (GET_NEW_PAGE VICTIM_OVERALL m) Q s.
Proof.
  intros Hp Hfp HQ. pose proof (ou_alloc _ _ _ _ (pi_outer _ _ _ _ _ _ _ _ _ _ Hp)) as Ha.
  destruct (Ha) as [Hwf Hst _ _ _].
  destruct (alloc_next_is_Some sc A Hwf Hfp) as (f & b & i & A' & Hn).
  eapply (GET_NEW_PAGE_spec sc G); [apply Hp|exact Ha|exact Hn|]. intros s' Ha' Hf.
  apply (HQ _ A'); [by repeat (done || eexists)| |done].
  destruct (alloc_next_facts sc G _ _ _ _ _ Hwf Hst Hn) as (_ & _ & _ & _ & _ & _ & Hro).
  destruct Hp. constructor; [by eapply core_alloc|done|].
  eapply outer_alloc; [done..|]. intros x. by rewrite Hro.
Qed.

(** The fresh page is free, and unowned. *)
Lemma fresh_zero k g R C V L A A' s p :
  pinv sc k g R C V L A' A s -> fresh A A' p -> V p = 0 /\ C p = 0.
Proof.
  intros [Hc Hl _] Hf. destruct (fresh_range _ _ _ Hf) as (Hp & _).
  destruct Hf as (Hwf & Hst & f & b & i & Hn & ->).
  assert (V (addr sc f b i) = 0) as E.
  { apply (vl_free _ _ _ _ _ Hl); [done|].
    destruct (alloc_next_facts sc G _ _ _ _ _ Hwf Hst Hn) as (Hf & Hb & Hi & Hfr & _).
    by rewrite flash_of_addr, block_of_addr, page_of_addr. }
  pose proof (inv_rep_nonneg _ _ _ _ _ 0 (co_inv _ _ _ _ _ _ _ Hc) Hp) as H0.
  pose proof (vl_owned _ _ _ _ _ Hl _ Hp). lia.
Qed.

Lemma fresh_program ty A A' p log :
  fresh A A' p -> nand_wf sc A log ->
  nand_wf sc A' (NandProgram ty (flash_of sc p) (block_of sc p) (page_of sc p) :: log).
Proof.
  intros (Hwf & Hst & f & b & i & Hn & ->) Hl.
  destruct (alloc_next_facts sc G _ _ _ _ _ Hwf Hst Hn) as (Hf & Hb & Hi & _).
  rewrite flash_of_addr, block_of_addr, page_of_addr by done. by eapply nand_wf_program.
Qed.

(** The fresh page gets its first owner. *)
Lemma install_spec k g R C V L A A' l p Q s :
  pinv sc k g R C V L A' A s -> fresh A A' p -> 0 <= l < pages sc ->
  (forall s', pinv sc k g (radd R l p 1) (fadd C p 1) (fset V p (V p + 1)) L A' A' s' ->
     V p = 0 -> C p = 0 -> quiet (set_mapping_table (zset l p (mapping_table s)) s) s' ->
     Q SUCCESS s') ->
  wp (UPDATE_NEW_PAGE_MAPPING l p DATA_BLOCK) Q s.
Proof.
  intros Hpi Hf Hln HQ. destruct (fresh_zero _ _ _ _ _ _ _ _ _ _ Hpi Hf) as [_ HC].
  destruct (fresh_range _ _ _ Hf) as (Hp & _). destruct Hpi as [Hc Hl Ho].
  destruct Hf as (Hwf & Hst & f & b & i & Hn & ->). set (p := addr sc f b i) in *.
  destruct (vlink_install _ _ _ _ _ _ _ _ Hl Hwf Hst Hn HC) as [HV Hl'].
  fold p in HV, Hl'.
  eapply (UPDATE_NEW_spec sc); [exact Hc|done|by rewrite (ou_map _ _ _ _ Ho)|lia|lia|done|].
  intros s' Hc' Hq. apply HQ; try done. constructor; [done..|].
  eapply outer_rest; [|exact (qu_rest _ _ Hq)]. apply outer_map; [done..|lia].
Qed.

(** A page with owners gets one more. *)
Lemma share_spec k g R C V L A Af l p Q s :
  pinv sc k g R C V L A Af s -> 0 <= p < pages sc -> block_of sc p <> g ->
  0 < C p < 127 -> 0 <= l < pages sc ->
  (forall s', pinv sc k g (radd R l p 1) (fadd C p 1) (fset V p (V p + 1)) L A Af s' ->
     quiet (set_mapping_table (zset l p (mapping_table s)) s) s' -> Q SUCCESS s') ->
  wp (UPDATE_NEW_PAGE_MAPPING l p DATA_BLOCK) Q s.
Proof.
  intros [Hc Hl Ho] Hp Hg HC Hln HQ. pose proof (vl_refs _ _ _ _ _ Hl p Hp Hg) as HV.
  eapply (UPDATE_NEW_spec sc); [exact Hc|done|by rewrite (ou_map _ _ _ _ Ho)|lia|lia|done|].
  intros s' Hc' Hq. apply HQ; [|done]. constructor; [done|by apply vlink_share; [..|lia]|].
  eapply outer_rest; [|exact (qu_rest _ _ Hq)]. apply outer_map; [done..|lia].
Qed.

(** A logical page drops its physical page. *)
Lemma drop_spec k g R C V L A Af l Q s :
  pinv sc k g R C V L A Af s -> g < 0 -> 0 <= l < pages sc ->
  (lmap s l <> -1 -> 0 < R l (lmap s l)) ->
  (forall s' R' C' V' L', pinv sc k g R' C' V' L' A Af s' -> quiet s s' ->
     (forall x q, 0 <= q < pages sc -> R' x q = R x q - if x =? l then b2z (lmap s l =? q) else 0) ->
     (forall b, L' b = L b - entry_in sc (lmap s l) (nvf s l) b) ->
     (forall q, 0 <= q < pages sc -> C' q <= C q) ->
     (forall q, q <> lmap s l -> C' q = C q /\ V' q = V q) ->
     Q SUCCESS s') ->
  wp (UPDATE_OLD_PAGE_MAPPING l) Q s.
Proof.
  intros Hpi Hg Hln HR HQ. destruct (Hpi) as [Hc Hl Ho]. destruct (Ho).
  pose proof (lmap_get s l ltac:(lia)) as Hm. pose proof (nvf_get s l ltac:(lia)) as Hnv.
  specialize (ou_range0 l Hln). unfold entry_in in HQ.
  destruct (Z.eqb_spec (lmap s l) (-1)) as [E|E].
  - apply UPDATE_OLD_unmapped; [by rewrite Hm, E|]. apply (HQ s R C V L); try done.
    + intros x q Hq. destruct (x =? l); [|lia]. rewrite E. zcase. simpl. lia.
    + intros b. simpl. lia.
  - set (p := lmap s l) in *. assert (0 <= p < pages sc) as Hp by lia. specialize (HR E).
    pose proof (block_of_range sc G p).
    destruct (pinv_owned _ _ _ _ _ _ _ _ _ _ _ Hpi Hp ltac:(lia) HR) as [HC HV].
    eapply (UPDATE_OLD_spec sc); [exact Hc|done|exact Hm|exact Hnv|done|lia|].
    intros s' Hc' Hq. eapply HQ; [|exact Hq|..].
    + constructor; [exact Hc'|by apply vlink_drop; [| |lia..]|].
      by eapply outer_rest; [|apply Hq].
    + intros x q _. unfold radd. rewrite (Z.eqb_sym p q).
      destruct (x =? l), (q =? p); simpl; lia.
    + intros b. simpl. unfold fadd, fset. rewrite (Z.eqb_sym (block_of sc p) b).
      destruct (nvf s l =? 1); [|destruct (_ =? _); simpl; lia].
      destruct (Z.eqb_spec b (block_of sc p)) as [->|]; simpl; lia.
    + intros q Hq'. unfold fadd, fset. zcase. subst. lia.
    + intros q Hq'. by rewrite fadd_ne, fset_ne.
Qed.

Lemma settle k g R C V L A s :
  pinv sc k g R C V L A A s -> (forall x q, 0 <= q < pages sc -> R x q = owner (mapping_table s) x q) ->
  (forall b, 0 <= b < BLOCK_NB sc -> L b = if b =? g then 0 else live sc s b) ->
  nand_wf sc A (nand_log s) -> ginv sc k g C V A s.
Proof.
  intros [] HR HL Hn. constructor; [|done]. constructor; try done. by eapply core_ext; [exact HR| | |exact HL|].
Qed.

(** The tables describe the mapping again once [l] has gone from its page to
    [p]. *)
Lemma settle_upd k R C V L A s s' l p n :
  pinv sc k (-1) R C V L A A s' -> zlen (mapping_table s) = pages sc -> 0 <= l < pages sc ->
  (forall x, lmap s' x = if x =? l then p else lmap s x) ->
  (forall x, nvf s' x = if x =? l then n else nvf s x) ->
  (forall x q, 0 <= q < pages sc -> R x q = owner (mapping_table s) x q +
     if x =? l then b2z (p =? q) - b2z (lmap s l =? q) else 0) ->
  (forall b, 0 <= b < BLOCK_NB sc ->
     L b = live sc s b - entry_in sc (lmap s l) (nvf s l) b + entry_in sc p n b) ->
  nand_wf sc A (nand_log s') -> ginv sc k (-1) C V A s'.
Proof.
  intros Hp Hz Hl Hm Hn HR HL Hlog. eapply settle; [exact Hp| | |done].
  - intros x q Hq. rewrite HR by done. pose proof (ou_map _ _ _ _ (pi_outer _ _ _ _ _ _ _ _ _ _ Hp)).
    destruct (decide (0 <= x < pages sc)).
    + rewrite !owner_lmap, Hm by lia. destruct (Z.eqb_spec x l) as [->|]; lia.
    + unfold owner. destruct (zget (mapping_table s) x) eqn:E1; [apply zget_Some_range in E1; lia|].
      destruct (zget (mapping_table s') x) eqn:E2; [apply zget_Some_range in E2; lia|]. by zcase.
  - intros b Hb. rewrite HL by done. destruct (Z.eqb_spec b (-1)); [lia|].
    rewrite (live_set sc s s' l), Hm, Hn, Z.eqb_refl; [done|done|..].
    + intros x Hx. rewrite Hm. by zcase.
    + intros x Hx. rewrite Hn. by zcase.
Qed.

(** A page without nodes is nobody's. *)
Lemma unowned k C V L s p :
  core sc k (owner (mapping_table s)) C V L s -> zlen (mapping_table s) = pages sc ->
  0 <= p < pages sc -> C p = 0 -> forall l, lmap s l <> p.
Proof.
  intros Hc Hz Hp HC l E. pose proof (inv_rep_empty _ _ _ _ _ (co_inv _ _ _ _ _ _ _ Hc) Hp HC l) as H0.
  destruct (decide (0 <= l < pages sc)).
  - rewrite owner_lmap, E, Z.eqb_refl in H0 by lia. done.
  - unfold lmap in E. destruct (zget _ l) eqn:E'; [apply zget_Some_range in E'|]; lia.
Qed.

(** The nodes of a page are its logical pages. *)
Lemma nodes_sharers k C V L s p :
  core sc k (owner (mapping_table s)) C V L s -> zlen (mapping_table s) = pages sc ->
  0 <= p < pages sc -> C p = sharers sc s p.
Proof.
  intros Hc Hz Hp. destruct (ir_entry _ _ _ _ (co_inv _ _ _ _ _ _ _ Hc) p Hp) as (fp & n & _ & Hn & _ & Ho).
  rewrite <- Hn, <- (occ_sum (pages sc)).
  - apply sumZ_ext. intros l Hl. by rewrite Ho, owner_lmap by lia.
  - intros x Hx%occ_pos_elem. rewrite Ho in Hx. unfold owner in Hx.
    destruct (zget _ x) eqn:E; [|lia]. apply zget_Some_range in E. lia.
Qed.

(** The page a new owner can be attached to: the fresh one, or one that
    already has owners. *)
Definition target (A Af : alloc) (C : Z -> Z) (p : Z) : Prop :=
  fresh Af A p \/ Af = A /\ 0 < C p < 127.

Lemma attach_spec k g R C V L A Af l p Q s :
  pinv sc k g R C V L A Af s -> target A Af C p -> 0 <= p < pages sc -> block_of sc p <> g ->
  0 <= l < pages sc ->
  (forall s' V', pinv sc k g (radd R l p 1) (fadd C p 1) V' L A A s' ->
     (forall q, q <> p -> V' q = V q) ->
     quiet (set_mapping_table (zset l p (mapping_table s)) s) s' -> Q SUCCESS s') ->
  wp (UPDATE_NEW_PAGE_MAPPING l p DATA_BLOCK) Q s.
Proof.
  intros Hp [Hf|[-> Hc]] Hr Hg Hl HQ.
  - eapply install_spec; [done..|]. intros s' Hp' _ _ Hq. eapply HQ; [done| |done].
    intros q Hne. by rewrite fset_ne.
  - eapply share_spec; [done..|]. intros s' Hp' Hq. eapply HQ; [done| |done].
    intros q Hne. by rewrite fset_ne.
Qed.

Lemma same_map_lmap s s' : same_map s s' -> forall l, lmap s' l = lmap s l.
Proof. intros [E _] l. unfold lmap. by rewrite E. Qed.

Lemma same_map_nvf s s' : same_map s s' -> forall l, nvf s' l = nvf s l.
Proof. intros [_ E] l. unfold nvf. by rewrite E. Qed.

Lemma same_map_live s s' : same_map s s' -> forall b, live sc s' b = live sc s b.
Proof.
  intros Hr b. apply sumZ_ext. intros l _.
  by rewrite (same_map_lmap _ _ Hr), (same_map_nvf _ _ Hr).
Qed.

(** The invariant between two states with the same tables. *)
Lemma ginv_rest k k' g C V A s s' :
  ginv sc k g C V A s -> same_rest s s' ->
  core sc k' (owner (mapping_table s)) C V (fun b => if b =? g then 0 else live sc s b) s' ->
  nand_wf sc A (nand_log s') -> ginv sc k' g C V A s'.
Proof.
  intros [[Hc Hl Ho] _] Hr Hc' Hn. constructor; [|done].
  constructor; [|done|by eapply outer_rest]. rewrite (sm_map _ _ Hr).
  eapply core_ext; [done..| |exact Hc']. intros b _. cbv beta. by rewrite (same_map_live _ _ (same_rest_map _ _ Hr)).
Qed.

Lemma ginv_idle k g C V A s s' : ginv sc k g C V A s -> idle s s' -> ginv sc k g C V A s'.
Proof.
  intros Hg Hi. eapply ginv_rest; [exact Hg|apply Hi| |].
  - eapply core_idle; [apply Hg|done].
  - rewrite (id_log _ _ Hi). apply Hg.
Qed.

Lemma ginv_booked k g C V A c s s' :
  ginv sc k g C V A s -> booked c s s' -> nand_wf sc A (c ++ nand_log s) -> ginv sc k g C V A s'.
Proof.
  intros Hg Hb Hn. eapply ginv_rest; [exact Hg|by eapply booked_rest| |].
  - eapply core_booked; [apply Hg|done].
  - by rewrite (bk_log _ _ _ Hb).
Qed.

Lemma ginv_le k k' g C V A s : k' <= k -> ginv sc k g C V A s -> ginv sc k' g C V A s.
Proof. intros Hk []. constructor; [|done]. by eapply pinv_le. Qed.

Lemma ginv_slot k g C V A s i v :
  ginv sc k g C V A s -> ginv sc k g C V A (set_gc_slot (zset i v (gc_slot s)) s).
Proof.
  intros [[[] Hl []] Hlog]. constructor; [|done]. constructor; [|done|].
  - constructor; try done. by destruct co_time.
  - constructor; try done; [by destruct ou_alloc0 as [? ? [] ? ?]|].
    cbn [gc_slot set_gc_slot]. by rewrite zlen_zset.
Qed.

(** *** The invariant under the timing and statistics operations *)

Section PinvClock.
Context `{Clock}.

Lemma pinv_params k g R C V L A Af s : pinv sc k g R C V L A Af s -> ssdparams s = sc.
Proof. intros Hp. apply Hp. Qed.

Lemma pinv_PAGE_READ k g R C V L A Af f b i n Q s :
  pinv sc k g R C V L A Af s -> 0 <= f < FLASH_NB sc ->
  (forall r s', pinv sc k g R C V L A Af s' -> booked [NandRead f b i] s s' -> Q r s') ->
  wp (SSD_PAGE_READ f b i n) Q s.
Proof.
  intros Hp Hf HQ. eapply wp_mono.
  - apply SSD_PAGE_READ_ok; [apply Hp|by rewrite (pinv_params _ _ _ _ _ _ _ _ _ Hp)].
  - intros r s' Hb. cbv beta in Hb. apply HQ; [by eapply pinv_booked|done].
Qed.

Lemma pinv_PAGE_WRITE k g R C V L A Af f b i n Q s :
  pinv sc k g R C V L A Af s -> 0 <= f < FLASH_NB sc ->
  (forall r s', pinv sc k g R C V L A Af s' -> booked [NandProgram (n_type n) f b i] s s' -> Q r s') ->
  wp (SSD_PAGE_WRITE f b i n) Q s.
Proof.
  intros Hp Hf HQ. eapply wp_mono.
  - apply SSD_PAGE_WRITE_ok; [apply Hp|by rewrite (pinv_params _ _ _ _ _ _ _ _ _ Hp)].
  - intros r s' Hb. cbv beta in Hb. apply HQ; [by eapply pinv_booked|done].
Qed.

Lemma pinv_PARTIAL_WRITE k g R C V L A Af f b i f' b' i' n Q s :
  pinv sc k g R C V L A Af s -> 0 <= f < FLASH_NB sc ->
  (forall r s', pinv sc k g R C V L A Af s' ->
     booked [NandProgram (n_type n) f' b' i'; NandRead f b i] s s' -> Q r s') ->
  wp (SSD_PAGE_PARTIAL_WRITE f b i f' b' i' n) Q s.
Proof.
  intros Hp Hf HQ. eapply wp_mono.
  - apply SSD_PAGE_PARTIAL_WRITE_ok; [apply Hp|by rewrite (pinv_params _ _ _ _ _ _ _ _ _ Hp)].
  - intros r s' Hb. cbv beta in Hb. apply HQ; [by eapply pinv_booked|done].
Qed.

Lemma pinv_NVRAM_TS k g R C V L A Af b d Q s :
  pinv sc k g R C V L A Af s -> 0 <= b < BLOCK_NB sc ->
  (forall r s', pinv sc k g R C V L A Af s' -> booked [] s s' -> Q r s') ->
  wp (UPDATE_NVRAM_TS b d) Q s.
Proof.
  intros Hp Hb HQ. eapply wp_mono.
  - apply UPDATE_NVRAM_TS_ok; [apply Hp|by rewrite (pinv_params _ _ _ _ _ _ _ _ _ Hp)].
  - intros r s' Hb'. cbv beta in Hb'. apply HQ; [by eapply pinv_booked|done].
Qed.

Lemma pinv_tick k g R C V L A Af Q s :
  pinv sc k g R C V L A Af s ->
  (forall s', pinv sc k g R C V L A Af s' -> idle s s' -> Q tt s') -> wp stat_tick Q s.
Proof.
  intros Hp HQ. eapply wp_mono; [apply stat_tick_spec|]. intros [] s' Hi. cbv beta in Hi.
  apply HQ; [by eapply pinv_idle|done].
Qed.
End PinvClock.
End Pinv.
