(* ===== verification/Gc.v ===== *)
(** * Superblock garbage collection: ftl_gc_manager.c

    [SELECT_VICTIM_SUPERBLOCK] picks the row of victim blocks with the fewest
    valid pages, [SB_GARBAGE_COLLECTION] copies its valid pages and erases it,
    [GC_CHECK] collects while space is low.  [inr tt] is an early
    [return FAIL] out of a loop. *)

From Stdlib Require Import ZArith Lia List.
From stdpp Require Import base tactics numbers list functions.
From S2P Require Import Prelude Config State Timing Perf Inverse Nvram Mapping Alloc Flash Invariant.

Open Scope Z_scope.

Section Gc.
Context `{Clock}.

(** ** Victim selection *)

(** The valid pages of the [i]-th victims of all chips, which must lie in the
    same row; the lists must be equally long. *)
Definition victim_row_valid (n i entry_nb : Z) : SM (Z * Z + unit) :=
  mfold_ret (Z.to_nat n) 0 (0, 0) (fun j acc =>
    let '(first_block_nb, curr_valid_page_nb) := acc in
    r ← arr_load victim_block_list j;
    if (i =? 0) && negb (s32 (victim_block_nb r) =? entry_nb) then mret (inr tt) else
    e ← deref (v_list r !! Z.to_nat i);
    let first_block_nb := if j =? 0 then v_phy_block_nb e else first_block_nb in
    if negb (v_phy_block_nb e =? first_block_nb) then mret (inr tt) else
    b_s_entry ← GET_BLOCK_STATE_ENTRY (v_phy_flash_nb e) (v_phy_block_nb e);
    b ← arr_load block_state_table b_s_entry;
    mret (inl (first_block_nb, curr_valid_page_nb + valid_page_nb b))).

(** [(off, min_valid_page_nb)] over all victim rows. *)
Definition select_min (n entry_nb init : Z) : SM (Z * Z + unit) :=
  mfold_ret (Z.to_nat entry_nb) 0 (0, init) (fun i acc =>
    let '(off, min_valid_page_nb) := acc in
    r ← victim_row_valid n i entry_nb;
    match r with
    | inr u => mret (inr u)
    | inl (_, curr_valid_page_nb) =>
        mret (inl (if curr_valid_page_nb <? min_valid_page_nb
                   then (i, curr_valid_page_nb) else (off, min_valid_page_nb)))
    end).

(** [*phy_block_nb] when the result is [SUCCESS].  The nodes to eject are the
    [off]-th of each chain; ejecting one leaves the other chains alone. *)
Definition SELECT_VICTIM_SUPERBLOCK : SM (option Z) :=
  conf sc;
  let n := VICTIM_TABLE_ENTRY_NB sc in
  let init := PAGE_NB sc * FLASH_NB sc * PLANES_PER_FLASH sc in
  total ← gets total_victim_block_nb;
  if total =? 0 then mret None else
  r0 ← arr_load victim_block_list 0;
  if victim_block_nb r0 =? 0 then mret None else
  m ← select_min n (s32 (victim_block_nb r0)) init;
  match m with
  | inr _ => mret None
  | inl (off, min_valid_page_nb) =>
      if min_valid_page_nb =? init then ctr_add fail_cnt 1;; mret None else
      r ← arr_load victim_block_list 0;
      e ← deref (v_list r !! Z.to_nat off);
      mfor (Z.to_nat n) 0 (fun j => _ ← EJECT_VICTIM_BLOCK j (Z.to_nat off); mret tt);;
      mret (Some (v_phy_block_nb e))
  end.

(** ** Copying one page *)

(** [while (inverse_entry->tail != NULL)]: every logical page that shares
    [old_ppn] is moved to [new_ppn]; the first one's entry goes to the spare
    area of the new page, the others' to NVRAM. *)
Fixpoint gc_move_lpns (fuel : nat) (old_ppn new_ppn oob_write : Z) : SM unit :=
  inverse_entry ← GET_INVERSE_MAPPING_INFO old_ppn;
  match list.last (i_list inverse_entry) with
  | None => mret tt
  | Some lpn =>
      match fuel with
      | O => mhang
      | S fuel' =>
          _ ← DECREASE_INVERSE_MAPPING old_ppn lpn;
          _ ← UPDATE_NEW_PAGE_MAPPING lpn new_ppn DATA_BLOCK;
          (if oob_write =? 0 then st_in_nvram lpn 0
           else
             b ← CALC_BLOCK new_ppn;
             _ ← UPDATE_NVRAM_OOB b VALID;
             st_in_nvram lpn 1;;
             _ ← UPDATE_NVRAM_TS b (Z.quot NVRAM_WRITE_DELAY 4);
             mret tt);;
          gc_move_lpns fuel' old_ppn new_ppn 1
      end
  end.

(** The page of the transaction table, when there is one. *)
Definition gc_move_xl2p (new_ppn : Z) : SM unit :=
  modify (set_xl2p_ppn new_ppn);;
  flash ← CALC_FLASH new_ppn;
  block ← CALC_BLOCK new_ppn;
  page ← CALC_PAGE new_ppn;
  _ ← UPDATE_BLOCK_STATE flash block DATA_BLOCK;
  _ ← UPDATE_BLOCK_STATE_ENTRY flash block page VALID;
  mret tt.

(** A valid page [i] of the victim block: [false] is [return FAIL]. *)
Definition gc_copy_page (victim_phy_flash_nb victim_phy_block_nb i : Z) : SM bool :=
  conf sc;
  np ← GET_NEW_PAGE VICTIM_OVERALL (EMPTY_TABLE_ENTRY_NB sc);
  match np with
  | None => mret false
  | Some new_ppn =>
      seq ← ctr_get io_request_seq_nb;
      _ ← SSD_PAGE_READ victim_phy_flash_nb victim_phy_block_nb i
            (CREATE_NAND_IO_INFO i GC_READ (-1) seq);
      flash ← CALC_FLASH new_ppn;
      block ← CALC_BLOCK new_ppn;
      page ← CALC_PAGE new_ppn;
      _ ← SSD_PAGE_WRITE flash block page (CREATE_NAND_IO_INFO i GC_WRITE (-1) seq);
      ctr_add stat_gc_write_count 1;;
      stat_tick;;
      let old_ppn := u32 (victim_phy_flash_nb * PAGES_PER_FLASH sc
                          + victim_phy_block_nb * PAGE_NB sc + i) in
      xl2p ← gets xl2p_ppn;
      (if old_ppn =? xl2p then gc_move_xl2p new_ppn
       else
         e ← GET_INVERSE_MAPPING_INFO old_ppn;
         gc_move_lpns (length (i_list e)) old_ppn new_ppn 0);;
      mret true
  end.

(** ** Copying and erasing the superblock *)

(** All pages of the victim on one chip; the number of copied pages must be
    the block's count of valid pages. *)
Definition gc_copy_block (victim_phy_flash_nb victim_phy_block_nb copy_page_nb : Z)
  : SM (Z + unit) :=
  conf sc;
  b_s_entry ← GET_BLOCK_STATE_ENTRY victim_phy_flash_nb victim_phy_block_nb;
  r ← mfold_ret (Z.to_nat (PAGE_NB sc)) 0 0 (fun i n =>
        v ← ld_valid b_s_entry i;
        if 0 <? v then
          ok ← gc_copy_page victim_phy_flash_nb victim_phy_block_nb i;
          mret (if (ok : bool) then inl (n + 1) else inr tt)
        else mret (inl n));
  match r with
  | inr u => mret (inr u)
  | inl n =>
      b ← arr_load block_state_table b_s_entry;
      if negb (n =? valid_page_nb b) then mret (inr tt)
      else mret (inl (copy_page_nb + n))
  end.

Definition gc_copy_superblock (victim_phy_block_nb : Z) : SM (Z + unit) :=
  conf sc;
  mfold_ret (Z.to_nat (FLASH_NB sc * PLANES_PER_FLASH sc)) 0 0 (fun f n =>
    gc_copy_block f victim_phy_block_nb n).

(** Does some block of the row hold a valid page? *)
Definition gc_any_valid (victim_phy_block_nb : Z) : SM bool :=
  conf sc;
  r ← mfor_ret (Z.to_nat (FLASH_NB sc * PLANES_PER_FLASH sc)) 0 (fun f =>
        b_s_entry ← GET_BLOCK_STATE_ENTRY f victim_phy_block_nb;
        b ← arr_load block_state_table b_s_entry;
        mret (if 0 <? valid_page_nb b then Some tt else None));
  mret (match r with Some _ => true | None => false end).

(** Reading the row's NVRAM entries blocks all chips. *)
Definition gc_read_oob (victim_phy_block_nb : Z) : SM Z :=
  flag ← gc_any_valid victim_phy_block_nb;
  seg ← arr_load NVRAM_OOB_TABLE victim_phy_block_nb;
  if (flag : bool) && (0 <? alloc_seg seg) then
    let entry_nb := alloc_seg seg * OOB_ENTRY_PER_SEG - free_entry seg in
    UPDATE_NVRAM_TS victim_phy_block_nb
      (Z.quot (entry_nb * OOB_ENTRY_BYTES * NVRAM_READ_DELAY) 64)
  else mret 0.

Definition gc_block_chips (blocking_time : Z) : SM unit :=
  if 0 <? blocking_time then
    UPDATE_FLASH_TS blocking_time;;
    ctr_add stat_GCRNVRAM_print 1;;
    ctr_add stat_GCRNVRAM_delay_print blocking_time;;
    d ← ctr_get stat_GCRNVRAM_delay_print;
    n ← ctr_get stat_GCRNVRAM_print;
    if n =? 0 then mcrash DivByZero else ctr_set stat_avg_GCRNVRAM_delay (d / n)
  else mret tt.

Definition gc_erase (victim_phy_block_nb : Z) : SM unit :=
  conf sc;
  mfor (Z.to_nat (FLASH_NB sc)) 0 (fun f =>
    _ ← SSD_BLOCK_ERASE f victim_phy_block_nb;
    _ ← UPDATE_BLOCK_STATE f victim_phy_block_nb EMPTY_BLOCK;
    _ ← INSERT_EMPTY_BLOCK f victim_phy_block_nb;
    mret tt).

Definition gc_book_slots (victim_phy_block_nb copy_page_nb : Z) : SM unit :=
  conf sc;
  mfor (Z.to_nat (FLASH_NB sc)) 0 (fun f =>
    let gc_time := BLOCK_ERASE_DELAY sc + copy_page_nb * 920 + 64 * 920 in
    let slot := slot_of sc f victim_phy_block_nb in
    curtime ← get_usec;
    t ← arr_load gc_slot slot;
    if t <=? curtime then st_gc_slot slot (curtime + gc_time)
    else st_gc_slot slot (t + gc_time);; ctr_add stacking_gc_count 1).

(** ** One collection, and the loop around it *)

(** What follows the copies: the row is erased, the statistics are updated. *)
Definition gc_finish (gc_start cp_start victim_phy_block_nb copy_page_nb : Z) : SM Z :=
  conf sc;
  cp_end ← get_ts_in_ns;
  ctr_add time_cp (cp_end - cp_start);;
  ctr_add mycopy_page_nb copy_page_nb;;
  up_start ← get_ts_in_ns;
  gc_erase victim_phy_block_nb;;
  up_end ← get_ts_in_ns;
  ctr_add time_up (up_end - up_start);;
  ctr_add stat_gc_count 1;;
  ctr_add stat_erase_count (FLASH_NB sc * PLANES_PER_FLASH sc);;
  ctr_add mygc_cnt 1;;
  gc_book_slots victim_phy_block_nb copy_page_nb;;
  gc_end ← get_ts_in_ns;
  ctr_add time_gc (gc_end - gc_start);;
  mret SUCCESS.

Definition SB_GARBAGE_COLLECTION : SM Z :=
  conf sc;
  gc_start ← get_ts_in_ns;
  svb_start ← get_ts_in_ns;
  ret ← SELECT_VICTIM_SUPERBLOCK;
  svb_end ← get_ts_in_ns;
  ctr_add time_svb (svb_end - svb_start);;
  match ret with
  | None => mret FAIL
  | Some victim_phy_block_nb =>
      blocking_time ← gc_read_oob victim_phy_block_nb;
      cp_start ← get_ts_in_ns;
      gc_block_chips blocking_time;;
      _ ← UPDATE_NVRAM_OOB victim_phy_block_nb 0;
      r ← gc_copy_superblock victim_phy_block_nb;
      match r with
      | inr _ => mret FAIL
      | inl copy_page_nb => gc_finish gc_start cp_start victim_phy_block_nb copy_page_nb
      end
  end.

Definition gc_needed : SM bool :=
  conf sc;
  total ← gets total_empty_block_nb;
  free ← ctr_get stat_ppn_free;
  mret ((total <? GC_THRESHOLD_BLOCK_NB sc)
        || (free <? u64 (GC_THRESHOLD_BLOCK_NB sc * PAGE_NB sc))).

(** [while (low on space)]: a collection that succeeds frees at least one
    page, so there are at most as many iterations as pages. *)
Fixpoint gc_check_loop (fuel : nat) : SM unit :=
  need ← gc_needed;
  if negb need then mret tt else
  match fuel with
  | O => mhang
  | S fuel' =>
      ret ← SB_GARBAGE_COLLECTION;
      if ret =? FAIL then mret tt
      else ctr_add gc_count 1;; gc_check_loop fuel'
  end.

Definition GC_CHECK (phy_flash_nb phy_block_nb : Z) : SM unit :=
  conf sc;
  gc_check_loop (S (Z.to_nat (PAGE_MAPPING_ENTRY_NB sc))).

End Gc.

(** ** Victim selection: the first row with the fewest valid pages *)

(** The valid pages of the block of row [b] on chip [f], and of the row. *)
Definition block_valid (sc : ssdconf) (V : Z -> Z) (f b : Z) : Z :=
  sumZ (PAGE_NB sc) (fun i => b2z (0 <? V (addr sc f b i))).

Definition row_valid (sc : ssdconf) (V : Z -> Z) (b : Z) : Z :=
  sumZ (FLASH_NB sc) (fun f => block_valid sc V f b).

(** [off] is the first of the [n] rows with the fewest valid pages, if one
    has fewer than [init]. *)
Definition min_row (rv : Z -> Z) (n init off m : Z) : Prop :=
  m <= init /\ (forall i, 0 <= i < n -> m <= rv i) /\
  (m = init \/ 0 <= off < n /\ m = rv off /\ forall i, 0 <= i < off -> m < rv i).

Section Select.
Variable sc : ssdconf.
Hypothesis G : geom sc.
Implicit Types (s : ssdstate) (A : alloc).
Local Abbreviation F := (FLASH_NB sc).
Local Abbreviation P := (PAGE_NB sc).

Lemma block_valid_range V f b : 0 <= block_valid sc V f b <= P.
Proof.
  pose proof (g_page _ G). unfold block_valid. split; [apply sumZ_nonneg; intros; by zcase|].
  replace P with (sumZ P (fun _ => 1)) at 2 by (rewrite sumZ_const; lia).
  apply sumZ_le. intros. by zcase.
Qed.

Lemma row_valid_range V b : 0 <= row_valid sc V b <= F * P.
Proof.
  pose proof (g_flash _ G). unfold row_valid. split.
  - apply sumZ_nonneg. intros. apply block_valid_range.
  - rewrite <- sumZ_const by lia. apply sumZ_le. intros. apply block_valid_range.
Qed.

Lemma valid_page_nb_spec V f b Q s :
  ssdparams s = sc -> blk_rep sc V None (block_state_table s) ->
  0 <= f < F -> 0 <= b < BLOCK_NB sc ->
  (forall e, valid_page_nb e = block_valid sc V f b -> Q e s) ->
  wp (b_s_entry ← GET_BLOCK_STATE_ENTRY f b; arr_load block_state_table b_s_entry) Q s.
Proof.
  intros Hsc Hb Hf Hbr HQ. st_step. apply (GET_BLOCK_STATE_ENTRY_spec sc); try done.
  pose proof (radix_range f F b (BLOCK_NB sc) Hf Hbr).
  destruct (br_entry _ _ _ _ Hb (f * BLOCK_NB sc + b)) as (e & He & _ & _ & Hv); [lia|].
  eapply wp_arr_load; [exact He|]. apply HQ. by apply Hv.
Qed.

Lemma victim_row_valid_spec V A i b Q s :
  ssdparams s = sc -> blk_rep sc V None (block_state_table s) -> alloc_rep sc A s ->
  av A !! i = Some b -> Q (inl (b, row_valid sc V b)) s ->
  wp (victim_row_valid F (Z.of_nat i) (zlen (av A))) Q s.
Proof.
  intros Hsc Hbk [Hwf _ [_ Hv _ _] _ _] Hb HQ. pose proof (g_flash _ G).
  destruct (geom_bounds _ G) as (? & ? & _). pose proof (alloc_wf_len sc G A Hwf).
  pose proof (zlen_nonneg (aq A)). pose proof (zlen_nonneg (cur_rows A)).
  assert (0 <= b < BLOCK_NB sc) as Hbr.
  { apply (aw_range _ _ Hwf). unfold rows. rewrite !elem_of_app. right. right.
    by eapply list_elem_of_lookup_2. }
  unfold victim_row_valid. eapply wp_mono.
  - apply (wp_mfold_ret (fun j acc s' => s' = s /\ acc.2 = sumZ j (fun f => block_valid sc V f b) /\
      (0 < j -> acc.1 = b)) (fun _ _ => False)).
    + done.
    + intros j [fb cv] s' Hj (-> & Hcv & Hfb). simpl in Hcv, Hfb. st_step.
      eapply wp_arr_load; [rewrite Hv; apply zget_ztab; lia|].
      assert (((Z.of_nat i =? 0) && negb (s32 (victim_block_nb (victim_root A j)) =? zlen (av A)))
              = false) as ->.
      { simpl. rewrite s32_small by (pose proof (zlen_nonneg (av A)); lia).
        by rewrite Z.eqb_refl, andb_false_r. }
      st_step. rewrite Nat2Z.id.
      eapply wp_deref; [unfold victim_root; cbn [v_list]; by rewrite list_lookup_fmap, Hb|].
      cbn [v_phy_block_nb v_phy_flash_nb].
      assert ((if j =? 0 then b else fb) = b) as E
        by (destruct (Z.eqb_spec j 0); [done|apply Hfb; lia]).
      rewrite E, Z.eqb_refl. cbn [negb]. apply wp_bind_assoc. st_step.
      eapply valid_page_nb_spec; try done; [lia|]. intros e He. st_step.
      split; [done|]. cbn [fst snd]. split; [|done]. rewrite He, Hcv.
      rewrite sumZ_succ by lia. done.
  - intros [[fb cv]|] s' H'; [|done]. destruct H' as (-> & Hcv & Hfb). simpl in Hcv, Hfb.
    rewrite Z2Nat.id in * by lia. rewrite Z.add_0_l in *. rewrite Hcv, Hfb by lia. exact HQ.
Qed.

Lemma min_row_step rv n init off m :
  0 <= n -> min_row rv n init off m ->
  min_row rv (n + 1) init (if rv n <? m then n else off) (if rv n <? m then rv n else m).
Proof.
  intros Hn (H1 & H2 & H3). unfold min_row.
  destruct (Z.ltb_spec (rv n) m) as [Hlt|Hge].
  - split; [lia|]. split.
    + intros i Hi. destruct (decide (i = n)) as [->|]; [lia|].
      specialize (H2 i ltac:(lia)). lia.
    + right. split; [lia|]. split; [done|]. intros i Hi. specialize (H2 i Hi). lia.
  - split; [done|]. split.
    + intros i Hi. destruct (decide (i = n)) as [->|]; [lia|]. apply H2. lia.
    + destruct H3 as [?|(? & ? & ?)]; [by left|]. right. split; [lia|done].
Qed.

Lemma select_min_spec V A init Q s :
  ssdparams s = sc -> blk_rep sc V None (block_state_table s) -> alloc_rep sc A s ->
  (forall off m,
     min_row (fun i => row_valid sc V (nth (Z.to_nat i) (av A) 0)) (zlen (av A)) init off m ->
     Q (inl (off, m)) s) ->
  wp (select_min F (zlen (av A)) init) Q s.
Proof.
  intros Hsc Hbk Ha HQ. pose proof (zlen_nonneg (av A)). unfold select_min. eapply wp_mono.
  - apply (wp_mfold_ret (fun i acc s' => s' = s /\
      min_row (fun i => row_valid sc V (nth (Z.to_nat i) (av A) 0)) i init acc.1 acc.2)
      (fun _ _ => False)).
    + split; [done|]. simpl. split; [lia|]. split; [lia|by left].
    + intros i [off m] s' Hi (-> & Hm). simpl in Hm. st_step.
      rewrite Z2Nat.id, Z.add_0_l in Hi by done.
      assert (is_Some (av A !! Z.to_nat i)) as [b Hb].
      { apply lookup_lt_is_Some. unfold zlen in *. lia. }
      rewrite <- (Z2Nat.id i) at 1 by lia. eapply victim_row_valid_spec; try done.
      st_step. split; [done|].
      pose proof (min_row_step _ _ _ _ _ (proj1 Hi) Hm) as Hs. cbv beta in Hs.
      rewrite (nth_lookup_Some _ _ 0 _ Hb) in Hs. destruct (_ <? _); exact Hs.
  - intros [[off m]|] s' H'; [|done]. destruct H' as [-> Hm].
    rewrite Z2Nat.id, Z.add_0_l in Hm by done. by apply HQ.
Qed.

(** Either every victim row is full of valid pages, or the first row with the
    fewest leaves the lists. *)
Lemma SELECT_VICTIM_spec V A Q s :
  ssdparams s = sc -> blk_rep sc V None (block_state_table s) -> alloc_rep sc A s ->
  (forall s', (forall b, b ∈ av A -> row_valid sc V b = F * P) -> idle s s' -> Q None s') ->
  (forall off g s', av A !! off = Some g -> row_valid sc V g < F * P ->
     (forall b, b ∈ av A -> row_valid sc V g <= row_valid sc V b) ->
     alloc_rep sc (ejected A off) s' -> alloc_frame s s' -> Q (Some g) s') ->
  wp SELECT_VICTIM_SUPERBLOCK Q s.
Proof.
  intros Hsc Hbk Ha HN HS. destruct (Ha) as [Hwf _ [_ Hv _ Htv] _ _].
  pose proof (g_flash _ G). pose proof (g_page _ G). destruct (geom_bounds _ G) as (? & ? & _).
  pose proof (alloc_wf_len sc G A Hwf). pose proof (zlen_nonneg (av A)).
  pose proof (zlen_nonneg (aq A)). pose proof (zlen_nonneg (cur_rows A)).
  unfold SELECT_VICTIM_SUPERBLOCK. st_steps. rewrite Hsc, (g_planes _ G), (g_victim _ G), Htv.
  assert (zlen (av A) = 0 -> wp (mret None) Q s) as Hnone.
  { intros E. st_step. apply HN; [|reflexivity]. intros b Hb.
    destruct (av A); [by apply list.not_elem_of_nil in Hb|unfold zlen in E; simpl in E; lia]. }
  destruct (Z.eqb_spec (F * zlen (av A)) 0); [apply Hnone; nia|]. st_step.
  eapply wp_arr_load; [rewrite Hv; apply zget_ztab; lia|]. cbn [victim_root victim_block_nb].
  destruct (Z.eqb_spec (zlen (av A)) 0); [by apply Hnone|].
  rewrite s32_small by lia. st_step. eapply select_min_spec; [done..|].
  intros off m (Hm1 & Hm2 & Hm3).
  assert (forall b, b ∈ av A -> m <= row_valid sc V b) as Hmin.
  { intros b (i & Hi)%list_elem_of_lookup_1. pose proof (lookup_lt_Some _ _ _ Hi).
    specialize (Hm2 (Z.of_nat i) ltac:(unfold zlen; lia)).
    by rewrite Nat2Z.id, (nth_lookup_Some _ _ 0 _ Hi) in Hm2. }
  destruct (Z.eqb_spec m (P * F * 1)).
  - st_steps. apply HN; [|idle_tac]. intros b Hb. specialize (Hmin b Hb).
    pose proof (row_valid_range V b). lia.
  - destruct Hm3 as [?|(Ho & Hm & _)]; [done|]. st_step.
    eapply wp_arr_load; [rewrite Hv; apply zget_ztab; lia|]. st_step.
    assert (is_Some (av A !! Z.to_nat off)) as [g Hg].
    { apply lookup_lt_is_Some. unfold zlen in *. lia. }
    rewrite (nth_lookup_Some _ _ 0 _ Hg) in Hm. subst m.
    eapply wp_deref; [unfold victim_root; cbn [v_list]; by rewrite list_lookup_fmap, Hg|].
    st_step. eapply wp_mono; [by eapply EJECT_row_spec|]. intros ? s' [Ha' Hf]. st_step.
    apply (HS (Z.to_nat off)); try done. cbn [v_phy_block_nb]. lia.
Qed.
End Select.

(** ** Copying keeps the mapping up to the names of the physical pages *)

(** The same logical pages are mapped, the same ones share a page, and the
    commands have carried the data of every mapped page along. *)
Record relocated (sc : ssdconf) (s s' : ssdstate) : Prop := mk_relocated {
  rl_mapped : forall l, lmap s' l = -1 <-> lmap s l = -1;
  rl_shared : forall l l', lmap s' l = lmap s' l' <-> lmap s l = lmap s l';
  rl_data : forall D, exists D', evolved sc D s D' s' /\
    forall l, lmap s l <> -1 -> cell D' (lmap s' l) = cell D (lmap s l)
}.

(** Only pages of superblock [g] have moved. *)
Record moved (sc : ssdconf) (g : Z) (s s' : ssdstate) : Prop := mk_moved {
  mv_reloc : relocated sc s s';
  mv_out : forall l, block_of sc (lmap s l) <> g -> lmap s' l = lmap s l
}.

(** The owners of [old] have moved to [new]. *)
Definition shifted (old new : Z) (s s' : ssdstate) : Prop :=
  forall l, lmap s' l = if lmap s l =? old then new else lmap s l.

Lemma still_relocated sc s s' : still s s' -> relocated sc s s'.
Proof.
  intros [Hm Hl]. pose proof (same_map_lmap _ _ Hm) as E. constructor; intros; rewrite ?E; try done.
  exists D. split; [by apply evolved_quiet|]. intros l _. by rewrite E.
Qed.

#[global] Instance relocated_preorder sc : PreOrder (relocated sc).
Proof.
  split; [intros s; by apply still_relocated|]. intros s1 s2 s3 [Hm Hs Hd] [Hm' Hs' Hd']. constructor.
  - intros l. by rewrite Hm', Hm.
  - intros l l'. by rewrite Hs', Hs.
  - intros D. destruct (Hd D) as (D1 & He1 & H1). destruct (Hd' D1) as (D2 & He2 & H2).
    exists D2. split; [by eapply evolved_trans|]. intros l Hl. rewrite H2, H1; [done..|]. by rewrite Hm.
Qed.

#[global] Instance moved_preorder sc g : PreOrder (moved sc g).
Proof.
  split; [by intros s|]. intros s1 s2 s3 [] []. constructor; [by etrans|].
  intros l Hl. rewrite mv_out1; [by apply mv_out0|]. by rewrite mv_out0.
Qed.

(** The commands that copy page [old] to page [new]. *)
Definition copy_cmds (sc : ssdconf) (old new : Z) : list nand_cmd :=
  [NandProgram GC_WRITE (flash_of sc new) (block_of sc new) (page_of sc new);
   NandRead (flash_of sc old) (block_of sc old) (page_of sc old)].

Lemma evolves_copy sc old new D :
  geom sc -> exists D', evolves sc D (copy_cmds sc old new) D' /\
    cell D' = fset (cell D) new (cell D old).
Proof.
  intros G. eexists. split; [apply ev_copy, ev_read, ev_nil|].
  cbn [cell buffer]. by rewrite !(addr_parts sc G).
Qed.

Lemma shifted_moved sc g old new s s' :
  geom sc -> shifted old new s s' -> nand_log s' = copy_cmds sc old new ++ nand_log s ->
  block_of sc old = g -> old <> -1 -> new <> -1 -> (forall l, lmap s l <> new) -> moved sc g s s'.
Proof.
  intros G Hs Hlog Hg Ho Hn Hnew. constructor; [constructor|].
  - intros l. rewrite Hs. zcase.
  - intros l l'. pose proof (Hnew l). pose proof (Hnew l'). rewrite !Hs. zcases.
  - intros D. destruct (evolves_copy sc old new D G) as (D' & HD & E). exists D'.
    split; [by exists (copy_cmds sc old new)|]. intros l _. rewrite Hs, E.
    destruct (Z.eqb_spec (lmap s l) old) as [->|]; [apply fset_eq|by apply fset_ne, not_eq_sym].
  - intros l Hl. rewrite Hs. destruct (Z.eqb_spec (lmap s l) old) as [E|]; [by rewrite E in Hl|done].
Qed.

Lemma still_moved sc g s s' : still s s' -> moved sc g s s'.
Proof.
  intros Hq. constructor; [by apply still_relocated|]. intros. apply (same_map_lmap _ _ (st_same_map _ _ Hq)).
Qed.

(** Erasing a row nothing is mapped to. *)
Lemma erased_moved sc g g' n s s' :
  same_map s s' -> nand_log s' = erases n g ++ nand_log s ->
  (forall l, lmap s l <> -1 -> block_of sc (lmap s l) <> g) -> moved sc g' s s'.
Proof.
  intros Hm Hlog Hg. pose proof (same_map_lmap _ _ Hm) as E.
  constructor; [constructor|]; intros; rewrite ?E; try done.
  destruct (evolves_erases sc D n g) as (D' & HD & Hc). exists D'.
  split; [by exists (erases n g)|]. intros l Hl. rewrite E. by apply Hc, Hg.
Qed.

Section Collect.
Context `{Clock}.
Variable sc : ssdconf.
Hypothesis G : geom sc.
Implicit Types (s : ssdstate) (A : alloc).
Local Abbreviation F := (FLASH_NB sc).
Local Abbreviation P := (PAGE_NB sc).
Local Abbreviation N := (pages sc).

(** The live entries the NVRAM table holds while [g] is collected. *)
Local Abbreviation glive g s := (fun b => if b =? g then 0 else live sc s b).

Lemma owner_pos s l p :
  zlen (mapping_table s) = N -> 0 < owner (mapping_table s) l p -> 0 <= l < N /\ lmap s l = p.
Proof.
  intros Hz Ho. destruct (decide (0 <= l < N)) as [Hl|Hl].
  - split; [done|]. rewrite owner_lmap in Ho by lia. destruct (Z.eqb_spec (lmap s l) p); [done|simpl in Ho; lia].
  - unfold owner in Ho. destruct (zget _ l) eqn:E; [|lia]. apply zget_Some_range in E. lia.
Qed.

(** An owner of a page exists as long as it has nodes. *)
Lemma last_owner k R C V L s p :
  core sc k R C V L s -> 0 <= p < N -> exists e,
    zget (inverse_mapping_table s) p = Some e /\ zlen (i_list e) = C p /\
    match list.last (i_list e) with
    | None => C p = 0
    | Some l => 0 < R l p
    end.
Proof.
  intros [] Hp. destruct (ir_entry _ _ _ _ co_inv p Hp) as (fp & l & Hg & Hz & _ & Ho).
  eexists. split; [exact Hg|]. split; [done|]. cbn [i_list].
  destruct (list.last l) as [x|] eqn:E.
  - rewrite <- Ho. apply occ_pos_elem. apply last_Some in E as [l' ->].
    apply elem_of_app. right. by left.
  - apply last_None in E as ->. by rewrite <- Hz.
Qed.

(** The tables describe the mapping again once [l0] has moved to [new]. *)
Lemma gc_settle k C V L A s s' l0 old new v :
  pinv sc k (block_of sc old)
    (radd (radd (owner (mapping_table s)) l0 old (-1)) l0 new 1) C V L A A s' ->
  zlen (mapping_table s) = N -> zlen (in_nvram s) = N -> 0 <= l0 < N -> lmap s l0 = old ->
  mapping_table s' = zset l0 new (mapping_table s) -> in_nvram s' = zset l0 v (in_nvram s) ->
  (forall b, L b = (if b =? block_of sc old then 0 else live sc s b) + entry_in sc new v b) ->
  block_of sc new <> block_of sc old -> nand_wf sc A (nand_log s') ->
  ginv sc k (block_of sc old) C V A s' /\ forall l, lmap s' l = if l =? l0 then new else lmap s l.
Proof.
  intros Hp Hz Hz' Hl0 Hm0 Em En HL Hne Hlog.
  assert (forall l, lmap s' l = if l =? l0 then new else lmap s l) as Hm
    by (intros; by apply lmap_zset; [|lia]).
  assert (forall l, nvf s' l = if l =? l0 then v else nvf s l) as Hn
    by (intros; by apply nvf_zset; [|lia]).
  split; [|done]. eapply settle; [exact Hp| | |done].
  - intros x q _. rewrite Em, (owner_set _ _ _ old) by (rewrite <- Hm0; apply lmap_get; lia).
    unfold radd. rewrite (Z.eqb_sym new q), (Z.eqb_sym old q).
    destruct (x =? l0), (q =? new), (q =? old); simpl; lia.
  - intros b Hb. rewrite HL. destruct (Z.eqb_spec b (block_of sc old)) as [->|Hb'].
    { unfold entry_in. destruct (Z.eqb_spec (block_of sc new) (block_of sc old)); [done|]. by rewrite andb_false_r. }
    rewrite (live_set sc s s' l0), Hm, Hn, Z.eqb_refl, Hm0; [|done|..].
    + enough (entry_in sc old (nvf s l0) b = 0) by lia. unfold entry_in.
      destruct (Z.eqb_spec (block_of sc old) b); [done|]. by rewrite andb_false_r.
    + intros x Hx. rewrite Hm. by zcase.
    + intros x Hx. rewrite Hn. by zcase.
Qed.

(** One logical page moves from [old] in the collected superblock to [new]. *)
Lemma gc_move_step k C V A Af n old new oob Q s :
  pinv sc k (block_of sc old) (owner (mapping_table s)) C V (glive (block_of sc old) s) A Af s ->
  nand_wf sc A (nand_log s) -> 0 <= old < N -> 0 <= new < N -> block_of sc new <> block_of sc old ->
  0 < C old -> target sc A Af C new ->
  (forall l0 C' V' s', ginv sc k (block_of sc old) C' V' A s' ->
     (forall q, C' q = C q + (if q =? new then 1 else 0) - (if q =? old then 1 else 0)) ->
     (forall q, q <> new -> V' q = V q) ->
     lmap s l0 = old -> (forall l, lmap s' l = if l =? l0 then new else lmap s l) ->
     nand_log s' = nand_log s -> wp (gc_move_lpns n old new 1) Q s') ->
  wp (gc_move_lpns (S n) old new oob) Q s.
Proof.
  intros Hp Hlog Ho Hn Hne HC Ht HQ. destruct (Hp) as [Hc Hl Hou]. destruct (Hou) as [Hz Hz' _ _ _ _ _].
  destruct (last_owner _ _ _ _ _ _ _ Hc Ho) as (e & Hg & _ & Hlast).
  cbn [gc_move_lpns]. unfold GET_INVERSE_MAPPING_INFO. st_step. eapply wp_arr_load; [exact Hg|].
  destruct (list.last (i_list e)) as [l0|]; [|lia].
  destruct (owner_pos s l0 old Hz Hlast) as [Hl0 Hm0]. assert (new <> old) as Hno by congruence.
  st_step. eapply core_DECREASE; [exact Hc|done|exact Hlast|]. intros s1 Hc1 Hq1.
  assert (pinv sc k (block_of sc old) (radd (owner (mapping_table s)) l0 old (-1)) (fadd C old (-1)) V
    (glive (block_of sc old) s) A Af s1) as Hp1.
  { constructor; [done|by apply vlink_move; [..|lia]|by eapply outer_rest; [|apply Hq1]]. }
  st_step. eapply (attach_spec sc G); [exact Hp1| |done|done|done|].
  { destruct Ht as [?|[-> ?]]; [by left|]. right. split; [done|]. by rewrite fadd_ne. }
  intros s2 V2 Hp2 HV2 Hq2. rewrite (sm_map _ _ (qu_rest _ _ Hq1)) in Hq2.
  assert (mapping_table s2 = zset l0 new (mapping_table s)) as Em by apply Hq2.
  assert (in_nvram s2 = in_nvram s) as En.
  { rewrite (sm_nv _ _ (qu_rest _ _ Hq2)). apply Hq1. }
  assert (nand_log s2 = nand_log s) as El.
  { rewrite (qu_log _ _ Hq2). apply Hq1. }
  assert (forall q, fadd (fadd C old (-1)) new 1 q =
    C q + (if q =? new then 1 else 0) - (if q =? old then 1 else 0)) as HC2.
  { intros q. unfold fadd, fset. zcases; subst; lia. }
  st_step. destruct (oob =? 0).
  - apply wp_arr_store; [by rewrite En, Hz'|]. rewrite En.
    edestruct (gc_settle k (fadd (fadd C old (-1)) new 1) V2 (glive (block_of sc old) s) A s
      (set_in_nvram (zset l0 0 (in_nvram s)) s2) l0 old new 0) as [Hg3 Hm3]; [|done..| |done|by rewrite <- El in Hlog|].
    + destruct Hp2. constructor; [by apply core_nv|done|]. rewrite <- En. by apply outer_nv.
    + intros b. unfold entry_in. rewrite andb_false_r. simpl. lia.
    + by eapply HQ.
  - st_step. eapply wp_CALC_BLOCK_core; [apply Hp2|done|]. st_step.
    eapply core_oob_valid; [apply Hp2|by apply block_of_range|]. intros s3 Hc3 Hq3. st_step.
    apply wp_arr_store; [rewrite (sm_nv _ _ (qu_rest _ _ Hq3)), En; lia|].
    rewrite (sm_nv _ _ (qu_rest _ _ Hq3)), En. set (s4 := set_in_nvram _ s3).
    assert (core sc k (radd (radd (owner (mapping_table s)) l0 old (-1)) l0 new 1)
      (fadd (fadd C old (-1)) new 1) V2 (fadd (glive (block_of sc old) s) (block_of sc new) 1) s4)
      as Hc4 by (by apply core_nv).
    st_step. eapply wp_mono.
    { apply UPDATE_NVRAM_TS_ok; [apply Hc4|]. rewrite (co_params _ _ _ _ _ _ _ Hc4).
      by apply block_of_range. }
    intros ? s5 Hb5. st_step.
    edestruct (gc_settle k (fadd (fadd C old (-1)) new 1) V2
      (fadd (glive (block_of sc old) s) (block_of sc new) 1) A s s5 l0 old new 1)
      as [Hg5 Hm5]; [|done..| | | |done| |].
    + constructor; [eapply core_booked; [exact Hc4|exact Hb5]|apply Hp2|].
      eapply outer_rest; [|exact (booked_rest _ _ _ Hb5)]. unfold s4.
      rewrite <- En, <- (sm_nv _ _ (qu_rest _ _ Hq3)). apply outer_nv.
      eapply outer_rest; [apply Hp2|apply Hq3].
    + rewrite (bk_map _ _ _ Hb5). unfold s4. cbn [mapping_table set_in_nvram].
      by rewrite (sm_map _ _ (qu_rest _ _ Hq3)).
    + by rewrite (bk_nv _ _ _ Hb5).
    + intros b. unfold fadd, fset, entry_in. rewrite (Z.eqb_sym (block_of sc new) b).
      destruct (Z.eqb_spec new (-1)); [lia|].
      destruct (Z.eqb_spec b (block_of sc new)) as [->|]; simpl; lia.
    + rewrite (bk_log _ _ _ Hb5). unfold s4. cbn [nand_log set_in_nvram app].
      by rewrite (qu_log _ _ Hq3), El.
    + eapply HQ; try done. rewrite (bk_log _ _ _ Hb5). unfold s4. cbn [nand_log set_in_nvram app].
      by rewrite (qu_log _ _ Hq3), El.
Qed.

(** All logical pages move. *)
Definition emptied (old new : Z) (C V C' V' : Z -> Z) : Prop :=
  C' old = 0 /\ (forall q, q <> old -> q <> new -> C' q = C q) /\
  (forall q, q <> new -> V' q = V q).

Lemma gc_move_rest n k C V A old new s :
  ginv sc k (block_of sc old) C V A s -> 0 <= old < N -> 0 <= new < N ->
  block_of sc new <> block_of sc old -> C old = Z.of_nat n -> 0 < C new -> C new + C old <= 127 ->
  wp (gc_move_lpns n old new 1) (fun _ s' => exists C' V',
     ginv sc k (block_of sc old) C' V' A s' /\ shifted old new s s' /\
     nand_log s' = nand_log s /\ emptied old new C V C' V') s.
Proof.
  intros Hg Ho Hn Hne. revert s C V Hg. assert (new <> old) as Hno by congruence.
  induction n as [|n IH]; intros s C V Hg HC HCn Hsum.
  - destruct (last_owner _ _ _ _ _ _ _ (pi_core _ _ _ _ _ _ _ _ _ _ (gi_pinv _ _ _ _ _ _ _ Hg)) Ho)
      as (e & He & _ & Hlast).
    pose proof (ou_map _ _ _ _ (pi_outer _ _ _ _ _ _ _ _ _ _ (gi_pinv _ _ _ _ _ _ _ Hg))) as Hz.
    pose proof (pi_core _ _ _ _ _ _ _ _ _ _ (gi_pinv _ _ _ _ _ _ _ Hg)) as Hc.
    pose proof (inv_rep_empty _ _ _ _ _ (co_inv _ _ _ _ _ _ _ Hc) Ho HC) as H0.
    cbn [gc_move_lpns]. unfold GET_INVERSE_MAPPING_INFO. st_step.
    eapply wp_arr_load; [exact He|]. destruct (list.last (i_list e)) as [l|]; [rewrite H0 in Hlast; lia|].
    st_step. exists C, V. split; [done|]. split; [|by split]. intros l.
    pose proof (unowned sc _ _ _ _ _ _ Hc Hz Ho HC l). by zcase.
  - eapply gc_move_step; [apply Hg|apply Hg|done|done|done|lia|right; split; [done|lia]|].
    intros l0 C' V' s' Hg' HC' HV' Hl0 Hm' Hlog'.
    pose proof (HC' old) as E1. pose proof (HC' new) as E2. rewrite Z.eqb_refl in E1, E2.
    destruct (Z.eqb_spec old new), (Z.eqb_spec new old); [congruence..|].
    eapply wp_mono; [apply (IH s' C' V' Hg'); lia|].
    intros ? s'' (C'' & V'' & Hg'' & Hs & Hlog'' & He1 & He2 & He3). exists C'', V''. split; [done|]. split; [|split; [congruence|]].
    + intros l. rewrite Hs, Hm'. destruct (Z.eqb_spec l l0) as [->|]; [|done].
      rewrite Hl0, Z.eqb_refl. by zcase.
    + split; [done|]. split.
      * intros q Hq1 Hq2. rewrite He2, HC' by done. zcases.
      * intros q Hq. rewrite He3, HV' by done. done.
Qed.

Lemma gc_move_spec k C V A Af old new n s :
  pinv sc k (block_of sc old) (owner (mapping_table s)) C V (glive (block_of sc old) s) A Af s ->
  nand_wf sc A (nand_log s) -> 0 <= old < N -> block_of sc new <> block_of sc old ->
  fresh sc Af A new -> C old = Z.of_nat n -> 0 < C old ->
  wp (gc_move_lpns n old new 0) (fun _ s' => exists C' V',
     ginv sc k (block_of sc old) C' V' A s' /\ shifted old new s s' /\
     nand_log s' = nand_log s /\ emptied old new C V C' V') s.
Proof.
  intros Hp Hlog Ho Hne Hf HC HC0. destruct n as [|n]; [lia|].
  destruct (fresh_range sc G _ _ _ Hf) as (Hn & _). destruct (fresh_zero sc G _ _ _ _ _ _ _ _ _ _ Hp Hf) as [_ HCn].
  assert (new <> old) as Hno by congruence.
  assert (C old <= 127) as Hmax.
  { destruct (ir_entry _ _ _ _ (co_inv _ _ _ _ _ _ _ (pi_core _ _ _ _ _ _ _ _ _ _ Hp)) old Ho)
      as (? & ? & _ & _ & ? & _). done. }
  eapply gc_move_step; [done..|by left|].
  intros l0 C' V' s' Hg' HC' HV' Hl0 Hm' Hlog'.
  pose proof (HC' old) as E1. pose proof (HC' new) as E2. rewrite Z.eqb_refl in E1, E2.
  destruct (Z.eqb_spec old new), (Z.eqb_spec new old); [congruence..|].
  eapply wp_mono; [apply (gc_move_rest n k C' V' A old new s' Hg'); done || lia|].
  intros ? s'' (C'' & V'' & Hg'' & Hs & Hlog'' & He1 & He2 & He3). exists C'', V''. split; [done|]. split; [|split; [congruence|]].
  - intros l. rewrite Hs, Hm'. destruct (Z.eqb_spec l l0) as [->|]; [|done].
    rewrite Hl0, Z.eqb_refl. by zcase.
  - split; [done|]. split.
    + intros q Hq1 Hq2. rewrite He2, HC' by done. zcases.
    + intros q Hq. rewrite He3, HV' by done. done.
Qed.

(** A valid page is read, programmed into the fresh page, and all its owners
    follow. *)
Lemma gc_copy_page_spec k g C V A f i s :
  ginv sc k g C V A s -> 0 <= f < F -> 0 <= g < BLOCK_NB sc -> 0 <= i < P ->
  0 < C (addr sc f g i) -> 0 < free_pages sc A ->
  wp (gc_copy_page f g i) (fun ok s' => ok = true /\ exists C' V' A',
     ginv sc k g C' V' A' s' /\ moved sc g s s' /\ free_pages sc A' = free_pages sc A - 1 /\
     forall q, 0 <= q < N -> block_of sc q = g ->
       V' q = V q /\ C' q = if q =? addr sc f g i then 0 else C q) s.
Proof.
  intros [Hp Hlog] Hf Hgr Hi HC Hfp. set (old := addr sc f g i) in *.
  pose proof (addr_range sc f g i Hf Hgr Hi) as Hold. fold old in Hold.
  assert (block_of sc old = g) as Hbo by (by apply block_of_addr).
  unfold gc_copy_page. st_steps. eapply (new_page_spec sc G); [exact Hp|done|].
  intros new A' s1 Hfr Hp1 Hf1. destruct (fresh_range sc G _ _ _ Hfr) as (Hnew & Hrow & Hfp').
  assert (block_of sc new <> g) as Hne.
  { apply (ou_rows _ _ _ _ (pi_outer _ _ _ _ _ _ _ _ _ _ Hp1)); [|done]. by apply block_of_range. }
  st_steps. eapply (pinv_PAGE_READ sc); [exact Hp1|done|]. intros _ s2 Hp2 Hb2. st_step.
  eapply wp_CALC_FLASH_core; [apply Hp2|done|]. st_step.
  eapply wp_CALC_BLOCK_core; [apply Hp2|done|]. st_step.
  eapply wp_CALC_PAGE_core; [apply Hp2|done|]. st_step.
  eapply (pinv_PAGE_WRITE sc); [exact Hp2|by apply flash_of_range|]. intros _ s3 Hp3 Hb3. st_steps.
  set (s4 := ctr_upd _ _ s3). assert (idle s3 s4) as Hi4 by (unfold s4; idle_tac).
  eapply (pinv_tick sc); [by eapply pinv_idle|]. intros s5 Hp5 Hi5. st_steps.
  assert (same_map s s5) as Hm5.
  { etrans; [by apply alloc_frame_map|]. etrans; [by eapply booked_map|].
    etrans; [by eapply booked_map|]. apply same_rest_map. etrans; [apply Hi4|apply Hi5]. }
  assert (nand_log s5 = copy_cmds sc old new ++ nand_log s) as Hl5.
  { unfold copy_cmds, old. rewrite flash_of_addr, block_of_addr, page_of_addr by done.
    rewrite (id_log _ _ Hi5), (id_log _ _ Hi4), (bk_log _ _ _ Hb3), (bk_log _ _ _ Hb2).
    by rewrite (af_log _ _ Hf1). }
  rewrite (co_params _ _ _ _ _ _ _ (pi_core _ _ _ _ _ _ _ _ _ _ Hp)).
  replace (u32 _) with old by
    (unfold old, addr; rewrite (g_ppf _ G), u32_small; [lia|]; unfold old, addr in Hold;
     pose proof (pages_bound sc G); lia).
  rewrite (ou_xl2p _ _ _ _ (pi_outer _ _ _ _ _ _ _ _ _ _ Hp5)).
  destruct (Z.eqb_spec old (-1)); [lia|]. st_steps. rewrite <- Hbo in Hp5, Hne |- *.
  destruct (last_owner _ _ _ _ _ _ _ (pi_core _ _ _ _ _ _ _ _ _ _ Hp5) Hold) as (e & He & Hlen & _).
  unfold GET_INVERSE_MAPPING_INFO. eapply wp_arr_load; [exact He|]. eapply wp_mono.
  { eapply (gc_move_spec k C V A' A); [|
      rewrite Hl5; by apply (fresh_program sc G _ A); [|apply nand_wf_read]|done..].
    eapply pinv_ext; [| |exact Hp5].
    - intros. by rewrite (mp_map _ _ Hm5).
    - intros. cbv beta. by rewrite (same_map_live _ _ _ Hm5). }
  intros ? s6 (C' & V' & Hg6 & Hsh & Hl6 & He1 & He2 & He3). st_step. split; [done|].
  exists C', V', A'. split; [done|]. split; [|split; [done|]].
  - eapply shifted_moved; [done| |by rewrite Hl6|done|lia|lia|].
    { intros l. by rewrite Hsh, (same_map_lmap _ _ Hm5). }
    intros l.
    destruct (fresh_zero sc G _ _ _ _ _ _ _ _ _ _ Hp1 Hfr) as [_ HCn].
    by eapply (unowned sc); [apply Hp|apply Hp|..].
  - intros q Hq Hbq. assert (q <> new) by congruence. split; [by apply He3|].
    destruct (Z.eqb_spec q old) as [->|]; [done|]. by apply He2.
Qed.

(** The pages of row [g] below [x] have been copied, [n] of them valid. *)
Definition gc_progress (k g : Z) (C V : Z -> Z) A s (x n : Z) s' : Prop :=
  exists C' V' A', ginv sc k g C' V' A' s' /\ moved sc g s s' /\
    free_pages sc A' = free_pages sc A - n /\
    forall q, 0 <= q < N -> block_of sc q = g -> V' q = V q /\ C' q = if q <? x then 0 else C q.

Lemma row_before g q f :
  0 <= f -> block_of sc q = g ->
  (q <? addr sc f g 0) = (flash_of sc q <? f) /\ (q <? addr sc f g P) = (flash_of sc q <? f + 1).
Proof.
  intros Hf Hb. rewrite <- (addr_parts sc G q) at 1 3. rewrite Hb. unfold addr.
  pose proof (page_of_range sc G q). pose proof (block_of_range sc G q) as Hr. rewrite Hb in Hr.
  pose proof (g_block _ G). pose proof (g_page _ G).
  set (f' := flash_of sc q) in *. set (i := page_of sc q) in *.
  assert (forall a b, a < b -> (a * BLOCK_NB sc + g) * P + P <= (b * BLOCK_NB sc + g) * P) as Hlt.
  { intros a b Hab. assert (a * BLOCK_NB sc + g + 1 <= b * BLOCK_NB sc + g) by nia. nia. }
  pose proof (Hlt f' f). pose proof (Hlt f f'). pose proof (Hlt (f + 1) f').
  split; zcases; exfalso; destruct (decide (f' = f)) as [E|]; try rewrite E in *; lia.
Qed.

Lemma gc_copy_block_spec k g C V A f n0 s0 s :
  gc_progress k g C V A s0 (addr sc f g 0) n0 s -> 0 <= f < F -> 0 <= g < BLOCK_NB sc ->
  (forall q, 0 <= q < N -> block_of sc q = g -> 0 < V q <-> 0 < C q) ->
  (forall q, 0 <= q < N -> 0 <= C q) ->
  n0 + block_valid sc V f g <= free_pages sc A ->
  wp (gc_copy_block f g n0) (fun r s' => r = inl (n0 + block_valid sc V f g) /\
    gc_progress k g C V A s0 (addr sc f g P) (n0 + block_valid sc V f g) s') s.
Proof.
  intros Hpr Hf Hg HVC HC0 Hfree. pose proof (g_page _ G).
  pose proof (radix_range f F g (BLOCK_NB sc) Hf Hg) as Hk.
  unfold gc_copy_block. st_steps.
  assert (ssdparams s = sc) as Hsc by (by destruct Hpr as (? & ? & ? & [[[] _ _] _] & _)).
  apply (GET_BLOCK_STATE_ENTRY_spec sc); try done. rewrite Hsc. st_step.
  set (vs i := b2z (0 <? V (addr sc f g i))).
  assert (forall i, 0 <= vs i) as Hvs by (intros i; unfold vs; by zcase).
  eapply wp_mono.
  { apply (wp_mfold_ret (fun i n s' => gc_progress k g C V A s0 (addr sc f g i) (n0 + n) s' /\
      n = sumZ i vs) (fun _ _ => False)).
    - rewrite Z.add_0_r. done.
    - intros i n s1 Hi [(C1 & V1 & A1 & Hg1 & Hm1 & Hf1 & Hrow) Hn].
      rewrite Z2Nat.id, Z.add_0_l in Hi by lia. pose proof (addr_range sc f g i Hf Hg Hi) as Hq.
      assert (block_of sc (addr sc f g i) = g) as Hbq by (by apply block_of_addr).
      destruct (Hrow _ Hq Hbq) as [EV EC]. rewrite Z.ltb_irrefl in EC.
      specialize (HVC _ Hq Hbq). specialize (HC0 _ Hq).
      pose proof (sumZ_succ i vs (proj1 Hi)) as Hsucc.
      pose proof (sumZ_prefix (i + 1) P vs ltac:(lia) (fun j _ => Hvs j)) as Hpre.
      change (sumZ P vs) with (block_valid sc V f g) in Hpre.
      assert (forall q, (q <? addr sc f g (i + 1)) = (q <? addr sc f g i) || (q =? addr sc f g i)) as Hlt.
      { intros q. unfold addr. zcases; simpl; lia || done. }
      st_step. eapply (ld_valid_spec sc); [apply Hg1|lia|done|].
      change (V1 _) with (V1 (addr sc f g i)). rewrite EV.
      change (vs i) with (b2z (0 <? V (addr sc f g i))) in Hsucc. destruct (Z.ltb_spec 0 (V (addr sc f g i))) as [Hv|Hv].
      + st_step. change (b2z true) with 1 in Hsucc.
        eapply wp_mono; [apply (gc_copy_page_spec k g C1 V1 A1); try done; [rewrite EC; tauto|lia]|].
        intros ok s2 (-> & C2 & V2 & A2 & Hg2 & Hm2 & Hf2 & Hrow2). st_step. split; [|lia].
        exists C2, V2, A2. split; [done|]. split; [by etrans|]. split; [lia|].
        intros q Hq' Hb'. destruct (Hrow q Hq' Hb') as [E1 E2]. destruct (Hrow2 q Hq' Hb') as [E3 E4].
        rewrite E3, E4, E1, E2, Hlt. split; [done|]. by destruct (q =? _), (q <? _).
      + st_step. change (b2z false) with 0 in Hsucc. split; [|lia]. exists C1, V1, A1. do 3 (split; [done|]).
        intros q Hq' Hb'. destruct (Hrow q Hq' Hb') as [E1 E2]. rewrite E1, E2, Hlt. split; [done|].
        destruct (Z.eqb_spec q (addr sc f g i)) as [->|]; [|by rewrite orb_false_r].
        rewrite Z.ltb_irrefl. simpl. lia. }
  intros [n|[]] s1; [|done]. rewrite Z2Nat.id, Z.add_0_l by lia. intros [Hpr1 ->].
  change (sumZ P vs) with (block_valid sc V f g) in *.
  destruct (Hpr1) as (C1 & V1 & A1 & Hg1 & _ & _ & Hrow).
  destruct (br_entry _ _ _ _ (co_blk _ _ _ _ _ _ _ (pi_core _ _ _ _ _ _ _ _ _ _ (gi_pinv _ _ _ _ _ _ _ Hg1)))
    (f * BLOCK_NB sc + g)) as (e & He & _ & _ & Hv); [lia|].
  st_step. eapply wp_arr_load; [exact He|].
  assert (valid_page_nb e = block_valid sc V f g) as ->.
  { rewrite Hv by done. apply sumZ_ext. intros i Hi.
    destruct (Hrow (addr sc f g i)) as [<- _]; [by apply addr_range|by apply block_of_addr|done]. }
  rewrite Z.eqb_refl. cbn [negb]. st_step. done.
Qed.

(** Afterwards no page of the row has an owner. *)
Lemma gc_copy_superblock_spec k g C V A s :
  ginv sc k g C V A s -> 0 <= g < BLOCK_NB sc ->
  (forall q, 0 <= q < N -> block_of sc q = g -> 0 < V q <-> 0 < C q) ->
  row_valid sc V g <= free_pages sc A ->
  wp (gc_copy_superblock g) (fun r s' => r = inl (row_valid sc V g) /\
    exists C' V' A', ginv sc k g C' V' A' s' /\ moved sc g s s' /\
      free_pages sc A' = free_pages sc A - row_valid sc V g /\
      forall q, 0 <= q < N -> block_of sc q = g -> C' q = 0) s.
Proof.
  intros Hg Hgr HVC Hfree. pose proof (g_flash _ G).
  assert (forall q, 0 <= q < N -> 0 <= C q) as HC0.
  { intros q Hq. pose proof (inv_rep_nonneg _ _ _ _ q 0
      (co_inv _ _ _ _ _ _ _ (pi_core _ _ _ _ _ _ _ _ _ _ (gi_pinv _ _ _ _ _ _ _ Hg))) Hq). lia. }
  unfold gc_copy_superblock. st_steps.
  rewrite (pinv_params _ _ _ _ _ _ _ _ _ _ (gi_pinv _ _ _ _ _ _ _ Hg)), (g_planes _ G), Z.mul_1_r.
  eapply wp_mono.
  { apply (wp_mfold_ret (fun f n s' => gc_progress k g C V A s (addr sc f g 0) n s' /\
      n = sumZ f (fun f => block_valid sc V f g)) (fun _ _ => False)).
    - split; [|done]. exists C, V, A. split; [done|]. split; [done|]. split; [lia|].
      intros q Hq Hb. split; [done|]. destruct (row_before g q 0 ltac:(lia) Hb) as [-> _].
      pose proof (flash_of_range sc G q Hq). by zcase.
    - intros f n s1 Hf [Hpr ->]. rewrite Z2Nat.id, Z.add_0_l in Hf by lia.
      pose proof (sumZ_succ f (fun f => block_valid sc V f g) (proj1 Hf)) as Hsucc.
      pose proof (sumZ_prefix (f + 1) F (fun f => block_valid sc V f g) ltac:(lia)
        (fun j _ => proj1 (block_valid_range sc G V j g))) as Hpre.
      cbv beta in Hsucc.
      eapply wp_mono; [apply (gc_copy_block_spec k g C V A f); try done; unfold row_valid in *; lia|].
      intros r s2 [-> (C2 & V2 & A2 & Hg2 & Hm2 & Hf2 & Hrow)]. split; [|lia].
      exists C2, V2, A2. do 3 (split; [done|]). intros q Hq Hb. destruct (Hrow q Hq Hb) as [-> ->].
      split; [done|]. destruct (row_before g q f ltac:(lia) Hb) as [_ ->].
      by destruct (row_before g q (f + 1) ltac:(lia) Hb) as [-> _]. }
  intros [n|[]] s1; [|done]. rewrite Z2Nat.id, Z.add_0_l by lia.
  intros [(C1 & V1 & A1 & Hg1 & Hm1 & Hf1 & Hrow) ->]. split; [done|].
  exists C1, V1, A1. do 3 (split; [done|]). intros q Hq Hb. destruct (Hrow q Hq Hb) as [_ ->].
  destruct (row_before g q F ltac:(lia) Hb) as [-> _].
  pose proof (flash_of_range sc G q Hq). by zcase.
Qed.

(** *** Erasing *)

(** The row is cleared on the chips below [f]. *)
Definition row_clear (V : Z -> Z) (g f : Z) : Z -> Z := fun q =>
  if (block_of sc q =? g) && (0 <=? flash_of sc q) && (flash_of sc q <? f) then 0 else V q.

Lemma fclear_row V g f q :
  0 <= g < BLOCK_NB sc -> 0 <= f ->
  fclear (row_clear V g f) (addr sc f g 0) P q = row_clear V g (f + 1) q.
Proof.
  intros Hg Hf. pose proof (g_page _ G). pose proof (g_block _ G).
  assert ((addr sc f g 0 <=? q) && (q <? addr sc f g 0 + P) =
          (block_of sc q =? g) && (flash_of sc q =? f)) as E.
  { unfold addr. pose proof (Z.div_mod q P ltac:(lia)). pose proof (Z.mod_pos_bound q P ltac:(lia)).
    pose proof (block_index sc G q) as Hi. pose proof (block_of_range sc G q).
    set (d := q / P) in *.
    assert (d = f * BLOCK_NB sc + g <-> block_of sc q = g /\ flash_of sc q = f) as Hd.
    { split; [intros E|intros [E1 E2]; nia]. assert (flash_of sc q = f) by nia. split; nia. }
    assert ((f * BLOCK_NB sc + g) * P + 0 <= q < (f * BLOCK_NB sc + g) * P + 0 + P <->
      d = f * BLOCK_NB sc + g) as Hq by (split; intros; nia).
    apply eq_true_iff_eq. rewrite !andb_true_iff, Z.leb_le, Z.ltb_lt, !Z.eqb_eq. tauto. }
  unfold fclear, row_clear. rewrite E.
  destruct (block_of sc q =? g); simpl; [|done]. zcases; done.
Qed.

(** The state between the erasure of two chips. *)
Record erasing (k g : Z) (R : Z -> Z -> Z) (C V L : Z -> Z) A s f s' : Prop := mk_erasing {
  es_core : core sc k R C (row_clear V g f) L s';
  es_lists : recycling sc A g f s';
  es_map : same_map s s';
  es_xl2p : xl2p_ppn s' = xl2p_ppn s;
  es_slot : gc_slot s' = gc_slot s;
  es_log : nand_log s' = erases (Z.to_nat f) g ++ nand_log s
}.

Lemma gc_erase_loop k g R C V L A s :
  core sc k R C V L s -> alloc_rep sc A s -> 0 <= g < BLOCK_NB sc ->
  wp (gc_erase g) (fun _ s' => erasing k g R C V L A s F s') s.
Proof.
  intros Hc Ha Hg. pose proof (g_flash _ G). unfold gc_erase. st_steps.
  rewrite (co_params _ _ _ _ _ _ _ Hc). eapply wp_mono;
    [apply (wp_mfor (fun f s' => erasing k g R C V L A s f s'))|
     intros ? s' He; by rewrite Z2Nat.id, Z.add_0_l in He by lia].
  - constructor; try done; [|by apply recycling_start].
    eapply core_ext; [done|done| |done|exact Hc]. intros q. unfold row_clear.
    zcases; by rewrite ?andb_false_r.
  - intros f s1 Hf []. rewrite Z2Nat.id, Z.add_0_l in Hf by lia. st_step. eapply wp_mono.
    { apply SSD_BLOCK_ERASE_ok; [apply es_core0|by rewrite (co_params _ _ _ _ _ _ _ es_core0)]. }
    intros ? s2 Hb2. cbv beta in Hb2. st_step. eapply core_erase; [by eapply core_booked|done|done|].
    intros s3 Hc3 Hq3. st_step.
    assert (recycling sc A g f s3) as Hr3.
    { destruct es_lists0, (qu_rest _ _ Hq3), Hb2. constructor; try done; congruence. }
    eapply (INSERT_EMPTY_spec sc G); [apply Hc3|exact Hr3|done|]. intros s4 Hr4 Hf4. st_step.
    constructor.
    + eapply core_alloc; [|exact Hf4]. eapply core_ext; [done|done| |done|exact Hc3].
      intros q. by apply fclear_row; [|lia].
    + done.
    + etrans; [done|]. etrans; [by eapply booked_map|].
      etrans; [apply same_rest_map, Hq3|by apply alloc_frame_map].
    + rewrite (af_xl2p _ _ Hf4), (sm_xl2p _ _ (qu_rest _ _ Hq3)), (bk_xl2p _ _ _ Hb2). done.
    + rewrite (af_slot _ _ Hf4), (sm_slot _ _ (qu_rest _ _ Hq3)), (bk_slot _ _ _ Hb2). done.
    + rewrite (af_log _ _ Hf4), (qu_log _ _ Hq3), (bk_log _ _ _ Hb2), es_log0.
      replace (Z.to_nat (f + 1)) with (S (Z.to_nat f)) by lia. cbn [erases app].
      by rewrite Z2Nat.id by lia.
Qed.

(** A sum over the pages of a row. *)
Lemma row_sum g h :
  0 <= g < BLOCK_NB sc ->
  sumZ N (fun p => if block_of sc p =? g then h p else 0) =
  sumZ F (fun f => sumZ P (fun i => h (addr sc f g i))).
Proof.
  intros Hg. pose proof (g_flash _ G). pose proof (g_page _ G). unfold pages.
  rewrite sumZ_mul, sumZ_mul by nia. apply sumZ_ext. intros f Hf.
  rewrite (sumZ_single _ g) by
    (first [done | intros b Hb Hne; apply sumZ_zero; intros i Hi;
       change ((f * BLOCK_NB sc + b) * P + i) with (addr sc f b i);
       rewrite block_of_addr by done; by zcase]).
  apply sumZ_ext. intros i Hi. change ((f * BLOCK_NB sc + g) * P + i) with (addr sc f g i).
  by rewrite block_of_addr, Z.eqb_refl.
Qed.

Lemma vlink_erase g C V A :
  vlink sc g C V A -> 0 <= g < BLOCK_NB sc -> g ∉ rows A ->
  (forall q, 0 <= q < N -> block_of sc q = g -> C q = 0) ->
  vlink sc (-1) C (row_clear V g F) (recycled A g) /\
  free_pages sc (recycled A g) = free_pages sc A + F * P.
Proof.
  intros [] Hg Hn HC. pose proof (g_flash _ G). pose proof (g_page _ G).
  assert (forall q, 0 <= q < N -> row_clear V g F q = if block_of sc q =? g then 0 else V q) as Hcl.
  { intros q Hq. unfold row_clear. pose proof (flash_of_range sc G q Hq).
    destruct (block_of sc q =? g); [|done]. by zcases. }
  assert (free_pages sc (recycled A g) = free_pages sc A + F * P) as Hfp.
  { unfold free_pages, recycled, zlen. simpl. rewrite length_app. simpl. lia. }
  split; [|done]. constructor.
  - intros q Hq _. rewrite Hcl by done. destruct (Z.eqb_spec (block_of sc q) g); [by rewrite HC|auto].
  - intros q Hq Hc. rewrite Hcl by done. destruct (Z.eqb_spec (block_of sc q) g); [|auto].
    rewrite HC in Hc by done. lia.
  - intros q Hq. rewrite Hcl by done. unfold is_free, recycled. simpl. rewrite elem_of_app, list_elem_of_singleton.
    destruct (Z.eqb_spec (block_of sc q) g) as [->|]; [tauto|]. rewrite vl_free by done.
    unfold is_free. tauto.
  - rewrite Hfp, <- vl_count.
    rewrite (sumZ_ext _ _ (fun q => b2z (V q =? 0) + if block_of sc q =? g then 1 else 0)).
    + rewrite sumZ_add, (row_sum g (fun _ => 1)) by done. do 2 f_equal.
      rewrite (sumZ_ext _ _ (fun _ => P)) by (intros; rewrite sumZ_const; lia).
      rewrite sumZ_const; lia.
    + intros q Hq. rewrite Hcl by done. destruct (Z.eqb_spec (block_of sc q) g) as [E|]; [|lia].
      destruct (Z.eqb_spec (V q) 0) as [E0|]; [|done]. exfalso.
      apply vl_free in E0; [|done]. rewrite E in E0. apply Hn. unfold rows, cur_rows.
      rewrite !elem_of_app. destruct E0 as [?|(n & -> & _)]; [by left|].
      right. left. by apply list_elem_of_singleton.
Qed.

Lemma gc_erase_spec k g C V A s :
  ginv sc k g C V A s -> 0 <= g < BLOCK_NB sc ->
  (forall q, 0 <= q < N -> block_of sc q = g -> C q = 0) ->
  wp (gc_erase g) (fun _ s' => exists V',
     ginv sc k (-1) C V' (recycled A g) s' /\ moved sc g s s' /\
     free_pages sc (recycled A g) = free_pages sc A + F * P) s.
Proof.
  intros [[Hc Hl Ho] Hlog] Hg HC. pose proof (g_flash _ G).
  assert (g ∉ rows A) as Hn by (intros Hin; by apply (ou_rows _ _ _ _ Ho) in Hin).
  eapply wp_mono; [eapply gc_erase_loop; [exact Hc|apply Ho|done]|]. intros ? s' [].
  destruct (vlink_erase _ _ _ _ Hl Hg Hn HC) as [Hl' Hfp]. exists (row_clear V g F).
  assert (forall l, lmap s l <> -1 -> block_of sc (lmap s l) <> g) as Hout.
  { intros l Hne Eb. pose proof (lmap_mapped s l Hne) as Hln. rewrite (ou_map _ _ _ _ Ho) in Hln.
    pose proof (ou_range _ _ _ _ Ho l Hln).
    by apply (unowned sc _ _ _ _ _ (lmap s l) Hc (ou_map _ _ _ _ Ho) ltac:(lia) (HC (lmap s l) ltac:(lia) Eb) l). }
  split; [|split; [by eapply erased_moved|done]].
  assert (live sc s g = 0) as Hlive.
  { apply sumZ_zero. intros l Hln. unfold entry_in.
    destruct (Z.eqb_spec (lmap s l) (-1)) as [|E]; [done|]. specialize (Hout l E). by zcase. }
  constructor.
  - constructor; [|done|].
    + rewrite (mp_map _ _ es_map0). eapply core_ext; [done..| |exact es_core0].
      intros b Hb. cbv beta. rewrite (same_map_live _ _ _ es_map0).
      destruct (Z.eqb_spec b (-1)); [lia|]. destruct (Z.eqb_spec b g) as [->|]; done.
    + destruct Ho. destruct es_map0. constructor; try congruence.
      * unfold lmap. by rewrite mp_map.
      * by apply recycling_end.
      * intros b Hb. unfold rows, recycled, cur_rows. simpl.
        specialize (ou_rows b Hb). unfold rows, cur_rows in ou_rows.
        rewrite !elem_of_app, list_elem_of_singleton in *. split; [|lia].
        destruct (decide (b = g)); [tauto|]. tauto.
  - rewrite es_log0. by apply nand_wf_erase.
Qed.

(** *** One collection *)

Lemma gc_any_valid_spec k R C V L g s :
  core sc k R C V L s -> 0 <= g < BLOCK_NB sc ->
  wp (gc_any_valid g) (fun _ s' => s' = s) s.
Proof.
  intros Hc Hg. unfold gc_any_valid. st_steps. pose proof (g_flash _ G).
  rewrite (co_params _ _ _ _ _ _ _ Hc), (g_planes _ G), Z.mul_1_r. eapply wp_mono.
  - apply (wp_mfor_ret (fun _ s' => s' = s) (fun _ s' => s' = s)); [done|].
    intros f s1 Hf ->. rewrite Z2Nat.id, Z.add_0_l in Hf by lia. apply wp_bind_assoc. st_step.
    eapply (valid_page_nb_spec sc); [done|apply Hc|apply Hc|done|done|]. intros e _. st_step.
    by destruct (_ <? _).
  - intros [?|] s' ->; by st_step.
Qed.

Lemma gc_read_oob_spec k R C V L g s :
  core sc k R C V L s -> 0 <= g < BLOCK_NB sc ->
  wp (gc_read_oob g) (fun _ s' => booked [] s s') s.
Proof.
  intros Hc Hg. unfold gc_read_oob. st_step.
  eapply wp_mono; [by eapply gc_any_valid_spec|]. intros flag s1 ->. st_step.
  eapply wp_arr_load; [apply seg_at_get; by rewrite (or_len _ _ _ _ (co_oob _ _ _ _ _ _ _ Hc))|].
  destruct (_ && _); [|st_step; apply booked_refl].
  apply UPDATE_NVRAM_TS_ok; [apply Hc|by rewrite (co_params _ _ _ _ _ _ _ Hc)].
Qed.

Lemma gc_block_chips_spec k g R C V L A Af t s :
  pinv sc (k + 1) g R C V L A Af s -> 0 <= k ->
  wp (gc_block_chips t) (fun _ s' => pinv sc k g R C V L A Af s' /\ still s s') s.
Proof.
  intros Hp Hk. unfold gc_block_chips.
  destruct (0 <? t); [|st_step; split; [by eapply pinv_le; [|exact Hp]; lia|done]].
  st_step. eapply wp_mono; [apply UPDATE_FLASH_TS_ok, Hp|]. intros ? s1 Hb. cbv beta in Hb.
  assert (pinv sc (k + 1) g R C V L A Af s1) as Hp1 by (by eapply pinv_booked).
  destruct (co_bud _ _ _ _ _ _ _ (pi_core _ _ _ _ _ _ _ _ _ _ Hp1) stat_GCRNVRAM_print) as [? ?]; [done|].
  st_steps. simpl ctr_wrap. rewrite u32_small by lia.
  destruct (Z.eqb_spec (ctrs s1 stat_GCRNVRAM_print + 1) 0); [lia|]. st_step.
  set (s2 := ctr_upd _ _ _).
  assert (spent s1 s2) as Hs.
  { unfold s2. spent_tac stat_GCRNVRAM_print. }
  split.
  - eapply pinv_rest; [by eapply pinv_le; [|exact Hp1]; lia| |apply Hs].
    eapply core_spent; [apply Hp1|done|exact Hs].
  - etrans; [by apply booked_still|by apply spent_still].
Qed.

Lemma gc_book_slots_spec k C V A g n s :
  ginv sc k (-1) C V A s -> 0 <= g < BLOCK_NB sc ->
  wp (gc_book_slots g n) (fun _ s' => ginv sc k (-1) C V A s' /\ still s s') s.
Proof.
  intros Hg Hgr. unfold gc_book_slots. st_steps. pose proof (g_flash _ G).
  rewrite (pinv_params _ _ _ _ _ _ _ _ _ _ (gi_pinv _ _ _ _ _ _ _ Hg)).
  apply (wp_mfor (fun _ s' => ginv sc k (-1) C V A s' /\ still s s')); [done|].
  intros f s1 Hf [Hg1 Hm]. rewrite Z2Nat.id, Z.add_0_l in Hf by lia.
  unfold get_usec. st_steps. set (s2 := set_clock_reads _ s1).
  assert (ginv sc k (-1) C V A s2) as Hg2 by (eapply ginv_idle; [exact Hg1|idle_tac]).
  pose proof (slot_of_range sc (zlen (gc_slot s2)) f g G (ou_slot _ _ _ _ (pi_outer _ _ _ _ _ _ _ _ _ _
    (gi_pinv _ _ _ _ _ _ _ Hg2))) Hf) as Hsl.
  destruct (zget_is_Some _ _ Hsl) as [t Ht]. eapply wp_arr_load; [exact Ht|].
  destruct (t <=? _).
  - apply wp_arr_store; [done|]. split; [by apply ginv_slot|]. by destruct Hm as [[] ?].
  - st_step. apply wp_arr_store; [done|]. st_steps. split.
    + eapply ginv_idle; [by apply ginv_slot|]. idle_tac.
    + by destruct Hm as [[] ?].
Qed.

(** The victim leaves the lists: the invariant with superblock [g] taken out,
    its NVRAM entries still in place. *)
Lemma ejected_pinv k C V A off g s s' :
  ginv sc k (-1) C V A s -> av A !! off = Some g ->
  alloc_rep sc (ejected A off) s' -> alloc_frame s s' ->
  pinv sc k g (owner (mapping_table s)) C V (live sc s) (ejected A off) (ejected A off) s' /\
  nand_wf sc (ejected A off) (nand_log s') /\ 0 <= g < BLOCK_NB sc.
Proof.
  intros [[Hc Hl Ho] Hlog] Hg Ha Hf. pose proof (ou_alloc _ _ _ _ Ho) as [[Hnd Hr _] _ _ _ _].
  pose proof (ejected_rows A off g Hg) as Hro. rewrite Hro in Hnd.
  apply list.NoDup_cons in Hnd as [Hn _].
  assert (0 <= g < BLOCK_NB sc) as Hgr by (apply Hr; rewrite Hro; by left).
  split; [|split; [|done]].
  - constructor.
    + eapply core_alloc; [|exact Hf]. eapply core_ext; [done..| |exact Hc].
      intros b Hb. cbv beta. by zcase.
    + destruct Hl. constructor; try done. intros q Hq _. apply vl_refs; [done|].
      pose proof (block_of_range sc G q). lia.
    + destruct Ho, Hf. constructor; try done; try congruence.
      * unfold lmap. by rewrite af_map.
      * intros b Hb. specialize (ou_rows b Hb). rewrite Hro, elem_of_cons in ou_rows.
        split; [intros; destruct ou_rows as [[?|?] _]; [lia|done..]|by intros ? ->].
  - rewrite (af_log _ _ Hf). exact Hlog.
Qed.

(** The row's NVRAM entries are dropped: the invariant while it is collected. *)
Lemma gc_drop_entries k g C V A s0 s :
  pinv sc k g (owner (mapping_table s0)) C V (live sc s0) A A s -> same_map s0 s ->
  nand_wf sc A (nand_log s) -> 0 <= g < BLOCK_NB sc ->
  wp (UPDATE_NVRAM_OOB g 0) (fun _ s' => ginv sc k g C V A s' /\ still s s') s.
Proof.
  intros Hp Hm Hlog Hgr. eapply core_oob_reset; [apply Hp|done|]. intros s' Hc Hq.
  assert (same_map s0 s') as Hm' by (etrans; [exact Hm|apply same_rest_map, Hq]).
  split; [|by apply quiet_still].
  eapply settle.
  - constructor; [exact Hc|apply Hp|eapply outer_rest; [apply Hp|apply Hq]].
  - intros. by rewrite (mp_map _ _ Hm').
  - intros b Hb. unfold fset. rewrite (same_map_live _ _ _ Hm'). by destruct (b =? g).
  - by rewrite (qu_log _ _ Hq).
Qed.

(** Once no page of the row has an owner it is erased and queued. *)
Lemma gc_finish_spec k g C V A t0 t1 n s :
  ginv sc k g C V A s -> 0 <= g < BLOCK_NB sc ->
  (forall q, 0 <= q < N -> block_of sc q = g -> C q = 0) ->
  wp (gc_finish t0 t1 g n) (fun r s' => r = SUCCESS /\ exists V',
     ginv sc k (-1) C V' (recycled A g) s' /\ moved sc g s s' /\
     free_pages sc (recycled A g) = free_pages sc A + F * P) s.
Proof.
  intros Hg Hgr HC. unfold gc_finish, get_ts_in_ns. st_steps. name_state s1.
  assert (idle s s1) as Hi1 by (unfold s1; idle_tac).
  eapply wp_mono; [apply (gc_erase_spec k g C V A); [by eapply ginv_idle|done|done]|].
  intros ? s2 (V2 & Hg2 & Hm2 & Hf2). st_steps. name_state s3.
  assert (idle s2 s3) as Hi3 by (unfold s3; idle_tac).
  eapply wp_mono; [eapply gc_book_slots_spec; [eapply ginv_idle; [exact Hg2|exact Hi3]|done]|].
  intros ? s4 [Hg4 Hm4]. st_steps. split; [done|]. exists V2.
  split; [eapply ginv_idle; [exact Hg4|idle_tac]|]. split; [|done].
  etrans; [by apply still_moved, idle_still|]. etrans; [exact Hm2|]. apply still_moved.
  etrans; [by apply idle_still|]. by destruct Hm4 as [[] ?].
Qed.

(** A collection either finds no victim with an invalid page, or frees a
    superblock and keeps the mapping up to relocation. *)
Definition gc_post (k : Z) (V : Z -> Z) A s (r : Z) s' : Prop :=
  r = FAIL /\ (forall b, b ∈ av A -> row_valid sc V b = F * P) /\ still s s' /\
    (exists C, ginv sc (k + 1) (-1) C V A s') \/
  r = SUCCESS /\ exists g C' V' A', ginv sc k (-1) C' V' A' s' /\ g ∈ av A /\ g ∈ aq A' /\
    moved sc g s s' /\ row_valid sc V g < F * P /\
    (forall b, b ∈ av A -> row_valid sc V g <= row_valid sc V b) /\
    free_pages sc A' = free_pages sc A + F * P - row_valid sc V g.

(** From the ejected victim to its erasure. *)
Lemma gc_collect_row k C V A off g t0 s0 s s' :
  ginv sc (k + 1) (-1) C V A s0 -> 0 <= k -> F * P - 1 <= free_pages sc A ->
  av A !! off = Some g -> row_valid sc V g < F * P ->
  (forall b, b ∈ av A -> row_valid sc V g <= row_valid sc V b) ->
  alloc_rep sc (ejected A off) s -> alloc_frame s0 s -> idle s s' ->
  wp (blocking_time ← gc_read_oob g;
      cp_start ← get_ts_in_ns;
      gc_block_chips blocking_time;;
      _ ← UPDATE_NVRAM_OOB g 0;
      r ← gc_copy_superblock g;
      match r with
      | inr _ => mret FAIL
      | inl copy_page_nb => gc_finish t0 cp_start g copy_page_nb
      end) (gc_post k V A s0) s'.
Proof.
  intros Hg Hk Hfree Hoff Hrv Hmin Ha Hf Hi.
  destruct (ejected_pinv _ _ _ _ _ _ _ _ Hg Hoff Ha Hf) as (Hp & Hlog & Hgr).
  set (Ae := ejected A off) in *. pose proof (pinv_idle _ _ _ _ _ _ _ _ _ _ _ Hp Hi) as Hp1.
  assert (still s0 s') as Hm1 by (etrans; [by apply alloc_frame_still|by apply idle_still]).
  apply wp_bind. eapply wp_mono; [eapply gc_read_oob_spec; [apply Hp1|done]|].
  intros t s2 Hb2. cbv beta in Hb2 |- *.
  unfold get_ts_in_ns. st_steps.
  name_state s3. assert (idle s2 s3) as Hi3 by (unfold s3; idle_tac).
  eapply wp_mono; [eapply gc_block_chips_spec; [|exact Hk]; eapply pinv_idle; [by eapply pinv_booked|done]|].
  intros ? s4 [Hp4 Hm4].
  assert (still s0 s4) as Hs4.
  { etrans; [exact Hm1|]. etrans; [by apply booked_still|]. etrans; [by apply idle_still|exact Hm4]. }
  st_step. eapply wp_mono.
  { eapply gc_drop_entries; [exact Hp4|apply Hs4| |done].
    by rewrite (st_same_log _ _ Hs4), <- (af_log _ _ Hf). }
  intros ? s5 [Hg5 Hm5]. st_step. eapply wp_mono.
  { apply (gc_copy_superblock_spec k g C V Ae); [done|done| |].
    - intros q Hq _. rewrite (vl_refs _ _ _ _ _ (pi_link _ _ _ _ _ _ _ _ _ _ (gi_pinv _ _ _ _ _ _ _ Hg)) q);
        [lia|done|]. pose proof (block_of_range sc G q). lia.
    - change (free_pages sc Ae) with (free_pages sc A). lia. }
  intros r s6 (-> & C6 & V6 & A6 & Hg6 & Hm6 & Hf6 & HC6).
  eapply wp_mono; [eapply gc_finish_spec; [exact Hg6|done|exact HC6]|].
  intros r s7 (-> & V7 & Hg7 & Hm7 & Hf7). right. split; [done|].
  exists g, C6, V7, (recycled A6 g). split; [done|]. split; [by eapply list_elem_of_lookup_2|].
  split; [apply elem_of_app; right; by apply list_elem_of_singleton|].
  split; [|split; [done|split; [done|]]].
  - etrans; [apply still_moved; by etrans|]. by etrans.
  - rewrite Hf7, Hf6. change (free_pages sc Ae) with (free_pages sc A). lia.
Qed.

Lemma SB_GARBAGE_COLLECTION_spec k C V A s :
  ginv sc (k + 1) (-1) C V A s -> 0 <= k -> F * P - 1 <= free_pages sc A ->
  wp SB_GARBAGE_COLLECTION (gc_post k V A s) s.
Proof.
  intros Hg Hk Hfree. unfold SB_GARBAGE_COLLECTION, get_ts_in_ns. st_steps.
  name_state s1. assert (idle s s1) as Hi1 by (unfold s1; idle_tac).
  pose proof (ginv_idle _ _ _ _ _ _ _ _ Hg Hi1) as Hg1.
  pose proof (idle_still _ _ Hi1) as Hm1.
  eapply (SELECT_VICTIM_spec sc G V A); [apply Hg1|apply Hg1|apply Hg1|..].
  - intros s2 Hfull Hi2. st_steps. set (s3 := ctr_upd _ _ _).
    assert (idle s2 s3) as Hi3 by (unfold s3; idle_tac). left.
    assert (idle s s3) as Hi by (etrans; [exact Hi1|]; by etrans).
    do 2 (split; [done|]). split; [by apply idle_still|]. exists C.
    eapply ginv_idle; [exact Hg|exact Hi].
  - intros off g s2 Hoff Hrv Hmin Ha2 Hf2. st_steps. name_state s3.
    apply wp_bind_inv. eapply wp_mono.
    { eapply (gc_collect_row k C V A off g _ s1 s2 s3); try done. unfold s3. idle_tac. }
    intros r s' [(-> & Hfull & Hm & HC)|(-> & g' & C' & V' & A' & Hg' & Hin & Hq & Hmv & Hrest)].
    + left. do 2 (split; [done|]). split; [by etrans|done].
    + right. split; [done|]. exists g', C', V', A'. do 3 (split; [done|]).
      split; [etrans; [by apply still_moved|exact Hmv]|done].
Qed.

(** *** The loop *)

Lemma free_pages_le k g C V A s : ginv sc k g C V A s -> 0 <= free_pages sc A <= N.
Proof.
  intros [[_ [] _] _]. rewrite <- vl_count. pose proof (pages_bound sc G). split.
  - apply sumZ_nonneg. intros. by zcase.
  - replace N with (sumZ N (fun _ => 1)) at 2 by (rewrite sumZ_const; lia).
    apply sumZ_le. intros. by zcase.
Qed.

(** Enough empty blocks and free pages. *)
Definition gc_satisfied s : Prop :=
  GC_THRESHOLD_BLOCK_NB sc <= total_empty_block_nb s /\
  u64 (GC_THRESHOLD_BLOCK_NB sc * P) <= ctrs s stat_ppn_free.

(** The loop ends with enough space, or when no victim has an invalid page.
    A collection costs one increment of an interval counter and frees a page,
    so the used pages pay for the collections. *)
Definition gc_check_post (k : Z) A s s' : Prop :=
  exists C' V' A', ginv sc (k + (N - free_pages sc A')) (-1) C' V' A' s' /\ relocated sc s s' /\
    free_pages sc A <= free_pages sc A' /\
    (gc_satisfied s' \/ forall b, b ∈ av A' -> row_valid sc V' b = F * P).

Lemma gc_check_loop_spec n k C V A s :
  ginv sc (k + (N - free_pages sc A)) (-1) C V A s -> 1 <= k ->
  F * P - 1 <= free_pages sc A -> N - free_pages sc A < Z.of_nat n ->
  wp (gc_check_loop n) (fun _ s' => gc_check_post k A s s') s.
Proof.
  revert C V A s. induction n as [|n IH]; intros C V A s Hg Hk Hfree Hn;
    pose proof (free_pages_le _ _ _ _ _ _ Hg) as Hle; [lia|].
  cbn [gc_check_loop]. unfold gc_needed. st_steps.
  rewrite (pinv_params _ _ _ _ _ _ _ _ _ _ (gi_pinv _ _ _ _ _ _ _ Hg)).
  destruct (_ || _) eqn:Hneed; cbn [negb].
  - st_step. eapply wp_mono.
    { apply (SB_GARBAGE_COLLECTION_spec (k + (N - free_pages sc A) - 1) C V A).
      - by rewrite Z.sub_add.
      - lia.
      - done. }
    intros r s1 [(-> & Hfull & Hm & C1 & Hg1)|(-> & g & C1 & V1 & A1 & Hg1 & _ & _ & Hm & Hlt & _ & Hf1)].
    + simpl (_ =? _). cbv iota. st_step. exists C1, V, A. split; [by rewrite Z.sub_add in Hg1|].
      split; [by apply still_relocated|]. split; [lia|by right].
    + simpl (_ =? _). cbv iota. st_steps. name_state s2. assert (idle s1 s2) as Hi2 by (unfold s2; idle_tac).
      eapply wp_mono; [eapply (IH C1 V1 A1); [|done|lia..]|].
      * eapply ginv_le; [|eapply ginv_idle; [exact Hg1|exact Hi2]]. lia.
      * intros ? s3 (C3 & V3 & A3 & Hg3 & Hr3 & Hf3 & Hend). exists C3, V3, A3. split; [done|].
        split; [|split; [lia|done]]. etrans; [apply Hm|]. etrans; [|exact Hr3].
        by apply still_relocated, idle_still.
  - st_step. exists C, V, A. do 2 (split; [done|]). split; [lia|]. left.
    apply orb_false_iff in Hneed as [H1%Z.ltb_ge H2%Z.ltb_ge]. done.
Qed.

Lemma GC_CHECK_spec k C V A f b s :
  ginv sc (k + (N - free_pages sc A)) (-1) C V A s -> 1 <= k ->
  F * P - 1 <= free_pages sc A ->
  wp (GC_CHECK f b) (fun _ s' => gc_check_post k A s s') s.
Proof.
  intros Hg Hk Hf. unfold GC_CHECK. st_steps.
  rewrite (pinv_params _ _ _ _ _ _ _ _ _ _ (gi_pinv _ _ _ _ _ _ _ Hg)), (g_map _ G).
  eapply gc_check_loop_spec; [done..|]. pose proof (free_pages_le _ _ _ _ _ _ Hg).
  unfold pages in *. lia.
Qed.

(** A relocation does not change how many logical pages share a page. *)
Lemma shares_relocated k k' C C' V V' A A' m s s' :
  ginv sc k (-1) C V A s -> ginv sc k' (-1) C' V' A' s' -> relocated sc s s' -> 0 <= m ->
  shares sc m C -> shares sc m C'.
Proof.
  intros [[Hc _ Ho] _] [[Hc' _ Ho'] _] [Hmap Hsh _] Hm HC q Hq.
  destruct (Z_le_gt_dec (C' q) 0) as [|Hpos]; [lia|].
  destruct (inv_rep_owner _ _ _ _ _ (co_inv _ _ _ _ _ _ _ Hc') Hq ltac:(lia)) as [l Hl].
  destruct (owner_pos s' l q (ou_map _ _ _ _ Ho') Hl) as [Hlr Hlq].
  pose proof (ou_range _ _ _ _ Ho l Hlr) as Hr.
  assert (lmap s l <> -1) as Hne by (rewrite <- Hmap; lia).
  specialize (HC (lmap s l) ltac:(lia)).
  rewrite (nodes_sharers sc _ _ _ _ _ _ Hc (ou_map _ _ _ _ Ho)) in HC by lia.
  rewrite (nodes_sharers sc _ _ _ _ _ _ Hc' (ou_map _ _ _ _ Ho')) by done.
  etrans; [|exact HC]. apply Z.eq_le_incl. apply sumZ_ext. intros x Hx. f_equal.
  rewrite <- Hlq. specialize (Hsh x l). zcases; tauto.
Qed.
End Collect.
