(* ===== verification/Store.v ===== *)
(** * What the device promises

    A store of page versions.  A logical page holds the version the host last
    wrote to it, or nothing; a remap copies a version without writing it, a
    move also empties its source, a discard empties a page.  Garbage
    collection is not visible.

    [holds] relates a store to a state of the FTL: the contents of the physical
    pages yield the store through the mapping table.  [sim] says that of the
    contents the commands since an earlier state have led to. *)

From Stdlib Require Import ZArith Lia List.
From stdpp Require Import base tactics numbers list functions.
From S2P Require Import Prelude Config State Timing Inverse Alloc Flash Invariant Gc.

Open Scope Z_scope.

(** ** The abstract store *)

Definition store : Type := Z -> option Z.

Definition put (St : store) (l : Z) (v : option Z) : store := fun x => if x =? l then v else St x.

(** One page of a write with version [v] and metadata [li]: it is written, or
    remapped to the page that holds the same data when the metadata says so. *)
Inductive page_write (v : Z) (li : lpn_info) (l : Z) (St : store) : store -> Prop :=
| PW_write : page_write v li l St (put St l (Some v))
| PW_copy : flag li = CP_WRITE \/ flag li = DEDUP_WRITE -> 0 < h_lpn li -> St (h_lpn li) <> None ->
    page_write v li l St (put St l (St (h_lpn li)))
| PW_move : flag li = FS_GC_WRITE -> 0 < h_lpn li -> St (h_lpn li) <> None ->
    page_write v li l St (put (put St l (St (h_lpn li))) (h_lpn li) None).

(** The [n] pages of a request from its [i]-th on, which is page [l]. *)
Inductive pages_write (ver : Z -> Z) (info : list lpn_info) : nat -> Z -> Z -> store -> store -> Prop :=
| PS_nil i l St : pages_write ver info 0 i l St St
| PS_cons n i l li St St1 St2 :
    zget info i = Some li -> page_write (ver i) li l St St1 ->
    pages_write ver info n (i + 1) (l + 1) St1 St2 ->
    pages_write ver info (S n) i l St St2.

(** [n] pages are emptied. *)
Fixpoint discards (n : nat) (l : Z) (St : store) : store :=
  match n with O => St | S m => discards m (l + 1) (put St l None) end.

(** [n] pages are copied, or moved. *)
Fixpoint copies (move : bool) (n : nat) (src dst : Z) (St : store) : store :=
  match n with
  | O => St
  | S m =>
      let St1 := put St dst (St src) in
      copies move m (src + 1) (dst + 1) (if move then put St1 src None else St1)
  end.

(** Every page of the source holds something when its turn comes. *)
Fixpoint copies_ok (move : bool) (n : nat) (src dst : Z) (St : store) : Prop :=
  match n with
  | O => True
  | S m =>
      let St1 := put St dst (St src) in
      St src <> None /\
      copies_ok move m (src + 1) (dst + 1) (if move then put St1 src None else St1)
  end.

(** ** The relation to the FTL *)

(** With contents [D] of the flash, the state represents the store. *)
Definition holds (sc : ssdconf) (D : contents) (St : store) (s : ssdstate) : Prop :=
  forall l, 0 <= l < pages sc -> St l = if lmap s l =? -1 then None else Some (cell D (lmap s l)).

(** An earlier state and what the flash held then. *)
Definition origin : Type := contents * ssdstate.

(** The commands issued since the origin lead to contents with which the
    state represents the store. *)
Definition sim (sc : ssdconf) (o : origin) (St : store) (s : ssdstate) : Prop :=
  exists D, evolved sc (fst o) (snd o) D s /\ holds sc D St s.

(** ** Lemmas *)

Section SimRules.
Variable sc : ssdconf.
Variable o : origin.
Implicit Types (s : ssdstate) (St : store).

Lemma sim_here D St s : holds sc D St s -> sim sc (D, s) St s.
Proof. intros HD. exists D. split; [by apply evolved_quiet|done]. Qed.

Lemma sim_mapped St s l : sim sc o St s -> 0 <= l < pages sc -> St l = None <-> lmap s l = -1.
Proof.
  intros (D & _ & HD) Hl. rewrite HD by done. destruct (Z.eqb_spec (lmap s l) (-1)); split; done.
Qed.

(** The contents move with the pages. *)
Lemma sim_relocated St s s' : relocated sc s s' -> sim sc o St s -> sim sc o St s'.
Proof.
  intros [Hm _ Hd] (D & He & HD). destruct (Hd D) as (D' & He' & Hc). exists D'.
  split; [by eapply evolved_trans|]. intros l Hl. rewrite HD by done. specialize (Hm l).
  destruct (Z.eqb_spec (lmap s l) (-1)), (Z.eqb_spec (lmap s' l) (-1)); [done|tauto|tauto|].
  by rewrite Hc.
Qed.

Lemma sim_still St s s' : still s s' -> sim sc o St s -> sim sc o St s'.
Proof. intros Hs. by apply sim_relocated, still_relocated. Qed.

Lemma sim_reads St s s' cmds :
  same_map s s' -> nand_log s' = cmds ++ nand_log s -> Forall is_read cmds ->
  sim sc o St s -> sim sc o St s'.
Proof.
  intros Hm Hlog Hr (D & He & HD). destruct (evolves_reads sc D cmds Hr) as (D' & HD' & E). exists D'.
  split; [by eapply evolved_trans; [exact He|exists cmds]|]. intros l Hl.
  by rewrite (same_map_lmap _ _ Hm), E, HD.
Qed.

(** A host program of page [p], after the reads of the rest of its data. *)
Lemma sim_write St s s' l p v ty cmds :
  geom sc -> sim sc o St s -> p <> -1 -> (forall x, lmap s x <> p) ->
  (forall x, lmap s' x = if x =? l then p else lmap s x) ->
  nand_log s' = (NandProgram ty (flash_of sc p) (block_of sc p) (page_of sc p) :: cmds) ++ nand_log s ->
  ty <> GC_WRITE -> Forall is_read cmds -> sim sc o (put St l (Some v)) s'.
Proof.
  intros G (D & He & HD) Hp Hn Hs Hlog Hty Hr.
  destruct (evolves_reads sc D cmds Hr) as (D' & HD' & E). eexists. split.
  { eapply evolved_trans; [exact He|]. eexists. split; [exact Hlog|]. by apply (ev_host _ _ _ _ _ _ v). }
  intros x Hx. unfold put. rewrite Hs. cbn [cell]. rewrite (addr_parts sc G), E. destruct (x =? l).
  - destruct (Z.eqb_spec p (-1)); [done|]. by rewrite fset_eq.
  - rewrite HD by done. rewrite fset_ne; [done|]. by apply not_eq_sym.
Qed.

Lemma sim_discard St s s' l :
  sim sc o St s -> nand_log s' = nand_log s -> (forall x, lmap s' x = if x =? l then -1 else lmap s x) ->
  sim sc o (put St l None) s'.
Proof.
  intros (D & He & HD) Hlog Hs. exists D. split; [by eapply evolved_trans; [|apply evolved_quiet]|].
  intros x Hx. unfold put. rewrite Hs. destruct (x =? l); [done|]. by rewrite HD.
Qed.

Lemma sim_copy St s s' l h :
  sim sc o St s -> 0 <= h < pages sc -> nand_log s' = nand_log s ->
  (forall x, lmap s' x = if x =? l then lmap s h else lmap s x) -> sim sc o (put St l (St h)) s'.
Proof.
  intros (D & He & HD) Hh Hlog Hs. exists D. split; [by eapply evolved_trans; [|apply evolved_quiet]|].
  intros x Hx. unfold put. rewrite Hs. destruct (x =? l); by rewrite HD.
Qed.

Lemma sim_ext St St' s :
  (forall l, 0 <= l < pages sc -> St l = St' l) -> sim sc o St s -> sim sc o St' s.
Proof. intros E (D & He & HD). exists D. split; [done|]. intros l Hl. by rewrite <- E, HD. Qed.
End SimRules.
