(* ===== verification/Ftl.v ===== *)
(** * Host reads and writes: ftl.c

    [_FTL_READ] and [_FTL_WRITE] cut a request into pages.  A write whose
    metadata asks for it ([CP_WRITE], [DEDUP_WRITE], [FS_GC_WRITE] with the
    logical page [h_lpn] that holds the data) only remaps; any other page is
    programmed into a new physical page.  A write ends with [GC_CHECK].

    The compiled configuration is the one of common.h: without [DUP_RATIO],
    [X_FTL], [FTL_MAP_CACHE], [FIRM_IO_BUFFER]. *)

From Stdlib Require Import ZArith Lia List.
From stdpp Require Import base tactics numbers list functions.
From S2P Require Import Prelude Config State Timing Perf Inverse Nvram Mapping Alloc Flash Invariant Gc Store.

Open Scope Z_scope.

(** The local variables of the two loops. *)
Record span : Type := mk_span {
  lba : Z;
  remain : Z;
  left_skip : Z;
  page_no : Z;
  max_tt : Z
}.

Definition next_span (spp : Z) (x : span) (tt_ : Z) : span :=
  let sects := sects_of spp (left_skip x) (remain x) in
  mk_span (lba x + sects) (u32 (remain x - sects)) 0 (page_no x + 1) (Z.max (max_tt x) tt_).

Section Ftl.
Context `{Clock}.

(** The request waits for the collection that holds the slot of the page. *)
Definition wait_for_slot (flash block : Z) : SM unit :=
  conf sc;
  match num_gc_slots sc with
  | None => mcrash Uninitialised
  | Some _ =>
      t ← arr_load gc_slot (slot_of sc flash block);
      modify (fun s => if blocking_to s <? t then set_blocking_to t s else s)
  end.

(** ** Read *)

(** The first loop of [_FTL_READ] only looks the pages up and prints. *)
Fixpoint ftl_read_probe (fuel : nat) (spp : Z) (x : span) : SM unit :=
  if remain x =? 0 then mret tt else
  match fuel with
  | O => mhang
  | S fuel' =>
      _ ← GET_MAPPING_INFO (Z.quot (lba x) spp);
      ftl_read_probe fuel' spp (next_span spp x 0)
  end.

(** One page; an unmapped page is read from physical page 0. *)
Definition ftl_read_page (lpn read_page_nb io_page_nb : Z) : SM Z :=
  m ← GET_MAPPING_INFO lpn;
  let ppn := if m =? -1 then 0 else m in
  seq ← ctr_get io_request_seq_nb;
  num_flash ← CALC_FLASH ppn;
  num_blk ← CALC_BLOCK ppn;
  wait_for_slot num_flash num_blk;;
  page ← CALC_PAGE ppn;
  cur ← SSD_PAGE_READ num_flash num_blk page
          (CREATE_NAND_IO_INFO read_page_nb READ io_page_nb seq);
  stat_tick;;
  mret cur.

Fixpoint ftl_read_loop (fuel : nat) (spp io_page_nb : Z) (x : span) : SM Z :=
  if remain x =? 0 then mret (max_tt x) else
  match fuel with
  | O => mhang
  | S fuel' =>
      cur ← ftl_read_page (Z.quot (lba x) spp) (page_no x) io_page_nb;
      ftl_read_loop fuel' spp io_page_nb (next_span spp x cur)
  end.

Definition _FTL_READ (sector_nb length : Z) : SM Z :=
  conf sc;
  let spp := SECTORS_PER_PAGE sc in
  curtime ← get_usec;
  ctr_add nb_total_reads 1;;
  ctr_add nb_total_rd_sz length;;
  if SECTOR_NB sc <? sector_nb + length then mret FAIL else
  (if spp =? 0 then mcrash DivByZero else mret tt);;
  let x := mk_span sector_nb length (left_skip_of spp sector_nb) 0 0 in
  ftl_read_probe (Z.to_nat length) spp x;;
  al ← ALLOC_IO_REQUEST sector_nb length READ;
  ctr_set io_alloc_overhead al.1;;
  modify (set_blocking_to 0);;
  max_need_to_emulate_tt ← ftl_read_loop (Z.to_nat length) spp al.2 x;
  b ← gets blocking_to;
  (if curtime <? b then ctr_add nb_blocked_reads 1 else mret tt);;
  ctr_add stat_read_size_print length;;
  INCREASE_IO_REQUEST_SEQ_NB;;
  mret max_need_to_emulate_tt.

Definition FTL_READ (sector_nb length : Z) : SM Z := _FTL_READ sector_nb length.

(** ** Write: the remapping branches *)

(** The physical page [ppn] gets one more owner, [lpn], with an NVRAM entry. *)
Definition remap_attach (ppn : Z) : SM unit :=
  flash ← CALC_FLASH ppn;
  block ← CALC_BLOCK ppn;
  page ← CALC_PAGE ppn;
  _ ← UPDATE_BLOCK_STATE_ENTRY flash block page VALID;
  _ ← UPDATE_NVRAM_OOB block VALID;
  mret tt.

(** [lpn] drops its old page and points to [ppn]. *)
Definition remap_switch (lpn ppn : Z) : SM unit :=
  _ ← UPDATE_OLD_PAGE_MAPPING lpn;
  st_mapping_table lpn ppn;;
  st_in_nvram lpn 1.

(** The pages of the source are released ([FS_GC_WRITE], [REMAP_MOVE]). *)
Definition release_lpn (lpn : Z) : SM unit :=
  _ ← UPDATE_OLD_PAGE_MAPPING lpn;
  st_mapping_table lpn (-1).

(** The three branches differ in what follows the switch.  The result is the
    time to emulate, when [INCREASE_INVERSE_MAPPING] succeeds. *)
Definition ftl_remap_page (flag lpn h_lpn h_ppn : Z) : SM Z :=
  r ← INCREASE_INVERSE_MAPPING h_ppn lpn;
  if negb (r =? SUCCESS) then mret 0 else
  remap_attach h_ppn;;
  b ← CALC_BLOCK h_ppn;
  t ← UPDATE_NVRAM_TS b (Z.quot NVRAM_WRITE_DELAY 4);
  let cur := if flag =? DEDUP_WRITE then t + FING_DELAY else t in
  remap_switch lpn h_ppn;;
  (if flag =? FS_GC_WRITE then release_lpn h_lpn else mret tt);;
  ctr_add stat_remap_cnt 1;;
  ctr_add stat_reduced_write 1;;
  (if flag =? DEDUP_WRITE then ctr_add stat_host_write_count 1 else mret tt);;
  mret cur.

(** ** Write: programming a new page *)

(** [inr tt] is [return FAIL]; otherwise the time to emulate and [new_ppn]. *)
Definition ftl_program_page (lpn left right write_page_nb io_page_nb : Z)
  : SM (Z * Z + unit) :=
  conf sc;
  np ← GET_NEW_PAGE VICTIM_OVERALL (EMPTY_TABLE_ENTRY_NB sc);
  match np with
  | None => mret (inr tt)
  | Some new_ppn =>
      old_ppn ← GET_MAPPING_INFO lpn;
      seq ← ctr_get io_request_seq_nb;
      let n_io_info := CREATE_NAND_IO_INFO write_page_nb WRITE io_page_nb seq in
      num_flash ← CALC_FLASH new_ppn;
      num_blk ← CALC_BLOCK new_ppn;
      wait_for_slot num_flash num_blk;;
      num_page ← CALC_PAGE new_ppn;
      cur ← (if negb ((left =? 0) && (right =? 0)) && negb (old_ppn =? -1) then
               oflash ← CALC_FLASH old_ppn;
               ob ← CALC_BLOCK old_ppn;
               op ← CALC_PAGE old_ppn;
               SSD_PAGE_PARTIAL_WRITE oflash ob op num_flash num_blk num_page n_io_info
             else SSD_PAGE_WRITE num_flash num_blk num_page n_io_info);
      _ ← UPDATE_OLD_PAGE_MAPPING lpn;
      _ ← UPDATE_NEW_PAGE_MAPPING lpn new_ppn DATA_BLOCK;
      st_in_nvram lpn 0;;
      ctr_add stat_host_write_count 1;;
      mret (inl (cur + FING_DELAY, new_ppn))
  end.

(** ** Write: the loop *)

Definition remap_flag (flag : Z) : bool :=
  (flag =? CP_WRITE) || (flag =? DEDUP_WRITE) || (flag =? FS_GC_WRITE).

(** One page of the request: the time to emulate and the last programmed
    page, or [return FAIL]. *)
Definition ftl_write_page (info : list lpn_info) (spp io_page_nb new_ppn : Z) (x : span)
  : SM (Z * Z + unit) :=
  let lpn := Z.quot (lba x) spp in
  li ← idx info (page_no x);
  h_ppn ← (if 0 <? h_lpn li then arr_load mapping_table (h_lpn li) else mret (-1));
  use ← (if remap_flag (flag li) && negb (h_ppn =? -1) then
           b ← CALC_BLOCK h_ppn; USE_REMAP b
         else mret FAIL);
  r ← (if use =? SUCCESS then
         cur ← ftl_remap_page (flag li) lpn (h_lpn li) h_ppn;
         mret (inl (cur, new_ppn))
       else ftl_program_page lpn (left_skip x)
              (right_skip_of spp (left_skip x) (remain x)) (page_no x) io_page_nb);
  match r with
  | inr u => mret (inr u)
  | inl cp => stat_tick;; mret (inl cp)
  end.

Fixpoint ftl_write_loop (fuel : nat) (info : list lpn_info) (spp io_page_nb new_ppn : Z)
  (x : span) : SM (Z * Z + unit) :=
  if remain x =? 0 then mret (inl (max_tt x, new_ppn)) else
  match fuel with
  | O => mhang
  | S fuel' =>
      r ← ftl_write_page info spp io_page_nb new_ppn x;
      match r with
      | inr u => mret (inr u)
      | inl (cur, new_ppn') =>
          ftl_write_loop fuel' info spp io_page_nb new_ppn' (next_span spp x cur)
      end
  end.

(** The statistics at the end of a write request. *)
Definition ftl_write_stats (length max_need_to_emulate_tt : Z) : SM unit :=
  ctr_add stat_write_req_print 1;;
  ctr_add stat_write_delay_print max_need_to_emulate_tt;;
  d ← ctr_get stat_write_delay_print;
  n ← ctr_get stat_write_req_print;
  (if n =? 0 then mcrash DivByZero else ctr_set stat_avg_write_delay (d / n));;
  ctr_add stat_write_size_print length;;
  z ← ctr_get stat_write_size_print;
  ctr_set stat_avg_req_size (z / n);;
  lo ← ctr_get stat_min_write_delay;
  (if u64 max_need_to_emulate_tt <? lo
   then ctr_set stat_min_write_delay max_need_to_emulate_tt else mret tt);;
  hi ← ctr_get stat_max_write_delay;
  (if hi <? u64 max_need_to_emulate_tt
   then ctr_set stat_max_write_delay max_need_to_emulate_tt else mret tt).

Definition _FTL_WRITE (request1 : request_meta) : SM Z :=
  conf sc;
  let spp := SECTORS_PER_PAGE sc in
  let length := req_length request1 in
  let sector_nb := req_sector_nb request1 in
  curtime ← get_usec;
  w ← ctr_get in_warmup_stage;
  (if w =? 0 then ctr_add nb_total_writes 1;; ctr_add nb_total_wr_sz length else mret tt);;
  if SECTOR_NB sc <? sector_nb + length then mret FAIL else
  al ← ALLOC_IO_REQUEST sector_nb length WRITE;
  ctr_set io_alloc_overhead al.1;;
  _ ← get_usec;
  modify (set_blocking_to 0);;
  r ← ftl_write_loop (Z.to_nat length) (lpns_info request1) spp al.2 (-1)
        (mk_span sector_nb length (left_skip_of spp sector_nb) 0 0);
  match r with
  | inr _ => mret FAIL
  | inl (max_need_to_emulate_tt, new_ppn) =>
      ftl_write_stats length max_need_to_emulate_tt;;
      b ← gets blocking_to;
      (if curtime <? b then ctr_add nb_blocked_writes 1 else mret tt);;
      INCREASE_IO_REQUEST_SEQ_NB;;
      (if 0 <? new_ppn then
         flash ← CALC_FLASH new_ppn;
         block ← CALC_BLOCK new_ppn;
         GC_CHECK flash block
       else mret tt);;
      mret max_need_to_emulate_tt
  end.

(** The 64-bit result goes through an [int]. *)
Definition FTL_WRITE (request1 : request_meta) : SM Z :=
  ret ← _FTL_WRITE request1; mret (s32 ret).

End Ftl.

(** ** Lemmas: the steps of a page *)

Section FtlRules.
Context `{Clock}.
Variable sc : ssdconf.
Hypothesis G : geom sc.
Variable o : origin.
Implicit Types (s : ssdstate) (A : alloc).
Local Abbreviation F := (FLASH_NB sc).
Local Abbreviation P := (PAGE_NB sc).
Local Abbreviation N := (pages sc).

(** A logical page is unmapped. *)
Lemma release_lpn_spec k C V A l s :
  ginv sc k (-1) C V A s -> 0 <= l < N ->
  wp (release_lpn l) (fun _ s' => exists C' V', ginv sc k (-1) C' V' A s' /\
    (forall x, lmap s' x = if x =? l then -1 else lmap s x) /\
    (forall q, 0 <= q < N -> C' q <= C q) /\ nand_log s' = nand_log s) s.
Proof.
  intros [Hp Hlog] Hl. unfold release_lpn. st_step.
  pose proof (pi_outer _ _ _ _ _ _ _ _ _ _ Hp) as Ho. destruct (Ho) as [Hz Hz' Hr _ _ _ _].
  eapply (drop_spec sc G); [exact Hp|lia|done| |].
  { intros Hne. rewrite owner_lmap, Z.eqb_refl by lia. simpl. lia. }
  intros s1 R1 C1 V1 L1 Hp1 Hq1 HR1 HL1 HC1 _.
  destruct (same_rest_map _ _ (qu_rest _ _ Hq1)) as [Em En].
  apply wp_arr_store; [rewrite Em; lia|]. set (s2 := set_mapping_table _ s1).
  assert (forall x, lmap s2 x = if x =? l then -1 else lmap s x) as Hm2
    by (intros; apply lmap_zset; [unfold s2; cbn; by rewrite Em|lia]).
  exists C1, V1. split; [|split; [done|split; [done|by apply Hq1]]].
  eapply (settle_upd sc k R1 C1 V1 L1 A s s2 l (-1) (nvf s l)); try done.
  - destruct Hp1. constructor; [by apply core_map|done|]. apply outer_map; [done..|lia].
  - intros x. unfold nvf, s2. cbn. rewrite En. destruct (Z.eqb_spec x l) as [->|]; done.
  - intros x q Hq. rewrite HR1 by done. destruct (x =? l); [|lia].
    destruct (Z.eqb_spec (-1) q); [lia|]. simpl. lia.
  - intros b Hb. rewrite HL1. unfold entry_in at 3. simpl. by zcase.
  - cbn. rewrite (qu_log _ _ Hq1). exact Hlog.
Qed.

Lemma wait_for_slot_spec k g R C V L A Af f b s :
  pinv sc k g R C V L A Af s -> 0 <= f < F -> wp (wait_for_slot f b) (fun _ s' => idle s s') s.
Proof.
  intros Hp Hf. unfold wait_for_slot. st_steps. rewrite (pinv_params _ _ _ _ _ _ _ _ _ _ Hp).
  pose proof (ou_slot _ _ _ _ (pi_outer _ _ _ _ _ _ _ _ _ _ Hp)) as Hs. rewrite Hs.
  destruct (zget_is_Some _ _ (slot_of_range sc _ f b G Hs Hf)) as [t Ht].
  st_step. eapply wp_arr_load; [exact Ht|]. st_step. destruct (_ <? _); [idle_tac|done].
Qed.

(** The new page becomes the page of [l]; the old one loses an owner. *)
Lemma program_mapping k C V A A' l new s0 s :
  pinv sc k (-1) (owner (mapping_table s0)) C V (fun b => if b =? -1 then 0 else live sc s0 b) A' A s ->
  same_map s0 s -> nand_wf sc A' (nand_log s) -> fresh sc A A' new -> 0 <= l < N ->
  wp (_ ← UPDATE_OLD_PAGE_MAPPING l; _ ← UPDATE_NEW_PAGE_MAPPING l new DATA_BLOCK; st_in_nvram l 0)
     (fun _ s' => exists C' V', ginv sc k (-1) C' V' A' s' /\
        (forall x, lmap s' x = if x =? l then new else lmap s0 x) /\
        (forall m, 1 <= m -> shares sc m C -> shares sc m C') /\ nand_log s' = nand_log s) s.
Proof.
  intros Hp [Em En] Hlog Hf Hl. pose proof (pi_outer _ _ _ _ _ _ _ _ _ _ Hp) as Ho.
  destruct (Ho) as [Hz Hz' Hr _ _ _ _]. destruct (fresh_range sc G _ _ _ Hf) as (Hn & _).
  assert (forall x, lmap s x = lmap s0 x) as Hm by (intros; unfold lmap; by rewrite Em).
  assert (forall x, nvf s x = nvf s0 x) as Hnv by (intros; unfold nvf; by rewrite En).
  st_step. eapply (drop_spec sc G); [exact Hp|lia|done| |].
  { intros Hne. rewrite <- Em, owner_lmap, Z.eqb_refl by lia. simpl. lia. }
  intros s1 R1 C1 V1 L1 Hp1 Hq1 HR1 HL1 HC1 _.
  destruct (same_rest_map _ _ (qu_rest _ _ Hq1)) as [Em1 En1]. st_step.
  eapply (install_spec sc G); [exact Hp1|done|done|]. intros s2 Hp2 _ HC0 Hq2.
  destruct (same_rest_map _ _ (qu_rest _ _ Hq2)) as [Em2 En2]. cbn in Em2, En2.
  apply wp_arr_store; [rewrite En2, En1; lia|]. set (s3 := set_in_nvram _ s2).
  assert (forall x, lmap s3 x = if x =? l then new else lmap s0 x) as Hm3.
  { intros. rewrite <- Hm. apply lmap_zset; [|lia]. unfold s3. cbn. by rewrite Em2, Em1. }
  assert (forall x, nvf s3 x = if x =? l then 0 else nvf s0 x) as Hn3.
  { intros. rewrite <- Hnv. apply nvf_zset; [|lia]. unfold s3. cbn. by rewrite En2, En1. }
  assert (nand_log s3 = nand_log s) as Hl3.
  { unfold s3. cbn. rewrite (qu_log _ _ Hq2). cbn. apply Hq1. }
  exists (fadd C1 new 1), (fset V1 new (V1 new + 1)). split; [|split; [exact Hm3|split; [|done]]].
  - eapply (settle_upd sc k (radd R1 l new 1) _ _ L1 A' s0 s3 l new 0); try done.
    + destruct Hp2 as [Hc2 Hl2 Ho2]. constructor; [apply core_nv; exact Hc2|exact Hl2|].
      by apply outer_nv.
    + by rewrite <- Em.
    + intros x q Hq. unfold radd. rewrite HR1, Hm by done.
      rewrite (Z.eqb_sym new q). destruct (x =? l), (q =? new); simpl; lia.
    + intros b Hb. rewrite HL1, Hm, Hnv. destruct (Z.eqb_spec b (-1)); [lia|].
      unfold entry_in at 3. rewrite andb_false_r. simpl. lia.
    + by rewrite Hl3.
  - intros m Hm1 Hsh q Hq. unfold fadd, fset. destruct (Z.eqb_spec q new) as [->|]; [lia|].
    specialize (HC1 q Hq). specialize (Hsh q Hq). lia.
Qed.

(** Page [p] has been programmed for the host, after the reads of what the
    request leaves of an old page. *)
Definition programmed (p : Z) s s' : Prop :=
  exists reads, Forall is_read reads /\ nand_log s' =
    (NandProgram WRITE (flash_of sc p) (block_of sc p) (page_of sc p) :: reads) ++ nand_log s.

(** What a page operation guarantees: the invariant, at most one page taken
    from the allocator, and the shares of every page at most one higher. *)
Lemma ftl_program_page_spec k C V A l left right wn ion s :
  ginv sc k (-1) C V A s -> 0 <= l < N -> 0 < free_pages sc A ->
  wp (ftl_program_page l left right wn ion) (fun r s' => exists t new C' V' A',
     r = inl (t, new) /\ 0 <= new < N /\ ginv sc k (-1) C' V' A' s' /\
     free_pages sc A' = free_pages sc A - 1 /\ (forall x, lmap s x <> new) /\
     (forall x, lmap s' x = if x =? l then new else lmap s x) /\
     (forall m, 1 <= m -> shares sc m C -> shares sc m C') /\ programmed new s s') s.
Proof.
  intros [Hp Hlog] Hl Hfp. unfold ftl_program_page. st_steps.
  eapply (new_page_spec sc G); [exact Hp|done|]. intros new A' s1 Hf Hp1 Hf1.
  destruct (fresh_range sc G _ _ _ Hf) as (Hn & _ & Hfp').
  destruct (fresh_zero sc G _ _ _ _ _ _ _ _ _ _ Hp1 Hf) as [_ HC0].
  pose proof (pi_outer _ _ _ _ _ _ _ _ _ _ Hp1) as [Hz1 Hz1' Hr1 _ _ _ _].
  unfold GET_MAPPING_INFO. st_step. eapply wp_arr_load; [apply lmap_get; lia|]. st_steps.
  eapply wp_CALC_FLASH_core; [apply Hp1|done|]. st_step.
  eapply wp_CALC_BLOCK_core; [apply Hp1|done|]. st_step.
  eapply wp_mono; [eapply wait_for_slot_spec; [exact Hp1|by apply flash_of_range]|].
  intros ? s2 Hi2. cbv beta in Hi2. pose proof (pinv_idle _ _ _ _ _ _ _ _ _ _ _ Hp1 Hi2) as Hp2.
  st_step. eapply wp_CALC_PAGE_core; [apply Hp2|done|]. st_step.
  set (prog := NandProgram WRITE (flash_of sc new) (block_of sc new) (page_of sc new)).
  assert (forall reads t s3,
    pinv sc k (-1) (owner (mapping_table s)) C V (fun b => if b =? -1 then 0 else live sc s b) A' A s3 ->
    booked (prog :: reads) s2 s3 -> Forall is_read reads -> nand_wf sc A (reads ++ nand_log s) ->
    wp (_ ← UPDATE_OLD_PAGE_MAPPING l; _ ← UPDATE_NEW_PAGE_MAPPING l new DATA_BLOCK;
        st_in_nvram l 0;; ctr_add stat_host_write_count 1;;
        mret (inl (t + FING_DELAY, new) : Z * Z + unit))
     (fun r s' => exists t new C' V' A',
       r = inl (t, new) /\ 0 <= new < N /\ ginv sc k (-1) C' V' A' s' /\
       free_pages sc A' = free_pages sc A - 1 /\ (forall x, lmap s x <> new) /\
       (forall x, lmap s' x = if x =? l then new else lmap s x) /\
       (forall m, 1 <= m -> shares sc m C -> shares sc m C') /\ programmed new s s') s3) as Hrest.
  { intros reads t s3 Hp3 Hb3 Hreads Hlog3.
    assert (nand_log s3 = (prog :: reads) ++ nand_log s) as Hl3.
    { by rewrite (bk_log _ _ _ Hb3), (id_log _ _ Hi2), (af_log _ _ Hf1). }
    apply wp_bind_assoc2.
    st_step. eapply wp_mono; [eapply (program_mapping k C V A A' l new s s3); [done| |..]; try done|].
    - etrans; [by apply alloc_frame_map|]. etrans; [apply same_rest_map, Hi2|by eapply booked_map].
    - rewrite Hl3. by apply (fresh_program sc G _ A).
    - intros ? s4 (C' & V' & Hg' & Hm' & Hsh & Hl4). st_steps. eexists _, new, C', V', A'.
      split; [done|]. split; [done|]. split; [eapply ginv_idle; [exact Hg'|idle_tac]|].
      split; [done|]. split; [by eapply (unowned sc); [apply Hp|apply Hp|..]|].
      do 2 (split; [done|]). exists reads. split; [done|]. by etrans; [exact Hl4|]. }
  destruct (negb _ && negb (lmap s1 l =? -1)) eqn:Epart.
  - apply andb_prop in Epart as [_ Ho%negb_true_iff%Z.eqb_neq].
    assert (0 <= lmap s1 l < N) as Hold by (specialize (Hr1 l Hl); lia).
    st_step. eapply wp_CALC_FLASH_core; [apply Hp2|done|]. st_step.
    eapply wp_CALC_BLOCK_core; [apply Hp2|done|]. st_step.
    eapply wp_CALC_PAGE_core; [apply Hp2|done|].
    eapply (pinv_PARTIAL_WRITE sc); [exact Hp2|by apply flash_of_range|]. intros t s3 Hp3 Hb3.
    eapply Hrest; [done|exact Hb3|by repeat constructor|by apply nand_wf_read].
  - eapply (pinv_PAGE_WRITE sc); [exact Hp2|by apply flash_of_range|]. intros t s3 Hp3 Hb3.
    eapply Hrest; [done|exact Hb3|done|exact Hlog].
Qed.

(** *** Remapping *)

(** Page [p] already counts [l] among its owners while the mapping table of
    [s0] does not yet. *)
Record remapping (k : Z) (C V : Z -> Z) A (l p : Z) s0 s : Prop := mk_remapping {
  rm_pinv : pinv sc k (-1) (radd (owner (mapping_table s0)) l p 1) (fadd C p 1)
    (fset V p (V p + 1))
    (fadd (fun b => if b =? -1 then 0 else live sc s0 b) (block_of sc p) 1) A A s;
  rm_map : same_map s0 s;
  rm_log : nand_log s = nand_log s0
}.

Lemma remap_attach_spec k C V A l h Q s :
  ginv sc k (-1) C V A s -> 0 <= h < N -> lmap s h <> -1 -> C (lmap s h) < 127 ->
  (forall s', remapping k C V A l (lmap s h) s s' -> Q s') ->
  wp (INCREASE_INVERSE_MAPPING (lmap s h) l)
     (fun r s' => r = SUCCESS /\ wp (remap_attach (lmap s h)) (fun _ => Q) s') s.
Proof.
  intros [Hp Hlog] Hh Hne HC HQ. destruct (Hp) as [Hc Hl Ho]. set (p := lmap s h) in *.
  assert (0 <= p < N) as Hpr by (pose proof (ou_range _ _ _ _ Ho h Hh); lia).
  pose proof (block_of_range sc G p) as Hb.
  destruct (pinv_owned sc _ _ _ _ _ _ _ _ _ h p Hp Hpr ltac:(lia)) as [HC0 HV].
  { rewrite owner_lmap by (rewrite (ou_map _ _ _ _ Ho); done). fold p. by rewrite Z.eqb_refl. }
  eapply core_INCREASE; [exact Hc|done|done|]. intros s1 Hc1 Hq1. split; [done|].
  unfold remap_attach. st_step. eapply wp_CALC_FLASH_core; [exact Hc1|done|]. st_step.
  eapply wp_CALC_BLOCK_core; [exact Hc1|done|]. st_step.
  eapply wp_CALC_PAGE_core; [exact Hc1|done|]. st_step.
  eapply core_mark_page; [exact Hc1|done|constructor; lia|]. intros s2 Hc2 Hq2. st_step.
  eapply core_oob_valid; [exact Hc2|done|]. intros s3 Hc3 Hq3. st_step.
  assert (quiet s s3) as Hq by (etrans; [exact Hq1|]; by etrans).
  apply HQ. constructor; [|apply same_rest_map, Hq|apply Hq].
  constructor; [exact Hc3|apply vlink_share; [done..|lia|lia]|]. eapply outer_rest; [exact Ho|apply Hq].
Qed.

Lemma remapping_booked k C V A l p s0 s s' :
  remapping k C V A l p s0 s -> booked [] s s' -> remapping k C V A l p s0 s'.
Proof.
  intros [] Hb. constructor; [by eapply pinv_booked|etrans; [done|by eapply booked_map]|].
  rewrite (bk_log _ _ _ Hb). done.
Qed.

Lemma remap_switch_spec k C V A l p s0 s :
  remapping k C V A l p s0 s -> nand_wf sc A (nand_log s0) -> 0 <= l < N -> 0 <= p < N ->
  wp (remap_switch l p) (fun _ s' => exists C' V', ginv sc k (-1) C' V' A s' /\
     nand_log s' = nand_log s0 /\ (forall x, lmap s' x = if x =? l then p else lmap s0 x) /\
     (forall m, shares sc m C -> shares sc (m + 1) C')) s.
Proof.
  intros [Hp [Em En] Hl0] Hlog Hl Hpr. unfold remap_switch.
  pose proof (pi_outer _ _ _ _ _ _ _ _ _ _ Hp) as Ho. destruct (Ho) as [Hz Hz' Hr _ _ _ _].
  assert (forall x, lmap s x = lmap s0 x) as Hm by (intros; unfold lmap; by rewrite Em).
  assert (forall x, nvf s x = nvf s0 x) as Hnv by (intros; unfold nvf; by rewrite En).
  st_step. eapply (drop_spec sc G); [exact Hp|lia|done| |].
  { intros Hne. unfold radd. rewrite <- Em, owner_lmap, !Z.eqb_refl by lia. simpl. by zcase. }
  intros s1 R1 C1 V1 L1 Hp1 Hq1 HR1 HL1 HC1 _.
  destruct (same_rest_map _ _ (qu_rest _ _ Hq1)) as [Em1 En1]. st_step.
  apply wp_arr_store; [rewrite Em1; lia|]. apply wp_arr_store; [cbn; rewrite En1; lia|].
  cbn [in_nvram set_mapping_table]. set (s2 := set_mapping_table _ s1).
  set (s3 := set_in_nvram _ s2).
  assert (forall x, lmap s3 x = if x =? l then p else lmap s0 x) as Hm3.
  { intros. rewrite <- Hm. apply lmap_zset; [|lia]. unfold s3. cbn. by rewrite Em1. }
  assert (forall x, nvf s3 x = if x =? l then 1 else nvf s0 x) as Hn3.
  { intros. rewrite <- Hnv. apply nvf_zset; [|lia]. unfold s3. cbn. by rewrite En1. }
  assert (nand_log s3 = nand_log s0) as Hl3 by (cbn; by rewrite (qu_log _ _ Hq1), Hl0).
  exists C1, V1. split; [|do 2 (split; [done|])].
  - eapply (settle_upd sc k R1 C1 V1 L1 A s0 s3 l p 1); try done.
    + destruct Hp1 as [Hc1 Hl1 Ho1]. constructor; [by apply core_nv, core_map|done|].
      apply (outer_nv sc _ _ s2). apply outer_map; [done..|lia].
    + by rewrite <- Em.
    + intros x q Hq. rewrite HR1 by done. unfold radd. rewrite Hm, (Z.eqb_sym p q).
      destruct (x =? l), (q =? p); simpl; lia.
    + intros b Hb. rewrite HL1, Hm, Hnv. unfold fadd, fset.
      unfold entry_in at 3. rewrite andb_true_r, (Z.eqb_sym (block_of sc p) b).
      destruct (Z.eqb_spec p (-1)); [lia|]. destruct (Z.eqb_spec b (-1)); [lia|].
      destruct (Z.eqb_spec b (block_of sc p)) as [->|]; simpl; [|lia].
      destruct (Z.eqb_spec (block_of sc p) (-1)); [lia|]. lia.
    + by rewrite Hl3.
  - intros m Hsh q Hq. specialize (HC1 q Hq). specialize (Hsh q Hq).
    unfold fadd, fset in HC1. destruct (Z.eqb_spec q p); subst; lia.
Qed.

(** The mapping after [l] has been remapped to the page of [h], which is
    released when [move]. *)
Definition remapped (move : bool) (l h : Z) s s' : Prop :=
  nand_log s' = nand_log s /\ forall x, lmap s' x = if move && (x =? h) then -1 else if x =? l then lmap s h else lmap s x.

Lemma ftl_remap_page_spec k C V A fl l h s :
  ginv sc k (-1) C V A s -> 0 <= l < N -> 0 <= h < N -> lmap s h <> -1 -> C (lmap s h) < 127 ->
  wp (ftl_remap_page fl l h (lmap s h)) (fun _ s' => exists C' V', ginv sc k (-1) C' V' A s' /\
     remapped (fl =? FS_GC_WRITE) l h s s' /\ (forall m, shares sc m C -> shares sc (m + 1) C')) s.
Proof.
  intros Hg Hl Hh Hne HC. unfold ftl_remap_page. st_step.
  assert (0 <= lmap s h < N) as Hpr.
  { pose proof (ou_range _ _ _ _ (pi_outer _ _ _ _ _ _ _ _ _ _ (gi_pinv _ _ _ _ _ _ _ Hg)) h Hh). lia. }
  eapply wp_mono; [eapply (remap_attach_spec k C V A l h (remapping k C V A l (lmap s h) s)); done|].
  intros r s1 [-> Hatt]. simpl (negb _). cbv iota. st_step. eapply wp_mono; [exact Hatt|].
  intros ? s2 Hr2. cbv beta in Hr2. st_step. eapply wp_CALC_BLOCK_core; [apply Hr2|done|]. st_step.
  eapply (pinv_NVRAM_TS sc); [apply Hr2|by apply block_of_range|]. intros t s3 _ Hb3.
  pose proof (remapping_booked _ _ _ _ _ _ _ _ _ Hr2 Hb3) as Hr3. st_step.
  eapply wp_mono; [eapply remap_switch_spec; [exact Hr3|apply Hg|done|done]|].
  intros ? s4 (C4 & V4 & Hg4 & Hl4 & Hm4 & Hsh4). st_step.
  assert (forall s5 C5 V5, ginv sc k (-1) C5 V5 A s5 -> remapped (fl =? FS_GC_WRITE) l h s s5 ->
    (forall m, shares sc m C -> shares sc (m + 1) C5) ->
    wp (ctr_add stat_remap_cnt 1;; ctr_add stat_reduced_write 1;;
        (if fl =? DEDUP_WRITE then ctr_add stat_host_write_count 1 else mret tt);;
        mret (if fl =? DEDUP_WRITE then t + FING_DELAY else t))
      (fun _ s' => exists C' V', ginv sc k (-1) C' V' A s' /\
        remapped (fl =? FS_GC_WRITE) l h s s' /\ (forall m, shares sc m C -> shares sc (m + 1) C')) s5) as Hend.
  { intros s5 C5 V5 Hg5 Hm5 Hsh5. st_steps. destruct (fl =? DEDUP_WRITE); st_steps;
      exists C5, V5; (split; [eapply ginv_idle; [exact Hg5|idle_tac]|done]). }
  destruct (fl =? FS_GC_WRITE) eqn:Ef.
  - eapply wp_mono; [by eapply release_lpn_spec|]. intros ? s5 (C5 & V5 & Hg5 & Hm5 & HC5 & Hl5).
    eapply Hend; [exact Hg5| |].
    + split; [congruence|]. intros x. rewrite Hm5, Hm4. by destruct (x =? h).
    + intros m Hm q Hq. specialize (HC5 q Hq). specialize (Hsh4 m Hm q Hq). lia.
  - st_step. eapply Hend; [exact Hg4|by split|exact Hsh4].
Qed.

Lemma USE_REMAP_ginv k C V A b s :
  ginv sc (k + BLOCK_NB sc + 1) (-1) C V A s -> 0 <= k -> 0 <= b < BLOCK_NB sc ->
  wp (USE_REMAP b) (fun r s' => ginv sc k (-1) C V A s' /\ still s s' /\
     (r = FAIL \/ r = SUCCESS /\ oob_room b s')) s.
Proof.
  intros Hg Hk Hb. pose proof (gi_pinv _ _ _ _ _ _ _ Hg) as [[] _ _]. eapply wp_mono.
  - apply (USE_REMAP_spec (BLOCK_NB sc) (fun b => if b =? -1 then 0 else live sc s b) b k);
      rewrite ?co_params; try done.
    intros x Hx. zcase. apply live_nonneg.
  - intros r s' (Hf & Ho & Hbud & Hr).
    split; [|split; [constructor; [apply same_rest_map, Hf|apply Hf]|done]].
    eapply ginv_rest; [exact Hg|apply Hf| |].
    + destruct Hf. constructor; try done; rewrite ?nf_inv, ?nf_bst; try done.
      * by rewrite (sm_params _ _ nf_rest).
      * by eapply same_rest_timing.
      * eapply stat_rep_ctrs; [|exact co_stat]. intros q Hq. apply nf_ctrs. by destruct q.
    + rewrite (nf_log _ _ Hf). apply Hg.
Qed.

Lemma sim_remapped St move l h s s' :
  sim sc o St s -> 0 <= h < N -> remapped move l h s s' ->
  sim sc o (if move then put (put St l (St h)) h None else put St l (St h)) s'.
Proof.
  intros (D & He & HD) Hh [Hlog Hm]. exists D. split; [by eapply evolved_trans; [|apply evolved_quiet]|].
  intros x Hx. rewrite Hm.
  destruct move; unfold put; simpl; [destruct (x =? h); [done|]|]; destruct (x =? l); by rewrite HD.
Qed.

(** *** One page of a write *)

(** The metadata of page [i] names a page of the device. *)
Definition info_ok (info : list lpn_info) (i : Z) : Prop :=
  exists li, zget info i = Some li /\ (0 < h_lpn li -> h_lpn li < N).

(** A page of the request has been handled: it was not a failure, at most one
    page was allocated, and the store made the step of [page_write]. *)
Definition page_done (k : Z) (C : Z -> Z) A (St : store) (v : Z) (li : lpn_info) (l : Z)
  (r : Z * Z + unit) s' : Prop :=
  exists t np C' V' A' St', r = inl (t, np) /\ -1 <= np < N /\ ginv sc k (-1) C' V' A' s' /\
    free_pages sc A - 1 <= free_pages sc A' <= free_pages sc A /\
    (forall m, 1 <= m -> shares sc m C -> shares sc (m + b2z (remap_flag (flag li))) C') /\
    page_write v li l St St' /\ sim sc o St' s'.

Lemma write_page_program k C V A St v li l left right wn ion s :
  ginv sc k (-1) C V A s -> sim sc o St s -> 0 <= l < N -> 0 < free_pages sc A ->
  wp (ftl_program_page l left right wn ion) (page_done k C A St v li l) s.
Proof.
  intros Hg Hsim Hl Hfp. eapply wp_mono; [by eapply ftl_program_page_spec|].
  intros r s' (t & new & C' & V' & A' & -> & Hn & Hg' & Hf & Hun & Hm & Hsh & reads & Hr & Hlog).
  exists t, new, C', V', A', (put St l (Some v)). split; [done|]. split; [lia|]. split; [done|].
  split; [lia|]. split.
  { intros m H1 H2 q Hq. specialize (Hsh m H1 H2 q Hq). destruct (remap_flag _); simpl; lia. }
  split; [by constructor|]. eapply (sim_write sc o St s s' l new v); [done|exact Hsim|lia|exact Hun|exact Hm|exact Hlog|done..].
Qed.

Lemma write_page_remap k C V A St v li l np s :
  ginv sc k (-1) C V A s -> sim sc o St s -> 0 <= l < N -> 0 < h_lpn li < N ->
  lmap s (h_lpn li) <> -1 -> remap_flag (flag li) = true -> -1 <= np < N -> shares sc 126 C ->
  wp (cur ← ftl_remap_page (flag li) l (h_lpn li) (lmap s (h_lpn li)); mret (inl (cur, np)))
     (page_done k C A St v li l) s.
Proof.
  intros Hg Hsim Hl Hh Hne Hfl Hnp Hsh. st_step.
  pose proof (ou_range _ _ _ _ (pi_outer _ _ _ _ _ _ _ _ _ _ (gi_pinv _ _ _ _ _ _ _ Hg)) (h_lpn li)
    ltac:(lia)) as Hr.
  specialize (Hsh (lmap s (h_lpn li)) ltac:(lia)).
  eapply wp_mono; [eapply ftl_remap_page_spec; try done; lia|].
  intros t s' (C' & V' & Hg' & Hm & Hsh'). st_step.
  pose proof (sim_remapped St _ l (h_lpn li) s s' Hsim ltac:(lia) Hm) as Hsim'.
  assert (St (h_lpn li) <> None) as HSt by (rewrite (sim_mapped sc o _ s); [done|done|lia]).
  eexists t, np, C', V', A, _. split; [done|]. split; [done|]. split; [done|]. split; [lia|].
  split; [rewrite Hfl; simpl; auto|]. split; [|exact Hsim'].
  unfold remap_flag in Hfl. rewrite !orb_true_iff, !Z.eqb_eq in Hfl.
  destruct Hfl as [[E|E]|E]; rewrite E; cbn; constructor; try done; try lia; auto.
Qed.

Lemma ftl_write_page_spec k C V A St v info li ion np x s :
  ginv sc (k + BLOCK_NB sc + 1) (-1) C V A s -> 0 <= k -> sim sc o St s ->
  let l := Z.quot (lba x) (SECTORS_PER_PAGE sc) in
  0 <= l < N -> zget info (page_no x) = Some li -> (0 < h_lpn li -> h_lpn li < N) ->
  -1 <= np < N -> 0 < free_pages sc A -> (remap_flag (flag li) = true -> shares sc 126 C) ->
  wp (ftl_write_page info (SECTORS_PER_PAGE sc) ion np x) (page_done k C A St v li l) s.
Proof.
  intros Hg Hk Hsim l Hl Hli Hh Hnp Hfp Hsh.
  pose proof (pi_outer _ _ _ _ _ _ _ _ _ _ (gi_pinv _ _ _ _ _ _ _ Hg)) as [Hz _ Hr _ _ _ _].
  unfold ftl_write_page. fold l. st_step. eapply wp_idx; [exact Hli|]. st_step.
  apply (wp_mono _ (fun r s' => s' = s /\ r = if 0 <? h_lpn li then lmap s (h_lpn li) else -1)).
  { destruct (Z.ltb_spec 0 (h_lpn li)); [|by st_step].
    by eapply wp_arr_load; [apply lmap_get; specialize (Hh ltac:(lia)); lia|]. }
  intros hp s0 [-> Ehp]. st_step.
  assert (hp <> -1 -> 0 < h_lpn li < N /\ hp = lmap s (h_lpn li) /\ 0 <= hp < N) as Hhp.
  { rewrite Ehp. destruct (Z.ltb_spec 0 (h_lpn li)); [|done]. intros Hne. specialize (Hh ltac:(lia)).
    specialize (Hr (h_lpn li) ltac:(lia)). lia. }
  apply (wp_mono _ (fun r s' => ginv sc k (-1) C V A s' /\ still s s' /\
    (r = FAIL \/ r = SUCCESS /\ remap_flag (flag li) = true /\ hp <> -1))).
  { destruct (remap_flag (flag li) && negb (hp =? -1)) eqn:Eu.
    - apply andb_prop in Eu as [Efl Hne%negb_true_iff%Z.eqb_neq]. st_step.
      eapply wp_CALC_BLOCK_core; [apply Hg|by apply Hhp|].
      eapply wp_mono; [apply (USE_REMAP_ginv k C V A); [done..|by apply block_of_range]|].
      intros r s1 (Hg1 & Hm1 & [->|[-> _]]); (split; [done|]; split; [done|]; auto).
    - st_step. split; [|split; [done|by left]]. eapply ginv_le; [|exact Hg]. pose proof (g_block _ G). lia. }
  intros use s1 (Hg1 & Hm1 & Huse). st_step.
  pose proof (sim_still sc o St _ _ Hm1 Hsim) as Hsim1.
  apply (wp_mono _ (page_done k C A St v li l)).
  - destruct Huse as [->|(-> & Hfl & Hne)]; simpl (_ =? _); cbv iota.
    + by eapply write_page_program.
    + destruct (Hhp Hne) as (Hhr & E & Hpr). rewrite E, <- (same_map_lmap _ _ (st_same_map _ _ Hm1)) in *.
      eapply write_page_remap; try done. by apply Hsh.
  - intros r s2 (t & np' & C2 & V2 & A2 & St2 & -> & Hnp2 & Hg2 & Hf2 & Hsh2 & Hpw & Hs2). st_step.
    eapply wp_mono; [apply stat_tick_spec|]. intros ? s3 Hi3. cbv beta in Hi3. st_step.
    exists t, np', C2, V2, A2, St2. do 2 (split; [done|]). split; [by eapply ginv_idle|].
    do 3 (split; [done|]). by eapply sim_still; [apply idle_still, Hi3|].
Qed.

(** *** The pages of a request *)

Local Abbreviation spp := (SECTORS_PER_PAGE sc).

Record span_ok (x : span) : Prop := mk_span_ok {
  so_left : 0 <= left_skip x < spp;
  so_remain : 0 <= remain x < 2 ^ 32;
  so_lba : 0 <= lba x;
  so_align : 0 < remain x -> lba x mod spp = left_skip x;
  so_end : lba x + remain x <= SECTOR_NB sc
}.

Definition span_pages (x : span) : Z :=
  if remain x =? 0 then 0 else pages_spanned spp (left_skip x) (remain x).

Lemma span_pages_nonneg x : span_ok x -> 0 <= span_pages x.
Proof.
  intros []. unfold span_pages, pages_spanned. zcase. apply Z.div_pos; lia.
Qed.

Lemma span_lpn x : span_ok x -> 0 < remain x -> 0 <= Z.quot (lba x) spp < N.
Proof.
  intros [] Hr. rewrite Z.quot_div_nonneg by lia. rewrite (g_sectors _ G) in so_end0.
  split; [apply Z.div_pos; lia|]. apply Z.div_lt_upper_bound; unfold pages; lia.
Qed.

Lemma span_next x t :
  span_ok x -> 0 < remain x -> let x' := next_span spp x t in
  span_ok x' /\ span_pages x = span_pages x' + 1 /\ 0 <= remain x' < remain x /\
  (0 < remain x' -> Z.quot (lba x') spp = Z.quot (lba x) spp + 1).
Proof.
  intros [] Hr x'. pose proof (g_spp _ G) as Hspp. specialize (so_align0 Hr).
  assert (sects_of spp (left_skip x) (remain x) = Z.min (spp - left_skip x) (remain x)) as Hs
    by (apply sects_of_min; lia).
  assert (remain x' = remain x - Z.min (spp - left_skip x) (remain x)) as Er.
  { unfold x', next_span. cbn [remain]. rewrite Hs, u32_small; lia. }
  assert (lba x' = lba x + Z.min (spp - left_skip x) (remain x)) as El
    by (unfold x', next_span; cbn [lba]; by rewrite Hs).
  assert (0 < remain x' -> lba x' = (lba x / spp + 1) * spp) as Ea.
  { intros Hr'. rewrite El. pose proof (Z.div_mod (lba x) spp ltac:(lia)). lia. }
  assert (left_skip x' = 0) as E0 by done.
  split; [constructor|split; [|split; [lia|]]].
  - rewrite E0. lia.
  - lia.
  - lia.
  - intros Hr'. rewrite (Ea Hr'), E0. apply Z.mod_mul. lia.
  - lia.
  - unfold span_pages. rewrite E0, Er. destruct (Z.eqb_spec (remain x) 0); [lia|].
    by rewrite pages_spanned_step by lia.
  - intros Hr'. rewrite !Z.quot_div_nonneg by lia. rewrite (Ea Hr'). by rewrite Z.div_mul by lia.
Qed.

(** *** The write loop *)

(** The pages of a request that may be remapped. *)
Fixpoint remap_count (info : list lpn_info) (n : nat) (i : Z) : Z :=
  match n with
  | O => 0
  | S n' =>
      match zget info i with Some li => b2z (remap_flag (flag li)) | None => 0 end
      + remap_count info n' (i + 1)
  end.

Lemma remap_count_range info n i : 0 <= remap_count info n i <= Z.of_nat n.
Proof.
  revert i. induction n as [|n IH]; intros i; cbn [remap_count]; [lia|]. specialize (IH (i + 1)).
  destruct (zget info i) as [li|]; [|lia]. destruct (remap_flag _); simpl; lia.
Qed.

Definition pages_done (k : Z) (C : Z -> Z) A (St : store) (ver : Z -> Z) (info : list lpn_info)
  (n i l : Z) (r : Z * Z + unit) s' : Prop :=
  exists t np C' V' A' St', r = inl (t, np) /\ -1 <= np < N /\
    ginv sc (k + used sc A') (-1) C' V' A' s' /\
    free_pages sc A - n <= free_pages sc A' <= free_pages sc A /\
    (forall m, 1 <= m -> shares sc m C -> shares sc (m + remap_count info (Z.to_nat n) i) C') /\
    pages_write ver info (Z.to_nat n) i l St St' /\ sim sc o St' s'.

Lemma pages_done_nil k C V A St ver info i l t np s :
  ginv sc (k + used sc A) (-1) C V A s -> sim sc o St s -> -1 <= np < N ->
  pages_done k C A St ver info 0 i l (inl (t, np)) s.
Proof.
  intros Hg Hsim Hnp. exists t, np, C, V, A, St. do 3 (split; [done|]). split; [lia|].
  split; [intros m _; by rewrite Z.add_0_r|]. split; [constructor|done].
Qed.

Lemma pages_write_cons ver info n i l l' li St St1 St2 :
  zget info i = Some li -> page_write (ver i) li l St St1 ->
  pages_write ver info n (i + 1) l' St1 St2 -> (n <> O -> l' = l + 1) ->
  pages_write ver info (S n) i l St St2.
Proof.
  intros Hli Hp Hps Hl. econstructor; [done..|]. destruct n; [|by rewrite Hl in Hps].
  inversion Hps. constructor.
Qed.

Lemma ftl_write_loop_spec fuel k C V A St ver info ion np x s :
  span_ok x -> (Z.to_nat (remain x) <= fuel)%nat ->
  ginv sc (k + span_pages x * (BLOCK_NB sc + 2) + used sc A) (-1) C V A s -> 0 <= k -> sim sc o St s ->
  (forall i, page_no x <= i < page_no x + span_pages x -> info_ok info i) ->
  -1 <= np < N -> span_pages x <= free_pages sc A ->
  shares sc (127 - remap_count info (Z.to_nat (span_pages x)) (page_no x)) C ->
  remap_count info (Z.to_nat (span_pages x)) (page_no x) <= 126 ->
  wp (ftl_write_loop fuel info spp ion np x)
     (pages_done k C A St ver info (span_pages x) (page_no x) (Z.quot (lba x) spp)) s.
Proof.
  revert C V A St np x s.
  induction fuel as [|fuel IH]; intros C V A St np x s Hx Hfuel Hg Hk Hsim Hinfo Hnp Hfp Hsh Hmax;
    cbn [ftl_write_loop]; pose proof (so_remain _ Hx); destruct (Z.eqb_spec (remain x) 0) as [E|E];
    try (unfold span_pages in *; rewrite E in *; change (0 =? 0) with true in *; cbv iota in *; st_step;
      rewrite Z.mul_0_l, Z.add_0_r in Hg; by eapply pages_done_nil); [lia|].
  destruct (span_next x 0 Hx ltac:(lia)) as (_ & Hn & _). 
  assert (0 <= span_pages (next_span spp x 0)) as Hn0 by (apply span_pages_nonneg, span_next; [done|lia]).
  destruct (Hinfo (page_no x)) as (li & Hli & Hh); [lia|]. st_step. pose proof (g_block _ G).
  pose proof (free_pages_le sc G _ _ _ _ _ _ Hg) as Hfl.
  set (n := span_pages x) in *.
  assert (remap_count info (Z.to_nat n) (page_no x) = b2z (remap_flag (flag li)) +
    remap_count info (Z.to_nat (n - 1)) (page_no x + 1)) as Hrc.
  { replace (Z.to_nat n) with (S (Z.to_nat (n - 1))) by lia. cbn [remap_count]. by rewrite Hli. }
  pose proof (remap_count_range info (Z.to_nat (n - 1)) (page_no x + 1)) as Hrr.
  eapply wp_mono.
  { apply (ftl_write_page_spec (k + (n - 1) * (BLOCK_NB sc + 2) + used sc A + 1) C V A St (ver (page_no x)) info li);
      try done.
    - replace (_ + BLOCK_NB sc + 1) with (k + n * (BLOCK_NB sc + 2) + used sc A) by lia. done.
    - unfold used. nia.
    - apply span_lpn; [done|lia].
    - lia.
    - intros Hflag q Hq. specialize (Hsh q Hq). rewrite Hflag in Hrc. simpl in Hrc. lia. }
  intros r s1 (t & np1 & C1 & V1 & A1 & St1 & -> & Hnp1 & Hg1 & Hf1 & Hsh1 & Hpw1 & Hsim1).
  destruct (span_next x t Hx ltac:(lia)) as (Hx' & Hn' & Hr' & Hl').
  set (x' := next_span spp x t) in *. eapply wp_mono.
  { apply (IH C1 V1 A1 St1 np1 x'); try done; try lia.
    - eapply ginv_le; [|exact Hg1]. unfold used. nia.
    - intros i Hi. apply Hinfo. change (page_no x') with (page_no x + 1) in Hi. lia.
    - change (page_no x') with (page_no x + 1). replace (span_pages x') with (n - 1) by lia.
      replace (127 - _) with (127 - remap_count info (Z.to_nat n) (page_no x) +
        b2z (remap_flag (flag li))) by lia. apply Hsh1; [lia|done].
    - change (page_no x') with (page_no x + 1). replace (span_pages x') with (n - 1) by lia.
      destruct (remap_flag (flag li)); simpl in Hrc; lia. }
  intros r s2 (t2 & np2 & C2 & V2 & A2 & St2 & -> & Hnp2 & Hg2 & Hf2 & Hsh2 & Hpw2 & Hsim2).
  exists t2, np2, C2, V2, A2, St2. do 3 (split; [done|]). split; [lia|].
  split; [|split; [|done]].
  - intros m Hm Hs. rewrite Hrc, Z.add_assoc. replace (n - 1) with (span_pages x') by lia.
    apply Hsh2; [destruct (remap_flag _); simpl; lia|]. by apply Hsh1.
  - replace (Z.to_nat n) with (S (Z.to_nat (span_pages x'))) by lia.
    eapply pages_write_cons; [exact Hli|exact Hpw1|exact Hpw2|]. intros Hne. apply Hl'.
    destruct (Z.eqb_spec (remain x') 0) as [E'|]; [|lia]. unfold span_pages in Hne. by rewrite E' in Hne.
Qed.

(** *** Requests *)

Lemma left_skip_mod sector : 0 <= sector -> left_skip_of spp sector = sector mod spp.
Proof.
  intros Hs. pose proof (g_spp _ G). unfold left_skip_of. rewrite Z.rem_mod_nonneg by lia.
  pose proof (Z.mod_pos_bound sector spp ltac:(lia)). apply u32_small. lia.
Qed.

Lemma ALLOC_IO_REQUEST_spec sector length ty s :
  ssdparams s = sc -> 0 <= sector -> 0 <= length < 2 ^ 32 ->
  wp (ALLOC_IO_REQUEST sector length ty) (fun _ s' => idle s s') s.
Proof.
  intros Hsc Hs Hl. pose proof (g_spp _ G) as Hspp. unfold ALLOC_IO_REQUEST, get_usec. st_steps.
  cbn [ssdparams set_clock_reads]. rewrite Hsc. destruct (Z.eqb_spec spp 0); [lia|].
  rewrite left_skip_mod by done.
  rewrite count_pages_spanned; [|lia|apply Z.mod_pos_bound; lia|lia|lia].
  st_steps. cbn [io_requests set_clock_reads].
  match goal with |- idle s ?x => set (s' := x) end.
  destruct (io_requests s); [destruct (_ =? 0)|]; unfold s'; idle_tac.
Qed.

Definition write_span (sector length : Z) : span :=
  mk_span sector length (left_skip_of spp sector) 0 0.

Lemma write_span_ok sector length :
  0 <= sector -> 0 <= length < 2 ^ 32 -> sector + length <= SECTOR_NB sc ->
  span_ok (write_span sector length).
Proof.
  intros Hs Hl Hend. pose proof (g_spp _ G) as Hspp. unfold write_span.
  rewrite left_skip_mod by done.
  constructor; cbn; try done. apply Z.mod_pos_bound. lia.
Qed.

Lemma ftl_write_stats_spec k C V A length t s :
  ginv sc (k + 1) (-1) C V A s -> 0 <= k ->
  wp (ftl_write_stats length t) (fun _ s' => ginv sc k (-1) C V A s' /\ still s s') s.
Proof.
  intros Hg Hk. unfold ftl_write_stats.
  destruct (co_bud _ _ _ _ _ _ _ (pi_core _ _ _ _ _ _ _ _ _ _ (gi_pinv _ _ _ _ _ _ _ Hg))
    stat_write_req_print) as [? ?]; [done|].
  st_steps. simpl ctr_wrap. rewrite u32_small by lia.
  destruct (Z.eqb_spec (ctrs s stat_write_req_print + 1) 0); [lia|]. st_steps.
  assert (forall s', spent s s' -> ginv sc k (-1) C V A s' /\ still s s') as Hend.
  { intros s' Hs. split; [|by apply spent_still]. eapply ginv_rest; [exact Hg|apply Hs| |].
    - eapply core_spent; [apply Hg|done|exact Hs].
    - rewrite (sp_log _ _ Hs). apply Hg. }
  destruct (u64 t <? _); st_steps; destruct (_ <? u64 t); st_steps; apply Hend;
    spent_tac stat_write_req_print.
Qed.

Lemma INCREASE_SEQ_spec s : wp INCREASE_IO_REQUEST_SEQ_NB (fun _ s' => idle s s') s.
Proof. unfold INCREASE_IO_REQUEST_SEQ_NB. st_steps. destruct (_ =? _); st_steps; idle_tac. Qed.

(** A request the device accepts, on [n] pages. *)
Record request_ok (request1 : request_meta) (n : Z) : Prop := mk_request_ok {
  rq_sector : 0 <= req_sector_nb request1;
  rq_length : 0 <= req_length request1 < 2 ^ 32;
  rq_end : req_sector_nb request1 + req_length request1 <= SECTOR_NB sc;
  rq_pages : span_pages (write_span (req_sector_nb request1) (req_length request1)) = n;
  rq_info : forall i, 0 <= i < n -> info_ok (lpns_info request1) i
}.

Definition request_remaps (request1 : request_meta) (n : Z) : Z :=
  remap_count (lpns_info request1) (Z.to_nat n) 0.

(** The metadata of the whole request is used in order. *)
Definition request_write (ver : Z -> Z) (request1 : request_meta) (n : Z) (St St' : store) : Prop :=
  pages_write ver (lpns_info request1) (Z.to_nat n) 0
    (Z.quot (req_sector_nb request1) spp) St St'.

(** The end of a write: statistics, then garbage collection. *)
Lemma write_finish k C V A St m length curtime t np s :
  ginv sc (k + 2 + used sc A) (-1) C V A s -> 0 <= k -> sim sc o St s -> shares sc m C -> 0 <= m ->
  -1 <= np < N -> F * P - 1 <= free_pages sc A ->
  wp (ftl_write_stats length t;;
      b ← gets blocking_to;
      (if curtime <? b then ctr_add nb_blocked_writes 1 else mret tt);;
      INCREASE_IO_REQUEST_SEQ_NB;;
      (if 0 <? np then
         flash ← CALC_FLASH np; block ← CALC_BLOCK np; GC_CHECK flash block
       else mret tt);;
      mret t)
     (fun _ s' => exists A', ssd_inv sc k m A' s' /\ free_pages sc A <= free_pages sc A' /\
        sim sc o St s') s.
Proof.
  intros Hg Hk Hsim Hsh Hm Hnp Hfree. st_step. pose proof (free_pages_le sc G _ _ _ _ _ _ Hg) as Hfl.
  eapply wp_mono; [apply (ftl_write_stats_spec (k + 1 + used sc A) C V A); unfold used in *; [|lia]|].
  { by replace (k + 1 + (N - free_pages sc A) + 1) with (k + 2 + (N - free_pages sc A)) by lia. }
  intros ? s1 [Hg1 Hm1]. st_steps.
  apply (wp_mono _ (fun _ s' => idle s1 s')); [destruct (curtime <? _); st_steps; [idle_tac|done]|].
  intros ? s2 Hi2. cbv beta in Hi2. st_step. eapply wp_mono; [apply INCREASE_SEQ_spec|].
  intros ? s3 Hi3. cbv beta in Hi3. assert (idle s1 s3) as Hi by (by etrans).
  pose proof (ginv_idle _ _ _ _ _ _ _ _ Hg1 Hi) as Hg3.
  assert (sim sc o St s3) as Hsim3.
  { eapply sim_still; [|exact Hsim]. etrans; [exact Hm1|by apply idle_still]. }
  st_step. destruct (Z.ltb_spec 0 np).
  - st_step. eapply wp_CALC_FLASH_core; [apply Hg3|lia|]. st_step.
    eapply wp_CALC_BLOCK_core; [apply Hg3|lia|].
    eapply wp_mono; [apply (GC_CHECK_spec sc G (k + 1) C V A); [exact Hg3|lia|done]|].
    intros ? s4 (C4 & V4 & A4 & Hg4 & Hr4 & Hf4 & _). st_step. exists A4. split; [|split; [done|]].
    + exists C4, V4. split; [eapply ginv_le; [|exact Hg4]; unfold used; lia|]. eapply shares_relocated; [exact Hg3|exact Hg4|exact Hr4|done|done].
    + by eapply sim_relocated.
  - do 2 st_step. exists A. split; [|done]. exists C, V. split; [|done].
    eapply ginv_le; [|exact Hg3]. lia.
Qed.

Lemma _FTL_WRITE_spec k m n A St ver request1 s :
  ssd_inv sc (k + n * (BLOCK_NB sc + 2) + 2) m A s -> 0 <= k -> sim sc o St s ->
  request_ok request1 n -> n + F * P - 1 <= free_pages sc A ->
  1 <= m -> m + request_remaps request1 n <= 127 ->
  wp (_FTL_WRITE request1) (fun _ s' => exists A' St',
    ssd_inv sc k (m + request_remaps request1 n) A' s' /\ free_pages sc A - n <= free_pages sc A' /\
    request_write ver request1 n St St' /\ sim sc o St' s') s.
Proof.
  intros (C & V & Hg & Hsh) Hk Hsim [Hs Hlen Hend Hn Hinfo] Hfree Hm1 Hm.
  pose proof (write_span_ok _ _ Hs Hlen Hend) as Hx.
  pose proof (pinv_params _ _ _ _ _ _ _ _ _ _ (gi_pinv _ _ _ _ _ _ _ Hg)) as Hsc.
  pose proof (span_pages_nonneg _ Hx) as Hn0. rewrite Hn in Hn0.
  unfold _FTL_WRITE, get_usec. st_steps. rewrite Hsc.
  apply (wp_mono _ (fun _ s' => idle s s')); [destruct (_ =? 0); st_steps; idle_tac|].
  intros ? s1 Hi1. cbv beta in Hi1. destruct (Z.ltb_spec (SECTOR_NB sc)
    (req_sector_nb request1 + req_length request1)); [lia|]. st_step.
  eapply wp_mono; [apply ALLOC_IO_REQUEST_spec; [|done..]|].
  { by rewrite (sm_params _ _ (id_rest _ _ Hi1)). }
  intros al s2 Hi2. cbv beta in Hi2. st_steps. name_state s3.
  assert (idle s s3) as Hi3 by (etrans; [exact Hi1|]; etrans; [exact Hi2|]; unfold s3; idle_tac).
  set (x := write_span (req_sector_nb request1) (req_length request1)) in *.
  eapply wp_mono.
  { apply (ftl_write_loop_spec (Z.to_nat (req_length request1)) (k + 2) C V A St ver
      (lpns_info request1) al.2 (-1) x); try done; try lia; rewrite ?Hn; try lia.
    - replace (k + 2 + n * (BLOCK_NB sc + 2)) with (k + n * (BLOCK_NB sc + 2) + 2) by lia.
      by eapply ginv_idle.
    - eapply sim_still; [apply idle_still, Hi3|done].
    - intros i Hi. apply Hinfo. cbn in Hi. lia.
    - pose proof (pages_bound sc G). lia.
    - pose proof (g_flash _ G). pose proof (g_page _ G). nia.
    - intros q Hq. specialize (Hsh q Hq). unfold request_remaps in Hm. cbn [page_no x write_span]. lia.
    - unfold request_remaps in Hm. cbn [page_no x write_span]. lia. }
  intros r s4 (t & np & C4 & V4 & A4 & St4 & -> & Hnp & Hg4 & Hf4 & Hsh4 & Hpw & Hsim4).
  rewrite Hn in *. eapply wp_mono.
  { pose proof (remap_count_range (lpns_info request1) (Z.to_nat n) 0).
    eapply (write_finish k C4 V4 A4 St4 (m + request_remaps request1 n)); unfold request_remaps;
      [done..| |lia|done|lia]. by apply Hsh4. }
  intros ? s5 (A5 & Hinv5 & Hf5 & Hsim5). exists A5, St4. split; [done|]. split; [lia|done].
Qed.

(** *** Reads *)

(** The command that reads logical page [l]. *)
Definition read_cmd s (l : Z) : nand_cmd :=
  let p := if lmap s l =? -1 then 0 else lmap s l in
  NandRead (flash_of sc p) (block_of sc p) (page_of sc p).

(** The commands of [n] pages, the last one first. *)
Fixpoint read_cmds s (n : nat) (l : Z) : list nand_cmd :=
  match n with O => [] | S m => read_cmds s m (l + 1) ++ [read_cmd s l] end.

Lemma read_cmds_read s n l : Forall is_read (read_cmds s n l).
Proof. revert l. induction n as [|n IH]; intros l; [done|]. apply Forall_app. by split; [|repeat constructor]. Qed.

Lemma nand_wf_reads A s n l log : nand_wf sc A log -> nand_wf sc A (read_cmds s n l ++ log).
Proof.
  revert l log. induction n as [|n IH]; intros l log Hl; [done|]. cbn [read_cmds].
  rewrite <- app_assoc. apply IH. by apply nand_wf_read.
Qed.

Definition read_done (k : Z) (C V : Z -> Z) A s (cmds : list nand_cmd) s' : Prop :=
  ginv sc k (-1) C V A s' /\ same_map s s' /\ nand_log s' = cmds ++ nand_log s.

Lemma ftl_read_page_spec k C V A l rn ion s :
  ginv sc k (-1) C V A s -> 0 <= l < N ->
  wp (ftl_read_page l rn ion) (fun _ s' => read_done k C V A s [read_cmd s l] s') s.
Proof.
  intros Hg Hl. pose proof (pi_outer _ _ _ _ _ _ _ _ _ _ (gi_pinv _ _ _ _ _ _ _ Hg)) as [Hz _ Hr _ _ _ _].
  unfold ftl_read_page, GET_MAPPING_INFO. st_step. eapply wp_arr_load; [apply lmap_get; lia|].
  set (p := if lmap s l =? -1 then 0 else lmap s l).
  assert (0 <= p < N) as Hp.
  { unfold p. specialize (Hr l Hl). pose proof (pages_bound sc G).
    destruct (Z.eqb_spec (lmap s l) (-1)); lia. }
  st_steps. eapply wp_CALC_FLASH_core; [apply Hg|done|]. st_step.
  eapply wp_CALC_BLOCK_core; [apply Hg|done|]. st_step.
  eapply wp_mono; [eapply wait_for_slot_spec; [apply Hg|by apply flash_of_range]|].
  intros ? s1 Hi1. cbv beta in Hi1. pose proof (ginv_idle _ _ _ _ _ _ _ _ Hg Hi1) as Hg1.
  st_step. eapply wp_CALC_PAGE_core; [apply Hg1|done|]. st_step.
  eapply (pinv_PAGE_READ sc); [apply Hg1|by apply flash_of_range|]. intros t s2 _ Hb2. st_step.
  eapply wp_mono; [apply stat_tick_spec|]. intros ? s3 Hi3. cbv beta in Hi3. st_step. split; [|split].
  - eapply ginv_idle; [|exact Hi3]. eapply ginv_booked; [exact Hg1|exact Hb2|].
    by apply nand_wf_read, Hg1.
  - etrans; [apply same_rest_map, Hi1|]. etrans; [by eapply booked_map|]. apply same_rest_map, Hi3.
  - by rewrite (id_log _ _ Hi3), (bk_log _ _ _ Hb2), (id_log _ _ Hi1).
Qed.

Lemma read_cmds_same s s' n l : same_map s s' -> read_cmds s' n l = read_cmds s n l.
Proof.
  intros Hm. revert l. induction n as [|n IH]; intros l; [done|]. cbn [read_cmds]. rewrite IH.
  unfold read_cmd. by rewrite (same_map_lmap _ _ Hm).
Qed.

Lemma ftl_read_loop_spec fuel k C V A ion x s :
  span_ok x -> (Z.to_nat (remain x) <= fuel)%nat -> ginv sc k (-1) C V A s ->
  wp (ftl_read_loop fuel spp ion x) (fun _ s' =>
    read_done k C V A s (read_cmds s (Z.to_nat (span_pages x)) (Z.quot (lba x) spp)) s') s.
Proof.
  revert x s. induction fuel as [|fuel IH]; intros x s Hx Hfuel Hg; cbn [ftl_read_loop];
    pose proof (so_remain _ Hx); destruct (Z.eqb_spec (remain x) 0) as [E|E];
    try (st_step; unfold span_pages; rewrite E; done); [lia|].
  st_step. eapply wp_mono; [apply (ftl_read_page_spec k C V A); [done|apply span_lpn; [done|lia]]|].
  intros t s1 (Hg1 & Hm1 & Hl1).
  destruct (span_next x t Hx ltac:(lia)) as (Hx' & Hn & Hr & Hl). set (x' := next_span spp x t) in *.
  eapply wp_mono; [apply (IH x' s1 Hx'); [lia|done]|]. intros ? s2 (Hg2 & Hm2 & Hl2).
  split; [done|]. split; [by etrans|]. pose proof (span_pages_nonneg x' Hx').
  rewrite Hl2, Hl1, (read_cmds_same s s1) by done.
  replace (Z.to_nat (span_pages x)) with (S (Z.to_nat (span_pages x'))) by lia.
  cbn [read_cmds]. rewrite <- app_assoc. f_equal.
  destruct (Z.eqb_spec (remain x') 0) as [E'|E'].
  - unfold span_pages. by rewrite E'.
  - by rewrite Hl by lia.
Qed.

Lemma ftl_read_probe_spec fuel k C V A x s :
  span_ok x -> (Z.to_nat (remain x) <= fuel)%nat -> ginv sc k (-1) C V A s ->
  wp (ftl_read_probe fuel spp x) (fun _ s' => s' = s) s.
Proof.
  revert x. induction fuel as [|fuel IH]; intros x Hx Hfuel Hg; cbn [ftl_read_probe];
    pose proof (so_remain _ Hx); destruct (Z.eqb_spec (remain x) 0) as [E|E]; try (by st_step); [lia|].
  st_step. unfold GET_MAPPING_INFO. eapply wp_arr_load.
  { apply lmap_get. rewrite (ou_map _ _ _ _ (pi_outer _ _ _ _ _ _ _ _ _ _ (gi_pinv _ _ _ _ _ _ _ Hg))).
    apply span_lpn; [done|lia]. }
  destruct (span_next x 0 Hx ltac:(lia)) as (Hx' & _ & Hr & _). apply IH; [done|lia|done].
Qed.

(** A read leaves the store alone and reads the pages of the range. *)
Lemma _FTL_READ_spec k m A sector length s :
  ssd_inv sc k m A s -> 0 <= sector -> 0 <= length < 2 ^ 32 -> sector + length <= SECTOR_NB sc ->
  wp (_FTL_READ sector length) (fun _ s' => ssd_inv sc k m A s' /\ same_map s s' /\
    nand_log s' = read_cmds s (Z.to_nat (span_pages (write_span sector length)))
                    (Z.quot sector spp) ++ nand_log s) s.
Proof.
  intros (C & V & Hg & Hsh) Hs Hlen Hend. pose proof (write_span_ok _ _ Hs Hlen Hend) as Hx.
  pose proof (g_spp _ G).
  pose proof (pinv_params _ _ _ _ _ _ _ _ _ _ (gi_pinv _ _ _ _ _ _ _ Hg)) as Hsc.
  unfold _FTL_READ, get_usec. st_steps. rewrite Hsc. name_state s1.
  assert (idle s s1) as Hi1 by (unfold s1; idle_tac).
  destruct (Z.ltb_spec (SECTOR_NB sc) (sector + length)); [lia|]. st_step.
  destruct (Z.eqb_spec spp 0); [lia|]. do 2 st_step.
  pose proof (ginv_idle _ _ _ _ _ _ _ _ Hg Hi1) as Hg1.
  eapply wp_mono; [by eapply (ftl_read_probe_spec _ _ C V A _ _ Hx)|]. intros ? s2 ->. st_step.
  eapply wp_mono; [apply ALLOC_IO_REQUEST_spec; [apply Hg1|done..]|].
  intros al s3 Hi3. cbv beta in Hi3. st_steps. name_state s4.
  assert (idle s s4) as Hi4 by (etrans; [exact Hi1|]; etrans; [exact Hi3|]; unfold s4; idle_tac).
  eapply wp_mono; [apply (ftl_read_loop_spec _ (k + used sc A) C V A al.2 _ s4 Hx); [done|eapply ginv_idle; [exact Hg|exact Hi4]]|].
  intros t s5 (Hg5 & Hm5 & Hl5). st_steps.
  apply (wp_mono _ (fun _ s' => idle s5 s')); [destruct (_ <? _); st_steps; [idle_tac|done]|].
  intros ? s6 Hi6. cbv beta in Hi6. st_steps. eapply wp_mono; [apply INCREASE_SEQ_spec|].
  intros ? s7 Hi7. cbv beta in Hi7. st_step.
  assert (idle s5 s7) as Hi by (etrans; [exact Hi6|]; etrans; [|exact Hi7]; idle_tac).
  split; [|split].
  - exists C, V. split; [by eapply ginv_idle|done].
  - etrans; [apply same_rest_map, Hi4|]. etrans; [exact Hm5|]. apply same_rest_map, Hi.
  - rewrite (id_log _ _ Hi), Hl5, (id_log _ _ Hi4).
    by rewrite (read_cmds_same s s4) by (apply same_rest_map, Hi4).
Qed.
End FtlRules.
