(* ===== verification/Ssd.v ===== *)
(** * The device interface: ssd.c

    Write, read, discard and the remap command of the emulated SSD. *)

From Stdlib Require Import ZArith Lia List.
From stdpp Require Import base tactics numbers list functions.
From S2P Require Import Prelude Config State Timing Perf Inverse Nvram Mapping Alloc Flash Invariant Gc Store Ftl.

Open Scope Z_scope.

Section Ssd.
Context `{Clock}.

Definition SSD_WRITE (request1 : request_meta) : SM Z := FTL_WRITE request1.

Definition SSD_READ (length sector_nb : Z) : SM Z := FTL_READ sector_nb length.

(** ** Discard *)

(** A page that is only partly discarded is unmapped all the same. *)
Fixpoint discard_loop (fuel : nat) (spp : Z) (x : span) : SM unit :=
  if remain x =? 0 then mret tt else
  match fuel with
  | O => mhang
  | S fuel' =>
      release_lpn (Z.quot (lba x) spp);;
      discard_loop fuel' spp (next_span spp x 0)
  end.

Definition femu_discard_process (length sector_nb : Z) : SM Z :=
  conf sc;
  let spp := SECTORS_PER_PAGE sc in
  if SECTOR_NB sc <? sector_nb + length then mret FAIL else
  (if spp =? 0 then mcrash DivByZero else mret tt);;
  discard_loop (Z.to_nat length) spp
    (mk_span sector_nb length (left_skip_of spp sector_nb) 0 0);;
  ctr_set stat_type 2;;
  stat_print;;
  mret SUCCESS.

(** ** The remap command *)

(** The page write that replaces a remap when NVRAM has no room; only the
    first element of [lpns_info] is initialised. *)
Definition remap_fallback (d_lpn : Z) : SM unit :=
  conf sc;
  let info := mk_lpn_info (u32 (-1)) 0 (-1) in
  _ ← _FTL_WRITE (mk_request_meta (u32 (SECTORS_PER_PAGE sc))
                    (s64 (d_lpn * SECTORS_PER_PAGE sc)) [info]);
  mret tt.

(** One page of [REMAP_CKPT], [REMAP_COPY] ([move = false]) or [REMAP_MOVE]. *)
Definition remap_one (move : bool) (s_lpn d_lpn : Z) : SM unit :=
  s_ppn ← arr_load mapping_table s_lpn;
  b ← CALC_BLOCK s_ppn;
  use ← USE_REMAP b;
  if use =? SUCCESS then
    r ← INCREASE_INVERSE_MAPPING s_ppn d_lpn;
    if r =? SUCCESS then
      remap_attach s_ppn;;
      remap_switch d_lpn s_ppn;;
      (if move then release_lpn s_lpn else mret tt);;
      ctr_add stat_remap_cnt 1;;
      ctr_add stat_reduced_write 1
    else mret tt
  else
    remap_fallback d_lpn;;
    (if move then release_lpn s_lpn else mret tt).

(** [for (remain = len; remain > 0; remain--)] with a signed [remain]. *)
Definition remap_range (move : bool) (src_lpn dst_lpn len : Z) : SM unit :=
  mfor (Z.to_nat (s32 len)) 0 (fun i => remap_one move (u64 (src_lpn + i)) (u64 (dst_lpn + i))).

Definition SSD_REMAP (src_lpn dst_lpn len ope : Z) : SM Z :=
  (if ope =? REMAP_CKPT then remap_range false src_lpn dst_lpn len
   else if ope =? REMAP_COPY then remap_range false src_lpn dst_lpn len
   else if ope =? REMAP_MOVE then remap_range true src_lpn dst_lpn len
   else mret tt);;
  n ← ctr_get stat_remap_cnt;
  (if n mod 10000 =? 1 then ctr_set stat_type 4;; stat_print else mret tt);;
  mret SUCCESS.

End Ssd.

(** ** Lemmas *)

Section SsdRules.
Context `{Clock}.
Variable sc : ssdconf.
Hypothesis G : geom sc.
Variable o : origin.
Implicit Types (s : ssdstate) (A : alloc) (St : store).
Local Abbreviation F := (FLASH_NB sc).
Local Abbreviation P := (PAGE_NB sc).
Local Abbreviation N := (pages sc).
Local Abbreviation spp := (SECTORS_PER_PAGE sc).

Lemma shares_le m C C' :
  (forall q, 0 <= q < N -> C' q <= C q) -> shares sc m C -> shares sc m C'.
Proof. intros Hle HC q Hq. specialize (Hle q Hq). specialize (HC q Hq). lia. Qed.

(** Releasing a page empties it in the store. *)
Lemma release_inv k m A St l s :
  ssd_inv sc k m A s -> sim sc o St s -> 0 <= l < N ->
  wp (release_lpn l) (fun _ s' => ssd_inv sc k m A s' /\ sim sc o (put St l None) s' /\
    nand_log s' = nand_log s) s.
Proof.
  intros (C & V & Hg & Hsh) Hsim Hl. eapply wp_mono; [by eapply release_lpn_spec|].
  intros ? s' (C' & V' & Hg' & Hm & HC & Hlog). split; [|split; [|done]].
  - exists C', V'. split; [done|]. by eapply shares_le.
  - by eapply sim_discard.
Qed.

Lemma discard_loop_spec fuel k m A St x s :
  span_ok sc x -> (Z.to_nat (remain x) <= fuel)%nat -> ssd_inv sc k m A s -> sim sc o St s ->
  wp (discard_loop fuel spp x) (fun _ s' => ssd_inv sc k m A s' /\
    sim sc o (discards (Z.to_nat (span_pages sc x)) (Z.quot (lba x) spp) St) s' /\
    nand_log s' = nand_log s) s.
Proof.
  revert x St s. induction fuel as [|fuel IH]; intros x St s Hx Hfuel Hi Hsim; cbn [discard_loop];
    pose proof (so_remain _ _ Hx); destruct (Z.eqb_spec (remain x) 0) as [E|E];
    try (st_step; unfold span_pages; rewrite E; done); [lia|].
  st_step. eapply wp_mono; [apply (release_inv k m A St); [done..|apply span_lpn; [done|done|lia]]|].
  intros ? s1 (Hi1 & Hsim1 & Hl1).
  destruct (span_next sc G x 0 Hx ltac:(lia)) as (Hx' & Hn & Hr & Hl). set (x' := next_span spp x 0) in *.
  eapply wp_mono; [eapply (IH x' _ s1 Hx'); [lia|done|exact Hsim1]|]. intros ? s2 (Hi2 & Hsim2 & Hl2).
  split; [done|]. split; [|congruence]. pose proof (span_pages_nonneg sc x' Hx').
  replace (Z.to_nat (span_pages sc x)) with (S (Z.to_nat (span_pages sc x'))) by lia. cbn [discards].
  destruct (Z.eqb_spec (remain x') 0) as [E'|E'].
  - unfold span_pages in *. by rewrite E' in *.
  - by rewrite Hl in Hsim2 by lia.
Qed.

Lemma discard_spec k m A St length sector s :
  ssd_inv sc k m A s -> sim sc o St s ->
  0 <= sector -> 0 <= length < 2 ^ 32 -> sector + length <= SECTOR_NB sc ->
  wp (femu_discard_process length sector) (fun r s' => r = SUCCESS /\ ssd_inv sc k m A s' /\
    sim sc o (discards (Z.to_nat (span_pages sc (write_span sc sector length))) (Z.quot sector spp) St) s' /\
    nand_log s' = nand_log s) s.
Proof.
  intros Hi Hsim Hs Hlen Hend. pose proof (write_span_ok sc G _ _ Hs Hlen Hend) as Hx.
  pose proof (g_spp _ G). unfold femu_discard_process. st_steps.
  assert (ssdparams s = sc) as Hsc.
  { destruct Hi as (C & V & Hg & _). apply (pinv_params _ _ _ _ _ _ _ _ _ _ (gi_pinv _ _ _ _ _ _ _ Hg)). }
  rewrite Hsc. destruct (Z.ltb_spec (SECTOR_NB sc) (sector + length)); [lia|]. st_step.
  destruct (Z.eqb_spec spp 0); [lia|]. do 2 st_step.
  eapply wp_mono; [by apply (discard_loop_spec _ k m A St _ s Hx)|]. intros ? s1 (Hi1 & Hsim1 & Hl1).
  st_steps. eapply wp_mono; [apply stat_print_spec|]. intros ? s2 Hi2. cbv beta in Hi2. st_step.
  assert (idle s1 s2) as Hid by (etrans; [|exact Hi2]; idle_tac).
  destruct Hi1 as (C & V & Hg1 & Hsh). split; [done|]. split; [|split].
  - exists C, V. split; [by eapply ginv_idle|done].
  - eapply sim_still; [apply idle_still, Hid|exact Hsim1].
  - by rewrite (id_log _ _ Hid).
Qed.

(** *** The remap command *)

Lemma ssd_inv_le k k' m m' A s : k' <= k -> m <= m' -> ssd_inv sc k m A s -> ssd_inv sc k' m' A s.
Proof.
  intros Hk Hm (C & V & Hg & Hsh). exists C, V. split; [eapply ginv_le; [|exact Hg]; lia|].
  intros q Hq. specialize (Hsh q Hq). lia.
Qed.

Lemma ssd_inv_idle k m A s s' : ssd_inv sc k m A s -> idle s s' -> ssd_inv sc k m A s'.
Proof. intros (C & V & Hg & Hsh) Hi. exists C, V. split; [by eapply ginv_idle|done]. Qed.

(** The write that stands in for a remap: the device copies the data. *)
Lemma remap_fallback_spec k m A St d v s :
  ssd_inv sc (k + BLOCK_NB sc + 4) m A s -> 0 <= k -> sim sc o St s -> 0 <= d < N ->
  F * P <= free_pages sc A -> 1 <= m -> m <= 127 ->
  wp (remap_fallback d) (fun _ s' => exists A', ssd_inv sc k m A' s' /\
    free_pages sc A - 1 <= free_pages sc A' /\ sim sc o (put St d (Some v)) s') s.
Proof.
  intros Hi Hk Hsim Hd Hfree Hm1 Hm. unfold remap_fallback. st_steps.
  pose proof (g_spp _ G) as Hspp. pose proof (pages_bound sc G) as HN.
  assert (ssdparams s = sc) as ->.
  { destruct Hi as (C & V & Hg & _). apply (pinv_params _ _ _ _ _ _ _ _ _ _ (gi_pinv _ _ _ _ _ _ _ Hg)). }
  rewrite u32_small by lia. rewrite s64_small by nia. eapply wp_mono.
  { eapply (_FTL_WRITE_spec sc G o k m 1 A St (fun _ => v)); try done; try lia.
    - eapply (ssd_inv_le _ _ m m); [|done|exact Hi]. lia.
    - constructor; cbn; [nia|lia|rewrite (g_sectors _ G); unfold pages in *; nia| |].
      + unfold span_pages, write_span. cbn. destruct (Z.eqb_spec spp 0); [lia|].
        rewrite left_skip_mod by (done || nia). rewrite Z.mod_mul by lia. unfold pages_spanned.
        replace (0 + spp + spp - 1) with (spp - 1 + 1 * spp) by lia.
        rewrite Z.div_add, Z.div_small by lia. done.
      + intros i Hi'. replace i with 0 by lia. eexists. split; [done|]. cbn. lia.
    - change (request_remaps _ 1) with 0. lia. }
  intros ? s' (A' & St' & Hi' & Hf & Hw & Hsim'). st_step. exists A'.
  split; [change (request_remaps _ 1) with 0 in Hi'; by rewrite Z.add_0_r in Hi'|]. split; [done|].
  unfold request_write in Hw. cbn in Hw. rewrite Z.quot_mul in Hw by lia.
  inversion Hw as [|n i l li St0 St1 St2 Hli Hpw Hps]; subst. inversion Hps; subst.
  vm_compute in Hli. simplify_eq. inversion Hpw; subst; [exact Hsim'|..]; cbn in *; lia.
Qed.

Lemma remap_one_spec k m A St move src dst s :
  ssd_inv sc (k + 2 * BLOCK_NB sc + 5) m A s -> 0 <= k -> sim sc o St s ->
  0 <= src < N -> 0 <= dst < N -> St src <> None ->
  F * P <= free_pages sc A -> 1 <= m -> m + 1 <= 127 ->
  wp (remap_one move src dst) (fun _ s' => exists A', ssd_inv sc k (m + 1) A' s' /\
    free_pages sc A - 1 <= free_pages sc A' /\
    sim sc o (if move then put (put St dst (St src)) src None else put St dst (St src)) s') s.
Proof.
  intros Hi Hk Hsim Hsrc Hdst HSt Hfree Hm1 Hm. pose proof (g_block _ G).
  assert (lmap s src <> -1) as Hmap by (by rewrite <- (sim_mapped sc o St)).
  destruct Hi as (C & V & Hg & Hsh). pose proof (free_pages_le sc G _ _ _ _ _ _ Hg).
  pose proof (pi_outer _ _ _ _ _ _ _ _ _ _ (gi_pinv _ _ _ _ _ _ _ Hg)) as [Hz _ Hr _ _ _ _].
  assert (0 <= lmap s src < N) as Hp by (specialize (Hr src Hsrc); lia).
  unfold remap_one. st_step. eapply wp_arr_load; [apply lmap_get; lia|]. st_step.
  eapply wp_CALC_BLOCK_core; [apply Hg|done|]. st_step.
  eapply wp_mono; [apply (USE_REMAP_ginv sc (k + BLOCK_NB sc + 4 + used sc A) C V A);
    [|unfold used; lia|by apply block_of_range]|].
  { eapply ginv_le; [|exact Hg]. lia. }
  intros r s1 (Hg1 & Hm1' & Hr1). pose proof (sim_still sc o St _ _ Hm1' Hsim) as Hsim1.
  (* the source is released after a move *)
  assert (forall A2 s2, ssd_inv sc k (m + 1) A2 s2 -> free_pages sc A - 1 <= free_pages sc A2 ->
    sim sc o (put St dst (St src)) s2 ->
    wp (if move then release_lpn src else mret tt) (fun _ s' => ssd_inv sc k (m + 1) A2 s' /\
      sim sc o (if move then put (put St dst (St src)) src None else put St dst (St src)) s') s2) as Hrel.
  { intros A2 s2 Hi2 Hf2 Hsim2. destruct move; [|by st_step].
    eapply wp_mono; [by apply (release_inv k (m + 1) A2)|]. by intros ? s3 (? & ? & _). }
  destruct Hr1 as [->|[-> _]]; simpl (_ =? _); cbv iota.
  - st_step. destruct (St src) as [v|] eqn:Ev; [|done]. eapply wp_mono.
    { apply (remap_fallback_spec k m A St dst v); try done; [|lia]. exists C, V. split; [|done].
      eapply ginv_le; [|exact Hg1]. lia. }
    intros ? s2 (A2 & Hi2 & Hf2 & Hsim2).
    eapply wp_mono; [apply (Hrel A2); [|done|done]; eapply (ssd_inv_le k k); [done| |exact Hi2]; lia|].
    intros ? s3 [Hi3 Hsim3]. by exists A2.
  - st_step. rewrite <- (same_map_lmap _ _ (st_same_map _ _ Hm1')) in *.
    eapply wp_mono; [apply (remap_attach_spec sc G (k + BLOCK_NB sc + 4 + used sc A) C V A dst src
      (remapping sc (k + BLOCK_NB sc + 4 + used sc A) C V A dst (lmap s1 src) s1)); try done|].
    { specialize (Hsh _ Hp). lia. }
    intros r s2 [-> Hatt]. simpl (_ =? _). cbv iota. st_step. eapply wp_mono; [exact Hatt|].
    intros ? s3 Hr3. st_step. eapply wp_mono; [eapply remap_switch_spec; [done|exact Hr3|apply Hg1|done|done]|].
    intros ? s4 (C4 & V4 & Hg4 & Hl4 & Hm4 & Hsh4). st_step. eapply wp_mono.
    { apply (Hrel A s4); [|lia|].
      - exists C4, V4. split; [eapply ginv_le; [|exact Hg4]; lia|]. by apply Hsh4.
      - by eapply sim_copy. }
    intros ? s5 [Hi5 Hsim5]. st_steps. exists A. split; [eapply ssd_inv_idle; [exact Hi5|idle_tac]|].
    split; [lia|]. eapply sim_still; [|exact Hsim5]. by constructor.
Qed.

Lemma remap_loop_spec n lo k m A St move src dst s :
  ssd_inv sc (k + Z.of_nat n * (2 * BLOCK_NB sc + 5)) m A s -> 0 <= k -> sim sc o St s ->
  0 <= src + lo -> src + lo + Z.of_nat n <= N -> 0 <= dst + lo -> dst + lo + Z.of_nat n <= N ->
  copies_ok move n (src + lo) (dst + lo) St ->
  Z.of_nat n + F * P - 1 <= free_pages sc A -> 1 <= m -> m + Z.of_nat n <= 127 ->
  wp (mfor n lo (fun i => remap_one move (u64 (src + i)) (u64 (dst + i)))) (fun _ s' => exists A',
    ssd_inv sc k (m + Z.of_nat n) A' s' /\ sim sc o (copies move n (src + lo) (dst + lo) St) s') s.
Proof.
  pose proof (pages_bound sc G) as HN. pose proof (g_block _ G).
  revert lo m A St s. induction n as [|n IH];
    intros lo m A St s Hi Hk Hsim Hs0 Hs1 Hd0 Hd1 Hok Hfree Hm1 Hm; cbn [mfor copies].
  - st_step. exists A. split; [|done]. eapply ssd_inv_le; [| |exact Hi]; lia.
  - destruct Hok as [HSt Hok]. st_step. rewrite !u64_small by lia. eapply wp_mono.
    { apply (remap_one_spec (k + Z.of_nat n * (2 * BLOCK_NB sc + 5)) m A St move (src + lo) (dst + lo));
        try done; try lia; try nia. eapply (ssd_inv_le _ _ m m); [|done|exact Hi]. lia. }
    intros ? s1 (A1 & Hi1 & Hf1 & Hsim1). replace (src + lo + 1) with (src + (lo + 1)) in * by lia.
    replace (dst + lo + 1) with (dst + (lo + 1)) in * by lia. eapply wp_mono.
    { eapply (IH (lo + 1) (m + 1) A1 _ s1 Hi1 Hk Hsim1); try done; lia. }
    intros ? s2 (A2 & Hi2 & Hsim2). exists A2. split; [|done].
    eapply (ssd_inv_le k k); [..|exact Hi2]; lia.
Qed.

(** The operation codes of the command. *)
Definition remap_effect (ope : Z) (n : nat) (src dst : Z) St : store :=
  if (ope =? REMAP_CKPT) || (ope =? REMAP_COPY) then copies false n src dst St
  else if ope =? REMAP_MOVE then copies true n src dst St
  else St.

Lemma SSD_REMAP_spec k m A St src dst len ope s :
  ssd_inv sc (k + len * (2 * BLOCK_NB sc + 5)) m A s -> 0 <= k -> sim sc o St s ->
  0 <= len -> 0 <= src -> src + len <= N -> 0 <= dst -> dst + len <= N ->
  copies_ok (ope =? REMAP_MOVE) (Z.to_nat len) src dst St ->
  len + F * P - 1 <= free_pages sc A -> 1 <= m -> m + len <= 127 ->
  wp (SSD_REMAP src dst len ope) (fun r s' => r = SUCCESS /\ exists A',
    ssd_inv sc k (m + len) A' s' /\ sim sc o (remap_effect ope (Z.to_nat len) src dst St) s') s.
Proof.
  intros Hi Hk Hsim Hlen Hs0 Hs1 Hd0 Hd1 Hok Hfree Hm1 Hm. pose proof (pages_bound sc G) as HN.
  pose proof (g_block _ G). unfold SSD_REMAP. st_step.
  assert (forall move, copies_ok move (Z.to_nat len) src dst St ->
    wp (remap_range move src dst len) (fun _ s' => exists A', ssd_inv sc k (m + len) A' s' /\
      sim sc o (copies move (Z.to_nat len) src dst St) s') s) as Hrange.
  { intros move Hok'. unfold remap_range. rewrite s32_small by lia. eapply wp_mono.
    { apply (remap_loop_spec (Z.to_nat len) 0 k m A St move src dst); rewrite ?Z2Nat.id, ?Z.add_0_r;
        try done; lia. }
    intros ? s1 (A1 & Hi1 & Hsim1). rewrite Z2Nat.id, !Z.add_0_r in * by lia. by exists A1. }
  apply (wp_mono _ (fun _ s' => exists A', ssd_inv sc k (m + len) A' s' /\
    sim sc o (remap_effect ope (Z.to_nat len) src dst St) s')).
  { unfold remap_effect. destruct (Z.eqb_spec ope REMAP_CKPT) as [->|]; [by apply Hrange|].
    destruct (Z.eqb_spec ope REMAP_COPY) as [->|]; [by apply Hrange|]. simpl orb. cbv iota.
    destruct (Z.eqb_spec ope REMAP_MOVE) as [->|]; [by apply Hrange|].
    st_step. exists A. split; [|done]. eapply ssd_inv_le; [| |exact Hi]; nia. }
  intros ? s1 (A1 & Hi1 & Hsim1). st_steps.
  apply (wp_mono _ (fun _ s' => idle s1 s')).
  { destruct (_ =? 1); st_steps; [|done]. eapply wp_mono; [apply stat_print_spec|].
    intros ? s2 Hi2. etrans; [|exact Hi2]. idle_tac. }
  intros ? s2 Hi2. cbv beta in Hi2. st_step. split; [done|]. exists A1.
  split; [by eapply ssd_inv_idle|]. eapply sim_still; [apply idle_still, Hi2|done].
Qed.
End SsdRules.
