(* ===== verification/Init.v ===== *)
(** * Bringing the device up

    [SSD_INIT]: the zeroed state, [INIT_SSD_CONFIG] on the
    words of the configuration file and the initialisation of the tables, for
    a working directory without saved tables (./data/*.dat).  Allocation does
    not fail. *)

From Stdlib Require Import ZArith Lia List String SpecFloat.
From stdpp Require Import base tactics numbers list functions strings.
From S2P Require Import Prelude Config State Timing Perf Inverse Nvram Mapping Alloc Flash Invariant Gc Store.

Open Scope Z_scope.

(** [memset(ssd, 0, sizeof(struct ssdstate)); ssd->xl2p_ppn = -1] *)
Definition ssd_zero : ssdstate :=
  mk_ssdstate (ssdconf0 rawconf0) [] [] [] [] [] [] [] 0 0 0 (mk_sb_debug 0 0) (-1)
    [] [] [] [] 0 (fun _ => 0) [] 0%nat [].

(** [file] is the words of the file, [None] when it cannot be opened. *)
Definition INIT_SSD_CONFIG (file : option (list string)) : SM unit :=
  match file with
  | None => mcrash ProcessExit
  | Some ws =>
      sc0 ← gets ssdparams;
      let c := read_conf (stream_size ws) ws (raw sc0) in
      if conf_rejected c then modify (set_ssdparams (ssdconf0 c))
      else
        sc ← (match derive_conf c with Some sc => mret sc | None => mcrash DivByZero end);
        n ← (match num_gc_slots c with Some n => mret n | None => mcrash ProcessExit end);
        (if n =? 0 then mcrash ProcessExit else mret tt);;
        modify (set_ssdparams sc);;
        modify (set_gc_slot (ztab n (fun _ => 0)));;
        modify (set_chnl_next_avail_time (ztab (CHANNEL_NB c) (fun _ => 0)));;
        modify (set_chip_next_avail_time (ztab (FLASH_NB c) (fun _ => 0)));;
        modify (set_nvram_next_avail_time (ztab (BLOCK_NB c) (fun _ => 0)))
  end.

Definition INIT_MAPPING_TABLE : SM unit :=
  conf sc;
  modify (set_mapping_table (ztab (PAGE_MAPPING_ENTRY_NB sc) (fun _ => -1)));;
  modify (set_in_nvram (ztab (PAGE_MAPPING_ENTRY_NB sc) (fun _ => -1))).

Definition INIT_INVERSE_MAPPING_TABLE : SM unit :=
  conf sc;
  modify (set_inverse_mapping_table
    (ztab (PAGE_MAPPING_ENTRY_NB sc) (fun _ => mk_inverse_mapping_entry (-1) 0 []))).

Definition INIT_NVRAM_OOB : SM unit :=
  conf sc;
  modify (set_NVRAM_OOB_TABLE (ztab (BLOCK_NB sc) (fun _ => mk_NVRAM_OOB_seg 0 0 0))).

(** The valid arrays are allocated by the next function. *)
Definition INIT_BLOCK_STATE_TABLE : SM unit :=
  conf sc;
  modify (set_block_state_table
    (ztab (BLOCK_MAPPING_ENTRY_NB sc) (fun _ => mk_block_state_entry 0 EMPTY_BLOCK 0 []))).

Definition INIT_VALID_ARRAY : SM unit :=
  conf sc;
  mfor (Z.to_nat (s32 (BLOCK_MAPPING_ENTRY_NB sc))) 0 (fun i =>
    e ← arr_load block_state_table i;
    st_block_state i
      (mk_block_state_entry (valid_page_nb e) (btype e) (erase_count e)
         (ztab (PAGE_NB sc) (fun _ => 0)))).

(** The chain of a plane [i] of chip [j]: blocks [i], [i + PLANES], ... *)
Definition INIT_EMPTY_BLOCK_LIST : SM unit :=
  conf sc;
  let planes := PLANES_PER_FLASH sc in
  modify (set_empty_block_list
    (ztab (planes * FLASH_NB sc) (fun _ => mk_empty_block_root [] None 0)));;
  mfor (Z.to_nat planes) 0 (fun i =>
    let n := Z.quot (BLOCK_NB sc - i + planes - 1) planes in
    mfor (Z.to_nat (FLASH_NB sc)) 0 (fun j =>
      mfor (Z.to_nat n) 0 (fun t => _ ← UPDATE_BLOCK_STATE j (i + t * planes) EMPTY_BLOCK; mret tt);;
      st_empty (i * FLASH_NB sc + j)
        (mk_empty_block_root (ztab n (fun t => mk_empty_block_entry j (i + t * planes) 0))
           None (u32 (EACH_EMPTY_TABLE_ENTRY_NB sc)))));;
  modify (set_total_empty_block_nb (s32 (BLOCK_MAPPING_ENTRY_NB sc)));;
  modify (set_empty_block_table_index 0);;
  modify (set_sb_deb (mk_sb_debug (PLANES_PER_FLASH sc * FLASH_NB sc - 1) 0)).

Definition INIT_VICTIM_BLOCK_LIST : SM unit :=
  conf sc;
  modify (set_victim_block_list
    (ztab (PLANES_PER_FLASH sc * FLASH_NB sc) (fun _ => mk_victim_block_root [] 0)));;
  modify (set_total_victim_block_nb 0).

(** The part of [INIT_PERF_CHECKER] that concerns the request queue. *)
Definition INIT_PERF_CHECKER : SM unit :=
  set_ctr_list [ (io_request_nb, 0); (io_request_seq_nb, 0) ];;
  modify (set_io_requests []).

(** The first call.  [INIT_zipf_AND_fingerprint], [INIT_METADATA_TABLE] and
    [SSD_IO_INIT] fill tables the FTL does not read: fingerprints of generated
    data, the metadata of pages, and the registers of the older latency code
    (Registers.v). *)
Definition FTL_INIT (file : option (list string)) : SM unit :=
  INIT_SSD_CONFIG file;;
  INIT_MAPPING_TABLE;;
  INIT_INVERSE_MAPPING_TABLE;;
  INIT_NVRAM_OOB;;
  INIT_BLOCK_STATE_TABLE;;
  INIT_VALID_ARRAY;;
  INIT_EMPTY_BLOCK_LIST;;
  INIT_VICTIM_BLOCK_LIST;;
  INIT_PERF_CHECKER;;
  INIT_STAT_COUNT.

(** ** The SSD: ssd.c

    The warm-up replays a file of writes.  Its request is a pointer that is
    never set, so a file with anything in it crashes.  [trace] says whether the
    file can be opened, and then whether it is more than white space. *)
Definition do_rand_warmup (trace : option bool) : SM unit :=
  match trace with
  | Some true => mcrash Uninitialised
  | _ => mret tt
  end.

(** [stat_ok]: can the file of statistics be created? *)
Definition SSD_INIT (file : option (list string)) (stat_ok : bool) (trace : option bool) : SM unit :=
  modify (fun _ => ssd_zero);;
  FTL_INIT file;;
  (if stat_ok then mret tt else mcrash ProcessExit);;
  do_rand_warmup trace.

(** ** Lemmas: the state after the initialisation *)

(** All rows wait in the queue. *)
Definition alloc_init (sc : ssdconf) : alloc := mk_alloc (ztab (BLOCK_NB sc) (fun b => b)) None [].

Section InitRules.
Variable sc : ssdconf.
Hypothesis G : geom sc.
Implicit Types (s : ssdstate).
Local Abbreviation F := (FLASH_NB sc).
Local Abbreviation B := (BLOCK_NB sc).
Local Abbreviation P := (PAGE_NB sc).
Local Abbreviation N := (pages sc).
Local Abbreviation V0 := (fun _ : Z => 0).

(** Freeing the pages of an empty block changes no counter. *)
Lemma free_zero f b i s :
  ssdparams s = sc -> blk_rep sc V0 None (block_state_table s) ->
  0 <= f < F -> 0 <= b < B -> 0 <= i < P ->
  wp (UPDATE_BLOCK_STATE_ENTRY f b i 0) (fun _ s' => exists t,
    s' = set_block_state_table t s /\ blk_rep sc V0 None t) s.
Proof.
  intros Hsc HB Hf Hb Hi. unfold UPDATE_BLOCK_STATE_ENTRY.
  destruct (geom_bounds _ G) as (? & ? & ?). st_steps. rewrite Hsc, !u32_small by lia.
  replace (_ || _ || _) with false by (symmetry; rewrite !orb_false_iff, !Z.leb_gt; lia). st_step.
  apply (GET_BLOCK_STATE_ENTRY_spec sc); try done. st_step. simpl (0 =? _). cbv iota.
  assert (0 <= f * B + b < F * B) as Hk by (by apply radix_range).
  unfold mark_free. st_step. eapply (ld_valid_spec sc); [done|done|done|].
  simpl (_ <? _). simpl (_ =? _). change (0 <? 0) with false. cbv iota. do 2 st_step.
  eapply (recount_spec sc G V0); [|done|].
  - destruct HB as [Hl He Hr]. constructor; [done| |done]. intros k Hk'.
    destruct (He k Hk') as (e & ? & ? & ? & Hv). exists e. split; [done|]. split; [done|]. split; [done|].
    intros _. by apply Hv.
  - intros t Ht. st_step. by exists t.
Qed.

Lemma empty_zero f b s :
  ssdparams s = sc -> blk_rep sc V0 None (block_state_table s) -> 0 <= f < F -> 0 <= b < B ->
  wp (UPDATE_BLOCK_STATE f b EMPTY_BLOCK) (fun _ s' => exists t,
    s' = set_block_state_table t s /\ blk_rep sc V0 None t) s.
Proof.
  intros Hsc HB Hf Hb. destruct (HB) as [Hl He Hr]. unfold UPDATE_BLOCK_STATE. st_steps.
  apply (GET_BLOCK_STATE_ENTRY_spec sc); try done. st_step.
  assert (0 <= f * B + b < F * B) as Hk by (by apply radix_range).
  destruct (He _ Hk) as (e & Hg & Hn & Ha & Hc).
  eapply wp_arr_load; [exact Hg|]. st_step. apply wp_arr_store; [lia|].
  simpl (_ =? _). cbv iota. rewrite Hsc. st_step. eapply wp_mono.
  { apply (wp_mfor (fun _ s' => exists t, s' = set_block_state_table t s /\ blk_rep sc V0 None t)).
    - eexists. split; [reflexivity|]. constructor; [by rewrite zlen_zset| |done].
      intros j Hj. rewrite zget_zset by lia. zcase; [|by apply He].
      subst j. eexists. split; [done|]. simpl. auto.
    - intros i s1 Hi (t & -> & Ht). pose proof (g_page _ G). rewrite Z2Nat.id, Z.add_0_l in Hi by lia.
      st_step. eapply wp_mono; [by apply free_zero|]. intros ? s2 (t2 & -> & Ht2). st_step. by exists t2. }
  intros ? s1 (t & -> & Ht). st_step. by exists t.
Qed.

Lemma INIT_VALID_ARRAY_spec s :
  ssdparams s = sc ->
  block_state_table s = ztab (F * B) (fun _ => mk_block_state_entry 0 EMPTY_BLOCK 0 []) ->
  wp INIT_VALID_ARRAY (fun _ s' => exists t,
    s' = set_block_state_table t s /\ blk_rep sc V0 None t) s.
Proof.
  intros Hsc Ht. unfold INIT_VALID_ARRAY. st_steps. rewrite Hsc.
  pose proof (g_flash _ G). pose proof (g_block _ G). pose proof (g_page _ G). pose proof (g_pages _ G).
  rewrite (g_blocks _ G), s32_small by nia. eapply wp_mono.
  { apply (wp_mfor (fun i s' => s' = set_block_state_table (ztab (F * B) (fun k =>
      mk_block_state_entry 0 EMPTY_BLOCK 0 (if k <? i then ztab P (fun _ => 0) else []))) s)).
    - replace (ztab (F * B) _) with (block_state_table s); [by destruct s|]. rewrite Ht.
      apply ztab_ext. intros. by zcase.
    - intros i s1 Hi ->. rewrite Z2Nat.id, Z.add_0_l in Hi by nia. st_step.
      eapply wp_arr_load; [apply zget_ztab; lia|].
      apply wp_arr_store; [cbn; rewrite zlen_ztab; lia|]. cbn. unfold set_block_state_table. cbn.
      f_equal. rewrite zset_ztab by lia. apply ztab_ext. intros k Hk. zcases; subst; done. }
  intros ? s1 ->. eexists. split; [done|].
  rewrite Z2Nat.id, Z.add_0_l by nia. constructor; [by apply zlen_ztab; nia| |done].
  intros k Hk. rewrite zget_ztab by done. eexists. split; [done|]. cbn. destruct (Z.ltb_spec k (B * F)); [|lia].
  split; [apply zlen_ztab; lia|]. split; [intros; by apply zget_ztab|]. intros _.
  symmetry. apply sumZ_zero. done.
Qed.

(** Every chip's chain holds all its blocks. *)
Lemma INIT_EMPTY_BLOCK_LIST_spec s :
  ssdparams s = sc -> blk_rep sc V0 None (block_state_table s) ->
  wp INIT_EMPTY_BLOCK_LIST (fun _ s' => exists t, blk_rep sc V0 None t /\
    s' = set_sb_deb (mk_sb_debug (F - 1) 0) (set_empty_block_table_index 0
      (set_total_empty_block_nb (F * B) (set_block_state_table t
        (set_empty_block_list (ztab F (empty_root F (alloc_init sc))) s))))) s.
Proof.
  intros Hsc HB. unfold INIT_EMPTY_BLOCK_LIST. st_steps. rewrite Hsc, (g_planes _ G).
  pose proof (g_flash _ G). pose proof (g_block _ G). pose proof (g_page _ G). pose proof (g_pages _ G).
  destruct (geom_bounds _ G) as (? & ? & _).
  change (Z.to_nat 1) with 1%nat. cbn [mfor]. st_step.
  replace (Z.quot (B - 0 + 1 - 1) 1) with B by (rewrite Z.quot_1_r; lia). eapply wp_mono.
  { apply (wp_mfor (fun j s' => exists t, blk_rep sc V0 None t /\ s' = set_block_state_table t
      (set_empty_block_list (ztab F (fun k => if k <? j then empty_root F (alloc_init sc) k
         else mk_empty_block_root [] None 0)) s))).
    - exists (block_state_table s). split; [done|]. unfold set_empty_block_list, set_block_state_table. cbn.
      f_equal. rewrite Z.mul_1_l. apply ztab_ext. intros. by zcase.
    - intros j s1 Hj (t & Ht & ->). rewrite Z2Nat.id, Z.add_0_l in Hj by lia. st_step. eapply wp_mono.
      { apply (wp_mfor (fun _ s' => exists t, blk_rep sc V0 None t /\ s' = set_block_state_table t
          (set_empty_block_list (ztab F (fun k => if k <? j then empty_root F (alloc_init sc) k
             else mk_empty_block_root [] None 0)) s))); [by exists t|].
        intros i s2 Hi (t2 & Ht2 & ->). rewrite Z2Nat.id, Z.add_0_l in Hi by lia. st_step.
        eapply wp_mono; [apply empty_zero; try done; lia|]. intros ? s3 (t3 & -> & Ht3). st_step.
        by exists t3. }
      intros ? s2 (t2 & Ht2 & ->). apply wp_arr_store; [cbn; rewrite zlen_ztab; lia|].
      exists t2. split; [done|]. unfold set_empty_block_list, set_block_state_table. cbn. f_equal.
      rewrite zset_ztab by lia. apply ztab_ext. intros k Hk. zcases; subst; try done.
      unfold empty_root, alloc_init. cbn. rewrite (g_each _ G), u32_small by lia.
      rewrite zlen_ztab by lia. f_equal. unfold ztab. rewrite <- list_fmap_compose.
      apply list_fmap_ext. intros i x _. cbn. f_equal. lia. }
  intros ? s1 (t & Ht & ->). st_steps. exists t. split; [done|].
  rewrite Z2Nat.id, Z.add_0_l, (g_blocks _ G), s32_small, Z.mul_1_l by nia.
  replace (B * F) with (F * B) by lia. do 3 f_equal.
  unfold set_empty_block_list, set_block_state_table. cbn. f_equal. apply ztab_ext. intros. by zcase.
Qed.

Lemma alloc_init_wf : alloc_wf sc (alloc_init sc).
Proof.
  pose proof (g_block _ G). constructor; unfold rows, cur_rows, alloc_init; cbn; rewrite ?app_nil_r.
  - unfold ztab. apply NoDup_fmap_2; [intros ??; lia|apply NoDup_seq].
  - intros b. unfold ztab. intros (x & -> & Hx)%list_elem_of_fmap. apply elem_of_seq in Hx. lia.
  - done.
Qed.

Lemma alloc_init_elem b : 0 <= b < B -> b ∈ aq (alloc_init sc).
Proof.
  intros Hb. unfold alloc_init, ztab. cbn. apply list_elem_of_fmap. exists (Z.to_nat b).
  split; [lia|]. apply elem_of_seq. lia.
Qed.

Lemma alloc_init_free : free_pages sc (alloc_init sc) = N.
Proof.
  pose proof (g_block _ G). unfold free_pages, alloc_init, pages. cbn. rewrite zlen_ztab by lia. lia.
Qed.

(** The tables of a device nothing has been written to. *)
Record blank (s : ssdstate) : Prop := mk_blank {
  bl_params : ssdparams s = sc;
  bl_chnl : zlen (chnl_next_avail_time s) = CHANNEL_NB sc;
  bl_chip : zlen (chip_next_avail_time s) = F;
  bl_nvram : zlen (nvram_next_avail_time s) = B;
  bl_slot : num_gc_slots sc = Some (zlen (gc_slot s));
  bl_map : mapping_table s = ztab N (fun _ => -1);
  bl_nv : in_nvram s = ztab N (fun _ => -1);
  bl_inv : inverse_mapping_table s = ztab N (fun _ => mk_inverse_mapping_entry (-1) 0 []);
  bl_oob : NVRAM_OOB_TABLE s = ztab B (fun _ => mk_NVRAM_OOB_seg 0 0 0);
  bl_blk : blk_rep sc V0 None (block_state_table s);
  bl_empty : empty_block_list s = ztab F (empty_root F (alloc_init sc));
  bl_victim : victim_block_list s = ztab F (victim_root (alloc_init sc));
  bl_tempty : total_empty_block_nb s = F * B;
  bl_tvictim : total_victim_block_nb s = 0;
  bl_index : empty_block_table_index s = 0;
  bl_sb : sb_plane_nb (sb_deb s) = F - 1;
  bl_xl2p : xl2p_ppn s = -1;
  bl_log : nand_log s = [];
  bl_free : ctrs s stat_ppn_free = N;
  bl_ctrs : forall q, core_ctr q = true -> q <> stat_ppn_free -> ctrs s q = 0
}.

Lemma blank_lmap s l : blank s -> lmap s l = -1.
Proof.
  intros []. unfold lmap. destruct (zget _ l) as [p|] eqn:E; [|done].
  pose proof (zget_Some_range _ _ _ E) as Hl. pose proof (pages_bound sc G).
  rewrite bl_map0, zlen_ztab in Hl by lia. rewrite bl_map0, zget_ztab in E by done. by simplify_eq.
Qed.

Lemma blank_alloc s : blank s -> alloc_rep sc (alloc_init sc) s.
Proof.
  intros []. pose proof (g_block _ G). constructor; try done; [by apply alloc_init_wf|].
  constructor; try done; unfold alloc_init, cur_rows; cbn.
  - rewrite bl_tempty0, zlen_ztab by lia. unfold zlen. cbn. lia.
  - rewrite bl_tvictim0. unfold zlen. cbn. lia.
Qed.

Lemma blank_core s k :
  blank s -> 0 <= k < 2 ^ 32 -> core sc k (owner (mapping_table s)) V0 V0 V0 s.
Proof.
  intros Hb Hk. destruct (Hb). pose proof (pages_bound sc G) as HN. pose proof (g_block _ G).
  pose proof (g_chan _ G). destruct (geom_bounds _ G) as (? & ? & _).
  constructor; try done.
  - constructor; rewrite ?bl_params0; lia || done.
  - constructor; [rewrite bl_inv0; apply zlen_ztab; lia|]. intros p Hp. eexists (-1), [].
    split; [by rewrite bl_inv0, zget_ztab by done|]. split; [done|]. split; [lia|].
    intros x. cbn. unfold owner. rewrite bl_map0. destruct (zget _ x) as [q|] eqn:E; [|done].
    pose proof (zget_Some_range _ _ _ E) as Hx. rewrite zlen_ztab in Hx by lia.
    rewrite zget_ztab in E by done. simplify_eq. zcase. done.
  - constructor; [rewrite bl_free0|rewrite bl_ctrs0 by done..].
    + rewrite (sumZ_ext _ _ (fun _ => 1)) by done. rewrite sumZ_const by lia. rewrite u64_small; lia.
    + by rewrite sumZ_zero.
    + by rewrite sumZ_zero.
    + by rewrite sumZ_zero.
    + by rewrite sumZ_zero.
  - assert (forall b, seg_at (NVRAM_OOB_TABLE s) b = mk_NVRAM_OOB_seg 0 0 0) as Hseg.
    { intros b. unfold seg_at. rewrite bl_oob0. destruct (zget _ b) as [e|] eqn:E; [|done].
      pose proof (zget_Some_range _ _ _ E) as Hx. rewrite zlen_ztab in Hx by lia.
      rewrite zget_ztab in E by done. by simplify_eq. }
    constructor; [rewrite bl_oob0; apply zlen_ztab; lia| |rewrite bl_ctrs0 by done..].
    + intros b Hbr. cbv zeta. rewrite Hseg. cbn. unfold seg_entries. cbn. unfold OOB_ENTRY_PER_SEG. lia.
    + rewrite sumZ_zero; [done|]. intros. by rewrite Hseg.
    + rewrite sumZ_zero; [done|]. intros. by rewrite Hseg.
    + rewrite sumZ_zero; [done|]. intros. by rewrite Hseg.
    + rewrite sumZ_zero; [done|]. intros. by rewrite Hseg.
  - intros q Hq. rewrite bl_ctrs0; [lia|by destruct q|by intros ->].
Qed.

Lemma blank_inv s k :
  blank s -> 0 <= k < 2 ^ 32 ->
  ssd_inv sc k 0 (alloc_init sc) s /\ forall D, holds sc D (fun _ => None) s.
Proof.
  intros Hb Hk. destruct (Hb). pose proof (pages_bound sc G) as HN. pose proof (g_block _ G).
  pose proof (alloc_init_wf) as Hwf. split.
  - exists V0, V0. split; [|done]. unfold used. rewrite alloc_init_free, Z.sub_diag, Z.add_0_r.
    constructor; [|rewrite bl_log0; by apply nand_wf_init, alloc_init_elem].
    constructor.
    + eapply core_ext; [done..| |by apply blank_core]. intros b Hbr. cbv beta. zcase.
      symmetry. apply sumZ_zero. intros l Hl. by rewrite blank_lmap.
    + constructor; [done|lia| |].
      * intros p Hp. split; [|done]. intros _. left. apply alloc_init_elem. by apply block_of_range.
      * rewrite (sumZ_ext _ _ (fun _ => 1)) by done. rewrite sumZ_const, alloc_init_free; lia.
    + constructor; try done.
      * rewrite bl_map0. apply zlen_ztab. lia.
      * rewrite bl_nv0. apply zlen_ztab. lia.
      * intros l Hl. rewrite blank_lmap by done. lia.
      * by apply blank_alloc.
      * intros b Hbr. split; [|lia]. intros _. unfold rows. apply elem_of_app. left. by apply alloc_init_elem.
  - intros D l Hl. by rewrite blank_lmap.
Qed.
End InitRules.

(** A configuration file the device can be built from. *)
Record conf_file (ws : list string) (sc : ssdconf) (n : Z) : Prop := mk_conf_file {
  cf_accept : conf_rejected (read_conf (stream_size ws) ws rawconf0) = false;
  cf_derive : derive_conf (read_conf (stream_size ws) ws rawconf0) = Some sc;
  cf_raw : raw_ok (read_conf (stream_size ws) ws rawconf0);
  cf_slots : num_gc_slots (read_conf (stream_size ws) ws rawconf0) = Some n
}.

Lemma num_gc_slots_pos c n : raw_ok c -> num_gc_slots c = Some n -> 0 < n.
Proof.
  intros [] Hn. unfold num_gc_slots in Hn. rewrite ro_planes in Hn.
  destruct (_ =? _); [simplify_eq; lia|]. destruct (_ =? _); [simplify_eq; lia|].
  destruct (_ =? _); simplify_eq. lia.
Qed.

Lemma FTL_INIT_spec ws sc n :
  conf_file ws sc n -> wp (FTL_INIT (Some ws)) (fun _ s => geom sc /\ blank sc s) ssd_zero.
Proof.
  intros []. destruct (derive_geom _ _ cf_derive0 cf_raw0) as [G Hraw].
  pose proof (num_gc_slots_pos _ _ cf_raw0 cf_slots0) as Hn.
  pose proof (g_flash _ G). pose proof (g_block _ G). pose proof (g_chan _ G).
  unfold FTL_INIT, INIT_SSD_CONFIG. st_steps. cbn [raw ssdparams ssd_zero ssdconf0].
  rewrite cf_accept0, cf_derive0, cf_slots0. st_steps. destruct (Z.eqb_spec n 0); [lia|]. st_steps.
  rewrite <- Hraw in *. unfold INIT_MAPPING_TABLE, INIT_INVERSE_MAPPING_TABLE, INIT_NVRAM_OOB,
    INIT_BLOCK_STATE_TABLE. st_steps.
  cbn [ssdparams set_mapping_table set_in_nvram set_inverse_mapping_table set_NVRAM_OOB_TABLE
    set_nvram_next_avail_time set_chip_next_avail_time set_chnl_next_avail_time set_gc_slot set_ssdparams].
  rewrite (g_map _ G), (g_blocks _ G). fold (pages sc).
  eapply wp_mono; [apply (INIT_VALID_ARRAY_spec sc G); [done|cbn; f_equal; lia]|].
  intros ? s1 (t1 & -> & Ht1). st_step.
  eapply wp_mono; [by apply (INIT_EMPTY_BLOCK_LIST_spec sc G)|].
  intros ? s2 (t2 & Ht2 & ->). unfold INIT_VICTIM_BLOCK_LIST, INIT_PERF_CHECKER. st_steps.
  unfold set_ctr_list at 1. st_steps. cbn [foldl fst snd]. unfold INIT_STAT_COUNT, set_ctr_list. st_steps.
  cbn [foldl fst snd]. split; [done|].
  constructor; try reflexivity; cbn -[ctrs]; rewrite ?zlen_ztab by lia; try done.
  - rewrite (g_planes _ G), Z.mul_1_l. apply ztab_ext. intros. done.
  - ctr_simpl. cbn. rewrite (g_map _ G). apply u64_small. pose proof (pages_bound sc G). unfold pages in *. lia.
  - intros q Hq Hne. destruct q; try done; ctr_simpl; reflexivity.
Qed.

Lemma SSD_INIT_spec ws sc n trace s0 :
  conf_file ws sc n -> trace <> Some true ->
  wp (SSD_INIT (Some ws) true trace) (fun _ s => FTL_INIT (Some ws) ssd_zero = Ok tt s) s0.
Proof.
  intros Hf Ht. destruct (proj1 (wp_Ok _ _ _) (FTL_INIT_spec ws sc n Hf)) as ([] & s & E & _).
  unfold SSD_INIT. st_steps. eapply wp_of_eq; [exact E|]. st_steps.
  destruct trace as [[|]|]; [done|..]; by apply wp_ret.
Qed.

(** A warm-up file with anything in it stops the program. *)
Lemma SSD_INIT_warmup ws sc n s0 :
  conf_file ws sc n -> SSD_INIT (Some ws) true (Some true) s0 = Crash Uninitialised.
Proof.
  intros Hf. destruct (proj1 (wp_Ok _ _ _) (FTL_INIT_spec ws sc n Hf)) as ([] & s & E & _).
  unfold SSD_INIT, mbind, M_bind, modify. by rewrite E.
Qed.

