(* ===== verification/Device.v ===== *)
(** * The device: commands, reachable states and what they promise

    The commands the NVMe front end of hw/block/nvme.c issues to the SSD, the
    states they reach from a fresh device, and the properties of those
    states. *)

From Stdlib Require Import ZArith Lia List String.
From stdpp Require Import base tactics numbers list functions strings.
From S2P Require Import Prelude Config State Timing Perf Inverse Nvram Mapping Alloc Flash Invariant Gc Store Ftl Ssd Init.

Open Scope Z_scope.

(** ** Commands *)

Inductive command : Type :=
| Write (request1 : request_meta)
| Read (length sector_nb : Z)
| Discard (length sector_nb : Z)
| Remap (src_lpn dst_lpn len ope : Z).

Definition execute `{Clock} (c : command) : SM Z :=
  match c with
  | Write request1 => SSD_WRITE request1
  | Read length sector_nb => SSD_READ length sector_nb
  | Discard length sector_nb => femu_discard_process length sector_nb
  | Remap src_lpn dst_lpn len ope => SSD_REMAP src_lpn dst_lpn len ope
  end.

(** ** The invariant and the resources, in terms of the state *)

Definition device_inv (sc : ssdconf) (s : ssdstate) : Prop :=
  exists C V A, ginv sc 0 (-1) C V A s.

(** Room for [n] pages and [r] remaps: free pages beyond one superblock, which
    garbage collection copies into; reference counts below their 8 bits;
    interval counters below their 32 bits. *)
Record room (sc : ssdconf) (n r cost : Z) (s : ssdstate) : Prop := mk_room {
  ro_free : n + FLASH_NB sc * PAGE_NB sc - 1 <= ctrs s stat_ppn_free;
  ro_share : forall p, 0 <= p < pages sc -> sharers sc s p + r <= 127;
  ro_remaps : r <= 126;
  ro_count : budget (cost + (pages sc - ctrs s stat_ppn_free)) (ctrs s)
}.

Definition sectors_ok (sc : ssdconf) (length sector_nb : Z) : Prop :=
  0 <= sector_nb /\ 0 <= length < 2 ^ 32 /\ sector_nb + length <= SECTOR_NB sc.

(** The commands the FTL handles without running out of something. *)
Definition admissible (sc : ssdconf) (c : command) (St : store) (s : ssdstate) : Prop :=
  match c with
  | Write request1 => exists n, request_ok sc request1 n /\
      room sc n (request_remaps request1 n) (n * (BLOCK_NB sc + 2) + 2) s
  | Read length sector_nb => sectors_ok sc length sector_nb
  | Discard length sector_nb => sectors_ok sc length sector_nb
  | Remap src dst len ope =>
      0 <= len /\ 0 <= src /\ src + len <= pages sc /\ 0 <= dst /\ dst + len <= pages sc /\
      copies_ok (ope =? REMAP_MOVE) (Z.to_nat len) src dst St /\
      room sc len len (len * (2 * BLOCK_NB sc + 5)) s
  end.

(** The number of pages of a range of sectors. *)
Definition sector_pages (sc : ssdconf) (length sector_nb : Z) : nat :=
  Z.to_nat (span_pages sc (write_span sc sector_nb length)).

(** What a command does to the store; [ver i] is the version the [i]-th page
    of a write carries. *)
Definition effect (sc : ssdconf) (ver : Z -> Z) (c : command) (St St' : store) : Prop :=
  match c with
  | Write request1 => exists n, request_ok sc request1 n /\ request_write sc ver request1 n St St'
  | Read _ _ => St' = St
  | Discard length sector_nb =>
      St' = discards (sector_pages sc length sector_nb) (Z.quot sector_nb (SECTORS_PER_PAGE sc)) St
  | Remap src dst len ope => St' = remap_effect ope (Z.to_nat len) src dst St
  end.

(** ** Reachable states *)

(** A state, what the flash holds in it and the store that represents.  The
    contents follow the commands the FTL issues. *)
Inductive reach `{Clock} (sc : ssdconf) : contents -> store -> ssdstate -> Prop :=
| reach_init ws n D s :
    conf_file ws sc n -> FTL_INIT (Some ws) ssd_zero = Ok tt s -> reach sc D (fun _ => None) s
| reach_step D St s c ver r D' St' s' :
    reach sc D St s -> admissible sc c St s -> execute c s = Ok r s' ->
    effect sc ver c St St' -> evolved sc D s D' s' -> holds sc D' St' s' -> reach sc D' St' s'.

(** ** Lemmas *)

Section DeviceRules.
Context `{Clock}.
Variable sc : ssdconf.
Implicit Types (s : ssdstate) (St : store).

Lemma ginv_geom k g C V A s : ginv sc k g C V A s -> geom sc.
Proof. intros Hg. apply Hg. Qed.

Lemma ginv_free k C V A s : ginv sc k (-1) C V A s -> ctrs s stat_ppn_free = free_pages sc A.
Proof.
  intros Hg. pose proof (ginv_geom _ _ _ _ _ _ Hg) as G.
  pose proof (free_pages_le sc G _ _ _ _ _ _ Hg). pose proof (pages_bound sc G).
  destruct Hg as [[[] [] _] _]. rewrite (sr_free _ _ _ co_stat), vl_count. apply u64_small. lia.
Qed.

Lemma ginv_budget k k' g C V A s :
  ginv sc k g C V A s -> budget k' (ctrs s) -> ginv sc k' g C V A s.
Proof. intros [[[] Hl Ho] Hlog] Hb. constructor; [|done]. by constructor. Qed.

(** The resources of a command in the form its proof uses them. *)
Lemma room_inv n r cost s :
  device_inv sc s -> room sc n r cost s -> exists A,
    ssd_inv sc cost (127 - r) A s /\ n + FLASH_NB sc * PAGE_NB sc - 1 <= free_pages sc A.
Proof.
  intros (C & V & A & Hg) [Hf Hs _ Hc]. exists A. rewrite <- (ginv_free _ _ _ _ _ Hg). split; [|done].
  exists C, V. split.
  - unfold used. rewrite <- (ginv_free _ _ _ _ _ Hg). by eapply ginv_budget.
  - intros q Hq. specialize (Hs q Hq). destruct Hg as [[Hc' _ Ho] _].
    rewrite (nodes_sharers sc _ _ _ _ _ _ Hc' (ou_map _ _ _ _ Ho)) by done. lia.
Qed.

Lemma ssd_inv_device k m A s : 0 <= k -> ssd_inv sc k m A s -> device_inv sc s.
Proof.
  intros Hk (C & V & Hg & _). exists C, V, A. eapply ginv_le; [|exact Hg].
  pose proof (free_pages_le sc (ginv_geom _ _ _ _ _ _ Hg) _ _ _ _ _ _ Hg). unfold used. lia.
Qed.

Lemma device_geom s : device_inv sc s -> geom sc.
Proof. intros (C & V & A & Hg). by eapply ginv_geom. Qed.

Lemma write_step D St ver request1 n s :
  device_inv sc s -> holds sc D St s -> request_ok sc request1 n ->
  room sc n (request_remaps request1 n) (n * (BLOCK_NB sc + 2) + 2) s ->
  wp (SSD_WRITE request1) (fun _ s' => device_inv sc s' /\ exists St',
    request_write sc ver request1 n St St' /\ sim sc (D, s) St' s') s.
Proof.
  intros Hd Hsim Hrq Hroom. pose proof (device_geom _ Hd) as G.
  destruct (room_inv _ _ _ _ Hd Hroom) as (A & Hi & Hf). destruct Hroom.
  unfold SSD_WRITE, FTL_WRITE. st_step. eapply wp_mono.
  { eapply (_FTL_WRITE_spec sc G (D, s) 0 (127 - request_remaps request1 n) n A St ver); try done; [|lia..]. by apply sim_here. }
  intros r s' (A' & St' & Hi' & _ & Hw & Hsim'). st_step. split; [eapply (ssd_inv_device 0); [lia|eassumption]|eauto].
Qed.

Lemma read_step D St length sector_nb s :
  device_inv sc s -> holds sc D St s -> sectors_ok sc length sector_nb ->
  wp (SSD_READ length sector_nb) (fun _ s' => device_inv sc s' /\ sim sc (D, s) St s' /\ same_map s s' /\
    nand_log s' = read_cmds sc s (sector_pages sc length sector_nb)
                    (Z.quot sector_nb (SECTORS_PER_PAGE sc)) ++ nand_log s) s.
Proof.
  intros Hd Hsim (Hs & Hl & He). pose proof (device_geom _ Hd) as G. destruct Hd as (C & V & A & Hg).
  pose proof (free_pages_le sc G _ _ _ _ _ _ Hg). unfold SSD_READ, FTL_READ. eapply wp_mono.
  { apply (_FTL_READ_spec sc G (- used sc A) 127 A); [|done..]. exists C, V.
    rewrite Z.add_opp_diag_l. split; [done|]. intros q Hq.
    destruct (ir_entry _ _ _ _ (co_inv _ _ _ _ _ _ _ (pi_core _ _ _ _ _ _ _ _ _ _ (gi_pinv _ _ _ _ _ _ _ Hg))) q Hq)
      as (? & ? & _ & _ & ? & _). done. }
  intros r s' ((C' & V' & Hg' & _) & Hm & Hlog). rewrite Z.add_opp_diag_l in Hg'.
  split; [by exists C', V', A|]. split; [|done].
  eapply sim_reads; [exact Hm|exact Hlog|apply read_cmds_read|by apply sim_here].
Qed.

Lemma discard_step D St length sector_nb s :
  device_inv sc s -> holds sc D St s -> sectors_ok sc length sector_nb ->
  wp (femu_discard_process length sector_nb) (fun r s' => r = SUCCESS /\ device_inv sc s' /\
    sim sc (D, s) (discards (sector_pages sc length sector_nb)
              (Z.quot sector_nb (SECTORS_PER_PAGE sc)) St) s' /\ nand_log s' = nand_log s) s.
Proof.
  intros Hd Hsim (Hs & Hl & He). pose proof (device_geom _ Hd) as G. destruct Hd as (C & V & A & Hg).
  eapply wp_mono.
  { apply (discard_spec sc G (D, s) (- used sc A) 127 A St); [|by apply sim_here|done..]. exists C, V.
    rewrite Z.add_opp_diag_l. split; [done|]. intros q Hq.
    destruct (ir_entry _ _ _ _ (co_inv _ _ _ _ _ _ _ (pi_core _ _ _ _ _ _ _ _ _ _ (gi_pinv _ _ _ _ _ _ _ Hg))) q Hq)
      as (? & ? & _ & _ & ? & _). done. }
  intros r s' (-> & (C' & V' & Hg' & _) & Hsim' & Hlog). rewrite Z.add_opp_diag_l in Hg'.
  split; [done|]. split; [by exists C', V', A|done].
Qed.

Lemma remap_step D St src dst len ope s :
  device_inv sc s -> holds sc D St s -> admissible sc (Remap src dst len ope) St s ->
  wp (SSD_REMAP src dst len ope) (fun r s' => r = SUCCESS /\ device_inv sc s' /\
    sim sc (D, s) (remap_effect ope (Z.to_nat len) src dst St) s') s.
Proof.
  intros Hd Hsim (Hlen & Hs0 & Hs1 & Hd0 & Hd1 & Hok & Hroom). pose proof (device_geom _ Hd) as G.
  destruct (room_inv _ _ _ _ Hd Hroom) as (A & Hi & Hf). destruct Hroom. eapply wp_mono.
  { eapply (SSD_REMAP_spec sc G (D, s) 0 (127 - len) A St); try done; [|lia..]. by apply sim_here. }
  intros r s' (-> & A' & Hi' & Hsim'). split; [done|]. split; [eapply (ssd_inv_device 0); [lia|eassumption]|done].
Qed.

Lemma execute_step c ver D St s :
  device_inv sc s -> holds sc D St s -> admissible sc c St s ->
  wp (execute c) (fun _ s' => device_inv sc s' /\ exists St',
    effect sc ver c St St' /\ sim sc (D, s) St' s') s.
Proof.
  intros Hd Hsim Hadm. destruct c as [rq|length sector|length sector|src dst len ope]; cbn [execute].
  - destruct Hadm as (n & Hrq & Hroom). eapply wp_mono; [by eapply (write_step D St ver)|].
    intros r s' (Hd' & St' & Hw & Hsim'). split; [done|]. exists St'. split; [by exists n|done].
  - eapply wp_mono; [by eapply (read_step D St)|]. intros r s' (Hd' & Hsim' & _). split; [done|].
    by exists St.
  - eapply wp_mono; [by eapply (discard_step D St)|]. intros r s' (_ & Hd' & Hsim' & _).
    split; [done|]. eexists. by split.
  - eapply wp_mono; [by eapply (remap_step D St)|]. intros r s' (_ & Hd' & Hsim').
    split; [done|]. eexists. by split.
Qed.

Lemma blank_device D s : geom sc -> blank sc s -> device_inv sc s /\ holds sc D (fun _ => None) s.
Proof.
  intros G Hb. destruct (blank_inv sc G s 0 Hb ltac:(lia)) as [Hi Hsim].
  split; [eapply (ssd_inv_device 0); [lia|eassumption]|done].
Qed.

Lemma reach_device D St s : reach sc D St s -> device_inv sc s /\ holds sc D St s.
Proof.
  induction 1 as [ws n D s Hcf Hinit|D St s c ver r D' St' s' _ [Hd Hsim] Hadm Hex Heff Hev Hsim'].
  - pose proof (FTL_INIT_spec ws sc n Hcf) as Hw. unfold wp in Hw. rewrite Hinit in Hw.
    destruct Hw as [G Hb]. by apply blank_device.
  - split; [|done]. pose proof (execute_step c ver D St s Hd Hsim Hadm) as Hw. unfold wp in Hw.
    rewrite Hex in Hw. apply Hw.
Qed.
End DeviceRules.
