(* ===== verification/Views.v ===== *)
(** * The invariant read off the state

    The invariant of Invariant.v speaks about ghost functions and an abstract
    allocator; here it is read off the arrays and lists of the state itself:
    reference counts, nodes, the rows in the lists, the pages programmed on
    the flash. *)

From Stdlib Require Import ZArith Lia List.
From stdpp Require Import base tactics numbers list functions.
From S2P Require Import Prelude Config State Timing Perf Inverse Nvram Mapping Alloc Flash Invariant Gc Store Ftl Ssd Init Device.

Open Scope Z_scope.

(** The count stored for physical page [p]. *)
Definition refs (sc : ssdconf) (s : ssdstate) (p : Z) : Z :=
  match zget (block_state_table s) (p / PAGE_NB sc) with
  | Some e => match zget (valid_array e) (p mod PAGE_NB sc) with Some v => v | None => 0 end
  | None => 0
  end.

(** The logical pages in the nodes of physical page [p], and their number as
    the table has it. *)
Definition nodes (s : ssdstate) (p : Z) : list Z :=
  match zget (inverse_mapping_table s) p with Some e => i_list e | None => [] end.

Definition node_count (s : ssdstate) (p : Z) : Z :=
  match zget (inverse_mapping_table s) p with Some e => lpn_cnt e | None => 0 end.

(** The blocks of chip [i] in its lists: empty ones, the one being written,
    victims. *)
Definition empty_rows (s : ssdstate) (i : Z) : list Z :=
  match zget (empty_block_list s) i with Some r => phy_block_nb <$> empty_head r | None => [] end.

Definition open_rows (s : ssdstate) (i : Z) : list Z :=
  match zget (empty_block_list s) i with
  | Some r => match head r with Some e => [phy_block_nb e] | None => [] end
  | None => []
  end.

Definition victim_rows (s : ssdstate) (i : Z) : list Z :=
  match zget (victim_block_list s) i with Some r => v_phy_block_nb <$> v_list r | None => [] end.

(** The time at which a chip, a channel, the NVRAM of a superblock is free. *)
Definition chip_at (s : ssdstate) (f : Z) : Z :=
  match zget (chip_next_avail_time s) f with Some t => t | None => 0 end.

Definition chnl_at (s : ssdstate) (c : Z) : Z :=
  match zget (chnl_next_avail_time s) c with Some t => t | None => 0 end.

Definition nvram_at (s : ssdstate) (b : Z) : Z :=
  match zget (nvram_next_avail_time s) b with Some t => t | None => 0 end.

(** The valid pages of a superblock, counted in the table. *)
Definition row_live (sc : ssdconf) (s : ssdstate) (b : Z) : Z := row_valid sc (refs sc s) b.

Definition mapped_lpns (sc : ssdconf) (s : ssdstate) : Z :=
  sumZ (pages sc) (fun l => b2z (negb (lmap s l =? -1))).

(** The pages a write without remaps leaves behind. *)
Definition written (ver : Z -> Z) (n l : Z) (St : store) : store := fun x =>
  if (l <=? x) && (x <? l + n) then Some (ver (x - l)) else St x.

(** The sum over logical pages of a function of their physical page, counted
    page by page. *)
Lemma sumZ_swap n m (f : Z -> Z -> Z) :
  0 <= n -> sumZ n (fun i => sumZ m (fun j => f i j)) = sumZ m (fun j => sumZ n (fun i => f i j)).
Proof.
  intros Hn. pattern n. apply natlike_ind; [..|done].
  - symmetry. by apply sumZ_zero.
  - intros x Hx IH. rewrite <- Z.add_1_r, sumZ_succ, IH by done. rewrite <- sumZ_add.
    apply sumZ_ext. intros j Hj. by rewrite sumZ_succ.
Qed.

Section Views.
Variable sc : ssdconf.
Implicit Types (s : ssdstate) (A : alloc).
Local Abbreviation F := (FLASH_NB sc).
Local Abbreviation P := (PAGE_NB sc).
Local Abbreviation N := (pages sc).

Lemma refs_view V s p :
  geom sc -> blk_rep sc V None (block_state_table s) -> 0 <= p < N -> refs sc s p = V p.
Proof.
  intros G Hb Hp. unfold refs.
  destruct (br_entry _ _ _ _ Hb (p / P) (block_index_range sc G p Hp)) as (e & -> & _ & Hv & _).
  rewrite Hv by apply (page_of_range sc G p). f_equal. pose proof (Z.div_mod p P). destruct G. unfold page_of. lia.
Qed.

Lemma nodes_view R C s p :
  inv_rep N R C (inverse_mapping_table s) -> 0 <= p < N ->
  node_count s p = C p /\ zlen (nodes s p) = C p /\ forall l, occ l (nodes s p) = R l p.
Proof.
  intros Hi Hp. unfold node_count, nodes.
  by destruct (ir_entry _ _ _ _ Hi p Hp) as (fp & l & -> & Hl & _ & Ho).
Qed.

Lemma lists_view A s i :
  alloc_rep sc A s -> 0 <= i < F ->
  empty_rows s i = aq A /\ open_rows s i = cur_rows A /\ victim_rows s i = av A.
Proof.
  intros [_ _ [He Hv _ _] _ _] Hi. unfold empty_rows, open_rows, victim_rows, cur_rows.
  rewrite He, Hv, !zget_ztab by done. unfold empty_root, victim_root. cbn [empty_head head v_list].
  rewrite <- !list_fmap_compose. destruct (acur A) as [[b n]|]; simpl;
    (split; [|split; [done|]]); by rewrite list_fmap_id.
Qed.

Lemma row_live_view V s b :
  geom sc -> blk_rep sc V None (block_state_table s) -> 0 <= b < BLOCK_NB sc ->
  row_live sc s b = row_valid sc V b.
Proof.
  intros G Hb Hr. unfold row_live, row_valid, block_valid. apply sumZ_ext. intros f Hf.
  apply sumZ_ext. intros i Hi. by rewrite (refs_view V) by (try done; by apply addr_range).
Qed.

(** Every mapped logical page is counted at its physical page. *)
Lemma sharers_sum s :
  0 <= N -> (forall l, 0 <= l < N -> -1 <= lmap s l < N) ->
  sumZ N (sharers sc s) = mapped_lpns sc s.
Proof.
  intros HN Hr. unfold sharers, mapped_lpns. rewrite sumZ_swap by done. apply sumZ_ext. intros l Hl.
  destruct (Z.eqb_spec (lmap s l) (-1)) as [E|E].
  - apply sumZ_zero. intros p Hp. rewrite E. by destruct (Z.eqb_spec (-1) p); [lia|].
  - specialize (Hr l Hl). rewrite (sumZ_single N (lmap s l)).
    + by rewrite Z.eqb_refl.
    + lia.
    + intros q Hq Hne. destruct (Z.eqb_spec (lmap s l) q); [congruence|done].
Qed.

(** The sums behind the statistics fit their 64 bits. *)
Lemma sum_small n m f :
  0 <= n < 2 ^ 31 -> 0 <= m <= 2 ^ 31 -> (forall i, 0 <= i < n -> 0 <= f i <= m) ->
  u64 (sumZ n f) = sumZ n f.
Proof.
  intros Hn Hm Hf. apply u64_small. split; [apply sumZ_nonneg; apply Hf|].
  assert (sumZ n f <= n * m) as Hle.
  { rewrite <- sumZ_const by lia. apply sumZ_le. apply Hf. }
  nia.
Qed.

Lemma count_small n (g : Z -> bool) :
  0 <= n < 2 ^ 31 -> u64 (sumZ n (fun i => b2z (g i))) = sumZ n (fun i => b2z (g i)).
Proof. intros Hn. apply (sum_small n 1); [lia..|]. intros i _. destruct (g i); simpl; lia. Qed.

(** Every page is free, valid or invalid. *)
Lemma count_partition n V :
  0 <= n -> (forall p, 0 <= p < n -> -1 <= V p) ->
  sumZ n (fun p => b2z (V p =? 0)) + sumZ n (fun p => b2z (0 <? V p))
    + sumZ n (fun p => b2z (V p =? -1)) = n.
Proof.
  intros Hn HV. rewrite <- !sumZ_add. rewrite (sumZ_ext _ _ (fun _ => 1)).
  - rewrite sumZ_const; lia.
  - intros p Hp. specialize (HV p Hp). unfold b2z. zcases; lia.
Qed.

(** A page that has been allocated is one the flash has programmed. *)
Lemma used_filled A f b i :
  geom sc -> alloc_wf sc A -> 0 <= f < F -> 0 <= i < P ->
  ~ is_free sc A f b i -> i < filled sc A f b.
Proof.
  intros G Hwf Hf Hi Hn. unfold filled, is_free in *. case_bool_decide as Hq; [tauto|].
  destruct (acur A) as [[b' n]|] eqn:E; [|lia]. destruct (Z.eqb_spec b b') as [->|]; [|lia].
  assert (i * F + f < n) as Hin.
  { apply Z.nle_gt. intros Hle. apply Hn. right. by exists n. }
  unfold pages_used. pose proof (g_flash _ G).
  apply Z.lt_le_trans with (i + 1); [lia|]. apply Z.div_le_lower_bound; nia.
Qed.

Lemma addr_inj f b i f' b' i' :
  0 <= b < BLOCK_NB sc -> 0 <= i < P -> 0 <= b' < BLOCK_NB sc -> 0 <= i' < P ->
  addr sc f b i = addr sc f' b' i' -> (f, b, i) = (f', b', i').
Proof.
  intros Hb Hi Hb' Hi' E. pose proof (f_equal (flash_of sc) E) as E1.
  pose proof (f_equal (block_of sc) E) as E2. pose proof (f_equal (page_of sc) E) as E3.
  rewrite !flash_of_addr in E1 by done. rewrite !block_of_addr in E2 by done.
  rewrite !page_of_addr in E3 by done. congruence.
Qed.

(** Consecutive pages come from consecutive chips. *)
Lemma alloc_next_chip A A' A'' f b i f' b' i' :
  geom sc -> alloc_wf sc A -> alloc_next sc A = Some (f, b, i, A') ->
  alloc_next sc A' = Some (f', b', i', A'') -> f' = (f + 1) mod F.
Proof.
  intros G Hwf H1 H2. pose proof (g_flash _ G). pose proof (g_page _ G).
  assert (exists n, f = n mod F /\ acur A' = Some (b, n + 1) /\ 0 <= n < F * P) as (n & -> & E & Hn).
  { unfold alloc_next in H1. destruct (acur A) as [[b0 n]|] eqn:Ec.
    - pose proof (aw_cur _ _ Hwf _ _ Ec). destruct (Z.ltb_spec n (F * P)).
      + simplify_eq. exists n. split_and!; try done; lia.
      + destruct (aq A); [done|]. simplify_eq. exists 0. rewrite Z.mod_0_l by lia. split_and!; try done; nia.
    - destruct (aq A); [done|]. simplify_eq. exists 0. rewrite Z.mod_0_l by lia. split_and!; try done; nia. }
  rewrite Z.add_mod_idemp_l by lia. unfold alloc_next in H2. rewrite E in H2.
  destruct (Z.ltb_spec (n + 1) (F * P)); [by simplify_eq|].
  destruct (aq A'); [done|]. simplify_eq. replace (n + 1) with (P * F) by lia. by rewrite Z.mod_mul by lia.
Qed.
End Views.

(** ** The booked times *)

Lemma times_view s f :
  timing_wf s -> 0 <= f < FLASH_NB (ssdparams s) ->
  let c := f mod CHANNEL_NB (ssdparams s) in
  zget (chnl_next_avail_time s) c = Some (chnl_at s c) /\
  zget (chip_next_avail_time s) f = Some (chip_at s f).
Proof.
  intros Hw Hf c. destruct (timing_lookup s f Hw Hf) as (chnl & chip & E1 & E2).
  unfold chnl_at, chip_at. unfold c. by rewrite E1, E2.
Qed.

Lemma chip_at_set s s' f v g :
  chip_next_avail_time s' = zset f v (chip_next_avail_time s) ->
  0 <= f < zlen (chip_next_avail_time s) -> chip_at s' g = if f =? g then v else chip_at s g.
Proof.
  intros E Hf. unfold chip_at. rewrite E. destruct (Z.eqb_spec f g) as [->|].
  - by rewrite zget_zset_eq by done.
  - by rewrite zget_zset_ne.
Qed.

Lemma chnl_at_set s s' c v g :
  chnl_next_avail_time s' = zset c v (chnl_next_avail_time s) ->
  0 <= c < zlen (chnl_next_avail_time s) -> chnl_at s' g = if c =? g then v else chnl_at s g.
Proof.
  intros E Hf. unfold chnl_at. rewrite E. destruct (Z.eqb_spec c g) as [->|].
  - by rewrite zget_zset_eq by done.
  - by rewrite zget_zset_ne.
Qed.

(** ** Writes without remaps *)

Lemma pages_write_plain ver info n i l St St' :
  pages_write ver info n i l St St' -> (forall j, i <= j < i + Z.of_nat n ->
    exists li, zget info j = Some li /\ remap_flag (flag li) = false) ->
  forall x, St' x = written (fun j => ver (i + j)) (Z.of_nat n) l St x.
Proof.
  induction 1 as [i l St|n i l li St St1 St2 Hli Hw _ IH]; intros Hinfo x; unfold written.
  - by zcases; try lia.
  - rewrite IH by (intros j Hj; apply Hinfo; lia). destruct (Hinfo i ltac:(lia)) as (li' & E & Hf).
    replace li' with li in * by congruence. unfold remap_flag in Hf.
    rewrite !orb_false_iff, !Z.eqb_neq in Hf. destruct Hw as [|[]|]; try tauto.
    unfold written, put. zcases; try lia; try (do 2 f_equal; lia); done.
Qed.

Lemma remap_count_plain info n i :
  (forall j, i <= j < i + Z.of_nat n ->
    exists li, zget info j = Some li /\ remap_flag (flag li) = false) ->
  remap_count info n i = 0.
Proof.
  revert i. induction n as [|n IH]; intros i Hinfo; cbn [remap_count]; [done|].
  destruct (Hinfo i ltac:(lia)) as (li & -> & ->). rewrite IH; [done|].
  intros j Hj. apply Hinfo. lia.
Qed.

(** ** Discards and remaps, page by page *)

Lemma discards_at n l St x :
  discards n l St x = if (l <=? x) && (x <? l + Z.of_nat n) then None else St x.
Proof.
  revert l St. induction n as [|n IH]; intros l St; cbn [discards].
  - by zcases; try lia.
  - rewrite IH. unfold put. by zcases; try lia.
Qed.

(** The ranges of a remap do not overlap. *)
Definition disjoint_ranges (src dst len : Z) : Prop := src + len <= dst \/ dst + len <= src.

(** The store after [len] pages have been copied from [src] to [dst]; a move
    empties the source. *)
Definition ranged (move : bool) (src dst len : Z) (St : store) : store := fun x =>
  if (dst <=? x) && (x <? dst + len) then St (src + (x - dst))
  else if move && (src <=? x) && (x <? src + len) then None
  else St x.

Lemma copies_at move n src dst St x :
  disjoint_ranges src dst (Z.of_nat n) ->
  copies move n src dst St x = ranged move src dst (Z.of_nat n) St x.
Proof.
  unfold disjoint_ranges. revert src dst St. induction n as [|n IH]; intros src dst St Hd; cbn [copies].
  - unfold ranged. by destruct move; zcases; try lia.
  - rewrite IH by lia. unfold ranged, put. destruct move; cbn [andb];
      zcases; try lia; try done; f_equal; lia.
Qed.

Lemma copies_ok_disjoint move n src dst St :
  disjoint_ranges src dst (Z.of_nat n) ->
  (forall x, src <= x < src + Z.of_nat n -> St x <> None) -> copies_ok move n src dst St.
Proof.
  unfold disjoint_ranges. revert src dst St. induction n as [|n IH]; intros src dst St Hd Hs; cbn [copies_ok]; [done|].
  split; [apply Hs; lia|]. apply IH; [lia|]. intros x Hx. specialize (Hs x ltac:(lia)). unfold put.
  destruct move; zcases; try lia; done.
Qed.

(** ** Sizes and ranges

    Every array has the size of the geometry, and every entry is in the range
    its users take it to be in: an index of the array it refers to, or a number
    that fits its type. *)
Record typed (sc : ssdconf) (s : ssdstate) : Prop := mk_typed {
  ty_map : zlen (mapping_table s) = pages sc /\ List.Forall (fun p => -1 <= p < pages sc) (mapping_table s);
  ty_nvram : zlen (in_nvram s) = pages sc;
  ty_inverse : zlen (inverse_mapping_table s) = pages sc /\
    List.Forall (fun e => lpn_cnt e = zlen (i_list e) /\ lpn_cnt e <= 127 /\
      List.Forall (fun l => 0 <= l < pages sc) (i_list e)) (inverse_mapping_table s);
  ty_block : zlen (block_state_table s) = FLASH_NB sc * BLOCK_NB sc /\
    List.Forall (fun e => zlen (valid_array e) = PAGE_NB sc /\ List.Forall (fun v => -1 <= v <= 127) (valid_array e) /\
      0 <= valid_page_nb e <= PAGE_NB sc) (block_state_table s);
  ty_oob : zlen (NVRAM_OOB_TABLE s) = BLOCK_NB sc /\
    List.Forall (fun e => 0 <= alloc_seg e /\ 0 <= free_entry e < OOB_ENTRY_PER_SEG /\ 0 <= invalid_entry e)
      (NVRAM_OOB_TABLE s);
  ty_lists : zlen (empty_block_list s) = FLASH_NB sc /\ zlen (victim_block_list s) = FLASH_NB sc /\
    0 <= empty_block_table_index s < FLASH_NB sc;
  ty_times : zlen (chip_next_avail_time s) = FLASH_NB sc /\ zlen (chnl_next_avail_time s) = CHANNEL_NB sc /\
    zlen (nvram_next_avail_time s) = BLOCK_NB sc
}.

Section Typed.
Context (sc : ssdconf) (C V L : Z -> Z) (k : Z) (R : Z -> Z -> Z) (s : ssdstate).
Hypothesis Hcore : core sc k R C V L s.

Lemma inverse_typed :
  (forall x p, 0 < R x p -> 0 <= x < pages sc) ->
  List.Forall (fun e => lpn_cnt e = zlen (i_list e) /\ lpn_cnt e <= 127 /\
    List.Forall (fun l => 0 <= l < pages sc) (i_list e)) (inverse_mapping_table s).
Proof.
  intros HR. destruct (co_inv _ _ _ _ _ _ _ Hcore) as [Hlen He]. apply Forall_zget. intros p e E.
  pose proof (zget_Some_range _ _ _ E) as Hp. rewrite Hlen in Hp. destruct (He p Hp) as (fp & l & E' & Hl & Hc & Ho).
  rewrite E in E'. injection E' as ->. cbn. split_and!; [done|done|]. apply list.Forall_forall. intros x Hx.
  apply (HR x p). rewrite <-Ho. by apply occ_pos_elem.
Qed.

Lemma block_typed :
  0 < PAGE_NB sc ->
  List.Forall (fun e => zlen (valid_array e) = PAGE_NB sc /\ List.Forall (fun v => -1 <= v <= 127) (valid_array e) /\
    0 <= valid_page_nb e <= PAGE_NB sc) (block_state_table s).
Proof.
  intros HP. destruct (co_blk _ _ _ _ _ _ _ Hcore) as [Hlen He Hr]. apply Forall_zget. intros i e E.
  pose proof (zget_Some_range _ _ _ E) as Hi. rewrite Hlen in Hi. destruct (He i Hi) as (e' & E' & Hl & Hv & Hn).
  rewrite E in E'. injection E' as <-. split_and!; [done| | |].
  - apply Forall_zget. intros j v Ev. pose proof (zget_Some_range _ _ _ Ev) as Hj. rewrite Hl in Hj.
    rewrite Hv in Ev by done. injection Ev as <-. apply Hr. unfold pages. by apply radix_range.
  - rewrite Hn by done. apply sumZ_nonneg. intros j _. destruct (0 <? _); simpl; lia.
  - rewrite Hn by done. transitivity (sumZ (PAGE_NB sc) (fun _ => 1)); [|rewrite sumZ_const; lia].
    apply sumZ_le. intros j _. destruct (0 <? _); simpl; lia.
Qed.

End Typed.
