(* ===== verification/Nvme.v ===== *)
(** * The NVMe front end: hw/block/nvme.c

    The controller that carries out the guest's commands: the address lists of
    a command, the checks on it, the metadata that comes with a write, the
    copy between guest memory and the storage the emulator keeps on its heap,
    and the calls into the SSD of Ssd.v.

    Guest memory and the heap storage are functions from addresses to bytes.
    What QEMU provides is in two classes: [Guest] is the mapping of guest
    memory for DMA, [Backend] the block device behind the controller,
    interrupts and the counter of the processor.  There is no controller memory
    buffer ([cmbsz] is 0, the default). *)

From Stdlib Require Import ZArith Lia List.
From stdpp Require Import base tactics numbers list functions.
From S2P Require Import Prelude Config State Timing Ftl Ssd.

Open Scope Z_scope.

(** ** Constants of nvme.h and femu-oc.h *)

Definition NVME_CMD_FLUSH : Z := 0.
Definition NVME_CMD_WRITE : Z := 1.
Definition NVME_CMD_READ : Z := 2.
Definition NVME_CMD_WRITE_UNCOR : Z := 4.
Definition NVME_CMD_COMPARE : Z := 5.
Definition NVME_CMD_WRITE_ZEROS : Z := 8.
Definition NVME_CMD_DSM : Z := 9.
Definition FEMU_OC_CMD_HYBRID_WRITE : Z := 129.
Definition FEMU_OC_CMD_ERASE_ASYNC : Z := 144.
Definition FEMU_OC_CMD_PHYS_WRITE : Z := 145.
Definition FEMU_OC_CMD_PHYS_READ : Z := 146.

Definition NVME_SUCCESS : Z := 0.
Definition NVME_INVALID_OPCODE : Z := 1.
Definition NVME_INVALID_FIELD : Z := 2.
Definition NVME_INTERNAL_DEV_ERROR : Z := 6.
Definition NVME_INVALID_NSID : Z := 11.
Definition NVME_LBA_RANGE : Z := 128.
Definition NVME_UNRECOVERED_READ : Z := 641.
Definition NVME_CMP_FAILURE : Z := 645.
Definition NVME_DNR : Z := 16384.
Definition NVME_NO_COMPLETE : Z := 65535.

Definition NVME_ONCS_COMPARE : Z := 1.
Definition NVME_ONCS_WRITE_UNCORR : Z := 2.
Definition NVME_ONCS_DSM : Z := 4.
Definition NVME_ONCS_WRITE_ZEROS : Z := 8.
Definition NVME_RW_PRINFO_PRACT : Z := 8192.
Definition NVME_DSMGMT_AD : Z := 4.
Definition DPS_TYPE_MASK : Z := 7.
Definition BDRV_SECTOR_BITS : Z := 9.
Definition FEMU_WHITEBOX_MODE : Z := 0.
Definition FEMU_BLACKBOX_MODE : Z := 1.
Definition PI_BYTES_NVME : Z := 24.
Definition WAL_WRITE : Z := 100.

(** [flags & mask] as a condition. *)
Definition has (flags mask : Z) : bool := negb (Z.land flags mask =? 0).

(** ** Bytes *)

Definition memory : Type := Z -> Z.

(** Little- and big-endian numbers of [n] bytes at [a]. *)
Fixpoint le (m : memory) (a : Z) (n : nat) : Z :=
  match n with O => 0 | S n' => u8 (m a) + 256 * le m (a + 1) n' end.

Fixpoint be (m : memory) (a : Z) (n : nat) : Z :=
  match n with O => 0 | S n' => u8 (m a) * 256 ^ Z.of_nat n' + be m (a + 1) n' end.

(** Byte [k] of a little-endian number. *)
Definition le_byte (v k : Z) : Z := u8 (Z.shiftr v (8 * k)).

(** [memcpy(dst + d, src + s, len)] *)
Definition blit (dst : memory) (d : Z) (src : memory) (s len : Z) : memory := fun a =>
  if (d <=? a) && (a <? d + len) then src (a - d + s) else dst a.

(** ** Data *)

Record NvmeLBAF : Type := mk_NvmeLBAF {
  ms : Z;
  ds : Z
}.

(** The bad blocks of a unit: the number of its blocks and a byte for each. *)
Record FEMU_OC_Bbt : Type := mk_FEMU_OC_Bbt {
  tblks : Z;
  bb_blk : list Z
}.

(** The bitmaps have a bit for every block of the namespace.  The last four
    fields belong to the open-channel mode: the table of logical pages (its
    place on the block device, its size and its entries) and the bad blocks. *)
Record NvmeNamespace : Type := mk_NvmeNamespace {
  ns_id : Z;
  nsze : Z;
  flbas : Z;
  lbaf : list NvmeLBAF;
  ns_dps : Z;
  start_block : Z;
  util : Z -> bool;
  uncorrectable : Z -> bool;
  nlbaf : Z;
  ns_mc : Z;
  ns_dpc : Z;
  ns_blks : Z;
  meta_start_offset : Z;
  lba_range : memory;
  tbl_dsk_start_offset : Z;
  tbl_entries : Z;
  tbl : option (list Z);
  bbtbl : list FEMU_OC_Bbt
}.

Record NvmeErrorLog : Type := mk_NvmeErrorLog {
  el_error_count : Z;
  el_sqid : Z;
  el_cid : Z;
  el_status_field : Z;
  el_param_error_location : Z;
  el_lba : Z;
  el_nsid : Z
}.

(** What a request may have handed to the block layer. *)
Inductive BlockAIOCB : Type :=
| aio_flush
| aio_pwrite_zeroes (offset bytes : Z).

(** The part of a request the I/O path uses; [r_id] tells the elements of
    [sq->io_req] apart. *)
Record NvmeRequest : Type := mk_NvmeRequest {
  r_id : Z;
  r_sqid : Z;
  cmd_opcode : Z;
  r_cid : Z;
  status : Z;
  r_slba : Z;
  is_write : bool;
  r_nlb : Z;
  expire_time : Z;
  data_offset : Z;
  qsg : list (Z * Z);
  aiocb : option BlockAIOCB;
  r_result : Z
}.

(** What does not change while the controller runs: its properties, the
    identification and the sizes the guest chose when it started it. *)
Record NvmeParams : Type := mk_NvmeParams {
  num_namespaces : Z;
  mdts : Z;
  page_bits : Z;
  page_size : Z;
  max_prp_ents : Z;
  sqe_size : Z;
  cqe_size : Z;
  oncs : Z;
  vwc : Z;
  femu_mode : Z;
  elpe : Z;
  heap_size : Z;
  num_io_queues : Z;
  db_stride : Z;
  aerl : Z;
  cap : Z;
  oacs : Z;
  n_meta : Z;
  ns_size : Z;
  temperature : Z;
  id_ctrl : memory
}.

(** A submission queue: a ring of commands in guest memory and the requests
    that are free or being worked on. *)
Record NvmeSQueue : Type := mk_NvmeSQueue {
  sqid : Z;
  s_cqid : Z;
  arb_burst : Z;
  s_head : Z;
  s_tail : Z;
  s_size : Z;
  s_contig : bool;
  s_dma_addr : Z;
  s_prp_list : list Z;
  completed : Z;
  s_req_list : list NvmeRequest;
  out_req_list : list NvmeRequest;
  s_db_addr : Z;
  s_timer : Z
}.

(** A completion queue: a ring in guest memory and the requests that wait for
    their time.  [c_sq_list] names the submission queues that use it.  The
    timers hold the time they are set to, 0 when they are not set. *)
Record NvmeCQueue : Type := mk_NvmeCQueue {
  cqid : Z;
  phase : Z;
  c_head : Z;
  c_tail : Z;
  c_size : Z;
  c_contig : bool;
  c_dma_addr : Z;
  c_prp_list : list Z;
  c_req_list : list NvmeRequest;
  c_db_addr : Z;
  c_timer : Z;
  c_sq_list : list Z
}.

(** An event: its type, its information and the log page that tells more. *)
Record NvmeAerResult : Type := mk_NvmeAerResult {
  event_type : Z;
  event_info : Z;
  log_page : Z
}.

(** The registers the guest writes. *)
Record NvmeBar : Type := mk_NvmeBar {
  intms : Z;
  intmc : Z;
  cc : Z;
  csts : Z;
  aqa : Z;
  asq : Z;
  acq : Z
}.

Record NvmeFeatureVal : Type := mk_NvmeFeatureVal {
  arbitration : Z;
  power_mgmt : Z;
  temp_thresh : Z;
  err_rec : Z;
  volatile_wc : Z;
  int_coalescing : Z;
  int_vector_config : list Z;
  write_atomicity : Z;
  async_config : Z;
  sw_prog_marker : Z
}.

(** What the admin commands and the registers change.  An event that was freed
    and is still in the queue is [None]; [aer_timer] is [None] while there is
    no timer. *)
Record NvmeAdm : Type := mk_NvmeAdm {
  bar : NvmeBar;
  dbs_addr : Z;
  eis_addr : Z;
  features : NvmeFeatureVal;
  temp_warn_issued : bool;
  aer_queue : list (option NvmeAerResult);
  aer_reqs : list (option NvmeRequest);
  outstanding_aers : Z;
  aer_mask : Z;
  aer_timer : option Z;
  dataplane_started : bool
}.

(** The open-channel mode (femu-oc.h): the properties with the sizes computed
    from them, the geometry and the address format as the guest reads them, and
    the masks that take an address apart. *)
Record FEMU_OC_Params : Type := mk_FEMU_OC_Params {
  pgs_per_blk : Z;
  sec_size : Z;
  sec_per_pg : Z;
  max_sec_per_rq : Z;
  p_mtype : Z;
  p_fmtype : Z;
  p_num_ch : Z;
  p_num_pln : Z;
  p_num_lun : Z;
  sos : Z;
  sec_per_pl : Z;
  sec_per_blk : Z;
  sec_per_lun : Z;
  sec_per_ch : Z;
  total_secs : Z;
  pl_units : Z;
  pg_units : Z;
  blk_units : Z;
  lun_units : Z;
  ch_units : Z;
  total_units : Z
}.

Record FEMU_OC_IdAddrFormat : Type := mk_FEMU_OC_IdAddrFormat {
  ch_offset : Z;
  ch_len : Z;
  lun_offset : Z;
  lun_len : Z;
  pln_offset : Z;
  pln_len : Z;
  blk_offset : Z;
  blk_len : Z;
  pg_offset : Z;
  pg_len : Z;
  sect_offset : Z;
  sect_len : Z
}.

Record FEMU_OC_AddrF : Type := mk_FEMU_OC_AddrF {
  ch_mask : Z;
  lun_mask : Z;
  pln_mask : Z;
  blk_mask : Z;
  pg_mask : Z;
  sec_mask : Z;
  f_ch_offset : Z;
  f_lun_offset : Z;
  f_pln_offset : Z;
  f_blk_offset : Z;
  f_pg_offset : Z;
  f_sec_offset : Z
}.

Record FEMU_OC_IdGroup : Type := mk_FEMU_OC_IdGroup {
  g_mtype : Z;
  g_fmtype : Z;
  num_ch : Z;
  num_lun : Z;
  num_pln : Z;
  num_blk : Z;
  num_pg : Z;
  fpg_sz : Z;
  csecs : Z;
  g_sos : Z;
  trdt : Z;
  trdm : Z;
  tprt : Z;
  tprm : Z;
  tbet : Z;
  tbem : Z;
  mpos : Z;
  mccap : Z;
  cpar : Z
}.

Record FEMU_OC_Ctrl : Type := mk_FEMU_OC_Ctrl {
  oc_params : FEMU_OC_Params;
  ver_id : Z;
  vmnt : Z;
  cgrps : Z;
  oc_cap : Z;
  dom : Z;
  id_ppaf : FEMU_OC_IdAddrFormat;
  group : FEMU_OC_IdGroup;
  ppaf : FEMU_OC_AddrF;
  read_l2p_tbl : Z;
  err_write : Z;
  n_err_write : Z;
  err_write_cnt : Z;
  oc_meta_buf : memory;
  meta_tbytes : Z;
  meta_len : Z;
  int_meta_size : Z
}.

(** The variables of femu-oc.c: when the chips and channels are free, which
    pages of a block are slow, and the latencies. *)
Record oc_globals : Type := mk_oc_globals {
  oc_chip : list Z;
  oc_chnl : list Z;
  mlc_tbl : list Z;
  nand_read_upper_t : Z;
  nand_read_lower_t : Z;
  nand_write_upper_t : Z;
  nand_write_lower_t : Z;
  nand_erase_t : Z;
  chnl_page_tr_t : Z
}.

Record NvmeCtrl : Type := mk_NvmeCtrl {
  params : NvmeParams;
  namespaces : list NvmeNamespace;
  elpes : list NvmeErrorLog;
  elp_index : Z;
  error_count : Z;
  num_errors : Z;
  sqs : list (option NvmeSQueue);
  cqs : list (option NvmeCQueue);
  heap_storage : memory;
  guest : memory;
  meta_buf : memory;
  ssd : ssdstate;
  adm : NvmeAdm;
  femu_oc_ctrl : FEMU_OC_Ctrl;
  ocg : oc_globals
}.

Definition set_namespaces v n := mk_NvmeCtrl (params n) v (elpes n) (elp_index n) (error_count n)
  (num_errors n) (sqs n) (cqs n) (heap_storage n) (guest n) (meta_buf n) (ssd n) (adm n)
  (femu_oc_ctrl n) (ocg n) .
Definition set_errors v i c k n := mk_NvmeCtrl (params n) (namespaces n) v i c k (sqs n) (cqs n)
  (heap_storage n) (guest n) (meta_buf n) (ssd n) (adm n) (femu_oc_ctrl n) (ocg n) .
Definition set_sqs v n := mk_NvmeCtrl (params n) (namespaces n) (elpes n) (elp_index n)
  (error_count n) (num_errors n) v (cqs n) (heap_storage n) (guest n) (meta_buf n) (ssd n) (adm n)
  (femu_oc_ctrl n) (ocg n) .
Definition set_cqs v n := mk_NvmeCtrl (params n) (namespaces n) (elpes n) (elp_index n)
  (error_count n) (num_errors n) (sqs n) v (heap_storage n) (guest n) (meta_buf n) (ssd n) (adm n)
  (femu_oc_ctrl n) (ocg n) .
Definition set_heap_storage v n := mk_NvmeCtrl (params n) (namespaces n) (elpes n) (elp_index n)
  (error_count n) (num_errors n) (sqs n) (cqs n) v (guest n) (meta_buf n) (ssd n) (adm n)
  (femu_oc_ctrl n) (ocg n) .
Definition set_guest v n := mk_NvmeCtrl (params n) (namespaces n) (elpes n) (elp_index n)
  (error_count n) (num_errors n) (sqs n) (cqs n) (heap_storage n) v (meta_buf n) (ssd n) (adm n)
  (femu_oc_ctrl n) (ocg n) .
Definition set_meta_buf v n := mk_NvmeCtrl (params n) (namespaces n) (elpes n) (elp_index n)
  (error_count n) (num_errors n) (sqs n) (cqs n) (heap_storage n) (guest n) v (ssd n) (adm n)
  (femu_oc_ctrl n) (ocg n) .
Definition set_ssd v n := mk_NvmeCtrl (params n) (namespaces n) (elpes n) (elp_index n)
  (error_count n) (num_errors n) (sqs n) (cqs n) (heap_storage n) (guest n) (meta_buf n) v (adm n)
  (femu_oc_ctrl n) (ocg n) .
Definition set_adm v n := mk_NvmeCtrl (params n) (namespaces n) (elpes n) (elp_index n)
  (error_count n) (num_errors n) (sqs n) (cqs n) (heap_storage n) (guest n) (meta_buf n) (ssd n) v
  (femu_oc_ctrl n) (ocg n) .
Definition set_oc v n := mk_NvmeCtrl (params n) (namespaces n) (elpes n) (elp_index n)
  (error_count n) (num_errors n) (sqs n) (cqs n) (heap_storage n) (guest n) (meta_buf n) (ssd n)
  (adm n) v (ocg n) .
Definition set_ocg v n := mk_NvmeCtrl (params n) (namespaces n) (elpes n) (elp_index n)
  (error_count n) (num_errors n) (sqs n) (cqs n) (heap_storage n) (guest n) (meta_buf n) (ssd n)
  (adm n) (femu_oc_ctrl n) v.
Definition set_params v n := mk_NvmeCtrl v (namespaces n) (elpes n) (elp_index n) (error_count n)
  (num_errors n) (sqs n) (cqs n) (heap_storage n) (guest n) (meta_buf n) (ssd n) (adm n)
  (femu_oc_ctrl n) (ocg n) .

Abbreviation NM A := (M NvmeCtrl A).

(** A call into the SSD. *)
Definition on_ssd {A} (m : SM A) : NM A := fun n =>
  match m (ssd n) with
  | Ok a s => Ok a (set_ssd s n)
  | Crash c => Crash c
  | Hang => Hang
  end.

(** The command of 64 bytes, by the offsets of [NvmeCmd], [NvmeRwCmd] and
    [NvmeRemap]. *)
Definition cmd_op (cmd : memory) : Z := u8 (cmd 0).
Definition cmd_cid (cmd : memory) : Z := le cmd 2 2.
Definition cmd_nsid (cmd : memory) : Z := le cmd 4 4.
Definition cmd_mptr (cmd : memory) : Z := le cmd 16 8.
Definition cmd_prp1 (cmd : memory) : Z := le cmd 24 8.
Definition cmd_prp2 (cmd : memory) : Z := le cmd 32 8.
Definition cmd_cdw10 (cmd : memory) : Z := le cmd 40 4.
Definition cmd_cdw11 (cmd : memory) : Z := le cmd 44 4.
Definition rw_slba (cmd : memory) : Z := le cmd 40 8.
Definition rw_nlb (cmd : memory) : Z := le cmd 48 2.
Definition rw_control (cmd : memory) : Z := le cmd 50 2.
Definition remap_src_lpn (cmd : memory) : Z := le cmd 8 8.
Definition remap_dst_lpn (cmd : memory) : Z := le cmd 16 8.
Definition remap_len (cmd : memory) : Z := le cmd 24 4.
Definition remap_ope (cmd : memory) : Z := le cmd 28 4.

(** ** What QEMU provides *)

(** How much of a range of guest memory is mapped at once; [None] is a null
    pointer. *)
Class Guest : Type := {
  dma_memory_map : Z -> Z -> option Z
}.

(** [blk_pdiscard_ok]: did the callback of [blk_aio_pdiscard] report success?
    [blk_pread]: the bytes at an offset of the block device, if they can be
    read.  [blk_aio_cancel_ok]: did a cancelled request report success?
    [irq_setup_ok]: can the interrupt of a new completion queue be set up?
    [blk_stats]: bytes read and written, reads and writes.  [running_time]: the
    seconds since the device was created.  [rdtscp]: the processor's counter
    after the k-th reading of the clock, with the offset of the guest's. *)
Class Backend : Type := {
  blk_pdiscard_ok : Z -> Z -> bool;
  blk_pread : Z -> Z -> option memory;
  blk_aio_cancel_ok : NvmeRequest -> bool;
  irq_setup_ok : Z -> Z -> bool;
  blk_stats : Z * Z * Z * Z;
  running_time : Z;
  rdtscp : nat -> Z
}.

Definition femu_oc_dev (n : NvmeCtrl) : bool := negb (ver_id (femu_oc_ctrl n) =? 0).
Definition femu_oc_hybrid_dev (n : NvmeCtrl) : bool := dom (femu_oc_ctrl n) =? 1.

(** ** Errors *)

(** The error log is a ring of [elpe] entries in an array of [elpe + 1]; the
    counters have 8 bits.  [location] is the offset of a field of the command. *)
Definition nvme_set_error_page (sqid cid status location lba nsid : Z) : NM unit := fun n =>
  match zget (elpes n) (elp_index n) with
  | None => Crash OutOfBounds
  | Some _ =>
      if elpe (params n) =? 0 then Crash DivByZero
      else Ok tt (set_errors
        (zset (elp_index n) (mk_NvmeErrorLog (error_count n) sqid cid status location lba nsid) (elpes n))
        ((elp_index n + 1) mod elpe (params n)) (u8 (error_count n + 1)) (u8 (num_errors n + 1)) n)
  end.

(** ** The address list of a command *)

(** Entry [i] of a list of [cnt] addresses read from [base]. *)
Definition prp_at (base cnt i : Z) : NM Z := fun n =>
  if (0 <=? i) && (i <? cnt) then Ok (le (guest n) (base + 8 * i) 8) n else Crash Uninitialised.

Definition prp_bad (ps ent : Z) : bool := (ent =? 0) || has ent (ps - 1).

(** [while (len != 0)]: the pages of the list; its last entry is the address
    of the next list when more than one page is left. *)
Fixpoint prp_loop (fuel : nat) (len i base cnt : Z) (acc : list (Z * Z))
  : NM (option (list (Z * Z))) :=
  if len =? 0 then mret (Some acc) else
  match fuel with
  | O => mhang
  | S fuel' =>
      q ← gets params;
      let ps := page_size q in
      ent ← prp_at base cnt i;
      r ← (if (i =? max_prp_ents q - 1) && (ps <? len) then
             if prp_bad ps ent then mret None else
             let cnt' := Z.min (max_prp_ents q) (Z.shiftr (u32 (len + ps - 1)) (page_bits q)) in
             ent' ← prp_at ent cnt' 0;
             mret (Some (0, ent, cnt', ent'))
           else mret (Some (i, base, cnt, ent)));
      match r with
      | None => mret None
      | Some (i, base, cnt, ent) =>
          if prp_bad ps ent then mret None else
          let trans_len := Z.min len ps in
          prp_loop fuel' (len - trans_len) (i + 1) base cnt (acc ++ [(ent, trans_len)])
      end
  end.

(** [None] is the error status; [len] has 32 bits. *)
Definition nvme_map_prp (prp1 prp2 len : Z) : NM (option (list (Z * Z))) :=
  q ← gets params;
  let ps := page_size q in
  if ps =? 0 then mcrash DivByZero else
  let trans_len := Z.min len (ps - prp1 mod ps) in
  if prp1 =? 0 then mret None else
  let len' := len - trans_len in
  if len' =? 0 then mret (Some [(prp1, trans_len)]) else
  if prp2 =? 0 then mret None else
  if ps <? len' then
    let nents := Z.shiftr (u32 (len' + ps - 1)) (page_bits q) in
    prp_loop (Z.to_nat len') len' 0 prp2 (Z.min (max_prp_ents q) nents) [(prp1, trans_len)]
  else if has prp2 (ps - 1) then mret None
  else mret (Some [(prp1, trans_len); (prp2, len')]).

Definition sg_size (l : list (Z * Z)) : Z := foldr (fun x n => x.2 + n) 0 l.

(** The bytes a list of guest ranges holds, one range after the other. *)
Fixpoint sg_bytes (g : memory) (l : list (Z * Z)) : memory :=
  match l with
  | [] => fun _ => 0
  | (a, k) :: l' => fun i => if i <? k then g (a + i) else sg_bytes g l' (i - k)
  end.

(** [nvme_dma_write_prp]: the bytes at the addresses of a command; fails when
    the list is bad or has another size. *)
Definition nvme_dma_write_prp (prp1 prp2 len : Z) : NM (option memory) :=
  r ← nvme_map_prp prp1 prp2 len;
  match r with
  | None => mret None
  | Some l =>
      g ← gets guest;
      if sg_size l - Z.min len (sg_size l) =? 0 then mret (Some (sg_bytes g l)) else mret None
  end.

(** [len] bytes of [b] from [off] on go to the ranges of a list. *)
Fixpoint sg_store (g : memory) (l : list (Z * Z)) (b : memory) (off len : Z) : memory :=
  match l with
  | [] => g
  | (a, k) :: l' =>
      if len <=? 0 then g else
      let xfer := Z.min len k in
      sg_store (blit g a b off xfer) l' b (off + xfer) (len - xfer)
  end.

Definition nvme_dma_read_prp (b : memory) (len prp1 prp2 : Z) : NM Z :=
  r ← nvme_map_prp prp1 prp2 len;
  match r with
  | None => mret (Z.lor NVME_INVALID_FIELD NVME_DNR)
  | Some l =>
      let len := Z.min len (sg_size l) in
      modify (fun n => set_guest (sg_store (guest n) l b 0 len) n);;
      mret (if sg_size l - len =? 0 then NVME_SUCCESS else Z.lor NVME_INVALID_FIELD NVME_DNR)
  end.

(** ** The heap storage *)

Section Nvme.
Context `{Clock} `{Guest} `{Backend}.

(** The ranges of the request as they are mapped, possibly in pieces. *)
Fixpoint map_sg (fuel : nat) (l : list (Z * Z)) (sg_cur_byte : Z) (acc : list (Z * Z))
  : NM (list (Z * Z)) :=
  match l with
  | [] => mret acc
  | (base, k) :: l' =>
      match fuel with
      | O => mhang
      | S fuel' =>
          let cur_addr := base + sg_cur_byte in
          match dma_memory_map cur_addr (k - sg_cur_byte) with
          | None => mret acc
          | Some cur_len =>
              let acc' := acc ++ [(cur_addr, cur_len)] in
              let sg_cur_byte' := sg_cur_byte + cur_len in
              if sg_cur_byte' =? k then map_sg fuel' l' 0 acc'
              else map_sg fuel' l sg_cur_byte' acc'
          end
      end
  end.

(** [qemu_iovec_discard_back]: [n] bytes are taken off the end. *)
Fixpoint discard_front (n : Z) (l : list (Z * Z)) : list (Z * Z) :=
  match l with
  | [] => []
  | (a, k) :: l' => if k <=? n then discard_front (n - k) l' else (a, k - n) :: l'
  end.
Definition qemu_iovec_discard_back (l : list (Z * Z)) (n : Z) : list (Z * Z) :=
  reverse (discard_front n (reverse l)).

Definition in_heap (n : NvmeCtrl) (off len : Z) : bool :=
  (0 <=? off) && (off + len <=? heap_size (params n)).

(** [memcpy] between one mapped range and the storage. *)
Definition heap_copy (wr : bool) (x : Z * Z) (hs_oft : Z) : NM unit := fun n =>
  if negb (in_heap n hs_oft x.2) then Crash OutOfBounds
  else if wr then Ok tt (set_heap_storage (blit (heap_storage n) hs_oft (guest n) x.1 x.2) n)
  else Ok tt (set_guest (blit (guest n) x.1 (heap_storage n) hs_oft x.2) n).

Fixpoint heap_loop (wr : bool) (l : list (Z * Z)) (hs_oft : Z) : NM unit :=
  match l with
  | [] => mret tt
  | x :: l' => heap_copy wr x hs_oft;; heap_loop wr l' (hs_oft + x.2)
  end.

Definition nvme_heap_storage_rw (req : NvmeRequest) : NM Z :=
  iov ← map_sg (Z.to_nat (sg_size (qsg req)) + length (qsg req)) (qsg req) 0 [];
  let size := sg_size iov in
  let iov := if size mod 512 =? 0 then iov
             else qemu_iovec_discard_back iov (size / 512 * 512) in
  heap_loop (is_write req) iov (data_offset req);;
  mret NVME_SUCCESS.

(** ** Bitmaps *)

(** The bits of the words [bitmap_new] allocates. *)
Definition bitmap_bits (nbits : Z) : Z := (nbits + 63) / 64 * 64.

Definition bits_set (v : bool) (m : Z -> bool) (start nr : Z) : Z -> bool := fun i =>
  if (start <=? i) && (i <? start + nr) then v else m i.

(** [find_next_bit]: the first set bit from [offset] on, or [size]. *)
Fixpoint find_bit (fuel : nat) (m : Z -> bool) (size offset : Z) : Z :=
  match fuel with
  | O => size
  | S fuel' => if size <=? offset then size else if m offset then offset else find_bit fuel' m size (offset + 1)
  end.
Definition find_next_bit (m : Z -> bool) (size offset : Z) : Z :=
  find_bit (Z.to_nat (size - offset)) m size offset.

Definition bitmap_range (total start nr : Z) : NM unit :=
  if (0 <=? start) && (start + nr <=? bitmap_bits total) then mret tt else mcrash OutOfBounds.

(** A bitmap of namespace [k] is changed. *)
Definition upd_namespace (k : Z) (f : NvmeNamespace -> NvmeNamespace) : NM unit :=
  l ← gets namespaces;
  ns ← idx l k;
  modify (set_namespaces (zset k (f ns) l)).

Definition set_util (v : Z -> bool) (ns : NvmeNamespace) : NvmeNamespace :=
  mk_NvmeNamespace (ns_id ns) (nsze ns) (flbas ns) (lbaf ns) (ns_dps ns) (start_block ns) v (uncorrectable ns)
    (nlbaf ns) (ns_mc ns) (ns_dpc ns) (ns_blks ns) (meta_start_offset ns) (lba_range ns)
    (tbl_dsk_start_offset ns) (tbl_entries ns) (tbl ns) (bbtbl ns).
Definition set_uncorrectable (v : Z -> bool) (ns : NvmeNamespace) : NvmeNamespace :=
  mk_NvmeNamespace (ns_id ns) (nsze ns) (flbas ns) (lbaf ns) (ns_dps ns) (start_block ns) (util ns) v
    (nlbaf ns) (ns_mc ns) (ns_dpc ns) (ns_blks ns) (meta_start_offset ns) (lba_range ns)
    (tbl_dsk_start_offset ns) (tbl_entries ns) (tbl ns) (bbtbl ns).

(** ** Checks of a read or write *)

Definition nvme_rw_check_req (ns : NvmeNamespace) (cmd : memory) (req : NvmeRequest)
  (slba elba nlb ctrl data_size meta_size : Z) : NM Z :=
  q ← gets params;
  let error st location lba := nvme_set_error_page (r_sqid req) (cmd_cid cmd) st location lba (ns_id ns) in
  if nsze ns <? elba then
    error NVME_LBA_RANGE 48 elba;; mret (Z.lor NVME_LBA_RANGE NVME_DNR)
  else if negb (mdts q =? 0) && (page_size q * 2 ^ mdts q <? data_size) then
    error NVME_INVALID_FIELD 48 nlb;; mret (Z.lor NVME_INVALID_FIELD NVME_DNR)
  else if negb (meta_size =? 0) then
    error NVME_INVALID_FIELD 50 ctrl;; mret (Z.lor NVME_INVALID_FIELD NVME_DNR)
  else if has ctrl NVME_RW_PRINFO_PRACT && negb (has (ns_dps ns) DPS_TYPE_MASK) then
    error NVME_INVALID_FIELD 50 ctrl;;
    oc ← gets femu_oc_dev;
    if (femu_mode q =? FEMU_WHITEBOX_MODE) && oc then mret 0
    else mret (Z.lor NVME_INVALID_FIELD NVME_DNR)
  else if negb (is_write req) && (find_next_bit (uncorrectable ns) elba slba <? elba) then
    error NVME_UNRECOVERED_READ 40 elba;; mret NVME_UNRECOVERED_READ
  else mret 0.

(** ** Metadata *)

(** The [lpn_info] of the tuple at [meta]; anything but the known kinds of
    writes is dropped. *)
Definition meta_info (sc : ssdconf) (msl : memory) (meta : Z) : lpn_info :=
  let h := s64 (be msl (meta + 16) 8) in
  let tx := be msl (meta + 8) 4 in
  let fl := be msl (meta + 12) 4 in
  if ((fl =? WAL_WRITE) || (fl =? WAL_WRITE + 1) || (fl =? CP_WRITE) || (fl =? FS_GC_WRITE))
     && ((0 <=? h) && (h <=? PAGE_MAPPING_ENTRY_NB sc))
  then mk_lpn_info tx fl h
  else mk_lpn_info 0 0 (-1).

(** The tuple at [meta] becomes the [lpn_info] of page [i]. *)
Definition ftl_meta_write (msl : memory) (meta : Z) (info : list lpn_info) (i : Z)
  : NM (list lpn_info) :=
  modify (fun n => set_meta_buf (blit (meta_buf n) 0 msl meta PI_BYTES_NVME) n);;
  sc ← on_ssd get_conf;
  _ ← idx info i;
  mret (zset i (meta_info sc msl meta) info).

(** The size of the buffer for the tuples of a request: 512 pages. *)
Definition msl_size : Z := PI_BYTES_NVME * 512.

(** A read copies the last metadata into the buffer, which is then dropped. *)
Definition ftl_meta_read (meta : Z) : NM unit :=
  if meta + PI_BYTES_NVME <=? msl_size then mret tt else mcrash OutOfBounds.

(** The loop over the pages of a request with metadata. *)
Definition nvme_meta (wr : bool) (meta n_pages : Z) : NM (list lpn_info) :=
  let info := ztab 512 (fun _ => mk_lpn_info 0 0 0) in
  if meta =? 0 then mret info else
  if wr then
    if msl_size <? n_pages * PI_BYTES_NVME then mcrash OutOfBounds else
    g ← gets guest;
    let msl : memory := fun o => g (meta + o) in
    mfold (Z.to_nat n_pages) 0 info (fun i info => ftl_meta_write msl (i * PI_BYTES_NVME) info i)
  else
    mfor (Z.to_nat n_pages) 0 (fun i => ftl_meta_read (i * PI_BYTES_NVME));;
    mret info.

(** ** Read and write *)

Definition lba_shift (ns : NvmeNamespace) : NM Z :=
  f ← idx (lbaf ns) (Z.land (flbas ns) 15);
  mret (ds f).

(** The transfer: the time it takes in the SSD, and the copy. *)
Definition rw_transfer (req : NvmeRequest) (slba nlb data_size offset : Z) (info : list lpn_info)
  (l : list (Z * Z)) : NM (Z * NvmeRequest) :=
  let wr := is_write req in
  now ← on_ssd qemu_clock_ns;
  now' ← on_ssd qemu_clock_ns;
  let overhead := now' - now in
  q ← gets params;
  let length := u32 (Z.shiftr data_size 9) in
  let sector_nb := Z.shiftr offset 9 in
  lat ← (if femu_mode q =? FEMU_BLACKBOX_MODE then
           t ← (if wr then on_ssd (SSD_WRITE (mk_request_meta length sector_nb info))
                else on_ssd (SSD_READ length sector_nb));
           mret (t - overhead)
         else mret 0);
  let req := mk_NvmeRequest (r_id req) (r_sqid req) (cmd_opcode req) (r_cid req) NVME_SUCCESS
    slba wr (u16 nlb) (now + lat) (data_offset req) l (aiocb req) (r_result req) in
  _ ← nvme_heap_storage_rw req;
  mret (NVME_SUCCESS, req).

Definition nvme_rw (ns : NvmeNamespace) (cmd : memory) (req : NvmeRequest) : NM (Z * NvmeRequest) :=
  let ctrl := rw_control cmd in
  let nlb := rw_nlb cmd + 1 in
  let slba := rw_slba cmd in
  data_shift ← lba_shift ns;
  let data_size := u64 (Z.shiftl nlb data_shift) in
  let offset := u64 (Z.shiftl slba data_shift) in
  let elba := u64 (slba + nlb) in
  let n_pages := u32 (data_size / 4096) in
  let wr := cmd_op cmd =? NVME_CMD_WRITE in
  let req := mk_NvmeRequest (r_id req) (r_sqid req) (cmd_opcode req) (r_cid req) (status req)
    (r_slba req) wr (r_nlb req) (expire_time req) (s64 offset) (qsg req) (aiocb req) (r_result req) in
  err ← nvme_rw_check_req ns cmd req slba elba nlb ctrl data_size 0;
  if negb (err =? 0) then mret (err, req) else
  info ← nvme_meta wr (cmd_mptr cmd) n_pages;
  sg ← nvme_map_prp (cmd_prp1 cmd) (cmd_prp2 cmd) (u32 data_size);
  match sg with
  | None =>
      nvme_set_error_page (r_sqid req) (cmd_cid cmd) NVME_INVALID_FIELD 24 0 (ns_id ns);;
      mret (Z.lor NVME_INVALID_FIELD NVME_DNR, req)
  | Some l =>
      (if u32 (Z.shiftl nlb data_shift) =? sg_size l then mret tt else mcrash ProcessExit);;
      rw_transfer req slba nlb data_size offset info l
  end.

(** ** Dataset management, uncorrectable blocks, remapping *)

Definition set_status (st : Z) (req : NvmeRequest) : NvmeRequest :=
  mk_NvmeRequest (r_id req) (r_sqid req) (cmd_opcode req) (r_cid req) st (r_slba req)
    (is_write req) (r_nlb req) (expire_time req) (data_offset req) (qsg req) (aiocb req) (r_result req).

Definition set_aiocb (a : option BlockAIOCB) (req : NvmeRequest) : NvmeRequest :=
  mk_NvmeRequest (r_id req) (r_sqid req) (cmd_opcode req) (r_cid req) (status req) (r_slba req)
    (is_write req) (r_nlb req) (expire_time req) (data_offset req) (qsg req) a (r_result req).

Definition set_result (v : Z) (req : NvmeRequest) : NvmeRequest :=
  mk_NvmeRequest (r_id req) (r_sqid req) (cmd_opcode req) (r_cid req) (status req) (r_slba req)
    (is_write req) (r_nlb req) (expire_time req) (data_offset req) (qsg req) (aiocb req) v.

(** One range; [inr] is an early return. *)
Definition dsm_range (ns : NvmeNamespace) (cmd : memory) (data_shift : Z) (range : memory) (i : Z)
  (req : NvmeRequest) : NM (NvmeRequest + Z * NvmeRequest) :=
  let slba := le range (16 * i + 8) 8 in
  let nlb := le range (16 * i + 4) 4 in
  if nsze ns <? u64 (slba + nlb) then
    nvme_set_error_page (r_sqid req) (cmd_cid cmd) NVME_LBA_RANGE 40 (u64 (slba + nlb)) (ns_id ns);;
    mret (inr (Z.lor NVME_LBA_RANGE NVME_DNR, req))
  else if negb (blk_pdiscard_ok (u64 (start_block ns + Z.shiftl slba data_shift)) (u32 (Z.shiftl nlb data_shift)))
  then mret (inr (NVME_INTERNAL_DEV_ERROR, set_status NVME_INTERNAL_DEV_ERROR req))
  else
    bitmap_range (nsze ns) slba nlb;;
    upd_namespace (ns_id ns - 1) (fun ns => set_util (bits_set false (util ns) slba nlb) ns);;
    q ← gets params;
    (if femu_mode q =? FEMU_BLACKBOX_MODE then
       _ ← on_ssd (femu_discard_process (u32 (Z.shiftl nlb data_shift)) (s64 (u64 (Z.shiftl slba data_shift))));
       mret tt
     else mret tt);;
    mret (inl req).

Definition nvme_dsm (ns : NvmeNamespace) (cmd : memory) (req : NvmeRequest) : NM (Z * NvmeRequest) :=
  if has (cmd_cdw11 cmd) NVME_DSMGMT_AD then
    let nr := Z.land (cmd_cdw10 cmd) 255 + 1 in
    d ← lba_shift ns;
    let data_shift := u8 (d - BDRV_SECTOR_BITS) in
    range ← nvme_dma_write_prp (cmd_prp1 cmd) (cmd_prp2 cmd) (16 * nr);
    match range with
    | None =>
        nvme_set_error_page (r_sqid req) (cmd_cid cmd) NVME_INVALID_FIELD 24 0 (ns_id ns);;
        mret (Z.lor NVME_INVALID_FIELD NVME_DNR, req)
    | Some range =>
        r ← mfold_ret (Z.to_nat nr) 0 (set_status NVME_SUCCESS req) (dsm_range ns cmd data_shift range);
        match r with
        | inr x => mret x
        | inl req => mret (NVME_SUCCESS, req)
        end
    end
  else mret (NVME_SUCCESS, req).

Definition nvme_write_uncor (ns : NvmeNamespace) (cmd : memory) (req : NvmeRequest)
  : NM (Z * NvmeRequest) :=
  let slba := rw_slba cmd in
  let nlb := rw_nlb cmd + 1 in
  if nsze ns <? u64 (slba + nlb) then
    nvme_set_error_page (r_sqid req) (cmd_cid cmd) NVME_LBA_RANGE 48 (u64 (slba + nlb)) (ns_id ns);;
    mret (Z.lor NVME_LBA_RANGE NVME_DNR, req)
  else
    bitmap_range (nsze ns) slba nlb;;
    upd_namespace (ns_id ns - 1) (fun ns => set_uncorrectable (bits_set true (uncorrectable ns) slba nlb) ns);;
    mret (NVME_SUCCESS, req).

(** [memcmp] of [len] bytes. *)
Definition mem_eqb (m1 : memory) (a1 : Z) (m2 : memory) (a2 len : Z) : bool :=
  forallb (fun i => u8 (m1 (a1 + Z.of_nat i)) =? u8 (m2 (a2 + Z.of_nat i))) (seq 0 (Z.to_nat len)).

(** The block device, not the heap storage, is compared with the guest's
    ranges. *)
Fixpoint compare_loop (ns : NvmeNamespace) (req : NvmeRequest) (l : list (Z * Z)) (offset : Z) : NM Z :=
  match l with
  | [] => mret NVME_SUCCESS
  | (base, len) :: l' =>
      match blk_pread (s64 offset) len with
      | None =>
          nvme_set_error_page (r_sqid req) (r_cid req) NVME_INTERNAL_DEV_ERROR 40 (r_slba req) (ns_id ns);;
          mret NVME_INTERNAL_DEV_ERROR
      | Some b =>
          g ← gets guest;
          if mem_eqb b 0 g base len then compare_loop ns req l' (u64 (offset + len))
          else mret NVME_CMP_FAILURE
      end
  end.

Definition nvme_compare (ns : NvmeNamespace) (cmd : memory) (req : NvmeRequest) : NM (Z * NvmeRequest) :=
  let nlb := rw_nlb cmd + 1 in
  let slba := rw_slba cmd in
  let elba := u64 (slba + nlb) in
  data_shift ← lba_shift ns;
  let data_size := u32 (Z.shiftl nlb data_shift) in
  let offset := u64 (start_block ns + Z.shiftl slba data_shift) in
  q ← gets params;
  let error st location lba := nvme_set_error_page (r_sqid req) (cmd_cid cmd) st location lba (ns_id ns) in
  if nsze ns <? elba then
    error NVME_LBA_RANGE 48 elba;; mret (Z.lor NVME_LBA_RANGE NVME_DNR, req)
  else if negb (mdts q =? 0) && (page_size q * 2 ^ mdts q <? data_size) then
    error NVME_INVALID_FIELD 48 nlb;; mret (Z.lor NVME_INVALID_FIELD NVME_DNR, req)
  else
    sg ← nvme_map_prp (cmd_prp1 cmd) (cmd_prp2 cmd) data_size;
    match sg with
    | None => error NVME_INVALID_FIELD 24 0;; mret (Z.lor NVME_INVALID_FIELD NVME_DNR, req)
    | Some l =>
        if find_next_bit (uncorrectable ns) elba slba <? elba then mret (NVME_UNRECOVERED_READ, req)
        else st ← compare_loop ns req l offset; mret (st, req)
    end.

(** Handed to the block layer; the callback completes the request. *)
Definition nvme_flush (ns : NvmeNamespace) (cmd : memory) (req : NvmeRequest) : NM (Z * NvmeRequest) :=
  mret (NVME_NO_COMPLETE, set_aiocb (Some aio_flush) req).

Definition nvme_write_zeros (ns : NvmeNamespace) (cmd : memory) (req : NvmeRequest)
  : NM (Z * NvmeRequest) :=
  data_shift ← lba_shift ns;
  let slba := rw_slba cmd in
  let nlb := rw_nlb cmd + 1 in
  if nsze ns <? u64 (slba + nlb) then
    nvme_set_error_page (r_sqid req) (cmd_cid cmd) NVME_LBA_RANGE 48 (u64 (slba + nlb)) (ns_id ns);;
    mret (Z.lor NVME_LBA_RANGE NVME_DNR, req)
  else
    mret (NVME_NO_COMPLETE, set_aiocb (Some (aio_pwrite_zeroes (s64 (u64 (Z.shiftl slba data_shift)))
                                               (u32 (Z.shiftl nlb (data_shift - BDRV_SECTOR_BITS))))) req).

(** [memcpy] inside the storage: the ranges must lie in it and not overlap. *)
Definition heap_move (dst src len : Z) : NM unit := fun n =>
  if negb (in_heap n dst len && in_heap n src len) then Crash OutOfBounds
  else if (0 <? len) && (dst <? src + len) && (src <? dst + len) then Crash Overlap
  else Ok tt (set_heap_storage (blit (heap_storage n) dst (heap_storage n) src len) n).

(** The remap command of the admin queue; [len * PAGE_SIZE] has 32 bits. *)
Definition nvme_remap (cmd : memory) : NM Z :=
  let src_lpn := remap_src_lpn cmd in
  let dst_lpn := remap_dst_lpn cmd in
  let len := remap_len cmd in
  sc ← on_ssd get_conf;
  q ← gets params;
  (if femu_mode q =? FEMU_BLACKBOX_MODE then
     _ ← on_ssd (SSD_REMAP src_lpn dst_lpn len (remap_ope cmd)); mret tt
   else mret tt);;
  heap_move (u64 (dst_lpn * PAGE_SIZE (raw sc))) (u64 (src_lpn * PAGE_SIZE (raw sc))) (u32 (len * PAGE_SIZE (raw sc)));;
  mret NVME_SUCCESS.

End Nvme.

(** ** A reference for the address list

    [prp_pages] reads the lists one after the other: a list holds [m] entries,
    and while more than [m] pages are left its last entry leads to the next
    list.  The result is the addresses of the pages and those of the lists
    after the first. *)

Definition prp_entry (g : memory) (base i : Z) : Z := le g (base + 8 * i) 8.

Definition prp_entries (g : memory) (base k : Z) : list Z := ztab k (prp_entry g base).

Fixpoint prp_pages (hops : nat) (g : memory) (m base pages : Z) : list Z * list Z :=
  if pages <=? m then (prp_entries g base pages, []) else
  match hops with
  | O => ([], [])
  | S hops' =>
      let next := prp_entry g base (m - 1) in
      let r := prp_pages hops' g m next (pages - (m - 1)) in
      (prp_entries g base (m - 1) ++ r.1, next :: r.2)
  end.

(** [len] bytes over pages of [ps] bytes. *)
Fixpoint cut (ps len : Z) (l : list Z) : list (Z * Z) :=
  match l with
  | [] => []
  | a :: l' => (a, Z.min len ps) :: cut ps (len - Z.min len ps) l'
  end.

Definition page_count (ps len : Z) : Z := (len + ps - 1) / ps.

Definition prp_ref (q : NvmeParams) (g : memory) (prp1 prp2 len : Z) : option (list (Z * Z)) :=
  let ps := page_size q in
  let first := Z.min len (ps - prp1 mod ps) in
  let k := page_count ps (len - first) in
  let r := if k =? 0 then ([], []) else if k =? 1 then ([prp2], [])
           else prp_pages (Z.to_nat k) g (max_prp_ents q) prp2 k in
  if (prp1 =? 0) || ((0 <? k) && (prp2 =? 0)) || existsb (prp_bad ps) (r.1 ++ r.2) then None
  else Some ((prp1, first) :: cut ps (len - first) r.1).

(** A controller with pages of a power of two and lists of at least two
    entries. *)
Record prp_conf (q : NvmeParams) : Prop := {
  pc_bits : 0 <= page_bits q;
  pc_page : page_size q = 2 ^ page_bits q;
  pc_ents : 2 <= max_prp_ents q
}.

(** *** The list is the one the reference gives *)

Section Prp.
Implicit Types (n : NvmeCtrl) (g : memory).

Lemma page_count_pos ps len : 0 < ps -> 0 < len -> 1 <= page_count ps len <= len.
Proof.
  intros Hp Hl. unfold page_count. split; [apply Z.div_le_lower_bound; lia|].
  apply Z.div_le_upper_bound; nia.
Qed.

Lemma page_count_0 ps : 0 < ps -> page_count ps 0 = 0.
Proof. intros Hp. unfold page_count. apply Z.div_small. lia. Qed.

Lemma page_count_small ps len : 0 < len <= ps -> page_count ps len = 1.
Proof.
  intros Hl. unfold page_count. replace (len + ps - 1) with (len - 1 + 1 * ps) by lia.
  rewrite Z.div_add, Z.div_small; lia.
Qed.

Lemma page_count_more ps len : 0 < ps < len -> page_count ps len = page_count ps (len - ps) + 1.
Proof.
  intros Hl. unfold page_count. replace (len + ps - 1) with (len - ps + ps - 1 + 1 * ps) by lia.
  by rewrite Z.div_add by lia.
Qed.

(** Each page of a transfer takes one page off the count. *)
Lemma page_count_step ps len :
  0 < ps -> 0 < len -> page_count ps (len - Z.min len ps) = page_count ps len - 1.
Proof.
  intros Hp Hl. destruct (Z.le_gt_cases len ps).
  - rewrite Z.min_l, Z.sub_diag, page_count_0, page_count_small by lia. lia.
  - rewrite Z.min_r, (page_count_more ps len) by lia. lia.
Qed.

Lemma page_count_gt ps len : 0 < ps -> 0 < len -> (1 < page_count ps len <-> ps < len).
Proof.
  intros Hp Hl. destruct (Z.le_gt_cases len ps); [rewrite page_count_small; lia|].
  rewrite page_count_more by lia. pose proof (page_count_pos ps (len - ps)). lia.
Qed.

Lemma prp_pages_entry hops g m base pages i :
  2 <= m -> (Z.to_nat pages <= hops)%nat -> 0 <= i < pages -> i < m -> (i = m - 1 -> pages <= m) ->
  (prp_pages hops g m base pages).1 !! Z.to_nat i = Some (prp_entry g base i).
Proof.
  intros Hm Hh Hi Him Hl. destruct hops as [|hops]; [lia|]. cbn [prp_pages].
  pose proof (zget_ztab pages (prp_entry g base) i Hi) as H1.
  unfold zget in H1. destruct (Z.ltb_spec i 0); [lia|].
  destruct (Z.leb_spec pages m); [done|]. cbn [fst].
  pose proof (zget_ztab (m - 1) (prp_entry g base) i ltac:(lia)) as H2.
  unfold zget in H2. destruct (Z.ltb_spec i 0); [lia|]. unfold prp_entries. by rewrite lookup_app, H2.
Qed.

(** Enough hops are enough. *)
Lemma prp_pages_hops h1 h2 g m base pages :
  2 <= m -> (Z.to_nat pages <= h1)%nat -> (Z.to_nat pages <= h2)%nat ->
  prp_pages h1 g m base pages = prp_pages h2 g m base pages.
Proof.
  intros Hm. revert h2 base pages. induction h1 as [|h1 IH]; intros [|h2] base pages H1 H2;
    cbn [prp_pages]; destruct (Z.leb_spec pages m); try done; try lia.
  rewrite (IH h2); [done|lia..].
Qed.

Lemma prp_at_entry base cnt i n : 0 <= i < cnt -> prp_at base cnt i n = Ok (prp_entry (guest n) base i) n.
Proof.
  intros Hi. unfold prp_at. destruct (Z.leb_spec 0 i); [|lia]. by destruct (Z.ltb_spec i cnt); [|lia].
Qed.

(** What is left of the loop at entry [i] of the list at [base]. *)
Definition prp_rest (q : NvmeParams) g (len i base : Z) (acc : list (Z * Z)) : option (list (Z * Z)) :=
  let r := prp_pages (Z.to_nat (page_count (page_size q) len + i)) g (max_prp_ents q) base
             (page_count (page_size q) len + i) in
  let l := drop (Z.to_nat i) r.1 in
  if existsb (prp_bad (page_size q)) (l ++ r.2) then None else Some (acc ++ cut (page_size q) len l).

(** One entry of the list. *)
Lemma prp_rest_entry q g len i base acc :
  prp_conf q -> 0 < page_size q -> 0 < len -> 0 <= i < max_prp_ents q ->
  (i = max_prp_ents q - 1 -> len <= page_size q) ->
  prp_rest q g len i base acc =
  if prp_bad (page_size q) (prp_entry g base i) then None
  else prp_rest q g (len - Z.min len (page_size q)) (i + 1) base
         (acc ++ [(prp_entry g base i, Z.min len (page_size q))]).
Proof.
  intros [_ _ Hm] Hp Hl Hi Hlast. unfold prp_rest. set (ps := page_size q) in *.
  set (m := max_prp_ents q) in *. rewrite page_count_step by done.
  replace (page_count ps len - 1 + (i + 1)) with (page_count ps len + i) by lia.
  pose proof (page_count_pos ps len Hp Hl).
  set (r := prp_pages _ g m base _).
  assert (r.1 !! Z.to_nat i = Some (prp_entry g base i)) as He.
  { apply prp_pages_entry; try lia. intros E. pose proof (page_count_gt ps len Hp Hl). lia. }
  rewrite (drop_S _ _ _ He). replace (Z.to_nat (i + 1)) with (S (Z.to_nat i)) by lia.
  cbn [app existsb cut]. destruct (prp_bad ps _); [done|]. cbn [orb]. by rewrite <- (assoc_L (++)).
Qed.

(** The last entry leads to another list. *)
Lemma prp_rest_next q g len base acc :
  prp_conf q -> 0 < page_size q < len ->
  let next := prp_entry g base (max_prp_ents q - 1) in
  prp_rest q g len (max_prp_ents q - 1) base acc =
  if prp_bad (page_size q) next then None else prp_rest q g len 0 next acc.
Proof.
  intros [_ _ Hm] Hl next. unfold prp_rest. set (ps := page_size q) in *. set (m := max_prp_ents q) in *.
  pose proof (page_count_gt ps len ltac:(lia) ltac:(lia)). set (k := page_count ps len) in *.
  destruct (Z.to_nat (k + (m - 1))) as [|h] eqn:E; [lia|]. cbn [prp_pages].
  destruct (Z.leb_spec (k + (m - 1)) m); [lia|]. cbn [fst snd]. fold next.
  replace (k + (m - 1) - (m - 1)) with (k + 0) by lia. change (Z.to_nat 0) with 0%nat. rewrite drop_0.
  rewrite (prp_pages_hops h (Z.to_nat (k + 0))) by lia. set (r := prp_pages _ g m next _).
  rewrite drop_app_length'.
  2:{ pose proof (zlen_ztab (m - 1) (prp_entry g base) ltac:(lia)) as Hz. unfold zlen, prp_entries in *. lia. }
  rewrite !existsb_app. cbn [existsb]. destruct (prp_bad ps next); [|done].
  by rewrite orb_true_l, orb_true_r.
Qed.

Lemma prp_rest_done q g i base acc :
  prp_conf q -> 0 < page_size q -> 0 <= i <= max_prp_ents q -> prp_rest q g 0 i base acc = Some acc.
Proof.
  intros _ Hp Hi. unfold prp_rest. rewrite page_count_0, Z.add_0_l by done.
  assert (prp_pages (Z.to_nat i) g (max_prp_ents q) base i = (prp_entries g base i, [])) as ->.
  { destruct (Z.to_nat i); cbn [prp_pages]; by destruct (Z.leb_spec i (max_prp_ents q)); [|lia]. }
  cbn [fst snd]. rewrite drop_ge; [cbn; by rewrite app_nil_r|].
  pose proof (zlen_ztab i (prp_entry g base) ltac:(lia)) as Hz. unfold zlen, prp_entries in *. lia.
Qed.

Lemma prp_loop_eq fuel len i base acc n :
  let q := params n in
  prp_conf q -> 0 <= len -> len + page_size q <= 2 ^ 32 -> 0 <= i <= max_prp_ents q ->
  (0 < len -> i < max_prp_ents q) -> (Z.to_nat (page_count (page_size q) len) <= fuel)%nat ->
  prp_loop fuel len i base (Z.min (max_prp_ents q) (page_count (page_size q) len + i)) acc n =
  Ok (prp_rest q (guest n) len i base acc) n.
Proof.
  intros q Hq. pose proof (pc_ents q Hq) as Hm. pose proof (pc_page q Hq) as Hps. pose proof (pc_bits q Hq).
  assert (0 < page_size q) as Hp by (rewrite Hps; lia).
  revert len i base acc. induction fuel as [|fuel IH]; intros len i base acc Hl Hw Hi Him Hf; cbn [prp_loop];
    destruct (Z.eqb_spec len 0) as [->|Hne]; try (by rewrite prp_rest_done).
  { pose proof (page_count_pos (page_size q) len). lia. }
  pose proof (page_count_pos (page_size q) len Hp ltac:(lia)) as Hk.
  pose proof (page_count_gt (page_size q) len Hp ltac:(lia)) as Hgt.
  pose proof (page_count_step (page_size q) len Hp ltac:(lia)) as Hstep.
  (* one entry and the rest *)
  assert (forall j b, 0 <= j < max_prp_ents q -> (j = max_prp_ents q - 1 -> len <= page_size q) ->
    (if prp_bad (page_size q) (prp_entry (guest n) b j) then mret None
     else prp_loop fuel (len - Z.min len (page_size q)) (j + 1) b
            (Z.min (max_prp_ents q) (page_count (page_size q) len + j))
            (acc ++ [(prp_entry (guest n) b j, Z.min len (page_size q))])) n =
    Ok (prp_rest q (guest n) len j b acc) n) as Hentry.
  { intros j b Hj Hjl. rewrite (prp_rest_entry q _ len j) by (done || lia). destruct (prp_bad _ _); [done|].
    rewrite <- IH by lia. f_equal. lia. }
  unfold mbind, M_bind, gets. fold q. rewrite prp_at_entry by lia.
  destruct (Z.eqb_spec i (max_prp_ents q - 1)) as [->|Hni]; cbn [andb]; [|by apply Hentry; lia].
  destruct (Z.ltb_spec (page_size q) len) as [Hlt|Hle]; [|by apply Hentry; lia].
  rewrite prp_rest_next by (done || lia). set (next := prp_entry _ base _).
  destruct (prp_bad _ next); [done|]. rewrite u32_small, Z.shiftr_div_pow2, <- Hps by lia.
  change ((len + page_size q - 1) / page_size q) with (page_count (page_size q) len).
  rewrite prp_at_entry by lia. rewrite <- (Z.add_0_r (page_count (page_size q) len)) at 1.
  by apply Hentry; lia.
Qed.

Lemma map_prp_eq prp1 prp2 len n :
  prp_conf (params n) -> 0 < len -> len + page_size (params n) <= 2 ^ 32 ->
  nvme_map_prp prp1 prp2 len n = Ok (prp_ref (params n) (guest n) prp1 prp2 len) n.
Proof.
  intros Hq Hl Hw. unfold nvme_map_prp, prp_ref, mbind, M_bind, gets. set (q := params n) in *.
  pose proof (pc_page q Hq) as Hps. pose proof (pc_bits q Hq).
  assert (0 < page_size q) as Hp by (rewrite Hps; lia). pose proof (Z.mod_pos_bound prp1 _ Hp).
  destruct (Z.eqb_spec (page_size q) 0); [lia|]. destruct (Z.eqb_spec prp1 0); [done|]. cbn [orb].
  set (rest := len - _). assert (0 <= rest < len) as Hr by lia.
  destruct (Z.eqb_spec rest 0) as [->|Hne]; [by rewrite page_count_0|].
  pose proof (page_count_pos (page_size q) rest Hp ltac:(lia)) as Hk.
  pose proof (page_count_gt (page_size q) rest Hp ltac:(lia)) as Hgt.
  destruct (Z.ltb_spec 0 (page_count (page_size q) rest)); [|lia]. cbn [andb].
  destruct (Z.eqb_spec (page_count (page_size q) rest) 0); [lia|].
  destruct (Z.eqb_spec prp2 0) as [->|]; [done|]. cbn [orb].
  destruct (Z.ltb_spec (page_size q) rest).
  - destruct (Z.eqb_spec (page_count (page_size q) rest) 1); [lia|].
    rewrite u32_small, Z.shiftr_div_pow2, <- Hps by lia.
    change ((rest + page_size q - 1) / page_size q) with (page_count (page_size q) rest).
    pose proof (pc_ents q Hq).
    pose proof (prp_loop_eq (Z.to_nat rest) rest 0 prp2 [(prp1, len `min` (page_size q - prp1 mod page_size q))] n) as HL.
    cbv zeta in HL. fold q in HL. rewrite Z.add_0_r in HL. rewrite HL by (done || lia).
    unfold prp_rest. rewrite Z.add_0_r, drop_0. by destruct (existsb _ _).
  - destruct (Z.eqb_spec (page_count (page_size q) rest) 1); [|lia]. cbn [fst snd app existsb cut].
    rewrite (Z.min_l rest) by lia. unfold prp_bad. destruct (Z.eqb_spec prp2 0); [done|]. cbn [orb].
    by destruct (has _ _).
Qed.

(** *** What the reference gives covers the transfer *)

Lemma prp_pages_length hops g m base pages :
  2 <= m -> 0 <= pages -> (Z.to_nat pages <= hops)%nat ->
  zlen (prp_pages hops g m base pages).1 = pages.
Proof.
  intros Hm. revert base pages. induction hops as [|hops IH]; intros base pages Hp Hh; cbn [prp_pages];
    (destruct (Z.leb_spec pages m); [by apply zlen_ztab|]); [lia|]. cbn [fst].
  unfold zlen in *. rewrite length_app, Nat2Z.inj_add, IH by lia.
  pose proof (zlen_ztab (m - 1) (prp_entry g base) ltac:(lia)) as Hz. unfold zlen, prp_entries in *. lia.
Qed.

(** Pieces inside one page each. *)
Definition piece_ok (ps : Z) (x : Z * Z) : Prop := 0 < x.2 /\ x.1 mod ps + x.2 <= ps.

Lemma prp_good_aligned k ent : 0 <= k -> prp_bad (2 ^ k) ent = false -> ent mod 2 ^ k = 0.
Proof.
  intros Hk. unfold prp_bad, has. rewrite orb_false_iff, negb_false_iff, Z.eqb_eq. intros [_ E].
  rewrite <- Z.land_ones by done. by rewrite Z.ones_equiv, <- Z.sub_1_r.
Qed.

Lemma cut_covers k len l :
  let ps := 2 ^ k in
  0 <= k -> 0 <= len -> zlen l = page_count ps len -> existsb (prp_bad ps) l = false ->
  sg_size (cut ps len l) = len /\ Forall (piece_ok ps) (cut ps len l).
Proof.
  intros ps Hk. assert (0 < ps) as Hp by (subst ps; lia).
  revert len. induction l as [|a l IH]; intros len Hl Hz Hb.
  - destruct (Z.eq_dec len 0) as [->|]; [done|]. pose proof (page_count_pos ps len Hp ltac:(lia)).
    unfold zlen in Hz. simpl in Hz. lia.
  - destruct (Z.eq_dec len 0) as [->|Hne]; [rewrite page_count_0 in Hz by done; unfold zlen in Hz; simpl in Hz; lia|].
    cbn [existsb] in Hb. apply orb_false_iff in Hb as [Ha Hb].
    destruct (IH (len - Z.min len ps)) as [IH1 IH2]; [lia| |done|].
    { rewrite page_count_step by lia. unfold zlen in *. cbn [length] in Hz. lia. }
    cbn [cut sg_size foldr]. fold (sg_size (cut ps (len - Z.min len ps) l)). split; [cbn; lia|].
    constructor; [|done]. split; [cbn; lia|]. apply prp_good_aligned in Ha; [|done]. cbn. fold ps in Ha. lia.
Qed.

Lemma prp_ref_covers q g prp1 prp2 len l :
  prp_conf q -> 0 < len -> prp_ref q g prp1 prp2 len = Some l ->
  sg_size l = len /\ Forall (piece_ok (page_size q)) l.
Proof.
  intros Hq Hl. unfold prp_ref. set (ps := page_size q). set (first := Z.min len _).
  assert (0 < ps) as Hp by (unfold ps; rewrite (pc_page q Hq); pose proof (pc_bits q Hq); lia).
  pose proof (Z.mod_pos_bound prp1 ps Hp) as Hmod. assert (0 <= len - first) as Hr by lia.
  set (r := if _ =? 0 then _ else _). destruct (_ || _ || _) eqn:Eb; [done|]. intros [= <-].
  apply orb_false_iff in Eb as [_ Eb]. rewrite existsb_app in Eb. apply orb_false_iff in Eb as [Eb _].
  assert (zlen r.1 = page_count ps (len - first)) as Hz.
  { pose proof (Z.div_pos (len - first + ps - 1) ps). subst r. destruct (Z.eqb_spec (page_count ps (len - first)) 0) as [->|]; [done|].
    destruct (Z.eqb_spec (page_count ps (len - first)) 1) as [->|]; [done|].
    apply prp_pages_length; [apply Hq|unfold page_count; lia|lia]. }
  pose proof (cut_covers (page_bits q) (len - first) r.1 (pc_bits q Hq) Hr) as Hcut. cbv zeta in Hcut.
  rewrite <- (pc_page q Hq) in Hcut. destruct (Hcut Hz Eb) as [H1 H2]. fold ps in H1, H2.
  cbn [sg_size foldr]. fold (sg_size (cut ps (len - first) r.1)). split; [cbn; lia|].
  constructor; [|done]. unfold piece_ok. cbn. lia.
Qed.
End Prp.

(** ** The copy between guest memory and the storage *)

(** The guest address of byte [i] of a list of ranges. *)
Fixpoint sg_addr (l : list (Z * Z)) (i : Z) : Z :=
  match l with
  | [] => 0
  | (a, k) :: l' => if i <? k then a + i else sg_addr l' (i - k)
  end.

(** No byte of guest memory occurs twice. *)
Definition sg_distinct (l : list (Z * Z)) : Prop :=
  forall i j, 0 <= i < sg_size l -> 0 <= j < sg_size l -> sg_addr l i = sg_addr l j -> i = j.

(** Guest memory is memory: a range that is mapped is mapped from its start,
    possibly not to its end. *)
Definition maps_all `{Guest} : Prop :=
  forall a k, 0 < k -> exists k', dma_memory_map a k = Some k' /\ 0 < k' <= k.

Abbreviation nonempty l := (Forall (fun x : Z * Z => 0 < x.2) l).

Section Copy.
Context `{Clock} `{Guest} `{Backend}.
Implicit Types (n : NvmeCtrl) (l : list (Z * Z)).

Lemma sg_size_cons a k l : sg_size ((a, k) :: l) = k + sg_size l.
Proof. done. Qed.

Lemma sg_size_nonneg l : nonempty l -> 0 <= sg_size l.
Proof. induction 1 as [|[a k] l Hk _ IH]; [done|]. rewrite sg_size_cons. cbn in Hk. lia. Qed.

Lemma sg_bytes_addr g l i : nonempty l -> 0 <= i < sg_size l -> sg_bytes g l i = g (sg_addr l i).
Proof.
  intros Hl. revert i. induction Hl as [|[a k] l Hk Hl IH]; intros i Hi; [cbn in Hi; lia|].
  rewrite sg_size_cons in Hi. cbn. destruct (Z.ltb_spec i k); [done|]. apply IH. lia.
Qed.

Lemma map_sg_spec fuel l c acc n :
  maps_all -> nonempty l -> 0 <= c -> match l with [] => c = 0 | x :: _ => c < x.2 end ->
  sg_size l - c <= Z.of_nat fuel ->
  exists iov, map_sg fuel l c acc n = Ok (acc ++ iov) n /\ nonempty iov /\ sg_size iov = sg_size l - c /\
    forall i, 0 <= i < sg_size l - c -> sg_addr iov i = sg_addr l (c + i).
Proof.
  intros Hmap. revert l c acc. induction fuel as [|fuel IH]; intros [|[a k] l] c acc Hl Hc Hck Hf; cbn [map_sg].
  - exists []. rewrite app_nil_r. subst c. split_and!; [done|by constructor|done|]. cbn. lia.
  - inversion Hl as [|? ? Hk Hl']; subst. pose proof (sg_size_nonneg l Hl'). rewrite sg_size_cons in Hf.
    cbn in Hk, Hck. lia.
  - exists []. rewrite app_nil_r. subst c. split_and!; [done|by constructor|done|]. cbn. lia.
  - inversion Hl as [|? ? Hk Hl']; subst. cbn in Hk, Hck. rewrite sg_size_cons in *.
    destruct (Hmap (a + c) (k - c)) as (k' & -> & Hk'); [lia|].
    assert (exists l1 c1, (if c + k' =? k then map_sg fuel l 0 (acc ++ [(a + c, k')])
        else map_sg fuel ((a, k) :: l) (c + k') (acc ++ [(a + c, k')])) = map_sg fuel l1 c1 (acc ++ [(a + c, k')]) /\
      nonempty l1 /\ 0 <= c1 /\ match l1 with [] => c1 = 0 | x :: _ => c1 < x.2 end /\
      sg_size l1 - c1 = k + sg_size l - c - k' /\
      forall i, 0 <= i < sg_size l1 - c1 -> sg_addr l1 (c1 + i) = sg_addr ((a, k) :: l) (c + k' + i))
      as (l1 & c1 & -> & K1 & K2 & K3 & K4 & K5).
    { destruct (Z.eqb_spec (c + k') k) as [E|E].
      - exists l, 0. split_and!; try done; [destruct Hl'; cbn in *; lia|lia|].
        intros i Hi. cbn [sg_addr]. destruct (Z.ltb_spec (c + k' + i) k); [lia|]. f_equal. lia.
      - exists ((a, k) :: l), (c + k'). rewrite sg_size_cons. split_and!; [done|by constructor|lia|cbn; lia|lia|].
        done. }
    destruct (IH l1 c1 (acc ++ [(a + c, k')]) K1 K2 K3 ltac:(lia)) as (iov & E & I1 & I2 & I3).
    exists ((a + c, k') :: iov). rewrite E, <- (assoc_L (++)). split; [done|]. split; [constructor; [cbn; lia|done]|].
    rewrite sg_size_cons. split; [lia|]. intros i Hi. cbn [sg_addr].
    destruct (Z.ltb_spec i k'); [destruct (Z.ltb_spec (c + i) k); lia|].
    rewrite I3, K5 by lia. cbn [sg_addr]. replace (c + k' + (i - k')) with (c + i) by lia. done.
Qed.

Lemma heap_write l off n :
  nonempty l -> 0 <= off -> off + sg_size l <= heap_size (params n) ->
  exists h, heap_loop true l off n = Ok tt (set_heap_storage h n) /\
    forall a, h a = if (off <=? a) && (a <? off + sg_size l) then guest n (sg_addr l (a - off))
                    else heap_storage n a.
Proof.
  intros Hl. revert off n. induction Hl as [|[a0 k] l Hk Hl IH]; intros off n Ho Hs; cbn [heap_loop].
  - exists (heap_storage n). split; [by destruct n|]. intros a. cbn.
    by destruct (Z.leb_spec off a), (Z.ltb_spec a (off + 0)); try lia.
  - rewrite sg_size_cons in *. cbn in Hk. pose proof (sg_size_nonneg l Hl).
    unfold mbind, M_bind, heap_copy, in_heap. cbn [fst snd].
    destruct (Z.leb_spec 0 off); [|lia]. destruct (Z.leb_spec (off + k) (heap_size (params n))); [|lia].
    cbn [andb negb].
    destruct (IH (off + k) (set_heap_storage (blit (heap_storage n) off (guest n) a0 k) n)) as (h & E & Hh); [lia|cbn; lia|].
    exists h. split; [by rewrite E|]. intros a. rewrite Hh. cbn [guest heap_storage set_heap_storage sg_addr]. unfold blit.
    destruct (Z.leb_spec (off + k) a), (Z.leb_spec off a), (Z.ltb_spec a (off + k)), (Z.ltb_spec a (off + k + sg_size l)),
      (Z.ltb_spec a (off + (k + sg_size l))), (Z.ltb_spec (a - off) k); cbn [andb]; try lia; try done; f_equal; try lia.
    f_equal. lia.
Qed.

Lemma heap_read l off n :
  nonempty l -> 0 <= off -> off + sg_size l <= heap_size (params n) ->
  exists g, heap_loop false l off n = Ok tt (set_guest g n) /\
    (forall a, (forall i, 0 <= i < sg_size l -> sg_addr l i <> a) -> g a = guest n a) /\
    (sg_distinct l -> forall i, 0 <= i < sg_size l -> g (sg_addr l i) = heap_storage n (off + i)).
Proof.
  intros Hl. revert off n. induction Hl as [|[a0 k] l Hk Hl IH]; intros off n Ho Hs; cbn [heap_loop].
  - exists (guest n). split; [by destruct n|]. split; [done|]. cbn. lia.
  - rewrite sg_size_cons in *. cbn in Hk. pose proof (sg_size_nonneg l Hl).
    unfold mbind, M_bind, heap_copy, in_heap. cbn [fst snd].
    destruct (Z.leb_spec 0 off); [|lia]. destruct (Z.leb_spec (off + k) (heap_size (params n))); [|lia].
    cbn [andb negb]. set (n1 := set_guest _ n).
    destruct (IH (off + k) n1) as (g & E & Hout & Hin); [lia|cbn; lia|].
    (* the addresses of the tail are those of the list behind the first range *)
    assert (forall i, 0 <= i -> sg_addr ((a0, k) :: l) (k + i) = sg_addr l i) as Htl.
    { intros i Hi. cbn [sg_addr]. destruct (Z.ltb_spec (k + i) k); [lia|]. f_equal. lia. }
    assert (forall i, i < k -> sg_addr ((a0, k) :: l) i = a0 + i) as Hhd.
    { intros i Hi. cbn [sg_addr]. by destruct (Z.ltb_spec i k); [|lia]. }
    exists g. split; [by rewrite E|]. split.
    + intros a Ha. rewrite Hout; [|intros i Hi; rewrite <- Htl by lia; apply Ha; lia]. cbn. unfold blit.
      destruct (Z.leb_spec a0 a), (Z.ltb_spec a (a0 + k)); cbn [andb]; try done.
      exfalso. apply (Ha (a - a0)); [lia|]. rewrite Hhd by lia. lia.
    + intros Hd i Hi. destruct (Z.lt_ge_cases i k).
      * rewrite Hhd by lia. rewrite Hout.
        2:{ intros j Hj Hej. specialize (Hd (k + j) i). rewrite sg_size_cons, Htl, Hhd in Hd by lia. lia. }
        cbn. unfold blit. destruct (Z.leb_spec a0 (a0 + i)), (Z.ltb_spec (a0 + i) (a0 + k)); try lia. cbn [andb].
        f_equal. lia.
      * replace i with (k + (i - k)) at 1 by lia. rewrite Htl by lia. rewrite Hin; [cbn; f_equal; lia| |lia].
        intros x y Hx Hy Hxy. specialize (Hd (k + x) (k + y)). rewrite sg_size_cons, !Htl in Hd by lia. lia.
Qed.

(** The ranges of a request as they are mapped, cut or not. *)
Lemma storage_ranges req n :
  maps_all -> nonempty (qsg req) -> sg_size (qsg req) mod 512 = 0 ->
  exists iov, nvme_heap_storage_rw req n = (heap_loop (is_write req) iov (data_offset req);; mret NVME_SUCCESS) n /\
    nonempty iov /\ sg_size iov = sg_size (qsg req) /\
    forall i, 0 <= i < sg_size (qsg req) -> sg_addr iov i = sg_addr (qsg req) i.
Proof.
  intros Hm Hl Hs. pose proof (sg_size_nonneg _ Hl).
  destruct (map_sg_spec (Z.to_nat (sg_size (qsg req)) + length (qsg req)) (qsg req) 0 [] n)
    as (iov & E & K1 & K2 & K3); [done|done|lia| |lia|].
  { destruct Hl; [done|]. done. }
  rewrite Z.sub_0_r in *. exists iov. split; [|done]. unfold nvme_heap_storage_rw, mbind, M_bind.
  rewrite E. cbn [app]. by rewrite K2, Hs.
Qed.

Lemma storage_write req n :
  maps_all -> nonempty (qsg req) -> sg_size (qsg req) mod 512 = 0 -> is_write req = true ->
  0 <= data_offset req -> data_offset req + sg_size (qsg req) <= heap_size (params n) ->
  exists h, nvme_heap_storage_rw req n = Ok NVME_SUCCESS (set_heap_storage h n) /\
    forall a, h a = if (data_offset req <=? a) && (a <? data_offset req + sg_size (qsg req))
                    then guest n (sg_addr (qsg req) (a - data_offset req)) else heap_storage n a.
Proof.
  intros Hm Hl Hs Hw Ho Hb. destruct (storage_ranges req n Hm Hl Hs) as (iov & E & K1 & K2 & K3).
  destruct (heap_write iov (data_offset req) n) as (h & Eh & Hh); [done|done|by rewrite K2|].
  exists h. rewrite E, Hw. unfold mbind, M_bind. rewrite Eh. split; [done|]. intros a. rewrite Hh, K2.
  destruct (Z.leb_spec (data_offset req) a), (Z.ltb_spec a (data_offset req + sg_size (qsg req))); cbn [andb]; try done.
  by rewrite K3 by lia.
Qed.

Lemma storage_read req n :
  maps_all -> nonempty (qsg req) -> sg_size (qsg req) mod 512 = 0 -> is_write req = false ->
  0 <= data_offset req -> data_offset req + sg_size (qsg req) <= heap_size (params n) ->
  exists g, nvme_heap_storage_rw req n = Ok NVME_SUCCESS (set_guest g n) /\
    (forall a, (forall i, 0 <= i < sg_size (qsg req) -> sg_addr (qsg req) i <> a) -> g a = guest n a) /\
    (sg_distinct (qsg req) -> forall i, 0 <= i < sg_size (qsg req) ->
       g (sg_addr (qsg req) i) = heap_storage n (data_offset req + i)).
Proof.
  intros Hm Hl Hs Hw Ho Hb. destruct (storage_ranges req n Hm Hl Hs) as (iov & E & K1 & K2 & K3).
  destruct (heap_read iov (data_offset req) n) as (g & Eg & Hout & Hin); [done|done|by rewrite K2|].
  exists g. rewrite E, Hw. unfold mbind, M_bind. rewrite Eg. split; [done|]. rewrite K2 in *. split.
  - intros a Ha. apply Hout. intros i Hi. rewrite K3 by done. by apply Ha.
  - intros Hd i Hi. rewrite <- K3 by done. apply Hin; [|done]. intros x y Hx Hy. rewrite K2 in *.
    rewrite !K3 by done. by apply Hd.
Qed.
End Copy.

(** ** The steps of a read or write *)

(** What the FTL is told about the pages of a write of [k] pages. *)
Definition meta_infos (sc : ssdconf) (g : memory) (meta k : Z) : list lpn_info :=
  ztab 512 (fun i => if negb (meta =? 0) && (i <? k)
                     then meta_info sc (fun o => g (meta + o)) (i * PI_BYTES_NVME)
                     else mk_lpn_info 0 0 0).

Section Steps.
Context `{Clock} `{Guest} `{Backend}.
Implicit Types (n : NvmeCtrl).

Lemma le_range m a k : 0 <= le m a k < 256 ^ Z.of_nat k.
Proof.
  revert a. induction k as [|k IH]; intros a; [cbn; lia|]. cbn [le]. specialize (IH (a + 1)).
  rewrite Nat2Z.inj_succ, Z.pow_succ_r by lia. pose proof (Z.mod_pos_bound (m a) (2 ^ 8)). unfold u8. lia.
Qed.

Lemma on_ssd_Ok {A} (m : SM A) n a s : m (ssd n) = Ok a s -> on_ssd m n = Ok a (set_ssd s n).
Proof. intros E. unfold on_ssd. by rewrite E. Qed.

Lemma nvme_meta_write sc meta k n :
  ssdparams (ssd n) = sc -> 0 <= k <= 512 ->
  exists b, nvme_meta true meta k n = Ok (meta_infos sc (guest n) meta k) (set_meta_buf b n).
Proof.
  intros Hsc Hk. unfold nvme_meta, meta_infos. destruct (meta =? 0); cbn [negb andb].
  { exists (meta_buf n). by destruct n. }
  destruct (Z.ltb_spec msl_size (k * PI_BYTES_NVME)); [unfold msl_size, PI_BYTES_NVME in *; lia|].
  unfold mbind, M_bind, gets. set (msl := fun o => guest n (meta + o)).
  pose proof (wp_mfold (fun i info n' => (exists b, n' = set_meta_buf b n) /\
    info = ztab 512 (fun j => if j <? i then meta_info sc msl (j * PI_BYTES_NVME) else mk_lpn_info 0 0 0))
    (Z.to_nat k) 0 (ztab 512 (fun _ => mk_lpn_info 0 0 0))
    (fun i info => ftl_meta_write msl (i * PI_BYTES_NVME) info i) n) as Hw.
  apply wp_Ok in Hw as (info & n' & E & (b & ->) & ->).
  - exists b. by rewrite E, Z.add_0_l, Z2Nat.id by lia.
  - split; [by exists (meta_buf n); destruct n|]. apply ztab_ext. intros i Hi. by destruct (Z.ltb_spec i 0); [lia|].
  - intros i info n' Hi [(b & ->) ->]. unfold wp, ftl_meta_write, mbind, M_bind, modify, on_ssd, get_conf, gets, idx.
    cbn [ssd set_meta_buf]. rewrite zget_ztab by lia. split; [by eexists|]. rewrite Hsc, zset_ztab by lia.
    apply ztab_ext. intros j Hj.
    destruct (Z.eqb_spec j i), (Z.ltb_spec j i), (Z.ltb_spec j (i + 1)); try lia; try done. by subst.
Qed.

Lemma nvme_meta_read meta k n :
  0 <= k <= 512 -> nvme_meta false meta k n = Ok (ztab 512 (fun _ => mk_lpn_info 0 0 0)) n.
Proof.
  intros Hk. unfold nvme_meta. destruct (meta =? 0); [done|]. unfold mbind, M_bind.
  pose proof (wp_mfor (fun _ n' => n' = n) (Z.to_nat k) 0 (fun i => ftl_meta_read (i * PI_BYTES_NVME)) n) as Hw.
  apply wp_Ok in Hw as ([] & n' & -> & ->); [done|done|]. intros i n' Hi ->. unfold wp, ftl_meta_read.
  by destruct (Z.leb_spec (i * PI_BYTES_NVME + PI_BYTES_NVME) msl_size); [|unfold msl_size, PI_BYTES_NVME in *; lia].
Qed.

Lemma find_bit_none fuel m size offset :
  (forall i, offset <= i < size -> m i = false) -> offset <= size -> find_bit fuel m size offset = size.
Proof.
  revert offset. induction fuel as [|fuel IH]; intros offset Hm Ho; cbn [find_bit]; [done|].
  destruct (Z.leb_spec size offset); [done|]. rewrite Hm by lia. apply IH; [intros i Hi; apply Hm|]; lia.
Qed.

Lemma rw_check_ok ns cmd req slba elba nlb ctrl data_size n :
  slba <= elba <= nsze ns -> (mdts (params n) = 0 \/ data_size <= page_size (params n) * 2 ^ mdts (params n)) ->
  has ctrl NVME_RW_PRINFO_PRACT = false ->
  (is_write req = false -> forall i, slba <= i < elba -> uncorrectable ns i = false) ->
  nvme_rw_check_req ns cmd req slba elba nlb ctrl data_size 0 n = Ok 0 n.
Proof.
  intros He Hm Hc Hu. unfold nvme_rw_check_req, mbind, M_bind, gets.
  destruct (Z.ltb_spec (nsze ns) elba); [lia|]. rewrite Hc. cbn [andb Z.eqb negb].
  replace (negb (mdts (params n) =? 0) && (page_size (params n) * 2 ^ mdts (params n) <? data_size)) with false.
  2:{ symmetry. destruct Hm as [->|Hm]; [done|]. apply andb_false_iff. right. lia. }
  destruct (is_write req); [done|]. unfold find_next_bit. rewrite find_bit_none by (auto || lia).
  cbn [negb andb]. by rewrite Z.ltb_irrefl.
Qed.
End Steps.
