(* ===== verification/NvmeOc.v ===== *)
(** * The open-channel mode: hw/block/femu/femu-oc.c

    The guest addresses channels, units, planes, blocks, pages and sectors of
    the flash itself, without the FTL.  An address is a number whose bit fields
    are taken apart with the masks of [ppaf].  The controller keeps a state for
    every sector, bad blocks for every unit, and the times when chips and
    channels are free.

    [femu_oc_init] lays the address format out, the I/O commands are
    [femu_oc_rw] and [femu_oc_erase_async], the admin commands [femu_oc_identity],
    [femu_oc_get_l2p_tbl], [femu_oc_bbt_get] and [femu_oc_bbt_set]. *)

From Stdlib Require Import ZArith Lia List SpecFloat.
From stdpp Require Import base tactics numbers list functions.
From S2P Require Import Prelude Config State Timing Ftl Ssd Nvme.

Open Scope Z_scope.

(** ** Constants *)

Definition FEMU_OC_SEC_UNKNOWN : Z := 0.
Definition FEMU_OC_SEC_WRITTEN : Z := 172.
Definition FEMU_OC_PBA_UNMAPPED : Z := 2 ^ 64 - 1.
Definition FEMU_OC_LBA_UNMAPPED : Z := 2 ^ 64 - 1.
Definition MLC_LOWER_PAGE : Z := 0.
Definition MLC_UPPER_PAGE : Z := 1.
Definition ENOMEM : Z := 12.
Definition EINVAL : Z := 22.

(** [NS2CYC_RATIO] is 2.3. *)
Definition NS2CYC_RATIO : spec_float := d_div (d_of_Z 23) (d_of_Z 10).
Definition cyc2ns (cycles : Z) : Z := d_trunc (d_div (d_of_Z cycles) NS2CYC_RATIO).

(** [qemu_fls]: the number of bits of a 32-bit number. *)
Definition qemu_fls (i : Z) : Z := if i =? 0 then 0 else if i <? 0 then 32 else Z.log2 i + 1.

(** The fields of [FEMU_OC_RwCmd] and [FEMU_OC_BbtSet] that other commands do
    not have. *)
Definition oc_gtsc (cmd : memory) : Z := le cmd 8 8.
Definition oc_spba (cmd : memory) : Z := le cmd 40 8.
Definition oc_slba (cmd : memory) : Z := le cmd 56 8.
Definition bbt_value (cmd : memory) : Z := u8 (cmd 50).
Definition tbl_nlb (cmd : memory) : Z := le cmd 48 4.

(** ** Changes of the state *)

Definition upd_oc (f : FEMU_OC_Ctrl -> FEMU_OC_Ctrl) : NM unit := modify (fun n => set_oc (f (femu_oc_ctrl n)) n).
Definition upd_ocg (f : oc_globals -> oc_globals) : NM unit := modify (fun n => set_ocg (f (ocg n)) n).

Definition oc_with_meta b t k i o := mk_FEMU_OC_Ctrl (oc_params o) (ver_id o) (vmnt o) (cgrps o) (oc_cap o) (dom o)
  (id_ppaf o) (group o) (ppaf o) (read_l2p_tbl o) (err_write o) (n_err_write o) (err_write_cnt o) b t k i.
Definition oc_with_meta_buf b o := oc_with_meta b (meta_tbytes o) (meta_len o) (int_meta_size o) o.
Definition oc_with_err_cnt c o := mk_FEMU_OC_Ctrl (oc_params o) (ver_id o) (vmnt o) (cgrps o) (oc_cap o) (dom o)
  (id_ppaf o) (group o) (ppaf o) (read_l2p_tbl o) (err_write o) (n_err_write o) c (oc_meta_buf o) (meta_tbytes o)
  (meta_len o) (int_meta_size o).
Definition oc_with_layout p f g a o := mk_FEMU_OC_Ctrl p 1 0 1 3 (dom o) f g a (read_l2p_tbl o) (err_write o)
  (n_err_write o) (err_write_cnt o) (oc_meta_buf o) (meta_tbytes o) (meta_len o) (int_meta_size o).
Definition ocg_with_times chip chnl g := mk_oc_globals chip chnl (mlc_tbl g) (nand_read_upper_t g) (nand_read_lower_t g)
  (nand_write_upper_t g) (nand_write_lower_t g) (nand_erase_t g) (chnl_page_tr_t g).
Definition ocg_with_mlc t g := mk_oc_globals (oc_chip g) (oc_chnl g) t (nand_read_upper_t g) (nand_read_lower_t g)
  (nand_write_upper_t g) (nand_write_lower_t g) (nand_erase_t g) (chnl_page_tr_t g).
Definition ocg_with_latencies ru rl wu wl e t g := mk_oc_globals (oc_chip g) (oc_chnl g) (mlc_tbl g) ru rl wu wl e t.

Definition ns_with_tbl d k t ns := mk_NvmeNamespace (ns_id ns) (nsze ns) (flbas ns) (lbaf ns) (ns_dps ns) (start_block ns)
  (util ns) (uncorrectable ns) (nlbaf ns) (ns_mc ns) (ns_dpc ns) (ns_blks ns) (meta_start_offset ns) (lba_range ns)
  d k t (bbtbl ns).
Definition ns_with_bbtbl b ns := mk_NvmeNamespace (ns_id ns) (nsze ns) (flbas ns) (lbaf ns) (ns_dps ns) (start_block ns)
  (util ns) (uncorrectable ns) (nlbaf ns) (ns_mc ns) (ns_dpc ns) (ns_blks ns) (meta_start_offset ns) (lba_range ns)
  (tbl_dsk_start_offset ns) (tbl_entries ns) (tbl ns) b.

(** The variables as the program starts, and the structure before the set-up:
    the properties, and zeroes. *)
Definition ocg_init : oc_globals :=
  mk_oc_globals (ztab 128 (fun _ => 0)) (ztab 16 (fun _ => 0)) (ztab 511 (fun _ => 0)) 64000 48000 2300000 850000
    5000000 52433.

Definition oc_blank (p : FEMU_OC_Params) (ver d l2p err n_err : Z) : FEMU_OC_Ctrl :=
  mk_FEMU_OC_Ctrl p ver 0 0 0 d (mk_FEMU_OC_IdAddrFormat 0 0 0 0 0 0 0 0 0 0 0 0)
    (mk_FEMU_OC_IdGroup 0 0 0 0 0 0 0 0 0 0 0 0 0 0 0 0 0 0 0) (mk_FEMU_OC_AddrF 0 0 0 0 0 0 0 0 0 0 0 0) l2p err n_err
    0 (fun _ => 0) 0 0 0.

(** The default properties. *)
Definition oc_default_params : FEMU_OC_Params :=
  mk_FEMU_OC_Params 256 4096 1 64 0 0 1 1 1 16 0 0 0 0 0 0 0 0 0 0 0.

(** ** The address format *)

(** A field of an address, as an [int]. *)
Definition ppa_field (mask offset ppa : Z) : Z := s32 (Z.shiftr (Z.land ppa mask) offset).

Definition ppa_ch (o : FEMU_OC_Ctrl) (ppa : Z) : Z := ppa_field (ch_mask (ppaf o)) (f_ch_offset (ppaf o)) ppa.
Definition ppa_lun (o : FEMU_OC_Ctrl) (ppa : Z) : Z := ppa_field (lun_mask (ppaf o)) (f_lun_offset (ppaf o)) ppa.
Definition ppa_blk (o : FEMU_OC_Ctrl) (ppa : Z) : Z := ppa_field (blk_mask (ppaf o)) (f_blk_offset (ppaf o)) ppa.
Definition ppa_pg (o : FEMU_OC_Ctrl) (ppa : Z) : Z := ppa_field (pg_mask (ppaf o)) (f_pg_offset (ppaf o)) ppa.
Definition ppa_lunid (o : FEMU_OC_Ctrl) (ppa : Z) : Z := ppa_ch o ppa * num_lun (group o) + ppa_lun o ppa.

(** [((1 << len) - 1) << offset], in [int] arithmetic. *)
Definition field_mask (len offset : Z) : NM Z :=
  if (31 <=? len) || (32 <=? offset) || (31 <? len + offset) then mcrash BadShift
  else mret (Z.shiftl (2 ^ len - 1) offset).

(** CHANNEL | LUN | BLOCK | PAGE | PLANE | SECTOR *)
Definition femu_oc_init_id_ctrl (p : FEMU_OC_Params) (g : FEMU_OC_IdGroup) : FEMU_OC_IdAddrFormat :=
  let sect_l := u8 (qemu_fls (sec_per_pg p - 1)) in
  let pln_o := sect_l in
  let pln_l := u8 (qemu_fls (p_num_pln p - 1)) in
  let pg_o := u8 (pln_o + pln_l) in
  let pg_l := u8 (qemu_fls (pgs_per_blk p - 1)) in
  let blk_o := u8 (pg_o + pg_l) in
  let blk_l := u8 (qemu_fls (num_blk g - 1)) in
  let lun_o := u8 (blk_o + blk_l) in
  let lun_l := u8 (qemu_fls (p_num_lun p - 1)) in
  let ch_o := u8 (lun_o + lun_l) in
  let ch_l := u8 (qemu_fls (p_num_ch p - 1)) in
  mk_FEMU_OC_IdAddrFormat ch_o ch_l lun_o lun_l pln_o pln_l blk_o blk_l pg_o pg_l 0 sect_l.

Definition addr_format (f : FEMU_OC_IdAddrFormat) : NM FEMU_OC_AddrF :=
  sec ← field_mask (sect_len f) (sect_offset f);
  pln ← field_mask (pln_len f) (pln_offset f);
  pg ← field_mask (pg_len f) (pg_offset f);
  blk ← field_mask (blk_len f) (blk_offset f);
  lun ← field_mask (lun_len f) (lun_offset f);
  ch ← field_mask (ch_len f) (ch_offset f);
  mret (mk_FEMU_OC_AddrF ch lun pln blk pg sec (ch_offset f) (lun_offset f) (pln_offset f) (blk_offset f)
    (pg_offset f) (sect_offset f)).

(** ** Set-up *)

Definition femu_oc_bbtbl_init (g : FEMU_OC_IdGroup) : list FEMU_OC_Bbt :=
  let blks_per_lun := num_blk g * num_pln g in
  ztab (num_ch g * num_lun g) (fun _ => mk_FEMU_OC_Bbt blks_per_lun (ztab blks_per_lun (fun _ => 0))).

(** The geometry of a namespace; [None] is an invalid number of planes. *)
Definition oc_group (p : FEMU_OC_Params) (ns : NvmeNamespace) : NM (option FEMU_OC_IdGroup) :=
  let per_blk := sec_per_pg p * pgs_per_blk p in
  if (per_blk =? 0) || (p_num_ch p =? 0) || (p_num_lun p * p_num_pln p =? 0) then mcrash DivByZero else
  let chnl_blks := ns_blks ns / per_blk / p_num_ch p in
  let g mpos := mk_FEMU_OC_IdGroup (p_mtype p) (p_fmtype p) (p_num_ch p) (p_num_lun p) (p_num_pln p)
    (u16 chnl_blks / (p_num_lun p * p_num_pln p)) (pgs_per_blk p) (u16 (sec_size p * sec_per_pg p)) (sec_size p)
    (sos p) 70000 100000 1900000 3500000 3000000 3000000 mpos 1 0 in
  mret (if p_num_pln p =? 1 then Some (g 65793)
        else if p_num_pln p =? 2 then Some (g 131586)
        else if p_num_pln p =? 4 then Some (g 263172)
        else None).

Definition oc_sizes (p : FEMU_OC_Params) (g : FEMU_OC_IdGroup) : FEMU_OC_Params :=
  let per_pl := u32 (sec_per_pg p * num_pln g) in
  let per_blk := u32 (per_pl * pgs_per_blk p) in
  let per_lun := u32 (per_blk * num_blk g) in
  let per_ch := u32 (per_lun * num_lun g) in
  let total := u32 (per_ch * num_ch g) in
  mk_FEMU_OC_Params (pgs_per_blk p) (sec_size p) (sec_per_pg p) (max_sec_per_rq p) (p_mtype p) (p_fmtype p)
    (p_num_ch p) (p_num_pln p) (p_num_lun p) (sos p) per_pl per_blk per_lun per_ch total
    (sec_per_pg p) per_pl per_blk per_lun per_ch total.

(** One namespace; the result is [false] for an invalid number of planes. *)
Definition oc_init_ns (i : Z) : NM bool :=
  o ← gets femu_oc_ctrl;
  l ← gets namespaces;
  ns ← idx l i;
  g ← oc_group (oc_params o) ns;
  match g with
  | None => mret false
  | Some g =>
      upd_namespace i (ns_with_bbtbl (femu_oc_bbtbl_init g));;
      let p := oc_sizes (oc_params o) g in
      let f := femu_oc_init_id_ctrl p g in
      a ← addr_format f;
      upd_oc (oc_with_layout p f g a);;
      mret true
  end.

(** [mlc_tbl[i] = v] *)
Definition set_mlc (v i : Z) : NM unit :=
  g ← gets ocg;
  _ ← idx (mlc_tbl g) i;
  upd_ocg (ocg_with_mlc (zset i v (mlc_tbl g))).

Fixpoint mseq (f : Z -> NM unit) (l : list Z) : NM unit :=
  match l with [] => mret tt | x :: l' => f x;; mseq f l' end.

(** The places of slow and fast pages in a block of 512 pages. *)
Definition init_low_upp_layout : NM unit :=
  mseq (set_mlc MLC_LOWER_PAGE) [0; 1; 2; 3; 4; 5; 7; 8; 502; 503; 506; 507; 509; 510];;
  mseq (set_mlc MLC_UPPER_PAGE) [6; 9; 504; 505; 508; 511];;
  _ ← mfold 246 0 MLC_LOWER_PAGE (fun k lpflag =>
        set_mlc lpflag (10 + 2 * k + 1);;
        set_mlc lpflag (10 + 2 * k);;
        mret (if lpflag =? MLC_LOWER_PAGE then MLC_UPPER_PAGE else MLC_LOWER_PAGE));
  mret tt.

(** The state of every sector and its spare area; the size is an [int], and the
    allocation fails when it is negative. *)
Definition femu_oc_init_meta : NM unit :=
  o ← gets femu_oc_ctrl;
  let len := 4 + sos (oc_params o) in
  let bytes := s32 (len * total_secs (oc_params o)) in
  if bytes <? 0 then mcrash ProcessExit
  else upd_oc (oc_with_meta (fun _ => FEMU_OC_SEC_UNKNOWN) bytes len 4).

Section Oc.
Context `{Clock} `{Guest} `{Backend}.

Definition femu_oc_tbl_size (ns : NvmeNamespace) : Z := u32 (tbl_entries ns * 8).

Definition femu_oc_tbl_initialize (entries : Z) : list Z := ztab entries (fun _ => FEMU_OC_LBA_UNMAPPED).

(** Reads the table of namespace [i]; the result is [false] when that fails. *)
Definition read_tbl (i : Z) : NM bool :=
  l ← gets namespaces;
  ns ← idx l i;
  match blk_pread (tbl_dsk_start_offset ns) (femu_oc_tbl_size ns) with
  | None => mret false
  | Some b =>
      (match tbl ns with
       | None => mret tt
       | Some t => upd_namespace i (fun ns => ns_with_tbl (tbl_dsk_start_offset ns) (tbl_entries ns)
                     (Some (ztab (zlen t) (fun k => le b (8 * k) 8))) ns)
       end);;
      mret true
  end.

Definition femu_oc_read_tbls : NM bool :=
  q ← gets params;
  r ← mfor_ret (Z.to_nat (num_namespaces q)) 0 (fun i => ok ← read_tbl i; mret (if ok : bool then None else Some tt));
  mret (match r with None => true | Some _ => false end).

(** The result is the value [nvme_init] returns, 0 or an error. *)
Definition femu_oc_init : NM Z :=
  q ← gets params;
  r ← mfor_ret (Z.to_nat (num_namespaces q)) 0 (fun i => ok ← oc_init_ns i; mret (if ok : bool then None else Some tt));
  match r with
  | Some _ => mret (- EINVAL)
  | None =>
      init_low_upp_layout;;
      femu_oc_init_meta;;
      o ← gets femu_oc_ctrl;
      ok ← (if read_l2p_tbl o =? 0 then mret true else femu_oc_read_tbls);
      mret (if ok : bool then 0 else -1)
  end.

(** ** Admin commands *)

(** The 4096 bytes of [FEMU_OC_IdCtrl]; the group is the first of four. *)
Definition oc_id_bytes (o : FEMU_OC_Ctrl) : memory := fun k =>
  let f := id_ppaf o in
  let g := group o in
  let at_ a n v := if (a <=? k) && (k <? a + n) then Some (le_byte v (k - a)) else None in
  default 0 (foldr (fun x r => match x with Some v => Some v | None => r end) None
    [at_ 0 1 (ver_id o); at_ 1 1 (vmnt o); at_ 2 1 (cgrps o); at_ 4 4 (oc_cap o); at_ 8 4 (dom o);
     at_ 12 1 (ch_offset f); at_ 13 1 (ch_len f); at_ 14 1 (lun_offset f); at_ 15 1 (lun_len f);
     at_ 16 1 (pln_offset f); at_ 17 1 (pln_len f); at_ 18 1 (blk_offset f); at_ 19 1 (blk_len f);
     at_ 20 1 (pg_offset f); at_ 21 1 (pg_len f); at_ 22 1 (sect_offset f); at_ 23 1 (sect_len f);
     at_ 256 1 (g_mtype g); at_ 257 1 (g_fmtype g); at_ 260 1 (num_ch g); at_ 261 1 (num_lun g); at_ 262 1 (num_pln g);
     at_ 264 2 (num_blk g); at_ 266 2 (num_pg g); at_ 268 2 (fpg_sz g); at_ 270 2 (csecs g); at_ 272 2 (g_sos g);
     at_ 276 4 (trdt g); at_ 280 4 (trdm g); at_ 284 4 (tprt g); at_ 288 4 (tprm g); at_ 292 4 (tbet g);
     at_ 296 4 (tbem g); at_ 300 4 (mpos g); at_ 304 4 (mccap g); at_ 308 2 (cpar g)]).

Definition femu_oc_identity (cmd : memory) : NM Z :=
  q ← gets params;
  o ← gets femu_oc_ctrl;
  if (cmd_nsid cmd =? 0) || (num_namespaces q <? cmd_nsid cmd) then mret (Z.lor NVME_INVALID_NSID NVME_DNR)
  else nvme_dma_read_prp (oc_id_bytes o) 4096 (cmd_prp1 cmd) (cmd_prp2 cmd).

Definition femu_oc_get_l2p_tbl (cmd : memory) (req : NvmeRequest) : NM Z :=
  q ← gets params;
  let slba := oc_spba cmd in
  let nlb := tbl_nlb cmd in
  if (cmd_nsid cmd =? 0) || (num_namespaces q <? cmd_nsid cmd) then mret (Z.lor NVME_INVALID_NSID NVME_DNR) else
  l ← gets namespaces;
  ns ← idx l (cmd_nsid cmd - 1);
  let error location :=
    nvme_set_error_page (r_sqid req) (cmd_cid cmd) NVME_INVALID_FIELD location 0 (ns_id ns);;
    mret (Z.lor NVME_INVALID_FIELD NVME_DNR) in
  if tbl_entries ns <=? slba then error 40
  else if tbl_entries ns <? u64 (slba + nlb) then error 48
  else
    t ← deref (tbl ns);
    st ← nvme_dma_read_prp (fun k => le_byte (nth (Z.to_nat (slba + k / 8)) t 0) (k mod 8)) (u32 (nlb * 8))
           (cmd_prp1 cmd) (cmd_prp2 cmd);
    if st =? 0 then mret NVME_SUCCESS else error 24.

(** The 64 bytes before the blocks of [FEMU_OC_Bbt], and the blocks. *)
Definition bbt_bytes (b : FEMU_OC_Bbt) : memory := fun k =>
  if k <? 2 then 66 else if k =? 2 then 76 else if k =? 3 then 84
  else if k =? 4 then 1
  else if (12 <=? k) && (k <? 16) then le_byte (tblks b) (k - 12)
  else if k <? 64 then 0
  else nth (Z.to_nat (k - 64)) (bb_blk b) 0.

Definition femu_oc_bbt_get (cmd : memory) (req : NvmeRequest) : NM Z :=
  q ← gets params;
  o ← gets femu_oc_ctrl;
  if (cmd_nsid cmd =? 0) || (num_namespaces q <? cmd_nsid cmd) then mret (Z.lor NVME_INVALID_NSID NVME_DNR) else
  l ← gets namespaces;
  ns ← idx l (cmd_nsid cmd - 1);
  b ← idx (bbtbl ns) (ppa_lunid o (oc_spba cmd));
  st ← nvme_dma_read_prp (bbt_bytes b) (64 + num_blk (group o) * num_pln (group o)) (cmd_prp1 cmd) (cmd_prp2 cmd);
  if st =? 0 then mret NVME_SUCCESS
  else
    nvme_set_error_page (r_sqid req) (cmd_cid cmd) NVME_INVALID_FIELD 1234 0 (ns_id ns);;
    mret (Z.lor NVME_INVALID_FIELD NVME_DNR).

(** [ns->bbtbl[lunid]->blk[blk] = value] for the block of an address. *)
Definition bbt_mark (i value ppa : Z) : NM unit :=
  o ← gets femu_oc_ctrl;
  l ← gets namespaces;
  ns ← idx l i;
  b ← idx (bbtbl ns) (ppa_lunid o ppa);
  _ ← idx (bb_blk b) (ppa_blk o ppa);
  upd_namespace i (ns_with_bbtbl
    (zset (ppa_lunid o ppa) (mk_FEMU_OC_Bbt (tblks b) (zset (ppa_blk o ppa) value (bb_blk b))) (bbtbl ns))).

(** A list of addresses goes to an array of [max_sec_per_rq] of them. *)
Definition femu_oc_bbt_set (cmd : memory) (req : NvmeRequest) : NM Z :=
  q ← gets params;
  o ← gets femu_oc_ctrl;
  let nlb := rw_nlb cmd + 1 in
  let room := max_sec_per_rq (oc_params o) in
  if (cmd_nsid cmd =? 0) || (num_namespaces q <? cmd_nsid cmd) then mret (Z.lor NVME_INVALID_NSID NVME_DNR) else
  let i := cmd_nsid cmd - 1 in
  l ← gets namespaces;
  ns ← idx l i;
  if nlb =? 1 then
    if room <? 1 then mcrash OutOfBounds else
    bbt_mark i (bbt_value cmd) (oc_spba cmd);;
    mret NVME_SUCCESS
  else
    r ← nvme_dma_write_prp (oc_spba cmd) (cmd_prp2 cmd) (nlb * 8);
    match r with
    | None =>
        nvme_set_error_page (r_sqid req) (cmd_cid cmd) NVME_INVALID_FIELD 40 0 (ns_id ns);;
        mret (Z.lor NVME_INVALID_FIELD NVME_DNR)
    | Some b =>
        if room <? nlb then mcrash OutOfBounds else
        mfor (Z.to_nat nlb) 0 (fun k => bbt_mark i (bbt_value cmd) (le b (8 * k) 8));;
        mret NVME_SUCCESS
    end.

(** ** Times *)

(** What the guest has waited already, by its time stamp. *)
Definition oc_overhead (gtsc : Z) : NM Z :=
  k ← gets (fun n => clock_reads (ssd n));
  mret (if 0 <? gtsc then cyc2ns (s64 (rdtscp k - gtsc)) else 0).

Definition is_upper_page (pg : Z) : NM bool :=
  g ← gets ocg;
  v ← idx (mlc_tbl g) pg;
  mret (negb (v =? 0)).

Definition set_chip (i t : Z) : NM unit :=
  g ← gets ocg; _ ← idx (oc_chip g) i; upd_ocg (ocg_with_times (zset i t (oc_chip g)) (oc_chnl g)).
Definition set_chnl (i t : Z) : NM unit :=
  g ← gets ocg; _ ← idx (oc_chnl g) i; upd_ocg (ocg_with_times (oc_chip g) (zset i t (oc_chnl g))).
Definition get_chip (i : Z) : NM Z := g ← gets ocg; idx (oc_chip g) i.
Definition get_chnl (i : Z) : NM Z := g ← gets ocg; idx (oc_chnl g) i.

(** The channel, the unit and the page of an address, which must exist. *)
Definition oc_target (ppa : Z) : NM (Z * Z * Z) :=
  o ← gets femu_oc_ctrl;
  if (ppa_ch o ppa <? num_ch (group o)) && (ppa_lun o ppa <? num_lun (group o))
  then mret (ppa_ch o ppa, ppa_lunid o ppa, ppa_pg o ppa) else mcrash ProcessExit.

(** A write goes through the channel and then to the chip; the first address
    stands for all of them.  The result is the time it takes. *)
Definition oc_write_time (ppa : Z) : NM Z :=
  t ← oc_target ppa;
  let '(ch, lunid, pg) := t in
  now ← on_ssd qemu_clock_ns;
  g ← gets ocg;
  busy ← get_chnl ch;
  let start := if now <? busy then busy else now in
  let sent := start + chnl_page_tr_t g * 2 in
  set_chnl ch sent;;
  chip ← get_chip lunid;
  upper ← is_upper_page pg;
  let prog := if upper : bool then nand_write_upper_t g else nand_write_lower_t g in
  let done := if sent <? chip then chip + prog else sent + prog in
  set_chip lunid done;;
  mret (Z.max 0 (done - now)).

(** The numbers of consecutive sectors of a list that lie on the same page; the
    array for them has 64 elements. *)
Fixpoint secs_layout (mask prev : Z) (l acc : list Z) : NM (list Z) :=
  match l with
  | [] => mret (reverse acc)
  | ppa :: l' =>
      let cur := s64 (Z.ldiff ppa mask) in
      if cur =? prev then
        match acc with
        | [] => mcrash OutOfBounds
        | k :: acc' => secs_layout mask prev l' (k + 1 :: acc')
        end
      else if 64 <=? zlen acc then mcrash OutOfBounds
      else secs_layout mask cur l' (1 :: acc)
  end.

(** One page of a read: the chip, then the channel.  The result is when it is
    done. *)
Definition oc_read_page (now ppa nb_secs : Z) : NM Z :=
  t ← oc_target ppa;
  let '(ch, lunid, pg) := t in
  g ← gets ocg;
  chip ← get_chip lunid;
  upper ← is_upper_page pg;
  let rd := if upper : bool then nand_read_upper_t g else nand_read_lower_t g in
  let start := if now <? chip then chip + rd else now + rd in
  if negb ((nb_secs <=? 8) && (1 <=? nb_secs)) then mcrash ProcessExit else
  let transfer := s32 (Z.quot (chnl_page_tr_t g * nb_secs) 4) in
  chnl ← get_chnl ch;
  let done := if start <? chnl then chnl + transfer else start + transfer in
  set_chnl ch done;;
  set_chip lunid done;;
  mret done.

(** [counts] are the sectors of each page, [si] the place of the first. *)
Fixpoint oc_read_pages (now si : Z) (psl counts : list Z) (max : Z) : NM Z :=
  match counts with
  | [] => mret max
  | k :: counts' =>
      ppa ← idx psl si;
      done ← oc_read_page now ppa k;
      oc_read_pages now (si + k) psl counts' (Z.max max (done - now))
  end.

Definition oc_read_time (psl : list Z) : NM Z :=
  o ← gets femu_oc_ctrl;
  counts ← secs_layout (sec_mask (ppaf o)) (-1) psl [];
  now ← on_ssd qemu_clock_ns;
  oc_read_pages now 0 psl counts 0.

(** ** Sector states and spare areas *)

(** [memcpy] to and from the buffer. *)
Definition meta_copy_to (off : Z) (b : memory) (b_off len : Z) : NM unit :=
  o ← gets femu_oc_ctrl;
  if meta_tbytes o <? off + len then mcrash OutOfBounds
  else upd_oc (oc_with_meta_buf (blit (oc_meta_buf o) off b b_off len)).

Definition femu_oc_meta_state_set_written (ppa : Z) : NM unit :=
  o ← gets femu_oc_ctrl;
  meta_copy_to (u32 (ppa * meta_len o)) (le_byte FEMU_OC_SEC_WRITTEN) 0 (int_meta_size o).

(** The state is read into a variable of four bytes. *)
Definition femu_oc_meta_state_get (ppa : Z) : NM Z :=
  o ← gets femu_oc_ctrl;
  let oft := u32 (ppa * meta_len o) in
  if u32 (meta_tbytes o) <? u32 (oft + meta_len o) then mcrash ProcessExit
  else if negb (int_meta_size o =? 4) then mcrash Uninitialised
  else if meta_tbytes o <? oft + 4 then mcrash OutOfBounds
  else mret (le (oc_meta_buf o) oft 4).

(** All spare areas are written to the start of the buffer, and read there. *)
Definition femu_oc_meta_write (msl : memory) (index : Z) : NM unit :=
  o ← gets femu_oc_ctrl;
  meta_copy_to 0 msl (index * sos (oc_params o)) (sos (oc_params o)).

Definition femu_oc_meta_read (msl : memory) (index : Z) : NM memory :=
  o ← gets femu_oc_ctrl;
  let k := sos (oc_params o) in
  if meta_tbytes o <? k then mcrash OutOfBounds else mret (blit msl (index * k) (oc_meta_buf o) 0 k).

(** ** Read and write *)

(** [bitmap_set(&cqe->res64, start, nr)] *)
Definition result_bits (start nr : Z) (req : NvmeRequest) : NM NvmeRequest :=
  if 64 <? start + nr then mcrash OutOfBounds
  else mret (set_result (Z.lor (r_result req) (Z.shiftl (2 ^ nr - 1) start)) req).

(** One sector of a write: its state and its spare area. *)
Definition oc_write_sector (meta : Z) (msl : memory) (i ppa : Z) : NM unit :=
  hybrid ← gets femu_oc_hybrid_dev;
  (if hybrid : bool then mret tt else femu_oc_meta_state_set_written ppa);;
  if meta =? 0 then mret tt else femu_oc_meta_write msl i.

(** One sector of a read; [inr] is the return of an error.  In the hybrid mode
    the state is not read. *)
Definition oc_read_sector (meta n_pages : Z) (i ppa : Z) (x : memory * NvmeRequest)
  : NM (memory * NvmeRequest + Z * NvmeRequest) :=
  let '(msl, req) := x in
  hybrid ← gets femu_oc_hybrid_dev;
  state ← (if hybrid : bool then mcrash Uninitialised else femu_oc_meta_state_get ppa);
  if negb (state =? FEMU_OC_SEC_WRITTEN) then
    req ← result_bits i (n_pages - i) req;
    o ← gets femu_oc_ctrl;
    (if meta =? 0 then mret tt
     else modify (fun n => set_guest (blit (guest n) meta msl 0 (n_pages * sos (oc_params o))) n));;
    mret (inr (17151, set_status 17151 req))
  else
    msl ← (if meta =? 0 then mret msl else femu_oc_meta_read msl i);
    mret (inl (msl, req)).

Definition set_rw (slba nlb t : Z) (wr : bool) (l : list (Z * Z)) (req : NvmeRequest) : NvmeRequest :=
  mk_NvmeRequest (r_id req) (r_sqid req) (cmd_opcode req) (r_cid req) NVME_SUCCESS slba wr nlb t (data_offset req)
    l (aiocb req) (r_result req).

(** The copy: range [i] of the guest's memory and sector [i] of the storage. *)
Definition oc_copy (wr : bool) (iov : list (Z * Z)) (sectors : list Z) (i : Z) : NM unit :=
  x ← idx iov i;
  off ← idx sectors i;
  heap_copy wr x off.

(** The transfer of a request whose time and sectors are known.  When the
    guest's addresses are bad the buffer of the spare areas is freed twice. *)
Definition oc_transfer (ns : NvmeNamespace) (cmd : memory) (psl : list Z) (sppa nlb data_shift data_size n_pages t : Z)
  (wr : bool) (req : NvmeRequest) : NM (Z * NvmeRequest) :=
  sg ← nvme_map_prp (cmd_prp1 cmd) (cmd_prp2 cmd) (u32 data_size);
  match sg with
  | None =>
      nvme_set_error_page (r_sqid req) (cmd_cid cmd) NVME_INVALID_FIELD 24 0 (ns_id ns);;
      mcrash UseAfterFree
  | Some l =>
      if negb (zlen l =? n_pages) then mcrash ProcessExit else
      iov ← map_sg (Z.to_nat (sg_size l) + length l) l 0 [];
      let size := sg_size iov in
      let iov := if size mod 512 =? 0 then iov else qemu_iovec_discard_back iov (size / 512 * 512) in
      let sectors := (fun ppa => s64 (u64 (start_block ns + u64 (Z.shiftl ppa data_shift)))) <$> psl in
      mfor (Z.to_nat n_pages) 0 (oc_copy wr iov sectors);;
      mret (NVME_SUCCESS, set_rw sppa nlb t wr l req)
  end.

(** The sectors of a request and its spare areas; [inr] is the return of an
    error. *)
Definition oc_sectors (wr : bool) (meta n_pages : Z) (psl : list Z) (req : NvmeRequest)
  : NM (NvmeRequest + Z * NvmeRequest) :=
  o ← gets femu_oc_ctrl;
  g ← gets guest;
  let msl : memory := fun k => if wr && negb (meta =? 0) && (k <? n_pages * sos (oc_params o)) then g (meta + k) else 0 in
  if wr then
    mfor (Z.to_nat n_pages) 0 (fun i => ppa ← idx psl i; oc_write_sector meta msl i ppa);;
    mret (inl req)
  else
    r ← mfold_ret (Z.to_nat n_pages) 0 (msl, req) (fun i x => ppa ← idx psl i; oc_read_sector meta n_pages i ppa x);
    mret (match r with inl (_, req) => inl req | inr e => inr e end).

(** The addresses of a request: one in the command, several in a list. *)
Definition oc_psl (n_pages spba : Z) : NM (list Z) :=
  g ← gets guest;
  mret (if 1 <? n_pages then ztab n_pages (fun i => le g (spba + 8 * i) 8) else [spba]).

(** What [femu_oc_rw] does with a request that passes the checks. *)
Definition oc_rw_go (ns : NvmeNamespace) (cmd : memory) (psl : list Z) (sppa nlb data_shift data_size n_pages overhead : Z)
  (wr : bool) (req : NvmeRequest) : NM (Z * NvmeRequest) :=
  time ← (if wr then oc_write_time sppa else oc_read_time (take (Z.to_nat n_pages) psl));
  r ← oc_sectors wr (cmd_mptr cmd) n_pages psl req;
  match r with
  | inr e => mret e
  | inl req =>
      now ← on_ssd qemu_clock_ns;
      oc_transfer ns cmd psl sppa nlb data_shift data_size n_pages (now + time - overhead) wr req
  end.

(** A spare area of no bytes counts as a failed allocation. *)
Definition femu_oc_rw (ns : NvmeNamespace) (cmd : memory) (req : NvmeRequest) : NM (Z * NvmeRequest) :=
  o ← gets femu_oc_ctrl;
  let p := oc_params o in
  let nlb := u16 (rw_nlb cmd + 1) in
  let spba := oc_spba cmd in
  f ← idx (lbaf ns) (Z.land (flbas ns) 15);
  let data_size := Z.shiftl nlb (ds f) in
  if sec_size p =? 0 then mcrash DivByZero else
  let n_pages := u32 (data_size / sec_size p) in
  let wr := (cmd_op cmd =? FEMU_OC_CMD_PHYS_WRITE) || (cmd_op cmd =? FEMU_OC_CMD_HYBRID_WRITE) in
  let refused :=
    nvme_set_error_page (r_sqid req) (cmd_cid cmd) NVME_LBA_RANGE 40 (u64 (oc_slba cmd + nlb)) (ns_id ns);;
    mret (Z.lor NVME_INVALID_FIELD NVME_DNR, req) in
  if max_sec_per_rq p <? 1 then mcrash OutOfBounds
  else if sos p =? 0 then mret (u16 (- ENOMEM), req)
  else if max_sec_per_rq p <? n_pages then refused
  else if wr && (dom o =? 0) && (n_pages <? sec_per_pl p) then refused
  else
    psl ← oc_psl n_pages spba;
    if spba =? FEMU_OC_PBA_UNMAPPED then refused else
    let req := mk_NvmeRequest (r_id req) (r_sqid req) (cmd_opcode req) (r_cid req) (status req) (r_slba req) wr
      (r_nlb req) (expire_time req) (data_offset req) (qsg req) (aiocb req) (r_result req) in
    overhead ← oc_overhead (oc_gtsc cmd);
    sppa ← idx psl 0;
    eppa ← idx psl (u32 (n_pages - 1));
    if (sppa =? FEMU_OC_PBA_UNMAPPED) || (eppa =? FEMU_OC_PBA_UNMAPPED) then mret (u16 (- EINVAL), req) else
    err ← nvme_rw_check_req ns cmd req sppa eppa nlb (rw_control cmd) data_size (nlb * ms f);
    if negb (err =? 0) then mret (err, req)
    else oc_rw_go ns cmd psl sppa nlb (ds f) data_size n_pages overhead wr req.

(** ** Erase *)

Definition femu_oc_erase_async (ns : NvmeNamespace) (cmd : memory) (req : NvmeRequest) : NM (Z * NvmeRequest) :=
  o ← gets femu_oc_ctrl;
  let nlb := rw_nlb cmd + 1 in
  let spba := oc_spba cmd in
  overhead ← oc_overhead (oc_gtsc cmd);
  if max_sec_per_rq (oc_params o) <? nlb then mcrash OutOfBounds else
  psl ← oc_psl nlb spba;
  ppa ← idx psl 0;
  let lunid := ppa_lunid o ppa in
  now ← on_ssd qemu_clock_ns;
  g ← gets ocg;
  chip ← get_chip lunid;
  let done := if now <? chip then chip + nand_erase_t g else now + nand_erase_t g in
  set_chip lunid done;;
  mret (NVME_SUCCESS, set_rw spba (u16 nlb) (done - overhead) (is_write req) (qsg req) req).

(** ** Completion *)

(** After [err_write] sectors a write reports [n_err_write] of them as failed. *)
Definition femu_oc_inject_w_err (req : NvmeRequest) : NM NvmeRequest :=
  o ← gets femu_oc_ctrl;
  if (err_write o =? 0) || negb (is_write req) then mret req else
  let reached i := negb (u32 (err_write_cnt o + i) <? err_write o) in
  r ← (if err_write o <? u32 (err_write_cnt o + r_nlb req) then
         req ← (match find reached (seqZ 0 (r_nlb req)) with
                | Some i => result_bits i (n_err_write o) req
                | None => mret req
                end);
         mret (set_status 16639 req, 0)
       else mret (req, err_write_cnt o));
  upd_oc (oc_with_err_cnt (u32 (r.2 + r_nlb req)));;
  mret r.1.

Definition femu_oc_post_cqe (req : NvmeRequest) : NM NvmeRequest :=
  if (cmd_opcode req =? FEMU_OC_CMD_HYBRID_WRITE) || (cmd_opcode req =? FEMU_OC_CMD_PHYS_WRITE)
  then femu_oc_inject_w_err req else mret req.

End Oc.
