(* ===== verification/NvmeQueue.v ===== *)
(** * The queues of the NVMe front end: hw/block/nvme.c

    Commands are taken from a submission queue in guest memory, carried out,
    and wait in the completion queue until the time the SSD model computed for
    them; then their completion entry is written to guest memory and the
    request is free again.  Interrupts are output only and left out. *)

From Stdlib Require Import ZArith Lia List Sorted.
From stdpp Require Import base tactics numbers list functions.
From S2P Require Import Prelude Config State Timing Ftl Ssd Nvme NvmeOc.

Open Scope Z_scope.

Definition NVME_OP_ABORTED : Z := 255.
Definition SQ_POLLING_PERIOD_NS : Z := 5000.
Definition CQ_POLLING_PERIOD_NS : Z := 5000.

(** ** Access to the queues *)

Definition get_sq (q : Z) : NM NvmeSQueue :=
  l ← gets sqs; o ← idx l q; deref o.
Definition get_cq (q : Z) : NM NvmeCQueue :=
  l ← gets cqs; o ← idx l q; deref o.
Definition put_sq (q : Z) (x : NvmeSQueue) : NM unit :=
  modify (fun n => set_sqs (zset q (Some x) (sqs n)) n).
Definition put_cq (q : Z) (x : NvmeCQueue) : NM unit :=
  modify (fun n => set_cqs (zset q (Some x) (cqs n)) n).

Definition sq_with_head h x := mk_NvmeSQueue (sqid x) (s_cqid x) (arb_burst x) h (s_tail x)
  (s_size x) (s_contig x) (s_dma_addr x) (s_prp_list x) (completed x) (s_req_list x)
  (out_req_list x) (s_db_addr x) (s_timer x).
Definition sq_with_tail t x := mk_NvmeSQueue (sqid x) (s_cqid x) (arb_burst x) (s_head x) t
  (s_size x) (s_contig x) (s_dma_addr x) (s_prp_list x) (completed x) (s_req_list x)
  (out_req_list x) (s_db_addr x) (s_timer x).
Definition sq_with_reqs l o x := mk_NvmeSQueue (sqid x) (s_cqid x) (arb_burst x) (s_head x)
  (s_tail x) (s_size x) (s_contig x) (s_dma_addr x) (s_prp_list x) (completed x) l o
  (s_db_addr x) (s_timer x).
Definition sq_with_done c t x := mk_NvmeSQueue (sqid x) (s_cqid x) (arb_burst x) (s_head x)
  (s_tail x) (s_size x) (s_contig x) (s_dma_addr x) (s_prp_list x) c (s_req_list x)
  (out_req_list x) (s_db_addr x) t.
Definition cq_with_head h x := mk_NvmeCQueue (cqid x) (phase x) h (c_tail x) (c_size x)
  (c_contig x) (c_dma_addr x) (c_prp_list x) (c_req_list x) (c_db_addr x) (c_timer x) (c_sq_list x).
Definition cq_with_tail t p x := mk_NvmeCQueue (cqid x) p (c_head x) t (c_size x)
  (c_contig x) (c_dma_addr x) (c_prp_list x) (c_req_list x) (c_db_addr x) (c_timer x) (c_sq_list x).
Definition cq_with_reqs l x := mk_NvmeCQueue (cqid x) (phase x) (c_head x) (c_tail x) (c_size x)
  (c_contig x) (c_dma_addr x) (c_prp_list x) l (c_db_addr x) (c_timer x) (c_sq_list x).
Definition cq_with_timer t x := mk_NvmeCQueue (cqid x) (phase x) (c_head x) (c_tail x) (c_size x)
  (c_contig x) (c_dma_addr x) (c_prp_list x) (c_req_list x) (c_db_addr x) t (c_sq_list x).

(** ** Rings *)

(** The address of an entry of a queue whose pages are listed. *)
Definition nvme_discontig (dma_addr : list Z) (page_size queue_idx entry_size : Z) : NM Z :=
  let page_size := u16 page_size in
  let queue_idx := u16 queue_idx in
  let entry_size := u16 entry_size in
  if entry_size =? 0 then mcrash DivByZero else
  let entries_per_page := page_size / entry_size in
  if entries_per_page =? 0 then mcrash DivByZero else
  a ← idx dma_addr (queue_idx / entries_per_page);
  mret (u64 (a + queue_idx mod entries_per_page * entry_size)).

(** The callers pass the index where the page size is expected, and the page
    size as the index. *)
Definition sq_entry_addr (sq : NvmeSQueue) : NM Z :=
  q ← gets params;
  if s_contig sq then mret (u64 (s_dma_addr sq + u32 (s_head sq * sqe_size q)))
  else nvme_discontig (s_prp_list sq) (s_head sq) (page_size q) (sqe_size q).

Definition cq_entry_addr (cq : NvmeCQueue) : NM Z :=
  q ← gets params;
  if c_contig cq then mret (u64 (c_dma_addr cq + u32 (c_tail cq * cqe_size q)))
  else nvme_discontig (c_prp_list cq) (c_tail cq) (page_size q) (cqe_size q).

Definition nvme_inc_cq_tail (cq : NvmeCQueue) : NvmeCQueue :=
  let t := u32 (c_tail cq + 1) in
  if c_size cq <=? t then cq_with_tail 0 (if phase cq =? 0 then 1 else 0) cq
  else cq_with_tail t (phase cq) cq.

Definition nvme_inc_sq_head (sq : NvmeSQueue) : NM NvmeSQueue :=
  if s_size sq =? 0 then mcrash DivByZero
  else mret (sq_with_head (u32 (s_head sq + 1) mod s_size sq) sq).

(** The guest may keep the head of a completion queue and the tail of a
    submission queue in memory. *)
Definition nvme_update_cq_head (q : Z) : NM unit :=
  cq ← get_cq q;
  if c_db_addr cq =? 0 then mret tt
  else g ← gets guest; put_cq q (cq_with_head (le g (c_db_addr cq) 4) cq).

Definition nvme_update_sq_tail (q : Z) : NM unit :=
  sq ← get_sq q;
  if s_db_addr sq =? 0 then mret tt
  else g ← gets guest; put_sq q (sq_with_tail (le g (s_db_addr sq) 4) sq).

Definition nvme_cq_full (q : Z) : NM bool :=
  nvme_update_cq_head q;;
  cq ← get_cq q;
  if c_size cq =? 0 then mcrash DivByZero
  else mret (u32 (c_tail cq + 1) mod c_size cq =? c_head cq).

Definition nvme_sq_empty (sq : NvmeSQueue) : bool := s_head sq =? s_tail sq.

(** ** Completion *)

Section Queues.
Context `{Clock} `{Guest} `{Backend}.

(** The commands of an I/O queue. *)
Definition nvme_io_cmd (cmd : memory) (req : NvmeRequest) : NM (Z * NvmeRequest) :=
  q ← gets params;
  let nsid := cmd_nsid cmd in
  if (nsid =? 0) || (num_namespaces q <? nsid) then mret (Z.lor NVME_INVALID_NSID NVME_DNR, req) else
  l ← gets namespaces;
  ns ← idx l (nsid - 1);
  let op := cmd_op cmd in
  let invalid := mret (Z.lor NVME_INVALID_OPCODE NVME_DNR, req) in
  if (op =? FEMU_OC_CMD_HYBRID_WRITE) || (op =? FEMU_OC_CMD_PHYS_READ) || (op =? FEMU_OC_CMD_PHYS_WRITE)
  then femu_oc_rw ns cmd req
  else if (op =? NVME_CMD_READ) || (op =? NVME_CMD_WRITE) then nvme_rw ns cmd req
  else if op =? NVME_CMD_FLUSH then
    a ← gets adm;
    if (vwc q =? 0) || (volatile_wc (features a) =? 0) then mret (NVME_SUCCESS, req)
    else nvme_flush ns cmd req
  else if op =? NVME_CMD_DSM then
    if has NVME_ONCS_DSM (oncs q) then nvme_dsm ns cmd req else invalid
  else if op =? NVME_CMD_COMPARE then
    if has NVME_ONCS_COMPARE (oncs q) then nvme_compare ns cmd req else invalid
  else if op =? NVME_CMD_WRITE_ZEROS then
    if has NVME_ONCS_WRITE_ZEROS (oncs q) then nvme_write_zeros ns cmd req else invalid
  else if op =? NVME_CMD_WRITE_UNCOR then
    if has NVME_ONCS_WRITE_UNCORR (oncs q) then nvme_write_uncor ns cmd req else invalid
  else if op =? FEMU_OC_CMD_ERASE_ASYNC then
    oc ← gets femu_oc_dev;
    if oc : bool then femu_oc_erase_async ns cmd req else invalid
  else invalid.

(** The 16 bytes of a completion entry: the result of 32 or, for the commands
    of the open-channel mode, 64 bits, [sq_head], [sq_id], [cid] and the status
    with the phase bit. *)
Definition cqe_bytes (result sq_head sq_id cid status : Z) : memory := fun o =>
  let byte v k := u8 (Z.shiftr v (8 * k)) in
  if o <? 8 then byte result o
  else if o <? 10 then byte sq_head (o - 8)
  else if o <? 12 then byte sq_id (o - 10)
  else if o <? 14 then byte cid (o - 12)
  else byte status (o - 14).

Definition nvme_post_cqe (q : Z) (req : NvmeRequest) : NM unit :=
  cq ← get_cq q;
  sq ← get_sq (r_sqid req);
  addr ← cq_entry_addr cq;
  p ← gets params;
  req ← (if femu_mode p =? FEMU_WHITEBOX_MODE then femu_oc_post_cqe req else mret req);
  let st := u16 (Z.lor (Z.shiftl (status req) 1) (phase cq)) in
  modify (fun n => set_guest
    (blit (guest n) addr (cqe_bytes (r_result req) (u16 (s_head sq)) (sqid sq) (r_cid req) st) 0 16) n);;
  put_cq q (nvme_inc_cq_tail cq);;
  put_sq (r_sqid req) (sq_with_reqs (s_req_list sq ++ [req]) (out_req_list sq) sq).

(** The loop over the waiting requests: the time the timer is set to, or 0. *)
Fixpoint post_loop (q : Z) (l : list NvmeRequest) : NM Z :=
  match l with
  | [] => mret 0
  | req :: l' =>
      full ← nvme_cq_full q;
      if (full : bool) then mret 0 else
      cur_time ← on_ssd qemu_clock_ns;
      cq ← get_cq q;
      if negb (cqid cq =? 0) && (cur_time <? expire_time req) then mret (expire_time req) else
      put_cq q (cq_with_reqs l' cq);;
      nvme_post_cqe q req;;
      post_loop q l'
  end.

Definition nvme_post_cqes_io (q : Z) : NM unit :=
  cq ← get_cq q;
  ntt ← post_loop q (c_req_list cq);
  t ← (if ntt =? 0 then now ← on_ssd qemu_clock_ns; mret (now + CQ_POLLING_PERIOD_NS) else mret ntt);
  cq ← get_cq q;
  put_cq q (cq_with_timer t cq).

(** Waiting requests are kept in the order of their times. *)
Fixpoint insert_req (req : NvmeRequest) (l : list NvmeRequest) : list NvmeRequest :=
  match l with
  | [] => [req]
  | iter :: l' => if expire_time req <? expire_time iter then req :: iter :: l'
                  else iter :: insert_req req l'
  end.

Definition drop_req (req : NvmeRequest) (l : list NvmeRequest) : list NvmeRequest :=
  filter (fun x => r_id x <> r_id req) l.

Definition nvme_enqueue_req_completion_io (q : Z) (req : NvmeRequest) : NM unit :=
  cq ← get_cq q;
  sq ← get_sq (r_sqid req);
  if negb (cqid cq =? s_cqid sq) then mcrash ProcessExit else
  put_sq (r_sqid req) (sq_with_reqs (s_req_list sq) (drop_req req (out_req_list sq)) sq);;
  match c_req_list cq with
  | [] => put_cq q (cq_with_timer (expire_time req) (cq_with_reqs [req] cq))
  | l => put_cq q (cq_with_reqs (insert_req req l) cq)
  end.

(** The completion of an admin command, and of a command the block layer
    carried out: at the end of the list, whatever its time. *)
Definition nvme_enqueue_req_completion (q : Z) (req : NvmeRequest) : NM unit :=
  cq ← get_cq q;
  sq ← get_sq (r_sqid req);
  if negb (cqid cq =? s_cqid sq) then mcrash ProcessExit else
  put_sq (r_sqid req) (sq_with_reqs (s_req_list sq) (drop_req req (out_req_list sq)) sq);;
  now ← on_ssd qemu_clock_ns;
  put_cq q (cq_with_timer (now + 500) (cq_with_reqs (c_req_list cq ++ [req]) cq)).

(** The callback of the block layer: [ok] is [ret == 0]. *)
Definition nvme_misc_cb (req : NvmeRequest) (ok : bool) : NM unit :=
  sq ← get_sq (r_sqid req);
  nvme_enqueue_req_completion (s_cqid sq)
    (set_status (if ok then NVME_SUCCESS else NVME_INTERNAL_DEV_ERROR) req).

(** ** Submission *)

(** The request object as the command left it. *)
Definition keep_req (q : Z) (req : NvmeRequest) : NM unit :=
  sq ← get_sq q;
  put_sq q (sq_with_reqs (s_req_list sq)
    ((fun x => if r_id x =? r_id req then req else x) <$> out_req_list sq) sq).

(** The request object gets the command's identifier and opcode, and nothing is
    pending for it. *)
Definition start_req (cmd : memory) (req : NvmeRequest) : NvmeRequest :=
  mk_NvmeRequest (r_id req) (r_sqid req) (cmd_op cmd) (cmd_cid cmd) (status req) (r_slba req)
    (is_write req) (r_nlb req) (expire_time req) (data_offset req) (qsg req) None 0.

(** The loop of [nvme_process_sq_io]: [k] more commands may be taken; the
    result is [processed]. *)
Fixpoint sq_loop (k : nat) (q processed : Z) : NM Z :=
  sq ← get_sq q;
  match s_req_list sq with
  | req :: reqs =>
      if nvme_sq_empty sq then mret processed else
      match k with
      | O => mret (processed + 1)
      | S k' =>
          addr ← sq_entry_addr sq;
          g ← gets guest;
          let cmd : memory := fun o => g (addr + o) in
          sq ← nvme_inc_sq_head sq;
          if cmd_op cmd =? NVME_OP_ABORTED then put_sq q sq;; sq_loop k' q (processed + 1) else
          let req := start_req cmd req in
          put_sq q (sq_with_reqs reqs (out_req_list sq ++ [req]) sq);;
          r ← nvme_io_cmd cmd req;
          (if r.1 =? NVME_NO_COMPLETE then keep_req q r.2
           else nvme_enqueue_req_completion_io (s_cqid sq) (set_status r.1 r.2));;
          sq_loop k' q (processed + 1)
      end
  | [] => mret processed
  end.

Definition nvme_process_sq_io (q : Z) : NM unit :=
  nvme_update_sq_tail q;;
  sq ← get_sq q;
  processed ← sq_loop (Z.to_nat (arb_burst sq)) q 0;
  sq ← get_sq q;
  now ← on_ssd qemu_clock_ns;
  put_sq q (sq_with_done (u64 (completed sq + processed)) (now + SQ_POLLING_PERIOD_NS) sq).

End Queues.

(** ** Commands leave the queues alone *)

(** The requests that wait for an event. *)
Definition aers (n : NvmeCtrl) : Z * list (option NvmeRequest) := (outstanding_aers (adm n), aer_reqs (adm n)).

Definition same_queues (n n' : NvmeCtrl) : Prop :=
  sqs n' = sqs n /\ cqs n' = cqs n /\ params n' = params n /\ aers n' = aers n.

#[global] Instance same_queues_preorder : PreOrder same_queues.
Proof. split; unfold same_queues; [done|]. intros n1 n2 n3 (? & ? & ? & ?) (? & ? & ? & ?). split_and!; congruence. Qed.

(** When [m] returns, the queues are as before and the result satisfies [P]. *)
Definition keeps {A} (m : NM A) (P : A -> Prop) : Prop := forall n,
  match m n with Ok a n' => same_queues n n' /\ P a | _ => True end.

Section Keeps.
Context `{Clock} `{Guest} `{Backend}.

Lemma keeps_ret {A} (a : A) (P : A -> Prop) : P a -> keeps (mret a) P.
Proof. by intros HP n. Qed.

Lemma keeps_bind {A B} (m : NM A) (k : A -> NM B) (P : A -> Prop) (Q : B -> Prop) :
  keeps m P -> (forall a, P a -> keeps (k a) Q) -> keeps (m ≫= k) Q.
Proof.
  intros Hm Hk n. unfold mbind, M_bind. specialize (Hm n). destruct (m n) as [a n1| |]; [|done..].
  destruct Hm as [Hs HP]. specialize (Hk a HP n1). destruct (k a n1) as [b n2| |]; [|done..].
  destruct Hk as [Hs' HQ]. split; [by etrans|done].
Qed.

Lemma keeps_any {A B} (m : NM A) (k : A -> NM B) (Q : B -> Prop) :
  keeps m (fun _ => True) -> (forall a, keeps (k a) Q) -> keeps (m ≫= k) Q.
Proof. intros Hm Hk. eapply keeps_bind; [exact Hm|]. by intros a _. Qed.

Lemma keeps_weaken {A} (m : NM A) (P Q : A -> Prop) : keeps m P -> (forall a, P a -> Q a) -> keeps m Q.
Proof. intros Hm HPQ n. specialize (Hm n). destruct (m n); [|done..]. destruct Hm. auto. Qed.

Lemma keeps_modify (f : NvmeCtrl -> NvmeCtrl) :
  (forall n, same_queues n (f n)) -> keeps (modify f) (fun _ => True).
Proof. intros Hf n. by split. Qed.

Lemma keeps_gets {A} (f : NvmeCtrl -> A) : keeps (gets f) (fun _ => True).
Proof. by intros n. Qed.

Lemma keeps_idx {A} (l : list A) i : keeps (idx l i) (fun _ => True).
Proof. intros n. unfold idx. by destruct (zget l i). Qed.

Lemma keeps_crash {A} c (P : A -> Prop) : keeps (mcrash c) P.
Proof. by intros n. Qed.

Lemma keeps_hang {A} (P : A -> Prop) : keeps mhang P.
Proof. by intros n. Qed.

Lemma keeps_on_ssd {A} (m : SM A) : keeps (on_ssd m) (fun _ => True).
Proof. intros n. unfold on_ssd. by destruct (m (ssd n)). Qed.

Lemma keeps_mfor k i (body : Z -> NM unit) :
  (forall i, keeps (body i) (fun _ => True)) -> keeps (mfor k i body) (fun _ => True).
Proof.
  intros Hb. revert i. induction k as [|k IH]; intros i; cbn [mfor]; [by apply keeps_ret|].
  apply keeps_any; auto.
Qed.

Lemma keeps_mfold {A} (P : A -> Prop) k i a (body : Z -> A -> NM A) :
  P a -> (forall i a, P a -> keeps (body i a) P) -> keeps (mfold k i a body) P.
Proof.
  intros HP Hb. revert i a HP. induction k as [|k IH]; intros i a HP; cbn [mfold]; [by apply keeps_ret|].
  eapply keeps_bind; eauto.
Qed.

Lemma keeps_mfold_ret {A R} (P : A -> Prop) (Q : R -> Prop) k i a (body : Z -> A -> NM (A + R)) :
  P a -> (forall i a, P a -> keeps (body i a) (fun r => match r with inl a => P a | inr x => Q x end)) ->
  keeps (mfold_ret k i a body) (fun r => match r with inl a => P a | inr x => Q x end).
Proof.
  intros HP Hb. revert i a HP. induction k as [|k IH]; intros i a HP; cbn [mfold_ret]; [by apply keeps_ret|].
  eapply keeps_bind; [by apply Hb|]. intros [a'|x] Ha; [by apply IH|by apply keeps_ret].
Qed.
End Keeps.

Create HintDb keeps.
#[export] Hint Resolve keeps_gets keeps_idx keeps_crash keeps_hang keeps_on_ssd : keeps.

(** One step of a proof that a command keeps the queues. *)
Ltac keeps_step :=
  lazymatch goal with
  | |- keeps (match ?x with _ => _ end) _ => destruct x
  | |- keeps (mret _ ≫= _) _ => apply keeps_any; [by apply keeps_ret|intros ?]
  | |- keeps (_ ≫= _) _ => apply keeps_any; [|intros ?]
  | |- keeps (mret _) _ => apply keeps_ret
  | |- keeps (modify _) _ => apply keeps_modify; intros []; done
  | |- keeps _ _ => solve [eauto with keeps]
  end.
Ltac keeps_tac := repeat (keeps_step; cbv beta zeta iota).

(** The request of a command stays the same object. *)
Definition same_req (req req' : NvmeRequest) : Prop := r_id req' = r_id req /\ r_sqid req' = r_sqid req.

Section Frames.
Context `{Clock} `{Guest} `{Backend}.

Lemma keeps_error_page a b c d e f : keeps (nvme_set_error_page a b c d e f) (fun _ => True).
Proof. intros n. unfold nvme_set_error_page. destruct (zget _ _); [|done]. by destruct (_ =? 0). Qed.

Lemma keeps_prp_at a b c : keeps (prp_at a b c) (fun _ => True).
Proof. intros n. unfold prp_at. by destruct (_ && _). Qed.
#[local] Hint Resolve keeps_error_page keeps_prp_at : keeps.

Lemma keeps_prp_loop fuel len i base cnt acc : keeps (prp_loop fuel len i base cnt acc) (fun _ => True).
Proof.
  revert len i base cnt acc. induction fuel as [|fuel IH]; intros len i base cnt acc; cbn [prp_loop]; keeps_tac; done.
Qed.
#[local] Hint Resolve keeps_prp_loop : keeps.

Lemma keeps_map_prp a b c : keeps (nvme_map_prp a b c) (fun _ => True).
Proof. unfold nvme_map_prp. keeps_tac; done. Qed.
#[local] Hint Resolve keeps_map_prp : keeps.

Lemma keeps_dma_write_prp a b c : keeps (nvme_dma_write_prp a b c) (fun _ => True).
Proof. unfold nvme_dma_write_prp. keeps_tac; done. Qed.

Lemma keeps_map_sg fuel l c acc : keeps (map_sg fuel l c acc) (fun _ => True).
Proof.
  revert l c acc. induction fuel as [|fuel IH]; intros [|[a k] l] c acc; cbn [map_sg]; keeps_tac; done.
Qed.

Lemma keeps_heap_loop wr l off : keeps (heap_loop wr l off) (fun _ => True).
Proof.
  revert off. induction l as [|x l IH]; intros off; cbn [heap_loop]; [by apply keeps_ret|].
  apply keeps_any; [|done]. intros n. unfold heap_copy. destruct (negb _); [done|]. by destruct wr.
Qed.
#[local] Hint Resolve keeps_map_sg keeps_heap_loop keeps_dma_write_prp : keeps.

Lemma keeps_storage req : keeps (nvme_heap_storage_rw req) (fun _ => True).
Proof. unfold nvme_heap_storage_rw. keeps_tac; done. Qed.

Lemma keeps_meta wr meta k : keeps (nvme_meta wr meta k) (fun _ => True).
Proof.
  unfold nvme_meta, ftl_meta_read. keeps_tac; try done.
  - apply keeps_mfold; [done|]. intros i info _. unfold ftl_meta_write. keeps_tac; done.
  - apply keeps_mfor. intros i. keeps_tac; done.
Qed.

Lemma keeps_lba_shift ns : keeps (lba_shift ns) (fun _ => True).
Proof. unfold lba_shift. keeps_tac; done. Qed.

Lemma keeps_rw_check a b c d e f g h i : keeps (nvme_rw_check_req a b c d e f g h i) (fun _ => True).
Proof. unfold nvme_rw_check_req. keeps_tac; done. Qed.
#[local] Hint Resolve keeps_storage keeps_meta keeps_lba_shift keeps_rw_check : keeps.

Lemma keeps_rw ns cmd req : keeps (nvme_rw ns cmd req) (fun r => same_req req r.2).
Proof. unfold nvme_rw, rw_transfer. keeps_tac; done. Qed.

Lemma keeps_bitmap a b c : keeps (bitmap_range a b c) (fun _ => True).
Proof. unfold bitmap_range. keeps_tac; done. Qed.

Lemma keeps_upd_namespace k f : keeps (upd_namespace k f) (fun _ => True).
Proof. unfold upd_namespace. keeps_tac; done. Qed.
#[local] Hint Resolve keeps_bitmap keeps_upd_namespace : keeps.

Lemma keeps_dsm ns cmd req : keeps (nvme_dsm ns cmd req) (fun r => same_req req r.2).
Proof.
  unfold nvme_dsm. destruct (has _ _); [|by apply keeps_ret].
  apply keeps_any; [apply keeps_lba_shift|intros d]. cbv beta zeta.
  apply keeps_any; [apply keeps_dma_write_prp|intros [range|]]; [|keeps_tac; done].
  eapply keeps_bind.
  - apply (keeps_mfold_ret (same_req req) (fun r => same_req req r.2)); [done|].
    intros i rq Hrq. unfold dsm_range. keeps_tac; done.
  - intros [rq|x] Hx; by apply keeps_ret.
Qed.

Lemma keeps_compare_loop ns req l off : keeps (compare_loop ns req l off) (fun _ => True).
Proof. revert off. induction l as [|[a k] l IH]; intros off; cbn [compare_loop]; keeps_tac; done. Qed.
#[local] Hint Resolve keeps_compare_loop : keeps.

Lemma keeps_compare ns cmd req : keeps (nvme_compare ns cmd req) (fun r => same_req req r.2).
Proof. unfold nvme_compare. keeps_tac; done. Qed.

Lemma keeps_write_zeros ns cmd req : keeps (nvme_write_zeros ns cmd req) (fun r => same_req req r.2).
Proof. unfold nvme_write_zeros. keeps_tac; done. Qed.

Lemma keeps_write_uncor ns cmd req : keeps (nvme_write_uncor ns cmd req) (fun r => same_req req r.2).
Proof. unfold nvme_write_uncor. keeps_tac; done. Qed.

(** *** The open-channel commands *)

Lemma keeps_set_chip i t : keeps (set_chip i t) (fun _ => True).
Proof. unfold set_chip, upd_ocg. keeps_tac; done. Qed.
Lemma keeps_set_chnl i t : keeps (set_chnl i t) (fun _ => True).
Proof. unfold set_chnl, upd_ocg. keeps_tac; done. Qed.
Lemma keeps_get_chip i : keeps (get_chip i) (fun _ => True).
Proof. unfold get_chip. keeps_tac; done. Qed.
Lemma keeps_get_chnl i : keeps (get_chnl i) (fun _ => True).
Proof. unfold get_chnl. keeps_tac; done. Qed.
Lemma keeps_upper pg : keeps (is_upper_page pg) (fun _ => True).
Proof. unfold is_upper_page. keeps_tac; done. Qed.
Lemma keeps_target ppa : keeps (oc_target ppa) (fun _ => True).
Proof. unfold oc_target. keeps_tac; done. Qed.
#[local] Hint Resolve keeps_set_chip keeps_set_chnl keeps_get_chip keeps_get_chnl keeps_upper keeps_target : keeps.

Lemma keeps_write_time ppa : keeps (oc_write_time ppa) (fun _ => True).
Proof. unfold oc_write_time. keeps_tac; done. Qed.

Lemma keeps_secs_layout mask prev l acc : keeps (secs_layout mask prev l acc) (fun _ => True).
Proof. revert prev acc. induction l as [|x l IH]; intros prev acc; cbn [secs_layout]; keeps_tac; done. Qed.

Lemma keeps_read_pages now si psl counts m : keeps (oc_read_pages now si psl counts m) (fun _ => True).
Proof.
  revert si m. induction counts as [|k counts IH]; intros si m; cbn [oc_read_pages]; unfold oc_read_page; keeps_tac; done.
Qed.
#[local] Hint Resolve keeps_write_time keeps_secs_layout keeps_read_pages : keeps.

Lemma keeps_meta_copy off b c len : keeps (meta_copy_to off b c len) (fun _ => True).
Proof. unfold meta_copy_to, upd_oc. keeps_tac; done. Qed.
#[local] Hint Resolve keeps_meta_copy : keeps.

Lemma keeps_write_sector meta msl i ppa : keeps (oc_write_sector meta msl i ppa) (fun _ => True).
Proof. unfold oc_write_sector, femu_oc_meta_state_set_written, femu_oc_meta_write. keeps_tac; done. Qed.

Lemma keeps_state_get ppa : keeps (femu_oc_meta_state_get ppa) (fun _ => True).
Proof. unfold femu_oc_meta_state_get. keeps_tac; done. Qed.
Lemma keeps_meta_read msl i : keeps (femu_oc_meta_read msl i) (fun _ => True).
Proof. unfold femu_oc_meta_read. keeps_tac; done. Qed.
#[local] Hint Resolve keeps_write_sector keeps_state_get keeps_meta_read : keeps.

Lemma keeps_result_bits start nr req : keeps (result_bits start nr req) (same_req req).
Proof. unfold result_bits. keeps_tac; done. Qed.

Lemma keeps_read_sector req0 meta k i ppa x :
  same_req req0 x.2 ->
  keeps (oc_read_sector meta k i ppa x) (fun r => match r with inl y => same_req req0 y.2 | inr y => same_req req0 y.2 end).
Proof.
  destruct x as [msl req]. cbn. intros Hr. unfold oc_read_sector. apply keeps_any; [apply keeps_gets|intros h].
  apply keeps_any; [destruct h; eauto with keeps|intros st]. destruct (negb _).
  - eapply keeps_bind; [apply keeps_result_bits|]. intros r1 [E1 E2]. destruct Hr. keeps_tac; [done|]. by split; cbn; congruence.
  - keeps_tac; done.
Qed.

Lemma keeps_sectors wr meta k psl req :
  keeps (oc_sectors wr meta k psl req) (fun r => match r with inl y => same_req req y | inr y => same_req req y.2 end).
Proof.
  unfold oc_sectors. apply keeps_any; [apply keeps_gets|intros o]. apply keeps_any; [apply keeps_gets|intros g]. cbv zeta.
  destruct wr.
  - apply keeps_any; [apply keeps_mfor; intros i; keeps_tac; done|intros _]. by apply keeps_ret.
  - eapply keeps_bind.
    + apply (keeps_mfold_ret (fun y => same_req req y.2) (fun y => same_req req y.2)); [done|]. intros i a Ha.
      apply keeps_any; [apply keeps_idx|intros ppa]. by apply keeps_read_sector.
    + intros [[msl r]|e] Hr; by apply keeps_ret.
Qed.

Lemma keeps_copy wr iov sec i : keeps (oc_copy wr iov sec i) (fun _ => True).
Proof.
  unfold oc_copy. keeps_tac. intros n. unfold heap_copy. destruct (negb _); [done|]. by destruct wr.
Qed.

Lemma keeps_transfer ns cmd psl a b c d e t wr req :
  keeps (oc_transfer ns cmd psl a b c d e t wr req) (fun r => same_req req r.2).
Proof.
  unfold oc_transfer. keeps_tac; try done. apply keeps_mfor. intros i. apply keeps_copy.
Qed.

Lemma keeps_overhead g : keeps (oc_overhead g) (fun _ => True).
Proof. unfold oc_overhead. keeps_tac; done. Qed.
Lemma keeps_psl k a : keeps (oc_psl k a) (fun _ => True).
Proof. unfold oc_psl. keeps_tac; done. Qed.
#[local] Hint Resolve keeps_overhead keeps_psl : keeps.

Lemma keeps_rw_go ns cmd psl a b c d e t wr req :
  keeps (oc_rw_go ns cmd psl a b c d e t wr req) (fun r => same_req req r.2).
Proof.
  unfold oc_rw_go, oc_read_time. apply keeps_any; [keeps_tac; done|intros time].
  eapply keeps_bind; [apply keeps_sectors|]. intros [r|r] Hr; [|by apply keeps_ret].
  apply keeps_any; [apply keeps_on_ssd|intros now]. eapply keeps_weaken; [apply keeps_transfer|].
  intros x [E1 E2]. destruct Hr. by split; congruence.
Qed.

Lemma keeps_oc_rw ns cmd req : keeps (femu_oc_rw ns cmd req) (fun r => same_req req r.2).
Proof. unfold femu_oc_rw. keeps_tac; try done. eapply keeps_weaken; [apply keeps_rw_go|]. done. Qed.

Lemma keeps_oc_erase ns cmd req : keeps (femu_oc_erase_async ns cmd req) (fun r => same_req req r.2).
Proof. unfold femu_oc_erase_async. keeps_tac; done. Qed.

Lemma keeps_post_cqe req : keeps (femu_oc_post_cqe req) (same_req req).
Proof.
  unfold femu_oc_post_cqe. destruct (_ || _); [|by apply keeps_ret]. unfold femu_oc_inject_w_err.
  apply keeps_any; [apply keeps_gets|intros o]. destruct (_ || _); [by apply keeps_ret|]. cbv zeta.
  eapply (keeps_bind _ _ (fun r => same_req req r.1)).
  - destruct (_ <? _); [|by apply keeps_ret]. eapply (keeps_bind _ _ (same_req req)).
    + destruct (find _ _); [apply keeps_result_bits|by apply keeps_ret].
    + intros r Hr. by apply keeps_ret.
  - intros r Hr. apply keeps_any; [unfold upd_oc; keeps_tac; done|intros _]. by apply keeps_ret.
Qed.

Lemma keeps_io_cmd cmd req : keeps (nvme_io_cmd cmd req) (fun r => same_req req r.2).
Proof.
  unfold nvme_io_cmd, nvme_flush. apply keeps_any; [apply keeps_gets|intros q]. cbv beta zeta.
  destruct (_ || _); [by apply keeps_ret|]. apply keeps_any; [apply keeps_gets|intros l].
  apply keeps_any; [apply keeps_idx|intros ns]. cbv beta.
  repeat (keeps_step; cbv beta); try done;
    first [apply keeps_oc_rw|apply keeps_oc_erase|apply keeps_rw|apply keeps_dsm|apply keeps_compare|apply keeps_write_zeros|apply keeps_write_uncor].
Qed.
End Frames.

(** ** Requests are neither lost nor duplicated *)

(** The lists of a submission queue, with its completion queue and its size. *)
Definition sq_lists (n : NvmeCtrl) (k : Z) : option (Z * Z * list NvmeRequest * list NvmeRequest) :=
  match zget (sqs n) k with
  | Some (Some sq) => Some (s_cqid sq, s_size sq, s_req_list sq, out_req_list sq)
  | _ => None
  end.

(** A completion queue's identifier and the submission queues that use it. *)
Definition cq_id (cq : NvmeCQueue) : Z * list Z := (cqid cq, c_sq_list cq).

Definition cq_list (n : NvmeCtrl) (c : Z) : option (Z * list Z * list NvmeRequest) :=
  match zget (cqs n) c with
  | Some (Some cq) => Some (cq_id cq, c_req_list cq)
  | _ => None
  end.

Definition of_sq (k : Z) (l : list NvmeRequest) : list NvmeRequest := filter (fun r => r_sqid r = k) l.
Definition of_others (k : Z) (l : list NvmeRequest) : list NvmeRequest := filter (fun r => r_sqid r <> k) l.

(** The requests of submission queue [k]: free, being worked on, waiting for
    their completion. *)
Definition held (n : NvmeCtrl) (k : Z) : list Z :=
  match sq_lists n k with
  | Some (c, _, free, out) =>
      r_id <$> free ++ out ++ match cq_list n c with Some (_, w) => of_sq k w | None => [] end
  | None => []
  end.

(** The sizes of the arrays. *)
Definition shape (n : NvmeCtrl) : Z * Z * Z := (zlen (sqs n), zlen (cqs n), num_io_queues (params n)).

(** Every submission queue has a completion queue and exactly the requests of
    its [io_req] array, each of them in one place; what waits in a completion
    queue belongs to a submission queue of it. *)
Record queues_ok (n : NvmeCtrl) : Prop := mk_queues_ok {
  qo_len : zlen (sqs n) = num_io_queues (params n) + 1 /\ zlen (cqs n) = num_io_queues (params n) + 1 /\
    num_io_queues (params n) < 2 ^ 16;
  qo_sq : forall k c z free out, sq_lists n k = Some (c, z, free, out) ->
    Forall (fun r => r_sqid r = k) (free ++ out) /\ is_Some (cq_list n c) /\ held n k ≡ₚ seqZ 0 z;
  qo_cq : forall c id w, cq_list n c = Some (id, w) -> id.1 = c /\
    Forall (fun r => exists z free out, sq_lists n (r_sqid r) = Some (c, z, free, out)) w
}.

Lemma qo_dup n k : queues_ok n -> NoDup (held n k).
Proof.
  intros Hn. destruct (sq_lists n k) as [[[[c z] free] out]|] eqn:E.
  - destruct (qo_sq _ Hn _ _ _ _ _ E) as (_ & _ & ->). apply NoDup_seqZ.
  - unfold held. rewrite E. constructor.
Qed.

Definition out_list (n : NvmeCtrl) (k : Z) : list NvmeRequest :=
  match sq_lists n k with Some (_, _, _, out) => out | None => [] end.

Definition sq_id (n : NvmeCtrl) (k : Z) : option (Z * Z) :=
  match sq_lists n k with Some (c, z, _, _) => Some (c, z) | None => None end.

(** The same queues exist, each with its size and its partners. *)
Record same_ids (n n' : NvmeCtrl) : Prop := mk_same_ids {
  si_sq : forall k, sq_id n' k = sq_id n k;
  si_cq : forall c, fst <$> cq_list n' c = fst <$> cq_list n c;
  si_shape : shape n' = shape n;
  si_aers : aers n' = aers n
}.

#[global] Instance same_ids_preorder : PreOrder same_ids.
Proof.
  split; [by constructor|]. intros n1 n2 n3 [A1 A2 A3 A4] [B1 B2 B3 B4].
  constructor; intros; [by rewrite B1|by rewrite B2|congruence..].
Qed.

(** Requests move between the lists, and only queues in [K] have others being
    worked on than before. *)
Definition conserved (K : Z -> Prop) (n n' : NvmeCtrl) : Prop :=
  queues_ok n -> queues_ok n' /\ same_ids n n' /\ forall j, ~ K j -> out_list n' j = out_list n j.

#[global] Instance conserved_preorder K : PreOrder (conserved K).
Proof.
  split; [by intros n Hn|]. intros n1 n2 n3 H12 H23 Hn. destruct (H12 Hn) as (H2 & I2 & E2).
  destruct (H23 H2) as (H3 & I3 & E3). split; [done|]. split; [by transitivity n2|].
  intros j Hj. by rewrite E3, E2.
Qed.

Lemma conserved_mono (K K' : Z -> Prop) n n' : (forall j, K j -> K' j) -> conserved K n n' -> conserved K' n n'.
Proof. intros HK Hc Hn. destruct (Hc Hn) as (H1 & H2 & H3). split_and!; [done..|]. intros j Hj. apply H3. auto. Qed.

(** A change that does not touch the lists. *)
Definition tick (n n' : NvmeCtrl) : Prop :=
  (forall k, sq_lists n' k = sq_lists n k) /\ (forall c, cq_list n' c = cq_list n c) /\
  shape n' = shape n /\ aers n' = aers n.

#[global] Instance tick_preorder : PreOrder tick.
Proof.
  split; [by intros n|]. intros n1 n2 n3 (A1 & A2 & A3 & A4) (B1 & B2 & B3 & B4).
  split_and!; intros; [by rewrite B1|by rewrite B2|congruence..].
Qed.

Lemma tick_held n n' k : tick n n' -> held n' k = held n k.
Proof. intros (Hs & Hc & _). unfold held. rewrite Hs. destruct (sq_lists n k) as [[[[c ?] ?] ?]|]; [by rewrite Hc|done]. Qed.

Lemma tick_conserved K n n' : tick n n' -> conserved K n n'.
Proof.
  intros Ht [Hlen Hsq Hcq]. pose proof Ht as (Hs & Hc & Hsh & Ha). split_and!.
  - constructor.
    + unfold shape in Hsh. injection Hsh as -> -> ->. done.
    + intros k c z free out E. rewrite Hs in E. rewrite Hc, (tick_held n n') by done. by eapply Hsq.
    + intros c id w E. rewrite Hc in E. destruct (Hcq _ _ _ E) as [Eid Hw]. split; [done|].
      eapply Forall_impl; [|exact Hw]. cbv beta. intros r (z & free & out & Er). exists z, free, out. by rewrite Hs.
  - constructor; [intros k; unfold sq_id; by rewrite Hs|intros c; by rewrite Hc|done..].
  - intros j _. unfold out_list. by rewrite Hs.
Qed.

Lemma same_queues_tick n n' : same_queues n n' -> tick n n'.
Proof.
  intros (E1 & E2 & E3 & E4). split_and!; [intros k..| |done]; unfold sq_lists, cq_list, shape; by rewrite ?E1, ?E2, ?E3.
Qed.

Lemma of_sq_others j k w w' : j <> k -> of_others k w' = of_others k w -> of_sq j w' = of_sq j w.
Proof.
  intros Hjk Hw. unfold of_sq, of_others in *.
  assert (forall l : list NvmeRequest, filter (fun r => r_sqid r = j) (filter (fun r => r_sqid r <> k) l) =
    filter (fun r => r_sqid r = j) l) as Hf.
  { intros l. rewrite list_filter_filter. apply list_filter_iff. intros r. split; [tauto|]. intros E. split; [done|congruence]. }
  by rewrite <- (Hf w'), Hw, Hf.
Qed.

(** Requests of queue [k] move between its lists and the completion queue. *)
Lemma move_conserved (K : Z -> Prop) n n' k c z id free out free' out' w w' :
  sq_lists n k = Some (c, z, free, out) ->
  (forall j, sq_lists n' j = if j =? k then Some (c, z, free', out') else sq_lists n j) ->
  cq_list n c = Some (id, w) ->
  (forall j, cq_list n' j = if j =? c then Some (id, w') else cq_list n j) ->
  of_others k w' = of_others k w -> Forall (fun r => r_sqid r = k) (free' ++ out') ->
  r_id <$> free' ++ out' ++ of_sq k w' ≡ₚ r_id <$> free ++ out ++ of_sq k w ->
  K k \/ out' = out -> shape n' = shape n -> aers n' = aers n ->
  conserved K n n'.
Proof.
  intros Es Es' Ec Ec' Hw Hk Hp HK Hsh Ha [Hlen Hsq Hcq]. destruct (Hcq _ _ _ Ec) as [Eid Hwq].
  assert (forall j, held n' j ≡ₚ held n j) as Hheld.
  { intros j. unfold held. rewrite Es'. destruct (Z.eqb_spec j k) as [->|Hjk].
    - by rewrite Es, Ec', Z.eqb_refl, Ec.
    - destruct (sq_lists n j) as [[[[cj zj] fj] oj]|]; [|done]. rewrite Ec'.
      destruct (Z.eqb_spec cj c) as [->|]; [|done]. by rewrite Ec, (of_sq_others j k w w'). }
  split_and!.
  - constructor.
    + unfold shape in Hsh. injection Hsh as -> -> ->. done.
    + intros j cj zj fj oj Ej. rewrite Hheld. rewrite Es' in Ej.
      assert (is_Some (cq_list n cj) -> is_Some (cq_list n' cj)) as Hc by (rewrite Ec'; by destruct (cj =? c)).
      destruct (Z.eqb_spec j k) as [->|]; [|destruct (Hsq _ _ _ _ _ Ej) as (? & ? & ?); auto]. simplify_eq.
      destruct (Hsq _ _ _ _ _ Es) as (? & ? & ?). auto.
    + intros cj idj wj Ej. rewrite Ec' in Ej.
      assert (forall cj wj, Forall (fun r => exists z free out, sq_lists n (r_sqid r) = Some (cj, z, free, out)) wj ->
        Forall (fun r => exists z free out, sq_lists n' (r_sqid r) = Some (cj, z, free, out)) wj) as Hmon.
      { intros cj' wj' HF. eapply Forall_impl; [|exact HF]. cbv beta. intros r (zr & fr & ou & Er). rewrite Es'.
        destruct (Z.eqb_spec (r_sqid r) k) as [E|]; [|eauto]. rewrite E in Er. simplify_eq. eauto. }
      destruct (Z.eqb_spec cj c) as [->|]; [|destruct (Hcq _ _ _ Ej); split; [done|by apply Hmon]].
      simplify_eq. split; [done|]. apply Forall_forall. intros r Hr%list_elem_of_In. rewrite Es'.
      destruct (Z.eqb_spec (r_sqid r) k) as [E|Hne]; [eauto|].
      assert (r ∈ of_others k wj) as Hin by (by apply list_elem_of_filter).
      rewrite Hw in Hin. apply list_elem_of_filter in Hin as [_ Hin]. apply (proj1 (Forall_forall _ _) Hwq).
      by apply list_elem_of_In.
  - constructor; [| |done..].
    + intros j. unfold sq_id. rewrite Es'. destruct (Z.eqb_spec j k) as [->|]; [by rewrite Es|done].
    + intros j. rewrite Ec'. destruct (Z.eqb_spec j c) as [->|]; [by rewrite Ec|done].
  - intros j Hj. unfold out_list. rewrite Es'. destruct (Z.eqb_spec j k) as [->|]; [|done]. rewrite Es.
    by destruct HK.
Qed.

(** *** Each operation *)

Section Conserved.
Context `{Clock} `{Guest} `{Backend}.
Implicit Types (n : NvmeCtrl) (req : NvmeRequest).

Lemma wp_get_sq q sq (Q : NvmeSQueue -> NvmeCtrl -> Prop) n :
  zget (sqs n) q = Some (Some sq) -> Q sq n -> wp (get_sq q) Q n.
Proof.
  intros E HQ. unfold get_sq. apply wp_bind, wp_gets. apply wp_bind. eapply wp_idx; [exact E|]. exact HQ.
Qed.

Lemma wp_get_cq q cq (Q : NvmeCQueue -> NvmeCtrl -> Prop) n :
  zget (cqs n) q = Some (Some cq) -> Q cq n -> wp (get_cq q) Q n.
Proof.
  intros E HQ. unfold get_cq. apply wp_bind, wp_gets. apply wp_bind. eapply wp_idx; [exact E|]. exact HQ.
Qed.

Lemma wlp_get_sq q (Q : NvmeSQueue -> NvmeCtrl -> Prop) n :
  (forall sq, zget (sqs n) q = Some (Some sq) -> Q sq n) -> wlp (get_sq q) Q n.
Proof.
  intros HQ. unfold get_sq. apply wlp_bind. change (wlp (o ← idx (sqs n) q; deref o) Q n). apply wlp_bind, wlp_idx.
  intros o Eo. apply wlp_deref. intros sq ->. by apply HQ.
Qed.

Lemma wlp_get_cq q (Q : NvmeCQueue -> NvmeCtrl -> Prop) n :
  (forall cq, zget (cqs n) q = Some (Some cq) -> Q cq n) -> wlp (get_cq q) Q n.
Proof.
  intros HQ. unfold get_cq. apply wlp_bind. change (wlp (o ← idx (cqs n) q; deref o) Q n). apply wlp_bind, wlp_idx.
  intros o Eo. apply wlp_deref. intros cq ->. by apply HQ.
Qed.

Lemma wlp_keeps {A} (m : NM A) (P : A -> Prop) (Q : A -> NvmeCtrl -> Prop) n :
  keeps m P -> (forall a n', same_queues n n' -> P a -> Q a n') -> wlp m Q n.
Proof. intros Hm HQ. unfold wlp. specialize (Hm n). destruct (m n); [|done..]. destruct Hm. auto. Qed.

Lemma sq_lists_put k o x n j :
  zget (sqs n) k = Some o ->
  sq_lists (set_sqs (zset k (Some x) (sqs n)) n) j =
  if j =? k then Some (s_cqid x, s_size x, s_req_list x, out_req_list x) else sq_lists n j.
Proof.
  intros E%zget_Some_range. unfold sq_lists. cbn. rewrite zget_zset by done.
  rewrite (Z.eqb_sym k j). by destruct (j =? k).
Qed.

Lemma cq_list_put k o x n j :
  zget (cqs n) k = Some o ->
  cq_list (set_cqs (zset k (Some x) (cqs n)) n) j =
  if j =? k then Some (cq_id x, c_req_list x) else cq_list n j.
Proof.
  intros E%zget_Some_range. unfold cq_list. cbn. rewrite zget_zset by done.
  rewrite (Z.eqb_sym k j). by destruct (j =? k).
Qed.

Lemma sq_lists_get n k sq :
  zget (sqs n) k = Some (Some sq) -> sq_lists n k = Some (s_cqid sq, s_size sq, s_req_list sq, out_req_list sq).
Proof. unfold sq_lists. by intros ->. Qed.

Lemma cq_list_get n c cq : zget (cqs n) c = Some (Some cq) -> cq_list n c = Some (cq_id cq, c_req_list cq).
Proof. unfold cq_list. by intros ->. Qed.

Lemma shape_put_sq k o n : shape (set_sqs (zset k o (sqs n)) n) = shape n.
Proof. unfold shape. cbn. by rewrite zlen_zset. Qed.

Lemma shape_put_cq c o n : shape (set_cqs (zset c o (cqs n)) n) = shape n.
Proof. unfold shape. cbn. by rewrite zlen_zset. Qed.

(** Other fields of a queue. *)
Lemma put_sq_tick k sq x n :
  zget (sqs n) k = Some (Some sq) -> s_cqid x = s_cqid sq -> s_size x = s_size sq ->
  s_req_list x = s_req_list sq -> out_req_list x = out_req_list sq -> tick n (set_sqs (zset k (Some x) (sqs n)) n).
Proof.
  intros E E1 E2 E3 E4. split_and!; [|done| |done].
  - intros j. rewrite (sq_lists_put _ _ _ _ _ E), E1, E2, E3, E4.
    destruct (Z.eqb_spec j k) as [->|]; [|done]. by rewrite (sq_lists_get _ _ _ E).
  - apply shape_put_sq.
Qed.

Lemma put_cq_tick c cq x n :
  zget (cqs n) c = Some (Some cq) -> cq_id x = cq_id cq -> c_req_list x = c_req_list cq ->
  tick n (set_cqs (zset c (Some x) (cqs n)) n).
Proof.
  intros E E1 E2. split_and!; [done| | |done].
  - intros j. rewrite (cq_list_put _ _ _ _ _ E), E1, E2.
    destruct (Z.eqb_spec j c) as [->|]; [|done]. by rewrite (cq_list_get _ _ _ E).
  - apply shape_put_cq.
Qed.

Lemma cq_full_tick q n : wlp (nvme_cq_full q) (fun _ n' => tick n n') n.
Proof.
  unfold nvme_cq_full. apply wlp_bind. apply (wlp_mono _ (fun _ n' => tick n n')).
  - unfold nvme_update_cq_head. apply wlp_bind, wlp_get_cq. intros cq E. destruct (_ =? 0); [done|].
    by eapply put_cq_tick.
  - intros _ n' Ht. apply wlp_bind, wlp_get_cq. intros cq E. by destruct (_ =? 0).
Qed.

Lemma of_sq_app k l1 l2 : of_sq k (l1 ++ l2) = of_sq k l1 ++ of_sq k l2.
Proof. apply list.filter_app. Qed.

Lemma of_others_app k l1 l2 : of_others k (l1 ++ l2) = of_others k l1 ++ of_others k l2.
Proof. apply list.filter_app. Qed.

Lemma of_sq_one k req : r_sqid req = k -> of_sq k [req] = [req].
Proof. intros E. unfold of_sq. by rewrite filter_cons_True. Qed.

Lemma of_others_one k req : r_sqid req = k -> of_others k [req] = [].
Proof. intros E. unfold of_others. rewrite filter_cons_False; [done|]. by intros []. Qed.

(** The first waiting request is completed. *)
Lemma post_one K q req l cq n :
  zget (cqs n) q = Some (Some cq) -> c_req_list cq = req :: l ->
  wlp (put_cq q (cq_with_reqs l cq);; nvme_post_cqe q req)
    (fun _ n' => conserved K n n' /\ cq_list n' q = Some (cq_id cq, l)) n.
Proof.
  intros Ecq El. apply wlp_bind. cbn. set (n1 := set_cqs _ n).
  assert (zget (cqs n1) q = Some (Some (cq_with_reqs l cq))) as E1.
  { apply zget_Some_range in Ecq. cbn. by apply zget_zset_eq. }
  unfold nvme_post_cqe. apply wlp_bind, wlp_get_cq. intros cq1 E1'. rewrite E1 in E1'. simplify_eq.
  apply wlp_bind, wlp_get_sq. intros sq Esq. apply wlp_bind.
  eapply (wlp_keeps _ (fun _ => True)).
  { unfold cq_entry_addr, nvme_discontig. keeps_tac; done. }
  intros addr n2 K2 _. apply wlp_bind. cbn beta. apply wlp_bind.
  eapply (wlp_keeps _ (same_req req)); [destruct (_ =? _); [apply keeps_post_cqe|by apply keeps_ret]|].
  intros req' n3 K3 [Hid Hsq]. rewrite Hsq. apply wlp_bind, wlp_modify. set (n4 := set_guest _ n3).
  apply wlp_bind, wlp_modify. apply wlp_modify. set (n5 := set_cqs _ n4). set (n6 := set_sqs _ n5).
  assert (sqs n4 = sqs n /\ cqs n4 = cqs n1 /\ params n4 = params n /\ aers n4 = aers n) as (F1 & F2 & F3 & F4).
  { destruct K2 as (A1 & A2 & A3 & A4), K3 as (B1 & B2 & B3 & B4). split_and!;
      [exact (eq_trans B1 A1)|exact (eq_trans B2 A2)|exact (eq_trans B3 A3)|exact (eq_trans B4 A4)]. }
  set (cq' := nvme_inc_cq_tail _) in *. assert (cq_id cq' = cq_id cq /\ c_req_list cq' = l) as [G1 G2].
  { subst cq'. unfold nvme_inc_cq_tail. by destruct (_ <=? _). }
  assert (Ecq' : zget (cqs n4) q = Some (Some (cq_with_reqs l cq))) by by rewrite F2.
  assert (Esq' : zget (sqs n4) (r_sqid req) = Some (Some sq)) by by rewrite F1.
  assert (forall j, cq_list n6 j = if j =? q then Some (cq_id cq, l) else cq_list n j) as Hcl.
  { intros j. change (cq_list n6 j) with (cq_list (set_cqs (zset q (Some cq') (cqs n4)) n4) j). rewrite (cq_list_put _ _ _ _ _ Ecq'), G1, G2.
    destruct (Z.eqb_spec j q); [done|]. unfold cq_list. rewrite F2. cbn. by rewrite zget_zset_ne. }
  split; [|by rewrite Hcl, Z.eqb_refl].
  intros Hn. pose proof (qo_cq _ Hn q _ _ (cq_list_get _ _ _ Ecq)) as [Eid Hw]. rewrite El in Hw.
  apply Forall_cons_1 in Hw as [(zr & fr & ou & Er) _].
  assert (Esl := sq_lists_get n (r_sqid req) sq ltac:(by rewrite <- F1)). rewrite Er in Esl.
  injection Esl as Ec Ez Ef Eo. subst fr ou zr.
  destruct (qo_sq _ Hn _ _ _ _ _ Er) as [Hk _].
  eapply (move_conserved K n n6 (r_sqid req)); [exact Er| |by apply cq_list_get|exact Hcl|..].
  - intros j. subst n6. rewrite (sq_lists_put _ _ _ n5 _ Esq'). cbn. rewrite <- Ec. destruct (j =? _); [done|].
    unfold sq_lists. change (sqs n5) with (sqs n4). by rewrite F1.
  - rewrite El. change (req :: ?l) with ([req] ++ l). by rewrite of_others_app, of_others_one.
  - rewrite <- (assoc_L (++)). apply Forall_app in Hk as [Hk1 Hk2]. apply Forall_app. split; [done|]. by constructor.
  - rewrite El. change (req :: l) with ([req] ++ l). rewrite of_sq_app, of_sq_one, !fmap_app by done. cbn. rewrite Hid.
    solve_Permutation.
  - by right.
  - unfold n6, n5. rewrite shape_put_sq, shape_put_cq. unfold shape. rewrite F1, F2, F3. apply shape_put_cq.
  - exact F4.
  - done.
Qed.

Lemma post_loop_conserved K q l id n :
  cq_list n q = Some (id, l) -> wlp (post_loop q l) (fun _ n' => conserved K n n') n.
Proof.
  revert id n. induction l as [|req l IH]; intros id n El; cbn [post_loop].
  { change (conserved K n n). reflexivity. }
  apply wlp_bind. eapply wlp_mono; [apply cq_full_tick|]. intros full n1 T1. destruct full.
  { change (conserved K n n1). by apply tick_conserved. }
  apply wlp_bind. eapply (wlp_keeps _ (fun _ => True)); [apply keeps_on_ssd|]. intros t n2 K2%same_queues_tick _.
  assert (tick n n2) as T2 by by transitivity n1.
  apply wlp_bind, wlp_get_cq. intros cq Ecq. destruct (_ && _).
  { change (conserved K n n2). by apply tick_conserved. }
  pose proof (proj1 (proj2 T2) q) as E2. rewrite El, (cq_list_get _ _ _ Ecq) in E2. injection E2 as Eid Er.
  apply wlp_bind_assoc. eapply wlp_bind, wlp_mono; [by apply (post_one K q req l cq)|]. intros _ n3 [C3 E3].
  eapply wlp_mono; [by eapply IH|]. intros ? n4 C4. transitivity n2; [by apply tick_conserved|]. by transitivity n3.
Qed.

Lemma post_cqes_conserved K q n : wlp (nvme_post_cqes_io q) (fun _ n' => conserved K n n') n.
Proof.
  unfold nvme_post_cqes_io. apply wlp_bind, wlp_get_cq. intros cq Ecq. apply wlp_bind.
  eapply wlp_mono; [by eapply (post_loop_conserved K q _ (cq_id cq)), cq_list_get|]. intros ntt n1 C1. cbv beta in C1.
  apply wlp_bind. eapply (wlp_keeps _ (fun _ => True)); [keeps_tac; done|]. intros t n2 K2%same_queues_tick _.
  apply wlp_bind, wlp_get_cq. intros cq' Ecq'. apply wlp_modify. transitivity n1; [done|].
  transitivity n2; [by apply tick_conserved|]. eapply tick_conserved, put_cq_tick; [exact Ecq'|done..].
Qed.

Lemma drop_req_ids req r0 l :
  NoDup (r_id <$> l) -> r0 ∈ l -> r_id r0 = r_id req ->
  r_id <$> l ≡ₚ r_id req :: (r_id <$> drop_req req l).
Proof.
  intros Hd Hin E. induction l as [|x l IH]; [by apply list_elem_of_In in Hin|].
  rewrite fmap_cons in Hd. apply list.NoDup_cons in Hd as [Hx Hd]. unfold drop_req. rewrite filter_cons.
  destruct (decide (r_id x <> r_id req)) as [Hne|Heq].
  - rewrite !fmap_cons. apply elem_of_cons in Hin as [->|Hin]; [congruence|]. rewrite IH by done. constructor.
  - apply dec_stable in Heq. rewrite fmap_cons, Heq. constructor.
    enough (filter (fun y => r_id y <> r_id req) l = l) as -> by done.
    clear - Hx Heq. induction l as [|y l IH]; [done|]. rewrite fmap_cons, not_elem_of_cons in Hx.
    destruct Hx as [Hxy Hx]. rewrite filter_cons_True by congruence. by rewrite IH.
Qed.

Lemma insert_req_perm req l : insert_req req l ≡ₚ req :: l.
Proof.
  induction l as [|x l IH]; cbn [insert_req]; [done|]. destruct (_ <? _); [done|]. rewrite IH. constructor.
Qed.

Lemma insert_req_others req l : of_others (r_sqid req) (insert_req req l) = of_others (r_sqid req) l.
Proof.
  assert (forall l', of_others (r_sqid req) (req :: l') = of_others (r_sqid req) l') as Hreq.
  { intros l'. change (req :: l') with ([req] ++ l'). by rewrite of_others_app, of_others_one. }
  induction l as [|x l IH]; cbn [insert_req]; [by rewrite Hreq|]. destruct (_ <? _); [by rewrite Hreq|].
  change (x :: ?l) with ([x] ++ l). by rewrite !of_others_app, IH.
Qed.

(** A request that was being worked on is handed to the completion queue. *)
Lemma finish_conserved q req r0 sq cq x n n2 :
  zget (sqs n) (r_sqid req) = Some (Some sq) -> zget (cqs n) q = Some (Some cq) -> cqid cq = s_cqid sq ->
  r0 ∈ out_req_list sq -> r_id r0 = r_id req -> cq_id x = cq_id cq -> c_req_list x ≡ₚ req :: c_req_list cq ->
  of_others (r_sqid req) (c_req_list x) = of_others (r_sqid req) (c_req_list cq) ->
  same_queues (set_sqs (zset (r_sqid req) (Some (sq_with_reqs (s_req_list sq)
    (drop_req req (out_req_list sq)) sq)) (sqs n)) n) n2 ->
  conserved (eq (r_sqid req)) n (set_cqs (zset q (Some x) (cqs n2)) n2).
Proof.
  intros Esq Ecq Eid Hin Er Ex Hx Hoth (F1 & F2 & F3 & F4) Hn. cbn in F1, F2, F3.
  pose proof (qo_cq _ Hn _ _ _ (cq_list_get _ _ _ Ecq)) as [Eq _]. cbn in Eq.
  destruct (qo_sq _ Hn _ _ _ _ _ (sq_lists_get _ _ _ Esq)) as [Hk _].
  pose proof (qo_dup _ (r_sqid req) Hn) as Hd. unfold held in Hd. rewrite (sq_lists_get _ _ _ Esq) in Hd.
  rewrite !fmap_app in Hd. apply list.NoDup_app in Hd as (_ & _ & Hd). apply list.NoDup_app in Hd as (Hd & _ & _).
  eapply (move_conserved _ n _ (r_sqid req) q (s_size sq) (cq_id cq)); [by rewrite (sq_lists_get _ _ _ Esq), <- Eid, Eq| |by apply cq_list_get|..].
  - intros j. unfold sq_lists at 1. cbn. rewrite F1.
    pose proof (sq_lists_put _ _ (sq_with_reqs (s_req_list sq) (drop_req req (out_req_list sq)) sq) n j Esq) as E.
    unfold sq_lists in E at 1. cbn in E. rewrite E, <- Eid, Eq. done.
  - intros j. rewrite (cq_list_put q (Some cq)) by (by rewrite F2). rewrite Ex. destruct (j =? q); [done|].
    unfold cq_list. by rewrite F2.
  - done.
  - apply Forall_app in Hk as [? Hk]. apply Forall_app. split; [done|].
    rewrite list.Forall_forall in Hk |- *. intros r [_ Hr]%list_elem_of_filter. auto.
  - rewrite !fmap_app, (drop_req_ids req r0 (out_req_list sq)) by done. unfold of_sq. rewrite Hx, filter_cons_True by done.
    rewrite fmap_cons. solve_Permutation.
  - by left.
  - rewrite shape_put_cq. unfold shape. rewrite F1, F2, F3. apply shape_put_sq.
  - exact F4.
  - done.
Qed.

Lemma enqueue_io_conserved q req r0 n :
  (forall sq, zget (sqs n) (r_sqid req) = Some (Some sq) -> r0 ∈ out_req_list sq) -> r_id r0 = r_id req ->
  wlp (nvme_enqueue_req_completion_io q req) (fun _ n' => conserved (eq (r_sqid req)) n n') n.
Proof.
  intros Hin Er. unfold nvme_enqueue_req_completion_io. apply wlp_bind, wlp_get_cq. intros cq Ecq.
  apply wlp_bind, wlp_get_sq. intros sq Esq. destruct (Z.eqb_spec (cqid cq) (s_cqid sq)); [|done].
  apply wlp_bind, wlp_modify. set (n1 := set_sqs _ n).
  destruct (c_req_list cq) as [|y l] eqn:El; apply wlp_modify;
    (eapply (finish_conserved q req r0 sq cq); [done..|auto|done|done| | |reflexivity]);
    cbn [c_req_list cq_with_timer cq_with_reqs]; rewrite El.
  - done.
  - by rewrite of_others_one.
  - apply insert_req_perm.
  - apply insert_req_others.
Qed.

Lemma enqueue_conserved q req r0 n :
  (forall sq, zget (sqs n) (r_sqid req) = Some (Some sq) -> r0 ∈ out_req_list sq) -> r_id r0 = r_id req ->
  wlp (nvme_enqueue_req_completion q req) (fun _ n' => conserved (eq (r_sqid req)) n n') n.
Proof.
  intros Hin Er. unfold nvme_enqueue_req_completion. apply wlp_bind, wlp_get_cq. intros cq Ecq.
  apply wlp_bind, wlp_get_sq. intros sq' Esq'. destruct (Z.eqb_spec (cqid cq) (s_cqid sq')); [|done].
  apply wlp_bind, wlp_modify. apply wlp_bind. eapply (wlp_keeps _ (fun _ => True)); [apply keeps_on_ssd|].
  intros t n2 K2 _. apply wlp_modify. eapply (finish_conserved _ req r0 sq' cq); [done..|by apply Hin|done|done| | |done].
  - cbn. by rewrite Permutation_app_comm.
  - cbn [c_req_list cq_with_timer cq_with_reqs]. by rewrite of_others_app, of_others_one, app_nil_r.
Qed.

Lemma misc_cb_conserved req ok n :
  (forall sq, zget (sqs n) (r_sqid req) = Some (Some sq) -> req ∈ out_req_list sq) ->
  wlp (nvme_misc_cb req ok) (fun _ n' => conserved (eq (r_sqid req)) n n') n.
Proof.
  intros Hin. unfold nvme_misc_cb. apply wlp_bind, wlp_get_sq. intros sq Esq.
  by apply (enqueue_conserved _ (set_status _ req) req).
Qed.

(** The lists of a submission queue change, not the requests in them. *)
Lemma put_sq_conserved k sq x n :
  zget (sqs n) k = Some (Some sq) -> s_cqid x = s_cqid sq -> s_size x = s_size sq ->
  (Forall (fun r => r_sqid r = k) (s_req_list sq ++ out_req_list sq) ->
   Forall (fun r => r_sqid r = k) (s_req_list x ++ out_req_list x)) ->
  r_id <$> s_req_list x ++ out_req_list x ≡ₚ r_id <$> s_req_list sq ++ out_req_list sq ->
  conserved (eq k) n (set_sqs (zset k (Some x) (sqs n)) n).
Proof.
  intros Esq Ec Ez Hk Hp Hn. destruct (qo_sq _ Hn _ _ _ _ _ (sq_lists_get _ _ _ Esq)) as (Hf & [[id w] Ew] & _).
  eapply (move_conserved _ n _ k (s_cqid sq) (s_size sq) id);
    [by apply sq_lists_get| |exact Ew| |reflexivity| | |by left|apply shape_put_sq|done|done].
  - intros j. by rewrite (sq_lists_put _ _ _ _ _ Esq), Ec, Ez.
  - intros j. change (cq_list (set_sqs _ n) j) with (cq_list n j). by destruct (Z.eqb_spec j (s_cqid sq)) as [->|].
  - auto.
  - rewrite !(assoc_L (++)), !(fmap_app r_id (_ ++ _)), Hp. done.
Qed.

Lemma keep_req_conserved q req n :
  r_sqid req = q -> wlp (keep_req q req) (fun _ n' => conserved (eq q) n n') n.
Proof.
  intros Eq. unfold keep_req. apply wlp_bind, wlp_get_sq. intros sq Esq. apply wlp_modify.
  eapply put_sq_conserved; [exact Esq|done|done|..]; cbn [s_req_list out_req_list sq_with_reqs].
  - intros [Hf Ho]%Forall_app. apply Forall_app. split; [done|]. apply Forall_fmap. eapply Forall_impl; [|exact Ho].
    intros r Hr. cbn. by destruct (_ =? _).
  - rewrite !fmap_app, <- list_fmap_compose. apply Permutation_app_head. erewrite list_fmap_ext; [done|].
    intros i r _. cbn. destruct (Z.eqb_spec (r_id r) (r_id req)); done.
Qed.

Lemma sq_loop_conserved fuel q p n :
  queues_ok n -> wlp (sq_loop fuel q p) (fun _ n' => conserved (eq q) n n') n.
Proof.
  revert p n. induction fuel as [|fuel IH]; intros p n Hn; cbn [sq_loop];
    apply wlp_bind, wlp_get_sq; intros sq Esq; destruct (s_req_list sq) as [|req reqs] eqn:El;
    try (change (conserved (eq q) n n); reflexivity); destruct (nvme_sq_empty sq);
    try (change (conserved (eq q) n n); reflexivity).
  apply wlp_bind. eapply (wlp_keeps _ (fun _ => True)).
  { unfold sq_entry_addr, nvme_discontig. keeps_tac; done. }
  intros addr n0 K0 _. apply wlp_bind. set (cmd := fun o => guest n0 (addr + o)).
  assert (Esq0 : zget (sqs n0) q = Some (Some sq)) by (destruct K0 as (-> & _); done).
  assert (conserved (eq q) n n0) as C0 by (by apply tick_conserved, same_queues_tick). destruct (C0 Hn) as [Hn0 _].
  apply wlp_bind. unfold nvme_inc_sq_head. destruct (_ =? 0); [done|]. set (sq1 := sq_with_head _ sq).
  change (wlp (if cmd_op cmd =? NVME_OP_ABORTED then put_sq q sq1;; sq_loop fuel q (p + 1) else
    let req := start_req cmd req in put_sq q (sq_with_reqs reqs (out_req_list sq1 ++ [req]) sq1);;
    r ← nvme_io_cmd cmd req;
    (if r.1 =? NVME_NO_COMPLETE then keep_req q r.2
     else nvme_enqueue_req_completion_io (s_cqid sq1) (set_status r.1 r.2));; sq_loop fuel q (p + 1))
    (fun _ n' => conserved (eq q) n n') n0).
  destruct (cmd_op cmd =? NVME_OP_ABORTED).
  { apply wlp_bind, wlp_modify. set (n1 := set_sqs _ n0).
    assert (conserved (eq q) n0 n1) as C1 by (by eapply tick_conserved, put_sq_tick; [exact Esq0|..]).
    eapply wlp_mono; [by apply IH, C1|]. intros ? n2 C2. transitivity n0; [done|]. by transitivity n1. }
  cbv zeta. set (req' := start_req cmd req). apply wlp_bind, wlp_modify. set (n1 := set_sqs _ n0).
  destruct (qo_sq _ Hn0 _ _ _ _ _ (sq_lists_get _ _ _ Esq0)) as [Hf _]. rewrite El in Hf.
  apply Forall_cons_1 in Hf as [Eq Hf].
  assert (conserved (eq q) n0 n1) as C1.
  { eapply put_sq_conserved; [exact Esq0|done|done|..]; cbn [s_req_list out_req_list sq_with_reqs sq_with_head sq1].
    - intros _. rewrite (assoc_L (++)). apply Forall_app. split; [done|]. by constructor.
    - rewrite El, !fmap_app. cbn. solve_Permutation. }
  apply wlp_bind. eapply wlp_keeps; [by apply keeps_io_cmd|]. intros r n2 K2 [Ri Rs].
  assert (zget (sqs n2) q = Some (Some (sq_with_reqs reqs (out_req_list sq1 ++ [req']) sq1))) as E2.
  { destruct K2 as (-> & _). cbn. apply zget_zset_eq. by eapply zget_Some_range. }
  apply wlp_bind. apply (wlp_mono _ (fun _ n3 => conserved (eq q) n2 n3)).
  - destruct (_ =? _); [apply keep_req_conserved; by rewrite Rs|].
    assert (r_sqid (set_status r.1 r.2) = q) as Eq' by (cbn; rewrite Rs; exact Eq).
    eapply wlp_mono; [|intros ? n3 C3; rewrite <- Eq'; exact C3]. apply (enqueue_io_conserved _ _ req'); [|done]. intros sq2. cbn. rewrite Rs. cbn [r_sqid start_req req']. rewrite Eq, E2.
    intros [= <-]. apply elem_of_app. right. by apply list_elem_of_singleton.
  - intros _ n3 C3. assert (conserved (eq q) n0 n3) as C03.
    { transitivity n1; [done|]. transitivity n2; [by apply tick_conserved, same_queues_tick|done]. }
    eapply wlp_mono; [by apply IH, C03|]. intros ? n4 C4. transitivity n0; [done|]. by transitivity n3.
Qed.

Lemma process_sq_conserved q n :
  queues_ok n -> wlp (nvme_process_sq_io q) (fun _ n' => conserved (eq q) n n') n.
Proof.
  intros Hn. unfold nvme_process_sq_io. apply wlp_bind. apply (wlp_mono _ (fun _ n1 => tick n n1)).
  { unfold nvme_update_sq_tail. apply wlp_bind, wlp_get_sq. intros sq E. destruct (_ =? 0); [done|].
    apply wlp_bind, wlp_modify. by eapply put_sq_tick. }
  intros _ n1 T1%(tick_conserved (eq q)). apply wlp_bind, wlp_get_sq. intros sq _. apply wlp_bind.
  eapply wlp_mono; [by apply sq_loop_conserved, T1|]. intros p n2 C2. cbv beta in C2.
  apply wlp_bind, wlp_get_sq. intros sq2 E2. apply wlp_bind.
  eapply (wlp_keeps _ (fun _ => True)); [apply keeps_on_ssd|]. intros t n3 K3 _. apply wlp_modify.
  transitivity n1; [done|]. transitivity n2; [done|]. transitivity n3; [by apply tick_conserved, same_queues_tick|].
  eapply tick_conserved, put_sq_tick; [by destruct K3 as (-> & _)|done..].
Qed.
End Conserved.

(** ** Completion *)

Definition later (r r' : NvmeRequest) : Prop := expire_time r <= expire_time r'.

Lemma insert_req_sorted req l : StronglySorted later l -> StronglySorted later (insert_req req l).
Proof.
  induction 1 as [|x l Hl IH Hx]; cbn [insert_req]; [by repeat constructor|].
  destruct (Z.ltb_spec (expire_time req) (expire_time x)).
  - constructor; [by constructor|]. constructor; [unfold later; lia|].
    eapply Forall_impl; [|exact Hx]. unfold later. intros r. lia.
  - constructor; [done|]. rewrite insert_req_perm. constructor; [unfold later; lia|done].
Qed.

Section Complete.
Context `{Clock} `{Guest} `{Backend}.
Implicit Types (n : NvmeCtrl) (req : NvmeRequest) (cq : NvmeCQueue).

Lemma get_cq_Ok q cq n : zget (cqs n) q = Some (Some cq) -> get_cq q n = Ok cq n.
Proof. intros E. unfold get_cq, mbind, M_bind, gets, idx, deref. by rewrite E. Qed.

Lemma get_sq_Ok q sq n : zget (sqs n) q = Some (Some sq) -> get_sq q n = Ok sq n.
Proof. intros E. unfold get_sq, mbind, M_bind, gets, idx, deref. by rewrite E. Qed.

Lemma cq_with_head_id cq : cq_with_head (c_head cq) cq = cq.
Proof. by destruct cq. Qed.

Lemma set_cqs_id n : set_cqs (cqs n) n = n.
Proof. by destruct n. Qed.

Lemma set_cqs_set x y n : set_cqs x (set_cqs y n) = set_cqs x n.
Proof. done. Qed.

(** The ring is full, with the head as it is now. *)
Definition ring_full cq : Prop := u32 (c_tail cq + 1) mod c_size cq = c_head cq.

Lemma cq_full_Ok q cq n :
  zget (cqs n) q = Some (Some cq) -> 0 < c_size cq ->
  exists h, nvme_cq_full q n = Ok (u32 (c_tail cq + 1) mod c_size cq =? h)
    (set_cqs (zset q (Some (cq_with_head h cq)) (cqs n)) n).
Proof.
  intros E Hs. pose proof (zget_Some_range _ _ _ E) as Hr.
  unfold nvme_cq_full, nvme_update_cq_head, put_cq, mbind, M_bind. rewrite (get_cq_Ok _ _ _ E).
  assert (forall h, zget (cqs (set_cqs (zset q (Some (cq_with_head h cq)) (cqs n)) n)) q = Some (Some (cq_with_head h cq))) as Eh.
  { intros h. cbn. by apply zget_zset_eq. }
  destruct (_ =? 0).
  - exists (c_head cq). rewrite cq_with_head_id, (zset_get _ _ _ E), set_cqs_id.
    unfold mret, M_ret. rewrite (get_cq_Ok _ _ _ E).
    destruct (Z.eqb_spec (c_size cq) 0); [lia|done].
  - exists (le (guest n) (c_db_addr cq) 4). unfold gets, modify. rewrite (get_cq_Ok _ _ _ (Eh _)). cbn.
    destruct (Z.eqb_spec (c_size cq) 0); [lia|done].
Qed.

(** The state after a completion entry has been written. *)
Definition posted_at (q addr : Z) req cq (sq : NvmeSQueue) n : NvmeCtrl :=
  set_sqs (zset (r_sqid req) (Some (sq_with_reqs (s_req_list sq ++ [req]) (out_req_list sq) sq)) (sqs n))
    (set_cqs (zset q (Some (nvme_inc_cq_tail cq)) (cqs n))
      (set_guest (blit (guest n) addr
        (cqe_bytes (r_result req) (u16 (s_head sq)) (sqid sq) (r_cid req) (u16 (Z.lor (Z.shiftl (status req) 1) (phase cq)))) 0 16) n)).

Lemma post_cqe_Ok q req cq sq n :
  zget (cqs n) q = Some (Some cq) -> zget (sqs n) (r_sqid req) = Some (Some sq) ->
  c_contig cq = true -> femu_mode (params n) <> FEMU_WHITEBOX_MODE ->
  nvme_post_cqe q req n =
  Ok tt (posted_at q (u64 (c_dma_addr cq + u32 (c_tail cq * cqe_size (params n)))) req cq sq n).
Proof.
  intros Ec Es Hc Hm. unfold nvme_post_cqe, cq_entry_addr, mbind, M_bind.
  rewrite (get_cq_Ok _ _ _ Ec), (get_sq_Ok _ _ _ Es). unfold gets. rewrite Hc. unfold mret, M_ret.
  destruct (Z.eqb_spec (femu_mode (params n)) FEMU_WHITEBOX_MODE); [done|]. done.
Qed.

(** *** The loop *)

(** A completion queue whose entries can be written. *)
Record ring_ok (q : Z) cq n : Prop := mk_ring_ok {
  rg_cq : zget (cqs n) q = Some (Some cq);
  rg_io : cqid cq <> 0;
  rg_contig : c_contig cq = true;
  rg_tail : 0 <= c_tail cq < c_size cq;
  rg_size : c_size cq < 2 ^ 32;
  rg_mode : femu_mode (params n) <> FEMU_WHITEBOX_MODE;
  rg_reqs : Forall (fun r => exists sq, zget (sqs n) (r_sqid r) = Some (Some sq)) (c_req_list cq)
}.

(** A reading of the clock between two states. *)
Definition read_between (n n' : NvmeCtrl) (t : Z) : Prop :=
  exists i, (clock_reads (ssd n) <= i < clock_reads (ssd n'))%nat /\ t = qemu_clock_get_ns i.

(** [posted] have been completed, [rest] wait: the first of them, if any,
    because the ring is full or because its time has not come. *)
Record completion (q : Z) cq (posted rest : list NvmeRequest) (ntt : Z) n cq' n' : Prop := mk_completion {
  cp_ring : ring_ok q cq' n';
  cp_split : c_req_list cq = posted ++ rest;
  cp_rest : c_req_list cq' = rest;
  cp_cq : cqid cq' = cqid cq /\ c_size cq' = c_size cq;
  cp_tail : c_tail cq' = (c_tail cq + zlen posted) mod c_size cq;
  cp_clock : (clock_reads (ssd n) <= clock_reads (ssd n'))%nat;
  cp_free : forall k sq, zget (sqs n) k = Some (Some sq) -> zget (sqs n') k =
    Some (Some (sq_with_reqs (s_req_list sq ++ of_sq k posted) (out_req_list sq) sq));
  cp_due : forall r, r ∈ posted -> exists t, read_between n n' t /\ expire_time r <= t;
  cp_stop : match rest with
            | [] => ntt = 0
            | r :: _ => ntt = 0 /\ ring_full cq' \/
                        ntt = expire_time r /\ exists t, read_between n n' t /\ t < expire_time r
            end
}.

Lemma inc_tail_mod cq :
  0 <= c_tail cq < c_size cq -> c_size cq < 2 ^ 32 ->
  c_tail (nvme_inc_cq_tail cq) = (c_tail cq + 1) mod c_size cq.
Proof.
  intros Ht Hs. unfold nvme_inc_cq_tail. rewrite u32_small by lia. destruct (Z.leb_spec (c_size cq) (c_tail cq + 1)); cbn.
  - replace (c_tail cq + 1) with (c_size cq) by lia. by rewrite Z.mod_same by lia.
  - by rewrite Z.mod_small by lia.
Qed.

Lemma sq_with_reqs_nil (sq : NvmeSQueue) : sq_with_reqs (s_req_list sq ++ []) (out_req_list sq) sq = sq.
Proof. rewrite app_nil_r. by destruct sq. Qed.

(** Nothing is completed. *)
Lemma completion_none q cq h ntt n cq' n' :
  ring_ok q cq n -> cq' = cq_with_head h cq -> ring_ok q cq' n' -> sqs n' = sqs n ->
  (clock_reads (ssd n) <= clock_reads (ssd n'))%nat ->
  match c_req_list cq with
  | [] => ntt = 0
  | r :: _ => ntt = 0 /\ ring_full cq' \/ ntt = expire_time r /\ exists t, read_between n n' t /\ t < expire_time r
  end -> completion q cq [] (c_req_list cq) ntt n cq' n'.
Proof.
  intros Hr -> Hr' Es Hc Hstop. constructor; try done.
  - cbn. rewrite Z.add_0_r, Z.mod_small; [done|]. apply Hr.
  - intros k sq E. by rewrite Es, E, sq_with_reqs_nil.
  - by intros r Hr0%list_elem_of_In.
Qed.

(** One is completed and then the others. *)
Lemma completion_cons q cq cq1 req sq posted rest ntt n n1 cq' n' t :
  ring_ok q cq n -> c_req_list cq = req :: c_req_list cq1 -> cqid cq1 = cqid cq -> c_size cq1 = c_size cq ->
  c_tail cq1 = (c_tail cq + 1) mod c_size cq ->
  zget (sqs n) (r_sqid req) = Some (Some sq) ->
  sqs n1 = zset (r_sqid req) (Some (sq_with_reqs (s_req_list sq ++ [req]) (out_req_list sq) sq)) (sqs n) ->
  read_between n n1 t -> expire_time req <= t ->
  completion q cq1 posted rest ntt n1 cq' n' -> completion q cq (req :: posted) rest ntt n cq' n'.
Proof.
  intros Hr El Ei Ez Et Esq Esqs Ht He [].
  assert ((clock_reads (ssd n) <= clock_reads (ssd n1))%nat) as Hc by (destruct Ht as (i & ? & _); lia).
  assert (forall u, read_between n1 n' u -> read_between n n' u) as Hmon.
  { intros u (i & Hi & ->). exists i. split; [lia|done]. }
  constructor; try done.
  - by rewrite El, cp_split0.
  - split; [destruct cp_cq0; congruence|]. destruct cp_cq0. congruence.
  - rewrite cp_tail0, Et, Ez, Zplus_mod_idemp_l. f_equal. unfold zlen. cbn [length]. lia.
  - lia.
  - intros k sqk Ek. pose proof (zget_Some_range _ _ _ Esq) as Hrange.
    destruct (Z.eq_dec k (r_sqid req)) as [->|Hne].
    + rewrite Esq in Ek. injection Ek as ->. erewrite cp_free0; [|rewrite Esqs; by apply zget_zset_eq].
      change (req :: posted) with ([req] ++ posted). rewrite of_sq_app, of_sq_one by done. cbn.
      unfold sq_with_reqs. cbn. by rewrite <- (assoc_L (++)).
    + erewrite cp_free0; [|rewrite Esqs, zget_zset_ne by done; exact Ek].
      unfold of_sq. by rewrite filter_cons_False by done.
  - intros r [->|Hin]%elem_of_cons.
    + exists t. split; [|done]. destruct Ht as (i & Hi & ->). exists i. split; [lia|done].
    + destruct (cp_due0 r Hin) as (u & Hu & ?). eauto.
  - destruct rest as [|r rest]; [done|]. destruct cp_stop0 as [?|(? & u & Hu & ?)]; [by left|]. right. split; [done|]. eauto.
Qed.

Lemma post_loop_spec q l cq n :
  ring_ok q cq n -> c_req_list cq = l ->
  wp (post_loop q l) (fun ntt n' => exists posted rest cq', completion q cq posted rest ntt n cq' n') n.
Proof.
  revert cq n. induction l as [|req l IH]; intros cq n Hr El; cbn [post_loop].
  { apply wp_ret. exists [], (c_req_list cq), cq. apply (completion_none q cq (c_head cq)); try done.
    - by rewrite cq_with_head_id.
    - by rewrite El. }
  pose proof (zget_Some_range _ _ _ (rg_cq _ _ _ Hr)) as Hq.
  destruct (cq_full_Ok q cq n) as [h Ef]; [apply Hr|destruct Hr; lia|]. apply wp_bind.
  eapply wp_of_eq; [exact Ef|]. set (cq1 := cq_with_head h cq) in *. set (n1 := set_cqs _ n) in *.
  assert (ring_ok q cq1 n1) as Hr1.
  { destruct Hr. constructor; try done. cbn. by apply zget_zset_eq. }
  destruct (Z.eqb_spec (u32 (c_tail cq + 1) mod c_size cq) h) as [Eh|Eh].
  { apply wp_ret. exists [], (c_req_list cq), cq1. eapply (completion_none q cq h); try done. rewrite El. by left. }
  apply wp_bind. set (t := qemu_clock_get_ns (clock_reads (ssd n1))).
  eapply wp_of_eq; [by apply on_ssd_Ok|]. set (n2 := set_ssd _ n1).
  assert (read_between n n2 t) as Ht by (exists (clock_reads (ssd n)); split; [cbn; lia|done]).
  assert (ring_ok q cq1 n2) as Hr2 by (destruct Hr1; by constructor).
  apply wp_bind. eapply wp_of_eq; [apply get_cq_Ok, Hr2|]. fold t.
  destruct (negb (cqid cq1 =? 0) && (t <? expire_time req)) eqn:Eb.
  { apply andb_true_iff in Eb as [_ Eb%Z.ltb_lt]. apply wp_ret. exists [], (c_req_list cq), cq1.
    eapply (completion_none q cq h); try done; [cbn; lia|]. rewrite El. right. eauto. }
  assert (expire_time req <= t) as He.
  { apply andb_false_iff in Eb as [Eb%negb_false_iff%Z.eqb_eq|Eb%Z.ltb_ge]; [|done]. by destruct (rg_io _ _ _ Hr1). }
  pose proof (rg_reqs _ _ _ Hr) as Hreqs. rewrite El in Hreqs. apply Forall_cons_1 in Hreqs as [[sq Esq] Hreqs].
  apply wp_bind, wp_modify. set (cq2 := cq_with_reqs l cq1). set (n3 := set_cqs _ n2).
  apply wp_bind. eapply wp_of_eq; [apply (post_cqe_Ok q req cq2 sq)|].
  { cbn. apply zget_zset_eq. by rewrite zlen_zset. }
  { exact Esq. } { apply Hr2. } { apply Hr2. }
  set (n4 := posted_at _ _ _ _ _ n3). set (cq4 := nvme_inc_cq_tail cq2).
  assert (cqid cq4 = cqid cq /\ c_size cq4 = c_size cq /\ c_contig cq4 = c_contig cq /\ c_req_list cq4 = l) as (F1 & F2 & F3 & F4).
  { subst cq4. unfold nvme_inc_cq_tail. by destruct (_ <=? _). }
  assert (c_tail cq4 = (c_tail cq + 1) mod c_size cq) as F5 by (apply (inc_tail_mod cq2); destruct Hr; done).
  assert (ring_ok q cq4 n4) as Hr4.
  { destruct Hr. constructor; rewrite ?F1, ?F2, ?F3, ?F4; try done.
    - cbn. apply zget_zset_eq. by rewrite !zlen_zset.
    - rewrite F5. apply Z.mod_pos_bound. lia.
    - eapply Forall_impl; [|exact Hreqs]. intros r [sqr Er]. cbn.
      rewrite zget_zset by (by eapply zget_Some_range). destruct (r_sqid req =? r_sqid r); [eexists; reflexivity|by exists sqr]. }
  eapply wp_mono; [by apply (IH cq4 n4 Hr4)|]. intros ntt n' (posted & rest & cq' & Hcp).
  exists (req :: posted), rest, cq'. eapply (completion_cons q cq cq4 req sq posted rest ntt n n4); try done.
  by rewrite F4.
Qed.
End Complete.
