(* ===== verification/NvmeInfo.v ===== *)
(** * Events, features, logs and formatting: hw/block/nvme.c

    The admin commands that read or set the state of the controller and of its
    namespaces, and the events the controller reports to the guest. *)

From Stdlib Require Import ZArith Lia List.
From stdpp Require Import base tactics numbers list functions.
From S2P Require Import Prelude Config State Timing Ftl Ssd Nvme NvmeOc NvmeQueue.

Open Scope Z_scope.

Definition NVME_AER_LIMIT_EXCEEDED : Z := 261.
Definition NVME_INVALID_LOG_ID : Z := 265.
Definition NVME_INVALID_FORMAT : Z := 266.
Definition NVME_AER_TYPE_ERROR : Z := 0.
Definition NVME_AER_TYPE_SMART : Z := 1.
Definition NVME_AER_INFO_SMART_TEMP_THRESH : Z := 1.
Definition NVME_LOG_ERROR_INFO : Z := 1.
Definition NVME_LOG_SMART_INFO : Z := 2.
Definition NVME_LOG_FW_SLOT_INFO : Z := 3.
Definition NVME_CSTS_READY : Z := 1.
Definition NVME_SPARE_THRESHOLD : Z := 20.

Definition NVME_ARBITRATION : Z := 1.
Definition NVME_POWER_MANAGEMENT : Z := 2.
Definition NVME_LBA_RANGE_TYPE : Z := 3.
Definition NVME_TEMPERATURE_THRESHOLD : Z := 4.
Definition NVME_ERROR_RECOVERY : Z := 5.
Definition NVME_VOLATILE_WRITE_CACHE : Z := 6.
Definition NVME_NUMBER_OF_QUEUES : Z := 7.
Definition NVME_INTERRUPT_COALESCING : Z := 8.
Definition NVME_INTERRUPT_VECTOR_CONF : Z := 9.
Definition NVME_WRITE_ATOMICITY : Z := 10.
Definition NVME_ASYNCHRONOUS_EVENT_CONF : Z := 11.
Definition NVME_SOFTWARE_PROGRESS_MARKER : Z := 128.

(** ** Changes of the admin state *)

Definition set_bar v x := mk_NvmeAdm v (dbs_addr x) (eis_addr x) (features x) (temp_warn_issued x)
  (aer_queue x) (aer_reqs x) (outstanding_aers x) (aer_mask x) (aer_timer x) (dataplane_started x).
Definition set_dbs d e x := mk_NvmeAdm (bar x) d e (features x) (temp_warn_issued x)
  (aer_queue x) (aer_reqs x) (outstanding_aers x) (aer_mask x) (aer_timer x) (dataplane_started x).
Definition set_features v x := mk_NvmeAdm (bar x) (dbs_addr x) (eis_addr x) v (temp_warn_issued x)
  (aer_queue x) (aer_reqs x) (outstanding_aers x) (aer_mask x) (aer_timer x) (dataplane_started x).
Definition set_temp_warn v x := mk_NvmeAdm (bar x) (dbs_addr x) (eis_addr x) (features x) v
  (aer_queue x) (aer_reqs x) (outstanding_aers x) (aer_mask x) (aer_timer x) (dataplane_started x).
Definition set_aer_queue v x := mk_NvmeAdm (bar x) (dbs_addr x) (eis_addr x) (features x) (temp_warn_issued x)
  v (aer_reqs x) (outstanding_aers x) (aer_mask x) (aer_timer x) (dataplane_started x).
Definition set_aer_reqs v k x := mk_NvmeAdm (bar x) (dbs_addr x) (eis_addr x) (features x) (temp_warn_issued x)
  (aer_queue x) v k (aer_mask x) (aer_timer x) (dataplane_started x).
Definition set_aer_mask v x := mk_NvmeAdm (bar x) (dbs_addr x) (eis_addr x) (features x) (temp_warn_issued x)
  (aer_queue x) (aer_reqs x) (outstanding_aers x) v (aer_timer x) (dataplane_started x).
Definition set_aer_timer v x := mk_NvmeAdm (bar x) (dbs_addr x) (eis_addr x) (features x) (temp_warn_issued x)
  (aer_queue x) (aer_reqs x) (outstanding_aers x) (aer_mask x) v (dataplane_started x).
Definition set_dataplane v x := mk_NvmeAdm (bar x) (dbs_addr x) (eis_addr x) (features x) (temp_warn_issued x)
  (aer_queue x) (aer_reqs x) (outstanding_aers x) (aer_mask x) (aer_timer x) v.

Definition upd_adm (f : NvmeAdm -> NvmeAdm) : NM unit := modify (fun n => set_adm (f (adm n)) n).

Section Info.
Context `{Clock} `{Guest} `{Backend}.

(** ** Events *)

(** [timer_mod(n->aer_timer, now + d)] *)
Definition arm_aer_timer (d : Z) : NM unit :=
  now ← on_ssd qemu_clock_ns;
  a ← gets adm;
  _ ← deref (aer_timer a);
  upd_adm (set_aer_timer (Some (now + d))).

(** The new event is linked behind the last one, which may have been freed. *)
Definition nvme_enqueue_event (type info page : Z) : NM unit :=
  a ← gets adm;
  if negb (has (csts (bar a)) NVME_CSTS_READY) then mret tt else
  (match list.last (aer_queue a) with Some None => mcrash UseAfterFree | _ => mret tt end);;
  upd_adm (set_aer_queue (aer_queue a ++ [Some (mk_NvmeAerResult type info page)]));;
  arm_aer_timer 500.

Definition nvme_async_req (req : NvmeRequest) : NM Z :=
  p ← gets params;
  a ← gets adm;
  if aerl p + 1 <? outstanding_aers a then mret NVME_AER_LIMIT_EXCEEDED else
  _ ← idx (aer_reqs a) (outstanding_aers a);
  upd_adm (set_aer_reqs (zset (outstanding_aers a) (Some req) (aer_reqs a)) (outstanding_aers a));;
  arm_aer_timer 500;;
  upd_adm (fun x => set_aer_reqs (aer_reqs x) (u8 (outstanding_aers x + 1)) x);;
  mret NVME_NO_COMPLETE.

(** The loop over the events.  [pos] is the place of the current event, that is
    the number of masked events before it.  The head of the queue is unlinked
    and the current event is freed; they are the same only when [pos] is 0. *)
Fixpoint aer_loop (k : nat) (pos : Z) : NM unit :=
  match k with
  | O => mret tt
  | S k' =>
      a ← gets adm;
      o ← idx (aer_queue a) pos;
      event ← (match o with Some e => mret e | None => mcrash UseAfterFree end);
      if outstanding_aers a <=? 0 then mret tt
      else if has (aer_mask a) (2 ^ event_type event) then aer_loop k' (pos + 1)
      else
        let left := tail (aer_queue a) in
        upd_adm (set_aer_queue (if pos =? 0 then left else zset (pos - 1) None left));;
        upd_adm (set_aer_mask (u8 (Z.lor (aer_mask a) (2 ^ event_type event))));;
        let k := outstanding_aers a - 1 in
        upd_adm (set_aer_reqs (aer_reqs a) k);;
        r ← idx (aer_reqs a) k;
        req ← deref r;
        let result := Z.lor (Z.land (r_result req) (2 ^ 32 - 2 ^ 24))
          (Z.lor (Z.shiftl (log_page event) 16) (Z.lor (Z.shiftl (event_info event) 8) (event_type event))) in
        nvme_enqueue_req_completion 0 (set_status NVME_SUCCESS (set_result result req));;
        aer_loop k' pos
  end.

Definition nvme_aer_process_cb : NM unit :=
  a ← gets adm;
  aer_loop (length (aer_queue a)) 0.

(** ** Identification *)

(** The 4096 bytes of [NvmeIdNs]; [ncap] and [nuse] are equal to [nsze]. *)
Definition id_ns_bytes (q : NvmeParams) (oc : bool) (ns : NvmeNamespace) : memory := fun o =>
  let format := nth (Z.to_nat ((o - 128) / 4)) (lbaf ns) (mk_NvmeLBAF 0 0) in
  if o <? 24 then le_byte (nsze ns) (o mod 8)
  else if o =? 25 then nlbaf ns
  else if o =? 26 then flbas ns
  else if o =? 27 then ns_mc ns
  else if o =? 28 then ns_dpc ns
  else if o =? 29 then ns_dps ns
  else if (128 <=? o) && (o <? 192) then
    if (o - 128) mod 4 <? 2 then le_byte (ms format) ((o - 128) mod 4)
    else if (o - 128) mod 4 =? 2 then ds format else 0
  else if (o =? 384) && (femu_mode q =? FEMU_WHITEBOX_MODE) && oc then 1
  else 0.

Definition nvme_identify (cmd : memory) : NM Z :=
  q ← gets params;
  let cns := cmd_cdw10 cmd in
  let nsid := cmd_nsid cmd in
  if cns =? 1 then nvme_dma_read_prp (id_ctrl q) 4096 (cmd_prp1 cmd) (cmd_prp2 cmd)
  else if negb (cns =? 0) then mret (Z.lor NVME_INVALID_FIELD NVME_DNR)
  else if (nsid =? 0) || (num_namespaces q <? nsid) then mret (Z.lor NVME_INVALID_NSID NVME_DNR)
  else
    l ← gets namespaces;
    ns ← idx l (nsid - 1);
    oc ← gets femu_oc_dev;
    nvme_dma_read_prp (id_ns_bytes q oc ns) 4096 (cmd_prp1 cmd) (cmd_prp2 cmd).

(** ** Features *)

(** The features that are one number. *)
Definition feature_value (f : NvmeFeatureVal) (id : Z) : option Z :=
  if id =? NVME_ARBITRATION then Some (arbitration f)
  else if id =? NVME_POWER_MANAGEMENT then Some (power_mgmt f)
  else if id =? NVME_TEMPERATURE_THRESHOLD then Some (temp_thresh f)
  else if id =? NVME_ERROR_RECOVERY then Some (err_rec f)
  else if id =? NVME_VOLATILE_WRITE_CACHE then Some (volatile_wc f)
  else if id =? NVME_INTERRUPT_COALESCING then Some (int_coalescing f)
  else if id =? NVME_WRITE_ATOMICITY then Some (write_atomicity f)
  else if id =? NVME_ASYNCHRONOUS_EVENT_CONF then Some (async_config f)
  else if id =? NVME_SOFTWARE_PROGRESS_MARKER then Some (sw_prog_marker f)
  else None.

Definition with_feature (id v : Z) (f : NvmeFeatureVal) : NvmeFeatureVal :=
  let pick k x := if id =? k then v else x in
  mk_NvmeFeatureVal (pick NVME_ARBITRATION (arbitration f)) (pick NVME_POWER_MANAGEMENT (power_mgmt f))
    (pick NVME_TEMPERATURE_THRESHOLD (temp_thresh f)) (pick NVME_ERROR_RECOVERY (err_rec f))
    (pick NVME_VOLATILE_WRITE_CACHE (volatile_wc f)) (pick NVME_INTERRUPT_COALESCING (int_coalescing f))
    (int_vector_config f) (pick NVME_WRITE_ATOMICITY (write_atomicity f))
    (pick NVME_ASYNCHRONOUS_EVENT_CONF (async_config f)) (pick NVME_SOFTWARE_PROGRESS_MARKER (sw_prog_marker f)).

Definition with_vectors (l : list Z) (f : NvmeFeatureVal) : NvmeFeatureVal :=
  mk_NvmeFeatureVal (arbitration f) (power_mgmt f) (temp_thresh f) (err_rec f) (volatile_wc f)
    (int_coalescing f) l (write_atomicity f) (async_config f) (sw_prog_marker f).

(** Both halves of the answer are [num_io_queues - 1]. *)
Definition queue_numbers (q : NvmeParams) : Z :=
  u32 (Z.lor (num_io_queues q - 1) (Z.shiftl (num_io_queues q - 1) 16)).

Definition nvme_get_feature (cmd : memory) (req : NvmeRequest) : NM (Z * NvmeRequest) :=
  q ← gets params;
  a ← gets adm;
  let dw10 := cmd_cdw10 cmd in
  let dw11 := cmd_cdw11 cmd in
  let nsid := cmd_nsid cmd in
  if dw10 =? NVME_LBA_RANGE_TYPE then
    if (nsid =? 0) || (num_namespaces q <? nsid) then mret (Z.lor NVME_INVALID_NSID NVME_DNR, req) else
    l ← gets namespaces;
    ns ← idx l (nsid - 1);
    st ← nvme_dma_read_prp (lba_range ns) (Z.min 64 (Z.land dw11 63 * 64)) (cmd_prp1 cmd) (cmd_prp2 cmd);
    mret (st, req)
  else if dw10 =? NVME_NUMBER_OF_QUEUES then mret (NVME_SUCCESS, set_result (queue_numbers q) req)
  else if dw10 =? NVME_INTERRUPT_VECTOR_CONF then
    if num_io_queues q <? Z.land dw11 65535 then mret (Z.lor NVME_INVALID_FIELD NVME_DNR, req) else
    v ← idx (int_vector_config (features a)) (Z.land dw11 65535);
    mret (NVME_SUCCESS, set_result v req)
  else match feature_value (features a) dw10 with
  | Some v => mret (NVME_SUCCESS, set_result v req)
  | None => mret (Z.lor NVME_INVALID_FIELD NVME_DNR, req)
  end.

Definition set_lba_range (v : memory) (ns : NvmeNamespace) : NvmeNamespace :=
  mk_NvmeNamespace (ns_id ns) (nsze ns) (flbas ns) (lbaf ns) (ns_dps ns) (start_block ns) (util ns) (uncorrectable ns)
    (nlbaf ns) (ns_mc ns) (ns_dpc ns) (ns_blks ns) (meta_start_offset ns) v
    (tbl_dsk_start_offset ns) (tbl_entries ns) (tbl ns) (bbtbl ns).

(** The temperature warning is given once, until the threshold is above the
    temperature again and events of this type are wanted. *)
Definition temp_warning (q : NvmeParams) : NM unit :=
  a ← gets adm;
  if (temp_thresh (features a) <=? temperature q) && negb (temp_warn_issued a) then
    upd_adm (set_temp_warn true);;
    nvme_enqueue_event NVME_AER_TYPE_SMART NVME_AER_INFO_SMART_TEMP_THRESH NVME_LOG_SMART_INFO
  else if (temperature q <? temp_thresh (features a)) && negb (has (aer_mask a) (2 ^ NVME_AER_TYPE_SMART)) then
    upd_adm (set_temp_warn false)
  else mret tt.

Definition nvme_set_feature (cmd : memory) (req : NvmeRequest) : NM (Z * NvmeRequest) :=
  q ← gets params;
  a ← gets adm;
  let dw10 := cmd_cdw10 cmd in
  let dw11 := cmd_cdw11 cmd in
  let nsid := cmd_nsid cmd in
  if dw10 =? NVME_LBA_RANGE_TYPE then
    if (nsid =? 0) || (num_namespaces q <? nsid) then mret (Z.lor NVME_INVALID_NSID NVME_DNR, req) else
    l ← gets namespaces;
    ns ← idx l (nsid - 1);
    let len := Z.min 64 (Z.land dw11 63 * 64) in
    r ← nvme_dma_write_prp (cmd_prp1 cmd) (cmd_prp2 cmd) len;
    match r with
    | None => mret (Z.lor NVME_INVALID_FIELD NVME_DNR, req)
    | Some b =>
        upd_namespace (nsid - 1) (fun ns => set_lba_range (blit (lba_range ns) 0 b 0 len) ns);;
        mret (NVME_SUCCESS, req)
    end
  else if dw10 =? NVME_NUMBER_OF_QUEUES then mret (NVME_SUCCESS, set_result (queue_numbers q) req)
  else if dw10 =? NVME_INTERRUPT_VECTOR_CONF then
    if num_io_queues q <? Z.land dw11 65535 then mret (Z.lor NVME_INVALID_FIELD NVME_DNR, req) else
    let v := int_vector_config (features a) in
    _ ← idx v (Z.land dw11 65535);
    upd_adm (set_features (with_vectors (zset (Z.land dw11 65535) (Z.land dw11 131071) v) (features a)));;
    mret (NVME_SUCCESS, req)
  else match feature_value (features a) dw10 with
  | None => mret (Z.lor NVME_INVALID_FIELD NVME_DNR, req)
  | Some old =>
      upd_adm (set_features (with_feature dw10 dw11 (features a)));;
      (if dw10 =? NVME_TEMPERATURE_THRESHOLD then temp_warning q else mret tt);;
      mret (NVME_SUCCESS, if dw10 =? NVME_ARBITRATION then set_result old req else req)
  end.

(** ** Logs *)

(** The log in a variable that is not initialised goes to the guest. *)
Definition nvme_fw_log_info (cmd : memory) (buf_len : Z) : NM Z :=
  r ← nvme_map_prp (cmd_prp1 cmd) (cmd_prp2 cmd) (Z.min 512 buf_len);
  match r with
  | None => mret (Z.lor NVME_INVALID_FIELD NVME_DNR)
  | Some l => if buf_len =? 0 then mret NVME_SUCCESS else mcrash Uninitialised
  end.

(** The entries of 64 bytes. *)
Definition error_log_bytes (l : list NvmeErrorLog) : memory := fun o =>
  let e := nth (Z.to_nat (o / 64)) l (mk_NvmeErrorLog 0 0 0 0 0 0 0) in
  let k := o mod 64 in
  if k <? 8 then le_byte (el_error_count e) k
  else if k <? 10 then le_byte (el_sqid e) (k - 8)
  else if k <? 12 then le_byte (el_cid e) (k - 10)
  else if k <? 14 then le_byte (el_status_field e) (k - 12)
  else if k <? 16 then le_byte (el_param_error_location e) (k - 14)
  else if k <? 24 then le_byte (el_lba e) (k - 16)
  else if k <? 28 then le_byte (el_nsid e) (k - 24)
  else 0.

(** Reading a log makes events of its type possible again. *)
Definition unmask_events (type d : Z) : NM unit :=
  upd_adm (fun x => set_aer_mask (Z.land (aer_mask x) (255 - 2 ^ type)) x);;
  a ← gets adm;
  if bool_decide (aer_queue a = []) then mret tt else arm_aer_timer d.

Definition nvme_error_log_info (cmd : memory) (buf_len : Z) : NM Z :=
  q ← gets params;
  unmask_events NVME_AER_TYPE_ERROR 20000;;
  l ← gets elpes;
  nvme_dma_read_prp (error_log_bytes l) (Z.min (64 * elpe q) buf_len) (cmd_prp1 cmd) (cmd_prp2 cmd).

(** The 512 bytes of [NvmeSmartLog]; [available_spare] is 0. *)
Definition smart_bytes (q : NvmeParams) (f : NvmeFeatureVal) (errors : Z) : memory := fun o =>
  let '(rb, wb, ro, wo) := blk_stats in
  if o =? 0 then Z.lor 1 (if temp_thresh f <=? temperature q then 2 else 0)
  else if o <? 3 then le_byte (temperature q) (o - 1)
  else if o =? 4 then NVME_SPARE_THRESHOLD
  else if (32 <=? o) && (o <? 40) then le_byte rb (o - 32)
  else if (48 <=? o) && (o <? 56) then le_byte wb (o - 48)
  else if (64 <=? o) && (o <? 72) then le_byte ro (o - 64)
  else if (80 <=? o) && (o <? 88) then le_byte wo (o - 80)
  else if (128 <=? o) && (o <? 136) then le_byte (running_time / 60 / 60) (o - 128)
  else if (176 <=? o) && (o <? 184) then le_byte errors (o - 176)
  else 0.

Definition nvme_smart_info (cmd : memory) (buf_len : Z) : NM Z :=
  q ← gets params;
  a ← gets adm;
  errors ← gets num_errors;
  unmask_events NVME_AER_TYPE_SMART 500;;
  nvme_dma_read_prp (smart_bytes q (features a) errors) (Z.min 512 buf_len) (cmd_prp1 cmd) (cmd_prp2 cmd).

Definition nvme_get_log (cmd : memory) : NM Z :=
  let dw10 := cmd_cdw10 cmd in
  let lid := Z.land dw10 65535 in
  let len := Z.shiftl (Z.land (Z.shiftr dw10 16) 255) 2 in
  if lid =? NVME_LOG_ERROR_INFO then nvme_error_log_info cmd len
  else if lid =? NVME_LOG_SMART_INFO then nvme_smart_info cmd len
  else if lid =? NVME_LOG_FW_SLOT_INFO then nvme_fw_log_info cmd len
  else mret (Z.lor NVME_INVALID_LOG_ID NVME_DNR).

(** ** Formatting *)

Definition calc_ns_blks (ns : NvmeNamespace) (lba_idx : Z) : NM Z :=
  q ← gets params;
  f ← idx (lbaf ns) lba_idx;
  if 31 <=? ds f then mcrash BadShift else
  let lba_sz := u32 (u32 (2 ^ ds f) + n_meta q) in
  if lba_sz =? 0 then mcrash DivByZero else mret (ns_size q / lba_sz).

Definition ns_bdrv_blks (ns : NvmeNamespace) (blks lba_idx : Z) : NM Z :=
  f ← idx (lbaf ns) lba_idx;
  if (ds f <? BDRV_SECTOR_BITS) || (64 + BDRV_SECTOR_BITS <=? ds f) then mcrash BadShift
  else mret (u64 (Z.shiftl blks (ds f - BDRV_SECTOR_BITS))).

(** The size, the bitmaps and the table of logical pages follow from the number
    of blocks. *)
Definition nvme_partition_ns (ns : NvmeNamespace) (lba_idx : Z) : NM NvmeNamespace :=
  q ← gets params;
  oc ← gets femu_oc_dev;
  hybrid ← gets femu_oc_hybrid_dev;
  let blks := ns_blks ns in
  bdrv_blks ← ns_bdrv_blks ns blks lba_idx;
  let start := u64 (Z.shiftl (start_block ns + bdrv_blks) BDRV_SECTOR_BITS) in
  let ns := if (femu_mode q =? FEMU_WHITEBOX_MODE) && oc && hybrid
            then ns_with_tbl start (u32 blks) (Some (femu_oc_tbl_initialize (u32 blks))) ns
            else ns_with_tbl (tbl_dsk_start_offset ns) 0 None ns in
  mret (mk_NvmeNamespace (ns_id ns) blks (flbas ns) (lbaf ns) (ns_dps ns) (start_block ns)
    (fun _ => false) (fun _ => false) (nlbaf ns) (ns_mc ns) (ns_dpc ns) blks
    (u64 (start + femu_oc_tbl_size ns)) (lba_range ns) (tbl_dsk_start_offset ns) (tbl_entries ns) (tbl ns) (bbtbl ns)).

Definition set_format (f d b : Z) (ns : NvmeNamespace) : NvmeNamespace :=
  mk_NvmeNamespace (ns_id ns) (nsze ns) f (lbaf ns) d (start_block ns) (util ns) (uncorrectable ns)
    (nlbaf ns) (ns_mc ns) (ns_dpc ns) b (meta_start_offset ns) (lba_range ns)
    (tbl_dsk_start_offset ns) (tbl_entries ns) (tbl ns) (bbtbl ns).

Definition format_allowed (ns : NvmeNamespace) (ms lba_idx meta_loc pil pi : Z) : bool :=
  (lba_idx <=? nlbaf ns)
  && ((pi =? 0)
      || ((if pil =? 0 then has (ns_dpc ns) 8 else has (ns_dpc ns) 16)
          && has (Z.land (ns_dpc ns) 7) (2 ^ (pi - 1))))
  && ((ms =? 0) || (if meta_loc =? 0 then has (ns_mc ns) 2 else has (ns_mc ns) 1)).

(** The namespace at place [i]. *)
Definition nvme_format_namespace (i lba_idx meta_loc pil pi : Z) : NM Z :=
  l ← gets namespaces;
  ns ← idx l i;
  f ← idx (lbaf ns) lba_idx;
  if negb (format_allowed ns (ms f) lba_idx meta_loc pil pi) then mret (Z.lor NVME_INVALID_FORMAT NVME_DNR) else
  b ← calc_ns_blks ns lba_idx;
  ns ← nvme_partition_ns (set_format (Z.lor lba_idx meta_loc) (Z.lor pil pi) b ns) lba_idx;
  modify (fun n => set_namespaces (zset i ns (namespaces n)) n);;
  mret NVME_SUCCESS.

Definition nvme_format (cmd : memory) : NM Z :=
  q ← gets params;
  let dw10 := cmd_cdw10 cmd in
  let nsid := cmd_nsid cmd in
  let format i := nvme_format_namespace i (Z.land dw10 15) (Z.land dw10 16)
    (Z.land (Z.shiftr dw10 5) 8) (Z.land (Z.shiftr dw10 5) 7) in
  if nsid =? 2 ^ 32 - 1 then
    r ← mfor_ret (Z.to_nat (num_namespaces q)) 0
          (fun i => st ← format i; mret (if st =? NVME_SUCCESS then None else Some st));
    mret (default NVME_SUCCESS r)
  else if (nsid =? 0) || (num_namespaces q <? nsid) then mret (Z.lor NVME_INVALID_NSID NVME_DNR)
  else format (nsid - 1).

End Info.
