(* ===== verification/NvmeAdmin.v ===== *)
(** * The admin queue and the registers of the NVMe front end: hw/block/nvme.c

    Creation and deletion of queues, aborted commands, the doorbells and their
    copy in guest memory, the admin queue, and the start and the reset of the
    controller. *)

From Stdlib Require Import ZArith Lia List.
From stdpp Require Import base tactics numbers list functions.
From S2P Require Import Prelude Config State Timing Ftl Ssd Nvme NvmeOc NvmeQueue NvmeInfo.

Open Scope Z_scope.

Definition NVME_ADM_CMD_DELETE_SQ : Z := 0.
Definition NVME_ADM_CMD_CREATE_SQ : Z := 1.
Definition NVME_ADM_CMD_GET_LOG_PAGE : Z := 2.
Definition NVME_ADM_CMD_DELETE_CQ : Z := 4.
Definition NVME_ADM_CMD_CREATE_CQ : Z := 5.
Definition NVME_ADM_CMD_IDENTIFY : Z := 6.
Definition NVME_ADM_CMD_ABORT : Z := 8.
Definition NVME_ADM_CMD_SET_FEATURES : Z := 9.
Definition NVME_ADM_CMD_GET_FEATURES : Z := 10.
Definition NVME_ADM_CMD_ASYNC_EV_REQ : Z := 12.
Definition NVME_ADM_CMD_REMAP : Z := 60.
Definition NVME_ADM_CMD_SET_DB_MEMORY : Z := 124.
Definition NVME_ADM_CMD_FORMAT_NVM : Z := 128.
Definition NVME_ADM_CMD_FEMU_DEBUG : Z := 238.
Definition FEMU_OC_ADM_CMD_IDENTITY : Z := 226.
Definition FEMU_OC_ADM_CMD_GET_L2P_TBL : Z := 234.
Definition FEMU_OC_ADM_CMD_SET_BB_TBL : Z := 241.
Definition FEMU_OC_ADM_CMD_GET_BB_TBL : Z := 242.

Definition NVME_CMD_ABORT_REQ : Z := 7.
Definition NVME_INVALID_CQID : Z := 256.
Definition NVME_INVALID_QID : Z := 257.
Definition NVME_MAX_QSIZE_EXCEEDED : Z := 258.
Definition NVME_INVALID_IRQ_VECTOR : Z := 264.
Definition NVME_INVALID_QUEUE_DEL : Z := 268.
Definition NVME_AER_INFO_ERR_INVALID_SQ : Z := 0.
Definition NVME_AER_INFO_ERR_INVALID_DB : Z := 1.
Definition NVME_OACS_FORMAT : Z := 2.
Definition NVME_CSTS_FAILED : Z := 2.
Definition NVME_CSTS_SHST_COMPLETE : Z := 8.

Definition NVME_CAP_MQES (cap : Z) : Z := Z.land cap 65535.
Definition NVME_CAP_CQR (cap : Z) : Z := Z.land (Z.shiftr cap 16) 1.
Definition NVME_CAP_MPSMIN (cap : Z) : Z := Z.land (Z.shiftr cap 48) 15.
Definition NVME_CAP_MPSMAX (cap : Z) : Z := Z.land (Z.shiftr cap 52) 15.
Definition NVME_CC_EN (cc : Z) : Z := Z.land cc 1.
Definition NVME_CC_MPS (cc : Z) : Z := Z.land (Z.shiftr cc 7) 15.
Definition NVME_CC_SHN (cc : Z) : Z := Z.land (Z.shiftr cc 14) 3.
Definition NVME_CC_IOSQES (cc : Z) : Z := Z.land (Z.shiftr cc 16) 15.
Definition NVME_CC_IOCQES (cc : Z) : Z := Z.land (Z.shiftr cc 20) 15.
Definition NVME_AQA_ASQS (aqa : Z) : Z := Z.land aqa 4095.
Definition NVME_AQA_ACQS (aqa : Z) : Z := Z.land (Z.shiftr aqa 16) 4095.

(** The fields of [NvmeCreateSq], [NvmeCreateCq] and [NvmeDeleteQ]. *)
Definition cmd_qid (cmd : memory) : Z := le cmd 40 2.
Definition cmd_qsize (cmd : memory) : Z := le cmd 42 2.
Definition cmd_qflags (cmd : memory) : Z := le cmd 44 2.
Definition cmd_link (cmd : memory) : Z := le cmd 46 2.

Definition sq_with_db a x := mk_NvmeSQueue (sqid x) (s_cqid x) (arb_burst x) (s_head x) (s_tail x)
  (s_size x) (s_contig x) (s_dma_addr x) (s_prp_list x) (completed x) (s_req_list x)
  (out_req_list x) a (s_timer x).
Definition sq_with_timer t x := mk_NvmeSQueue (sqid x) (s_cqid x) (arb_burst x) (s_head x) (s_tail x)
  (s_size x) (s_contig x) (s_dma_addr x) (s_prp_list x) (completed x) (s_req_list x)
  (out_req_list x) (s_db_addr x) t.
Definition cq_with_db a x := mk_NvmeCQueue (cqid x) (phase x) (c_head x) (c_tail x) (c_size x)
  (c_contig x) (c_dma_addr x) (c_prp_list x) (c_req_list x) a (c_timer x) (c_sq_list x).
Definition cq_with_sqs l x := mk_NvmeCQueue (cqid x) (phase x) (c_head x) (c_tail x) (c_size x)
  (c_contig x) (c_dma_addr x) (c_prp_list x) (c_req_list x) (c_db_addr x) (c_timer x) l.

(** ** Which queues exist *)

Definition is_set {A} (o : option A) : bool := match o with Some _ => true | None => false end.

(** The callers pass numbers of 16 bits. *)
Definition nvme_check_sqid (q : Z) : NM bool :=
  p ← gets params;
  if u16 q <=? num_io_queues p then l ← gets sqs; o ← idx l (u16 q); mret (is_set o) else mret false.

Definition nvme_check_cqid (q : Z) : NM bool :=
  p ← gets params;
  if u16 q <=? num_io_queues p then l ← gets cqs; o ← idx l (u16 q); mret (is_set o) else mret false.

(** [n->sq[q] = o] and [n->cq[q] = o] *)
Definition store_sq (q : Z) (o : option NvmeSQueue) : NM unit :=
  l ← gets sqs; _ ← idx l q; modify (set_sqs (zset q o l)).
Definition store_cq (q : Z) (o : option NvmeCQueue) : NM unit :=
  l ← gets cqs; _ ← idx l q; modify (set_cqs (zset q o l)).

Section Admin.
Context `{Clock} `{Guest} `{Backend}.

(** ** Creation *)

(** The list of pages of a queue that is not contiguous.  The pages of the
    guest's list are to be read into [prp], but [nvme_addr_write] is called:
    the uninitialised array goes to the guest and is then taken for the list.
    A list of no pages is a null pointer, like the failure. *)
Definition nvme_setup_discontig (prp_addr queue_depth entry_size : Z) : NM (option (list Z)) :=
  p ← gets params;
  let ps := page_size p in
  if ps <? 8 then mcrash DivByZero else
  let total_prps := u16 ((queue_depth * entry_size + ps - 1) / ps) in
  if total_prps =? 0 then mret None
  else if (1 <? total_prps) && prp_bad ps prp_addr then mret None
  else mcrash Uninitialised.

(** The entry of queue [i] among the doorbells in guest memory. *)
Definition doorbell (base i : Z) : NM Z :=
  p ← gets params;
  mret (u64 (base + i * 2 ^ (2 + db_stride p))).

Definition arb_of (prio arb : Z) : Z :=
  if prio =? 0 then u8 (2 ^ Z.land arb 7)
  else if prio =? 1 then u8 (Z.land (Z.shiftr arb 24) 255 + 1)
  else if prio =? 2 then u8 (Z.land (Z.shiftr arb 16) 255 + 1)
  else u8 (Z.land (Z.shiftr arb 8) 255 + 1).

Definition new_req (q i : Z) : NvmeRequest := mk_NvmeRequest i q 0 0 0 0 false 0 0 0 [] None 0.

(** [None] is the error status. *)
Definition nvme_init_sq (dma_addr q c size prio : Z) (contig : bool) : NM (option unit) :=
  p ← gets params;
  a ← gets adm;
  list ← (if contig then mret (Some []) else nvme_setup_discontig dma_addr size (sqe_size p));
  match list with
  | None => mret None
  | Some prp_list =>
      db ← (if negb (q =? 0) && negb (dbs_addr a =? 0) && negb (eis_addr a =? 0)
            then doorbell (dbs_addr a) (2 * q) else mret 0);
      l ← gets cqs;
      o ← idx l c;
      cq ← (match o with Some cq => mret cq | None => mcrash ProcessExit end);
      put_cq c (cq_with_sqs (c_sq_list cq ++ [q]) cq);;
      t ← (if q =? 0 then mret 0 else now ← on_ssd qemu_clock_ns; mret (now + 1000000));
      store_sq q (Some (mk_NvmeSQueue q c (arb_of prio (arbitration (features a))) 0 0 size contig
        (if contig then dma_addr else 0) prp_list 0 (new_req q <$> seqZ 0 size) [] db t));;
      mret (Some tt)
  end.

Definition nvme_create_sq (cmd : memory) : NM Z :=
  p ← gets params;
  let c := cmd_link cmd in
  let q := cmd_qid cmd in
  let prp1 := cmd_prp1 cmd in
  cq_exists ← nvme_check_cqid c;
  if (c =? 0) || negb cq_exists then mret (Z.lor NVME_INVALID_CQID NVME_DNR) else
  sq_exists ← nvme_check_sqid q;
  if (q =? 0) || sq_exists then mret (Z.lor NVME_INVALID_QID NVME_DNR)
  else if (cmd_qsize cmd =? 0) || (NVME_CAP_MQES (cap p) <? cmd_qsize cmd)
  then mret (Z.lor NVME_MAX_QSIZE_EXCEEDED NVME_DNR)
  else if prp_bad (page_size p) prp1 then mret (Z.lor NVME_INVALID_FIELD NVME_DNR)
  else if negb (has (cmd_qflags cmd) 1) && negb (NVME_CAP_CQR (cap p) =? 0) then mret (Z.lor NVME_INVALID_FIELD NVME_DNR)
  else
    r ← nvme_init_sq prp1 q c (u16 (cmd_qsize cmd + 1)) (Z.land (Z.shiftr (cmd_qflags cmd) 1) 3)
          (has (cmd_qflags cmd) 1);
    mret (if is_set r then NVME_SUCCESS else Z.lor NVME_INVALID_FIELD NVME_DNR).

Definition nvme_init_cq (dma_addr c size : Z) (contig : bool) : NM (option unit) :=
  p ← gets params;
  a ← gets adm;
  list ← (if contig then mret (Some []) else nvme_setup_discontig dma_addr size (cqe_size p));
  match list with
  | None => mret None
  | Some prp_list =>
      db ← (if negb (c =? 0) && negb (dbs_addr a =? 0) && negb (eis_addr a =? 0)
            then doorbell (dbs_addr a) (2 * c + 1) else mret 0);
      l ← gets cqs;
      _ ← idx l c;
      t ← (if c =? 0 then mret 0 else now ← on_ssd qemu_clock_ns; mret (now + 200000));
      store_cq c (Some (mk_NvmeCQueue c 1 0 0 size contig (if contig then dma_addr else 0) prp_list
        [] db t []));;
      mret (Some tt)
  end.

(** A failure to set up the interrupt returns -1, which is the value of
    [NVME_NO_COMPLETE]. *)
Definition nvme_create_cq (cmd : memory) : NM Z :=
  p ← gets params;
  let c := cmd_qid cmd in
  let vector := cmd_link cmd in
  cq_exists ← nvme_check_cqid c;
  if (c =? 0) || cq_exists then mret (Z.lor NVME_INVALID_CQID NVME_DNR)
  else if (cmd_qsize cmd =? 0) || (NVME_CAP_MQES (cap p) <? cmd_qsize cmd)
  then mret (Z.lor NVME_MAX_QSIZE_EXCEEDED NVME_DNR)
  else if cmd_prp1 cmd =? 0 then mret (Z.lor NVME_INVALID_FIELD NVME_DNR)
  else if num_io_queues p <? vector then mret (Z.lor NVME_INVALID_IRQ_VECTOR NVME_DNR)
  else if negb (has (cmd_qflags cmd) 1) && negb (NVME_CAP_CQR (cap p) =? 0) then mret (Z.lor NVME_INVALID_FIELD NVME_DNR)
  else
    l ← gets cqs;
    o ← idx l c;
    (if is_set o then store_cq c None else mret tt);;
    r ← nvme_init_cq (cmd_prp1 cmd) c (u16 (cmd_qsize cmd + 1)) (has (cmd_qflags cmd) 1);
    mret (if negb (is_set r) then Z.lor NVME_INVALID_FIELD NVME_DNR
          else if has (Z.shiftr (cmd_qflags cmd) 1) 1 && negb (irq_setup_ok c vector) then 65535
          else NVME_SUCCESS).

(** ** Deletion *)

(** Requests handed to the block layer are cancelled; the callback has run
    when the cancellation returns. *)
Fixpoint cancel_all (l : list NvmeRequest) : NM unit :=
  match l with
  | [] => mret tt
  | req :: l' =>
      (if is_set (aiocb req) then nvme_misc_cb req (blk_aio_cancel_ok req) else mret tt);;
      cancel_all l'
  end.

(** [nvme_post_cqes]: like the timer's function, with another period. *)
Definition nvme_post_cqes (q : Z) : NM unit :=
  cq ← get_cq q;
  ntt ← post_loop q (c_req_list cq);
  t ← (if ntt =? 0 then now ← on_ssd qemu_clock_ns; mret (now + 8000) else mret ntt);
  cq ← get_cq q;
  put_cq q (cq_with_timer t cq).

Definition nvme_del_sq (cmd : memory) : NM Z :=
  let q := cmd_qid cmd in
  sq_exists ← nvme_check_sqid q;
  if (q =? 0) || negb sq_exists then mret (Z.lor NVME_INVALID_QID NVME_DNR) else
  sq ← get_sq q;
  cancel_all (out_req_list sq);;
  let c := s_cqid sq in
  cq_exists ← nvme_check_cqid c;
  (if cq_exists : bool then
     cq ← get_cq c;
     put_cq c (cq_with_sqs (filter (fun k => k <> q) (c_sq_list cq)) cq);;
     nvme_post_cqes c;;
     cq ← get_cq c;
     sq ← get_sq q;
     put_cq c (cq_with_reqs (of_others q (c_req_list cq)) cq);;
     put_sq q (sq_with_reqs (s_req_list sq ++ of_sq q (c_req_list cq)) (out_req_list sq) sq)
   else mret tt);;
  store_sq q None;;
  mret NVME_SUCCESS.

Definition nvme_del_cq (cmd : memory) : NM Z :=
  let c := cmd_qid cmd in
  cq_exists ← nvme_check_cqid c;
  if (c =? 0) || negb cq_exists then mret (Z.lor NVME_INVALID_CQID NVME_DNR) else
  cq ← get_cq c;
  if negb (bool_decide (c_sq_list cq = [])) then mret NVME_INVALID_QUEUE_DEL else
  store_cq c None;;
  mret NVME_SUCCESS.

(** ** Doorbells in guest memory *)

Definition set_db_memory_one (d i : Z) : NM unit :=
  l ← gets sqs; o ← idx l i;
  l' ← gets cqs; o' ← idx l' i;
  a ← doorbell d (2 * i);
  a' ← doorbell d (2 * i + 1);
  (match o with Some sq => put_sq i (sq_with_db a sq) | None => mret tt end);;
  (match o' with Some cq => put_cq i (cq_with_db a' cq) | None => mret tt end).

(** The buffers for event indices are not used. *)
Definition nvme_set_db_memory (cmd : memory) : NM Z :=
  p ← gets params;
  let d := cmd_prp1 cmd in
  let e := cmd_prp2 cmd in
  if prp_bad (page_size p) d || prp_bad (page_size p) e then mret (Z.lor NVME_INVALID_FIELD NVME_DNR) else
  upd_adm (set_dbs d e);;
  mfor (Z.to_nat (num_io_queues p)) 1 (set_db_memory_one d);;
  upd_adm (set_dataplane true);;
  mret NVME_SUCCESS.

(** ** Aborted commands *)

(** The commands between head and tail, from [index] on.  A tail outside the
    ring is never reached. *)
Fixpoint abort_loop (k : nat) (q cid index : Z) : NM bool :=
  sq ← get_sq q;
  if s_size sq =? 0 then mcrash DivByZero else
  let pos := u32 (s_head sq + index) mod s_size sq in
  if pos =? s_tail sq then mret false else
  match k with
  | O => mhang
  | S k' =>
      addr ← sq_entry_addr (sq_with_head pos sq);
      g ← gets guest;
      if cmd_cid (fun o => g (addr + o)) =? cid then
        req ← deref (hd_error (s_req_list sq));
        let req := set_status NVME_CMD_ABORT_REQ
          (mk_NvmeRequest (r_id req) (r_sqid req) (cmd_opcode req) cid (status req) (r_slba req) (is_write req)
             (r_nlb req) (expire_time req) (data_offset req) (qsg req) (aiocb req) 0) in
        put_sq q (sq_with_reqs (tail (s_req_list sq)) (out_req_list sq ++ [req]) sq);;
        modify (fun n => set_guest (blit (guest n) addr (fun _ => NVME_OP_ABORTED) 0 1) n);;
        nvme_enqueue_req_completion (s_cqid sq) req;;
        mret true
      else abort_loop k' q cid (index + 1)
  end.

(** The result is the value for the completion entry: 0 when a command was
    aborted. *)
Definition nvme_abort_req (cmd : memory) : NM Z :=
  let q := Z.land (cmd_cdw10 cmd) 65535 in
  let cid := Z.land (Z.shiftr (cmd_cdw10 cmd) 16) 65535 in
  sq_exists ← nvme_check_sqid q;
  if negb sq_exists then mret 1 else
  sq ← get_sq q;
  match list_find (fun r => is_set (aiocb r) = true /\ r_cid r = cid)
          (if sqid sq =? 0 then [] else out_req_list sq) with
  | Some (_, req) => nvme_misc_cb req (blk_aio_cancel_ok req);; mret 0
  | None => found ← abort_loop (Z.to_nat (s_size sq)) q cid 0; mret (if found : bool then 0 else 1)
  end.

(** ** The admin queue *)

(** [FEMU_DEBUG] sets the latencies of the open-channel mode. *)
Definition nvme_admin_cmd (cmd : memory) (req : NvmeRequest) : NM (Z * NvmeRequest) :=
  p ← gets params;
  let op := cmd_op cmd in
  let plain m := st ← m; mret (st, req) in
  if op =? NVME_ADM_CMD_REMAP then plain (nvme_remap cmd)
  else if op =? NVME_ADM_CMD_FEMU_DEBUG then
    upd_ocg (ocg_with_latencies (le cmd 40 4) (le cmd 44 4) (le cmd 48 4) (le cmd 52 4) (le cmd 56 4) (le cmd 60 4));;
    mret (NVME_SUCCESS, req)
  else if op =? NVME_ADM_CMD_DELETE_SQ then plain (nvme_del_sq cmd)
  else if op =? NVME_ADM_CMD_CREATE_SQ then plain (nvme_create_sq cmd)
  else if op =? NVME_ADM_CMD_DELETE_CQ then plain (nvme_del_cq cmd)
  else if op =? NVME_ADM_CMD_CREATE_CQ then plain (nvme_create_cq cmd)
  else if op =? NVME_ADM_CMD_IDENTIFY then plain (nvme_identify cmd)
  else if op =? NVME_ADM_CMD_SET_FEATURES then nvme_set_feature cmd req
  else if op =? NVME_ADM_CMD_GET_FEATURES then nvme_get_feature cmd req
  else if op =? NVME_ADM_CMD_GET_LOG_PAGE then plain (nvme_get_log cmd)
  else if op =? NVME_ADM_CMD_ASYNC_EV_REQ then plain (nvme_async_req req)
  else if op =? NVME_ADM_CMD_ABORT then
    v ← nvme_abort_req cmd; mret (NVME_SUCCESS, set_result v req)
  else if op =? NVME_ADM_CMD_FORMAT_NVM then
    if has NVME_OACS_FORMAT (oacs p) then plain (nvme_format cmd)
    else mret (Z.lor NVME_INVALID_OPCODE NVME_DNR, req)
  else if op =? NVME_ADM_CMD_SET_DB_MEMORY then plain (nvme_set_db_memory cmd)
  else if op =? FEMU_OC_ADM_CMD_IDENTITY then plain (femu_oc_identity cmd)
  else if op =? FEMU_OC_ADM_CMD_GET_L2P_TBL then plain (femu_oc_get_l2p_tbl cmd req)
  else if op =? FEMU_OC_ADM_CMD_GET_BB_TBL then plain (femu_oc_bbt_get cmd req)
  else if op =? FEMU_OC_ADM_CMD_SET_BB_TBL then plain (femu_oc_bbt_set cmd req)
  else mret (Z.lor NVME_INVALID_OPCODE NVME_DNR, req).

Definition nvme_enqueue_req_completion_admin (q : Z) (req : NvmeRequest) : NM unit :=
  nvme_enqueue_req_completion q req.

(** The loop of [nvme_process_sq_admin]; [c] is the completion queue. *)
Fixpoint admin_loop (k : nat) (q c processed : Z) : NM Z :=
  sq ← get_sq q;
  match s_req_list sq with
  | req :: reqs =>
      if nvme_sq_empty sq then mret processed else
      match k with
      | O => mret (processed + 1)
      | S k' =>
          addr ← sq_entry_addr sq;
          g ← gets guest;
          let cmd : memory := fun o => g (addr + o) in
          sq ← nvme_inc_sq_head sq;
          if cmd_op cmd =? NVME_OP_ABORTED then put_sq q sq;; admin_loop k' q c (processed + 1) else
          let req := start_req cmd req in
          put_sq q (sq_with_reqs reqs (out_req_list sq ++ [req]) sq);;
          cq ← get_cq c;
          if negb ((cqid cq =? s_cqid sq) && (sqid sq =? 0)) then mcrash ProcessExit else
          r ← nvme_admin_cmd cmd req;
          (if r.1 =? NVME_NO_COMPLETE then keep_req q r.2
           else nvme_enqueue_req_completion_admin c (set_status r.1 r.2));;
          admin_loop k' q c (processed + 1)
      end
  | [] => mret processed
  end.

Definition nvme_process_sq_admin (q : Z) : NM unit :=
  sq ← get_sq q;
  nvme_update_sq_tail q;;
  processed ← admin_loop (Z.to_nat (arb_burst sq)) q (s_cqid sq) 0;
  sq ← get_sq q;
  put_sq q (sq_with_done (u64 (completed sq + processed)) (s_timer sq) sq).

Fixpoint post_all (q : Z) (l : list NvmeRequest) : NM unit :=
  match l with
  | [] => mret tt
  | req :: l' =>
      full ← nvme_cq_full q;
      if (full : bool) then mret tt else
      cq ← get_cq q;
      put_cq q (cq_with_reqs l' cq);;
      nvme_post_cqe q req;;
      post_all q l'
  end.

Definition nvme_post_cqes_admin (q : Z) : NM unit :=
  cq ← get_cq q;
  post_all q (c_req_list cq).

(** A timer that fires is not pending any more. *)
Definition sq_timer_fires (q : Z) : NM unit :=
  sq ← get_sq q; put_sq q (sq_with_timer 0 sq).

(** ** Doorbells *)

Definition invalid_doorbell (info : Z) : NM unit :=
  nvme_enqueue_event NVME_AER_TYPE_ERROR info NVME_LOG_ERROR_INFO.

Definition kick_sq (q : Z) : NM unit :=
  sq ← get_sq q;
  if (s_timer sq =? 0) && (sqid sq =? 0) then
    now ← on_ssd qemu_clock_ns; put_sq q (sq_with_timer (now + 500) sq)
  else mret tt.

Fixpoint kick_sqs (l : list Z) : NM unit :=
  match l with
  | [] => mret tt
  | q :: l' => kick_sq q;; kick_sqs l'
  end.

(** The number of the queue is of 32 bits, the check takes 16. *)
Definition nvme_process_db (addr val : Z) : NM unit :=
  p ← gets params;
  let new_val := Z.land val 65535 in
  let w := 2 + db_stride p in
  if has addr (2 ^ w - 1) then invalid_doorbell NVME_AER_INFO_ERR_INVALID_DB
  else if has (Z.shiftr (u64 (addr - 4096)) w) 1 then
    let q := u32 (Z.shiftr (u64 (addr - (4096 + 2 ^ w))) (w + 1)) in
    cq_exists ← nvme_check_cqid q;
    if negb cq_exists then invalid_doorbell NVME_AER_INFO_ERR_INVALID_DB else
    cq ← get_cq q;
    if c_size cq <=? new_val then invalid_doorbell NVME_AER_INFO_ERR_INVALID_DB else
    start_sqs ← nvme_cq_full q;
    cq ← get_cq q;
    (if c_db_addr cq =? 0 then put_cq q (cq_with_head new_val cq) else mret tt);;
    if (start_sqs : bool) then
      kick_sqs (c_sq_list cq);;
      cq ← get_cq q;
      if cqid cq =? 0 then now ← on_ssd qemu_clock_ns; put_cq q (cq_with_timer (now + 500) cq) else mret tt
    else mret tt
  else
    let q := u32 (Z.shiftr (u64 (addr - 4096)) (w + 1)) in
    sq_exists ← nvme_check_sqid q;
    if negb sq_exists then invalid_doorbell NVME_AER_INFO_ERR_INVALID_SQ else
    sq ← get_sq q;
    if s_size sq <=? new_val then invalid_doorbell NVME_AER_INFO_ERR_INVALID_DB else
    (if s_db_addr sq =? 0 then put_sq q (sq_with_tail new_val sq) else mret tt);;
    kick_sq q.

(** ** Start and reset *)

Definition with_sizes (pb ps ents cqe sqe : Z) (p : NvmeParams) : NvmeParams :=
  mk_NvmeParams (num_namespaces p) (mdts p) pb ps ents sqe cqe (oncs p) (vwc p) (femu_mode p)
    (elpe p) (heap_size p) (num_io_queues p) (db_stride p) (aerl p) (cap p) (oacs p) (n_meta p) (ns_size p)
    (temperature p) (id_ctrl p).
Definition bar_cc v b := mk_NvmeBar (intms b) (intmc b) v (csts b) (aqa b) (asq b) (acq b).
Definition bar_csts v b := mk_NvmeBar (intms b) (intmc b) (cc b) v (aqa b) (asq b) (acq b).
Definition bar_int v b := mk_NvmeBar v v (cc b) (csts b) (aqa b) (asq b) (acq b).
Definition bar_aqa v b := mk_NvmeBar (intms b) (intmc b) (cc b) (csts b) v (asq b) (acq b).
Definition bar_asq v b := mk_NvmeBar (intms b) (intmc b) (cc b) (csts b) (aqa b) v (acq b).
Definition bar_acq v b := mk_NvmeBar (intms b) (intmc b) (cc b) (csts b) (aqa b) (asq b) v.
Definition upd_bar (f : NvmeBar -> NvmeBar) : NM unit := upd_adm (fun x => set_bar (f (bar x)) x).

Definition free_sqs (i : Z) : NM unit :=
  l ← gets sqs; o ← idx l i; if is_set o then store_sq i None else mret tt.
Definition free_cqs (i : Z) : NM unit :=
  l ← gets cqs; o ← idx l i; if is_set o then store_cq i None else mret tt.

(** Events that were freed before are freed again.  Requests handed to the
    block layer are not cancelled. *)
Definition nvme_clear_ctrl : NM unit :=
  p ← gets params;
  mfor (Z.to_nat (num_io_queues p + 1)) 0 free_sqs;;
  mfor (Z.to_nat (num_io_queues p + 1)) 0 free_cqs;;
  upd_adm (set_aer_timer None);;
  a ← gets adm;
  (if forallb is_set (aer_queue a) then mret tt else mcrash UseAfterFree);;
  upd_adm (set_aer_queue []);;
  upd_bar (bar_cc 0);;
  upd_adm (set_dataplane false);;
  upd_adm (fun x => set_features (with_feature NVME_TEMPERATURE_THRESHOLD 333 (features x)) x);;
  upd_adm (set_temp_warn false);;
  upd_adm (fun x => set_aer_reqs (aer_reqs x) 0 x).

(** Are the registers and the queues such that the controller can start? *)
Definition start_refused (n : NvmeCtrl) : bool :=
  let p := params n in
  let b := bar (adm n) in
  let page_size := 2 ^ (NVME_CC_MPS (cc b) + 12) in
  let sqes := u8 (id_ctrl p 512) in
  let cqes := u8 (id_ctrl p 513) in
  prp_bad page_size (asq b) || prp_bad page_size (acq b)
  || (NVME_CC_MPS (cc b) <? NVME_CAP_MPSMIN (cap p)) || (NVME_CAP_MPSMAX (cap p) <? NVME_CC_MPS (cc b))
  || (NVME_CC_IOCQES (cc b) <? Z.land cqes 15) || (Z.land (Z.shiftr cqes 4) 15 <? NVME_CC_IOCQES (cc b))
  || (NVME_CC_IOSQES (cc b) <? Z.land sqes 15) || (Z.land (Z.shiftr sqes 4) 15 <? NVME_CC_IOSQES (cc b))
  || (NVME_AQA_ASQS (aqa b) =? 0) || (NVME_AQA_ACQS (aqa b) =? 0).

(** The size of a page is kept in 16 bits. *)
Definition nvme_start_ctrl : NM bool :=
  l ← gets cqs; o ← idx l 0;
  l' ← gets sqs; o' ← idx l' 0;
  refused ← gets start_refused;
  if is_set o || is_set o' || refused then mret false else
  b ← gets (fun n => bar (adm n));
  let page_bits := NVME_CC_MPS (cc b) + 12 in
  let page_size := u16 (2 ^ page_bits) in
  modify (fun n => set_params (with_sizes page_bits page_size (page_size / 8)
    (2 ^ NVME_CC_IOCQES (cc b)) (2 ^ NVME_CC_IOSQES (cc b)) (params n)) n);;
  _ ← nvme_init_cq (acq b) 0 (NVME_AQA_ACQS (aqa b) + 1) true;
  _ ← nvme_init_sq (asq b) 0 0 (NVME_AQA_ASQS (aqa b) + 1) 1 true;
  upd_adm (set_aer_timer (Some 0));;
  upd_adm (set_aer_queue []);;
  mret true.

(** The write to the configuration register. *)
Definition nvme_write_cc (data : Z) : NM unit :=
  b ← gets (fun n => bar (adm n));
  (if negb (NVME_CC_EN data =? 0) && (NVME_CC_EN (cc b) =? 0) then
     upd_bar (bar_cc (u32 data));;
     ok ← nvme_start_ctrl;
     upd_bar (bar_csts (if ok : bool then NVME_CSTS_READY else NVME_CSTS_FAILED))
   else if (NVME_CC_EN data =? 0) && negb (NVME_CC_EN (cc b) =? 0) then
     nvme_clear_ctrl;;
     upd_bar (fun b => bar_csts (Z.land (csts b) (2 ^ 32 - 1 - NVME_CSTS_READY)) b)
   else mret tt);;
  b ← gets (fun n => bar (adm n));
  if negb (NVME_CC_SHN data =? 0) && (NVME_CC_SHN (cc b) =? 0) then
    nvme_clear_ctrl;;
    upd_bar (bar_cc (u32 data));;
    upd_bar (fun b => bar_csts (Z.lor (csts b) NVME_CSTS_SHST_COMPLETE) b)
  else if (NVME_CC_SHN data =? 0) && negb (NVME_CC_SHN (cc b) =? 0) then
    upd_bar (fun b => bar_csts (Z.land (csts b) (2 ^ 32 - 1 - NVME_CSTS_SHST_COMPLETE)) b);;
    upd_bar (bar_cc (u32 data))
  else mret tt.

Definition nvme_write_bar (offset data : Z) : NM unit :=
  if offset =? 12 then upd_bar (fun b => bar_int (Z.lor (intms b) (u32 data)) b)
  else if offset =? 16 then upd_bar (fun b => bar_int (Z.ldiff (intms b) (u32 data)) b)
  else if offset =? 20 then nvme_write_cc data
  else if offset =? 36 then upd_bar (bar_aqa (u32 data))
  else if offset =? 40 then upd_bar (bar_asq data)
  else if offset =? 44 then upd_bar (fun b => bar_asq (Z.lor (asq b) (u64 (Z.shiftl data 32))) b)
  else if offset =? 48 then upd_bar (bar_acq data)
  else if offset =? 52 then upd_bar (fun b => bar_acq (Z.lor (acq b) (u64 (Z.shiftl data 32))) b)
  else mret tt.

(** The registers take 64 bytes. *)
Definition nvme_mmio_write (addr data : Z) : NM unit :=
  if addr <? 64 then nvme_write_bar addr data
  else if 4096 <=? addr then nvme_process_db addr data
  else mret tt.

End Admin.
