(* ===== verification/NvmeLife.v ===== *)
(** * The invariant of the controller

    Everything that happens to the controller keeps it: the timers of all
    queues, the commands of the admin queue, the callbacks of the block layer,
    the guest's stores to memory and to the registers. *)

From Stdlib Require Import ZArith Lia List.
From stdpp Require Import base tactics numbers list functions sets relations.
From S2P Require Import Prelude Config State Timing Ftl Ssd Nvme NvmeOc NvmeQueue NvmeInfo NvmeAdmin.

Open Scope Z_scope.

(** Every submission queue is in the list of its completion queue. *)
Definition linked (n : NvmeCtrl) : Prop := forall k c z,
  sq_id n k = Some (c, z) -> exists id, fst <$> cq_list n c = Some id /\ k ∈ id.2.

(** The requests [a] that wait for an event are different ones among the
    requests [out] the admin queue works on, and none of these was handed to
    the block layer. *)
Record aer_inv (a : Z * list (option NvmeRequest)) (out : list NvmeRequest) : Prop := mk_aer_inv {
  ai_req : forall i, 0 <= i < a.1 -> exists req, zget a.2 i = Some (Some req) /\ r_sqid req = 0 /\
    r_id req ∈ (r_id <$> out);
  ai_dup : forall i j ri rj, 0 <= i < a.1 -> 0 <= j < a.1 -> zget a.2 i = Some (Some ri) ->
    zget a.2 j = Some (Some rj) -> r_id ri = r_id rj -> i = j;
  ai_aio : Forall (fun r => aiocb r = None) out
}.

Record ctrl_ok (n : NvmeCtrl) : Prop := mk_ctrl_ok {
  co_queues : queues_ok n;
  co_linked : linked n;
  co_aers : aer_inv (aers n) (out_list n 0)
}.

(** A change that has nothing to do with the requests of the admin queue. *)
Definition steady (n n' : NvmeCtrl) : Prop := queues_ok n -> linked n ->
  queues_ok n' /\ linked n' /\ aers n' = aers n /\ out_list n' 0 = out_list n 0.

#[global] Instance steady_preorder : PreOrder steady.
Proof.
  split; [by intros n ? ?|]. intros n1 n2 n3 H12 H23 Hq Hl. destruct (H12 Hq Hl) as (Hq2 & Hl2 & A2 & O2).
  destruct (H23 Hq2 Hl2) as (Hq3 & Hl3 & A3 & O3). split_and!; [done|done|congruence..].
Qed.

Lemma steady_ok n n' : steady n n' -> ctrl_ok n -> ctrl_ok n'.
Proof. intros Hs [Hq Hl Ha]. destruct (Hs Hq Hl) as (? & ? & EA & EO). constructor; [done..|]. by rewrite EA, EO. Qed.

Lemma same_ids_linked n n' : same_ids n n' -> linked n -> linked n'.
Proof. intros [Es Ec _ _] Hl k c z. rewrite Es, Ec. apply Hl. Qed.

Lemma conserved_steady (K : Z -> Prop) n n' : ~ K 0 -> conserved K n n' -> steady n n'.
Proof.
  intros HK Hc Hq Hl. destruct (Hc Hq) as (Hq' & Hi & Ho). split_and!; [done|by apply (same_ids_linked n)|exact (si_aers _ _ Hi)|by apply Ho].
Qed.

Lemma tick_steady n n' : tick n n' -> steady n n'.
Proof. intros Ht. apply (conserved_steady (fun _ => False)); [tauto|by apply tick_conserved]. Qed.

Lemma same_queues_steady n n' : same_queues n n' -> steady n n'.
Proof. intros Hs. by apply tick_steady, same_queues_tick. Qed.

(** ** Creation and deletion *)

(** No request of a queue that does not exist waits anywhere. *)
Lemma no_waiting n k c id w : queues_ok n -> sq_lists n k = None -> cq_list n c = Some (id, w) -> of_sq k w = [].
Proof.
  intros Hn Ek Ec. destruct (qo_cq _ Hn _ _ _ Ec) as [_ Hw]. clear Ec. unfold of_sq. induction Hw as [|r w (z & f & o & Er) _ IH]; [done|].
  rewrite filter_cons_False; [done|]. intros E. by rewrite E, Ek in Er.
Qed.

Lemma new_req_ids q z : r_id <$> (new_req q <$> seqZ 0 z) = seqZ 0 z.
Proof. rewrite <- list_fmap_compose. apply list_fmap_id. Qed.

Lemma add_sq n n' q c z i l w :
  sq_lists n q = None -> cq_list n c = Some ((i, l), w) ->
  (forall j, sq_lists n' j = if j =? q then Some (c, z, new_req q <$> seqZ 0 z, []) else sq_lists n j) ->
  (forall j, cq_list n' j = if j =? c then Some ((i, l ++ [q]), w) else cq_list n j) ->
  shape n' = shape n -> aers n' = aers n -> steady n n'.
Proof.
  intros Eq Ec Hs Hc Hsh Ha Hn Hl.
  assert (forall j cj, match cq_list n' cj with Some (_, w) => of_sq j w | None => [] end =
    match cq_list n cj with Some (_, w) => of_sq j w | None => [] end) as Hw.
  { intros j cj. rewrite Hc. destruct (Z.eqb_spec cj c) as [->|]; [by rewrite Ec|done]. }
  split_and!; [constructor| |done|].
  - pose proof (qo_len _ Hn). unfold shape in Hsh. by injection Hsh as -> -> ->.
  - intros j cj zj fj oj Ej. unfold held. rewrite Hs in *. destruct (Z.eqb_spec j q) as [->|].
    + injection Ej as <- <- <- <-. split_and!.
      * rewrite app_nil_r. apply Forall_fmap, list.Forall_forall. by intros x _.
      * rewrite Hc, Z.eqb_refl. by eexists.
      * rewrite Hw, Ec. rewrite (no_waiting n q c (i, l)), !app_nil_r, new_req_ids by done. done.
    + destruct (qo_sq _ Hn _ _ _ _ _ Ej) as (Hf & Hsome & Hh). split_and!; [done| |].
      * rewrite Hc. by destruct (cj =? c).
      * rewrite Ej, Hw. unfold held in Hh. by rewrite Ej in Hh.
  - intros cj idj wj Ej. rewrite Hc in Ej. destruct (qo_cq _ Hn _ _ _ Ec) as [Ei Hwc].
    assert (forall cj wj, Forall (fun r => exists z free out, sq_lists n (r_sqid r) = Some (cj, z, free, out)) wj ->
      Forall (fun r => exists z free out, sq_lists n' (r_sqid r) = Some (cj, z, free, out)) wj) as Hmon.
    { intros c' w' HF. eapply list.Forall_impl; [exact HF|]. cbv beta. intros r (zr & fr & ou & Er). rewrite Hs.
      destruct (Z.eqb_spec (r_sqid r) q) as [E|]; [|eauto]. by rewrite E, Eq in Er. }
    destruct (Z.eqb_spec cj c) as [->|].
    + injection Ej as <- <-. auto.
    + destruct (qo_cq _ Hn _ _ _ Ej). auto.
  - intros j cj zj. unfold sq_id. rewrite Hs. destruct (Z.eqb_spec j q) as [->|].
    + intros [= <- <-]. exists (i, l ++ [q]). rewrite Hc, Z.eqb_refl. split; [done|]. cbn. set_solver.
    + intros Ej. destruct (Hl j cj zj Ej) as (id & Eid & Hin). rewrite Hc. destruct (Z.eqb_spec cj c) as [->|]; [|eauto].
      rewrite Ec in Eid. injection Eid as <-. eexists. split; [done|]. cbn in *. set_solver.
  - unfold out_list. rewrite Hs. destruct (Z.eqb_spec 0 q) as [<-|]; [by rewrite Eq|done].
Qed.

Lemma add_cq n n' c :
  cq_list n c = None -> (forall j, sq_lists n' j = sq_lists n j) ->
  (forall j, cq_list n' j = if j =? c then Some ((c, []), []) else cq_list n j) ->
  shape n' = shape n -> aers n' = aers n -> steady n n'.
Proof.
  intros Ec Hs Hc Hsh Ha Hn Hl.
  assert (forall cj, is_Some (cq_list n cj) -> cq_list n' cj = cq_list n cj) as Hsame.
  { intros cj Hsome. rewrite Hc. destruct (Z.eqb_spec cj c) as [->|]; [|done]. rewrite Ec in Hsome. by destruct Hsome. }
  split_and!; [constructor| |done|].
  - pose proof (qo_len _ Hn). unfold shape in Hsh. by injection Hsh as -> -> ->.
  - intros j cj zj fj oj Ej. unfold held. rewrite Hs in *. destruct (qo_sq _ Hn _ _ _ _ _ Ej) as (Hf & Hsome & Hh).
    rewrite Ej, Hsame by done. unfold held in Hh. by rewrite Ej in Hh.
  - intros cj idj wj Ej. rewrite Hc in Ej. destruct (Z.eqb_spec cj c) as [->|].
    + injection Ej as <- <-. by split.
    + destruct (qo_cq _ Hn _ _ _ Ej) as [Ei Hw]. split; [done|]. eapply list.Forall_impl; [exact Hw|]. cbv beta.
      intros r. by rewrite Hs.
  - intros j cj zj. unfold sq_id. rewrite Hs. intros Ej. destruct (Hl j cj zj Ej) as (id & Eid & Hin).
    exists id. rewrite Hsame; [done|]. destruct (cq_list n cj); [done|discriminate].
  - unfold out_list. by rewrite Hs.
Qed.

Lemma del_cq n n' c i w :
  cq_list n c = Some ((i, []), w) -> (forall j, sq_lists n' j = sq_lists n j) ->
  (forall j, cq_list n' j = if j =? c then None else cq_list n j) ->
  shape n' = shape n -> aers n' = aers n -> steady n n'.
Proof.
  intros Ec Hs Hc Hsh Ha Hn Hl.
  assert (forall j cj zj, sq_id n j = Some (cj, zj) -> cj <> c) as Hne.
  { intros j cj zj Ej ->. destruct (Hl j c zj Ej) as (id & Eid & Hin). rewrite Ec in Eid. injection Eid as <-.
    cbn in Hin. set_solver. }
  assert (forall j cj zj, sq_id n j = Some (cj, zj) -> cq_list n' cj = cq_list n cj) as Hsame.
  { intros j cj zj Ej. rewrite Hc. apply Hne in Ej. by destruct (Z.eqb_spec cj c). }
  split_and!; [constructor| |done|].
  - pose proof (qo_len _ Hn). unfold shape in Hsh. by injection Hsh as -> -> ->.
  - intros j cj zj fj oj Ej. unfold held. rewrite Hs in *. destruct (qo_sq _ Hn _ _ _ _ _ Ej) as (Hf & Hsome & Hh).
    assert (sq_id n j = Some (cj, zj)) as Eid by (unfold sq_id; by rewrite Ej).
    rewrite Ej, (Hsame _ _ _ Eid). unfold held in Hh. by rewrite Ej in Hh.
  - intros cj idj wj Ej. rewrite Hc in Ej. destruct (Z.eqb_spec cj c) as [->|]; [done|].
    destruct (qo_cq _ Hn _ _ _ Ej) as [Ei Hw]. split; [done|]. eapply list.Forall_impl; [exact Hw|]. cbv beta.
    intros r. by rewrite Hs.
  - intros j cj zj. unfold sq_id. rewrite Hs. intros Ej. rewrite (Hsame j cj zj Ej). by apply Hl in Ej.
  - unfold out_list. by rewrite Hs.
Qed.

(** All submission queues but [q] are in the list of their completion queue. *)
Definition linked_but (q : Z) (n : NvmeCtrl) : Prop := forall k c z,
  k <> q -> sq_id n k = Some (c, z) -> exists id, fst <$> cq_list n c = Some id /\ k ∈ id.2.

Lemma same_ids_linked_but q n n' : same_ids n n' -> linked_but q n -> linked_but q n'.
Proof. intros [Es Ec _ _] Hl k c z. rewrite Es, Ec. apply Hl. Qed.

(** Queue [q] is taken off the list of its completion queue. *)
Lemma unlink_sq n n' q c i l w :
  cq_list n c = Some ((i, l), w) -> (forall j, sq_lists n' j = sq_lists n j) ->
  (forall j, cq_list n' j = if j =? c then Some ((i, filter (fun k => k <> q) l), w) else cq_list n j) ->
  shape n' = shape n -> queues_ok n -> linked n -> queues_ok n' /\ linked_but q n'.
Proof.
  intros Ec Hs Hc Hsh Hn Hl.
  assert (forall cj, snd <$> cq_list n' cj = snd <$> cq_list n cj) as Hw.
  { intros cj. rewrite Hc. destruct (Z.eqb_spec cj c) as [->|]; [by rewrite Ec|done]. }
  assert (forall j, held n' j = held n j) as Hh.
  { intros j. unfold held. rewrite Hs. destruct (sq_lists n j) as [[[[cj zj] fj] oj]|]; [|done]. specialize (Hw cj).
    destruct (cq_list n' cj) as [[? ?]|], (cq_list n cj) as [[? ?]|]; simplify_eq/=; done. }
  split; [constructor|].
  - pose proof (qo_len _ Hn). unfold shape in Hsh. by injection Hsh as -> -> ->.
  - intros j cj zj fj oj Ej. rewrite Hh. rewrite Hs in Ej. destruct (qo_sq _ Hn _ _ _ _ _ Ej) as (Hf & Hsome & ?).
    split_and!; [done| |done]. specialize (Hw cj). destruct (cq_list n' cj); [done|].
    by destruct (cq_list n cj), Hsome.
  - intros cj idj wj Ej. rewrite Hc in Ej.
    assert (exists l', cq_list n cj = Some ((idj.1, l'), wj)) as [l' El].
    { destruct (Z.eqb_spec cj c) as [->|]; [injection Ej as <- <-; eauto|]. destruct idj. eauto. }
    destruct (qo_cq _ Hn _ _ _ El) as [Ei HF]. split; [done|]. eapply list.Forall_impl; [exact HF|]. cbv beta.
    intros r. by rewrite Hs.
  - intros j cj zj Hj. unfold sq_id. rewrite Hs. intros Ej. destruct (Hl j cj zj Ej) as (id & Eid & Hin). rewrite Hc.
    destruct (Z.eqb_spec cj c) as [->|]; [|eauto]. rewrite Ec in Eid. injection Eid as <-. eexists. split; [done|].
    cbn in *. by apply list_elem_of_filter.
Qed.

(** Queue [q] is removed, and so are its waiting requests. *)
Lemma remove_sq n n' q c z id free out w :
  sq_lists n q = Some (c, z, free, out) -> cq_list n c = Some (id, w) ->
  (forall j, sq_lists n' j = if j =? q then None else sq_lists n j) ->
  (forall j, cq_list n' j = if j =? c then Some (id, of_others q w) else cq_list n j) ->
  shape n' = shape n -> queues_ok n -> linked_but q n -> queues_ok n' /\ linked n'.
Proof.
  intros Eq Ec Hs Hc Hsh Hn Hl.
  assert (forall j, j <> q -> held n' j = held n j) as Hh.
  { intros j Hj. unfold held. rewrite Hs. destruct (Z.eqb_spec j q); [done|].
    destruct (sq_lists n j) as [[[[cj zj] fj] oj]|]; [|done]. rewrite Hc.
    destruct (Z.eqb_spec cj c) as [->|]; [|done]. rewrite Ec, (of_sq_others j q w (of_others q w)); [done..|].
    unfold of_others. rewrite list_filter_filter. apply list_filter_iff. tauto. }
  split; [constructor|].
  - pose proof (qo_len _ Hn). unfold shape in Hsh. by injection Hsh as -> -> ->.
  - intros j cj zj fj oj Ej. rewrite Hs in Ej. destruct (Z.eqb_spec j q); [done|]. rewrite Hh by done.
    destruct (qo_sq _ Hn _ _ _ _ _ Ej) as (Hf & Hsome & ?). split_and!; [done| |done]. rewrite Hc. by destruct (cj =? c).
  - intros cj idj wj Ej. rewrite Hc in Ej.
    assert (exists w', cq_list n cj = Some (idj, w') /\ forall r, r ∈ wj -> r ∈ w' /\ r_sqid r <> q) as (w' & Ew & Hsub).
    { destruct (Z.eqb_spec cj c) as [->|Hne].
      - injection Ej as <- <-. exists w. split; [done|]. intros r Hr. apply list_elem_of_filter in Hr. tauto.
      - exists wj. split; [done|]. intros r Hr. split; [done|]. intros E. destruct (qo_cq _ Hn _ _ _ Ej) as [_ HF].
        rewrite list.Forall_forall in HF. destruct (HF r Hr) as (zr & fr & ou & Er). rewrite E, Eq in Er. congruence. }
    destruct (qo_cq _ Hn _ _ _ Ew) as [Ei HF]. split; [done|]. rewrite list.Forall_forall in HF |- *. intros r Hr.
    destruct (Hsub r Hr) as [Hin Hne]. rewrite Hs. destruct (Z.eqb_spec (r_sqid r) q); [done|]. by apply HF.
  - intros j cj zj. unfold sq_id. rewrite Hs. destruct (Z.eqb_spec j q); [done|]. intros Ej.
    destruct (Hl j cj zj ltac:(done) Ej) as (id' & Eid & Hin). rewrite Hc. destruct (Z.eqb_spec cj c) as [->|]; [|eauto].
    rewrite Ec in Eid. eauto.
Qed.

(** ** Completions *)

Section Completions.
Context `{Clock} `{Guest} `{Backend}.
Implicit Types (n : NvmeCtrl) (req : NvmeRequest).

Lemma out_list_get n k sq : zget (sqs n) k = Some (Some sq) -> out_list n k = out_req_list sq.
Proof. intros E. unfold out_list. by rewrite (sq_lists_get _ _ _ E). Qed.

(** The request leaves the list of those being worked on. *)
Lemma enqueue_out q req n :
  wlp (nvme_enqueue_req_completion q req) (fun _ n' =>
    out_list n' (r_sqid req) = drop_req req (out_list n (r_sqid req)) /\ aers n' = aers n) n.
Proof.
  unfold nvme_enqueue_req_completion. apply wlp_bind, wlp_get_cq. intros cq Ecq.
  apply wlp_bind, wlp_get_sq. intros sq Esq. destruct (negb _); [done|].
  apply wlp_bind, wlp_modify. set (n1 := set_sqs _ n). apply wlp_bind.
  eapply (wlp_keeps _ (fun _ => True)); [apply keeps_on_ssd|]. intros t n2 (E1 & _ & _ & E4) _. apply wlp_modify.
  split; [|exact E4]. rewrite (out_list_get n _ sq Esq). apply (out_list_get _ _
    (sq_with_reqs (s_req_list sq) (drop_req req (out_req_list sq)) sq)). cbn. rewrite E1. cbn. apply zget_zset_eq. by eapply zget_Some_range.
Qed.

(** The requests of [l] that were handed to the block layer are cancelled. *)
Lemma cancel_all_conserved q l n :
  queues_ok n -> NoDup (r_id <$> l) -> Forall (fun r => r_sqid r = q /\ r ∈ out_list n q) l ->
  wlp (cancel_all l) (fun _ n' => conserved (eq q) n n') n.
Proof.
  revert n. induction l as [|req l IH]; intros n Hn Hd Hl; cbn [cancel_all].
  { change (conserved (eq q) n n). reflexivity. }
  rewrite fmap_cons in Hd. apply list.NoDup_cons in Hd as [Hnin Hd]. apply Forall_cons_1 in Hl as [[Hq Hin] Hl].
  apply wlp_bind. destruct (is_set (aiocb req)); [|by apply IH].
  assert (forall sq, zget (sqs n) (r_sqid req) = Some (Some sq) -> req ∈ out_req_list sq) as Hout.
  { intros sq E. rewrite Hq in E. by rewrite (out_list_get _ _ _ E) in Hin. }
  apply (wlp_mono _ (fun _ n1 => conserved (eq q) n n1 /\ out_list n1 q = drop_req req (out_list n q))).
  - apply wlp_and.
    + rewrite <- Hq. by apply misc_cb_conserved.
    + unfold nvme_misc_cb. apply wlp_bind, wlp_get_sq. intros sq _.
      eapply wlp_mono; [apply enqueue_out|]. cbn. rewrite Hq. by intros ? n1 [? _].
  - intros _ n1 [C1 O1]. eapply wlp_mono; [apply IH; [apply C1, Hn|done|]|].
    + rewrite list.Forall_forall in Hl |- *. intros r Hr. destruct (Hl r Hr) as [? Ho]. split; [done|]. rewrite O1.
      apply list_elem_of_filter. split; [|done]. intros E. apply Hnin. rewrite <- E. by apply list_elem_of_fmap_2.
    + intros ? n2 C2. by transitivity n1.
Qed.

(** *** The lists of the completion queues *)

Lemma post_all_conserved K q l id n :
  cq_list n q = Some (id, l) -> wlp (post_all q l) (fun _ n' => conserved K n n') n.
Proof.
  revert id n. induction l as [|req l IH]; intros id n El; cbn [post_all].
  { change (conserved K n n). reflexivity. }
  apply wlp_bind. eapply wlp_mono; [apply cq_full_tick|]. intros full n1 T1. destruct full.
  { change (conserved K n n1). by apply tick_conserved. }
  apply wlp_bind, wlp_get_cq. intros cq Ecq.
  pose proof (proj1 (proj2 T1) q) as E1. rewrite El, (cq_list_get _ _ _ Ecq) in E1. injection E1 as Eid Er.
  apply wlp_bind_assoc. eapply wlp_bind, wlp_mono; [by apply (post_one K q req l cq)|]. intros _ n3 [C3 E3].
  eapply wlp_mono; [by eapply IH|]. intros ? n4 C4. transitivity n1; [by apply tick_conserved|]. by transitivity n3.
Qed.

Lemma post_cqes_admin_conserved K q n : wlp (nvme_post_cqes_admin q) (fun _ n' => conserved K n n') n.
Proof.
  unfold nvme_post_cqes_admin. apply wlp_bind, wlp_get_cq. intros cq Ecq.
  by eapply (post_all_conserved K q _ (cq_id cq)), cq_list_get.
Qed.

Lemma nvme_post_cqes_conserved K q n : wlp (nvme_post_cqes q) (fun _ n' => conserved K n n') n.
Proof.
  unfold nvme_post_cqes. apply wlp_bind, wlp_get_cq. intros cq Ecq. apply wlp_bind.
  eapply wlp_mono; [by eapply (post_loop_conserved K q _ (cq_id cq)), cq_list_get|]. intros ntt n1 C1. cbv beta in C1.
  apply wlp_bind. eapply (wlp_keeps _ (fun _ => True)); [keeps_tac; done|]. intros t n2 K2%same_queues_tick _.
  apply wlp_bind, wlp_get_cq. intros cq' Ecq'. apply wlp_modify. transitivity n1; [done|].
  transitivity n2; [by apply tick_conserved|]. eapply tick_conserved, put_cq_tick; [exact Ecq'|done..].
Qed.
End Completions.

(** ** Commands that leave the queues alone *)

Lemma keeps_upd_adm f :
  (forall x, outstanding_aers (f x) = outstanding_aers x /\ aer_reqs (f x) = aer_reqs x) ->
  keeps (upd_adm f) (fun _ => True).
Proof.
  intros Hf. apply keeps_modify. intros n. split_and!; [done..|]. unfold aers. cbn. by destruct (Hf (adm n)) as [-> ->].
Qed.

#[export] Hint Extern 1 (keeps (upd_adm _) _) => (apply keeps_upd_adm; done) : keeps.

Lemma keeps_mfor_ret {R} k i (body : Z -> NM (option R)) :
  (forall i, keeps (body i) (fun _ => True)) -> keeps (mfor_ret k i body) (fun _ => True).
Proof.
  intros Hb. revert i. induction k as [|k IH]; intros i; cbn [mfor_ret]; [by apply keeps_ret|].
  apply keeps_any; [done|]. intros [x|]; [by apply keeps_ret|apply IH].
Qed.

Section Frames.
Context `{Clock} `{Guest} `{Backend}.

Lemma keeps_deref {A} (o : option A) : keeps (deref o) (fun _ => True).
Proof. intros n. unfold deref. by destruct o. Qed.
Hint Resolve keeps_deref keeps_map_prp keeps_dma_write_prp keeps_upd_namespace : keeps.

Lemma keeps_arm d : keeps (arm_aer_timer d) (fun _ => True).
Proof. unfold arm_aer_timer. keeps_tac. Qed.
Hint Resolve keeps_arm : keeps.

Lemma keeps_event a b c : keeps (nvme_enqueue_event a b c) (fun _ => True).
Proof. unfold nvme_enqueue_event. keeps_tac; done. Qed.
Hint Resolve keeps_event : keeps.

Lemma keeps_dma_read b len p1 p2 : keeps (nvme_dma_read_prp b len p1 p2) (fun _ => True).
Proof. unfold nvme_dma_read_prp. keeps_tac; done. Qed.
Hint Resolve keeps_dma_read : keeps.

Lemma keeps_identify cmd : keeps (nvme_identify cmd) (fun _ => True).
Proof. unfold nvme_identify. keeps_tac; done. Qed.

(** The request is the same object and nothing is pending for it. *)
Definition same_idle (req : NvmeRequest) (r : Z * NvmeRequest) : Prop :=
  same_req req r.2 /\ aiocb r.2 = aiocb req.

Lemma keeps_get_feature cmd req : keeps (nvme_get_feature cmd req) (same_idle req).
Proof. unfold nvme_get_feature. keeps_tac; done. Qed.

Lemma keeps_temp q : keeps (temp_warning q) (fun _ => True).
Proof. unfold temp_warning. keeps_tac; done. Qed.
Hint Resolve keeps_temp : keeps.

Lemma keeps_set_feature cmd req : keeps (nvme_set_feature cmd req) (same_idle req).
Proof. unfold nvme_set_feature. keeps_tac; try done. by destruct (_ =? _). Qed.

Lemma keeps_unmask t d : keeps (unmask_events t d) (fun _ => True).
Proof. unfold unmask_events. keeps_tac; done. Qed.
Hint Resolve keeps_unmask : keeps.

Lemma keeps_get_log cmd : keeps (nvme_get_log cmd) (fun _ => True).
Proof.
  unfold nvme_get_log, nvme_error_log_info, nvme_smart_info, nvme_fw_log_info. keeps_tac; done.
Qed.

Lemma keeps_format cmd : keeps (nvme_format cmd) (fun _ => True).
Proof.
  assert (forall i a b c d, keeps (nvme_format_namespace i a b c d) (fun _ => True)) as Hf.
  { intros. unfold nvme_format_namespace, calc_ns_blks, nvme_partition_ns, ns_bdrv_blks. keeps_tac; done. }
  unfold nvme_format. apply keeps_any; [apply keeps_gets|]. intros q. cbv zeta. destruct (_ =? _).
  - apply keeps_any; [|intros r; by apply keeps_ret]. apply keeps_mfor_ret. intros i. apply keeps_any; [apply Hf|].
    intros st. by apply keeps_ret.
  - destruct (_ || _); [by apply keeps_ret|apply Hf].
Qed.

Lemma keeps_remap cmd : keeps (nvme_remap cmd) (fun _ => True).
Proof.
  unfold nvme_remap, heap_move. keeps_tac; try done. intros n. cbv beta. by repeat destruct (_ : bool).
Qed.

(** The open-channel admin commands. *)
Hint Resolve keeps_error_page : keeps.

Lemma keeps_oc_identity cmd : keeps (femu_oc_identity cmd) (fun _ => True).
Proof. unfold femu_oc_identity. keeps_tac; done. Qed.

Lemma keeps_l2p_tbl cmd req : keeps (femu_oc_get_l2p_tbl cmd req) (fun _ => True).
Proof. unfold femu_oc_get_l2p_tbl. keeps_tac; done. Qed.

Lemma keeps_bbt_get cmd req : keeps (femu_oc_bbt_get cmd req) (fun _ => True).
Proof. unfold femu_oc_bbt_get. keeps_tac; done. Qed.

Lemma keeps_bbt_set cmd req : keeps (femu_oc_bbt_set cmd req) (fun _ => True).
Proof.
  assert (forall i v ppa, keeps (bbt_mark i v ppa) (fun _ => True)) as Hm by (intros; unfold bbt_mark; keeps_tac; done).
  unfold femu_oc_bbt_set. keeps_tac; try done. by apply keeps_mfor.
Qed.
End Frames.

(** ** The queue commands *)

(** The next test of a command, and a command that ends here. *)
Ltac cond := match goal with |- wlp (if ?b then _ else _) _ _ => destruct b end.
Ltac ends := match goal with |- wlp (mret _) _ ?n => change (steady n n); reflexivity end.

Section Queue_commands.
Context `{Clock} `{Guest} `{Backend}.
Implicit Types (n : NvmeCtrl) (req : NvmeRequest).

(** A step that keeps the queues, in a proof of [steady]. *)
Lemma wlp_steady {A B} (m : NM A) (k : A -> NM B) (P : A -> Prop) n n0 :
  keeps m P -> steady n0 n ->
  (forall a n1, P a -> same_queues n n1 -> steady n0 n1 -> wlp (k a) (fun _ n' => steady n0 n') n1) ->
  wlp (m ≫= k) (fun _ n' => steady n0 n') n.
Proof.
  intros Hm Hst Hk. apply wlp_bind. eapply wlp_keeps; [exact Hm|]. intros a n1 Hs HP. apply Hk; [done..|].
  transitivity n; [done|]. by apply same_queues_steady.
Qed.

Lemma keeps_check_sqid q : keeps (nvme_check_sqid q) (fun _ => True).
Proof. unfold nvme_check_sqid. keeps_tac; done. Qed.
Lemma keeps_check_cqid q : keeps (nvme_check_cqid q) (fun _ => True).
Proof. unfold nvme_check_cqid. keeps_tac; done. Qed.
Hint Resolve keeps_check_sqid keeps_check_cqid : keeps.

(** What the check of a queue's number tells. *)
Lemma wlp_check_sqid q (Q : bool -> NvmeCtrl -> Prop) n :
  (forall b, (b = false -> u16 q <= num_io_queues (params n) -> zget (sqs n) (u16 q) = Some None) ->
    (b = true -> exists sq, zget (sqs n) (u16 q) = Some (Some sq)) -> Q b n) ->
  wlp (nvme_check_sqid q) Q n.
Proof.
  intros HQ. unfold nvme_check_sqid. apply wlp_gets.
  destruct (Z.leb_spec (u16 q) (num_io_queues (params n))) as [Hle|Hgt].
  - apply wlp_gets, wlp_bind, wlp_idx.
    intros o Eo. apply HQ; destruct o; cbn; [done|intros _ _; exact Eo|intros _; eauto|done].
  - apply HQ; [lia|done].
Qed.

Lemma wlp_check_cqid q (Q : bool -> NvmeCtrl -> Prop) n :
  (forall b, (b = false -> u16 q <= num_io_queues (params n) -> zget (cqs n) (u16 q) = Some None) ->
    (b = true -> exists cq, zget (cqs n) (u16 q) = Some (Some cq)) -> Q b n) ->
  wlp (nvme_check_cqid q) Q n.
Proof.
  intros HQ. unfold nvme_check_cqid. apply wlp_gets.
  destruct (Z.leb_spec (u16 q) (num_io_queues (params n))) as [Hle|Hgt].
  - apply wlp_gets, wlp_bind, wlp_idx.
    intros o Eo. apply HQ; destruct o; cbn; [done|intros _ _; exact Eo|intros _; eauto|done].
  - apply HQ; [lia|done].
Qed.

Lemma wlp_store_sq q o (Q : unit -> NvmeCtrl -> Prop) n :
  (forall o', zget (sqs n) q = Some o' -> Q tt (set_sqs (zset q o (sqs n)) n)) -> wlp (store_sq q o) Q n.
Proof.
  intros HQ. unfold store_sq. apply wlp_gets, wlp_bind, wlp_idx. intros o' E. apply wlp_modify. by apply (HQ o').
Qed.

Lemma wlp_store_cq q o (Q : unit -> NvmeCtrl -> Prop) n :
  (forall o', zget (cqs n) q = Some o' -> Q tt (set_cqs (zset q o (cqs n)) n)) -> wlp (store_cq q o) Q n.
Proof.
  intros HQ. unfold store_cq. apply wlp_gets, wlp_bind, wlp_idx. intros o' E. apply wlp_modify. by apply (HQ o').
Qed.

Lemma keeps_discontig a b c : keeps (nvme_setup_discontig a b c) (fun _ => True).
Proof. unfold nvme_setup_discontig. keeps_tac; done. Qed.

Lemma keeps_doorbell a b : keeps (doorbell a b) (fun _ => True).
Proof. unfold doorbell. keeps_tac; done. Qed.
Hint Resolve keeps_discontig keeps_doorbell : keeps.

Lemma init_sq_steady a q c z prio contig n :
  (forall o, zget (sqs n) q = Some o -> o = None) ->
  wlp (nvme_init_sq a q c z prio contig) (fun _ n' => steady n n') n.
Proof.
  intros Eq. unfold nvme_init_sq. eapply wlp_steady; [apply keeps_gets|reflexivity|]. intros p n1 _ S1 T1.
  eapply wlp_steady; [apply keeps_gets|done|]. intros x n2 _ S2 T2.
  eapply wlp_steady; [keeps_tac; done|done|]. intros r n3 _ S3 T3. destruct r as [prps|]; [|exact T3].
  eapply wlp_steady; [keeps_tac; done|done|]. intros db n4 _ S4 T4.
  apply wlp_gets, wlp_bind, wlp_idx. intros o Eo. destruct o as [cq|]; [|done]. apply wlp_ret.
  apply wlp_bind, wlp_modify. set (n5 := set_cqs _ n4). apply wlp_bind.
  eapply (wlp_keeps _ (fun _ => True)); [keeps_tac; done|]. intros t n6 (F1 & F2 & F3 & F4) _. apply wlp_bind, wlp_store_sq.
  intros o' Eo'. set (n7 := set_sqs _ n6). change (steady n n7). transitivity n4; [done|].
  assert (zget (sqs n4) q = Some None) as Eq4.
  { rewrite F1 in Eo'. destruct S1 as (G1 & _), S2 as (G2 & _), S3 as (G3 & _), S4 as (G4 & _).
    change (zget (sqs n4) q = Some o') in Eo'. rewrite Eo'. f_equal. apply Eq. by rewrite <- G1, <- G2, <- G3, <- G4. }
  eapply (add_sq n4 n7 q c z (cqid cq) (c_sq_list cq) (c_req_list cq)).
  - unfold sq_lists. by rewrite Eq4.
  - by rewrite (cq_list_get _ _ _ Eo).
  - intros j. unfold n7. rewrite (sq_lists_put q o' _ n6 j Eo'). destruct (j =? q); [done|].
    unfold sq_lists. by rewrite F1.
  - intros j. change (cq_list n7 j) with (cq_list n6 j). unfold cq_list at 1. rewrite F2.
    exact (cq_list_put c (Some cq) (cq_with_sqs (c_sq_list cq ++ [q]) cq) n4 j Eo).
  - unfold n7. rewrite shape_put_sq. unfold shape. rewrite F1, F2, F3. apply shape_put_cq.
  - exact F4.
Qed.
(** A queue number beyond the arrays: the array access ends the program, so
    there is no entry. *)
Lemma no_entry_sq n q o :
  zlen (sqs n) = num_io_queues (params n) + 1 -> (u16 q <= num_io_queues (params n) -> zget (sqs n) (u16 q) = Some None) ->
  0 <= q < 2 ^ 16 -> zget (sqs n) q = Some o -> o = None.
Proof.
  intros Hlen Hno Hq Eo. pose proof (zget_Some_range _ _ _ Eo) as Hr.
  assert (u16 q = q) as Eu by (by apply Z.mod_small). rewrite Eu in Hno. rewrite Hno in Eo by lia. congruence.
Qed.

Lemma no_entry_cq n q o :
  zlen (cqs n) = num_io_queues (params n) + 1 -> (u16 q <= num_io_queues (params n) -> zget (cqs n) (u16 q) = Some None) ->
  0 <= q < 2 ^ 16 -> zget (cqs n) q = Some o -> o = None.
Proof.
  intros Hlen Hno Hq Eo. pose proof (zget_Some_range _ _ _ Eo) as Hr.
  assert (u16 q = q) as Eu by (by apply Z.mod_small). rewrite Eu in Hno. rewrite Hno in Eo by lia. congruence.
Qed.

Lemma sq_lists_del k o n j :
  zget (sqs n) k = Some o -> sq_lists (set_sqs (zset k None (sqs n)) n) j = if j =? k then None else sq_lists n j.
Proof.
  intros E%zget_Some_range. unfold sq_lists. cbn. rewrite zget_zset by done. rewrite (Z.eqb_sym k j). by destruct (j =? k).
Qed.

Lemma cq_list_del k o n j :
  zget (cqs n) k = Some o -> cq_list (set_cqs (zset k None (cqs n)) n) j = if j =? k then None else cq_list n j.
Proof.
  intros E%zget_Some_range. unfold cq_list. cbn. rewrite zget_zset by done. rewrite (Z.eqb_sym k j). by destruct (j =? k).
Qed.

Lemma create_sq_steady cmd n : queues_ok n -> wlp (nvme_create_sq cmd) (fun _ n' => steady n n') n.
Proof.
  intros Hn. unfold nvme_create_sq. apply wlp_gets. cbv zeta. apply wlp_bind, wlp_check_cqid. intros b _ _.
  destruct (_ || negb b); [ends|]. apply wlp_bind, wlp_check_sqid. intros b' Hno _.
  destruct b'; [rewrite orb_true_r; ends|]. destruct (_ || false); [ends|]. do 3 (cond; [ends|]).
  apply wlp_bind. eapply wlp_mono; [apply init_sq_steady|by intros r n' Hs].
  intros o. apply no_entry_sq; [apply Hn|auto|apply (le_range _ _ 2)].
Qed.

Lemma init_cq_steady a c z contig n :
  (forall o, zget (cqs n) c = Some o -> o = None) -> wlp (nvme_init_cq a c z contig) (fun _ n' => steady n n') n.
Proof.
  intros Ec. unfold nvme_init_cq. eapply wlp_steady; [apply keeps_gets|reflexivity|]. intros p n1 _ S1 T1.
  eapply wlp_steady; [apply keeps_gets|done|]. intros x n2 _ S2 T2.
  eapply wlp_steady; [keeps_tac; done|done|]. intros r n3 _ S3 T3. destruct r as [prps|]; [|exact T3].
  eapply wlp_steady; [keeps_tac; done|done|]. intros db n4 _ S4 T4.
  apply wlp_gets, wlp_bind, wlp_idx. intros o Eo. eapply (wlp_steady _ _ (fun _ => True)); [keeps_tac; done|done|]. intros t n5 _ S5 T5.
  apply wlp_bind, wlp_store_cq. intros o' Eo'. set (n6 := set_cqs _ n5). change (steady n n6). transitivity n5; [done|].
  assert (o' = None) as ->.
  { destruct S1 as (_ & G1 & _), S2 as (_ & G2 & _), S3 as (_ & G3 & _), S4 as (_ & G4 & _), S5 as (_ & G5 & _).
    apply Ec. by rewrite <- G1, <- G2, <- G3, <- G4, <- G5. }
  apply (add_cq n5 n6 c).
  - unfold cq_list. by rewrite Eo'.
  - done.
  - intros j. unfold n6. by rewrite (cq_list_put _ _ _ _ _ Eo').
  - apply shape_put_cq.
  - done.
Qed.

Lemma init_cq_sqs a c z contig n : wlp (nvme_init_cq a c z contig) (fun _ n' => sqs n' = sqs n) n.
Proof.
  unfold nvme_init_cq. do 2 apply wlp_gets. apply wlp_bind.
  eapply (wlp_keeps _ (fun _ => True)); [keeps_tac; done|]. intros r n1 (E1 & _) _. destruct r as [prps|]; [|exact E1].
  apply wlp_bind. eapply (wlp_keeps _ (fun _ => True)); [keeps_tac; done|]. intros db n2 (E2 & _) _.
  apply wlp_gets, wlp_bind, wlp_idx. intros o _. apply wlp_bind.
  eapply (wlp_keeps _ (fun _ => True)); [keeps_tac; done|]. intros t n3 (E3 & _) _. apply wlp_bind, wlp_store_cq.
  intros o' _. change (sqs n3 = sqs n). congruence.
Qed.

Lemma create_cq_steady cmd n : queues_ok n -> wlp (nvme_create_cq cmd) (fun _ n' => steady n n') n.
Proof.
  intros Hn. unfold nvme_create_cq. apply wlp_gets. cbv zeta. apply wlp_bind, wlp_check_cqid. intros b Hno _.
  destruct b; [rewrite orb_true_r; ends|]. destruct (_ || false); [ends|]. do 4 (cond; [ends|]).
  assert (forall o, zget (cqs n) (cmd_qid cmd) = Some o -> o = None) as Hnone.
  { intros o. apply no_entry_cq; [apply Hn|auto|apply (le_range _ _ 2)]. }
  apply wlp_gets, wlp_bind, wlp_idx. intros o ->%Hnone. apply wlp_ret.
  apply wlp_bind. eapply wlp_mono; [by apply init_cq_steady|by intros r n' Hs].
Qed.

Lemma del_cq_steady cmd n : wlp (nvme_del_cq cmd) (fun _ n' => steady n n') n.
Proof.
  unfold nvme_del_cq. cbv zeta. apply wlp_bind, wlp_check_cqid. intros b _ _. destruct (_ || negb b); [ends|].
  apply wlp_bind, wlp_get_cq. intros cq Ecq. destruct (bool_decide_reflect (c_sq_list cq = [])) as [El|]; cbn [negb]; [|ends].
  apply wlp_bind, wlp_store_cq. intros _ _. set (n1 := set_cqs _ n). change (steady n n1).
  apply (del_cq n n1 (cmd_qid cmd) (cqid cq) (c_req_list cq)).
  - rewrite (cq_list_get _ _ _ Ecq). unfold cq_id. by rewrite El.
  - done.
  - intros j. by apply (cq_list_del _ (Some cq)).
  - apply shape_put_cq.
  - done.
Qed.

Lemma set_db_steady cmd n : wlp (nvme_set_db_memory cmd) (fun _ n' => steady n n') n.
Proof.
  unfold nvme_set_db_memory. apply wlp_gets. cbv zeta. destruct (_ || _); [ends|].
  eapply wlp_steady; [eauto with keeps|reflexivity|]. intros _ n1 _ _ T1. apply wlp_bind.
  apply (wlp_mono _ (fun _ n2 => steady n n2)).
  - revert n1 T1. generalize 1 as i. induction (Z.to_nat _) as [|k IH]; intros i n1 T1; [exact T1|]. cbn [mfor].
    apply wlp_bind. apply (wlp_mono _ (fun _ n2 => steady n n2)); [|intros _ n2 T2; by apply IH].
    unfold set_db_memory_one. apply wlp_gets, wlp_bind, wlp_idx. intros o Eo. apply wlp_gets, wlp_bind, wlp_idx. intros o' Eo'.
    eapply wlp_steady; [eauto with keeps|done|]. intros a n2 _ S2 T2.
    eapply wlp_steady; [eauto with keeps|done|]. intros a' n3 _ S3 T3.
    assert (sqs n3 = sqs n1 /\ cqs n3 = cqs n1) as [F1 F2].
    { destruct S2 as (G1 & G2 & _), S3 as (G3 & G4 & _). split; congruence. }
    apply wlp_bind. apply (wlp_mono _ (fun _ n4 => steady n n4 /\ cqs n4 = cqs n1)).
    { destruct o as [sq|]; [|done]. apply wlp_modify. split; [|done]. transitivity n3; [done|].
      apply tick_steady. by eapply put_sq_tick; [rewrite F1|..]. }
    intros _ n4 [T4 F4]. destruct o' as [cq|]; [|exact T4]. apply wlp_modify. transitivity n4; [done|].
    apply tick_steady. by eapply put_cq_tick; [rewrite F4|..].
  - intros _ n2 T2. eapply wlp_steady; [eauto with keeps|done|]. by intros ? n3 _ _ T3.
Qed.

(** The requests being worked on are different. *)
Lemma out_ids n k : queues_ok n -> NoDup (r_id <$> out_list n k) /\ Forall (fun r => r_sqid r = k) (out_list n k).
Proof.
  intros Hn. pose proof (qo_dup n k Hn) as Hd. unfold held in Hd. unfold out_list.
  destruct (sq_lists n k) as [[[[c z] free] out]|] eqn:E; [|split; constructor].
  destruct (qo_sq _ Hn _ _ _ _ _ E) as [HF _]. apply Forall_app in HF as [_ HF]. split; [|done].
  rewrite !fmap_app in Hd. apply list.NoDup_app in Hd as (_ & _ & Hd). by apply list.NoDup_app in Hd as (? & _).
Qed.

(** The completion queue of a submission queue exists. *)
Lemma cq_of_sq n q sq : queues_ok n -> zget (sqs n) q = Some (Some sq) ->
  u16 (s_cqid sq) = s_cqid sq /\ exists cq, zget (cqs n) (s_cqid sq) = Some (Some cq).
Proof.
  intros Hn Esq. destruct (qo_sq _ Hn _ _ _ _ _ (sq_lists_get _ _ _ Esq)) as (_ & [x Ex] & _). unfold cq_list in Ex.
  destruct (zget (cqs n) (s_cqid sq)) as [[cq|]|] eqn:E; [|done..]. pose proof (zget_Some_range _ _ _ E) as Hr.
  pose proof (qo_len _ Hn). split; [apply Z.mod_small; lia|eauto].
Qed.

(** The deletion of queue [q] once its requests are cancelled; [c] is its
    completion queue. *)
Lemma del_sq_rest q c n :
  q <> 0 -> queues_ok n -> linked n -> (exists z, sq_id n q = Some (c, z)) ->
  wlp ((cq ← get_cq c; put_cq c (cq_with_sqs (filter (fun k => k <> q) (c_sq_list cq)) cq);;
        nvme_post_cqes c;;
        cq ← get_cq c; sq ← get_sq q;
        put_cq c (cq_with_reqs (of_others q (c_req_list cq)) cq);;
        put_sq q (sq_with_reqs (s_req_list sq ++ of_sq q (c_req_list cq)) (out_req_list sq) sq));;
       store_sq q None)
    (fun _ n' => queues_ok n' /\ linked n' /\ aers n' = aers n /\ out_list n' 0 = out_list n 0) n.
Proof.
  intros Hq Hn Hl [z Ez]. do 2 apply wlp_bind. apply wlp_get_cq. intros cq Ecq. apply wlp_bind, wlp_modify.
  set (n1 := set_cqs _ n).
  destruct (unlink_sq n n1 q c (cqid cq) (c_sq_list cq) (c_req_list cq)) as [Hn1 Hl1]; [|done| |apply shape_put_cq|done|done|].
  { by rewrite (cq_list_get _ _ _ Ecq). }
  { intros j. unfold n1. by rewrite (cq_list_put _ _ _ _ _ Ecq). }
  apply wlp_bind. eapply wlp_mono; [by apply (nvme_post_cqes_conserved (fun _ => False))|]. intros ? n2 C2.
  destruct (C2 Hn1) as (Hn2 & I2 & O2). pose proof (same_ids_linked_but q _ _ I2 Hl1) as Hl2.
  apply wlp_bind, wlp_get_cq. intros cq2 Ecq2. apply wlp_bind, wlp_get_sq. intros sq2 Esq2.
  apply wlp_bind, wlp_modify. set (n3 := set_cqs _ n2). apply wlp_modify. set (n4 := set_sqs _ n3).
  apply wlp_store_sq. intros o4 E4. set (n5 := set_sqs _ n4).
  assert (s_cqid sq2 = c) as Ec.
  { pose proof (si_sq _ _ I2 q) as E. change (sq_id n1 q) with (sq_id n q) in E. rewrite Ez in E. unfold sq_id in E.
    rewrite (sq_lists_get _ _ _ Esq2) in E. congruence. }
  assert (forall j, sq_lists n5 j = if j =? q then None else sq_lists n2 j) as Hs5.
  { intros j. unfold n5. rewrite (sq_lists_del _ _ _ _ E4). destruct (Z.eqb_spec j q); [done|].
    unfold n4. rewrite (sq_lists_put _ (Some sq2)) by done. by destruct (Z.eqb_spec j q). }
  destruct (remove_sq n2 n5 q c (s_size sq2) (cq_id cq2) (s_req_list sq2) (out_req_list sq2) (c_req_list cq2))
    as [Hn5 Hl5]; [|by apply cq_list_get|done| | |done|done|].
  - by rewrite (sq_lists_get _ _ _ Esq2), Ec.
  - intros j. change (cq_list n5 j) with (cq_list n3 j). unfold n3. by rewrite (cq_list_put _ _ _ _ _ Ecq2).
  - unfold n5, n4. rewrite !shape_put_sq. apply shape_put_cq.
  - split_and!; [done|done|exact (si_aers _ _ I2)|]. transitivity (out_list n2 0); [|apply (O2 0); tauto].
    unfold out_list. rewrite Hs5. by destruct (Z.eqb_spec 0 q).
Qed.

Lemma del_sq_steady cmd n : wlp (nvme_del_sq cmd) (fun _ n' => steady n n') n.
Proof.
  unfold nvme_del_sq. cbv zeta. set (q := cmd_qid cmd). apply wlp_bind, wlp_check_sqid. intros b _ _.
  destruct (Z.eqb_spec q 0) as [|Hq]; cbn [orb]; [ends|]. destruct (negb b); [ends|].
  apply wlp_bind, wlp_get_sq. intros sq Esq.
  apply (wlp_mono _ (fun _ n' => queues_ok n -> linked n ->
    queues_ok n' /\ linked n' /\ aers n' = aers n /\ out_list n' 0 = out_list n 0)); [|done].
  apply wlp_imp. intros Hn. apply wlp_imp. intros Hl. apply wlp_bind.
  eapply wlp_mono; [apply (cancel_all_conserved q); [done|..]|].
  - rewrite <- (out_list_get _ _ _ Esq). by apply out_ids.
  - rewrite (out_list_get _ _ _ Esq), <- (out_list_get _ _ _ Esq). destruct (out_ids n q Hn) as [_ HF].
    rewrite list.Forall_forall in HF |- *. auto.
  - intros ? n1 C1. destruct (C1 Hn) as (Hn1 & I1 & O1). pose proof (same_ids_linked _ _ I1 Hl) as Hl1.
    assert (sq_id n1 q = Some (s_cqid sq, s_size sq)) as Eid.
    { rewrite (si_sq _ _ I1). unfold sq_id. by rewrite (sq_lists_get _ _ _ Esq). }
    assert (exists sq1, zget (sqs n1) q = Some (Some sq1) /\ s_cqid sq1 = s_cqid sq) as (sq1 & E1 & Ec).
    { unfold sq_id, sq_lists in Eid. destruct (zget (sqs n1) q) as [[sq1|]|]; [|done..]. exists sq1. split; [done|congruence]. }
    destruct (cq_of_sq n1 q sq1 Hn1 E1) as [Eu [cq Ecq]]. rewrite Ec in Eu, Ecq.
    apply wlp_bind, wlp_check_cqid. intros b' Hno _. destruct b'; [|rewrite Eu in Hno].
    + apply wlp_bind_assoc, wlp_bind. eapply wlp_mono; [apply (del_sq_rest q (s_cqid sq)); eauto|].
      intros _ n2 (Hn2 & Hl2 & A2 & O2). change (queues_ok n2 /\ linked n2 /\ aers n2 = aers n /\ out_list n2 0 = out_list n 0).
      split_and!; [done..|by rewrite A2, (si_aers _ _ I1)|]. rewrite O2. apply O1. congruence.
    + pose proof (qo_len _ Hn1). pose proof (zget_Some_range _ _ _ Ecq). rewrite Hno in Ecq; [done..|lia].
Qed.

Lemma drop_req_last req l : r_id req ∉ r_id <$> l -> drop_req req (l ++ [req]) = l.
Proof.
  intros Hnin. unfold drop_req. rewrite list.filter_app, filter_cons_False by tauto. rewrite app_nil_r.
  induction l as [|x l IH]; [done|]. rewrite fmap_cons, not_elem_of_cons in Hnin. destruct Hnin as [Hx Hnin].
  rewrite filter_cons_True by congruence. by rewrite IH.
Qed.

(** A free request is not one that is being worked on. *)
Lemma free_not_out n k sq req reqs :
  queues_ok n -> zget (sqs n) k = Some (Some sq) -> s_req_list sq = req :: reqs ->
  r_sqid req = k /\ r_id req ∉ r_id <$> out_req_list sq.
Proof.
  intros Hn Esq El. pose proof (qo_dup n k Hn) as Hd. unfold held in Hd. rewrite (sq_lists_get _ _ _ Esq), El in Hd.
  destruct (qo_sq _ Hn _ _ _ _ _ (sq_lists_get _ _ _ Esq)) as [HF _]. rewrite El in HF.
  apply Forall_cons_1 in HF as [Hk _]. split; [done|]. cbn in Hd. apply list.NoDup_cons in Hd as [Hd _].
  rewrite !fmap_app, !not_elem_of_app in Hd. tauto.
Qed.

(** A free request is completed at once. *)
Lemma abort_one q c addr sq req0 reqs req n :
  queues_ok n -> zget (sqs n) q = Some (Some sq) -> s_req_list sq = req0 :: reqs -> same_req req0 req ->
  wlp (put_sq q (sq_with_reqs reqs (out_req_list sq ++ [req]) sq);;
       modify (fun n => set_guest (blit (guest n) addr (fun _ => NVME_OP_ABORTED) 0 1) n);;
       nvme_enqueue_req_completion c req) (fun _ n' => steady n n') n.
Proof.
  intros Hn Esq El [Ei Es]. destruct (free_not_out n q sq req0 reqs Hn Esq El) as [Hk Hnin]. rewrite <- Ei in Hnin.
  destruct (qo_sq _ Hn _ _ _ _ _ (sq_lists_get _ _ _ Esq)) as [HF _]. rewrite El in HF. apply Forall_cons_1 in HF as [_ HF].
  apply wlp_bind, wlp_modify. set (n1 := set_sqs _ n). apply wlp_bind, wlp_modify. set (n2 := set_guest _ n1).
  assert (zget (sqs n2) q = Some (Some (sq_with_reqs reqs (out_req_list sq ++ [req]) sq))) as E2.
  { apply zget_zset_eq. by eapply zget_Some_range. }
  assert (conserved (eq q) n n2) as C2.
  { transitivity n1; [|by apply tick_conserved]. eapply put_sq_conserved; [exact Esq|done|done|..];
      cbn [s_req_list out_req_list sq_with_reqs].
    - intros _. rewrite (assoc_L (++)). apply Forall_app. split; [done|]. constructor; [congruence|constructor].
    - rewrite El, !fmap_app, !fmap_cons, Ei. solve_Permutation. }
  eapply wlp_mono; [apply wlp_and; [apply (enqueue_conserved c req req); [|done]|apply enqueue_out]|].
  - rewrite Es, Hk, E2. intros sq' [= <-]. cbn. set_solver.
  - cbv beta. rewrite Es, Hk. intros _ n3 [C3 [O3 _]].
    assert (out_list n3 q = out_list n q) as Oq.
    { rewrite O3, (out_list_get _ _ _ E2), (out_list_get _ _ _ Esq). by apply drop_req_last. }
    apply (conserved_steady (fun _ => False)); [tauto|]. intros _.
    assert (conserved (eq q) n n3) as C by (by transitivity n2). destruct (C Hn) as (Hn3 & I3 & O).
    split_and!; [done..|]. intros j _. destruct (decide (j = q)) as [->|]; [done|]. apply O. congruence.
Qed.

Lemma abort_loop_steady k q cid index n :
  queues_ok n -> wlp (abort_loop k q cid index) (fun _ n' => steady n n') n.
Proof.
  revert index n. induction k as [|k IH]; intros index n Hn; cbn [abort_loop];
    apply wlp_bind, wlp_get_sq; intros sq Esq; destruct (s_size sq =? 0); try done; cbv zeta;
    destruct (_ =? s_tail sq); try (change (steady n n); reflexivity); [done|].
  apply wlp_bind. eapply (wlp_keeps _ (fun _ => True)).
  { unfold sq_entry_addr, nvme_discontig. keeps_tac; done. }
  intros addr n1 K1 _. apply wlp_gets. pose proof (same_queues_steady _ _ K1) as S1.
  assert (queues_ok n1) as Hn1 by (by apply (tick_conserved (fun _ => False) n), Hn; apply same_queues_tick).
  assert (zget (sqs n1) q = Some (Some sq)) as E1 by (by destruct K1 as (-> & _)).
  destruct (_ =? cid).
  - apply wlp_bind, wlp_deref. intros req0 Er. cbv zeta. destruct (s_req_list sq) as [|r reqs] eqn:El; [done|].
    injection Er as ->. cbn [tail]. apply wlp_bind_assoc.
    eapply wlp_mono; [|intros ? n2 S2; transitivity n1; [done|exact S2]].
    set (req := set_status _ _).
    pose proof (abort_one q (s_cqid sq) addr sq req0 reqs req n1 Hn1 E1 El ltac:(done)) as Ha.
    unfold wlp, mbind, M_bind in Ha |- *. cbn in Ha |- *. destruct (nvme_enqueue_req_completion _ _ _); done.
  - eapply wlp_mono; [by apply IH|]. intros ? n2 S2. by transitivity n1.
Qed.

Lemma abort_steady cmd n :
  queues_ok n -> Forall (fun r => aiocb r = None) (out_list n 0) ->
  wlp (nvme_abort_req cmd) (fun _ n' => steady n n') n.
Proof.
  intros Hn Haio. unfold nvme_abort_req. cbv zeta. apply wlp_bind, wlp_check_sqid. intros b _ _.
  destruct (negb b); [ends|]. set (q := Z.land (cmd_cdw10 cmd) 65535). apply wlp_bind, wlp_get_sq. intros sq Esq.
  destruct (list_find _ _) as [[i req]|] eqn:Ef.
  - apply list_find_Some in Ef as (Ei & [Haq _] & _). apply list_elem_of_lookup_2 in Ei.
    assert (req ∈ out_list n q) as Hin.
    { rewrite (out_list_get n q sq Esq). destruct (sqid sq =? 0); [by apply list_elem_of_In in Ei|done]. }
    destruct (out_ids n q Hn) as [_ HF]. rewrite list.Forall_forall in HF. pose proof (HF req Hin) as Hq.
    apply wlp_bind. eapply wlp_mono; [apply misc_cb_conserved|].
    + rewrite Hq. intros sq' E. rewrite Esq in E. injection E as <-. by rewrite (out_list_get _ _ _ Esq) in Hin.
    + cbv beta. intros _ n1 C1. change (steady n n1). eapply conserved_steady; [|exact C1]. intros E. rewrite Hq in E.
      rewrite E in Hin. rewrite list.Forall_forall in Haio. rewrite (Haio req Hin) in Haq. done.
  - apply wlp_bind. eapply wlp_mono; [by apply abort_loop_steady|]. by intros r n1 S1.
Qed.

End Queue_commands.

(** ** The admin queue *)

Section Admin_queue.
Context `{Clock} `{Guest} `{Backend}.
Implicit Types (n : NvmeCtrl) (req : NvmeRequest).

(** The request waits for an event. *)
Record enlisted req n n' : Prop := mk_enlisted {
  en_sqs : sqs n' = sqs n;
  en_cqs : cqs n' = cqs n;
  en_params : params n' = params n;
  en_range : 0 <= (aers n).1 < zlen (aers n).2;
  en_aers : aers n' = (u8 ((aers n).1 + 1), zset (aers n).1 (Some req) (aers n).2)
}.

Lemma async_req_spec req n :
  wlp (nvme_async_req req) (fun st n' => steady n n' \/ st = NVME_NO_COMPLETE /\ enlisted req n n') n.
Proof.
  unfold nvme_async_req. do 2 apply wlp_gets. destruct (_ <? _); [left; reflexivity|].
  apply wlp_bind, wlp_idx. intros o Eo. apply zget_Some_range in Eo. apply wlp_bind, wlp_modify. set (n1 := set_adm _ n).
  apply wlp_bind. eapply (wlp_keeps _ (fun _ => True)); [apply keeps_arm|]. intros _ n2 (F1 & F2 & F3 & F4) _.
  apply wlp_bind, wlp_modify. right. split; [done|]. constructor; [done..|].
  unfold aers in F4 |- *. cbn in F4 |- *. injection F4 as -> ->. done.
Qed.

(** What an admin command does for the request [req] it is carried out for. *)
Definition admin_effect req n (r : Z * NvmeRequest) n' : Prop :=
  same_idle req r /\ (steady n n' \/ r.1 = NVME_NO_COMPLETE /\ enlisted req n n').

Lemma plain_effect req (m : NM Z) n :
  wlp m (fun st n' => steady n n' \/ st = NVME_NO_COMPLETE /\ enlisted req n n') n ->
  wlp (st ← m; mret (st, req)) (admin_effect req n) n.
Proof. intros Hm. apply wlp_bind. eapply wlp_mono; [exact Hm|]. intros st n' Hst. by split. Qed.

Lemma steady_effect req (m : NM Z) n :
  wlp m (fun _ n' => steady n n') n -> wlp (st ← m; mret (st, req)) (admin_effect req n) n.
Proof. intros Hm. apply plain_effect. eapply wlp_mono; [exact Hm|]. auto. Qed.

Lemma keeps_effect req (m : NM (Z * NvmeRequest)) n : keeps m (same_idle req) -> wlp m (admin_effect req n) n.
Proof. intros Hm. eapply wlp_keeps; [exact Hm|]. intros r n' Hs Hr. split; [done|]. left. by apply same_queues_steady. Qed.

Lemma keeps_steady (m : NM Z) n : keeps m (fun _ => True) -> wlp m (fun _ n' => steady n n') n.
Proof. intros Hm. eapply wlp_keeps; [exact Hm|]. intros st n' Hs _. by apply same_queues_steady. Qed.

Lemma admin_cmd_effect cmd req n :
  ctrl_ok n -> wlp (nvme_admin_cmd cmd req) (admin_effect req n) n.
Proof.
  intros [Hn _ [_ _ Haio]]. unfold nvme_admin_cmd. apply wlp_gets. cbv zeta.
  cond; [apply steady_effect, keeps_steady, keeps_remap|].
  cond; [apply keeps_effect; unfold upd_ocg; by keeps_tac|].
  cond; [by apply steady_effect, del_sq_steady|].
  cond; [by apply steady_effect, create_sq_steady|].
  cond; [by apply steady_effect, del_cq_steady|].
  cond; [by apply steady_effect, create_cq_steady|].
  cond; [apply steady_effect, keeps_steady, keeps_identify|].
  cond; [apply keeps_effect, keeps_set_feature|].
  cond; [apply keeps_effect, keeps_get_feature|].
  cond; [apply steady_effect, keeps_steady, keeps_get_log|].
  cond; [apply plain_effect, async_req_spec|].
  cond.
  { apply wlp_bind. eapply wlp_mono; [by apply abort_steady|]. intros v n' Hs. split; [done|]. by left. }
  cond; [cond; [apply steady_effect, keeps_steady, keeps_format|by apply keeps_effect, keeps_ret]|].
  cond; [apply steady_effect, set_db_steady|].
  cond; [apply steady_effect, keeps_steady, keeps_oc_identity|].
  cond; [apply steady_effect, keeps_steady, keeps_l2p_tbl|].
  cond; [apply steady_effect, keeps_steady, keeps_bbt_get|].
  cond; [apply steady_effect, keeps_steady, keeps_bbt_set|by apply keeps_effect, keeps_ret].
Qed.

(** *** The requests that wait for events *)

(** A request that does not wait for an event is taken off the list. *)
Lemma aer_inv_drop a out req :
  aer_inv a out -> (forall i r, 0 <= i < a.1 -> zget a.2 i = Some (Some r) -> r_id r <> r_id req) ->
  aer_inv a (drop_req req out).
Proof.
  intros [Hr Hd Ho] Hne. constructor; [|done|].
  - intros i Hi. destruct (Hr i Hi) as (r & Er & Hs & Hin). exists r. split_and!; [done..|].
    apply list_elem_of_fmap in Hin as (x & Ex & Hin). rewrite Ex. apply list_elem_of_fmap_2, list_elem_of_filter.
    split; [|done]. rewrite <- Ex. eauto.
  - rewrite list.Forall_forall in Ho |- *. intros x [_ Hx]%list_elem_of_filter. auto.
Qed.

(** The last of the waiting requests is completed. *)
Lemma aer_inv_pop k l out req :
  aer_inv (k, l) out -> 0 < k -> zget l (k - 1) = Some (Some req) -> aer_inv (k - 1, l) (drop_req req out).
Proof.
  intros [Hr Hd Ho] Hk Er. apply aer_inv_drop.
  - constructor; cbn in *; [| |done].
    + intros i Hi. apply Hr. lia.
    + intros i j ri rj Hi Hj. apply Hd; lia.
  - cbn in *. intros i r Hi E Eid. assert (i = k - 1); [|lia]. eapply Hd; [lia|lia|exact E|exact Er|done].
Qed.

(** A request joins the waiting ones. *)
Lemma aer_inv_push k l out req :
  aer_inv (k, l) out -> 0 <= k < zlen l -> r_sqid req = 0 -> r_id req ∈ r_id <$> out ->
  (forall i r, 0 <= i < k -> zget l i = Some (Some r) -> r_id r <> r_id req) ->
  aer_inv (u8 (k + 1), zset k (Some req) l) out.
Proof.
  intros [Hr Hd Ho] Hk Hs Hin Hne. cbn in *.
  assert (u8 (k + 1) <= k + 1) as Hu by (apply Z.mod_le; lia).
  constructor; cbn; [| |done].
  - intros i Hi. destruct (decide (i = k)) as [->|].
    + exists req. by rewrite zget_zset_eq.
    + rewrite zget_zset_ne by done. apply Hr. lia.
  - intros i j ri rj Hi Hj. destruct (decide (i = k)) as [->|], (decide (j = k)) as [->|]; rewrite ?zget_zset_eq by done;
      rewrite ?zget_zset_ne by done; [done|..].
    + intros [= <-] Ej Eid. destruct (Hne j rj); [lia|done..].
    + intros Ei [= <-] Eid. destruct (Hne i ri); [lia|done..].
    + intros Ei Ej Eid. eapply Hd; [lia|lia|exact Ei|exact Ej|done].
Qed.

(** Requests are replaced by others of the same number. *)
Lemma aer_inv_replace a out out' :
  aer_inv a out -> r_id <$> out' = r_id <$> out -> Forall (fun r => aiocb r = None) out' -> aer_inv a out'.
Proof. intros [Hr Hd Ho] E Ho'. constructor; [|done|done]. by rewrite E. Qed.

(** A new request, which does not wait for an event. *)
Lemma aer_inv_add a out req : aer_inv a out -> aiocb req = None -> aer_inv a (out ++ [req]).
Proof.
  intros [Hr Hd Ho] Hq. constructor; [|done|apply Forall_app; by repeat constructor].
  intros i Hi. destruct (Hr i Hi) as (r & ? & ? & ?). exists r. split_and!; [done..|]. rewrite fmap_app.
  apply elem_of_app. by left.
Qed.

Lemma queues_ok_same n n' :
  sqs n' = sqs n -> cqs n' = cqs n -> params n' = params n -> queues_ok n -> queues_ok n'.
Proof.
  intros E1 E2 E3 [Hlen Hsq Hcq]. constructor; unfold held, sq_lists, cq_list in *; by rewrite ?E1, ?E2, ?E3.
Qed.

Lemma conserved_out (K : Z -> Prop) n n' out :
  conserved K n n' -> queues_ok n -> linked n -> out_list n' 0 = out -> aer_inv (aers n) out -> ctrl_ok n'.
Proof.
  intros Hc Hn Hl Ho Ha. destruct (Hc Hn) as (Hn' & Hi & _). constructor; [done|by apply (same_ids_linked n)|].
  by rewrite (si_aers _ _ Hi), Ho.
Qed.

Lemma keep_req_out q req n :
  wlp (keep_req q req) (fun _ n' => out_list n' q =
    (fun x => if r_id x =? r_id req then req else x) <$> out_list n q) n.
Proof.
  unfold keep_req. apply wlp_bind, wlp_get_sq. intros sq Esq. apply wlp_modify. rewrite (out_list_get _ _ _ Esq).
  set (sq' := sq_with_reqs _ _ sq). apply (out_list_get _ _ sq'). apply zget_zset_eq. by eapply zget_Some_range.
Qed.

(** No request that waits for an event has the number of [req]. *)
Definition not_waiting n req : Prop := forall i r,
  0 <= i < (aers n).1 -> zget (aers n).2 i = Some (Some r) -> r_id r <> r_id req.

(** The end of an admin command that was carried out for [req]. *)
Lemma admin_finish c req r n :
  ctrl_ok n -> r_sqid req = 0 -> req ∈ out_list n 0 -> aiocb req = None -> same_idle req r ->
  not_waiting n req \/ r.1 = NVME_NO_COMPLETE ->
  wlp (if r.1 =? NVME_NO_COMPLETE then keep_req 0 r.2
       else nvme_enqueue_req_completion_admin c (set_status r.1 r.2)) (fun _ n' => ctrl_ok n') n.
Proof.
  intros [Hn Hl Ha] Hs Hin Hq [[Ei Es] Eq] Hw. destruct (Z.eqb_spec r.1 NVME_NO_COMPLETE) as [Hst|Hst].
  - eapply wlp_mono; [apply wlp_and; [apply keep_req_conserved; congruence|apply keep_req_out]|].
    intros _ n' [Hc Ho]. eapply (conserved_out _ n); [exact Hc|done|done|exact Ho|].
    apply (aer_inv_replace _ (out_list n 0)); [done|..].
    + rewrite <- list_fmap_compose. apply list_fmap_ext. intros i x _. cbn. by destruct (Z.eqb_spec (r_id x) (r_id r.2)).
    + apply Forall_fmap, list.Forall_forall. intros x Hx. cbn. destruct (_ =? _); [congruence|].
      pose proof (ai_aio _ _ Ha) as Ho'. rewrite list.Forall_forall in Ho'. auto.
  - destruct Hw as [Hw|]; [|done]. unfold nvme_enqueue_req_completion_admin. set (req' := set_status r.1 r.2).
    assert (r_sqid req' = 0) as Es' by (cbn; congruence).
    eapply wlp_mono; [apply wlp_and; [apply (enqueue_conserved c req' req); [|cbn; congruence]|apply enqueue_out]|].
    + rewrite Es'. intros sq E. by rewrite (out_list_get _ _ _ E) in Hin.
    + rewrite Es'. intros _ n' [Hc [Ho _]]. eapply (conserved_out _ n); [exact Hc|done|done|exact Ho|].
      apply aer_inv_drop; [done|]. cbn. rewrite Ei. exact Hw.
Qed.

(** A command is taken from the admin queue. *)
Lemma admin_start cmd sq req reqs n :
  ctrl_ok n -> zget (sqs n) 0 = Some (Some sq) -> s_req_list sq = req :: reqs ->
  let req' := start_req cmd req in
  let n' := set_sqs (zset 0 (Some (sq_with_reqs reqs (out_req_list sq ++ [req'])
                                    (sq_with_head (u32 (s_head sq + 1) mod s_size sq) sq))) (sqs n)) n in
  ctrl_ok n' /\ req' ∈ out_list n' 0 /\ not_waiting n' req'.
Proof.
  intros [Hn Hl Ha] Esq El req' n'. destruct (free_not_out n 0 sq req reqs Hn Esq El) as [Hk Hnin].
  destruct (qo_sq _ Hn _ _ _ _ _ (sq_lists_get _ _ _ Esq)) as [HF _]. rewrite El in HF. apply Forall_cons_1 in HF as [_ HF].
  assert (out_list n' 0 = out_list n 0 ++ [req']) as Ho.
  { rewrite (out_list_get _ _ _ Esq). set (sq' := sq_with_reqs _ _ _) in n'. apply (out_list_get n' 0 sq').
    apply zget_zset_eq. by eapply zget_Some_range. }
  assert (conserved (eq 0) n n') as Hc.
  { eapply put_sq_conserved; [exact Esq|done|done|..]; cbn [s_req_list out_req_list sq_with_reqs sq_with_head].
    - intros _. rewrite (assoc_L (++)). apply Forall_app. split; [done|]. by constructor.
    - rewrite El, !fmap_app. cbn. solve_Permutation. }
  split_and!.
  - eapply conserved_out; [exact Hc|done|done|exact Ho|]. by apply aer_inv_add.
  - rewrite Ho. apply elem_of_app. right. by apply list_elem_of_singleton.
  - intros i r Hi Er Eid. change (aers n') with (aers n) in Er. destruct (ai_req _ _ Ha i Hi) as (r' & Er' & _ & Hin). assert (r' = r) as -> by congruence.
    apply Hnin. rewrite (out_list_get _ _ _ Esq), Eid in Hin. exact Hin.
Qed.

Lemma enlisted_ok req n n' :
  enlisted req n n' -> ctrl_ok n -> r_sqid req = 0 -> req ∈ out_list n 0 -> not_waiting n req ->
  ctrl_ok n' /\ out_list n' 0 = out_list n 0.
Proof.
  intros [E1 E2 E3 Hr Ea] [Hn Hl Ha] Hs Hin Hw.
  assert (out_list n' 0 = out_list n 0) as Ho by (unfold out_list, sq_lists; by rewrite E1).
  split; [|done]. constructor.
  - by apply (queues_ok_same n).
  - intros k c z. unfold sq_id, sq_lists, cq_list. rewrite E1, E2. apply Hl.
  - rewrite Ea, Ho. destruct (aers n) as [k l] eqn:El. apply aer_inv_push; [done..|by apply list_elem_of_fmap_2|].
    unfold not_waiting in Hw. by rewrite El in Hw.
Qed.

Lemma admin_loop_ok fuel c p n :
  ctrl_ok n -> wlp (admin_loop fuel 0 c p) (fun _ n' => ctrl_ok n') n.
Proof.
  revert p n. induction fuel as [|fuel IH]; intros p n Hn; cbn [admin_loop];
    apply wlp_bind, wlp_get_sq; intros sq Esq; destruct (s_req_list sq) as [|req reqs] eqn:El; try done;
    destruct (nvme_sq_empty sq); try done.
  apply wlp_bind. eapply (wlp_keeps _ (fun _ => True)).
  { unfold sq_entry_addr, nvme_discontig. keeps_tac; done. }
  intros addr n0 K0 _. apply wlp_gets. set (cmd := fun o => guest n0 (addr + o)).
  assert (Esq0 : zget (sqs n0) 0 = Some (Some sq)) by (destruct K0 as (-> & _); done).
  assert (ctrl_ok n0) as Hn0 by (by apply (steady_ok n), Hn; apply same_queues_steady).
  apply wlp_bind. unfold nvme_inc_sq_head. destruct (_ =? 0); [done|]. cbv zeta.
  change (wlp (let sq := sq_with_head (u32 (s_head sq + 1) mod s_size sq) sq in
    if cmd_op cmd =? NVME_OP_ABORTED then put_sq 0 sq;; admin_loop fuel 0 c (p + 1) else
    let req := start_req cmd req in
    put_sq 0 (sq_with_reqs reqs (out_req_list sq ++ [req]) sq);;
    cq ← get_cq c;
    if negb ((cqid cq =? s_cqid sq) && (sqid sq =? 0)) then mcrash ProcessExit else
    r ← nvme_admin_cmd cmd req;
    (if r.1 =? NVME_NO_COMPLETE then keep_req 0 r.2
     else nvme_enqueue_req_completion_admin c (set_status r.1 r.2));; admin_loop fuel 0 c (p + 1))
    (fun _ n' => ctrl_ok n') n0). cbv zeta. destruct (cmd_op cmd =? NVME_OP_ABORTED).
  { apply wlp_bind, wlp_modify. apply IH. apply (steady_ok n0); [|done]. by eapply tick_steady, put_sq_tick; [exact Esq0|..]. }
  destruct (admin_start cmd sq req reqs n0 Hn0 Esq0 El) as (Hn1 & Hin & Hw). apply wlp_bind, wlp_modify.
  set (req' := start_req cmd req) in *. set (n1 := set_sqs _ n0) in *.
  assert (r_sqid req' = 0) as Es by (by apply (free_not_out n 0 sq req reqs); [apply Hn|..]).
  apply wlp_bind, wlp_get_cq. intros cq _. cond; [done|]. apply wlp_bind.
  eapply wlp_mono; [by apply admin_cmd_effect|]. intros r n2 [Hid Heff]. apply wlp_bind.
  eapply wlp_mono; [apply (admin_finish c req'); [..|done|]|intros ? n3 Hn3; by apply IH]; try done.
  - destruct Heff as [Hst|[_ He]]; [by apply (steady_ok n1)|by apply (enlisted_ok req' n1)].
  - destruct Heff as [Hst|[_ He]]; [|by destruct (enlisted_ok req' n1 n2) as [_ ->]].
    destruct Hn1 as [? ? ?]. by destruct Hst as (_ & _ & _ & ->).
  - destruct Heff as [Hst|[? _]]; [|by right]. left. destruct Hn1 as [? ? ?]. destruct Hst as (_ & _ & Ea & _); [done..|].
    unfold not_waiting. by rewrite Ea.
Qed.

Lemma process_admin_ok n :
  ctrl_ok n ->
  wlp (sq_timer_fires 0;; nvme_process_sq_admin 0) (fun _ n' => ctrl_ok n') n.
Proof.
  intros Hn. apply wlp_bind. apply (wlp_mono _ (fun _ n1 => ctrl_ok n1)).
  { unfold sq_timer_fires. apply wlp_bind, wlp_get_sq. intros sq Esq. apply wlp_modify. apply (steady_ok n); [|done].
    by eapply tick_steady, put_sq_tick; [exact Esq|..]. }
  intros _ n1 Hn1. unfold nvme_process_sq_admin. apply wlp_bind, wlp_get_sq. intros sq Esq. apply wlp_bind.
  apply (wlp_mono _ (fun _ n2 => ctrl_ok n2)).
  { unfold nvme_update_sq_tail. apply wlp_bind, wlp_get_sq. intros sq' E. destruct (_ =? 0); [done|].
    apply wlp_gets, wlp_modify. apply (steady_ok n1); [|done]. by eapply tick_steady, put_sq_tick; [exact E|..]. }
  intros _ n2 Hn2. apply wlp_bind. eapply wlp_mono; [by apply admin_loop_ok|]. intros p n3 Hn3.
  apply wlp_bind, wlp_get_sq. intros sq3 E3. apply wlp_modify. apply (steady_ok n3); [|done].
  by eapply tick_steady, put_sq_tick; [exact E3|..].
Qed.

(** ** Events *)

Lemma upd_adm_ok f n :
  (forall x, outstanding_aers (f x) = outstanding_aers x /\ aer_reqs (f x) = aer_reqs x) ->
  ctrl_ok n -> ctrl_ok (set_adm (f (adm n)) n).
Proof.
  intros Hf Hn. apply (steady_ok n); [|done]. apply same_queues_steady. split_and!; [done..|]. unfold aers. cbn.
  by destruct (Hf (adm n)) as [-> ->].
Qed.

Lemma aer_loop_ok k pos n : ctrl_ok n -> wlp (aer_loop k pos) (fun _ n' => ctrl_ok n') n.
Proof.
  revert pos n. induction k as [|k IH]; intros pos n Hn; cbn [aer_loop]; [done|].
  apply wlp_gets, wlp_bind, wlp_idx. intros o Eo. destruct o as [event|]; [|done]. apply wlp_ret.
  destruct (Z.leb_spec (outstanding_aers (adm n)) 0) as [|Hpos]; [done|]. cond; [by apply IH|].
  apply wlp_bind, wlp_modify. set (n1 := set_adm _ n). apply wlp_bind, wlp_modify. set (n2 := set_adm _ n1).
  apply wlp_bind, wlp_modify. set (n3 := set_adm _ n2). apply wlp_bind, wlp_idx. intros ro Er.
  apply wlp_bind, wlp_deref. intros req ->. cbv zeta. set (req' := set_status _ _).
  destruct Hn as [Hq Hl Ha].
  destruct (ai_req _ _ Ha (outstanding_aers (adm n) - 1) ltac:(cbn; lia)) as (r & Er' & Hs & Hin).
  cbn in Er'. assert (r = req) as -> by congruence.
  apply list_elem_of_fmap in Hin as (r0 & Ei & Hin).
  assert (queues_ok n3 /\ linked n3) as [Hq3 Hl3] by (split; [by apply (queues_ok_same n)|exact Hl]).
  apply wlp_bind. eapply wlp_mono; [apply wlp_and; [apply (enqueue_conserved 0 req' r0); [|done]|apply enqueue_out]|].
  - intros sq E. cbn in E. rewrite Hs in E. change (zget (sqs n) 0 = Some (Some sq)) in E.
    by rewrite (out_list_get _ _ _ E) in Hin.
  - intros _ n4 [Hc [Ho _]]. apply IH. eapply (conserved_out _ n3); [exact Hc|done|done| |].
    + change (r_sqid req') with (r_sqid req) in Ho. rewrite Hs in Ho. exact Ho.
    + change (aers n3) with (outstanding_aers (adm n) - 1, aer_reqs (adm n)).
      change (out_list n3 0) with (out_list n 0). by apply (aer_inv_pop _ _ _ req).
Qed.

(** ** Registers *)

Lemma kick_ok q n : ctrl_ok n -> wlp (kick_sq q) (fun _ n' => ctrl_ok n') n.
Proof.
  intros Hn. unfold kick_sq. apply wlp_bind, wlp_get_sq. intros sq Esq. cond; [|done].
  apply wlp_bind. eapply (wlp_keeps _ (fun _ => True)); [apply keeps_on_ssd|]. intros t n1 K1 _. apply wlp_modify.
  apply (steady_ok n); [|done]. transitivity n1; [by apply same_queues_steady|].
  by eapply tick_steady, put_sq_tick; [by destruct K1 as (-> & _)|..].
Qed.

Lemma kick_sqs_ok l n : ctrl_ok n -> wlp (kick_sqs l) (fun _ n' => ctrl_ok n') n.
Proof.
  revert n. induction l as [|q l IH]; intros n Hn; cbn [kick_sqs]; [done|]. apply wlp_bind.
  eapply wlp_mono; [by apply kick_ok|]. intros ? n1 Hn1. by apply IH.
Qed.

Lemma invalid_doorbell_ok i n : ctrl_ok n -> wlp (invalid_doorbell i) (fun _ n' => ctrl_ok n') n.
Proof.
  intros Hn. unfold invalid_doorbell. eapply (wlp_keeps _ (fun _ => True)); [apply keeps_event|]. intros _ n1 K1 _.
  apply (steady_ok n); [by apply same_queues_steady|done].
Qed.

Lemma process_db_ok addr v n : ctrl_ok n -> wlp (nvme_process_db addr v) (fun _ n' => ctrl_ok n') n.
Proof.
  intros Hn. unfold nvme_process_db. apply wlp_gets. cbv zeta. cond; [by apply invalid_doorbell_ok|]. cond.
  - set (q := u32 _). apply wlp_bind, wlp_check_cqid. intros b _ _. cond; [by apply invalid_doorbell_ok|].
    apply wlp_bind, wlp_get_cq. intros cq _. cond; [by apply invalid_doorbell_ok|].
    apply wlp_bind. eapply wlp_mono; [apply cq_full_tick|]. intros full n1 T1.
    assert (ctrl_ok n1) as Hn1 by (by apply (steady_ok n), Hn; apply tick_steady).
    apply wlp_bind, wlp_get_cq. intros cq1 E1. apply wlp_bind. apply (wlp_mono _ (fun _ n2 => ctrl_ok n2)).
    { cond; [|done]. apply wlp_modify. apply (steady_ok n1); [|done]. by eapply tick_steady, put_cq_tick; [exact E1|..]. }
    intros _ n2 Hn2. cond; [|done]. apply wlp_bind. eapply wlp_mono; [by apply kick_sqs_ok|]. intros ? n3 Hn3.
    apply wlp_bind, wlp_get_cq. intros cq3 E3. cond; [|done]. apply wlp_bind.
    eapply (wlp_keeps _ (fun _ => True)); [apply keeps_on_ssd|]. intros t n4 K4 _. apply wlp_modify.
    apply (steady_ok n3); [|done]. transitivity n4; [by apply same_queues_steady|].
    by eapply tick_steady, put_cq_tick; [by destruct K4 as (_ & -> & _)|..].
  - set (q := u32 _). apply wlp_bind, wlp_check_sqid. intros b _ _. cond; [by apply invalid_doorbell_ok|].
    apply wlp_bind, wlp_get_sq. intros sq Esq. cond; [by apply invalid_doorbell_ok|].
    apply wlp_bind. apply (wlp_mono _ (fun _ n2 => ctrl_ok n2)); [|intros _ n2 Hn2; by apply kick_ok].
    cond; [|done]. apply wlp_modify. apply (steady_ok n); [|done]. by eapply tick_steady, put_sq_tick; [exact Esq|..].
Qed.

(** ** Start and reset *)

Lemma free_sqs_spec k i n :
  0 <= i -> i + Z.of_nat k <= zlen (sqs n) ->
  wp (mfor k i free_sqs) (fun _ n' => cqs n' = cqs n /\ params n' = params n /\ adm n' = adm n /\
    zlen (sqs n') = zlen (sqs n) /\ forall j sq, zget (sqs n') j = Some (Some sq) ->
      zget (sqs n) j = Some (Some sq) /\ ~ i <= j < i + Z.of_nat k) n.
Proof.
  revert i n. induction k as [|k IH]; intros i n Hi Hk; cbn [mfor].
  { apply wp_ret. split_and!; [done..|]. intros j sq E. split; [done|lia]. }
  destruct (zget_is_Some (sqs n) i) as [o Eo]; [lia|].
  apply wp_bind. apply (wp_mono _ (fun _ n1 => cqs n1 = cqs n /\ params n1 = params n /\ adm n1 = adm n /\
    zlen (sqs n1) = zlen (sqs n) /\
    forall j sq, zget (sqs n1) j = Some (Some sq) -> zget (sqs n) j = Some (Some sq) /\ j <> i)).
  - unfold free_sqs. apply wp_bind, wp_gets. apply wp_bind. eapply wp_idx; [exact Eo|]. destruct o as [sq|]; cbn [is_set].
    + unfold store_sq. apply wp_bind, wp_gets. apply wp_bind. eapply wp_idx; [exact Eo|]. apply wp_modify. cbn.
      split_and!; [done..|by rewrite zlen_zset|]. intros j sq' Ej.
      destruct (decide (j = i)) as [->|]; [rewrite zget_zset_eq in Ej by lia; done|]. by rewrite zget_zset_ne in Ej.
    + apply wp_ret. split_and!; [done..|]. intros j sq Ej. split; [done|]. intros ->. congruence.
  - intros _ n1 (E1 & E2 & E3 & E4 & Hz). eapply wp_mono; [apply IH; lia|]. intros ? n2 (F1 & F2 & F3 & F4 & Hz2).
    split_and!; [congruence..|]. intros j sq Ej. destruct (Hz2 j sq Ej) as [Ej1 Hj]. destruct (Hz j sq Ej1). split; [done|lia].
Qed.

Lemma free_cqs_spec k i n :
  0 <= i -> i + Z.of_nat k <= zlen (cqs n) ->
  wp (mfor k i free_cqs) (fun _ n' => sqs n' = sqs n /\ params n' = params n /\ adm n' = adm n /\
    zlen (cqs n') = zlen (cqs n) /\ forall j cq, zget (cqs n') j = Some (Some cq) ->
      zget (cqs n) j = Some (Some cq) /\ ~ i <= j < i + Z.of_nat k) n.
Proof.
  revert i n. induction k as [|k IH]; intros i n Hi Hk; cbn [mfor].
  { apply wp_ret. split_and!; [done..|]. intros j cq E. split; [done|lia]. }
  destruct (zget_is_Some (cqs n) i) as [o Eo]; [lia|].
  apply wp_bind. apply (wp_mono _ (fun _ n1 => sqs n1 = sqs n /\ params n1 = params n /\ adm n1 = adm n /\
    zlen (cqs n1) = zlen (cqs n) /\
    forall j cq, zget (cqs n1) j = Some (Some cq) -> zget (cqs n) j = Some (Some cq) /\ j <> i)).
  - unfold free_cqs. apply wp_bind, wp_gets. apply wp_bind. eapply wp_idx; [exact Eo|]. destruct o as [cq|]; cbn [is_set].
    + unfold store_cq. apply wp_bind, wp_gets. apply wp_bind. eapply wp_idx; [exact Eo|]. apply wp_modify. cbn.
      split_and!; [done..|by rewrite zlen_zset|]. intros j cq' Ej.
      destruct (decide (j = i)) as [->|]; [rewrite zget_zset_eq in Ej by lia; done|]. by rewrite zget_zset_ne in Ej.
    + apply wp_ret. split_and!; [done..|]. intros j cq Ej. split; [done|]. intros ->. congruence.
  - intros _ n1 (E1 & E2 & E3 & E4 & Hz). eapply wp_mono; [apply IH; lia|]. intros ? n2 (F1 & F2 & F3 & F4 & Hz2).
    split_and!; [congruence..|]. intros j cq Ej. destruct (Hz2 j cq Ej) as [Ej1 Hj]. destruct (Hz j cq Ej1). split; [done|lia].
Qed.

(** A controller without queues. *)
Record no_queues n : Prop := mk_no_queues {
  nq_sq : forall k sq, zget (sqs n) k <> Some (Some sq);
  nq_cq : forall c cq, zget (cqs n) c <> Some (Some cq);
  nq_len : zlen (sqs n) = num_io_queues (params n) + 1 /\ zlen (cqs n) = num_io_queues (params n) + 1 /\
    num_io_queues (params n) < 2 ^ 16;
  nq_aers : (aers n).1 = 0
}.

Lemma no_queues_ok n : no_queues n -> ctrl_ok n.
Proof.
  intros [Hs Hc Hlen Ha].
  assert (forall k, sq_lists n k = None) as Es.
  { intros k. unfold sq_lists. specialize (Hs k). destruct (zget (sqs n) k) as [[sq|]|]; [|done..]. by destruct (Hs sq). }
  assert (forall c, cq_list n c = None) as Ec.
  { intros c. unfold cq_list. specialize (Hc c). destruct (zget (cqs n) c) as [[cq|]|]; [|done..]. by destruct (Hc cq). }
  constructor.
  - constructor; [done|intros k c z f o; by rewrite Es|intros c id w; by rewrite Ec].
  - intros k c z. unfold sq_id. by rewrite Es.
  - unfold out_list. rewrite Es. constructor; rewrite ?Ha; [lia..|constructor].
Qed.

(** Nothing is left but the registers other than the configuration, the
    features and what is not reset. *)
Lemma clear_spec n :
  queues_ok n -> forallb is_set (aer_queue (adm n)) = true ->
  wp nvme_clear_ctrl (fun _ n' => no_queues n' /\ params n' = params n /\ aer_timer (adm n') = None /\
    aer_queue (adm n') = [] /\ bar (adm n') = bar_cc 0 (bar (adm n))) n.
Proof.
  intros Hn Hev. pose proof (qo_len _ Hn) as (L1 & L2 & L3). pose proof (zlen_nonneg (sqs n)).
  unfold nvme_clear_ctrl. apply wp_bind, wp_gets. apply wp_bind.
  eapply wp_mono; [apply free_sqs_spec; lia|]. intros ? n1 (E1 & E2 & E3 & E4 & Hz1). apply wp_bind.
  eapply wp_mono; [apply free_cqs_spec; rewrite ?E1; lia|]. intros ? n2 (F1 & F2 & F3 & F4 & Hz2).
  rewrite Z2Nat.id in Hz1, Hz2 by lia. apply wp_bind, wp_modify. apply wp_bind, wp_gets. cbn [adm set_adm aer_queue set_aer_timer].
  rewrite F3, E3, Hev. apply wp_bind, wp_ret. do 5 (apply wp_bind, wp_modify). apply wp_modify.
  split_and!; [constructor|exact (eq_trans F2 E2)|done..]; cbn.
  - intros k sq E. rewrite F1 in E. destruct (Hz1 _ _ E) as [E' Hk]. apply zget_Some_range in E'. lia.
  - intros c cq E. destruct (Hz2 _ _ E) as [E' Hc]. apply zget_Some_range in E'. rewrite E1 in E'. lia.
  - rewrite F1, F2, E2, F4, E1. lia.
  - done.
Qed.

(** With a freed event in the queue the reset does not return. *)
Lemma clear_crashes n :
  queues_ok n -> forallb is_set (aer_queue (adm n)) = false -> nvme_clear_ctrl n = Crash UseAfterFree.
Proof.
  intros Hn Hev. pose proof (qo_len _ Hn) as (L1 & L2 & L3). pose proof (zlen_nonneg (sqs n)).
  unfold nvme_clear_ctrl, mbind at 1, M_bind at 1, gets at 1, mbind at 1, M_bind at 1.
  set (k := Z.to_nat (num_io_queues (params n) + 1)).
  assert (wp (mfor k 0 free_sqs) (fun _ n' => cqs n' = cqs n /\ adm n' = adm n) n) as Hs.
  { eapply wp_mono; [apply free_sqs_spec; lia|]. intros ? n1 (? & _ & ? & _). done. }
  apply wp_Ok in Hs as ([] & n1 & -> & E1 & E3). unfold mbind at 1, M_bind at 1.
  assert (wp (mfor k 0 free_cqs) (fun _ n' => adm n' = adm n1) n1) as Hs.
  { eapply wp_mono; [apply free_cqs_spec; rewrite ?E1; lia|]. intros ? n2 (_ & _ & ? & _). done. }
  apply wp_Ok in Hs as ([] & n2 & -> & F3).
  unfold mbind at 1, M_bind at 1, upd_adm at 1, modify at 1.
  unfold mbind at 1, M_bind at 1, gets at 1, mbind at 1, M_bind at 1. cbn [adm set_adm aer_queue set_aer_timer].
  by rewrite F3, E3, Hev.
Qed.

Lemma clear_no_queues n : queues_ok n -> wlp nvme_clear_ctrl (fun _ n' => no_queues n') n.
Proof.
  intros Hn. destruct (forallb is_set (aer_queue (adm n))) eqn:E.
  - pose proof (clear_spec n Hn E) as Hw. apply wp_Ok in Hw as (a & n' & E' & Hq & _). unfold wlp. by rewrite E'.
  - unfold wlp. by rewrite clear_crashes.
Qed.

Lemma start_ok n : ctrl_ok n -> wlp nvme_start_ctrl (fun _ n' => ctrl_ok n') n.
Proof.
  intros Hn. unfold nvme_start_ctrl. apply wlp_gets, wlp_bind, wlp_idx. intros o Eo.
  apply wlp_gets, wlp_bind, wlp_idx. intros o' Eo'. apply wlp_gets. destruct o, o'; cbn [is_set orb]; try done.
  destruct (start_refused n); [done|]. apply wlp_gets. cbv zeta. apply wlp_bind, wlp_modify. set (n1 := set_params _ n).
  assert (ctrl_ok n1) as Hn1.
  { apply (steady_ok n); [|done]. apply tick_steady. by split_and!. }
  apply wlp_bind. eapply wlp_mono; [apply wlp_and; [apply init_cq_steady|apply init_cq_sqs]|].
  { intros o. change (cqs n1) with (cqs n). rewrite Eo. congruence. }
  intros ? n2 [S2 F2]. apply wlp_bind. eapply wlp_mono; [apply init_sq_steady|].
  { intros o. rewrite F2. change (sqs n1) with (sqs n). rewrite Eo'. congruence. }
  intros ? n3 S3. do 2 (apply wlp_bind, wlp_modify).
  do 2 (apply (upd_adm_ok (fun x => _ x)); [done|]). by apply (steady_ok n2), (steady_ok n1).
Qed.

Lemma upd_bar_ok f n : ctrl_ok n -> wlp (upd_bar f) (fun _ n' => ctrl_ok n') n.
Proof. intros Hn. apply wlp_modify. by apply (upd_adm_ok (fun x => set_bar (f (bar x)) x)). Qed.

Lemma clear_ok n : ctrl_ok n -> wlp nvme_clear_ctrl (fun _ n' => ctrl_ok n') n.
Proof. intros Hn. eapply wlp_mono; [apply clear_no_queues, Hn|]. intros ? n1. apply no_queues_ok. Qed.

(** One operation after the other. *)
Lemma wlp_seq {A B} (m : NM A) (k : A -> NM B) n :
  wlp m (fun _ n' => ctrl_ok n') n -> (forall a n1, ctrl_ok n1 -> wlp (k a) (fun _ n' => ctrl_ok n') n1) ->
  wlp (m ≫= k) (fun _ n' => ctrl_ok n') n.
Proof. intros Hm Hk. apply wlp_bind. eapply wlp_mono; [exact Hm|]. intros a n1 Hn1. by apply Hk. Qed.

Lemma write_cc_ok v n : ctrl_ok n -> wlp (nvme_write_cc v) (fun _ n' => ctrl_ok n') n.
Proof.
  intros Hn. unfold nvme_write_cc. apply wlp_gets. apply wlp_seq.
  - cond; [|cond; [|done]].
    + apply wlp_seq; [by apply upd_bar_ok|]. intros _ n1 Hn1. apply wlp_seq; [by apply start_ok|].
      intros ok n2 Hn2. by apply upd_bar_ok.
    + apply wlp_seq; [by apply clear_ok|]. intros _ n1 Hn1. by apply upd_bar_ok.
  - intros _ n1 Hn1. apply wlp_gets. cond; [|cond; [|done]].
    + apply wlp_seq; [by apply clear_ok|]. intros _ n2 Hn2. apply wlp_seq; [by apply upd_bar_ok|].
      intros _ n3 Hn3. by apply upd_bar_ok.
    + apply wlp_seq; [by apply upd_bar_ok|]. intros _ n2 Hn2. by apply upd_bar_ok.
Qed.

Lemma mmio_ok addr v n : ctrl_ok n -> wlp (nvme_mmio_write addr v) (fun _ n' => ctrl_ok n') n.
Proof.
  intros Hn. unfold nvme_mmio_write. cond; [|cond; [by apply process_db_ok|done]].
  unfold nvme_write_bar. repeat (cond; [first [by apply upd_bar_ok|by apply write_cc_ok]|]). done.
Qed.
End Admin_queue.

(** ** Everything that happens to the controller *)

(** The timers of the I/O queues and of the admin queues, the timer of the
    events, the callback of the block layer, and the guest's writes to the
    registers and to its memory. *)
Inductive event : Type :=
| Submit (q : Z)
| Complete (q : Z)
| Admin
| Complete_admin
| Events
| Callback (req : NvmeRequest) (ok : bool)
| Mmio (addr data : Z)
| Store (g : memory).

Definition handle `{Clock} `{Guest} `{Backend} (e : event) : NM unit :=
  match e with
  | Submit q => nvme_process_sq_io q
  | Complete q => nvme_post_cqes_io q
  | Admin => sq_timer_fires 0;; nvme_process_sq_admin 0
  | Complete_admin => nvme_post_cqes_admin 0
  | Events => nvme_aer_process_cb
  | Callback req ok => nvme_misc_cb req ok
  | Mmio addr data => nvme_mmio_write addr data
  | Store g => modify (set_guest g)
  end.

(** The admin queue has a timer function of its own; the block layer calls back
    for a request it was handed and whose queue still exists. *)
Definition enabled (e : event) (n : NvmeCtrl) : Prop :=
  match e with
  | Submit q => q <> 0
  | Callback req _ => req ∈ out_list n (r_sqid req) /\ aiocb req <> None
  | _ => True
  end.

Inductive ctrl_step `{Clock} `{Guest} `{Backend} (n n' : NvmeCtrl) : Prop :=
| step e : enabled e n -> handle e n = Ok tt n' -> ctrl_step n n'.

Lemma ctrl_step_ok `{Clock} `{Guest} `{Backend} n n' :
  ctrl_step n n' -> ctrl_ok n -> ctrl_ok n'.
Proof.
  intros [e He E] Hn. pose proof (co_queues _ Hn) as Hq.
  destruct e as [q|q| | | |req ok|addr v|g]; cbn [enabled handle] in He, E.
  - eapply steady_ok; [|exact Hn]. apply (conserved_steady (eq q)); [done|].
    exact (wlp_Ok _ _ _ _ _ (process_sq_conserved q n Hq) E).
  - eapply steady_ok; [|exact Hn]. apply (conserved_steady (fun _ => False)); [tauto|].
    exact (wlp_Ok _ _ _ _ _ (post_cqes_conserved _ q n) E).
  - exact (wlp_Ok _ _ _ _ _ (process_admin_ok n Hn) E).
  - eapply steady_ok; [|exact Hn]. apply (conserved_steady (fun _ => False)); [tauto|].
    exact (wlp_Ok _ _ _ _ _ (post_cqes_admin_conserved _ 0 n) E).
  - exact (wlp_Ok _ _ _ _ _ (aer_loop_ok _ 0 n Hn) E).
  - destruct He as [Hin Haio]. eapply steady_ok; [|exact Hn]. apply (conserved_steady (eq (r_sqid req))).
    + intros E0. rewrite E0 in Hin. pose proof (ai_aio _ _ (co_aers _ Hn)) as HF. rewrite list.Forall_forall in HF. auto.
    + refine (wlp_Ok _ _ _ _ _ (misc_cb_conserved req ok n _) E). intros sq Esq. by rewrite (out_list_get _ _ _ Esq) in Hin.
  - exact (wlp_Ok _ _ _ _ _ (mmio_ok addr v n Hn) E).
  - injection E as <-. apply (steady_ok n); [|done]. by apply tick_steady.
Qed.

Lemma ctrl_steps_ok `{Clock} `{Guest} `{Backend} n n' :
  rtc ctrl_step n n' -> ctrl_ok n -> ctrl_ok n'.
Proof.
  intros Hs. induction Hs as [n|n n1 n2 Hstep _ IH]; [done|]. intros Hn. apply IH. by eapply ctrl_step_ok.
Qed.

(** A sequence of events. *)
Fixpoint handle_all `{Clock} `{Guest} `{Backend} (l : list event) : NM unit :=
  match l with
  | [] => mret tt
  | e :: l' => handle e;; handle_all l'
  end.

Definition always_enabled (e : event) : bool :=
  match e with Submit q => negb (q =? 0) | Callback _ _ => false | _ => true end.

Lemma handle_all_steps `{Clock} `{Guest} `{Backend} l n n' :
  forallb always_enabled l = true -> handle_all l n = Ok tt n' -> rtc ctrl_step n n'.
Proof.
  revert n. induction l as [|e l IH]; intros n Hl; cbn [handle_all]; [intros [= <-]; constructor|].
  cbn [forallb] in Hl. apply andb_prop in Hl as [He Hl]. unfold mbind, M_bind.
  destruct (handle e n) as [[] n1| |] eqn:E; [|done..]. intros E'. eapply rtc_l; [|by apply IH].
  exists e; [|done]. destruct e; cbn in *; try done. by destruct (Z.eqb_spec q 0).
Qed.
