(* ===== verification/NvmeSetup.v ===== *)
(** * The set-up of the controller: nvme.c

    The properties of the device and their checks, the identification, the
    capabilities register, the namespaces, [nvme_init] and [nvme_exit], and
    reads of the registers.  The controller starts as zeroes and the properties
    ([ctrl_blank]); QEMU's part of the set-up, the PCI configuration, only
    gives the vendor of the subsystem. *)

From Stdlib Require Import ZArith Lia List String Ascii.
From stdpp Require Import base tactics numbers list functions.
From S2P Require Import Prelude Config State Timing Ftl Ssd Init Device Nvme NvmeOc NvmeQueue NvmeInfo NvmeAdmin NvmeLife.

Open Scope Z_scope.

Definition NVME_MAX_QS : Z := 2047.
Definition NVME_MAX_STRIDE : Z := 12.
Definition NVME_MAX_NUM_NAMESPACES : Z := 256.
Definition NVME_MAX_QUEUE_ES : Z := 15.
Definition NVME_MIN_CQUEUE_ES : Z := 4.
Definition NVME_MIN_SQUEUE_ES : Z := 6.
Definition NVME_TEMPERATURE : Z := 323.
Definition NVME_OACS_DBBUF : Z := 256.
Definition NVME_ID_NS_DPC_TYPE_MASK : Z := 7.
Definition DPS_FIRST_EIGHT : Z := 8.
Definition DATA_BITS_NVME : Z := 12.

Definition NVME_ID_NS_MC_SEPARATE (mc : Z) : Z := Z.land (Z.shiftr mc 1) 1.
Definition NVME_ID_NS_MC_EXTENDED (mc : Z) : Z := Z.land mc 1.
Definition NVME_ID_NS_DPC_LAST_EIGHT (dpc : Z) : Z := Z.land (Z.shiftr dpc 4) 1.
Definition NVME_ID_NS_DPC_FIRST_EIGHT (dpc : Z) : Z := Z.land (Z.shiftr dpc 3) 1.

(** ** Properties *)

(** The properties a controller is created with; [p_blk] is that there is a
    block device, [p_serial] the serial number, which [blkconf_serial] may have
    taken from it.  [cmbsz] is 0. *)
Record nvme_props : Type := mk_nvme_props {
  p_blk : bool;
  p_serial : option string;
  p_num_namespaces : Z;
  p_num_io_queues : Z;
  p_max_q_ents : Z;
  p_max_cqes : Z;
  p_max_sqes : Z;
  p_db_stride : Z;
  p_aerl : Z;
  p_acl : Z;
  p_elpe : Z;
  p_mdts : Z;
  p_cqr : Z;
  p_vwc : Z;
  p_intc : Z;
  p_intc_thresh : Z;
  p_intc_time : Z;
  p_mpsmin : Z;
  p_mpsmax : Z;
  p_nlbaf : Z;
  p_lba_index : Z;
  p_extended : Z;
  p_dpc : Z;
  p_dps : Z;
  p_mc : Z;
  p_meta : Z;
  p_oacs : Z;
  p_oncs : Z;
  p_vid : Z;
  p_femu_mode : Z
}.

(** [n->x] as a condition. *)
Definition true_ (x : Z) : bool := negb (x =? 0).

(** The condition of each line of the check. *)
Definition nvme_check_constraints (d : nvme_props) : Z :=
  let pi := Z.land (p_dps d) DPS_TYPE_MASK in
  if negb (p_blk d) || negb (bool_decide (is_Some (p_serial d)))
     || ((p_num_namespaces d =? 0) || (NVME_MAX_NUM_NAMESPACES <? p_num_namespaces d))
     || ((p_num_io_queues d <? 1) || (NVME_MAX_QS <? p_num_io_queues d))
     || (NVME_MAX_STRIDE <? p_db_stride d)
     || (p_max_q_ents d <? 1)
     || ((NVME_MAX_QUEUE_ES <? p_max_sqes d) || (NVME_MAX_QUEUE_ES <? p_max_cqes d)
         || (p_max_sqes d <? NVME_MIN_SQUEUE_ES) || (p_max_cqes d <? NVME_MIN_CQUEUE_ES))
     || ((1 <? p_vwc d) || (1 <? p_intc d) || (1 <? p_cqr d) || (1 <? p_extended d))
     || (16 <? p_nlbaf d)
     || (p_nlbaf d <=? p_lba_index d)
     || (true_ (p_meta d) && negb (true_ (p_mc d)))
     || (true_ (p_extended d) && negb (true_ (NVME_ID_NS_MC_EXTENDED (p_mc d))))
     || (negb (true_ (p_extended d)) && true_ (p_meta d) && negb (true_ (NVME_ID_NS_MC_SEPARATE (p_mc d))))
     || (true_ (p_dps d) && (p_meta d <? 8))
     || (true_ (p_dps d) && (has (p_dps d) DPS_FIRST_EIGHT && negb (true_ (NVME_ID_NS_DPC_FIRST_EIGHT (p_dpc d)))))
     || (true_ (p_dps d) && negb (has (p_dps d) DPS_FIRST_EIGHT) && negb (true_ (NVME_ID_NS_DPC_LAST_EIGHT (p_dpc d))))
     || (true_ pi && negb (has (Z.land (p_dpc d) NVME_ID_NS_DPC_TYPE_MASK) (2 ^ (pi - 1))))
     || ((15 <? p_mpsmax d) || (p_mpsmin d <? p_mpsmax d))
     || has (p_oacs d) (Z.lnot NVME_OACS_FORMAT)
     || has (p_oncs d) (Z.lnot (Z.lor (Z.lor NVME_ONCS_COMPARE NVME_ONCS_WRITE_UNCORR)
                                      (Z.lor NVME_ONCS_DSM NVME_ONCS_WRITE_ZEROS)))
  then -1 else 0.

(** ** Identification *)

(** [strpadcpy] of [s] to [k] bytes, padded with spaces. *)
Definition strpadcpy (s : string) (k : Z) : Z :=
  nth (Z.to_nat k) (map (fun c => Z.of_N (N_of_ascii c)) (list_ascii_of_string s)) 32.

(** The 4096 bytes of [NvmeIdCtrl]. *)
Definition id_ctrl_bytes (d : nvme_props) (ssvid : Z) : memory := fun k =>
  let at_ a n v := if (a <=? k) && (k <? a + n) then Some (le_byte v (k - a)) else None in
  let str a n s := if (a <=? k) && (k <? a + n) then Some (strpadcpy s (k - a)) else None in
  default 0 (foldr (fun x r => match x with Some v => Some v | None => r end) None
    [at_ 0 2 (p_vid d); at_ 2 2 ssvid; str 4 20 (default EmptyString (p_serial d)); str 24 40 "FEMU NVMe Ctrl"%string;
     str 64 8 "1.0"%string; at_ 72 1 6; at_ 73 1 0; at_ 74 1 2; at_ 75 1 179; at_ 76 1 0; at_ 77 1 (p_mdts d);
     at_ 256 2 (Z.lor (p_oacs d) NVME_OACS_DBBUF); at_ 258 1 (p_acl d); at_ 259 1 (p_aerl d); at_ 260 1 15;
     at_ 261 1 0; at_ 262 1 (p_elpe d); at_ 263 1 0; at_ 512 1 (Z.lor (Z.shiftl (p_max_sqes d) 4) 6);
     at_ 513 1 (Z.lor (Z.shiftl (p_max_cqes d) 4) 4); at_ 516 4 (p_num_namespaces d); at_ 520 2 (p_oncs d);
     at_ 522 2 0; at_ 524 1 0; at_ 525 1 (p_vwc d); at_ 526 2 0; at_ 528 2 0; at_ 2048 2 2500; at_ 2052 4 16;
     at_ 2056 4 4]).

(** [cap |= (uint64_t)(val & mask) << shift] *)
Definition cap_set (val mask shift cap : Z) : Z := Z.lor cap (u64 (Z.shiftl (Z.land val mask) shift)).

Definition init_cap (d : nvme_props) (oc : bool) : Z :=
  let c := cap_set (p_max_q_ents d) 65535 0 0 in
  let c := cap_set (p_cqr d) 1 16 c in
  let c := cap_set 1 3 17 c in
  let c := cap_set 15 255 24 c in
  let c := cap_set (p_db_stride d) 15 32 c in
  let c := cap_set 0 1 33 c in
  let c := cap_set 1 255 37 c in
  let c := if (p_femu_mode d =? FEMU_WHITEBOX_MODE) && oc then cap_set 1 1 44 c else c in
  let c := cap_set (p_mpsmin d) 15 48 c in
  cap_set (p_mpsmax d) 15 52 c.

(** ** The controller before and during the set-up *)

Definition ctrl_blank (d : nvme_props) (oc : FEMU_OC_Ctrl) (g : oc_globals) (mem : memory) : NvmeCtrl :=
  mk_NvmeCtrl
    (mk_NvmeParams (p_num_namespaces d) (p_mdts d) 0 0 0 0 0 (p_oncs d) (p_vwc d) (p_femu_mode d) (p_elpe d) 0
       (p_num_io_queues d) (p_db_stride d) (p_aerl d) 0 (p_oacs d) (p_meta d) 0 0 (fun _ => 0))
    [] [] 0 0 0 [] [] (fun _ => 0) mem (fun _ => 0) ssd_zero
    (mk_NvmeAdm (mk_NvmeBar 0 0 0 0 0 0 0) 0 0 (mk_NvmeFeatureVal 0 0 0 0 0 0 [] 0 0 0) false [] [] 0 0 None false)
    oc g.

(** [heap_size], the bytes of [heap_storage], and [ns_size]. *)
Definition with_storage (bytes size : Z) (p : NvmeParams) : NvmeParams :=
  mk_NvmeParams (num_namespaces p) (mdts p) (page_bits p) (page_size p) (max_prp_ents p) (sqe_size p) (cqe_size p)
    (oncs p) (vwc p) (femu_mode p) (elpe p) bytes (num_io_queues p) (db_stride p) (aerl p) (cap p) (oacs p) (n_meta p)
    size (temperature p) (id_ctrl p).

Definition with_id (c t : Z) (id : memory) (p : NvmeParams) : NvmeParams :=
  mk_NvmeParams (num_namespaces p) (mdts p) (page_bits p) (page_size p) (max_prp_ents p) (sqe_size p) (cqe_size p)
    (oncs p) (vwc p) (femu_mode p) (elpe p) (heap_size p) (num_io_queues p) (db_stride p) (aerl p) c (oacs p) (n_meta p)
    (ns_size p) t id.

(** The arrays, with zeroes in them. *)
Definition alloc_arrays (d : nvme_props) : NM unit :=
  let k := p_num_io_queues d + 1 in
  modify (set_sqs (ztab k (fun _ => None)));;
  modify (set_cqs (ztab k (fun _ => None)));;
  modify (set_namespaces (ztab (p_num_namespaces d) (fun _ => mk_NvmeNamespace 0 0 0
    (ztab 16 (fun _ => mk_NvmeLBAF 0 0)) 0 0 (fun _ => false) (fun _ => false) 0 0 0 0 0 (fun _ => 0) 0 0 None [])));;
  modify (set_errors (ztab (p_elpe d + 1) (fun _ => mk_NvmeErrorLog 0 0 0 0 0 0 0)) 0 0 0);;
  upd_adm (set_aer_reqs (ztab (p_aerl d + 1) (fun _ => None)) 0);;
  upd_adm (fun a => set_features (with_vectors (ztab k (fun _ => 0)) (features a)) a).

(** Reserved bits and constants are written out; the features' copy of the number
    of queues is computed where it is read. *)
Definition nvme_init_ctrl (d : nvme_props) (ssvid : Z) : NM unit :=
  oc ← gets femu_oc_dev;
  upd_adm (set_features (mk_NvmeFeatureVal 521078534 0 333 0 (p_vwc d)
    (Z.lor (p_intc_thresh d) (Z.shiftl (p_intc_time d) 8))
    (ztab (p_num_io_queues d + 1) (fun i => Z.lor i (Z.shiftl (p_intc d) 16))) 0 0 0));;
  modify (fun n => set_params (with_id (init_cap d oc) NVME_TEMPERATURE (id_ctrl_bytes d ssvid) (params n)) n);;
  upd_bar (bar_int 0).

(** ** Namespaces *)

(** The formats: all that are in use are the same. *)
Definition init_lbaf (d : nvme_props) : list NvmeLBAF :=
  ztab 16 (fun j => if (j <? p_nlbaf d) || (j =? 0) then mk_NvmeLBAF PI_BYTES_NVME DATA_BITS_NVME else mk_NvmeLBAF 0 0).

Definition init_namespace (d : nvme_props) (i : Z) : NM unit :=
  q ← gets params;
  l ← gets namespaces;
  ns ← idx l i;
  let fl := u8 (Z.lor (p_lba_index d) (Z.shiftl (p_extended d) 4)) in
  let k := Z.land fl 15 in
  f ← idx (init_lbaf d) k;
  let ns := mk_NvmeNamespace (i + 1) (ns_size q / 2 ^ ds f) fl (init_lbaf d) (p_dps d) 0 (fun _ => false) (fun _ => false)
    (u8 (p_nlbaf d - 1)) (p_mc d) (p_dpc d) 0 (meta_start_offset ns) (lba_range ns) (tbl_dsk_start_offset ns)
    (tbl_entries ns) (tbl ns) (bbtbl ns) in
  b ← calc_ns_blks ns k;
  bdrv ← ns_bdrv_blks ns b k;
  let ns := mk_NvmeNamespace (ns_id ns) (nsze ns) (flbas ns) (lbaf ns) (ns_dps ns)
    (u64 (i * (Z.shiftr (ns_size q) BDRV_SECTOR_BITS + n_meta q * bdrv))) (util ns) (uncorrectable ns) (nlbaf ns)
    (ns_mc ns) (ns_dpc ns) b (meta_start_offset ns) (lba_range ns) (tbl_dsk_start_offset ns) (tbl_entries ns) (tbl ns)
    (bbtbl ns) in
  ns ← nvme_partition_ns ns k;
  upd_namespace i (fun _ => ns).

Definition nvme_init_namespaces (d : nvme_props) : NM unit :=
  mfor (Z.to_nat (p_num_namespaces d)) 0 (init_namespace d).

Section Setup.
Context `{Clock} `{Guest} `{Backend}.

(** [bs_size] is the length of the block device; the last three are the files
    [SSD_INIT] reads and writes. *)
Definition nvme_init (d : nvme_props) (ssvid bs_size : Z) (file : option (list string)) (stat_ok : bool)
  (trace : option bool) : NM Z :=
  if true_ (nvme_check_constraints d) then mret (-1)
  else if bs_size <? 0 then mret (-1)
  else
    modify (set_heap_storage (fun _ => 0));;
    modify (fun n => set_params (with_storage bs_size (bs_size / p_num_namespaces d) (params n)) n);;
    alloc_arrays d;;
    nvme_init_ctrl d ssvid;;
    nvme_init_namespaces d;;
    oc ← gets femu_oc_dev;
    if (p_femu_mode d =? FEMU_WHITEBOX_MODE) && oc then femu_oc_init
    else
      (if p_femu_mode d =? FEMU_BLACKBOX_MODE then on_ssd (SSD_INIT file stat_ok trace) else mret tt);;
      mret 0.

(** The two files [femu_oc_exit] closes are never opened. *)
Definition femu_oc_exit : NM unit := mcrash NullDeref.

Definition nvme_exit : NM unit :=
  q ← gets params;
  oc ← gets femu_oc_dev;
  nvme_clear_ctrl;;
  modify (set_heap_storage (fun _ => 0));;
  modify (set_namespaces []);;
  modify (set_errors [] 0 0 0);;
  modify (set_sqs []);;
  modify (set_cqs []);;
  if (femu_mode q =? FEMU_WHITEBOX_MODE) && oc then femu_oc_exit else mret tt.

(** ** Reads of the registers *)

(** The 64 bytes of [NvmeBar]; the version is 1.1, and the controller memory
    buffer has no size. *)
Definition bar_bytes (n : NvmeCtrl) : memory := fun k =>
  let b := bar (adm n) in
  let at_ a w v := if (a <=? k) && (k <? a + w) then Some (le_byte v (k - a)) else None in
  default 0 (foldr (fun x r => match x with Some v => Some v | None => r end) None
    [at_ 0 8 (cap (params n)); at_ 8 4 65792; at_ 12 4 (intms b); at_ 16 4 (intmc b); at_ 20 4 (cc b);
     at_ 28 4 (csts b); at_ 36 4 (aqa b); at_ 40 8 (asq b); at_ 48 8 (acq b)]).

Definition nvme_mmio_read (addr size : Z) : NM Z :=
  if 64 <=? addr then mret 0
  else if 64 <? addr + size then mcrash OutOfBounds
  else n ← mget; mret (le (bar_bytes n) addr (Z.to_nat size)).

End Setup.

(** ** Lemmas: the checks *)

(** The properties at their widths. *)
Record props_typed (d : nvme_props) : Prop := mk_props_typed {
  pt_bytes : Forall (fun x => 0 <= x < 2 ^ 8) [p_max_cqes d; p_max_sqes d; p_db_stride d; p_aerl d; p_acl d; p_elpe d;
    p_mdts d; p_cqr d; p_vwc d; p_intc d; p_intc_thresh d; p_intc_time d; p_mpsmin d; p_mpsmax d; p_nlbaf d;
    p_lba_index d; p_extended d; p_dpc d; p_dps d; p_mc d; p_meta d; p_femu_mode d];
  pt_words : Forall (fun x => 0 <= x < 2 ^ 16) [p_oacs d; p_oncs d; p_vid d];
  pt_ints : Forall (fun x => 0 <= x < 2 ^ 32) [p_num_namespaces d; p_num_io_queues d; p_max_q_ents d]
}.

(** What the rest of the set-up needs of the checks. *)
Record props_checked (d : nvme_props) : Prop := mk_props_checked {
  pk_ns : 1 <= p_num_namespaces d <= 256;
  pk_queues : 1 <= p_num_io_queues d <= 2047;
  pk_sqes : 6 <= p_max_sqes d <= 15;
  pk_cqes : 4 <= p_max_cqes d <= 15;
  pk_lba : 0 <= p_lba_index d < p_nlbaf d;
  pk_nlbaf : p_nlbaf d <= 16;
  pk_extended : 0 <= p_extended d <= 1;
  pk_meta : 0 <= p_meta d < 2 ^ 8;
  pk_elpe : 0 <= p_elpe d;
  pk_mps : 0 <= p_mpsmax d <= 15 /\ p_mpsmax d <= p_mpsmin d
}.

Lemma constraints_checked d : props_typed d -> nvme_check_constraints d = 0 -> props_checked d.
Proof.
  intros [Hb _ Hi] E. repeat (apply Forall_cons_iff in Hb as [? Hb]). repeat (apply Forall_cons_iff in Hi as [? Hi]).
  unfold nvme_check_constraints in E.
  match type of E with (if ?c then _ else _) = _ => destruct c eqn:Ec; [done|] end.
  rewrite !orb_false_iff, !Z.ltb_ge, !Z.leb_gt, Z.eqb_neq in Ec.
  unfold NVME_MAX_NUM_NAMESPACES, NVME_MAX_QS, NVME_MAX_QUEUE_ES, NVME_MIN_SQUEUE_ES, NVME_MIN_CQUEUE_ES in Ec.
  destruct_and!. constructor; lia.
Qed.

(** ** Lemmas: the capabilities register *)

Lemma cap_bit v k s c i :
  0 <= s -> 0 <= k -> s + k <= 64 -> 0 <= i ->
  Z.testbit (cap_set v (Z.ones k) s c) i =
  Z.testbit c i || ((s <=? i) && (i <? s + k) && Z.testbit v (i - s)).
Proof.
  intros Hs Hk H64 Hi. unfold cap_set, u64. rewrite Z.lor_spec. f_equal.
  destruct (Z.ltb_spec i 64).
  - rewrite Z.mod_pow2_bits_low, Z.shiftl_spec, Z.land_spec by lia.
    destruct (Z.leb_spec s i); [|rewrite Z.testbit_neg_r by lia; done]. cbn [andb].
    destruct (Z.ltb_spec i (s + k)).
    + by rewrite Z.ones_spec_low, andb_true_r by lia.
    + by rewrite Z.ones_spec_high, andb_false_r by lia.
  - rewrite Z.mod_pow2_bits_high by lia. destruct (Z.ltb_spec i (s + k)); [lia|]. by rewrite andb_false_r.
Qed.

Lemma field_bit c s k i : 0 <= s -> 0 <= k -> 0 <= i ->
  Z.testbit (Z.land (Z.shiftr c s) (Z.ones k)) i = (i <? k) && Z.testbit c (i + s).
Proof.
  intros Hs Hk Hi. rewrite Z.land_spec, Z.shiftr_spec by lia.
  destruct (Z.ltb_spec i k).
  - by rewrite Z.ones_spec_low, andb_true_r by lia.
  - by rewrite Z.ones_spec_high, andb_false_r by lia.
Qed.

Lemma cap_other v k s c k' s' :
  0 <= s -> 0 <= k -> s + k <= 64 -> 0 <= s' -> 0 <= k' -> s' + k' <= s \/ s + k <= s' ->
  Z.land (Z.shiftr (cap_set v (Z.ones k) s c) s') (Z.ones k') = Z.land (Z.shiftr c s') (Z.ones k').
Proof.
  intros Hs Hk H64 Hs' Hk' Hd. apply Z.bits_inj'. intros i Hi. rewrite !field_bit, cap_bit by lia.
  destruct (Z.ltb_spec i k'); [cbn [andb]|done].
  destruct (Z.leb_spec s (i + s')), (Z.ltb_spec (i + s') (s + k)); cbn [andb]; try lia; by rewrite orb_false_r.
Qed.

Lemma cap_same v k s c :
  0 <= s -> 0 <= k -> s + k <= 64 -> Z.land (Z.shiftr c s) (Z.ones k) = 0 ->
  Z.land (Z.shiftr (cap_set v (Z.ones k) s c) s) (Z.ones k) = v mod 2 ^ k.
Proof.
  intros Hs Hk H64 H0. rewrite <- (Z.land_ones v k) by lia. apply Z.bits_inj'. intros i Hi.
  apply (f_equal (fun x => Z.testbit x i)) in H0. rewrite field_bit, Z.bits_0 in H0 by lia.
  rewrite field_bit, cap_bit by lia. rewrite <- (Z.shiftr_0_r v) at 2. rewrite field_bit by lia.
  rewrite Z.add_0_r, Z.add_simpl_r. destruct (Z.ltb_spec i k); cbn [andb] in *; [|done]. rewrite H0.
  destruct (Z.leb_spec s (i + s)); [|lia]. destruct (Z.ltb_spec (i + s) (s + k)); [done|lia].
Qed.

(** The fields of the register that the rest of the code reads. *)
Lemma init_cap_fields d oc :
  NVME_CAP_MQES (init_cap d oc) = p_max_q_ents d mod 2 ^ 16 /\ NVME_CAP_CQR (init_cap d oc) = p_cqr d mod 2 /\
  NVME_CAP_MPSMIN (init_cap d oc) = p_mpsmin d mod 2 ^ 4 /\ NVME_CAP_MPSMAX (init_cap d oc) = p_mpsmax d mod 2 ^ 4.
Proof.
  unfold NVME_CAP_MQES, NVME_CAP_CQR, NVME_CAP_MPSMIN, NVME_CAP_MPSMAX, init_cap.
  rewrite <- (Z.shiftr_0_r (cap_set (p_mpsmax d) 15 52 _)) at 1.
  change 65535 with (Z.ones 16). change 255 with (Z.ones 8). change 15 with (Z.ones 4).
  change 3 with (Z.ones 2). change (cap_set (p_cqr d) 1) with (cap_set (p_cqr d) (Z.ones 1)).
  change (cap_set 0 1 33) with (cap_set 0 (Z.ones 1) 33). change (cap_set 1 1 44) with (cap_set 1 (Z.ones 1) 44).
  change (p_cqr d mod 2) with (p_cqr d mod 2 ^ 1).
  assert (forall x, Z.land x 1 = Z.land x (Z.ones 1)) as E1 by done. rewrite E1.
  destruct (_ && oc); split_and!.
  all: repeat (first [rewrite cap_same; [reflexivity|lia..|] | rewrite cap_other by lia]); done.
Qed.

(** ** Lemmas: the namespaces *)

(** Namespace [j] of a controller whose namespaces have [size] bytes. *)
Record ns_ready (d : nvme_props) (size j : Z) (ns : NvmeNamespace) : Prop := mk_ns_ready {
  nr_id : ns_id ns = j + 1;
  nr_size : nsze ns = size / (4096 + p_meta d);
  nr_format : zget (lbaf ns) (Z.land (flbas ns) 15) = Some (mk_NvmeLBAF PI_BYTES_NVME DATA_BITS_NVME);
  nr_good : forall b, uncorrectable ns b = false
}.

Lemma flbas_index d : props_checked d ->
  Z.land (u8 (Z.lor (p_lba_index d) (Z.shiftl (p_extended d) 4))) 15 = p_lba_index d.
Proof.
  intros []. assert (p_extended d = 0 \/ p_extended d = 1) as He by lia.
  assert (forall x, 0 <= x < 16 -> Z.land (u8 (Z.lor x 0)) 15 = x /\ Z.land (u8 (Z.lor x 16)) 15 = x) as Hx.
  { intros x Hx. rewrite <- (Z2Nat.id x) by lia. assert (Z.to_nat x < 16)%nat as Hn by lia.
    revert Hn. generalize (Z.to_nat x). intros k Hk. do 16 (destruct k as [|k]; [done|]). lia. }
  destruct (Hx (p_lba_index d)) as [? ?]; [lia|]. by destruct He as [-> | ->].
Qed.

Lemma init_lbaf_get d k : 0 <= k < p_nlbaf d -> p_nlbaf d <= 16 ->
  zget (init_lbaf d) k = Some (mk_NvmeLBAF PI_BYTES_NVME DATA_BITS_NVME).
Proof.
  intros Hk Hn. unfold init_lbaf. rewrite zget_ztab by lia. by destruct (Z.ltb_spec k (p_nlbaf d)); [|lia].
Qed.

Lemma init_namespace_spec d i n :
  props_checked d -> n_meta (params n) = p_meta d -> 0 <= i < zlen (namespaces n) ->
  wp (init_namespace d i) (fun _ n' => exists ns, n' = set_namespaces (zset i ns (namespaces n)) n /\
    ns_ready d (ns_size (params n)) i ns) n.
Proof.
  intros Hd Hm Hi. pose proof (flbas_index d Hd) as Hk. destruct Hd.
  destruct (zget_is_Some (namespaces n) i Hi) as [ns Ens].
  unfold init_namespace. apply wp_bind, wp_gets. apply wp_bind, wp_gets. apply wp_bind. eapply wp_idx; [exact Ens|].
  cbv zeta. apply wp_bind. rewrite Hk. eapply wp_idx; [by apply init_lbaf_get; lia|].
  unfold calc_ns_blks. apply wp_bind, wp_bind, wp_gets. apply wp_bind. cbn [lbaf].
  eapply wp_idx; [by apply init_lbaf_get; lia|]. cbn [ds]. change (31 <=? DATA_BITS_NVME) with false. cbv iota.
  rewrite Hm, (u32_small (_ + _)) by (change (u32 (2 ^ DATA_BITS_NVME)) with 4096; lia).
  change (u32 (2 ^ DATA_BITS_NVME)) with 4096. destruct (Z.eqb_spec (4096 + p_meta d) 0); [lia|]. apply wp_ret.
  unfold ns_bdrv_blks. apply wp_bind, wp_bind. cbn [lbaf]. eapply wp_idx; [by apply init_lbaf_get; lia|]. apply wp_ret.
  unfold nvme_partition_ns. apply wp_bind, wp_bind, wp_gets. apply wp_bind, wp_gets. apply wp_bind, wp_gets.
  cbn [ns_blks]. unfold ns_bdrv_blks. apply wp_bind, wp_bind. cbn [lbaf].
  eapply wp_idx; [by apply init_lbaf_get; lia|]. apply wp_ret. apply wp_ret.
  unfold upd_namespace. apply wp_bind, wp_gets. apply wp_bind. eapply wp_idx; [exact Ens|]. apply wp_modify.
  eexists. split; [reflexivity|]. destruct (_ && _ && _); constructor; cbn; rewrite ?Hk; try done;
    apply init_lbaf_get; lia.
Qed.

Lemma init_namespaces_spec d n :
  props_checked d -> n_meta (params n) = p_meta d -> zlen (namespaces n) = p_num_namespaces d ->
  wp (nvme_init_namespaces d) (fun _ n' => exists l, n' = set_namespaces l n /\ zlen l = p_num_namespaces d /\
    forall i ns, zget l i = Some ns -> ns_ready d (ns_size (params n)) i ns) n.
Proof.
  intros Hd Hm Hl. unfold nvme_init_namespaces. pose proof (pk_ns _ Hd).
  eapply wp_mono; [apply (wp_mfor (fun i n' => exists l, n' = set_namespaces l n /\ zlen l = p_num_namespaces d /\
    forall j ns, j < i -> zget l j = Some ns -> ns_ready d (ns_size (params n)) j ns))|].
  - exists (namespaces n). split; [by destruct n|]. split; [done|]. intros j ns Hj E. apply zget_Some_range in E. lia.
  - intros i n' Hi (l & -> & Hll & Hr). eapply wp_mono; [apply init_namespace_spec; [done|done|cbn; lia]|].
    intros ? n'' (ns & -> & Hns). eexists. split; [reflexivity|]. split; [by rewrite zlen_zset|].
    intros j ns' Hj E. destruct (decide (j = i)) as [->|Hne].
    + rewrite zget_zset_eq in E by (cbn; lia). by injection E as <-.
    + rewrite zget_zset_ne in E by done. apply (Hr j); [lia|done].
  - intros ? n' (l & -> & Hll & Hr). exists l. split_and!; [done..|]. intros i ns E. apply Hr; [|done].
    apply zget_Some_range in E. lia.
Qed.

(** ** Lemmas: the set-up and the start *)

(** The controller after the set-up: no queues, the registers cleared, the
    namespaces within the storage. *)
Record set_up (d : nvme_props) (bs : Z) (n : NvmeCtrl) : Prop := mk_set_up {
  su_queues : no_queues n;
  su_bar : bar (adm n) = mk_NvmeBar 0 0 0 0 0 0 0;
  su_cap : exists oc, cap (params n) = init_cap d oc;
  su_es : u8 (id_ctrl (params n) 512) = u8 (Z.lor (Z.shiftl (p_max_sqes d) 4) 6) /\
    u8 (id_ctrl (params n) 513) = u8 (Z.lor (Z.shiftl (p_max_cqes d) 4) 4);
  su_params : num_io_queues (params n) = p_num_io_queues d /\ femu_mode (params n) = p_femu_mode d /\
    elpe (params n) = p_elpe d /\ heap_size (params n) = bs;
  su_log : zlen (elpes n) = p_elpe d + 1 /\ elp_index n = 0;
  su_ns : zlen (namespaces n) = p_num_namespaces d /\
    forall i ns, zget (namespaces n) i = Some ns -> ns_ready d (bs / p_num_namespaces d) i ns
}.

Section SetupRules.
Context `{Clock} `{Guest} `{Backend}.

Lemma zget_ztab_None {A} k c (x : A) : zget (ztab k (fun _ => @None A)) c <> Some (Some x).
Proof.
  intros E. pose proof (zget_Some_range _ _ _ E) as Hr. unfold zlen, ztab in Hr. rewrite length_fmap, length_seq in Hr.
  rewrite zget_ztab in E by lia. done.
Qed.

Lemma le_byte_0 v : u8 (le_byte v 0) = u8 v.
Proof. unfold le_byte, u8. by rewrite Z.shiftr_0_r, Z.mod_mod. Qed.

(** Accepted properties: the set-up succeeds, and the SSD of a black-box
    controller is as its own initialisation leaves it. *)
Lemma nvme_init_spec d ssvid bs ws sc k trace oc g mem :
  props_typed d -> nvme_check_constraints d = 0 -> 0 <= bs -> p_femu_mode d = FEMU_BLACKBOX_MODE ->
  conf_file ws sc k -> trace <> Some true ->
  wp (nvme_init d ssvid bs (Some ws) true trace) (fun r n => r = 0 /\ set_up d bs n /\
    FTL_INIT (Some ws) ssd_zero = Ok tt (ssd n)) (ctrl_blank d oc g mem).
Proof.
  intros Ht Hc Hbs Hmode Hf Htr. pose proof (constraints_checked d Ht Hc) as Hd.
  unfold nvme_init. rewrite Hc. change (true_ 0) with false. cbv iota. destruct (Z.ltb_spec bs 0); [lia|].
  unfold alloc_arrays, nvme_init_ctrl, upd_adm, upd_bar.
  repeat first [apply wp_bind, wp_modify | apply wp_bind, wp_gets | apply wp_bind].
  eapply wp_mono; [apply (init_namespaces_spec d); [done|done|cbn; apply zlen_ztab; destruct Hd; lia]|].
  intros ? n (l & -> & Hl & Hns). cbn in Hns. apply wp_bind, wp_gets. rewrite Hmode. cbn [Z.eqb andb FEMU_BLACKBOX_MODE FEMU_WHITEBOX_MODE].
  destruct (proj1 (wp_Ok _ _ _) (SSD_INIT_spec ws sc k trace ssd_zero Hf Htr)) as ([] & s & Es & Hs).
  apply wp_bind. eapply wp_of_eq; [by apply on_ssd_Ok|]. apply wp_ret. split; [done|]. split; [|done]. destruct Hd.
  constructor; try done.
  - constructor; try (intros; apply zget_ztab_None); [|done]. cbn. rewrite !zlen_ztab; lia.
  - by eexists.
  - split; [change (u8 (le_byte (Z.lor (Z.shiftl (p_max_sqes d) 4) 6) 0) = u8 (Z.lor (Z.shiftl (p_max_sqes d) 4) 6))
      |change (u8 (le_byte (Z.lor (Z.shiftl (p_max_cqes d) 4) 4) 0) = u8 (Z.lor (Z.shiftl (p_max_cqes d) 4) 4))];
      apply le_byte_0.
  - cbn. split; [apply zlen_ztab; lia|done].
Qed.
(** The start sets the sizes the guest chose, and leaves the data alone. *)
Record same_data (n n' : NvmeCtrl) : Prop := mk_same_data {
  sm_ssd : ssd n' = ssd n;
  sm_ns : namespaces n' = namespaces n;
  sm_log : elpes n' = elpes n /\ elp_index n' = elp_index n;
  sm_heap : heap_storage n' = heap_storage n
}.

Definition sized (bits : Z) (p p' : NvmeParams) : Prop := exists cqe sqe,
  p' = with_sizes bits (u16 (2 ^ bits)) (u16 (2 ^ bits) / 8) cqe sqe p.

Lemma start_data n :
  wlp nvme_start_ctrl (fun ok n' => ok = true -> same_data n n' /\
    sized (NVME_CC_MPS (cc (bar (adm n))) + 12) (params n) (params n')) n.
Proof.
  unfold nvme_start_ctrl. apply wlp_gets, wlp_bind, wlp_idx. intros o _. apply wlp_gets, wlp_bind, wlp_idx. intros o' _.
  apply wlp_gets. destruct (_ || _); [by intros|]. apply wlp_gets. cbv zeta. apply wlp_bind, wlp_modify.
  unfold nvme_init_cq, nvme_init_sq, store_cq, store_sq, put_cq. apply wlp_bind, wlp_gets, wlp_gets, wlp_ret, wlp_ret.
  apply wlp_gets, wlp_bind, wlp_idx. intros ? _. apply wlp_ret, wlp_bind, wlp_gets, wlp_bind, wlp_idx. intros ? _.
  apply wlp_modify. cbv beta. apply wlp_bind, wlp_gets, wlp_gets, wlp_ret, wlp_ret.
  apply wlp_gets, wlp_bind, wlp_idx. intros oq _. destruct oq as [cq|]; [|done]. apply wlp_ret, wlp_bind, wlp_modify.
  apply wlp_ret, wlp_bind, wlp_gets, wlp_bind, wlp_idx. intros ? _. apply wlp_modify. cbv beta.
  apply wlp_bind, wlp_modify, wlp_bind, wlp_modify. intros _. split; [by constructor|]. by do 2 eexists.
Qed.

(** ** The registers of a start *)

(** A page size the controller has (at most 32 KiB, since its size is kept in 16
    bits), entry sizes it allows, and admin queues. *)
Record registers_ok (d : nvme_props) (aqa asq acq v : Z) : Prop := mk_registers_ok {
  rg_v : 0 <= v < 2 ^ 32 /\ NVME_CC_EN v <> 0;
  rg_mps : p_mpsmin d <= NVME_CC_MPS v <= p_mpsmax d /\ NVME_CC_MPS v <= 3;
  rg_sqes : 6 <= NVME_CC_IOSQES v <= p_max_sqes d;
  rg_cqes : 4 <= NVME_CC_IOCQES v <= p_max_cqes d;
  rg_aqa : 0 <= aqa < 2 ^ 32 /\ NVME_AQA_ASQS aqa <> 0 /\ NVME_AQA_ACQS aqa <> 0;
  rg_asq : prp_bad (2 ^ (NVME_CC_MPS v + 12)) asq = false;
  rg_acq : prp_bad (2 ^ (NVME_CC_MPS v + 12)) acq = false
}.

Lemma es_fields x y : 0 <= x < 16 -> 0 <= y < 16 ->
  Z.land (u8 (Z.lor (Z.shiftl x 4) y)) 15 = y /\ Z.land (Z.shiftr (u8 (Z.lor (Z.shiftl x 4) y)) 4) 15 = x.
Proof.
  intros Hx Hy. assert (Z.lor (Z.shiftl x 4) y = 16 * x + y) as ->.
  { pose proof (Z.add_lor_land (Z.shiftl x 4) y) as Hor. rewrite Z.shiftl_mul_pow2 in Hor |- * by lia.
    assert (Z.land (x * 2 ^ 4) y = 0) as Hand; [|lia].
    apply Z.bits_inj'. intros i Hi. rewrite Z.land_spec, Z.bits_0, Z.mul_pow2_bits by lia.
    destruct (Z.ltb_spec i 4); [by rewrite Z.testbit_neg_r by lia|].
    rewrite (Z.bits_above_log2 y i); [apply andb_false_r|lia|].
    destruct (decide (y = 0)) as [->|]; [cbn; lia|]. apply Z.log2_lt_pow2; [lia|]. apply Z.lt_le_trans with (2 ^ 4); [lia|].
    apply Z.pow_le_mono_r; lia. }
  unfold u8. rewrite Z.mod_small by lia. change 15 with (Z.ones 4). rewrite !Z.land_ones, Z.shiftr_div_pow2 by lia. change (2 ^ 4) with 16.
  rewrite (Z.add_comm (16 * x)), (Z.mul_comm 16), Z.mod_add, Z.div_add, !(Z.mod_small y), (Z.div_small y) by lia.
  split; [done|]. by apply Z.mod_small.
Qed.

Lemma registers_start d bs n aqa asq acq v :
  props_checked d -> set_up d bs n -> registers_ok d aqa asq acq v ->
  start_refused (set_adm (set_bar (mk_NvmeBar 0 0 v 0 aqa asq acq) (adm n)) n) = false.
Proof.
  intros [] [_ _ [oc Hcap] [Es Ec] _ _ _] []. destruct (init_cap_fields d oc) as (_ & _ & Fmin & Fmax).
  destruct (es_fields (p_max_sqes d) 6) as [S1 S2]; [lia..|]. destruct (es_fields (p_max_cqes d) 4) as [C1 C2]; [lia..|].
  unfold start_refused. cbn [params bar adm set_adm set_bar cc Nvme.aqa Nvme.asq Nvme.acq].
  rewrite Hcap, Fmin, Fmax, Es, Ec, S1, S2, C1, C2, rg_asq0, rg_acq0, !Z.mod_small by lia. zcases; try done; lia.
Qed.
End SetupRules.
