(* ===== verification/Host.v ===== *)
(** * Commands of the guest, from the queue to the flash

    The NVMe commands on top of the device: a read or write goes through the
    checks, the address list, the FTL and the copy to or from the storage; a
    remap changes the mapping and the storage together. *)

From Stdlib Require Import ZArith Lia List.
From stdpp Require Import base tactics numbers list functions.
From S2P Require Import Prelude Config State Timing Perf Inverse Nvram Mapping Alloc Flash Invariant Gc Store Ftl Ssd Init Device Views Nvme NvmeOc NvmeQueue.

Open Scope Z_scope.

(** ** Controllers and commands *)

(** A black-box controller in front of the device: blocks of 4096 bytes, which
    is also the size of a page, no more of them than the device and the
    storage have. *)
Record host_conf (sc : ssdconf) (ns : NvmeNamespace) (n : NvmeCtrl) : Prop := mk_host_conf {
  hc_prp : prp_conf (params n);
  hc_page : page_size (params n) <= 2 ^ 16;
  hc_mode : femu_mode (params n) = FEMU_BLACKBOX_MODE;
  hc_lba : exists f, zget (lbaf ns) (Z.land (flbas ns) 15) = Some f /\ ds f = 12;
  hc_spp : SECTORS_PER_PAGE sc = 8;
  hc_nsze : nsze ns * 8 <= SECTOR_NB sc;
  hc_heap : nsze ns * 4096 <= heap_size (params n) < 2 ^ 63;
  hc_log : exists e, zget (elpes n) (elp_index n) = Some e;
  hc_elpe : elpe (params n) <> 0
}.

Definition blocks (cmd : memory) : Z := rw_nlb cmd + 1.

(** A command the checks let through, of at most as many pages as the buffers
    for metadata have room for. *)
Record accepted (ns : NvmeNamespace) (cmd : memory) (n : NvmeCtrl) : Prop := mk_accepted {
  ac_range : rw_slba cmd + blocks cmd <= nsze ns;
  ac_pages : blocks cmd <= 512;
  ac_mdts : mdts (params n) = 0 \/ blocks cmd * 4096 <= page_size (params n) * 2 ^ mdts (params n);
  ac_pract : has (rw_control cmd) NVME_RW_PRINFO_PRACT = false
}.

(** The addresses of the data of a command. *)
Definition data_list (cmd : memory) (n : NvmeCtrl) : option (list (Z * Z)) :=
  prp_ref (params n) (guest n) (cmd_prp1 cmd) (cmd_prp2 cmd) (blocks cmd * 4096).

(** The request a write is for the SSD. *)
Definition write_request (sc : ssdconf) (cmd : memory) (n : NvmeCtrl) : request_meta :=
  mk_request_meta (8 * blocks cmd) (8 * rw_slba cmd) (meta_infos sc (guest n) (cmd_mptr cmd) (blocks cmd)).

(** Nothing but the error log has changed. *)
Definition refused (n n' : NvmeCtrl) : Prop :=
  ssd n' = ssd n /\ heap_storage n' = heap_storage n /\ guest n' = guest n /\ namespaces n' = namespaces n /\
  femu_oc_ctrl n' = femu_oc_ctrl n /\ ocg n' = ocg n.

(** The time of the completion: what the SSD returned, less the time between
    the two readings of the clock, after the first. *)
Definition expires `{Clock} (n : NvmeCtrl) (lat : Z) : Z :=
  let t0 := qemu_clock_get_ns (clock_reads (ssd n)) in
  let t1 := qemu_clock_get_ns (S (clock_reads (ssd n))) in
  t0 + (lat - (t1 - t0)).

(** The effects of a write and of a read with the data at the addresses [l]:
    the SSD has carried out its command after both readings of the clock, and
    the bytes have been copied. *)
Record written `{Clock} (sc : ssdconf) (cmd : memory) (l : list (Z * Z)) (n : NvmeCtrl)
  (r : Z * NvmeRequest) (n' : NvmeCtrl) : Prop := mk_written {
  wr_status : r.1 = NVME_SUCCESS;
  wr_ssd : exists lat, SSD_WRITE (write_request sc cmd n) (set_clock_reads (S (S (clock_reads (ssd n)))) (ssd n)) =
             Ok lat (ssd n') /\ expire_time r.2 = expires n lat;
  wr_heap : forall a, heap_storage n' a =
    if (rw_slba cmd * 4096 <=? a) && (a <? rw_slba cmd * 4096 + blocks cmd * 4096)
    then guest n (sg_addr l (a - rw_slba cmd * 4096)) else heap_storage n a;
  wr_guest : guest n' = guest n;
  wr_params : params n' = params n /\ elpes n' = elpes n /\ elp_index n' = elp_index n
}.

Record fetched `{Clock} (cmd : memory) (l : list (Z * Z)) (n : NvmeCtrl)
  (r : Z * NvmeRequest) (n' : NvmeCtrl) : Prop := mk_fetched {
  fe_status : r.1 = NVME_SUCCESS;
  fe_ssd : exists lat, SSD_READ (8 * blocks cmd) (8 * rw_slba cmd) (set_clock_reads (S (S (clock_reads (ssd n)))) (ssd n)) =
             Ok lat (ssd n') /\ expire_time r.2 = expires n lat;
  fe_heap : heap_storage n' = heap_storage n;
  fe_other : forall a, (forall i, 0 <= i < blocks cmd * 4096 -> sg_addr l i <> a) -> guest n' a = guest n a;
  fe_data : sg_distinct l -> forall i, 0 <= i < blocks cmd * 4096 ->
    guest n' (sg_addr l i) = heap_storage n (rw_slba cmd * 4096 + i)
}.

(** Pages that hold the same version of the data, because they share a flash
    page, hold the same bytes in the storage. *)
Definition sharing_sound (sc : ssdconf) (St : store) (h : memory) : Prop :=
  forall l l' v, 0 <= l < pages sc -> 0 <= l' < pages sc -> St l = Some v -> St l' = Some v ->
  forall o, 0 <= o < 4096 -> h (l * 4096 + o) = h (l' * 4096 + o).

(** The ranges of a remap command do not overlap and lie in the storage. *)
Record remap_fits (sc : ssdconf) (cmd : memory) (n : NvmeCtrl) : Prop := mk_remap_fits {
  rf_mode : femu_mode (params n) = FEMU_BLACKBOX_MODE;
  rf_page : PAGE_SIZE (raw sc) = 4096;
  rf_apart : remap_src_lpn cmd + remap_len cmd <= remap_dst_lpn cmd \/
             remap_dst_lpn cmd + remap_len cmd <= remap_src_lpn cmd;
  rf_heap : pages sc * 4096 <= heap_size (params n)
}.

Definition remap_command (cmd : memory) : command :=
  Remap (remap_src_lpn cmd) (remap_dst_lpn cmd) (remap_len cmd) (remap_ope cmd).

(** ** Lemmas *)

Section Host.
Context `{Clock} `{Guest} `{Backend}.
Variable sc : ssdconf.
Implicit Types (n : NvmeCtrl) (ns : NvmeNamespace) (cmd : memory) (req : NvmeRequest) (St : store).

Lemma blocks_range cmd : 1 <= blocks cmd <= 65536.
Proof. unfold blocks, rw_nlb. pose proof (le_range cmd 48 2). lia. Qed.

Lemma slba_range cmd : 0 <= rw_slba cmd.
Proof. apply le_range. Qed.

(** Reading the clock changes nothing the device depends on. *)
Lemma clock_idle k s : idle s (set_clock_reads k s).
Proof. by constructor; [constructor|..|intros q; left]. Qed.

Lemma clock_device k s : device_inv sc s -> device_inv sc (set_clock_reads k s).
Proof. intros (C & V & A & Hg). exists C, V, A. eapply ginv_idle; [exact Hg|apply clock_idle]. Qed.

(** The request with the values [nvme_rw] has stored by the time of the checks. *)
Definition rw_req cmd req : NvmeRequest :=
  mk_NvmeRequest (r_id req) (r_sqid req) (cmd_opcode req) (r_cid req) (status req) (r_slba req)
    (cmd_op cmd =? NVME_CMD_WRITE) (r_nlb req) (expire_time req) (rw_slba cmd * 4096) (qsg req) (aiocb req) (r_result req).

Lemma error_page_Ok a b c d e f n :
  (exists x, zget (elpes n) (elp_index n) = Some x) -> elpe (params n) <> 0 ->
  exists n', nvme_set_error_page a b c d e f n = Ok tt n' /\ refused n n'.
Proof.
  intros [x Ex] He. unfold nvme_set_error_page. rewrite Ex. destruct (Z.eqb_spec (elpe (params n)) 0); [done|].
  eexists. split; [done|]. done.
Qed.

(** An accepted command up to the transfer. *)
Lemma rw_start ns cmd req info b n :
  host_conf sc ns n -> accepted ns cmd n ->
  (cmd_op cmd <> NVME_CMD_WRITE ->
   forall i, rw_slba cmd <= i < rw_slba cmd + blocks cmd -> uncorrectable ns i = false) ->
  nvme_meta (cmd_op cmd =? NVME_CMD_WRITE) (cmd_mptr cmd) (blocks cmd) n = Ok info (set_meta_buf b n) ->
  match data_list cmd n with
  | None => exists n', nvme_rw ns cmd req n = Ok (Z.lor NVME_INVALID_FIELD NVME_DNR, rw_req cmd req) n' /\ refused n n'
  | Some l => nvme_rw ns cmd req n = rw_transfer (rw_req cmd req) (rw_slba cmd) (blocks cmd)
      (blocks cmd * 4096) (rw_slba cmd * 4096) info l (set_meta_buf b n)
  end.
Proof.
  intros [Hprp Hpg Hmode (f & Ef & Eds) Hspp Hns Hheap Hlog Helpe] [Hr Hp Hm Hc] Hu Emeta.
  pose proof (blocks_range cmd) as Hb. pose proof (slba_range cmd) as Hs.
  assert (u64 (Z.shiftl (blocks cmd) 12) = blocks cmd * 4096) as E1.
  { rewrite Z.shiftl_mul_pow2 by lia. apply u64_small. lia. }
  assert (u64 (Z.shiftl (rw_slba cmd) 12) = rw_slba cmd * 4096) as E2.
  { rewrite Z.shiftl_mul_pow2 by lia. apply u64_small. lia. }
  assert (u32 (Z.shiftl (blocks cmd) 12) = blocks cmd * 4096) as E3.
  { rewrite Z.shiftl_mul_pow2 by lia. apply u32_small. lia. }
  assert (nvme_rw ns cmd req n = (sg ← nvme_map_prp (cmd_prp1 cmd) (cmd_prp2 cmd) (blocks cmd * 4096);
    match sg with
    | None => nvme_set_error_page (r_sqid req) (cmd_cid cmd) NVME_INVALID_FIELD 24 0 (ns_id ns);;
        mret (Z.lor NVME_INVALID_FIELD NVME_DNR, rw_req cmd req)
    | Some l => (if blocks cmd * 4096 =? sg_size l then mret tt else mcrash ProcessExit);;
        rw_transfer (rw_req cmd req) (rw_slba cmd) (blocks cmd) (blocks cmd * 4096) (rw_slba cmd * 4096) info l
    end) (set_meta_buf b n)) as ->.
  { unfold nvme_rw, lba_shift. fold (blocks cmd). unfold mbind at 1, M_bind at 1. unfold mbind at 1, M_bind at 1.
    unfold idx. rewrite Ef. unfold mret at 1, M_ret at 1. rewrite Eds, E1, E2, E3. fold (rw_req cmd req).
    rewrite u64_small by lia. rewrite Z.div_mul by lia. rewrite (u32_small (blocks cmd)) by lia.
    rewrite (u32_small (blocks cmd * 4096)) by lia. rewrite s64_small by lia. fold (rw_req cmd req).
    unfold mbind at 1, M_bind at 1. rewrite rw_check_ok; [|lia|done|done|].
    2:{ cbn. intros Ew. apply Hu. by apply Z.eqb_neq. }
    cbn [negb Z.eqb]. unfold mbind at 1, M_bind at 1. rewrite Emeta. done. }
  assert (nvme_map_prp (cmd_prp1 cmd) (cmd_prp2 cmd) (blocks cmd * 4096) (set_meta_buf b n) =
    Ok (data_list cmd n) (set_meta_buf b n)) as Em by (apply map_prp_eq; [done|lia|cbn; lia]).
  destruct (data_list cmd n) as [l|] eqn:El.
  - pose proof (prp_ref_covers _ _ _ _ (blocks cmd * 4096) _ Hprp ltac:(lia) El) as [Hsz _].
    unfold mbind at 1, M_bind at 1. by rewrite Em, Hsz, Z.eqb_refl.
  - destruct (error_page_Ok (r_sqid req) (cmd_cid cmd) NVME_INVALID_FIELD 24 0 (ns_id ns) (set_meta_buf b n))
      as (n' & E & Hn'); [done..|].
    exists n'. unfold mbind, M_bind. by rewrite Em, E.
Qed.

Lemma pieces_nonempty ps l : Forall (piece_ok ps) l -> nonempty l.
Proof. apply Forall_impl. by intros x [Hx _]. Qed.

(** The state after both readings of the clock. *)
Definition clocked (s : ssdstate) : ssdstate := set_clock_reads (S (S (clock_reads s))) s.

Lemma transfer_Ok req slba k info l lat s2 n :
  femu_mode (params n) = FEMU_BLACKBOX_MODE -> 0 <= k < 2 ^ 16 -> 0 <= slba ->
  (if is_write req then SSD_WRITE (mk_request_meta (8 * k) (8 * slba) info)
   else SSD_READ (8 * k) (8 * slba)) (clocked (ssd n)) = Ok lat s2 ->
  exists r, data_offset r = data_offset req /\ qsg r = l /\ is_write r = is_write req /\
    same_req req r /\ expire_time r = expires n lat /\
    rw_transfer req slba k (k * 4096) (slba * 4096) info l n =
    (_ ← nvme_heap_storage_rw r; mret (NVME_SUCCESS, r)) (set_ssd s2 n).
Proof.
  intros Hmode Hk Hs E. eexists (mk_NvmeRequest _ _ _ _ _ _ _ _ _ _ _ _ _). split_and!.
  6:{ unfold rw_transfer. rewrite !Z.shiftr_div_pow2 by lia. change (2 ^ 9) with 512.
      assert (forall x, x * 4096 / 512 = 8 * x) as Hdiv.
      { intros x. replace (x * 4096) with (8 * x * 512) by lia. apply Z.div_mul. lia. }
      assert (forall b (m1 m2 : SM Z), (if b : bool then on_ssd m1 else on_ssd m2) = on_ssd (if b then m1 else m2)) as Hif
        by by intros [].
      rewrite Hif, !Hdiv.
      rewrite u32_small by lia. unfold mbind at 1, M_bind at 1. unfold mbind at 1, M_bind at 1.
      unfold on_ssd at 1 2, qemu_clock_ns, read_clock. cbv beta iota zeta. cbn [ssd set_ssd].
      unfold mbind at 1, M_bind at 1. unfold gets. cbn [params set_ssd]. rewrite Hmode, Z.eqb_refl.
      unfold mbind at 1, M_bind at 1. unfold mbind at 1, M_bind at 1.
      rewrite (on_ssd_Ok _ _ lat s2). 2:{ cbn [ssd set_ssd]. exact E. } reflexivity. }
  all: done.
Qed.

Lemma device_params s : device_inv sc s -> ssdparams s = sc.
Proof. intros (C & V & A & Hg). apply (pinv_params _ _ _ _ _ _ _ _ _ _ (gi_pinv _ _ _ _ _ _ _ Hg)). Qed.

(** The ranges of an accepted command. *)
Lemma data_list_ok ns cmd n l :
  host_conf sc ns n -> data_list cmd n = Some l -> sg_size l = blocks cmd * 4096 /\ nonempty l.
Proof.
  intros Hc El. pose proof (blocks_range cmd).
  destruct (prp_ref_covers (params n) (guest n) (cmd_prp1 cmd) (cmd_prp2 cmd) (blocks cmd * 4096) l)
    as [Hz Hl]; [apply Hc|lia|exact El|]. split; [done|]. by eapply pieces_nonempty.
Qed.

Lemma write_copies ns cmd req l lat s2 n :
  host_conf sc ns n -> accepted ns cmd n -> cmd_op cmd = NVME_CMD_WRITE -> maps_all ->
  ssdparams (ssd n) = sc -> data_list cmd n = Some l ->
  SSD_WRITE (write_request sc cmd n) (clocked (ssd n)) = Ok lat s2 ->
  wp (nvme_rw ns cmd req) (fun r n' => written sc cmd l n r n' /\ ssd n' = s2) n.
Proof.
  intros Hc Ha Hop Hmap Hsc El Ex. pose proof (blocks_range cmd) as Hb. pose proof (slba_range cmd) as Hs.
  destruct (nvme_meta_write sc (cmd_mptr cmd) (blocks cmd) n Hsc) as [b Emeta]; [destruct Ha; lia|].
  pose proof (rw_start ns cmd req (meta_infos sc (guest n) (cmd_mptr cmd) (blocks cmd)) b n Hc Ha ltac:(done)
    ltac:(by rewrite Hop)) as Hst. rewrite El in Hst.
  destruct (data_list_ok ns cmd n l Hc El) as [Hsz Hne].
  destruct (transfer_Ok (rw_req cmd req) (rw_slba cmd) (blocks cmd) (meta_infos sc (guest n) (cmd_mptr cmd) (blocks cmd)) l lat s2
    (set_meta_buf b n)) as (r & Ro & Rq & Rw & _ & Re & Et); [apply Hc|destruct Ha; lia|lia| |].
  { unfold rw_req. cbn [is_write]. by rewrite Hop. }
  destruct Hc, Ha. unfold rw_req in Ro, Rw. cbn [data_offset is_write] in Ro, Rw. rewrite Hop in Rw.
  destruct (storage_write r (set_ssd s2 (set_meta_buf b n))) as (h & Eh & Hh); rewrite ?Rq, ?Hsz, ?Ro; try done.
  { replace (blocks cmd * 4096) with (blocks cmd * 8 * 512) by lia. apply Z.mod_mul. lia. }
  { lia. } { cbn [params set_ssd set_meta_buf]. lia. }
  eapply wp_of_eq; [rewrite Hst, Et; unfold mbind, M_bind; rewrite Eh; reflexivity|].
  split; [|done]. rewrite Rq, Hsz, Ro in Hh. constructor; try done. eexists. by split.
Qed.

Lemma read_copies ns cmd req l lat s2 n :
  host_conf sc ns n -> accepted ns cmd n -> cmd_op cmd = NVME_CMD_READ -> maps_all ->
  (forall i, rw_slba cmd <= i < rw_slba cmd + blocks cmd -> uncorrectable ns i = false) ->
  data_list cmd n = Some l ->
  SSD_READ (8 * blocks cmd) (8 * rw_slba cmd) (clocked (ssd n)) = Ok lat s2 ->
  wp (nvme_rw ns cmd req) (fun r n' => fetched cmd l n r n' /\ ssd n' = s2) n.
Proof.
  intros Hc Ha Hop Hmap Hu El Ex. pose proof (blocks_range cmd) as Hb. pose proof (slba_range cmd) as Hs.
  assert (nvme_meta (cmd_op cmd =? NVME_CMD_WRITE) (cmd_mptr cmd) (blocks cmd) n =
    Ok (ztab 512 (fun _ => mk_lpn_info 0 0 0)) (set_meta_buf (meta_buf n) n)) as Emeta.
  { rewrite Hop. replace (set_meta_buf (meta_buf n) n) with n by by destruct n. apply nvme_meta_read. destruct Ha. lia. }
  pose proof (rw_start ns cmd req _ _ n Hc Ha (fun _ => Hu) Emeta) as Hst. rewrite El in Hst.
  destruct (data_list_ok ns cmd n l Hc El) as [Hsz Hne].
  destruct (transfer_Ok (rw_req cmd req) (rw_slba cmd) (blocks cmd) (ztab 512 (fun _ => mk_lpn_info 0 0 0)) l lat s2
    (set_meta_buf (meta_buf n) n)) as (r & Ro & Rq & Rw & _ & Re & Et); [apply Hc|destruct Ha; lia|lia| |].
  { unfold rw_req. cbn [is_write]. by rewrite Hop. }
  destruct Hc, Ha. unfold rw_req in Ro, Rw. cbn [data_offset is_write] in Ro, Rw. rewrite Hop in Rw.
  destruct (storage_read r (set_ssd s2 (set_meta_buf (meta_buf n) n))) as (g & Eg & Hout & Hin);
    rewrite ?Rq, ?Hsz, ?Ro; try done.
  { replace (blocks cmd * 4096) with (blocks cmd * 8 * 512) by lia. apply Z.mod_mul. lia. }
  { lia. } { cbn [params set_ssd set_meta_buf]. lia. }
  eapply wp_of_eq; [rewrite Hst, Et; unfold mbind, M_bind; rewrite Eg; reflexivity|].
  split; [|done]. rewrite Rq, Hsz, ?Ro in *. constructor; try done. eexists. by split.
Qed.

Lemma clock_admissible k c St s : admissible sc c St s -> admissible sc c St (set_clock_reads k s).
Proof.
  assert (forall m r cost, room sc m r cost s -> room sc m r cost (set_clock_reads k s)) as Hroom
    by (intros m r cost []; by constructor).
  destruct c; cbn [admissible]; [|done..|].
  - intros (m & Hrq & Hr). exists m. auto.
  - intros (? & ? & ? & ? & ? & ? & Hr). auto 10.
Qed.

(** The device carries out a command after both readings of the clock. *)
Lemma clocked_execute c ver D St s :
  device_inv sc s -> holds sc D St s -> admissible sc c St s ->
  exists r s2, execute c (clocked s) = Ok r s2 /\ device_inv sc s2 /\
    exists St', effect sc ver c St St' /\ sim sc (D, s) St' s2.
Proof.
  intros Hd Hh Ha. pose proof (execute_step sc c ver D St (clocked s) (clock_device _ _ Hd) Hh) as Hw.
  destruct (proj1 (wp_Ok _ _ _) (Hw (clock_admissible _ _ _ _ Ha))) as (r & s2 & E & Hd2 & St' & He & Hsim). eauto 10.
Qed.

Lemma heap_move_Ok d s k n :
  0 <= d -> d + k <= heap_size (params n) -> 0 <= s -> s + k <= heap_size (params n) ->
  s + k <= d \/ d + k <= s ->
  heap_move d s k n = Ok tt (set_heap_storage (blit (heap_storage n) d (heap_storage n) s k) n).
Proof.
  intros. unfold heap_move, in_heap. zcases; done.
Qed.

(** A page of the result and the page its data came from. *)
Lemma remap_origin ope k src dst St h l v :
  ope = REMAP_CKPT \/ ope = REMAP_COPY \/ ope = REMAP_MOVE ->
  0 <= k -> 0 <= src -> src + k <= pages sc -> 0 <= dst -> dst + k <= pages sc ->
  src + k <= dst \/ dst + k <= src -> 0 <= l < pages sc ->
  remap_effect ope (Z.to_nat k) src dst St l = Some v ->
  exists l0, 0 <= l0 < pages sc /\ St l0 = Some v /\ forall o, 0 <= o < 4096 ->
    blit h (dst * 4096) h (src * 4096) (k * 4096) (l * 4096 + o) = h (l0 * 4096 + o).
Proof.
  intros Hope Hk Hs0 Hs1 Hd0 Hd1 Hap Hl E.
  assert (exists move, remap_effect ope (Z.to_nat k) src dst St = copies move (Z.to_nat k) src dst St) as [move Hm].
  { destruct Hope as [->|[->| ->]]; by eexists. }
  rewrite Hm, copies_at, Z2Nat.id in E by (unfold disjoint_ranges; lia). unfold ranged in E. unfold blit.
  destruct (Z.leb_spec dst l), (Z.ltb_spec l (dst + k)); cbn [andb] in E.
  1:{ exists (src + (l - dst)). split; [lia|]. split; [done|]. intros o Ho.
      destruct (Z.leb_spec (dst * 4096) (l * 4096 + o)), (Z.ltb_spec (l * 4096 + o) (dst * 4096 + k * 4096)); try lia.
      cbn [andb]. f_equal. lia. }
  all: exists l; split; [done|]; split; [destruct (move && _ && _); [done|exact E]|]; intros o Ho;
    destruct (Z.leb_spec (dst * 4096) (l * 4096 + o)), (Z.ltb_spec (l * 4096 + o) (dst * 4096 + k * 4096)); cbn [andb]; lia || done.
Qed.

Lemma remap_command_spec D St cmd n :
  device_inv sc (ssd n) -> holds sc D St (ssd n) -> admissible sc (remap_command cmd) St (ssd n) ->
  remap_fits sc cmd n ->
  wp (nvme_remap cmd) (fun r n' => r = NVME_SUCCESS /\ device_inv sc (ssd n') /\
    sim sc (D, ssd n) (remap_effect (remap_ope cmd) (Z.to_nat (remap_len cmd)) (remap_src_lpn cmd)
      (remap_dst_lpn cmd) St) (ssd n') /\ guest n' = guest n /\
    heap_storage n' = blit (heap_storage n) (remap_dst_lpn cmd * 4096) (heap_storage n)
      (remap_src_lpn cmd * 4096) (remap_len cmd * 4096)) n.
Proof.
  intros Hd Hh Ha [Hm Hp Hap Hhp]. pose proof (remap_step sc D St _ _ _ _ _ Hd Hh Ha) as Hw.
  apply wp_Ok in Hw as (r & s2 & Ex & -> & Hd2 & Hsim). destruct Ha as (H2 & H3 & H4 & H5 & H6 & _ & [_ _ Hlen _]).
  pose proof (pages_bound sc (device_geom _ _ Hd)) as HN.
  eapply wp_of_eq.
  { unfold nvme_remap, mbind, M_bind, gets. rewrite (on_ssd_Ok get_conf n (ssdparams (ssd n)) (ssd n)) by done.
    replace (set_ssd (ssd n) n) with n by by destruct n. rewrite Hm, Z.eqb_refl, (on_ssd_Ok _ _ _ _ Ex).
    rewrite (device_params _ Hd), Hp. unfold mret, M_ret. rewrite !u64_small, u32_small by lia.
    rewrite heap_move_Ok by (cbn [params set_ssd]; lia). reflexivity. }
  done.
Qed.

Lemma remap_sharing ope k src dst St h :
  ope = REMAP_CKPT \/ ope = REMAP_COPY \/ ope = REMAP_MOVE ->
  0 <= k -> 0 <= src -> src + k <= pages sc -> 0 <= dst -> dst + k <= pages sc ->
  src + k <= dst \/ dst + k <= src -> sharing_sound sc St h ->
  sharing_sound sc (remap_effect ope (Z.to_nat k) src dst St) (blit h (dst * 4096) h (src * 4096) (k * 4096)).
Proof.
  intros Hope Hk Hs0 Hs1 Hd0 Hd1 Hap Hsh l l' v Hl Hl' E E' o Ho.
  destruct (remap_origin ope k src dst St h l v) as (x & Hx & Ex & Hbx); [done..|].
  destruct (remap_origin ope k src dst St h l' v) as (y & Hy & Ey & Hby); [done..|].
  rewrite Hbx, Hby by done. by apply (Hsh x y v).
Qed.

(** *** Where the front end lets through what the SSD cannot take *)

(** The buffer for the metadata of a write has room for 512 pages; longer
    writes pass the check on the size of a transfer. *)
Lemma long_write_overruns ns cmd req f n :
  zget (lbaf ns) (Z.land (flbas ns) 15) = Some f -> ds f = 12 -> cmd_op cmd = NVME_CMD_WRITE ->
  0 <= nsze ns < 2 ^ 48 -> rw_slba cmd + blocks cmd <= nsze ns ->
  mdts (params n) = 0 \/ blocks cmd * 4096 <= page_size (params n) * 2 ^ mdts (params n) ->
  has (rw_control cmd) NVME_RW_PRINFO_PRACT = false -> cmd_mptr cmd <> 0 -> 512 < blocks cmd ->
  nvme_rw ns cmd req n = Crash OutOfBounds.
Proof.
  intros Ef Eds Hop Hns Hr Hm Hc Hmp Hb. pose proof (blocks_range cmd). pose proof (slba_range cmd).
  unfold nvme_rw, lba_shift, mbind, M_bind, idx. fold (blocks cmd). rewrite Ef. unfold mret at 1, M_ret at 1.
  rewrite Eds, !Z.shiftl_mul_pow2 by lia. rewrite !u64_small by lia. rewrite Z.div_mul, u32_small by lia.
  rewrite rw_check_ok; [|lia|done|done|cbn; by rewrite Hop]. cbn [negb Z.eqb]. unfold nvme_meta. rewrite Hop.
  destruct (Z.eqb_spec (cmd_mptr cmd) 0); [done|]. cbn [Z.eqb NVME_CMD_WRITE Pos.eqb].
  by destruct (Z.ltb_spec msl_size (blocks cmd * PI_BYTES_NVME)); [|unfold msl_size, PI_BYTES_NVME in *; lia].
Qed.

(** The metadata may name a page just behind the last one, for which the FTL
    has no entry. *)
Lemma page_behind_last_accepted (msl : memory) :
  geom sc -> be msl 12 4 = CP_WRITE -> s64 (be msl 16 8) = pages sc ->
  h_lpn (meta_info sc msl 0) = pages sc /\ ~ info_ok sc [meta_info sc msl 0] 0.
Proof.
  intros G Ef Eh. pose proof (pages_bound sc G).
  assert (h_lpn (meta_info sc msl 0) = pages sc) as E.
  { unfold meta_info. rewrite Z.add_0_l, Z.add_0_l, Z.add_0_l, Ef, Eh, (g_map _ G). fold (pages sc).
    rewrite Z.eqb_refl, !orb_true_r. destruct (Z.leb_spec 0 (pages sc)); [|lia].
    by rewrite Z.leb_refl. }
  split; [done|]. intros (li & [= <-] & Hlt). rewrite E in Hlt. lia.
Qed.

(** The entry of a queue that is not contiguous: the index and the page size
    change places, and the division by the number of entries per page fails
    while the index is below the size of an entry. *)
Lemma discontiguous_queue_divides_by_zero (sq : NvmeSQueue) n :
  s_contig sq = false -> 0 <= s_head sq < sqe_size (params n) -> sqe_size (params n) < 2 ^ 16 ->
  sq_entry_addr sq n = Crash DivByZero.
Proof.
  intros Hc Hh Hs. unfold sq_entry_addr, mbind, M_bind, gets. rewrite Hc. unfold nvme_discontig.
  assert (forall x, 0 <= x < 2 ^ 16 -> u16 x = x) as Hu by (intros; by apply Z.mod_small).
  rewrite (Hu (s_head sq)), (Hu (sqe_size (params n))) by lia.
  destruct (_ =? 0); [done|]. by rewrite Z.div_small by lia.
Qed.
End Host.
