(* ===== verification/Demo.v ===== *)
(** * A small device

    A device of two chips with twelve blocks of four pages, the states it goes
    through in a short run, and the facts that make the theorems of
    Properties.v applicable to them. *)

From Stdlib Require Import ZArith Lia List String.
From stdpp Require Import base tactics numbers list functions strings.
From S2P Require Import Prelude Config State Timing Perf Inverse Nvram Mapping Alloc Flash Invariant Gc Store Ftl Ssd Init Device.

Open Scope Z_scope.

#[global] Instance demo_clock : Clock := {|
  gettimeofday := fun n => (Z.of_nat n, 0);
  clock_gettime := fun n => (Z.of_nat n, 0);
  qemu_clock_get_ns := fun n => Z.of_nat n * 1000
|}.

Definition demo_words : list string :=
  ["PAGE_SIZE"; "4096"; "PAGE_NB"; "4"; "SECTOR_SIZE"; "512"; "FLASH_NB"; "2"; "BLOCK_NB"; "12";
   "PLANES_PER_FLASH"; "1"; "REG_WRITE_DELAY"; "82"; "CELL_PROGRAM_DELAY"; "940";
   "REG_READ_DELAY"; "82"; "CELL_READ_DELAY"; "140"; "BLOCK_ERASE_DELAY"; "2000";
   "CHANNEL_NB"; "2"; "GC_MODE"; "2"; "OVP"; "20"]%string.

Definition demo_conf : ssdconf :=
  match derive_conf (read_conf (stream_size demo_words) demo_words rawconf0) with
  | Some sc => sc
  | None => ssdconf0 rawconf0
  end.

(** The state after a command, and after the initialisation. *)
Definition after {A} (m : SM A) (s : ssdstate) : ssdstate :=
  match m s with Ok _ s' => s' | _ => s end.

Definition returned {A} (m : SM A) (s : ssdstate) : option A :=
  match m s with Ok a _ => Some a | _ => None end.

(** Conversion unfolds the names of the states before it runs anything. *)
Strategy 1000 [after].

Definition demo0 : ssdstate := after (FTL_INIT (Some demo_words)) ssd_zero.

(** A write of [n] pages from page [l] on, with metadata [li] for each. *)
Definition demo_write (l n : Z) (li : lpn_info) : request_meta :=
  mk_request_meta (8 * n) (8 * l) (ztab n (fun _ => li)).

Definition plain : lpn_info := mk_lpn_info 0 0 (-1).

(** Pages 0 to 15 are written, then 0 to 7 again, then page 20 is a copy of
    page 3: the first superblock is full of invalid pages. *)
Definition demo1 : ssdstate := after (SSD_WRITE (demo_write 0 16 plain)) demo0.
Definition demo2 : ssdstate := after (SSD_WRITE (demo_write 0 8 plain)) demo1.
Definition demo3 : ssdstate :=
  after (SSD_WRITE (demo_write 20 1 (mk_lpn_info 0 CP_WRITE 3))) demo2.

(** ** Deciding the hypotheses *)

Definition room_dec (sc : ssdconf) (n r cost : Z) (s : ssdstate) : bool :=
  (n + FLASH_NB sc * PAGE_NB sc - 1 <=? ctrs s stat_ppn_free)
  && forallb (fun p => sharers sc s p + r <=? 127) (seqZ 0 (pages sc))
  && (r <=? 126)
  && forallb (fun c => (0 <=? ctrs s c)
       && (ctrs s c + (cost + (pages sc - ctrs s stat_ppn_free)) <? 2 ^ 32))
       [stat_write_req_print; stat_GCRNVRAM_print; stat_NVRAMGC_print].

Lemma forallb_seqZ (f : Z -> bool) n :
  forallb f (seqZ 0 n) = true -> forall p, 0 <= p < n -> f p = true.
Proof.
  intros Hf p Hp. rewrite forallb_forall in Hf. apply Hf, list_elem_of_In, elem_of_seqZ. lia.
Qed.

Lemma room_dec_ok sc n r cost s : room_dec sc n r cost s = true -> room sc n r cost s.
Proof.
  unfold room_dec. rewrite !andb_true_iff, !Z.leb_le. intros [[[Hf Hs] Hr] Hb]. constructor; try done.
  - intros p Hp. by apply Z.leb_le, (forallb_seqZ _ _ Hs).
  - rewrite forallb_forall in Hb. intros k Hk. specialize (Hb k).
    rewrite andb_true_iff, Z.leb_le, Z.ltb_lt in Hb. apply Hb. destruct k; try done; simpl; auto.
Qed.

Definition info_dec (sc : ssdconf) (info : list lpn_info) (n : Z) : bool :=
  forallb (fun i => match zget info i with
                    | Some li => (h_lpn li <=? 0) || (h_lpn li <? pages sc)
                    | None => false
                    end) (seqZ 0 n).

Lemma info_dec_ok sc info n :
  info_dec sc info n = true -> forall i, 0 <= i < n -> info_ok sc info i.
Proof.
  intros Hd i Hi. pose proof (forallb_seqZ _ _ Hd i Hi) as H. cbv beta in H. unfold info_ok.
  destruct (zget info i) as [li|]; [|done]. exists li. split; [done|].
  rewrite orb_true_iff, Z.leb_le, Z.ltb_lt in H. lia.
Qed.

Definition request_dec (sc : ssdconf) (rq : request_meta) (n : Z) : bool :=
  (0 <=? req_sector_nb rq) && (0 <=? req_length rq) && (req_length rq <? 2 ^ 32)
  && (req_sector_nb rq + req_length rq <=? SECTOR_NB sc)
  && (span_pages sc (write_span sc (req_sector_nb rq) (req_length rq)) =? n)
  && info_dec sc (lpns_info rq) n.

Lemma request_dec_ok sc rq n : request_dec sc rq n = true -> request_ok sc rq n.
Proof.
  unfold request_dec. rewrite !andb_true_iff, !Z.leb_le, Z.ltb_lt, Z.eqb_eq.
  intros (((((H1 & H2) & H3) & H4) & H5) & H6). constructor; try done. by apply info_dec_ok.
Qed.

(** ** The states are reachable *)

Lemma demo_file : conf_file demo_words demo_conf 2.
Proof.
  constructor; [vm_compute; reflexivity..| |vm_compute; reflexivity].
  constructor; vm_compute; try done; split; congruence.
Qed.

Lemma wp_after {A} (m : SM A) Q s : wp m Q s -> exists a, m s = Ok a (after m s) /\ Q a (after m s).
Proof. unfold wp, after. intros Hw. destruct (m s) as [a s'| |]; [by exists a|done..]. Qed.

Lemma after_returned {A} (m : SM A) s a : returned m s = Some a -> m s = Ok a (after m s).
Proof. unfold returned, after. by destruct (m s) as [a' s'| |]; [intros [= ->]|..]. Qed.

Lemma demo_init : FTL_INIT (Some demo_words) ssd_zero = Ok tt demo0.
Proof. destruct (wp_after _ _ _ (FTL_INIT_spec _ _ _ demo_file)) as ([] & Hi & _). exact Hi. Qed.

Definition demo_data : contents := mk_contents (fun _ => 0) 0.

Lemma reach0 : reach demo_conf demo_data (fun _ => None) demo0.
Proof. eapply reach_init; [exact demo_file|exact demo_init]. Qed.

(** A command from a reachable state leads to a reachable state. *)
Lemma reach_after sc c D St s :
  reach sc D St s -> admissible sc c St s -> exists D' St', reach sc D' St' (after (execute c) s).
Proof.
  intros Hr Hadm. destruct (reach_device sc _ _ _ Hr) as [Hd Hsim].
  destruct (wp_after _ _ _ (execute_step sc c (fun i => i) D St s Hd Hsim Hadm)) as (r & E & _ & St' & He & D' & Hev & HD').
  exists D', St'. by eapply reach_step.
Qed.

Lemma write_admissible sc St s rq n :
  request_dec sc rq n = true ->
  room_dec sc n (request_remaps rq n) (n * (BLOCK_NB sc + 2) + 2) s = true ->
  admissible sc (Write rq) St s.
Proof. intros H1 H2. exists n. split; [by apply request_dec_ok|by apply room_dec_ok]. Qed.

Lemma reach1 : exists D St, reach demo_conf D St demo1.
Proof.
  apply (reach_after _ (Write (demo_write 0 16 plain)) _ _ _ reach0), (write_admissible _ _ _ _ 16);
    vm_compute; reflexivity.
Qed.

Lemma reach2 : exists D St, reach demo_conf D St demo2.
Proof.
  destruct reach1 as (D & St & Hr).
  apply (reach_after _ (Write (demo_write 0 8 plain)) _ _ _ Hr), (write_admissible _ _ _ _ 8);
    vm_compute; reflexivity.
Qed.

Lemma reach3 : exists D St, reach demo_conf D St demo3.
Proof.
  destruct reach2 as (D & St & Hr).
  apply (reach_after _ (Write (demo_write 20 1 (mk_lpn_info 0 CP_WRITE 3))) _ _ _ Hr),
    (write_admissible _ _ _ _ 1); vm_compute; reflexivity.
Qed.

(** ** Deciding that a request carries no remap metadata *)
Definition plain_dec (info : list lpn_info) (n : Z) : bool :=
  forallb (fun i => match zget info i with
                    | Some li => negb (remap_flag (flag li))
                    | None => false
                    end) (seqZ 0 n).

Lemma plain_dec_ok info n :
  plain_dec info n = true ->
  forall i, 0 <= i < n -> exists li, zget info i = Some li /\ remap_flag (flag li) = false.
Proof.
  intros Hd i Hi. pose proof (forallb_seqZ _ _ Hd i Hi) as H. cbv beta in H.
  destruct (zget info i) as [li|]; [|done]. exists li. split; [done|]. by apply negb_true_iff.
Qed.

(** ** Deciding the room of the interval counters *)
Definition print_dec (n : Z) (c : ctr -> Z) : bool :=
  forallb (fun k => (0 <=? c k) && (c k + n <? 2 ^ 32))
    [stat_write_req_print; stat_GCRNVRAM_print; stat_NVRAMGC_print].

Lemma print_dec_ok n c : print_dec n c = true -> budget n c.
Proof.
  unfold print_dec. rewrite forallb_forall. intros Hd k Hk. specialize (Hd k).
  rewrite andb_true_iff, Z.leb_le, Z.ltb_lt in Hd. apply Hd. destruct k; try done; simpl; auto.
Qed.
