(* ===== verification/Checker.v ===== *)
(** * The performance checker: ssd/ftl_perf_manager.c

    The statistics in doubles, and the life of a request of the queue: looked
    up by its number, given the times its pages start and end, and, once it has
    them all, turned into a latency and freed.  [iostate] adds to
    [struct ssdstate] as State.v has it the fields only this code and the
    registers of ssd_io_manager.c (Registers.v) use.  A pointer to a request of
    the queue is its position. *)

From Stdlib Require Import ZArith Lia List SpecFloat.
From stdpp Require Import base tactics numbers list functions.
From S2P Require Import Prelude Config State Timing Perf Init Demo.

Open Scope Z_scope.

Definition NOOP : Z := 800.
Definition ERASE : Z := 803.
Definition SEQ_WRITE : Z := 806.
Definition RAN_WRITE : Z := 807.
Definition RAN_COLD_WRITE : Z := 808.
Definition RAN_HOT_WRITE : Z := 809.
Definition SEQ_MERGE_READ : Z := 810.
Definition RAN_MERGE_READ : Z := 811.
Definition SEQ_MERGE_WRITE : Z := 812.
Definition RAN_MERGE_WRITE : Z := 813.
Definition RAN_COLD_MERGE_WRITE : Z := 816.
Definition RAN_HOT_MERGE_WRITE : Z := 817.
Definition CH_OP : Z := 80.
Definition REG_OP : Z := 81.
Definition LATENCY_OP : Z := 82.
Definition UPDATE_START_TIME : Z := 900.
Definition UPDATE_END_TIME : Z := 901.

(** ** State *)

(** The operations that have an average, a count and a sum of delays. *)
Inductive iokind : Type :=
| k_write | k_read | k_gc_write | k_gc_read | k_seq_write | k_ran_write | k_ran_cold_write | k_ran_hot_write
| k_seq_merge_read | k_ran_merge_read | k_seq_merge_write | k_ran_merge_write | k_ran_cold_merge_write | k_ran_hot_merge_write.

#[global] Instance iokind_eq_dec : EqDecision iokind.
Proof. solve_decision. Defined.

Record perfstate : Type := mk_perfstate {
  avg_delay : iokind -> spec_float;
  total_count : iokind -> spec_float;
  total_delay : iokind -> spec_float;
  read_latency_count : spec_float;
  write_latency_count : spec_float;
  avg_read_latency : spec_float;
  avg_write_latency : spec_float;
  ssd_util : spec_float;
  written_page_nb : Z
}.

(** A register: the command and its type, the times at which the channel and
    the cells begin, the request and the page it works for, and the overhead. *)
Record register : Type := mk_register {
  reg_io_cmd : Z;
  reg_io_type : Z;
  reg_io_time : Z;
  cell_io_time : Z;
  access_nb : Z * Z;
  io_overhead : Z
}.

Record iostate : Type := mk_iostate {
  ssd : ssdstate;
  perf : perfstate;
  registers : list register;
  old_channel_nb : Z;
  old_channel_cmd : Z;
  old_channel_time : Z;
  init_diff_reg : Z;
  io_update_overhead : Z
}.

Definition set_ssd v s :=
  mk_iostate v (perf s) (registers s) (old_channel_nb s) (old_channel_cmd s) (old_channel_time s) (init_diff_reg s) (io_update_overhead s).
Definition set_perf v s :=
  mk_iostate (ssd s) v (registers s) (old_channel_nb s) (old_channel_cmd s) (old_channel_time s) (init_diff_reg s) (io_update_overhead s).
Definition set_registers v s :=
  mk_iostate (ssd s) (perf s) v (old_channel_nb s) (old_channel_cmd s) (old_channel_time s) (init_diff_reg s) (io_update_overhead s).
Definition set_old_channel nb cmd s :=
  mk_iostate (ssd s) (perf s) (registers s) nb cmd (old_channel_time s) (init_diff_reg s) (io_update_overhead s).
Definition set_old_channel_time v s :=
  mk_iostate (ssd s) (perf s) (registers s) (old_channel_nb s) (old_channel_cmd s) v (init_diff_reg s) (io_update_overhead s).
Definition set_init_diff_reg v s :=
  mk_iostate (ssd s) (perf s) (registers s) (old_channel_nb s) (old_channel_cmd s) (old_channel_time s) v (io_update_overhead s).
Definition set_io_update_overhead v s :=
  mk_iostate (ssd s) (perf s) (registers s) (old_channel_nb s) (old_channel_cmd s) (old_channel_time s) (init_diff_reg s) v.

Abbreviation IM A := (M iostate A).

(** The operations of the FTL on [struct ssdstate]. *)
Definition on_dev {A} (m : SM A) : IM A := fun s =>
  match m (ssd s) with
  | Ok a d => Ok a (set_ssd d s)
  | Crash c => Crash c
  | Hang => Hang
  end.
Definition upd_perf (f : perfstate -> perfstate) : IM unit := modify (fun s => set_perf (f (perf s)) s).

(** ** Statistics *)

Definition d_zero : spec_float := S754_zero false.
Definition d_one : spec_float := d_of_Z 1.

(** The statistics of [RAN_MERGE_WRITE] are left out; [INIT_PERF_CHECKER] of
    Init.v is the part for the queue. *)
Definition INIT_PERF_STATS : IM unit :=
  modify (fun s =>
    let p := perf s in
    let zero (f : iokind -> spec_float) := fun k => if decide (k = k_ran_merge_write) then f k else d_zero in
    set_perf (mk_perfstate (zero (avg_delay p)) (zero (total_count p)) (zero (total_delay p))
      d_zero d_zero d_zero d_zero d_zero 0) s);;
  on_dev INIT_PERF_CHECKER.

Definition add_delay (k : iokind) (delay : spec_float) : IM unit :=
  upd_perf (fun p => mk_perfstate (avg_delay p) (total_count p) (<[k := d_add (total_delay p k) delay]> (total_delay p))
    (read_latency_count p) (write_latency_count p) (avg_read_latency p) (avg_write_latency p) (ssd_util p) (written_page_nb p)).

(** [total_count++; avg_delay = total_delay / total_count]. *)
Definition count_op (k : iokind) : IM unit :=
  upd_perf (fun p => let n := d_add (total_count p k) d_one in
    mk_perfstate (<[k := d_div (total_delay p k) n]> (avg_delay p)) (<[k := n]> (total_count p)) (total_delay p)
    (read_latency_count p) (write_latency_count p) (avg_read_latency p) (avg_write_latency p) (ssd_util p) (written_page_nb p)).

Definition add_written (n : Z) : IM unit :=
  upd_perf (fun p => mk_perfstate (avg_delay p) (total_count p) (total_delay p)
    (read_latency_count p) (write_latency_count p) (avg_read_latency p) (avg_write_latency p) (ssd_util p) (written_page_nb p + n)).

Definition ch_op (op_type : Z) (delay : spec_float) : IM unit :=
  if op_type =? READ then (add_delay k_read delay;; count_op k_read)
  else if op_type =? WRITE then add_delay k_write delay
  else if op_type =? ERASE then mret tt
  else if op_type =? GC_READ then add_delay k_gc_read delay
  else if op_type =? GC_WRITE then add_delay k_gc_write delay
  else if op_type =? SEQ_WRITE then add_delay k_seq_write delay
  else if op_type =? RAN_WRITE then add_delay k_ran_write delay
  else if op_type =? RAN_COLD_WRITE then add_delay k_ran_cold_write delay
  else if op_type =? RAN_HOT_WRITE then add_delay k_ran_hot_write delay
  else if op_type =? SEQ_MERGE_READ then add_delay k_seq_merge_read delay
  else if op_type =? RAN_MERGE_READ then add_delay k_ran_merge_read delay
  else if op_type =? SEQ_MERGE_WRITE then add_delay k_seq_merge_write delay
  else if op_type =? RAN_MERGE_WRITE then add_delay k_ran_merge_write delay
  else if op_type =? RAN_COLD_MERGE_WRITE then add_delay k_ran_cold_merge_write delay
  else if op_type =? RAN_HOT_MERGE_WRITE then add_delay k_ran_hot_merge_write delay
  else mret tt.

Definition add_and_count (k : iokind) (delay : spec_float) : IM unit := add_delay k delay;; count_op k.

(** The writes of the host also count as writes. *)
Definition host_write (k : iokind) (delay : spec_float) : IM unit :=
  add_and_count k delay;; add_and_count k_write delay;; add_written 1.

Definition reg_op_cases (sc : ssdconf) (op_type : Z) (delay : spec_float) : IM unit :=
  if op_type =? READ then add_delay k_read delay
  else if op_type =? WRITE then (add_and_count k_write delay;; add_written 1)
  else if op_type =? ERASE then add_written (- PAGE_NB sc)
  else if op_type =? GC_READ then add_and_count k_gc_read delay
  else if op_type =? GC_WRITE then (add_and_count k_gc_write delay;; add_written 1)
  else if op_type =? SEQ_WRITE then host_write k_seq_write delay
  else if op_type =? RAN_WRITE then host_write k_ran_write delay
  else if op_type =? RAN_COLD_WRITE then host_write k_ran_cold_write delay
  else if op_type =? RAN_HOT_WRITE then host_write k_ran_hot_write delay
  else if op_type =? SEQ_MERGE_READ then add_and_count k_seq_merge_read delay
  else if op_type =? RAN_MERGE_READ then add_and_count k_ran_merge_read delay
  else if op_type =? SEQ_MERGE_WRITE then (add_and_count k_seq_merge_write delay;; add_written 1)
  else if op_type =? RAN_MERGE_WRITE then (add_and_count k_ran_merge_write delay;; add_written 1)
  else if op_type =? RAN_COLD_MERGE_WRITE then (add_and_count k_ran_cold_merge_write delay;; add_written 1)
  else if op_type =? RAN_HOT_MERGE_WRITE then (add_and_count k_ran_hot_merge_write delay;; add_written 1)
  else mret tt.

Definition reg_op (op_type : Z) (delay : spec_float) : IM unit :=
  sc ← gets (fun s => ssdparams (ssd s));
  reg_op_cases sc op_type delay;;
  upd_perf (fun p => mk_perfstate (avg_delay p) (total_count p) (total_delay p)
    (read_latency_count p) (write_latency_count p) (avg_read_latency p) (avg_write_latency p)
    (d_mul (d_div (d_of_Z (written_page_nb p)) (d_of_Z (PAGES_IN_SSD sc))) (d_of_Z 100)) (written_page_nb p)).

(** The average of [n] values and one more. *)
Definition next_average (avg n delay : spec_float) : spec_float := d_div (d_add (d_mul avg n) delay) (d_add n d_one).

Definition add_latency (op_type : Z) (delay : spec_float) (p : perfstate) : perfstate :=
  if op_type =? READ then
    mk_perfstate (avg_delay p) (total_count p) (total_delay p)
      (d_add (read_latency_count p) d_one) (write_latency_count p)
      (next_average (avg_read_latency p) (read_latency_count p) delay) (avg_write_latency p) (ssd_util p) (written_page_nb p)
  else if op_type =? WRITE then
    mk_perfstate (avg_delay p) (total_count p) (total_delay p)
      (read_latency_count p) (d_add (write_latency_count p) d_one)
      (avg_read_latency p) (next_average (avg_write_latency p) (write_latency_count p) delay) (ssd_util p) (written_page_nb p)
  else p.

Definition SEND_TO_PERF_CHECKER (op_type op_delay type : Z) : IM unit :=
  let delay := d_of_Z op_delay in
  if type =? CH_OP then ch_op op_type delay
  else if type =? REG_OP then reg_op op_type delay
  else if type =? LATENCY_OP then upd_perf (add_latency op_type delay)
  else mret tt.

Definition GET_IO_BANDWIDTH (sc : ssdconf) (delay : spec_float) : spec_float :=
  if SFeqb delay d_zero then d_zero
  else d_div (d_mul (d_of_Z (PAGE_SIZE sc)) (d_of_Z 1000000)) (d_mul (d_mul delay (d_of_Z 1024)) (d_of_Z 1024)).

(** ** Requests *)

Fixpoint lookup_loop (n : nat) (pos : nat) (l : list io_request) (req_nb : Z) : option nat :=
  match n, l with
  | S n', r :: l' => if request_nb r =? u32 req_nb then Some pos else lookup_loop n' (S pos) l' req_nb
  | _, _ => None
  end.

(** The number is compared as unsigned; the type is not used. *)
Definition LOOKUP_IO_REQUEST (req_nb type : Z) : SM (option nat) :=
  l ← gets io_requests;
  total_request ← ctr_get io_request_nb;
  match l with
  | [] => mret None
  | _ => mret (lookup_loop (Z.to_nat (s32 total_request)) 0 l req_nb)
  end.

(** The loop over the predecessors: [prev_request] is at position [i].  The
    result is the queue without the request, or [None] when it is not found. *)
Fixpoint unlink_loop (n : nat) (i : nat) (l : list io_request) (request : option nat) : SM (option (list io_request)) :=
  match n with
  | O => mret None
  | S n' =>
      if (length l <=? i)%nat then mcrash NullDeref
      else
        let next := if (S i <? length l)%nat then Some (S i) else None in
        if decide (next = request) then
          match request with
          | None => mcrash NullDeref
          | Some k => mret (Some (delete k l))
          end
        else unlink_loop n' (S i) l request
  end.

Definition FREE_IO_REQUEST (request : option nat) : SM unit :=
  nb ← ctr_get io_request_nb;
  l ← gets io_requests;
  r ← (if nb =? 1 then mret (Some [])
       else match l, request with
            | [], None => mcrash NullDeref
            | _ :: l', Some O => mret (Some l')
            | _, _ => unlink_loop (Z.to_nat (u32 (nb - 1))) 0 l request
            end);
  match r with
  | None => mret tt
  | Some l' =>
      _ ← deref request;
      modify (set_io_requests l');;
      ctr_add io_request_nb (-1)
  end.

(** The same after a lookup. *)
Definition FREE_DUMMY_IO_REQUEST (type : Z) : SM unit :=
  seq ← ctr_get io_request_seq_nb;
  request ← LOOKUP_IO_REQUEST seq type;
  FREE_IO_REQUEST request.

Definition get_request (k : nat) : SM io_request := l ← gets io_requests; deref (l !! k).
Definition put_request (k : nat) (r : io_request) : SM unit := modify (fun s => set_io_requests (<[k := r]> (io_requests s)) s).

(** Pages whose end is 0 are given the time the command takes. *)
Definition fill_end (sc : ssdconf) (r : io_request) : SM (list Z) :=
  mfold (Z.to_nat (request_size r)) 0 (end_time r) (fun i e =>
    v ← idx e i;
    if v =? 0 then
      if request_type r =? READ then
        (st ← idx (start_time r) i; mret (zset i (st + REG_READ_DELAY sc + CELL_READ_DELAY sc) e))
      else if request_type r =? WRITE then
        (st ← idx (start_time r) i; mret (zset i (st + REG_WRITE_DELAY sc + CELL_PROGRAM_DELAY sc) e))
      else mret e
    else mret e).

Definition CALC_IO_LATENCY (k : nat) : SM Z :=
  conf sc;
  r ← get_request k;
  e ← fill_end sc r;
  put_request k (mk_io_request (request_nb r) (request_type r) (request_size r) (start_count r) (end_count r) (start_time r) e);;
  min0 ← idx (start_time r) 0;
  max0 ← idx e 0;
  mm ← mfold (Z.to_nat (request_size r - 1)) 1 (min0, max0) (fun i mm =>
    st ← idx (start_time r) i;
    en ← idx e i;
    mret (if st <? mm.1 then st else mm.1, if mm.2 <? en then en else mm.2));
  if request_size r =? 0 then mcrash DivByZero
  else mret (Z.quot (mm.2 - mm.1) (request_size r)).

Section Checker.
Context `{Clock}.

Definition record_time (r : io_request) (offset time type : Z) : SM io_request :=
  if type =? UPDATE_START_TIME then
    (_ ← idx (start_time r) offset;
     mret (mk_io_request (request_nb r) (request_type r) (request_size r) (s16 (start_count r + 1)) (end_count r)
       (zset offset time (start_time r)) (end_time r)))
  else if type =? UPDATE_END_TIME then
    (_ ← idx (end_time r) offset;
     mret (mk_io_request (request_nb r) (request_type r) (request_size r) (start_count r) (s16 (end_count r + 1))
       (start_time r) (zset offset time (end_time r))))
  else mret r.

Definition UPDATE_IO_REQUEST (req_nb offset time type : Z) : IM Z :=
  start ← on_dev get_usec;
  if req_nb =? -1 then mret 0
  else
    curr_request ← on_dev (LOOKUP_IO_REQUEST req_nb type);
    match curr_request with
    | None => mret 0
    | Some k =>
        r ← on_dev (r ← get_request k; r ← record_time r offset time type; put_request k r;; mret r);
        (if (start_count r =? request_size r) && (end_count r =? request_size r) then
           latency ← on_dev (CALC_IO_LATENCY k);
           SEND_TO_PERF_CHECKER (request_type r) latency LATENCY_OP;;
           on_dev (FREE_IO_REQUEST (Some k))
         else mret tt);;
        end_ ← on_dev get_usec;
        mret (end_ - start)
    end.

End Checker.

(** ** Lemmas: the queue *)

Lemma wp_on_dev {A} (m : SM A) (Q : A -> iostate -> Prop) s :
  wp m (fun a d => Q a (set_ssd d s)) (ssd s) -> wp (on_dev m) Q s.
Proof. unfold wp, on_dev. by destruct (m (ssd s)). Qed.

(** The counter counts the queue. *)
Definition queue_counted (d : ssdstate) : Prop :=
  ctrs d io_request_nb = zlen (io_requests d) /\ zlen (io_requests d) < 2 ^ 31.

(** The position of the first request with a number. *)
Definition first_with (nb : Z) (l : list io_request) (o : option nat) : Prop :=
  match o with
  | Some k => (exists r, l !! k = Some r /\ request_nb r = u32 nb) /\
              forall j r, (j < k)%nat -> l !! j = Some r -> request_nb r <> u32 nb
  | None => forall j r, l !! j = Some r -> request_nb r <> u32 nb
  end.

Lemma lookup_loop_spec nb l pos n : (length l <= n)%nat ->
  exists o, lookup_loop n pos l nb = (fun k => pos + k)%nat <$> o /\ first_with nb l o.
Proof.
  revert pos n. induction l as [|r l IH]; intros pos n Hn.
  { exists None. destruct n; split; done. }
  destruct n as [|n]; simpl in Hn; [lia|]. simpl. destruct (Z.eqb_spec (request_nb r) (u32 nb)) as [E|E].
  - exists (Some O). split; [simpl; f_equal; lia|]. split; [by exists r|]. intros j r'. lia.
  - destruct (IH (S pos) n ltac:(lia)) as (o & Ho & Hf). exists (S <$> o). split.
    + rewrite Ho. destruct o; simpl; [f_equal; lia|done].
    + destruct o as [k|]; simpl in *.
      * destruct Hf as [Hk Hb]. split; [done|]. intros [|j] r' Hj Hr; [by simplify_eq/=|]. apply (Hb j); [lia|done].
      * intros [|j] r' Hr; [by simplify_eq/=|]. by apply (Hf j).
Qed.

Lemma LOOKUP_IO_REQUEST_spec nb type d : queue_counted d ->
  wp (LOOKUP_IO_REQUEST nb type) (fun o d' => d' = d /\ first_with nb (io_requests d) o) d.
Proof.
  intros [Hc Hl]. unfold LOOKUP_IO_REQUEST. wp_steps. unfold ctr_get. wp_step.
  destruct (io_requests d) as [|r l] eqn:E; [by wp_step|]. rewrite <- E in *. wp_step. split; [done|].
  rewrite Hc. pose proof (zlen_nonneg (io_requests d)). rewrite s32_small by lia.
  destruct (lookup_loop_spec nb (io_requests d) 0 (Z.to_nat (zlen (io_requests d)))) as (o & -> & Ho).
  { unfold zlen. lia. }
  by destruct o.
Qed.

Lemma first_with_unique nb l k r : l !! k = Some r -> request_nb r = u32 nb ->
  NoDup (request_nb <$> l) -> forall o, first_with nb l o -> o = Some k.
Proof.
  intros Hk Er Hnd [j|]; simpl; [|intros Hn; by destruct (Hn k r Hk)].
  intros [(r' & Hj & Er') _]. f_equal. eapply (NoDup_lookup _ j k (u32 nb) Hnd).
  - rewrite list_lookup_fmap, Hj. simpl. by rewrite Er'.
  - rewrite list_lookup_fmap, Hk. simpl. by rewrite Er.
Qed.

Lemma unlink_loop_spec l k n i d : (0 < k < length l)%nat -> (i < k)%nat -> (k - i <= n)%nat ->
  unlink_loop n i l (Some k) d = Ok (Some (delete k l)) d.
Proof.
  intros Hk. revert i. induction n as [|n IH]; intros i Hi Hn; [lia|]. simpl.
  destruct (Nat.leb_spec (length l) i); [lia|]. destruct (Nat.ltb_spec (S i) (length l)); [|lia].
  destruct (decide (Some (S i) = Some k)) as [|Hne]; [done|]. apply IH; [|lia].
  assert (S i <> k) by congruence. lia.
Qed.

Lemma FREE_IO_REQUEST_spec k d : queue_counted d -> (k < length (io_requests d))%nat ->
  wp (FREE_IO_REQUEST (Some k)) (fun _ d' =>
    d' = ctr_upd io_request_nb (zlen (io_requests d) - 1) (set_io_requests (delete k (io_requests d)) d)) d.
Proof.
  intros [Hc Hl] Hk. unfold FREE_IO_REQUEST. wp_steps. unfold ctr_get. wp_steps. rewrite Hc.
  pose proof (zlen_nonneg (io_requests d)).
  apply (wp_mono _ (fun r d' => r = Some (delete k (io_requests d)) /\ d' = d)).
  - destruct (Z.eqb_spec (zlen (io_requests d)) 1) as [E1|E1].
    + wp_step. split; [|done]. unfold zlen in E1. destruct (io_requests d) as [|r [|? ?]]; simpl in *; try lia.
      by destruct k; [|lia].
    + destruct (io_requests d) as [|r l] eqn:E; [simpl in Hk; lia|]. destruct k as [|k]; [by wp_step|].
      rewrite <- E in *. eapply wp_of_eq; [apply unlink_loop_spec; try lia|done].
      rewrite u32_small by (unfold zlen in *; lia). unfold zlen in *. lia.
  - intros r d' [-> ->]. wp_steps. apply (wp_deref _ k); [done|]. wp_steps. unfold ctr_add. wp_step. rewrite <- Hc. done.
Qed.

(** ** Lemmas: the latency of a request *)

(** The end of a page: as recorded, or the start and the time of the command. *)
Definition page_end (sc : ssdconf) (ty st en : Z) : Z :=
  if en =? 0 then
    if ty =? READ then st + REG_READ_DELAY sc + CELL_READ_DELAY sc
    else if ty =? WRITE then st + REG_WRITE_DELAY sc + CELL_PROGRAM_DELAY sc
    else en
  else en.
Definition page_ends (sc : ssdconf) (r : io_request) : list Z :=
  zip_with (page_end sc (request_type r)) (start_time r) (end_time r).

(** From the first start to the last end, per page. *)
Definition span (starts ends : list Z) : Z :=
  match starts, ends with
  | x :: l, y :: l' => foldl Z.max y l' - foldl Z.min x l
  | _, _ => 0
  end.
Definition latency_of (sc : ssdconf) (r : io_request) : Z :=
  Z.quot (span (start_time r) (page_ends sc r)) (request_size r).

Record req_ok (r : io_request) : Prop := {
  rq_size : 0 < request_size r < 2 ^ 15;
  rq_start : zlen (start_time r) = request_size r;
  rq_end : zlen (end_time r) = request_size r
}.

Lemma zget_zip_with {A B C} (f : A -> B -> C) l l' i :
  zget (zip_with f l l') i = (x ← zget l i; y ← zget l' i; Some (f x y)).
Proof. unfold zget. destruct (i <? 0); [done|]. by rewrite lookup_zip_with. Qed.

Lemma fill_end_spec sc r d : req_ok r -> wp (fill_end sc r) (fun e d' => d' = d /\ e = page_ends sc r) d.
Proof.
  intros [Hsz Hs He]. unfold fill_end. eapply wp_mono.
  - apply (wp_mfold (fun i e d' => d' = d /\ zlen e = request_size r /\
      forall j, zget e j = if j <? i then zget (page_ends sc r) j else zget (end_time r) j)).
    { split; [done|]. split; [done|]. intros j. destruct (Z.ltb_spec j 0); [|done].
      unfold page_ends. rewrite zget_zip_with. unfold zget. by destruct (Z.ltb_spec j 0); [|lia]. }
    intros i e d' Hi (-> & Hl & Hg).
    destruct (zget_is_Some (end_time r) i) as [en Hen]; [lia|]. destruct (zget_is_Some (start_time r) i) as [st Hst]; [lia|].
    assert (Hpe : zget (page_ends sc r) i = Some (page_end sc (request_type r) st en)).
    { unfold page_ends. by rewrite zget_zip_with, Hst, Hen. }
    assert (Hstep : forall e', e' = zset i (page_end sc (request_type r) st en) e ->
      d = d /\ zlen e' = request_size r /\ forall j, zget e' j = if j <? i + 1 then zget (page_ends sc r) j else zget (end_time r) j).
    { intros e' ->. split; [done|]. split; [by rewrite zlen_zset|]. intros j. rewrite zget_zset by lia.
      destruct (Z.eqb_spec i j) as [<-|Hne]; [destruct (Z.ltb_spec i (i + 1)); [done|lia]|].
      rewrite Hg. destruct (Z.ltb_spec j i), (Z.ltb_spec j (i + 1)); try lia; done. }
    assert (Hei : zget e i = Some en) by (rewrite Hg; by destruct (Z.ltb_spec i i); [lia|]).
    wp_step. apply (wp_idx _ _ en); [done|]. unfold page_end in Hstep.
    destruct (en =? 0); [|wp_step; apply Hstep; by rewrite zset_get].
    destruct (request_type r =? READ); [|destruct (request_type r =? WRITE); [|wp_step; apply Hstep; by rewrite zset_get]].
    all: wp_step; apply (wp_idx _ _ st); [done|]; wp_step; by apply Hstep.
  - intros e d' (-> & Hl & Hg). split; [done|]. apply zget_ext.
    + rewrite Hl. unfold page_ends, zlen in *. rewrite length_zip_with. lia.
    + intros j Hj. rewrite Hg. destruct (Z.ltb_spec j (0 + Z.of_nat (Z.to_nat (request_size r)))); [done|lia].
Qed.

Lemma foldl_take_S {A} (f : Z -> A -> Z) x l i a : zget l i = Some a ->
  foldl f x (take (Z.to_nat (i + 1)) l) = f (foldl f x (take (Z.to_nat i) l)) a.
Proof.
  intros Ha. pose proof (zget_Some_range _ _ _ Ha). replace (Z.to_nat (i + 1)) with (S (Z.to_nat i)) by lia.
  unfold zget in Ha. destruct (Z.ltb_spec i 0); [lia|]. by rewrite (take_S_r _ _ a), foldl_app by done.
Qed.

Lemma zget_cons {A} (x : A) l i : 0 < i -> zget (x :: l) i = zget l (i - 1).
Proof.
  intros Hi. unfold zget. destruct (Z.ltb_spec i 0), (Z.ltb_spec (i - 1) 0); try lia.
  by replace (Z.to_nat i) with (S (Z.to_nat (i - 1))) by lia.
Qed.

Lemma min_max_loop (starts ends : list Z) x y l l' (d : ssdstate) :
  starts = x :: l -> ends = y :: l' -> length l = length l' ->
  wp (mfold (Z.to_nat (zlen starts - 1)) 1 (x, y) (fun i mm =>
    st ← idx starts i;
    en ← idx ends i;
    mret (if st <? mm.1 then st else mm.1, if mm.2 <? en then en else mm.2)))
  (fun mm d' => d' = d /\ mm = (foldl Z.min x l, foldl Z.max y l')) d.
Proof.
  intros -> -> Hll. assert (Hn : zlen (x :: l) - 1 = zlen l) by (unfold zlen; simpl; lia). rewrite Hn. eapply wp_mono.
  - apply (wp_mfold (fun i mm d' => d' = d /\ mm = (foldl Z.min x (take (Z.to_nat (i - 1)) l), foldl Z.max y (take (Z.to_nat (i - 1)) l')))).
    { done. }
    intros i mm d' Hi (-> & ->). pose proof (zlen_nonneg l).
    destruct (zget_is_Some l (i - 1)) as [st Hst]; [lia|]. destruct (zget_is_Some l' (i - 1)) as [en Hen]; [unfold zlen in *; lia|].
    wp_step. apply (wp_idx _ _ st); [by rewrite zget_cons by lia|]. wp_step. apply (wp_idx _ _ en); [by rewrite zget_cons by lia|].
    wp_step. split; [done|]. replace (i + 1 - 1) with (i - 1 + 1) by lia.
    rewrite (foldl_take_S _ _ _ _ _ Hst), (foldl_take_S _ _ _ _ _ Hen). simpl. f_equal.
    + destruct (Z.ltb_spec st (foldl Z.min x (take (Z.to_nat (i - 1)) l))); lia.
    + destruct (Z.ltb_spec (foldl Z.max y (take (Z.to_nat (i - 1)) l')) en); lia.
  - intros mm d' (-> & ->). split; [done|]. rewrite !take_ge; [done|unfold zlen; lia..].
Qed.

Definition with_ends (r : io_request) (e : list Z) : io_request :=
  mk_io_request (request_nb r) (request_type r) (request_size r) (start_count r) (end_count r) (start_time r) e.

Lemma CALC_IO_LATENCY_spec k r d : io_requests d !! k = Some r -> req_ok r ->
  wp (CALC_IO_LATENCY k) (fun v d' => v = latency_of (ssdparams d) r /\
    d' = set_io_requests (<[k := with_ends r (page_ends (ssdparams d) r)]> (io_requests d)) d) d.
Proof.
  intros Hk Hr. pose proof Hr as [Hsz Hs He]. unfold CALC_IO_LATENCY, get_request, put_request.
  apply wp_bind, wp_conf. wp_steps. apply (wp_deref _ r); [done|]. wp_step.
  eapply wp_mono; [by apply fill_end_spec|]. intros e d' (-> & ->). wp_steps.
  destruct (start_time r) as [|x l] eqn:Es; [unfold zlen in Hs; simpl in Hs; lia|].
  destruct (page_ends (ssdparams d) r) as [|y l'] eqn:Ee.
  { unfold page_ends in Ee. rewrite Es in Ee. destruct (end_time r); [unfold zlen in He; simpl in He; lia|done]. }
  assert (Hll : length l = length l').
  { apply (f_equal length) in Ee. unfold page_ends in Ee. rewrite length_zip_with, Es in Ee. unfold zlen in *. cbn [length] in *. lia. }
  apply (wp_idx _ _ x); [done|]. wp_steps. apply (wp_idx _ _ y); [done|]. wp_steps.
  rewrite <- Hs. eapply wp_mono; [by apply (min_max_loop (x :: l) (y :: l') x y l l')|].
  intros mm d' (-> & ->). rewrite Hs. destruct (Z.eqb_spec (request_size r) 0); [lia|]. wp_step.
  unfold latency_of. rewrite Es, Ee. split; [done|]. unfold with_ends. by rewrite Es.
Qed.

(** ** Lemmas: the completion of a request *)

(** A time recorded for a page: of its end or of its start. *)
Record update : Type := mk_update { u_end : bool; u_offset : Z; u_time : Z }.
Definition u_type (u : update) : Z := if u_end u then UPDATE_END_TIME else UPDATE_START_TIME.

Definition updated (r : io_request) (u : update) : io_request :=
  if u_end u then
    mk_io_request (request_nb r) (request_type r) (request_size r) (start_count r) (s16 (end_count r + 1))
      (start_time r) (zset (u_offset u) (u_time u) (end_time r))
  else
    mk_io_request (request_nb r) (request_type r) (request_size r) (s16 (start_count r + 1)) (end_count r)
      (zset (u_offset u) (u_time u) (start_time r)) (end_time r).

Definition complete (r : io_request) : bool := (start_count r =? request_size r) && (end_count r =? request_size r).

(** The requests in the queue have different numbers. *)
Record queue_ok (d : ssdstate) : Prop := {
  qo_counted : queue_counted d;
  qo_distinct : NoDup (request_nb <$> io_requests d)
}.

(** What recording times leaves alone. *)
Record io_frame (s s' : iostate) : Prop := {
  fr_params : ssdparams (ssd s') = ssdparams (ssd s);
  fr_registers : registers s' = registers s;
  fr_channel : old_channel_nb s' = old_channel_nb s /\ old_channel_cmd s' = old_channel_cmd s /\ old_channel_time s' = old_channel_time s;
  fr_diff : init_diff_reg s' = init_diff_reg s;
  fr_overhead : io_update_overhead s' = io_update_overhead s
}.

Lemma updated_same r u : request_nb (updated r u) = request_nb r /\ request_type (updated r u) = request_type r /\
  request_size (updated r u) = request_size r.
Proof. unfold updated. by destruct (u_end u). Qed.

Lemma updated_ok r u : req_ok r -> req_ok (updated r u).
Proof. intros [H1 H2 H3]. unfold updated. destruct (u_end u); split; simpl; rewrite ?zlen_zset; done. Qed.

Lemma record_time_spec r u d : req_ok r -> 0 <= u_offset u < request_size r ->
  record_time r (u_offset u) (u_time u) (u_type u) d = Ok (updated r u) d.
Proof.
  intros [H1 H2 H3] Hu. apply wp_exact. unfold record_time, u_type, updated.
  destruct (u_end u); simpl; wp_step.
  - destruct (zget_is_Some (end_time r) (u_offset u)) as [x Hx]; [lia|]. apply (wp_idx _ _ x); [done|]. by wp_step.
  - destruct (zget_is_Some (start_time r) (u_offset u)) as [x Hx]; [lia|]. apply (wp_idx _ _ x); [done|]. by wp_step.
Qed.

Lemma queue_counted_delete k d : queue_counted d -> (k < length (io_requests d))%nat ->
  queue_counted (ctr_upd io_request_nb (zlen (io_requests d) - 1) (set_io_requests (delete k (io_requests d)) d)).
Proof.
  intros [Hc Hl] Hk. unfold queue_counted. rewrite ctrs_upd_eq. simpl. unfold zlen in *.
  rewrite length_delete by (by apply lookup_lt_is_Some). rewrite u32_small by lia. lia.
Qed.

Lemma NoDup_delete {A} k (l : list A) : NoDup l -> NoDup (delete k l).
Proof. intros Hl. exact (sublist_NoDup _ _ Hl (sublist_delete l k)). Qed.

Lemma delete_insert_same {A} k x (l : list A) : delete k (<[k := x]> l) = delete k l.
Proof. revert k. induction l as [|y l IH]; intros [|k]; simpl; [done..|]. f_equal. apply IH. Qed.

Lemma fmap_update_nb k r u (l : list io_request) : l !! k = Some r ->
  request_nb <$> <[k := updated r u]> l = request_nb <$> l.
Proof.
  intros Hk. rewrite list_fmap_insert, (proj1 (updated_same r u)). apply list_insert_id. by rewrite list_lookup_fmap, Hk.
Qed.

Section Complete.
Context `{Clock}.

Lemma wp_usec (Q : Z -> iostate -> Prop) s :
  (forall t n, Q t (set_ssd (set_clock_reads n (ssd s)) s)) -> wp (on_dev get_usec) Q s.
Proof. intros HQ. apply wp_on_dev. unfold get_usec. apply wp_bind, wp_read_clock. wp_step. apply HQ. Qed.

Lemma finish_request s k r : queue_counted (ssd s) -> io_requests (ssd s) !! k = Some r -> req_ok r ->
  wp (latency ← on_dev (CALC_IO_LATENCY k);
      SEND_TO_PERF_CHECKER (request_type r) latency LATENCY_OP;;
      on_dev (FREE_IO_REQUEST (Some k)))
   (fun _ s' => io_frame s s' /\ queue_counted (ssd s') /\ io_requests (ssd s') = delete k (io_requests (ssd s)) /\
     perf s' = add_latency (request_type r) (d_of_Z (latency_of (ssdparams (ssd s)) r)) (perf s)) s.
Proof.
  intros Hc Hk Hr. pose proof (lookup_lt_Some _ _ _ Hk) as Hlt. wp_step. apply wp_on_dev.
  eapply wp_mono; [by apply CALC_IO_LATENCY_spec|]. intros v d (-> & ->).
  wp_step. unfold SEND_TO_PERF_CHECKER. simpl. unfold upd_perf. wp_step. apply wp_on_dev.
  set (d := set_io_requests _ (ssd s)).
  assert (Hd : queue_counted d) by (unfold queue_counted, d, zlen in *; simpl; by rewrite length_insert).
  eapply wp_mono; [apply (FREE_IO_REQUEST_spec k d Hd); unfold d; simpl; by rewrite length_insert|].
  intros _ d' ->. split; [done|]. split; [apply queue_counted_delete; [done|unfold d; simpl; by rewrite length_insert]|].
  split; [|done]. unfold d. simpl. apply delete_insert_same.
Qed.

(** After one time: the request is done, or waits for more. *)
Definition after_update (k : nat) (r : io_request) (u : update) (s s' : iostate) : Prop :=
  io_frame s s' /\ queue_ok (ssd s') /\
  if complete (updated r u) then
    io_requests (ssd s') = delete k (io_requests (ssd s)) /\
    perf s' = add_latency (request_type r) (d_of_Z (latency_of (ssdparams (ssd s)) (updated r u))) (perf s)
  else io_requests (ssd s') = <[k := updated r u]> (io_requests (ssd s)) /\ perf s' = perf s.

Lemma UPDATE_IO_REQUEST_spec s k r nb u :
  queue_ok (ssd s) -> io_requests (ssd s) !! k = Some r -> req_ok r -> request_nb r = u32 nb -> nb <> -1 ->
  0 <= u_offset u < request_size r ->
  wp (UPDATE_IO_REQUEST nb (u_offset u) (u_time u) (u_type u)) (fun _ s' => after_update k r u s s') s.
Proof.
  intros [Hc Hnd] Hk Hr Enb Hnb Hu. pose proof (lookup_lt_Some _ _ _ Hk) as Hlt. unfold UPDATE_IO_REQUEST.
  wp_step. apply wp_usec. intros start n. destruct (Z.eqb_spec nb (-1)); [done|].
  wp_step. apply wp_on_dev. eapply wp_mono; [by apply LOOKUP_IO_REQUEST_spec|].
  intros o d (-> & Ho). apply (first_with_unique _ _ _ _ Hk Enb Hnd) in Ho as ->.
  wp_step. apply wp_on_dev. unfold get_request, put_request. wp_steps. apply (wp_deref _ r); [done|].
  wp_steps. eapply wp_of_eq; [by apply record_time_spec|]. wp_steps. fold (complete (updated r u)).
  set (s1 := set_ssd _ _).
  assert (Hl1 : io_requests (ssd s1) = <[k := updated r u]> (io_requests (ssd s))) by done.
  assert (Hk1 : io_requests (ssd s1) !! k = Some (updated r u)) by (rewrite Hl1; by apply list_lookup_insert_eq).
  assert (Hc1 : queue_counted (ssd s1)) by (unfold queue_counted, zlen in *; rewrite Hl1, length_insert; done).
  apply (wp_mono _ (fun _ s' => after_update k r u s s')).
  - unfold after_update. destruct (complete (updated r u)).
    + eapply wp_mono; [by apply (finish_request s1 k _ Hc1 Hk1), updated_ok|].
      intros _ s' (Hf & Hc' & Hl' & Hp'). rewrite Hl1, delete_insert_same in Hl'.
      destruct (updated_same r u) as (_ & Et & _). rewrite Et in Hp'.
      split; [by destruct Hf|]. split; [|done]. split; [done|]. rewrite Hl', list_fmap_delete. by apply NoDup_delete.
    + wp_step. split; [done|]. split; [|done]. split; [done|]. rewrite Hl1. by rewrite (fmap_update_nb _ r).
  - intros [] s' (Hf & [Hq Hn] & Hrest). wp_step. apply wp_usec. intros end_ n'. wp_step.
    split; [by destruct Hf|]. by split.
Qed.

(** Times for the pages of one request, one after the other. *)
Fixpoint record_times (nb : Z) (us : list update) : IM unit :=
  match us with
  | [] => mret tt
  | u :: us' => UPDATE_IO_REQUEST nb (u_offset u) (u_time u) (u_type u);; record_times nb us'
  end.

Definition starts_in (us : list update) : Z := zlen (List.filter (fun u => negb (u_end u)) us).
Definition ends_in (us : list update) : Z := zlen (List.filter u_end us).

(** The request still waits for exactly these times. *)
Record awaits (r : io_request) (us : list update) : Prop := {
  aw_starts : start_count r + starts_in us = request_size r;
  aw_ends : end_count r + ends_in us = request_size r;
  aw_nonneg : 0 <= start_count r /\ 0 <= end_count r;
  aw_offsets : Forall (fun u => 0 <= u_offset u < request_size r) us
}.

Lemma starts_in_cons u us : starts_in (u :: us) = (if u_end u then 0 else 1) + starts_in us.
Proof. unfold starts_in, zlen. simpl. destruct (u_end u); simpl length; lia. Qed.

Lemma ends_in_cons u us : ends_in (u :: us) = (if u_end u then 1 else 0) + ends_in us.
Proof. unfold ends_in, zlen. simpl. destruct (u_end u); simpl length; lia. Qed.

Lemma s16_small x : 0 <= x < 2 ^ 15 -> s16 x = x.
Proof. intros Hx. unfold s16. rewrite Z.mod_small; lia. Qed.

Lemma awaits_step r u us : req_ok r -> awaits r (u :: us) ->
  awaits (updated r u) us /\ 0 <= u_offset u < request_size r /\
  complete (updated r u) = match us with [] => true | _ => false end.
Proof.
  intros Hr [H1 H2 [H3 H4] H5]. pose proof (rq_size r Hr) as Hsz. rewrite starts_in_cons in H1. rewrite ends_in_cons in H2.
  apply Forall_cons_iff in H5 as [Hu H5]. pose proof (zlen_nonneg (List.filter (fun u => negb (u_end u)) us)) as N1.
  pose proof (zlen_nonneg (List.filter u_end us)) as N2. fold (starts_in us) in N1. fold (ends_in us) in N2.
  destruct (updated_same r u) as (_ & _ & Es).
  assert (Ha : awaits (updated r u) us).
  { split; rewrite ?Es; [..|done]; unfold updated; destruct (u_end u); simpl; rewrite ?s16_small by lia; lia. }
  split; [done|]. split; [done|]. destruct Ha as [A1 A2 _ _]. rewrite Es in *. unfold complete. rewrite Es.
  destruct us as [|u' us]; [unfold starts_in, ends_in, zlen in A1, A2; simpl in *; lia|].
  rewrite starts_in_cons in A1. rewrite ends_in_cons in A2.
  pose proof (zlen_nonneg (List.filter (fun u => negb (u_end u)) us)) as N3. fold (starts_in us) in N3.
  pose proof (zlen_nonneg (List.filter u_end us)) as N4. fold (ends_in us) in N4. destruct (u_end u'); lia.
Qed.

Lemma io_frame_trans s1 s2 s3 : io_frame s1 s2 -> io_frame s2 s3 -> io_frame s1 s3.
Proof. intros [A1 A2 (A3 & A3' & A3'') A4 A5] [B1 B2 (B3 & B3' & B3'') B4 B5]. by split; [..|split_and!| |]; congruence. Qed.

Lemma record_times_spec nb us : forall s k r,
  queue_ok (ssd s) -> io_requests (ssd s) !! k = Some r -> req_ok r -> request_nb r = u32 nb -> nb <> -1 ->
  awaits r us -> us <> [] ->
  wp (record_times nb us) (fun _ s' => io_frame s s' /\ queue_ok (ssd s') /\
    io_requests (ssd s') = delete k (io_requests (ssd s)) /\
    perf s' = add_latency (request_type r) (d_of_Z (latency_of (ssdparams (ssd s)) (foldl updated r us))) (perf s)) s.
Proof.
  induction us as [|u us IH]; intros s k r Hq Hk Hr Enb Hnb Ha Hne; [done|].
  destruct (awaits_step r u us Hr Ha) as (Ha' & Hu & Hcomp). simpl. wp_step.
  eapply wp_mono; [by apply (UPDATE_IO_REQUEST_spec s k r nb u)|]. intros t s1 (Hf & Hq1 & H1). rewrite Hcomp in H1.
  destruct us as [|u' us']; [destruct H1; by split_and!|]. destruct H1 as [Hl1 Hp1].
  destruct (updated_same r u) as (En & Et & Es).
  assert (Hk1 : io_requests (ssd s1) !! k = Some (updated r u)).
  { rewrite Hl1. apply list_lookup_insert_eq. by eapply lookup_lt_Some. }
  eapply wp_mono; [apply (IH s1 k (updated r u) Hq1 Hk1); [by apply updated_ok|congruence|done..]|].
  intros _ s2 (Hf2 & Hq2 & Hl2 & Hp2). split; [by eapply io_frame_trans|]. split; [done|].
  rewrite Hl2, Hl1, delete_insert_same. split; [done|]. rewrite Hp2, Hp1, Et, (fr_params _ _ Hf). done.
Qed.

Definition fresh_request (nb ty n : Z) : io_request :=
  mk_io_request nb (s16 ty) n 0 0 (ztab n (fun _ => 0)) (ztab n (fun _ => 0)).

Lemma alloc_spec d sector length ty :
  let spp := SECTORS_PER_PAGE (ssdparams d) in
  let n := pages_spanned spp (sector mod spp) length in
  queue_ok d -> zlen (io_requests d) < 2 ^ 31 - 1 -> ctrs d io_request_seq_nb ∉ request_nb <$> io_requests d ->
  0 < spp < 2 ^ 32 -> 0 <= sector -> 0 < length < 2 ^ 32 -> n < 2 ^ 15 ->
  wp (ALLOC_IO_REQUEST sector length ty) (fun x d' => x.2 = n /\ queue_ok d' /\ ssdparams d' = ssdparams d /\
    ctrs d' io_request_seq_nb = ctrs d io_request_seq_nb /\
    io_requests d' = io_requests d ++ [fresh_request (ctrs d io_request_seq_nb) ty n]) d.
Proof.
  intros spp n [[Hc Hl] Hnd] Hroom Hseq Hspp Hsec Hlen Hn. unfold ALLOC_IO_REQUEST, get_usec.
  apply wp_bind, wp_conf. wp_steps. apply wp_read_clock. wp_steps. fold spp.
  destruct (Z.eqb_spec spp 0); [lia|]. unfold left_skip_of.
  pose proof (Z.mod_pos_bound sector spp ltac:(lia)) as Hm. rewrite Z.rem_mod_nonneg by lia. rewrite u32_small by lia.
  rewrite (count_pages_spanned spp Hspp) by (done || lia). destruct (Z.eqb_spec length 0); [lia|]. fold n.
  assert (Hn0 : 0 <= n) by (unfold n, pages_spanned; apply Z.div_pos; lia).
  rewrite Z.add_0_l, (s16_small n) by lia. apply wp_bind, wp_ctr_get, wp_bind, wp_ctr_get, wp_bind, wp_modify. simpl ctrs.
  fold (fresh_request (ctrs d io_request_seq_nb) ty n). set (r := fresh_request _ _ _). set (d1 := set_clock_reads _ d).
  replace (match io_requests d1 with [] => _ | _ => _ end) with (set_io_requests (io_requests d ++ [r]) d1)
    by (rewrite Hc; change (io_requests d1) with (io_requests d); by destruct (io_requests d)).
  apply wp_bind, wp_ctr_add, wp_bind, wp_bind, wp_read_clock. wp_steps. split; [done|].
  split; [|split; [done|split; [|done]]].
  - split; [split|].
    + change (ctrs (ctr_upd io_request_nb (ctrs d io_request_nb + 1) (set_io_requests (io_requests d ++ [r]) d1)) io_request_nb
        = zlen (io_requests d ++ [r])). rewrite ctrs_upd_eq. simpl ctr_wrap. rewrite Hc. unfold zlen in *. rewrite length_app. simpl. rewrite u32_small by lia. lia.
    + simpl. unfold zlen in *. rewrite length_app. simpl. lia.
    + simpl. rewrite fmap_app. apply list.NoDup_app. split; [done|]. split; [|apply NoDup_singleton].
      intros x Hx ->%list_elem_of_singleton. done.
  - exact (ctrs_upd_ne io_request_nb io_request_seq_nb _ (set_io_requests (io_requests d ++ [r]) d1) ltac:(done)).
Qed.

(** C29: A request that is allocated and then given the start and the end of
    each of its pages, in any order, leaves the queue with the last of these
    times; the queue is what it was before, and the average latency of its type
    has taken in one more value, from the first start to the last end, per
    page. *)
Theorem request_lifecycle s sector length ty us :
  let spp := SECTORS_PER_PAGE (ssdparams (ssd s)) in
  let n := pages_spanned spp (sector mod spp) length in
  let seq := ctrs (ssd s) io_request_seq_nb in
  queue_ok (ssd s) -> zlen (io_requests (ssd s)) < 2 ^ 31 - 1 -> seq ∉ request_nb <$> io_requests (ssd s) ->
  0 <= seq < 2 ^ 31 -> 0 < spp < 2 ^ 32 -> 0 <= sector -> 0 < length < 2 ^ 32 -> n < 2 ^ 15 ->
  awaits (fresh_request seq ty n) us ->
  wp (on_dev (ALLOC_IO_REQUEST sector length ty);; record_times seq us) (fun _ s' =>
    io_requests (ssd s') = io_requests (ssd s) /\ queue_ok (ssd s') /\
    perf s' = add_latency (s16 ty)
      (d_of_Z (latency_of (ssdparams (ssd s)) (foldl updated (fresh_request seq ty n) us))) (perf s)) s.
Proof.
  intros spp n seq Hq Hroom Hseq Hsr Hspp Hsec Hlen Hn Ha.
  assert (Hn0 : 0 < n).
  { unfold n, pages_spanned. apply Z.div_str_pos. pose proof (Z.mod_pos_bound sector spp ltac:(lia)). lia. }
  assert (Hr : req_ok (fresh_request seq ty n)) by (split; simpl; rewrite ?zlen_ztab by lia; lia).
  wp_step. apply wp_on_dev. eapply wp_mono; [by apply alloc_spec|]. intros x d (Ex & Hq' & Hp & Es & Hl). simpl.
  set (s1 := set_ssd d s). eapply wp_mono.
  - apply (record_times_spec seq us s1 (List.length (io_requests (ssd s))) (fresh_request seq ty n)); [done|..|done| | |done|].
    + simpl. rewrite Hl. by rewrite lookup_app_r, Nat.sub_diag by lia.
    + simpl. by rewrite u32_small by lia.
    + lia.
    + intros ->. destruct Ha as [H1 _ _ _]. unfold starts_in, zlen in H1. simpl in H1. lia.
  - intros _ s' (Hf & Hq2 & Hl2 & Hp2). simpl in Hl2, Hp2. rewrite Hl2, Hl, Hp2, Hp.
    split; [|done]. by rewrite delete_middle, app_nil_r.
Qed.

(** A request that is allocated and not needed is taken back. *)
Lemma alloc_free_dummy d sector length ty :
  let spp := SECTORS_PER_PAGE (ssdparams d) in
  queue_ok d -> zlen (io_requests d) < 2 ^ 31 - 1 -> ctrs d io_request_seq_nb ∉ request_nb <$> io_requests d ->
  0 <= ctrs d io_request_seq_nb < 2 ^ 32 ->
  0 < spp < 2 ^ 32 -> 0 <= sector -> 0 < length < 2 ^ 32 -> pages_spanned spp (sector mod spp) length < 2 ^ 15 ->
  wp (ALLOC_IO_REQUEST sector length ty;; FREE_DUMMY_IO_REQUEST ty) (fun _ d' => io_requests d' = io_requests d) d.
Proof.
  intros spp Hq Hroom Hseq Hsr Hspp Hsec Hlen Hn. wp_step. eapply wp_mono; [by apply alloc_spec|].
  intros x d' (_ & [Hc' Hnd'] & _ & Es & Hl). unfold FREE_DUMMY_IO_REQUEST.
  apply wp_bind, wp_ctr_get, wp_bind. rewrite Es. eapply wp_mono; [by apply LOOKUP_IO_REQUEST_spec|].
  set (r := fresh_request _ _ _) in Hl.
  assert (Hk : io_requests d' !! List.length (io_requests d) = Some r) by (rewrite Hl; by rewrite lookup_app_r, Nat.sub_diag by lia).
  intros o d2 (-> & Ho). apply (first_with_unique _ _ _ _ Hk) in Ho as ->; [|simpl; by rewrite u32_small by lia|done].
  eapply wp_mono; [apply FREE_IO_REQUEST_spec; [done|by eapply lookup_lt_Some]|].
  intros _ d3 ->. simpl. rewrite Hl. by rewrite delete_middle, app_nil_r.
Qed.
End Complete.

(** On an empty queue, and on one with a single other request, the lookup
    fails and the pointer is used all the same. *)
Lemma free_dummy_null d type :
  queue_counted d -> zlen (io_requests d) <= 1 -> u32 (ctrs d io_request_seq_nb) ∉ request_nb <$> io_requests d ->
  FREE_DUMMY_IO_REQUEST type d = Crash NullDeref.
Proof.
  intros Hc Hl Hseq. unfold FREE_DUMMY_IO_REQUEST, mbind, M_bind, ctr_get, gets.
  pose proof (LOOKUP_IO_REQUEST_spec (ctrs d io_request_seq_nb) type d Hc) as (o & d' & -> & -> & Ho)%wp_Ok.
  destruct o as [k|].
  { destruct Ho as [(r & Hr & Er) _]. destruct Hseq. rewrite <- Er. apply list_elem_of_fmap. exists r. split; [done|].
    by eapply list_elem_of_lookup_2. }
  destruct Hc as [Hc _]. unfold FREE_IO_REQUEST, mbind, M_bind, ctr_get, gets. rewrite Hc. unfold zlen in *.
  destruct (io_requests d) as [|r [|r' l]]; simpl in *; [done..|lia].
Qed.

(** ** Pages written *)

(** What an operation on a register adds to the pages written. *)
Definition pages_of_op (sc : ssdconf) (op_type : Z) : Z :=
  if op_type =? ERASE then - PAGE_NB sc
  else if existsb (Z.eqb op_type) [WRITE; GC_WRITE; SEQ_WRITE; RAN_WRITE; RAN_COLD_WRITE; RAN_HOT_WRITE;
    SEQ_MERGE_WRITE; RAN_MERGE_WRITE; RAN_COLD_MERGE_WRITE; RAN_HOT_MERGE_WRITE] then 1 else 0.

(** The averages of the latencies. *)
Definition latencies (p : perfstate) : spec_float * spec_float * spec_float * spec_float :=
  (read_latency_count p, write_latency_count p, avg_read_latency p, avg_write_latency p).

(** [m] adds [n] to the pages written, and changes statistics other than the
    latencies only. *)
Definition adds (n : Z) (m : IM unit) : Prop := forall s, wp m (fun _ s' =>
  written_page_nb (perf s') = written_page_nb (perf s) + n /\ exists p, s' = set_perf p s /\ latencies p = latencies (perf s)) s.

Lemma adds_upd n f : (forall p, written_page_nb (f p) = written_page_nb p + n /\ latencies (f p) = latencies p) -> adds n (upd_perf f).
Proof. intros Hf s. unfold upd_perf. wp_step. split; [apply Hf|]. eexists. split; [done|apply Hf]. Qed.

Lemma adds_ret : adds 0 (mret tt).
Proof. intros [d p rs a b c e f]. wp_step. split; [lia|]. by exists p. Qed.

Lemma adds_seq n n' m m' : adds n m -> adds n' m' -> adds (n + n') (m;; m').
Proof.
  intros H1 H2 s. wp_step. eapply wp_mono; [apply H1|]. intros [] s1 (E1 & p1 & -> & L1).
  eapply wp_mono; [apply H2|]. intros [] s2 (E2 & p2 & -> & L2). split; [lia|]. exists p2. split; [done|]. simpl in L2. congruence.
Qed.

Lemma adds_delay k delay : adds 0 (add_delay k delay).
Proof. apply adds_upd. intros p. simpl. split; [lia|done]. Qed.

Lemma adds_count k delay : adds 0 (add_and_count k delay).
Proof. apply (adds_seq 0 0); [apply adds_delay|]. apply adds_upd. intros p. simpl. split; [lia|done]. Qed.

Lemma adds_written n : adds n (add_written n).
Proof. by apply adds_upd. Qed.

Lemma adds_counted_write k delay : adds 1 (add_and_count k delay;; add_written 1).
Proof. apply (adds_seq 0 1); [apply adds_count|apply adds_written]. Qed.

Lemma adds_host_write k delay : adds 1 (host_write k delay).
Proof. apply (adds_seq 0 1); [apply adds_count|apply adds_counted_write]. Qed.

Lemma adds_eq n n' m : adds n m -> n = n' -> adds n' m.
Proof. by intros ? <-. Qed.

Lemma reg_op_adds sc op delay : adds (pages_of_op sc op) (reg_op_cases sc op delay).
Proof.
  unfold reg_op_cases.
  repeat match goal with |- context [if op =? ?c then _ else _] => destruct (Z.eqb_spec op c) as [->|?] end.
  all: lazymatch goal with
  | |- adds _ (add_delay _ _) => exact (adds_eq _ _ _ (adds_delay _ _) eq_refl)
  | |- adds _ (add_and_count _ _) => exact (adds_eq _ _ _ (adds_count _ _) eq_refl)
  | |- adds _ (host_write _ _) => exact (adds_eq _ _ _ (adds_host_write _ _) eq_refl)
  | |- adds _ (add_written _) => exact (adds_eq _ _ _ (adds_written _) eq_refl)
  | |- adds _ (add_and_count _ _ ≫= _) => exact (adds_eq _ _ _ (adds_counted_write _ _) eq_refl)
  | _ => idtac
  end.
  unfold pages_of_op, existsb. rewrite !(proj2 (Z.eqb_neq _ _)) by done. apply adds_ret.
Qed.

(** A program on a register adds one page, an erase takes a block's. *)
Lemma reg_op_written op delay s :
  wp (SEND_TO_PERF_CHECKER op delay REG_OP) (fun _ s' =>
    written_page_nb (perf s') = written_page_nb (perf s) + pages_of_op (ssdparams (ssd s)) op /\
    exists p, s' = set_perf p s /\ latencies p = latencies (perf s)) s.
Proof.
  unfold SEND_TO_PERF_CHECKER. simpl. unfold reg_op. apply wp_bind, wp_gets.
  rewrite <- (Z.add_0_r (pages_of_op _ op)). apply (adds_seq _ 0); [apply reg_op_adds|].
  apply adds_upd. intros p. simpl. split; [lia|done].
Qed.

Lemma ch_op_adds op delay : adds 0 (ch_op op delay).
Proof.
  unfold ch_op. repeat match goal with |- context [if op =? ?c then _ else _] => destruct (op =? c) end.
  all: lazymatch goal with
  | |- adds _ (add_delay _ _) => exact (adds_delay _ _)
  | |- adds _ (mret tt) => exact adds_ret
  | |- _ => exact (adds_count k_read delay)
  end.
Qed.

(** The performance checker changes its statistics only, and the latencies
    only when it is sent one. *)
Lemma send_frame op delay type s : wp (SEND_TO_PERF_CHECKER op delay type) (fun _ s' =>
  exists p, s' = set_perf p s /\ (type <> LATENCY_OP -> latencies p = latencies (perf s))) s.
Proof.
  unfold SEND_TO_PERF_CHECKER. destruct (Z.eqb_spec type CH_OP).
  { eapply wp_mono; [apply ch_op_adds|]. intros [] s' (_ & p & -> & L). by exists p. }
  destruct (Z.eqb_spec type REG_OP) as [->|].
  { eapply wp_mono; [apply (reg_op_written op delay s)|]. intros [] s' (_ & p & -> & L). by exists p. }
  destruct (Z.eqb_spec type LATENCY_OP); [unfold upd_perf; wp_step; by eexists|].
  eapply wp_mono; [apply adds_ret|]. intros [] s' (_ & p & -> & L). by exists p.
Qed.

(** ** The queue and its users *)

(** The queue, and the requests in it. *)
Definition io_queue (d : ssdstate) : Prop := queue_ok d /\ Forall req_ok (io_requests d).

(** A request number and a page, as the registers keep them. *)
Definition target_ok (l : list io_request) (nb offset : Z) : Prop :=
  nb = -1 \/ Forall (fun r => request_nb r = u32 nb -> 0 <= offset < request_size r) l.

(** Requests are only taken away or change their times. *)
Definition shrinks (l l' : list io_request) : Prop :=
  Forall (fun r' => exists r, r ∈ l /\ request_nb r = request_nb r' /\ request_size r = request_size r') l'.

Lemma shrinks_refl l : shrinks l l.
Proof. apply list.Forall_forall. intros r Hr. by exists r. Qed.

Lemma target_shrinks l l' nb offset : shrinks l l' -> target_ok l nb offset -> target_ok l' nb offset.
Proof.
  intros Hs [->|Ht]; [by left|]. right. refine (List.Forall_impl _ _ Hs). intros r' (r & Hr & E1 & E2) E.
  rewrite list.Forall_forall in Ht. rewrite <- E2. apply (Ht r Hr). congruence.
Qed.

Lemma shrinks_after k r u l l' : l !! k = Some r -> (l' = delete k l \/ l' = <[k := updated r u]> l) -> shrinks l l'.
Proof.
  intros Hk [->| ->]; apply list.Forall_forall; intros r' Hr'.
  - exists r'. split; [|done]. exact (elem_of_sublist _ _ _ Hr' (sublist_delete l k)).
  - apply list_elem_of_lookup in Hr' as [j Hj]. destruct (decide (j = k)) as [->|Hne].
    + rewrite list_lookup_insert_eq in Hj by (by eapply lookup_lt_Some). injection Hj as <-.
      exists r. destruct (updated_same r u) as (-> & _ & ->). split; [by eapply list_elem_of_lookup_2|done].
    + rewrite list_lookup_insert_ne in Hj by done. exists r'. split; [by eapply list_elem_of_lookup_2|done].
Qed.

Section Users.
Context `{Clock}.

(** Recording a time returns, for any number, and keeps the queue in order. *)
Lemma UPDATE_IO_REQUEST_returns s nb u :
  io_queue (ssd s) -> target_ok (io_requests (ssd s)) nb (u_offset u) ->
  wp (UPDATE_IO_REQUEST nb (u_offset u) (u_time u) (u_type u)) (fun _ s' =>
    io_frame s s' /\ io_queue (ssd s') /\ shrinks (io_requests (ssd s)) (io_requests (ssd s'))) s.
Proof.
  intros [Hq Hr] Ht. destruct (decide (nb = -1)) as [->|Hnb].
  { unfold UPDATE_IO_REQUEST. wp_step. apply wp_usec. intros t n. simpl. wp_step. split; [done|]. split; [|apply shrinks_refl].
    destruct Hq as [Hc Hn]. done. }
  destruct Ht as [|Ht]; [done|].
  pose proof (LOOKUP_IO_REQUEST_spec nb (u_type u) (ssd s) (qo_counted _ Hq)) as (o & d & _ & -> & Ho)%wp_Ok.
  destruct o as [k|].
  - destruct Ho as [(r & Hk & Er) _]. pose proof (list_elem_of_lookup_2 _ _ _ Hk) as Hin.
    pose proof (proj1 (list.Forall_forall _ _) Hr r Hin) as Hok. pose proof (proj1 (list.Forall_forall _ _) Ht r Hin Er) as Hu.
    eapply wp_mono; [by apply (UPDATE_IO_REQUEST_spec s k r nb u)|]. intros t s' (Hf & Hq' & Hrest).
    assert (Hl : io_requests (ssd s') = delete k (io_requests (ssd s)) \/ io_requests (ssd s') = <[k := updated r u]> (io_requests (ssd s))).
    { destruct (complete (updated r u)); destruct Hrest as [? _]; auto. }
    split; [done|]. split; [|by eapply shrinks_after]. split; [done|].
    destruct Hl as [->| ->]; [by apply Forall_delete|by apply Forall_insert, updated_ok].
  - unfold UPDATE_IO_REQUEST. wp_step. apply wp_usec. intros t n. destruct (Z.eqb_spec nb (-1)); [done|].
    wp_step. apply wp_on_dev. eapply wp_mono; [apply LOOKUP_IO_REQUEST_spec; destruct Hq as [Hc Hn]; done|].
    intros o d' (-> & Ho'). destruct o as [k|].
    { destruct Ho' as [(r & Hk & Er) _]. by destruct (Ho k r Hk). }
    wp_step. split; [done|]. split; [|apply shrinks_refl]. destruct Hq as [Hc Hn]. done.
Qed.

(** ... and does to the request of that number what it should. *)
Definition effect (nb : Z) (u : update) (s s' : iostate) : Prop :=
  forall k r, io_requests (ssd s) !! k = Some r -> request_nb r = u32 nb -> nb <> -1 ->
    if complete (updated r u) then
      io_requests (ssd s') = delete k (io_requests (ssd s)) /\
      latencies (perf s') = latencies (add_latency (request_type r) (d_of_Z (latency_of (ssdparams (ssd s)) (updated r u))) (perf s))
    else io_requests (ssd s') = <[k := updated r u]> (io_requests (ssd s)) /\ latencies (perf s') = latencies (perf s).

Lemma UPDATE_IO_REQUEST_effect s nb u :
  io_queue (ssd s) -> target_ok (io_requests (ssd s)) nb (u_offset u) ->
  wp (UPDATE_IO_REQUEST nb (u_offset u) (u_time u) (u_type u)) (fun _ s' =>
    io_frame s s' /\ io_queue (ssd s') /\ shrinks (io_requests (ssd s)) (io_requests (ssd s')) /\ effect nb u s s') s.
Proof.
  intros [Hq Hr] Ht. pose proof (UPDATE_IO_REQUEST_returns s nb u (conj Hq Hr) Ht) as (t & s' & E & H1 & H2 & H3)%wp_Ok.
  apply (wp_of_eq _ _ _ _ _ E). split_and!; [done..|]. intros k r Hk Er Hnb. destruct Ht as [|Ht]; [done|].
  pose proof (list_elem_of_lookup_2 _ _ _ Hk) as Hin.
  pose proof (UPDATE_IO_REQUEST_spec s k r nb u Hq Hk (proj1 (list.Forall_forall _ _) Hr r Hin) Er Hnb
    (proj1 (list.Forall_forall _ _) Ht r Hin Er)) as Hw.
  unfold wp in Hw. rewrite E in Hw. destruct Hw as (_ & _ & Hw). destruct (complete _); destruct Hw as [-> ->]; done.
Qed.
End Users.

(** ** Witness *)

Definition perf_zero : perfstate := mk_perfstate (fun _ => d_zero) (fun _ => d_zero) (fun _ => d_zero) d_zero d_zero d_zero d_zero d_zero 0.
Definition demo_io (d : ssdstate) (rs : list register) : iostate := mk_iostate d perf_zero rs 0 NOOP 0 0 0.

Lemma queue_ok_demo d n l : ctrs d io_request_nb = n -> io_requests d = l -> n = zlen l -> zlen l < 2 ^ 31 ->
  NoDup (request_nb <$> l) -> queue_ok d.
Proof. intros En El E Hl Hnd. split; [split|]; rewrite ?El; [congruence|done|done]. Qed.

Lemma demo0_requests : io_requests demo0 = [].
Proof. by vm_compute. Qed.

(** A read of two pages: the second starts first. *)
Definition demo_updates : list update := [mk_update false 1 5; mk_update false 0 10; mk_update true 0 90; mk_update true 1 100].

Lemma request_lifecycle_witness :
  wp (on_dev (ALLOC_IO_REQUEST 4 8 READ);; record_times 0 demo_updates) (fun _ s' =>
    io_requests (ssd s') = [] /\ avg_read_latency (perf s') = d_of_Z 47) (demo_io demo0 []).
Proof.
  refine (wp_mono _ _ _ _ (request_lifecycle (demo_io demo0 []) 4 8 READ demo_updates _ _ _ _ _ _ _ _ _) _).
  - apply (queue_ok_demo _ 0 []); [by vm_compute..|apply NoDup_nil_2].
  - by vm_compute.
  - change (io_requests (ssd (demo_io demo0 []))) with (io_requests demo0). rewrite demo0_requests.
    apply not_elem_of_nil.
  - vm_compute. split; congruence.
  - vm_compute. split; congruence.
  - done.
  - done.
  - by vm_compute.
  - split; [by vm_compute..|split; by vm_compute|]. vm_compute. repeat constructor; congruence.
  - intros [] s' (-> & _ & ->). split; by vm_compute.
Defined.
