(* ===== verification/Registers.v ===== *)
(** * Registers and channels: ssd/ssd_io_manager.c

    The bookkeeping behind [SSD_FLASH_ACCESS]: every plane has a register with
    the command it holds and the times at which its channel and its cells
    begin; accessing a register that is busy charges the rest of its delay and
    frees it.  The commands of Timing.v return before they reach this code.
    The arrays [reg_io_cmd], [reg_io_type], [reg_io_time], [cell_io_time],
    [access_nb] and [io_overhead], which have one size and one index, are one
    array of records. *)

From Stdlib Require Import ZArith Lia List SpecFloat.
From stdpp Require Import base tactics numbers list functions.
From S2P Require Import Prelude Config State Timing Perf Demo Checker.

Open Scope Z_scope.

Definition reg_get (reg : Z) : IM register := rs ← gets registers; idx rs reg.
Definition reg_upd (reg : Z) (f : register -> register) : IM unit :=
  r ← reg_get reg; modify (fun s => set_registers (zset reg (f r) (registers s)) s).
Definition get_conf_io : IM ssdconf := gets (fun s => ssdparams (ssd s)).
Notation "'ioconf' sc ; z" := (mbind (fun sc : ssdconf => z) get_conf_io)
  (at level 20, sc name, z at level 200) : stdpp_scope.

Definition put_cmd (cmd type : Z) (r : register) : register :=
  mk_register cmd type (reg_io_time r) (cell_io_time r) (access_nb r) (io_overhead r).
Definition put_reg_time (t : Z) (r : register) : register :=
  mk_register (reg_io_cmd r) (reg_io_type r) t (cell_io_time r) (access_nb r) (io_overhead r).
Definition put_cell_time (t : Z) (r : register) : register :=
  mk_register (reg_io_cmd r) (reg_io_type r) (reg_io_time r) t (access_nb r) (io_overhead r).
Definition put_access (a b : Z) (r : register) : register :=
  mk_register (reg_io_cmd r) (reg_io_type r) (reg_io_time r) (cell_io_time r) (a, b) (io_overhead r).
Definition put_overhead (t : Z) (r : register) : register :=
  mk_register (reg_io_cmd r) (reg_io_type r) (reg_io_time r) (cell_io_time r) (access_nb r) t.

Definition empty_register : register := mk_register NOOP NOOP (-1) (-1) (-1, -1) 0.

Section Registers.
Context `{Clock}.

Definition SSD_IO_INIT : IM Z :=
  ioconf sc;
  modify (set_old_channel (CHANNEL_NB sc) NOOP);;
  modify (set_old_channel_time 0);;
  modify (set_registers (ztab (FLASH_NB sc * PLANES_PER_FLASH sc) (fun _ => empty_register)));;
  mret 0.

Definition SSD_UPDATE_IO_OVERHEAD (reg overhead_time : Z) : IM unit :=
  reg_upd reg (fun r => put_overhead (io_overhead r + overhead_time) r);;
  on_dev (ctr_set io_alloc_overhead 0);;
  modify (set_io_update_overhead 0).

(** [io_update_overhead] of an update, added to the register. *)
Definition charge_update (reg req_nb offset time type : Z) : IM unit :=
  o ← UPDATE_IO_REQUEST req_nb offset time type;
  modify (set_io_update_overhead o);;
  o ← gets io_update_overhead;
  SSD_UPDATE_IO_OVERHEAD reg o.

Definition SSD_UPDATE_IO_REQUEST (reg : Z) : IM unit :=
  curr_time ← on_dev get_usec;
  diff ← gets init_diff_reg;
  r ← reg_get reg;
  charge_update reg (access_nb r).1 (access_nb r).2 (if diff =? 0 then 0 else curr_time) UPDATE_END_TIME;;
  reg_upd reg (fun r => put_access (-1) (access_nb r).2 r).

Definition SSD_REG_WRITE_DELAY (reg : Z) : IM Z :=
  ioconf sc;
  r ← reg_get reg;
  if reg_io_time r =? -1 then mret 0
  else
    start ← on_dev get_usec;
    let diff := start - reg_io_time r in
    let ret := if diff <? REG_WRITE_DELAY sc then 1 else 0 in
    end_ ← on_dev get_usec;
    SEND_TO_PERF_CHECKER (reg_io_type r) (end_ - start) CH_OP;;
    reg_upd reg (put_reg_time (-1));;
    mret ret.

Definition SSD_REG_READ_DELAY (reg : Z) : IM Z :=
  ioconf sc;
  r ← reg_get reg;
  if reg_io_time r =? -1 then mret 0
  else
    start ← on_dev get_usec;
    let diff := start - reg_io_time r in
    let ret := if diff <? REG_READ_DELAY sc then 1 else 0 in
    end_ ← on_dev get_usec;
    SEND_TO_PERF_CHECKER (reg_io_type r) (end_ - start) CH_OP;;
    SSD_UPDATE_IO_REQUEST reg;;
    reg_upd reg (put_reg_time (-1));;
    reg_upd reg (put_cmd NOOP NOOP);;
    mret ret.

(** [init_diff_reg] is a local variable here. *)
Definition SSD_CELL_WRITE_DELAY (reg : Z) : IM Z :=
  ioconf sc;
  r ← reg_get reg;
  if cell_io_time r =? -1 then mret 0
  else
    start ← on_dev get_usec;
    let diff := start - cell_io_time r + io_overhead r in
    let ret := if diff <? CELL_PROGRAM_DELAY sc then 1 else 0 in
    end_ ← on_dev get_usec;
    SEND_TO_PERF_CHECKER (reg_io_type r) (end_ - start) REG_OP;;
    SSD_UPDATE_IO_REQUEST reg;;
    reg_upd reg (put_cell_time (-1));;
    reg_upd reg (put_cmd NOOP NOOP);;
    reg_upd reg (put_overhead 0);;
    mret ret.

(** ... and the field of the state here. *)
Definition SSD_CELL_READ_DELAY (reg : Z) : IM Z :=
  ioconf sc;
  r ← reg_get reg;
  if cell_io_time r =? -1 then mret 0
  else
    start ← on_dev get_usec;
    let diff := start - cell_io_time r + io_overhead r in
    ret ← (if diff <? CELL_READ_DELAY sc then (modify (set_init_diff_reg diff);; mret 1) else mret 0);
    end_ ← on_dev get_usec;
    SEND_TO_PERF_CHECKER (reg_io_type r) (end_ - start) REG_OP;;
    reg_upd reg (put_cell_time (-1));;
    reg_upd reg (put_overhead 0);;
    mret ret.

Definition SSD_BLOCK_ERASE_DELAY (reg : Z) : IM Z :=
  ioconf sc;
  r ← reg_get reg;
  if cell_io_time r =? -1 then mret 0
  else
    start ← on_dev get_usec;
    now ← on_dev get_usec;
    let diff := now - cell_io_time r in
    let ret := if diff <? BLOCK_ERASE_DELAY sc then 1 else 0 in
    end_ ← on_dev get_usec;
    SEND_TO_PERF_CHECKER (reg_io_type r) (end_ - start) REG_OP;;
    reg_upd reg (put_cell_time (-1));;
    reg_upd reg (put_cmd NOOP NOOP);;
    mret ret.

Definition SSD_REG_ACCESS (reg : Z) : IM Z :=
  r ← reg_get reg;
  let reg_cmd := reg_io_cmd r in
  if reg_cmd =? NOOP then mret 0
  else if reg_cmd =? READ then (_ ← SSD_CELL_READ_DELAY reg; SSD_REG_READ_DELAY reg)
  else if reg_cmd =? WRITE then (_ ← SSD_REG_WRITE_DELAY reg; SSD_CELL_WRITE_DELAY reg)
  else if reg_cmd =? ERASE then SSD_BLOCK_ERASE_DELAY reg
  else mret 0.

(** The registers of a chip; the result is that of the last one accessed. *)
Definition SSD_FLASH_ACCESS (flash_nb reg : Z) : IM Z :=
  ioconf sc;
  mfold (Z.to_nat (PLANES_PER_FLASH sc)) 0 0 (fun i ret =>
    let r_num := flash_nb * PLANES_PER_FLASH sc + i in
    r ← reg_get r_num;
    if (access_nb r).1 =? -1 then mret ret else SSD_REG_ACCESS r_num).

Definition SSD_REMAIN_IO_DELAY (reg : Z) : IM unit := _ ← SSD_REG_ACCESS reg; mret tt.

(** The wait itself is commented out. *)
Definition SSD_CH_SWITCH_DELAY (channel : Z) : IM Z :=
  cmd ← gets old_channel_cmd;
  if (cmd =? READ) || (cmd =? WRITE) then
    (start ← on_dev get_usec;
     end_ ← on_dev get_usec;
     mret (end_ - start))
  else mret 0.

Definition SSD_CH_ENABLE (channel : Z) : IM Z :=
  ioconf sc;
  if (CHANNEL_SWITCH_DELAY_R sc =? 0) && (CHANNEL_SWITCH_DELAY_W sc =? 0) then mret SUCCESS
  else
    old ← gets old_channel_nb;
    (if old =? channel then mret tt else (_ ← SSD_CH_SWITCH_DELAY channel; mret tt));;
    mret SUCCESS.

Definition SSD_CH_RECORD (channel cmd ret : Z) (n_io_info : option nand_io_info) : IM Z :=
  ioconf sc;
  modify (set_old_channel channel cmd);;
  info ← deref n_io_info;
  let offset := n_offset info in
  (if (cmd =? READ) && negb (offset =? 0) && (ret =? 0) then
     modify (fun s => set_old_channel_time (old_channel_time s + CHANNEL_SWITCH_DELAY_R sc) s)
   else if (cmd =? WRITE) && negb (offset =? 0) && (ret =? 0) then
     modify (fun s => set_old_channel_time (old_channel_time s + CHANNEL_SWITCH_DELAY_W sc) s)
   else (t ← on_dev get_usec; modify (set_old_channel_time t)));;
  mret SUCCESS.

(** The registers of a channel: plane [j] of way [i]. *)
Definition channel_register (sc : ssdconf) (channel i j : Z) : Z :=
  channel * PLANES_PER_FLASH sc + i * CHANNEL_NB sc * PLANES_PER_FLASH sc + j.

Definition SSD_GET_CH_ACCESS_TIME_FOR_READ (channel reg : Z) : IM Z :=
  ioconf sc;
  r ← reg_get reg;
  mfold (Z.to_nat (WAY_NB sc)) 0 (cell_io_time r + CELL_READ_DELAY sc) (fun i latest_time =>
    mfold (Z.to_nat (PLANES_PER_FLASH sc)) 0 latest_time (fun j latest_time =>
      q ← reg_get (channel_register sc channel i j);
      let temp_time :=
        if reg_io_cmd q =? READ then reg_io_time q + REG_READ_DELAY sc
        else if reg_io_cmd q =? WRITE then reg_io_time q + REG_WRITE_DELAY sc
        else 0 in
      mret (if latest_time <? temp_time then temp_time else latest_time))).

Definition SSD_UPDATE_CH_ACCESS_TIME (channel current_time : Z) : IM unit :=
  ioconf sc;
  mfor (Z.to_nat (WAY_NB sc)) 0 (fun i =>
    mfor (Z.to_nat (PLANES_PER_FLASH sc)) 0 (fun j =>
      let r_num := channel_register sc channel i j in
      q ← reg_get r_num;
      if (reg_io_cmd q =? READ) && (current_time <? reg_io_time q) then
        reg_upd r_num (fun q => put_reg_time (reg_io_time q + REG_WRITE_DELAY sc) q)
      else mret tt)).

(** The request a command works for, and the time it starts. *)
Definition record_access (reg : Z) (mine : bool) (io_seq_nb offset : Z) : IM unit :=
  if mine then
    (reg_upd reg (put_access io_seq_nb offset);;
     t ← gets old_channel_time;
     charge_update reg io_seq_nb offset t UPDATE_START_TIME)
  else reg_upd reg (put_access (-1) (-1)).

Definition SSD_REG_RECORD (reg cmd channel : Z) (n_io_info : option nand_io_info) : IM Z :=
  ioconf sc;
  let type := match n_io_info with Some x => n_type x | None => -1 end in
  let offset := match n_io_info with Some x => n_offset x | None => -1 end in
  let io_seq_nb := match n_io_info with Some x => n_io_seq_nb x | None => -1 end in
  reg_upd reg (put_cmd cmd type);;
  (if cmd =? WRITE then
     (t ← gets old_channel_time;
      reg_upd reg (put_reg_time (t + CHANNEL_SWITCH_DELAY_W sc));;
      r ← reg_get reg;
      SSD_UPDATE_CH_ACCESS_TIME channel (reg_io_time r);;
      record_access reg ((type =? WRITE) || (type =? SEQ_WRITE) || (type =? RAN_WRITE) || (type =? RAN_COLD_WRITE)
        || (type =? RAN_HOT_WRITE)) io_seq_nb offset)
   else if cmd =? READ then
     (t ← SSD_GET_CH_ACCESS_TIME_FOR_READ channel reg;
      reg_upd reg (put_reg_time t);;
      record_access reg (type =? READ) io_seq_nb offset)
   else if cmd =? ERASE then reg_upd reg (put_access (-1) (-1))
   else mret tt);;
  mret SUCCESS.

Definition SSD_CELL_RECORD (reg cmd : Z) : IM Z :=
  ioconf sc;
  (if cmd =? WRITE then reg_upd reg (fun r => put_cell_time (reg_io_time r + REG_WRITE_DELAY sc) r)
   else if cmd =? READ then
     (t ← gets old_channel_time; reg_upd reg (put_cell_time (t + CHANNEL_SWITCH_DELAY_R sc)))
   else if cmd =? ERASE then (t ← on_dev get_usec; reg_upd reg (put_cell_time t))
   else mret tt);;
  mret SUCCESS.

Definition SSD_CH_ACCESS (channel : Z) : IM Z :=
  ioconf sc;
  mfold (Z.to_nat (WAY_NB sc)) 0 SUCCESS (fun i ret =>
    mfold (Z.to_nat (PLANES_PER_FLASH sc)) 0 ret (fun j ret =>
      let r_num := channel_register sc channel i j in
      r ← reg_get r_num;
      now ← on_dev get_usec;
      if (reg_io_time r <=? now) && negb (reg_io_time r =? -1) then
        if reg_io_cmd r =? READ then
          (_ ← SSD_CELL_READ_DELAY r_num; _ ← SSD_REG_READ_DELAY r_num; mret FAIL)
        else if reg_io_cmd r =? WRITE then (_ ← SSD_REG_WRITE_DELAY r_num; mret FAIL)
        else mret ret
      else mret ret)).

Definition SSD_UPDATE_QEMU_OVERHEAD (delay : Z) : IM unit :=
  ioconf sc;
  modify (fun s => set_old_channel_time (old_channel_time s - delay) s);;
  mfor (Z.to_nat (FLASH_NB sc * PLANES_PER_FLASH sc)) 0 (fun i =>
    reg_upd i (fun r => put_reg_time (reg_io_time r - delay) (put_cell_time (cell_io_time r - delay) r))).

End Registers.

(** ** The invariant *)

(** Every register works for a page of a request, or for none. *)
Record io_ok (sc : ssdconf) (s : iostate) : Prop := {
  io_params : ssdparams (ssd s) = sc;
  io_q : io_queue (ssd s);
  io_regs : zlen (registers s) = FLASH_NB sc * PLANES_PER_FLASH sc;
  io_targets : Forall (fun r => target_ok (io_requests (ssd s)) (access_nb r).1 (access_nb r).2) (registers s)
}.

Lemma wp_reg_get reg r (Q : register -> iostate -> Prop) s :
  zget (registers s) reg = Some r -> Q r s -> wp (reg_get reg) Q s.
Proof. intros Hr HQ. unfold reg_get. wp_steps. by apply (wp_idx _ _ r). Qed.

Lemma wp_reg_upd reg f r (Q : unit -> iostate -> Prop) s :
  zget (registers s) reg = Some r -> Q tt (set_registers (zset reg (f r) (registers s)) s) -> wp (reg_upd reg f) Q s.
Proof. intros Hr HQ. unfold reg_upd. apply wp_bind, (wp_reg_get _ r); [done|]. by wp_step. Qed.

Lemma wp_send op delay type (Q : unit -> iostate -> Prop) s :
  type <> LATENCY_OP -> (forall p, latencies p = latencies (perf s) -> Q tt (set_perf p s)) ->
  wp (SEND_TO_PERF_CHECKER op delay type) Q s.
Proof. intros Ht HQ. eapply wp_mono; [apply send_frame|]. intros [] s' (p & -> & L). by apply HQ, L. Qed.

(** Neither the requests nor their latencies change. *)
Definition quiet (s s' : iostate) : Prop :=
  ssdparams (ssd s') = ssdparams (ssd s) /\ io_requests (ssd s') = io_requests (ssd s) /\
  latencies (perf s') = latencies (perf s) /\ init_diff_reg s' = init_diff_reg s.

Lemma quiet_trans s1 s2 s3 : quiet s1 s2 -> quiet s2 s3 -> quiet s1 s3.
Proof. intros (A & B & C & D) (A' & B' & C' & D'). unfold quiet. split_and!; congruence. Qed.

Lemma quiet_refl s : quiet s s.
Proof. done. Qed.

Lemma quiet_perf p s : latencies p = latencies (perf s) -> quiet s (set_perf p s).
Proof. done. Qed.

Lemma latencies_add ty v p p' : latencies p = latencies p' -> latencies (add_latency ty v p) = latencies (add_latency ty v p').
Proof.
  unfold latencies, add_latency. intros E. injection E as E1 E2 E3 E4.
  destruct (ty =? READ), (ty =? WRITE); simpl; congruence.
Qed.

Lemma effect_quiet nb u s s1 s2 s3 : quiet s s1 -> effect nb u s1 s2 -> quiet s2 s3 -> effect nb u s s3.
Proof.
  intros (A & B & C & _) He (A' & B' & C' & _) k r Hk Er Hnb. rewrite <- B in Hk. specialize (He k r Hk Er Hnb).
  rewrite B', C'. rewrite A, B in He. destruct (complete (updated r u)); destruct He as [-> ->]; [|by rewrite C].
  split; [done|]. by apply latencies_add.
Qed.

(** A step that changes one register, and beside it clocks and statistics. *)
Record reg_step (sc : ssdconf) (reg : Z) (r' : register) (s s' : iostate) : Prop := {
  st_ok : io_ok sc s';
  st_regs : registers s' = zset reg r' (registers s);
  st_shrinks : shrinks (io_requests (ssd s)) (io_requests (ssd s'));
  st_channel : old_channel_nb s' = old_channel_nb s /\ old_channel_cmd s' = old_channel_cmd s /\ old_channel_time s' = old_channel_time s
}.

Lemma shrinks_trans l1 l2 l3 : shrinks l1 l2 -> shrinks l2 l3 -> shrinks l1 l3.
Proof.
  intros H1 H2. unfold shrinks in *. rewrite list.Forall_forall in H1. refine (List.Forall_impl _ _ H2).
  intros r3 (r2 & Hr2 & E1 & E2). destruct (H1 r2 Hr2) as (r1 & Hr1 & E3 & E4). exists r1. split; [done|]. split; congruence.
Qed.

Lemma reg_step_trans sc reg r1 r2 s s1 s2 : reg_step sc reg r1 s s1 -> reg_step sc reg r2 s1 s2 -> reg_step sc reg r2 s s2.
Proof.
  intros [A1 A2 A3 (A4 & A5 & A6)] [B1 B2 B3 (B4 & B5 & B6)]. split; [done| |by eapply shrinks_trans|split_and!; congruence].
  by rewrite B2, A2, zset_zset.
Qed.

(** Writing a register whose target is good keeps the invariant. *)
Lemma reg_step_put sc reg r' s : io_ok sc s ->
  target_ok (io_requests (ssd s)) (access_nb r').1 (access_nb r').2 ->
  reg_step sc reg r' s (set_registers (zset reg r' (registers s)) s).
Proof.
  intros [H1 H2 H3 H4] Ht. split; [|done|apply shrinks_refl|done]. split; [done..| |]; simpl.
  - by rewrite zlen_zset.
  - by apply Forall_zset.
Qed.

Lemma io_ok_perf sc p s : io_ok sc s -> io_ok sc (set_perf p s).
Proof. intros [H1 H2 H3 H4]. by split. Qed.

Lemma io_ok_clock sc n s : io_ok sc s -> io_ok sc (set_ssd (set_clock_reads n (ssd s)) s).
Proof. intros [H1 [[Hq1 Hq2] Hq3] H3 H4]. by split. Qed.

Lemma reg_step_clock sc reg r' n s s' : reg_step sc reg r' (set_ssd (set_clock_reads n (ssd s)) s) s' -> reg_step sc reg r' s s'.
Proof. intros [H1 H2 H3 H4]. by split. Qed.

Lemma reg_step_perf sc reg r' p s s' : reg_step sc reg r' (set_perf p s) s' -> reg_step sc reg r' s s'.
Proof. intros [H1 H2 H3 H4]. by split. Qed.

Lemma reg_step_get sc reg r r' s s' : zget (registers s) reg = Some r -> reg_step sc reg r' s s' ->
  zget (registers s') reg = Some r'.
Proof. intros Hr [_ -> _ _]. apply zget_zset_eq. by eapply zget_Some_range. Qed.

Lemma target_none l b : target_ok l (-1) b.
Proof. by left. Qed.

Lemma reg_target sc s reg r : io_ok sc s -> zget (registers s) reg = Some r ->
  target_ok (io_requests (ssd s)) (access_nb r).1 (access_nb r).2.
Proof. intros H0 Hr. exact (zget_Forall _ _ _ _ (io_targets sc s H0) Hr). Qed.

Section Ops.
Context `{Clock}.
Variable sc : ssdconf.

Lemma charge_update_spec s reg r nb u :
  io_ok sc s -> zget (registers s) reg = Some r -> target_ok (io_requests (ssd s)) nb (u_offset u) ->
  wp (charge_update reg nb (u_offset u) (u_time u) (u_type u)) (fun _ s' =>
    init_diff_reg s' = init_diff_reg s /\ effect nb u s s' /\ exists o, reg_step sc reg (put_overhead o r) s s') s.
Proof.
  intros Hok Hr Ht. unfold charge_update. wp_step.
  eapply wp_mono; [by apply (UPDATE_IO_REQUEST_effect s nb u); [apply Hok|]|]. intros t s1 ([F1 F2 F3 F4 F5] & Hq & Hs & He).
  wp_steps. unfold SSD_UPDATE_IO_OVERHEAD. wp_step.
  apply (wp_reg_upd _ _ r); [simpl; by rewrite F2|]. wp_step. apply wp_on_dev, wp_ctr_set. wp_step.
  split; [done|]. split; [exact He|]. exists (io_overhead r + t). destruct Hok as [H1 H2 H3 H4]. simpl.
  assert (Ht' : Forall (fun q => target_ok (io_requests (ssd s1)) (access_nb q).1 (access_nb q).2) (registers s)).
  { refine (List.Forall_impl _ _ H4). intros q. by apply target_shrinks. }
  split; [|simpl; by rewrite F2|done|done]. split; simpl.
  - by rewrite F1.
  - destruct Hq as [[[Hc1 Hc2] Hq2] Hq3]. split; [|done]. split; [|done]. split; [|done].
    change (ctrs (ctr_upd io_alloc_overhead 0 (ssd s1)) io_request_nb = zlen (io_requests (ssd s1))). by rewrite ctrs_upd_ne.
  - rewrite zlen_zset. by rewrite F2.
  - rewrite F2. apply Forall_zset; [done|]. exact (zget_Forall _ _ _ _ Ht' Hr).
Qed.

Lemma UPDATE_IO_REQUEST_reg s reg r : io_ok sc s -> zget (registers s) reg = Some r ->
  wp (SSD_UPDATE_IO_REQUEST reg) (fun _ s' => init_diff_reg s' = init_diff_reg s /\
    (exists t, (init_diff_reg s = 0 -> t = 0) /\ effect (access_nb r).1 (mk_update true (access_nb r).2 t) s s') /\
    exists o, reg_step sc reg (put_access (-1) (access_nb r).2 (put_overhead o r)) s s') s.
Proof.
  intros Hok Hr. unfold SSD_UPDATE_IO_REQUEST. wp_step. apply wp_usec. intros t k. wp_steps.
  apply (wp_reg_get _ r); [done|]. wp_step. set (s1 := set_ssd _ s).
  pose proof (io_ok_clock sc k s Hok : io_ok sc s1) as Hok1. set (t' := if init_diff_reg s1 =? 0 then 0 else t).
  eapply wp_mono.
  - apply (charge_update_spec s1 reg r _ (mk_update true (access_nb r).2 t')); [done..|].
    exact (reg_target sc s1 reg r Hok1 Hr).
  - intros [] s2 (Hd & He & o & Hst). apply reg_step_clock in Hst.
    apply (wp_reg_upd _ _ (put_overhead o r)); [by eapply reg_step_get|]. split; [done|]. split.
    + exists t'. split; [intros E; unfold t'; change (init_diff_reg s1) with (init_diff_reg s); by rewrite E|].
      by apply (effect_quiet _ _ s s1 s2).
    + exists o. eapply reg_step_trans; [exact Hst|]. apply reg_step_put; [apply Hst|apply target_none].
Qed.

(** The registers keep their targets. *)
Lemma reg_step_same s reg r r' : io_ok sc s -> zget (registers s) reg = Some r -> access_nb r' = access_nb r ->
  reg_step sc reg r' s (set_registers (zset reg r' (registers s)) s).
Proof. intros Hok Hr E. apply reg_step_put; [done|]. rewrite E. by eapply reg_target. Qed.

Lemma reg_step_refl s reg r : io_ok sc s -> zget (registers s) reg = Some r -> reg_step sc reg r s s.
Proof. intros Hok Hr. split; [done| |apply shrinks_refl|done]. by rewrite zset_get. Qed.

(** One more store into the register. *)
Lemma reg_upd_next s0 s reg r0 r f (Q : unit -> iostate -> Prop) :
  zget (registers s0) reg = Some r0 -> reg_step sc reg r s0 s -> access_nb (f r) = access_nb r ->
  (forall s', quiet s s' -> reg_step sc reg (f r) s0 s' -> Q tt s') -> wp (reg_upd reg f) Q s.
Proof.
  intros Hr0 Hst E HQ. pose proof (reg_step_get _ _ _ _ _ _ Hr0 Hst) as Hr. apply (wp_reg_upd _ _ r); [done|].
  apply HQ; [done|]. eapply reg_step_trans; [exact Hst|]. apply (reg_step_same _ _ r); [apply Hst|done|done].
Qed.

(** The time an access takes is measured and sent to the checker. *)
Lemma measured {A} s reg r (Q : A -> iostate -> Prop) (m : IM A) type n :
  io_ok sc s -> zget (registers s) reg = Some r -> type <> LATENCY_OP ->
  (forall s1, quiet s s1 -> io_ok sc s1 -> registers s1 = registers s -> reg_step sc reg r s s1 -> wp m Q s1) ->
  wp (SEND_TO_PERF_CHECKER (reg_io_type r) n type;; m) Q s.
Proof.
  intros Hok Hr Ht Hm. wp_step. apply wp_send; [done|]. intros p L. apply Hm; [done|by apply io_ok_perf|done|].
  apply (reg_step_perf _ _ _ p), reg_step_refl; [by apply io_ok_perf|done].
Qed.

Lemma REG_WRITE_DELAY_spec s reg r : io_ok sc s -> zget (registers s) reg = Some r ->
  wp (SSD_REG_WRITE_DELAY reg) (fun _ s' => quiet s s' /\ reg_step sc reg (put_reg_time (-1) r) s s') s.
Proof.
  intros Hok Hr. unfold SSD_REG_WRITE_DELAY, get_conf_io. wp_steps. apply (wp_reg_get _ r); [done|].
  destruct (Z.eqb_spec (reg_io_time r) (-1)) as [E|E].
  { wp_step. split; [done|]. replace (put_reg_time (-1) r) with r; [by apply reg_step_refl|]. rewrite <- E. by destruct r. }
  wp_step. apply wp_usec. intros t k. wp_step. apply wp_usec. intros t' k'.
  apply (measured _ reg r); [by apply io_ok_clock, io_ok_clock|done|done|]. intros s1 Hq1 _ _ Hst1.
  apply reg_step_clock, reg_step_clock in Hst1. wp_step.
  apply (reg_upd_next s s1 reg r _ _ _ Hr Hst1); [done|]. intros s2 Hq2 Hst2. wp_step.
  split; [exact (quiet_trans _ _ _ Hq1 Hq2)|done].
Qed.

(** The end of the command has reached its request. *)
Definition ended (r : register) (s s' : iostate) : Prop :=
  init_diff_reg s' = init_diff_reg s /\
  exists t, (init_diff_reg s = 0 -> t = 0) /\ effect (access_nb r).1 (mk_update true (access_nb r).2 t) s s'.

Lemma ended_quiet r s s1 s2 s3 : quiet s s1 -> ended r s1 s2 -> quiet s2 s3 -> ended r s s3.
Proof.
  intros Hq (Hd & t & Ht & He) Hq'. pose proof Hq as (_ & _ & _ & Hd0). pose proof Hq' as (_ & _ & _ & Hd2).
  split; [congruence|]. exists t. split; [by rewrite <- Hd0|]. by eapply effect_quiet.
Qed.

Lemma REG_READ_DELAY_spec s reg r : io_ok sc s -> zget (registers s) reg = Some r -> reg_io_time r <> -1 ->
  wp (SSD_REG_READ_DELAY reg) (fun _ s' => ended r s s' /\
    exists o, reg_step sc reg (mk_register NOOP NOOP (-1) (cell_io_time r) (-1, (access_nb r).2) o) s s') s.
Proof.
  intros Hok Hr E. unfold SSD_REG_READ_DELAY, get_conf_io. wp_steps. apply (wp_reg_get _ r); [done|].
  destruct (Z.eqb_spec (reg_io_time r) (-1)); [done|].
  wp_step. apply wp_usec. intros t k. wp_step. apply wp_usec. intros t' k'.
  apply (measured _ reg r); [by apply io_ok_clock, io_ok_clock|done|done|]. intros s1 Hq1 Hok1 Er1 Hst1.
  apply reg_step_clock, reg_step_clock in Hst1. wp_step.
  eapply wp_mono; [apply (UPDATE_IO_REQUEST_reg s1 reg r Hok1); by rewrite Er1|]. intros [] s2 (Hd & He & o & Hst2).
  apply (reg_step_trans _ _ _ _ _ _ _ Hst1) in Hst2.
  wp_step. apply (reg_upd_next s s2 reg r _ _ _ Hr Hst2); [done|]. intros s3 Hq3 Hst3.
  wp_step. apply (reg_upd_next s s3 reg r _ _ _ Hr Hst3); [done|]. intros s4 Hq4 Hst4.
  wp_step. split; [|by exists o]. apply (ended_quiet r s s1 s2); [done|by split|by eapply quiet_trans].
Qed.

Lemma CELL_WRITE_DELAY_spec s reg r : io_ok sc s -> zget (registers s) reg = Some r -> cell_io_time r <> -1 ->
  wp (SSD_CELL_WRITE_DELAY reg) (fun _ s' => ended r s s' /\
    reg_step sc reg (mk_register NOOP NOOP (reg_io_time r) (-1) (-1, (access_nb r).2) 0) s s') s.
Proof.
  intros Hok Hr E. unfold SSD_CELL_WRITE_DELAY, get_conf_io. wp_steps. apply (wp_reg_get _ r); [done|].
  destruct (Z.eqb_spec (cell_io_time r) (-1)); [done|].
  wp_step. apply wp_usec. intros t k. wp_step. apply wp_usec. intros t' k'.
  apply (measured _ reg r); [by apply io_ok_clock, io_ok_clock|done|done|]. intros s1 Hq1 Hok1 Er1 Hst1.
  apply reg_step_clock, reg_step_clock in Hst1. wp_step.
  eapply wp_mono; [apply (UPDATE_IO_REQUEST_reg s1 reg r Hok1); by rewrite Er1|]. intros [] s2 (Hd & He & o & Hst2).
  apply (reg_step_trans _ _ _ _ _ _ _ Hst1) in Hst2.
  wp_step. apply (reg_upd_next s s2 reg r _ _ _ Hr Hst2); [done|]. intros s3 Hq3 Hst3.
  wp_step. apply (reg_upd_next s s3 reg r _ _ _ Hr Hst3); [done|]. intros s4 Hq4 Hst4.
  wp_step. apply (reg_upd_next s s4 reg r _ _ _ Hr Hst4); [done|]. intros s5 Hq5 Hst5.
  wp_step. split; [|done]. apply (ended_quiet r s s1 s2); [done|by split|].
  eapply quiet_trans; [exact Hq3|]. by eapply quiet_trans.
Qed.

Lemma CELL_READ_DELAY_spec s reg r : io_ok sc s -> zget (registers s) reg = Some r ->
  wp (SSD_CELL_READ_DELAY reg) (fun _ s' => exists o, reg_step sc reg (put_overhead o (put_cell_time (-1) r)) s s') s.
Proof.
  intros Hok Hr. unfold SSD_CELL_READ_DELAY, get_conf_io. wp_steps. apply (wp_reg_get _ r); [done|].
  destruct (Z.eqb_spec (cell_io_time r) (-1)) as [E|E].
  { wp_step. exists (io_overhead r). replace (put_overhead _ _) with r; [by apply reg_step_refl|]. rewrite <- E. by destruct r. }
  wp_step. apply wp_usec. intros t k. wp_step.
  apply (wp_mono _ (fun _ s1 => io_ok sc s1 /\ registers s1 = registers s /\ reg_step sc reg r s s1)).
  { pose proof (io_ok_clock sc k s Hok) as Hok1.
    assert (Hst : reg_step sc reg r s (set_ssd (set_clock_reads k (ssd s)) s)) by (by apply reg_step_clock with k, reg_step_refl).
    destruct (_ <? _); [wp_steps|wp_step; done]. destruct Hok1 as [H1 H2 H3 H4]. destruct Hst as [S1 S2 S3 S4]. by split. }
  intros ret s1 (Hok1 & Er & Hst). wp_step. apply wp_usec. intros t' k'.
  apply (measured _ reg r); [by apply io_ok_clock|simpl; by rewrite Er|done|]. intros s2 _ _ _ Hst2.
  apply reg_step_clock, (reg_step_trans _ _ _ _ _ _ _ Hst) in Hst2.
  wp_step. apply (reg_upd_next s s2 reg r _ _ _ Hr Hst2); [done|]. intros s3 Hq3 Hst3.
  wp_step. apply (reg_upd_next s s3 reg r _ _ _ Hr Hst3); [done|]. intros s4 Hq4 Hst4. wp_step. by eexists.
Qed.

Lemma BLOCK_ERASE_DELAY_spec s reg r : io_ok sc s -> zget (registers s) reg = Some r -> cell_io_time r <> -1 ->
  wp (SSD_BLOCK_ERASE_DELAY reg) (fun _ s' => reg_step sc reg (put_cmd NOOP NOOP (put_cell_time (-1) r)) s s') s.
Proof.
  intros Hok Hr E. unfold SSD_BLOCK_ERASE_DELAY, get_conf_io. wp_steps. apply (wp_reg_get _ r); [done|].
  destruct (Z.eqb_spec (cell_io_time r) (-1)); [done|].
  wp_step. apply wp_usec. intros t k. wp_step. apply wp_usec. intros t' k'. wp_step. apply wp_usec. intros t'' k''.
  apply (measured _ reg r); [by apply io_ok_clock, io_ok_clock, io_ok_clock|done|done|]. intros s1 _ _ _ Hst1.
  apply reg_step_clock, reg_step_clock, reg_step_clock in Hst1.
  wp_step. apply (reg_upd_next s s1 reg r _ _ _ Hr Hst1); [done|]. intros s2 Hq2 Hst2.
  wp_step. apply (reg_upd_next s s2 reg r _ _ _ Hr Hst2); [done|]. intros s3 Hq3 Hst3. by wp_step.
Qed.

(** Any access returns, and touches its register only. *)
Lemma REG_READ_DELAY_returns s reg r : io_ok sc s -> zget (registers s) reg = Some r ->
  wp (SSD_REG_READ_DELAY reg) (fun _ s' => exists r', reg_step sc reg r' s s') s.
Proof.
  intros Hok Hr. destruct (decide (reg_io_time r = -1)) as [E|E].
  - unfold SSD_REG_READ_DELAY, get_conf_io. wp_steps. apply (wp_reg_get _ r); [done|]. rewrite E. simpl. wp_step.
    exists r. by apply reg_step_refl.
  - eapply wp_mono; [by apply (REG_READ_DELAY_spec s reg r)|]. intros t s' (_ & o & Hst). by eexists.
Qed.

Lemma REG_ACCESS_returns s reg r : io_ok sc s -> zget (registers s) reg = Some r ->
  wp (SSD_REG_ACCESS reg) (fun _ s' => exists r', reg_step sc reg r' s s') s.
Proof.
  intros Hok Hr. unfold SSD_REG_ACCESS. apply wp_bind, (wp_reg_get _ r); [done|].
  pose proof (reg_step_refl s reg r Hok Hr) as Hrefl.
  destruct (reg_io_cmd r =? NOOP); [wp_step; by exists r|]. destruct (reg_io_cmd r =? READ).
  { wp_step. eapply wp_mono; [by apply (CELL_READ_DELAY_spec s reg r)|]. intros t s1 (o & Hst).
    eapply wp_mono; [eapply REG_READ_DELAY_returns; [apply Hst|by eapply reg_step_get]|].
    intros t' s2 (r' & Hst'). exists r'. by eapply reg_step_trans. }
  destruct (reg_io_cmd r =? WRITE).
  { wp_step. eapply wp_mono; [by apply (REG_WRITE_DELAY_spec s reg r)|]. intros t s1 (_ & Hst).
    pose proof (reg_step_get _ _ _ _ _ _ Hr Hst) as Hr1. destruct (decide (cell_io_time r = -1)) as [E|E].
    - unfold SSD_CELL_WRITE_DELAY, get_conf_io. wp_steps. apply (wp_reg_get _ _ _ _ Hr1). simpl. rewrite E. simpl. wp_step. by eexists.
    - eapply wp_mono; [apply (CELL_WRITE_DELAY_spec s1 reg _ (st_ok _ _ _ _ _ Hst) Hr1); done|].
      intros t' s2 (_ & Hst'). eexists. by eapply reg_step_trans. }
  destruct (reg_io_cmd r =? ERASE); [|wp_step; by exists r]. destruct (decide (cell_io_time r = -1)) as [E|E].
  - unfold SSD_BLOCK_ERASE_DELAY, get_conf_io. wp_steps. apply (wp_reg_get _ r); [done|]. rewrite E. simpl. wp_step. by exists r.
  - eapply wp_mono; [by apply (BLOCK_ERASE_DELAY_spec s reg r)|]. intros t s' Hst. eexists. exact Hst.
Qed.

(** A register at work. *)
Definition busy (r : register) : Prop :=
  (reg_io_cmd r = READ /\ reg_io_time r <> -1) \/
  ((reg_io_cmd r = WRITE \/ reg_io_cmd r = ERASE) /\ cell_io_time r <> -1).

Record freed (r r' : register) : Prop := {
  fr_cmd : reg_io_cmd r' = NOOP /\ reg_io_type r' = NOOP;
  fr_cell : cell_io_time r' = -1;
  fr_reg : reg_io_cmd r <> ERASE -> reg_io_time r' = -1 /\ (access_nb r').1 = -1
}.

Lemma REG_ACCESS_frees s reg r : io_ok sc s -> zget (registers s) reg = Some r -> busy r ->
  wp (SSD_REG_ACCESS reg) (fun _ s' => exists r', reg_step sc reg r' s s' /\ freed r r') s.
Proof.
  intros Hok Hr Hb. unfold SSD_REG_ACCESS. apply wp_bind, (wp_reg_get _ r); [done|].
  destruct Hb as [[Ec Et]|[[Ec|Ec] Et]]; rewrite Ec; simpl.
  - wp_step. eapply wp_mono; [by apply (CELL_READ_DELAY_spec s reg r)|]. intros t s1 (o & Hst).
    eapply wp_mono; [apply (REG_READ_DELAY_spec s1 reg _ (st_ok _ _ _ _ _ Hst) (reg_step_get _ _ _ _ _ _ Hr Hst)); exact Et|].
    intros t' s2 (_ & o' & Hst'). eexists. split; [exact (reg_step_trans _ _ _ _ _ _ _ Hst Hst')|]. by split.
  - wp_step. eapply wp_mono; [by apply (REG_WRITE_DELAY_spec s reg r)|]. intros t s1 (_ & Hst).
    eapply wp_mono; [apply (CELL_WRITE_DELAY_spec s1 reg _ (st_ok _ _ _ _ _ Hst) (reg_step_get _ _ _ _ _ _ Hr Hst)); exact Et|].
    intros t' s2 (_ & Hst'). eexists. split; [exact (reg_step_trans _ _ _ _ _ _ _ Hst Hst')|]. by split.
  - eapply wp_mono; [by apply (BLOCK_ERASE_DELAY_spec s reg r)|]. intros t s1 Hst. eexists. split; [exact Hst|].
    split; [done|done|]. by rewrite Ec.
Qed.

(** ** Chips and channels *)

Definition regs_in_range (reg : Z) : Prop := 0 <= reg < FLASH_NB sc * PLANES_PER_FLASH sc.

Lemma reg_there s reg : io_ok sc s -> regs_in_range reg -> exists r, zget (registers s) reg = Some r.
Proof. intros Hok Hr. apply zget_is_Some. by rewrite (io_regs sc s Hok). Qed.

Lemma FLASH_ACCESS_ok s flash reg : io_ok sc s -> 0 <= flash < FLASH_NB sc ->
  wp (SSD_FLASH_ACCESS flash reg) (fun _ s' => io_ok sc s') s.
Proof.
  intros Hok Hf. unfold SSD_FLASH_ACCESS, get_conf_io. wp_steps. rewrite (io_params sc s Hok).
  apply (wp_mfold (fun _ _ s' => io_ok sc s')); [done|]. intros i ret s1 Hi Hok1.
  destruct (reg_there s1 (flash * PLANES_PER_FLASH sc + i) Hok1) as [r Hr]; [unfold regs_in_range; nia|].
  wp_step. apply (wp_reg_get _ r); [done|]. destruct (_ =? -1); [by wp_step|].
  eapply wp_mono; [by eapply REG_ACCESS_returns|]. intros t s2 (r' & Hst). apply Hst.
Qed.

(** The channels divide the chips. *)
Hypothesis Hways : WAY_NB sc * CHANNEL_NB sc = FLASH_NB sc.
Hypothesis Hway : 0 <= WAY_NB sc.
Hypothesis Hplanes : 0 < PLANES_PER_FLASH sc.

Lemma channel_register_range channel i j : 0 <= channel < CHANNEL_NB sc -> 0 <= i < WAY_NB sc -> 0 <= j < PLANES_PER_FLASH sc ->
  regs_in_range (channel_register sc channel i j).
Proof.
  intros Hc Hi Hj. unfold regs_in_range, channel_register. rewrite <- Hways.
  replace (channel * _ + i * _ * _ + j) with ((i * CHANNEL_NB sc + channel) * PLANES_PER_FLASH sc + j) by ring.
  apply radix_range; [by apply radix_range|done].
Qed.

Lemma CH_ACCESS_ok s channel : io_ok sc s -> 0 <= channel < CHANNEL_NB sc ->
  wp (SSD_CH_ACCESS channel) (fun _ s' => io_ok sc s') s.
Proof.
  intros Hok Hc. unfold SSD_CH_ACCESS, get_conf_io. wp_steps. rewrite (io_params sc s Hok).
  apply (wp_mfold (fun _ _ s' => io_ok sc s')); [done|]. intros i ret s1 Hi Hok1.
  apply (wp_mfold (fun _ _ s' => io_ok sc s')); [done|]. intros j ret' s2 Hj Hok2.
  destruct (reg_there s2 (channel_register sc channel i j) Hok2) as [r Hr]; [apply channel_register_range; lia|].
  wp_step. apply (wp_reg_get _ r); [done|]. wp_step. apply wp_usec. intros t k. set (s3 := set_ssd _ s2).
  pose proof (io_ok_clock sc k s2 Hok2 : io_ok sc s3) as Hok3. destruct (_ && _); [|by wp_step].
  destruct (reg_io_cmd r =? READ).
  { wp_step. eapply wp_mono; [by apply (CELL_READ_DELAY_spec s3 _ r)|]. intros t' s4 (o & Hst). wp_step.
    eapply wp_mono; [exact (REG_READ_DELAY_returns s4 _ _ (st_ok _ _ _ _ _ Hst) (reg_step_get _ _ r _ s3 _ Hr Hst))|].
    intros t'' s5 (r' & Hst'). wp_step. apply Hst'. }
  destruct (reg_io_cmd r =? WRITE); [|by wp_step]. wp_step.
  eapply wp_mono; [by apply (REG_WRITE_DELAY_spec s3 _ r)|]. intros t' s4 (_ & Hst). wp_step. apply Hst.
Qed.

(** The registers of a channel, by their number. *)
Definition on_channel (channel k : Z) : bool := (k / PLANES_PER_FLASH sc) mod CHANNEL_NB sc =? channel.

(** A read that would use the channel after [t] waits for a write. *)
Definition pushed (t : Z) (q : register) : register :=
  if (reg_io_cmd q =? READ) && (t <? reg_io_time q) then put_reg_time (reg_io_time q + REG_WRITE_DELAY sc) q else q.

(** The registers of the channel below [bound] have been seen. *)
Definition pushed_below (channel t bound : Z) (rs rs' : list register) : Prop :=
  zlen rs' = zlen rs /\
  forall k q, zget rs k = Some q -> zget rs' k = Some (if on_channel channel k && (k <? bound) then pushed t q else q).

Lemma on_channel_register channel i j : 0 <= channel < CHANNEL_NB sc -> 0 <= i -> 0 <= j < PLANES_PER_FLASH sc ->
  on_channel channel (channel_register sc channel i j) = true.
Proof.
  intros Hc Hi Hj. unfold on_channel, channel_register. apply Z.eqb_eq.
  replace (channel * _ + i * _ * _ + j) with (j + (channel + i * CHANNEL_NB sc) * PLANES_PER_FLASH sc) by ring.
  rewrite Z.div_add, (Z.div_small j) by lia. rewrite Z.add_0_l, Z.mod_add, Z.mod_small by lia. done.
Qed.

(** Between the planes of one way and those of the next the channel has no
    register. *)
Lemma channel_gap channel i k : 0 <= channel < CHANNEL_NB sc -> 0 <= i -> on_channel channel k = true ->
  (k <? channel_register sc channel i (PLANES_PER_FLASH sc)) = (k <? channel_register sc channel (i + 1) 0).
Proof.
  intros Hc Hi Hk%Z.eqb_eq. unfold channel_register. set (P := PLANES_PER_FLASH sc) in *. set (C := CHANNEL_NB sc) in *.
  pose proof (Z.div_mod k P ltac:(lia)) as E1. pose proof (Z.mod_pos_bound k P ltac:(lia)) as B1.
  pose proof (Z.div_mod (k / P) C ltac:(lia)) as E2. rewrite Hk in E2. set (w := k / P / C) in *.
  apply Bool.eq_iff_eq_true. rewrite !Z.ltb_lt. rewrite E1, E2. split; intros Hlt.
  - assert (P * 1 <= P * C) by (apply Z.mul_le_mono_nonneg_l; lia). lia.
  - assert (Hw : w <= i).
    { apply Z.nlt_ge. intros Hge. assert (P * (C * (i + 1)) <= P * (C * w)); [|lia].
      repeat (apply Z.mul_le_mono_nonneg_l; [lia|]). lia. }
    assert (P * (C * w) <= P * (C * i)); [|lia]. repeat (apply Z.mul_le_mono_nonneg_l; [lia|]). lia.
Qed.

Lemma pushed_below_start channel t rs : 0 <= channel < CHANNEL_NB sc -> pushed_below channel t (channel_register sc channel 0 0) rs rs.
Proof.
  intros Hc. split; [done|]. intros k q Hk. rewrite Hk. destruct (on_channel channel k) eqn:Eo; [|done].
  destruct (Z.ltb_spec k (channel_register sc channel 0 0)) as [Hlt|]; [|done]. exfalso.
  apply Z.eqb_eq in Eo. pose proof (zget_Some_range _ _ _ Hk). unfold channel_register in Hlt.
  assert (0 <= k / PLANES_PER_FLASH sc < channel).
  { split; [apply Z.div_pos; lia|apply Z.div_lt_upper_bound; lia]. }
  rewrite Z.mod_small in Eo by lia. lia.
Qed.

Lemma pushed_below_step channel t i j q rs rs1 : 0 <= channel < CHANNEL_NB sc -> 0 <= i -> 0 <= j < PLANES_PER_FLASH sc ->
  let k := channel_register sc channel i j in
  zget rs k = Some q -> pushed_below channel t k rs rs1 ->
  zget rs1 k = Some q /\ pushed_below channel t (channel_register sc channel i (j + 1)) rs (zset k (pushed t q) rs1).
Proof.
  intros Hc Hi Hj k Hq [Hl Hp]. pose proof (Hp k q Hq) as Hq1. rewrite Z.ltb_irrefl, andb_false_r in Hq1.
  split; [done|]. replace (channel_register sc channel i (j + 1)) with (k + 1) by (unfold k, channel_register; lia).
  split; [by rewrite zlen_zset|]. intros k' q' Hq'. rewrite zget_zset by (by eapply zget_Some_range).
  destruct (Z.eqb_spec k k') as [<-|Hne].
  - assert (on_channel channel k = true) as -> by (by apply on_channel_register). destruct (Z.ltb_spec k (k + 1)); [|lia]. simpl. congruence.
  - rewrite (Hp _ _ Hq'). replace (k' <? k + 1) with (k' <? k) by lia. done.
Qed.

Lemma UPDATE_CH_ACCESS_TIME_spec s channel t : io_ok sc s -> 0 <= channel < CHANNEL_NB sc ->
  wp (SSD_UPDATE_CH_ACCESS_TIME channel t) (fun _ s' => exists rs, s' = set_registers rs s /\
    pushed_below channel t (channel_register sc channel (WAY_NB sc) 0) (registers s) rs) s.
Proof.
  intros Hok Hc. unfold SSD_UPDATE_CH_ACCESS_TIME, get_conf_io. wp_steps. rewrite (io_params sc s Hok).
  set (I := fun i j (s' : iostate) => exists rs, s' = set_registers rs s /\ pushed_below channel t (channel_register sc channel i j) (registers s) rs).
  eapply wp_mono.
  - apply (wp_mfor (fun i s' => I i 0 s')). { exists (registers s). split; [by destruct s|by apply pushed_below_start]. }
    intros i s1 Hi HI. eapply wp_mono.
    + apply (wp_mfor (fun j s' => I i j s')); [exact HI|]. intros j s2 Hj (rs1 & -> & Hp1).
      destruct (reg_there s (channel_register sc channel i j) Hok) as [q Hq]; [apply channel_register_range; lia|].
      destruct (pushed_below_step channel t i j q (registers s) rs1) as [Hq1 Hp2]; [done|lia|lia|done|done|].
      wp_step. apply (wp_reg_get _ q); [done|]. unfold pushed in Hp2. destruct (_ && _).
      * apply (wp_reg_upd _ _ q); [done|]. by eexists.
      * wp_step. exists rs1. split; [done|]. by rewrite zset_get in Hp2.
    + intros [] s2 (rs & -> & Hl & Hp). exists rs. split; [done|]. split; [done|]. intros k q Hk. rewrite (Hp k q Hk).
      rewrite Z.add_0_l, Z2Nat.id by lia. destruct (on_channel channel k) eqn:Eo; [|done]. by rewrite channel_gap by (done || lia).
  - intros [] s' (rs & -> & Hp). exists rs. split; [done|]. by rewrite Z.add_0_l, Z2Nat.id in Hp by lia.
Qed.

Lemma pushed_access t q : access_nb (pushed t q) = access_nb q.
Proof. unfold pushed. by destruct (_ && _). Qed.

Lemma pushed_ok s channel t bound rs : io_ok sc s -> pushed_below channel t bound (registers s) rs -> io_ok sc (set_registers rs s).
Proof.
  intros [H1 H2 H3 H4] [Hl Hp]. split; [done..|simpl; congruence|]. simpl. apply Forall_zget. intros k x Hx.
  destruct (zget_is_Some (registers s) k) as [q Hq]; [rewrite <- Hl; by eapply zget_Some_range|].
  pose proof (zget_Forall _ _ _ _ H4 Hq) as Ht. rewrite (Hp k q Hq) in Hx. injection Hx as <-.
  destruct (_ && _); [by rewrite pushed_access|done].
Qed.

(** The time until which a register uses its channel. *)
Definition channel_until (q : register) : Z :=
  if reg_io_cmd q =? READ then reg_io_time q + REG_READ_DELAY sc
  else if reg_io_cmd q =? WRITE then reg_io_time q + REG_WRITE_DELAY sc
  else 0.

(** [v] is the latest of [base] and the times of the registers seen. *)
Definition latest (s : iostate) (channel base i j v : Z) : Prop :=
  base <= v /\
  (forall i' j' q, 0 <= i' -> 0 <= j' < PLANES_PER_FLASH sc -> i' < i \/ (i' = i /\ j' < j) ->
     zget (registers s) (channel_register sc channel i' j') = Some q -> channel_until q <= v) /\
  (v = base \/ exists i' j' q, zget (registers s) (channel_register sc channel i' j') = Some q /\ v = channel_until q).

(** A read uses the channel when its cells are done and nothing else does. *)
Lemma GET_CH_ACCESS_TIME_spec s channel reg r : io_ok sc s -> 0 <= channel < CHANNEL_NB sc -> zget (registers s) reg = Some r ->
  wp (SSD_GET_CH_ACCESS_TIME_FOR_READ channel reg) (fun v s' => s' = s /\
    latest s channel (cell_io_time r + CELL_READ_DELAY sc) (WAY_NB sc) 0 v) s.
Proof.
  intros Hok Hc Hr. unfold SSD_GET_CH_ACCESS_TIME_FOR_READ, get_conf_io. wp_steps. rewrite (io_params sc s Hok).
  apply (wp_reg_get _ r); [done|]. set (base := cell_io_time r + CELL_READ_DELAY sc).
  eapply wp_mono.
  - apply (wp_mfold (fun i v s' => s' = s /\ latest s channel base i 0 v)).
    { split; [done|]. split; [lia|]. split; [lia|by left]. }
    intros i v s1 Hi (-> & HL). eapply wp_mono.
    + apply (wp_mfold (fun j v s' => s' = s /\ latest s channel base i j v)); [done|].
      intros j v' s2 Hj (-> & H1 & H2 & H3).
      destruct (reg_there s (channel_register sc channel i j) Hok) as [q Hq]; [apply channel_register_range; lia|].
      wp_step. apply (wp_reg_get _ q); [done|]. wp_step. fold (channel_until q). split; [done|].
      assert (Hnew : forall i' j' q', 0 <= i' -> 0 <= j' < PLANES_PER_FLASH sc -> i' < i \/ (i' = i /\ j' < j + 1) ->
        zget (registers s) (channel_register sc channel i' j') = Some q' -> channel_until q' <= v' \/ q' = q).
      { intros i' j' q' Hi' Hj' Hlt Hq'. destruct (decide (i' = i /\ j' = j)) as [[-> ->]|Hne]; [right; congruence|].
        left. apply (H2 i' j'); [done|done|lia|done]. }
      destruct (Z.ltb_spec v' (channel_until q)).
      * split; [lia|]. split; [|right; by exists i, j, q]. intros i' j' q' Hi' Hj' Hlt Hq'.
        destruct (Hnew i' j' q' Hi' Hj' Hlt Hq') as [|Eq]; [lia|subst q'; lia].
      * split; [done|]. split; [|done]. intros i' j' q' Hi' Hj' Hlt Hq'. destruct (Hnew i' j' q' Hi' Hj' Hlt Hq') as [|Eq]; [lia|subst q'; lia].
    + intros v' s2 (-> & H1 & H2 & H3). split; [done|]. split; [done|]. split; [|done].
      intros i' j' q Hi' Hj' Hlt. apply (H2 i' j'); [done|done|lia].
  - intros v s' (-> & HL). by rewrite Z.add_0_l, Z2Nat.id in HL by lia.
Qed.

(** ** Recording a command *)

Definition info_ok (s : iostate) (info : option nand_io_info) : Prop :=
  match info with Some x => target_ok (io_requests (ssd s)) (n_io_seq_nb x) (n_offset x) | None => True end.

Lemma record_access_spec s reg r mine nb offset : io_ok sc s -> zget (registers s) reg = Some r ->
  (mine = true -> target_ok (io_requests (ssd s)) nb offset) ->
  wp (record_access reg mine nb offset) (fun _ s' => io_ok sc s' /\ init_diff_reg s' = init_diff_reg s /\
    (mine = true -> effect nb (mk_update false offset (old_channel_time s)) s s') /\
    exists o, reg_step sc reg (if mine then put_overhead o (put_access nb offset r) else put_access (-1) (-1) r) s s') s.
Proof.
  intros Hok Hr Ht. unfold record_access. destruct mine.
  - wp_step. apply (wp_reg_upd _ _ r); [done|]. wp_steps. set (s1 := set_registers _ s).
    pose proof (reg_step_put sc reg (put_access nb offset r) s Hok (Ht eq_refl)) as Hst. fold s1 in Hst.
    eapply wp_mono; [apply (charge_update_spec s1 reg (put_access nb offset r) nb (mk_update false offset (old_channel_time s1)));
      [apply Hst|by eapply reg_step_get|by apply Ht]|].
    intros [] s2 (Hd & He & o & Hst2). split; [apply Hst2|]. split; [done|]. split; [done|]. exists o. by eapply reg_step_trans.
  - apply (wp_reg_upd _ _ r); [done|]. split; [apply (reg_step_put sc reg (put_access (-1) (-1) r)); [done|by left]|].
    split; [done|]. split; [done|]. exists 0. by apply reg_step_put; [|left].
Qed.

(** Every branch of the record returns and keeps the invariant. *)
Lemma REG_RECORD_ok s reg cmd channel info : io_ok sc s -> regs_in_range reg -> 0 <= channel < CHANNEL_NB sc -> info_ok s info ->
  wp (SSD_REG_RECORD reg cmd channel info) (fun _ s' => io_ok sc s') s.
Proof.
  intros Hok Hreg Hc Hi. destruct (reg_there s reg Hok Hreg) as [r Hr]. unfold SSD_REG_RECORD, get_conf_io. wp_steps.
  rewrite (io_params sc s Hok). apply (reg_upd_next s s reg r _ _ _ Hr (reg_step_refl s reg r Hok Hr)); [done|].
  intros s1 Hq1 Hst1. pose proof (reg_step_get _ _ _ _ _ _ Hr Hst1) as Hr1. pose proof (st_ok _ _ _ _ _ Hst1) as Hok1.
  assert (Htgt : target_ok (io_requests (ssd s)) (match info with Some x => n_io_seq_nb x | None => -1 end)
    (match info with Some x => n_offset x | None => -1 end)) by (destruct info; [done|by left]).
  wp_step. apply (wp_mono _ (fun _ s' => io_ok sc s')); [|intros [] s' Hs'; by wp_step].
  destruct (cmd =? WRITE); [|destruct (cmd =? READ); [|destruct (cmd =? ERASE); [|by wp_step]]].
  - wp_steps. apply (reg_upd_next s s1 reg r _ _ _ Hr Hst1); [done|]. intros s2 Hq2 Hst2.
    pose proof (quiet_trans _ _ _ Hq1 Hq2) as (_ & El & _). pose proof (st_ok _ _ _ _ _ Hst2) as Hok2.
    wp_step. apply (wp_reg_get _ _ _ _ (reg_step_get _ _ _ _ _ _ Hr Hst2)). wp_step.
    eapply wp_mono; [by apply UPDATE_CH_ACCESS_TIME_spec|]. intros [] s3 (rs & -> & Hp).
    pose proof (pushed_ok s2 _ _ _ rs Hok2 Hp) as Hok3. destruct (reg_there _ reg Hok3 Hreg) as [r3 Hr3].
    eapply wp_mono; [apply (record_access_spec _ reg r3); [done|done|intros _; simpl; by rewrite El]|]. by intros [] s4 (? & _).
  - wp_step. eapply wp_mono; [by apply (GET_CH_ACCESS_TIME_spec s1 channel reg _ Hok1 Hc Hr1)|]. intros t s2 (-> & _).
    wp_step. apply (reg_upd_next s s1 reg r _ _ _ Hr Hst1); [done|]. intros s2 Hq2 Hst2.
    pose proof (quiet_trans _ _ _ Hq1 Hq2) as (_ & El & _).
    eapply wp_mono; [apply (record_access_spec s2 reg _ _ _ _ (st_ok _ _ _ _ _ Hst2) (reg_step_get _ _ _ _ _ _ Hr Hst2));
      intros _; by rewrite El|]. by intros [] s4 (? & _).
  - apply (wp_reg_upd _ _ _ _ _ Hr1). apply reg_step_put; [done|by left].
Qed.

Lemma CELL_RECORD_ok s reg cmd : io_ok sc s -> regs_in_range reg -> wp (SSD_CELL_RECORD reg cmd) (fun _ s' => io_ok sc s') s.
Proof.
  intros Hok Hreg. destruct (reg_there s reg Hok Hreg) as [r Hr]. unfold SSD_CELL_RECORD, get_conf_io. wp_steps.
  apply (wp_mono _ (fun _ s' => io_ok sc s')); [|intros [] s' Hs'; by wp_step].
  destruct (cmd =? WRITE); [|destruct (cmd =? READ); [|destruct (cmd =? ERASE); [|by wp_step]]].
  - apply (wp_reg_upd _ _ r); [done|]. by apply (reg_step_same s reg r).
  - wp_steps. apply (wp_reg_upd _ _ r); [done|]. by apply (reg_step_same s reg r).
  - wp_step. apply wp_usec. intros t k. apply (wp_reg_upd _ _ r); [done|].
    apply (reg_step_same (set_ssd (set_clock_reads k (ssd s)) s) reg r); [by apply io_ok_clock|done|done].
Qed.

(** A page program for a write of the host is in the register, and its start in
    the request. *)
Record write_recorded (reg : Z) (x : nand_io_info) (s s' : iostate) : Prop := {
  wr_ok : io_ok sc s';
  wr_diff : init_diff_reg s' = init_diff_reg s;
  wr_effect : effect (n_io_seq_nb x) (mk_update false (n_offset x) (old_channel_time s)) s s';
  wr_reg : exists r', zget (registers s') reg = Some r' /\ reg_io_cmd r' = WRITE /\ access_nb r' = (n_io_seq_nb x, n_offset x) /\
    reg_io_time r' = old_channel_time s + CHANNEL_SWITCH_DELAY_W sc
}.

Lemma REG_RECORD_write s reg channel x : io_ok sc s -> regs_in_range reg -> 0 <= channel < CHANNEL_NB sc ->
  info_ok s (Some x) -> n_type x = WRITE ->
  wp (SSD_REG_RECORD reg WRITE channel (Some x)) (fun _ s' => write_recorded reg x s s') s.
Proof.
  intros Hok Hreg Hc Hi Hty. destruct (reg_there s reg Hok Hreg) as [r Hr]. unfold SSD_REG_RECORD, get_conf_io. wp_steps.
  rewrite (io_params sc s Hok), Hty. apply (reg_upd_next s s reg r _ _ _ Hr (reg_step_refl s reg r Hok Hr)); [done|].
  intros s1 Hq1 Hst1. wp_step. apply (wp_mono _ (fun _ s' => write_recorded reg x s s')); [|intros [] s' Hs'; by wp_step].
  simpl. wp_steps. apply (reg_upd_next s s1 reg r _ _ _ Hr Hst1); [done|]. intros s2 Hq2 Hst2.
  pose proof (quiet_trans _ _ _ Hq1 Hq2) as Hq. pose proof Hq as (_ & El & _ & Ed). pose proof (st_ok _ _ _ _ _ Hst2) as Hok2.
  pose proof (st_channel _ _ _ _ _ Hst1) as (_ & _ & Et1). pose proof (st_channel _ _ _ _ _ Hst2) as (_ & _ & Et2).
  pose proof (reg_step_get _ _ _ _ _ _ Hr Hst2) as Hr2. wp_step. apply (wp_reg_get _ _ _ _ Hr2). wp_step.
  eapply wp_mono; [by apply UPDATE_CH_ACCESS_TIME_spec|]. intros [] s3 (rs & -> & Hp).
  pose proof (pushed_ok s2 _ _ _ rs Hok2 Hp) as Hok3. destruct Hp as [_ Hp]. specialize (Hp _ _ Hr2).
  set (q := put_reg_time _ _) in Hp. assert (Hr3 : zget rs reg = Some q) by (rewrite Hp; by destruct (_ && _)).
  eapply wp_mono; [apply (record_access_spec _ reg q true); [done|done|intros _; simpl; by rewrite El]|].
  intros [] s4 (Hok4 & Hd4 & He4 & o & Hst4). specialize (He4 eq_refl). simpl in He4. rewrite Et2 in He4.
  split; [done|simpl in Hd4; congruence|by apply (effect_quiet _ _ s (set_registers rs s2) s4)|].
  eexists. split; [exact (reg_step_get _ _ q _ (set_registers rs s2) _ Hr3 Hst4)|]. split; [done|]. split; [done|]. simpl. by rewrite Et1.
Qed.

Lemma REG_ACCESS_write s reg r : io_ok sc s -> zget (registers s) reg = Some r -> reg_io_cmd r = WRITE -> cell_io_time r <> -1 ->
  wp (SSD_REG_ACCESS reg) (fun _ s' => ended r s s' /\ exists r', reg_step sc reg r' s s' /\ freed r r') s.
Proof.
  intros Hok Hr Ec Et. unfold SSD_REG_ACCESS. apply wp_bind, (wp_reg_get _ r); [done|]. rewrite Ec. simpl. wp_step.
  eapply wp_mono; [by apply (REG_WRITE_DELAY_spec s reg r)|]. intros t s1 (Hq & Hst).
  eapply wp_mono; [apply (CELL_WRITE_DELAY_spec s1 reg _ (st_ok _ _ _ _ _ Hst) (reg_step_get _ _ _ _ _ _ Hr Hst)); exact Et|].
  intros t' s2 (He & Hst'). split; [exact (ended_quiet _ s s1 s2 s2 Hq He (quiet_refl s2))|].
  eexists. split; [exact (reg_step_trans _ _ _ _ _ _ _ Hst Hst')|]. by split.
Qed.

(** The latency of a one-page write whose end was not measured. *)
Lemma one_page_latency r t : req_ok r -> request_type r = WRITE -> request_size r = 1 ->
  latency_of sc (updated (updated r (mk_update false 0 t)) (mk_update true 0 0)) = REG_WRITE_DELAY sc + CELL_PROGRAM_DELAY sc.
Proof.
  intros [_ Hs He] Hty Hsz. unfold latency_of, page_ends, updated. simpl. rewrite Hty, Hsz in *.
  destruct (start_time r) as [|a [|? ?]]; [done| |unfold zlen in Hs; simpl in Hs; lia].
  destruct (end_time r) as [|b [|? ?]]; [done| |unfold zlen in He; simpl in He; lia].
  simpl. unfold page_end. simpl. rewrite Z.quot_1_r. lia.
Qed.

(** ** The life of a page program *)

(** A page of a write that waits alone in its request. *)
Record single_write (s : iostate) (k : nat) (r : io_request) (x : nand_io_info) : Prop := {
  sw_there : io_requests (ssd s) !! k = Some r;
  sw_number : request_nb r = u32 (n_io_seq_nb x) /\ n_io_seq_nb x <> -1;
  sw_type : request_type r = WRITE /\ n_type x = WRITE;
  sw_size : request_size r = 1 /\ n_offset x = 0;
  sw_new : start_count r = 0 /\ end_count r = 0
}.

Lemma single_write_info s k r x : io_ok sc s -> single_write s k r x -> info_ok s (Some x).
Proof.
  intros Hok [Hk [Enb Hnb] _ [Esz Eoff] _]. right. rewrite Eoff. destruct (io_q sc s Hok) as [[_ Hnd] _].
  apply list.Forall_forall. intros r' Hin Er'. apply list_elem_of_lookup in Hin as [j Hj].
  assert (j = k) as ->; [|simplify_eq; lia]. apply (NoDup_lookup _ j k (u32 (n_io_seq_nb x)) Hnd).
  - by rewrite list_lookup_fmap, Hj, <- Er'.
  - by rewrite list_lookup_fmap, Hk, <- Enb.
Qed.

Lemma CH_RECORD_first s channel cmd ret x : io_ok sc s -> n_offset x = 0 ->
  (forall n, 0 <= (gettimeofday n).1 /\ 0 <= (gettimeofday n).2) ->
  wp (SSD_CH_RECORD channel cmd ret (Some x)) (fun _ s' =>
    io_ok sc s' /\ quiet s s' /\ registers s' = registers s /\ 0 <= old_channel_time s') s.
Proof.
  intros [H1 H2 H3 H4] Hx Hclk. unfold SSD_CH_RECORD, get_conf_io. wp_steps. apply (wp_deref _ x); [done|].
  rewrite Hx. simpl. rewrite !andb_false_r. simpl. wp_steps. apply wp_on_dev. unfold get_usec. apply wp_bind, wp_read_clock.
  wp_steps. destruct (Hclk (clock_reads (ssd s))) as [C1 C2]. destruct H2 as [[Q1 Q2] Q3].
  split; [by split|]. split; [done|]. split; [done|]. simpl. lia.
Qed.

Lemma CELL_RECORD_write s reg r : io_ok sc s -> zget (registers s) reg = Some r ->
  wp (SSD_CELL_RECORD reg WRITE) (fun _ s' => quiet s s' /\
    reg_step sc reg (put_cell_time (reg_io_time r + REG_WRITE_DELAY sc) r) s s') s.
Proof.
  intros Hok Hr. unfold SSD_CELL_RECORD, get_conf_io. wp_steps. rewrite (io_params sc s Hok). simpl.
  apply (reg_upd_next s s reg r _ _ _ Hr (reg_step_refl s reg r Hok Hr)); [done|]. intros s1 Hq Hst. by wp_step.
Qed.

(** C31: A page program for a request of one page, recorded for its channel, its
    register and its cells and then accessed, ends the request and frees the
    register; and as long as no read has had to wait, the latency that is
    counted is the sum of the two delays, whatever the clock says. *)
Theorem page_write_lifecycle s reg channel ret k r x :
  io_ok sc s -> regs_in_range reg -> 0 <= channel < CHANNEL_NB sc -> single_write s k r x ->
  init_diff_reg s = 0 -> 0 <= CHANNEL_SWITCH_DELAY_W sc -> 0 <= REG_WRITE_DELAY sc ->
  (forall n, 0 <= (gettimeofday n).1 /\ 0 <= (gettimeofday n).2) ->
  wp (SSD_CH_RECORD channel WRITE ret (Some x);; SSD_REG_RECORD reg WRITE channel (Some x);;
      SSD_CELL_RECORD reg WRITE;; SSD_REG_ACCESS reg) (fun _ s' =>
    io_ok sc s' /\ io_requests (ssd s') = delete k (io_requests (ssd s)) /\
    latencies (perf s') = latencies (add_latency WRITE (d_of_Z (REG_WRITE_DELAY sc + CELL_PROGRAM_DELAY sc)) (perf s)) /\
    exists r', zget (registers s') reg = Some r' /\ reg_io_cmd r' = NOOP /\ reg_io_time r' = -1 /\ cell_io_time r' = -1) s.
Proof.
  intros Hok Hreg Hc [Hk [Enb Hnb] [Ety Etx] [Esz Eoff] [Es0 Ee0]] Hd0 Hsw Hrw Hclk.
  assert (Hrq : req_ok r) by (destruct (io_q sc s Hok) as [_ Hall]; by eapply Forall_lookup_1).
  assert (Hinfo : info_ok s (Some x)) by (by eapply single_write_info).
  wp_step. eapply wp_mono; [by apply CH_RECORD_first|]. intros t0 s1 (Hok1 & Hq1 & Er1 & Ht1).
  pose proof Hq1 as (_ & El1 & _ & Ed1). wp_step. eapply wp_mono; [apply (REG_RECORD_write s1 reg channel x); try done|].
  { simpl. by rewrite El1. }
  intros t1 s2 [Hok2 Ed2 He2 (r2 & Hr2 & Ec2 & Ea2 & Et2)]. apply (effect_quiet _ _ s _ _ s2 Hq1) in He2; [|done].
  specialize (He2 k r Hk Enb Hnb). rewrite Eoff in *. set (u1 := mk_update false 0 (old_channel_time s1)) in He2.
  assert (Hnc : complete (updated r u1) = false) by (unfold complete, updated; simpl; rewrite Es0, Ee0, Esz; done).
  rewrite Hnc in He2. destruct He2 as [El2 EL2].
  wp_step. eapply wp_mono; [by apply (CELL_RECORD_write s2 reg r2)|]. intros t2 s3 (Hq3 & Hst3).
  pose proof Hq3 as (_ & El3 & EL3 & Ed3).
  eapply wp_mono; [apply (REG_ACCESS_write s3 reg _ (st_ok _ _ _ _ _ Hst3) (reg_step_get _ _ _ _ _ _ Hr2 Hst3)); [done|simpl; lia]|].
  intros t3 s4 ((_ & t & Ht & He4) & r4 & Hst4 & [[F1 _] F2 F3]). rewrite Ht in He4 by congruence. simpl in He4, F3. rewrite Ea2 in He4.
  cbn [fst snd] in He4.
  assert (Hk3 : io_requests (ssd s3) !! k = Some (updated r u1)).
  { rewrite El3, El2. apply list_lookup_insert_eq. by eapply lookup_lt_Some. }
  specialize (He4 k (updated r u1) Hk3 Enb Hnb). set (u2 := mk_update true 0 0) in He4.
  assert (Hcmp : complete (updated (updated r u1) u2) = true) by (unfold complete, updated; simpl; rewrite Es0, Ee0, Esz; done).
  rewrite Hcmp in He4. destruct He4 as [El4 EL4]. rewrite (io_params sc s3 (st_ok _ _ _ _ _ Hst3)) in EL4.
  split; [apply Hst4|]. split; [by rewrite El4, El3, El2, delete_insert_same|]. split.
  - rewrite EL4. unfold u1, u2. rewrite (one_page_latency r _ Hrq Ety Esz). rewrite (proj1 (proj2 (updated_same r _))), Ety.
    apply latencies_add. by rewrite EL3.
  - exists r4. split; [eapply reg_step_get; [|exact Hst4]; by eapply reg_step_get|]. rewrite Ec2 in F3. by destruct F3.
Qed.

(** ** Every sequence of operations *)

Inductive io_event : Type :=
| EvAlloc (sector length type : Z)
| EvChEnable (channel : Z)
| EvChRecord (channel cmd ret : Z) (info : nand_io_info)
| EvRegRecord (reg cmd channel : Z) (info : option nand_io_info)
| EvCellRecord (reg cmd : Z)
| EvRegAccess (reg : Z)
| EvFlashAccess (flash reg : Z)
| EvChAccess (channel : Z).

Definition run_event (e : io_event) : IM unit :=
  match e with
  | EvAlloc sector length type => _ ← on_dev (ALLOC_IO_REQUEST sector length type); mret tt
  | EvChEnable channel => _ ← SSD_CH_ENABLE channel; mret tt
  | EvChRecord channel cmd ret info => _ ← SSD_CH_RECORD channel cmd ret (Some info); mret tt
  | EvRegRecord reg cmd channel info => _ ← SSD_REG_RECORD reg cmd channel info; mret tt
  | EvCellRecord reg cmd => _ ← SSD_CELL_RECORD reg cmd; mret tt
  | EvRegAccess reg => SSD_REMAIN_IO_DELAY reg
  | EvFlashAccess flash reg => _ ← SSD_FLASH_ACCESS flash reg; mret tt
  | EvChAccess channel => _ ← SSD_CH_ACCESS channel; mret tt
  end.

(** Numbers are in range; a command is recorded for a page its request has;
    a request is allocated under a number that is not in use. *)
Definition event_ok (e : io_event) (s : iostate) : Prop :=
  match e with
  | EvAlloc sector length type =>
      let seq := ctrs (ssd s) io_request_seq_nb in
      let spp := SECTORS_PER_PAGE sc in
      zlen (io_requests (ssd s)) < 2 ^ 31 - 1 /\ seq ∉ request_nb <$> io_requests (ssd s) /\
      Forall (fun r => u32 (access_nb r).1 <> seq) (registers s) /\
      0 < spp < 2 ^ 32 /\ 0 <= sector /\ 0 < length < 2 ^ 32 /\ pages_spanned spp (sector mod spp) length < 2 ^ 15
  | EvChEnable channel | EvChAccess channel => 0 <= channel < CHANNEL_NB sc
  | EvChRecord channel _ _ _ => 0 <= channel < CHANNEL_NB sc
  | EvRegRecord reg _ channel info => regs_in_range reg /\ 0 <= channel < CHANNEL_NB sc /\ info_ok s info
  | EvCellRecord reg _ | EvRegAccess reg => regs_in_range reg
  | EvFlashAccess flash _ => 0 <= flash < FLASH_NB sc
  end.

Lemma alloc_event_ok s sector length type : io_ok sc s -> event_ok (EvAlloc sector length type) s ->
  wp (on_dev (ALLOC_IO_REQUEST sector length type)) (fun _ s' => io_ok sc s') s.
Proof.
  intros [H1 [Hq Hr] H3 H4] (E1 & E2 & E3 & E4 & E5 & E6 & E7). apply wp_on_dev. rewrite <- H1 in *.
  eapply wp_mono; [by apply alloc_spec|]. intros x d (_ & Hq' & Hp & _ & Hl).
  set (n := pages_spanned _ _ _) in *. assert (Hn : 0 < n).
  { unfold n, pages_spanned. apply Z.div_str_pos. pose proof (Z.mod_pos_bound sector (SECTORS_PER_PAGE (ssdparams (ssd s))) ltac:(lia)). lia. }
  split; [done|split; [done|]|done|]; simpl; rewrite Hl.
  - apply Forall_app. split; [done|]. constructor; [|constructor]. split; simpl; rewrite ?zlen_ztab by lia; lia.
  - apply list.Forall_forall. intros r Hin. rewrite list.Forall_forall in E3, H4.
    destruct (H4 r Hin) as [|Ht]; [by left|]. right. apply Forall_app. split; [done|]. constructor; [|constructor].
    simpl. intros E. by destruct (E3 r Hin).
Qed.

Lemma event_keeps s e : io_ok sc s -> event_ok e s -> wp (run_event e) (fun _ s' => io_ok sc s') s.
Proof.
  intros Hok He. destruct e; simpl in He; simpl run_event; unfold SSD_REMAIN_IO_DELAY; wp_step;
    match goal with |- wp _ ?Q s => apply (wp_mono _ (fun _ s' => io_ok sc s')); [|intros a s' Hs'; by wp_step] end.
  - by apply alloc_event_ok.
  - unfold SSD_CH_ENABLE, get_conf_io. wp_steps. destruct (_ && _); [by wp_step|]. wp_steps.
    destruct (_ =? channel); [by wp_steps|]. unfold SSD_CH_SWITCH_DELAY. wp_steps. destruct (_ || _); [|by wp_steps].
    wp_step. apply wp_usec. intros t k. wp_step. apply wp_usec. intros t' k'. wp_steps. by apply io_ok_clock, io_ok_clock.
  - unfold SSD_CH_RECORD, get_conf_io. wp_steps. apply (wp_deref _ info); [done|]. wp_steps.
    destruct Hok as [H1 H2 H3 H4]. apply (wp_mono _ (fun _ s' => io_ok sc s')); [|intros [] s' Hs'; by wp_step].
    destruct (_ && _ && _); [wp_step; by split|]. destruct (_ && _ && _); [wp_step; by split|].
    wp_step. apply wp_usec. intros t k. wp_step. destruct H2 as [[Q1 Q2] Q3]. by split.
  - destruct He as (? & ? & ?). by apply REG_RECORD_ok.
  - by apply CELL_RECORD_ok.
  - destruct (reg_there s reg Hok He) as [r Hr]. eapply wp_mono; [by apply (REG_ACCESS_returns s reg r)|].
    intros t s' (r' & Hst). apply Hst.
  - by apply FLASH_ACCESS_ok.
  - by apply CH_ACCESS_ok.
Qed.

Lemma IO_INIT_ok s : ssdparams (ssd s) = sc -> io_queue (ssd s) -> 0 <= FLASH_NB sc ->
  wp SSD_IO_INIT (fun _ s' => io_ok sc s') s.
Proof.
  intros H1 H2 H3. unfold SSD_IO_INIT, get_conf_io. wp_steps. split; [done|done|..]; simpl; rewrite H1.
  - rewrite zlen_ztab; [done|]. apply Z.mul_nonneg_nonneg; lia.
  - apply Forall_zget. intros i x Hx. pose proof (zget_Some_range _ _ _ Hx) as Hi.
    rewrite zlen_ztab in Hi by (apply Z.mul_nonneg_nonneg; lia). rewrite zget_ztab in Hx by done. injection Hx as <-. by left.
Qed.

(** The states from the initialisation on. *)
Inductive io_reach : iostate -> Prop :=
| reach_io_init s s' : ssdparams (ssd s) = sc -> io_queue (ssd s) -> 0 <= FLASH_NB sc -> SSD_IO_INIT s = Ok 0 s' -> io_reach s'
| reach_io_step s e s' : io_reach s -> event_ok e s -> run_event e s = Ok tt s' -> io_reach s'.

(** C30: In every state the operations lead to, every register works for a page of
    a request or for none, and every operation returns. *)
Theorem registers_progress s e : io_reach s -> io_ok sc s /\ (event_ok e s -> exists s', run_event e s = Ok tt s' /\ io_ok sc s').
Proof.
  intros Hr. assert (Hok : io_ok sc s).
  { induction Hr as [s s' H1 H2 H3 E|s e' s' _ IH He E].
    - pose proof (IO_INIT_ok s H1 H2 H3) as Hw. unfold wp in Hw. by rewrite E in Hw.
    - pose proof (event_keeps s e' IH He) as Hw. unfold wp in Hw. by rewrite E in Hw. }
  split; [done|]. intros He. pose proof (event_keeps s e Hok He) as ([] & s' & E & Hs')%wp_Ok. eauto.
Qed.
End Ops.

(** ** Witness *)

Definition demo_page : nand_io_info := CREATE_NAND_IO_INFO 0 WRITE 1 0.
Definition demo_request : io_request := fresh_request 0 WRITE 1.
Definition demo_write_io : iostate :=
  demo_io (set_io_requests [demo_request] (ctr_upd io_request_nb 1 demo0)) (ztab 2 (fun _ => empty_register)).

Lemma demo_write_io_ok : io_ok demo_conf demo_write_io.
Proof.
  split.
  - by vm_compute.
  - split; [apply (queue_ok_demo _ 1 [demo_request]); [by vm_compute..|apply NoDup_singleton]|].
    constructor; [|constructor]. split; vm_compute; split || idtac; congruence.
  - by vm_compute.
  - repeat constructor.
Qed.

Lemma page_write_lifecycle_witness :
  wp (SSD_CH_RECORD 1 WRITE 0 (Some demo_page);; SSD_REG_RECORD 1 WRITE 1 (Some demo_page);;
      SSD_CELL_RECORD 1 WRITE;; SSD_REG_ACCESS 1) (fun _ s' =>
    io_requests (ssd s') = [] /\ avg_write_latency (perf s') = d_of_Z (REG_WRITE_DELAY demo_conf + CELL_PROGRAM_DELAY demo_conf))
    demo_write_io.
Proof.
  refine (wp_mono _ _ _ _ (page_write_lifecycle demo_conf eq_refl _ _ demo_write_io 1 1 0 0%nat demo_request demo_page
    demo_write_io_ok _ _ _ eq_refl _ _ _) _).
  - vm_compute. congruence.
  - by vm_compute.
  - vm_compute. split; congruence.
  - vm_compute. split; congruence.
  - split; [by vm_compute|split; [by vm_compute|done]|done..].
  - vm_compute. congruence.
  - vm_compute. congruence.
  - intros n. simpl. lia.
  - intros t s' (_ & -> & E & _). split; [done|]. injection E as _ _ _ ->. by vm_compute.
Defined.

Definition io_initialised (s : iostate) : iostate := match SSD_IO_INIT s with Ok _ s' => s' | _ => s end.
Definition demo_ready : iostate := io_initialised (demo_io demo0 []).

Lemma IO_INIT_returns s : SSD_IO_INIT s = Ok 0 (io_initialised s).
Proof. done. Qed.

Lemma demo_ready_reach : io_reach demo_conf demo_ready.
Proof.
  apply (reach_io_init _ (demo_io demo0 [])).
  - by vm_compute.
  - split; [apply (queue_ok_demo _ 0 []); [by vm_compute..|apply NoDup_nil_2]|].
    change (Forall req_ok (io_requests demo0)). rewrite demo0_requests. constructor.
  - vm_compute. congruence.
  - apply IO_INIT_returns.
Qed.

Lemma registers_progress_witness : exists s', run_event (EvFlashAccess 1 1) demo_ready = Ok tt s' /\ io_ok demo_conf s'.
Proof.
  refine (proj2 (registers_progress demo_conf eq_refl _ _ demo_ready (EvFlashAccess 1 1) demo_ready_reach) _).
  - vm_compute. congruence.
  - by vm_compute.
  - vm_compute. split; congruence.
Defined.
