(* ===== verification/Commands.v ===== *)
(** * Properties of the NVMe front end

    Each theorem is followed by its application to a small controller in front
    of the device of Demo.v. *)

From Stdlib Require Import ZArith Lia List Sorted.
From stdpp Require Import base tactics numbers list functions relations sorting.
From S2P Require Import Prelude Config State Timing Perf Inverse Nvram Mapping Alloc Flash Invariant Gc Store Ftl Ssd Init Device Views Nvme NvmeOc NvmeQueue Host Demo.

Open Scope Z_scope.

(** ** A small controller *)

#[global] Instance demo_guest : Guest := {| dma_memory_map := fun _ k => Some (Z.min k 3000) |}.

#[global] Instance demo_backend : Backend := {|
  blk_pdiscard_ok := fun _ _ => true;
  blk_pread := fun _ _ => None;
  blk_aio_cancel_ok := fun _ => false;
  irq_setup_ok := fun _ _ => true;
  blk_stats := (0, 0, 0, 0);
  running_time := 0;
  rdtscp := fun _ => 0
|}.

Definition demo_params : NvmeParams :=
  mk_NvmeParams 1 10 12 4096 512 64 16 4 0 FEMU_BLACKBOX_MODE 3 (96 * 4096) 3 0 3 7 2 0 (96 * 4096) 323
    (fun o => if o =? 512 then 102 else if o =? 513 then 68 else 0).

Definition demo_ns : NvmeNamespace :=
  mk_NvmeNamespace 1 96 0 [mk_NvmeLBAF 0 12] 0 0 (fun _ => false) (fun _ => false) 0 0 0 96 0 (fun _ => 0) 0 0 None [].

(** A command of opcode [op] for [nlb + 1] blocks from [slba] on, with the data
    at the pages [prp1] and [prp2]. *)
Definition demo_cmd (op slba nlb prp1 prp2 : Z) : memory := fun o =>
  let byte v k := u8 (Z.shiftr v (8 * k)) in
  if o =? 0 then op
  else if (2 <=? o) && (o <? 4) then byte 7 (o - 2)
  else if (4 <=? o) && (o <? 8) then byte 1 (o - 4)
  else if (24 <=? o) && (o <? 32) then byte prp1 (o - 24)
  else if (32 <=? o) && (o <? 40) then byte prp2 (o - 32)
  else if (40 <=? o) && (o <? 48) then byte slba (o - 40)
  else if (48 <=? o) && (o <? 50) then byte nlb (o - 48)
  else 0.

Definition demo_req (i : Z) : NvmeRequest :=
  mk_NvmeRequest i 1 0 0 0 0 false 0 0 0 [] None 0.

(** The submission queue has one command in it, at guest address 0; one request
    waits in the completion queue at 65536. *)
Definition demo_sq : NvmeSQueue :=
  mk_NvmeSQueue 1 1 4 0 1 8 true 0 [] 0 [demo_req 0; demo_req 1] [] 0 0.
Definition demo_cq : NvmeCQueue :=
  mk_NvmeCQueue 1 1 0 0 8 true 65536 [] [demo_req 2] 0 0 [1].

Definition demo_adm : NvmeAdm :=
  mk_NvmeAdm (mk_NvmeBar 0 0 4587521 1 458759 65536 131072) 0 0
    (mk_NvmeFeatureVal 521078534 0 333 0 0 0 [0; 1; 2; 3] 0 0 0) false [] [None; None; None; None] 0 0 (Some 0) false.

Definition demo_ctrl (s : ssdstate) : NvmeCtrl :=
  mk_NvmeCtrl demo_params [demo_ns] (ztab 4 (fun _ => mk_NvmeErrorLog 0 0 0 0 0 0 0)) 0 0 0
    [None; Some demo_sq] [None; Some demo_cq] (fun a => a / 4096) (demo_cmd NVME_CMD_WRITE 40 1 8192 12288) (fun _ => 0) s demo_adm
    (oc_blank oc_default_params 0 1 1 0 0) ocg_init.

Lemma demo_host s : host_conf demo_conf demo_ns (demo_ctrl s).
Proof.
  constructor.
  - by constructor.
  - done.
  - done.
  - by exists (mk_NvmeLBAF 0 12).
  - vm_compute. reflexivity.
  - vm_compute. congruence.
  - done.
  - by exists (mk_NvmeErrorLog 0 0 0 0 0 0 0).
  - done.
Qed.

Lemma demo_maps : maps_all.
Proof. intros a k Hk. exists (Z.min k 3000). cbn. split; [done|lia]. Qed.

Definition demo_write_cmd : memory := demo_cmd NVME_CMD_WRITE 40 1 8192 12288.
Definition demo_read_cmd : memory := demo_cmd NVME_CMD_READ 40 1 16384 20480.

Lemma demo_accepted cmd n :
  params n = demo_params -> rw_slba cmd = 40 -> blocks cmd = 2 -> rw_control cmd = 0 -> accepted demo_ns cmd n.
Proof. intros Hp E1 E2 E3. constructor; rewrite ?Hp, ?E1, ?E2, ?E3; [done|done|right; done|done]. Qed.

Lemma demo_admissible St : admissible demo_conf (Write (write_request demo_conf demo_write_cmd (demo_ctrl demo1))) St demo1.
Proof. apply (write_admissible _ _ _ _ 2); vm_compute; reflexivity. Qed.

(** ** Reads and writes *)



(** C14: Data written to blocks of the namespace is read back: a read of the
    same blocks after the write puts the bytes the write took from the guest at
    the addresses of the read, in order. *)
Theorem written_data_read_back `{Clock} `{Guest} `{Backend} sc ns cmd cmd' req req' l l' D St n :
  device_inv sc (ssd n) -> holds sc D St (ssd n) -> host_conf sc ns n -> accepted ns cmd n ->
  cmd_op cmd = NVME_CMD_WRITE -> maps_all -> admissible sc (Write (write_request sc cmd n)) St (ssd n) ->
  data_list cmd n = Some l ->
  accepted ns cmd' n -> cmd_op cmd' = NVME_CMD_READ -> rw_slba cmd' = rw_slba cmd -> blocks cmd' = blocks cmd ->
  (forall i, rw_slba cmd <= i < rw_slba cmd + blocks cmd -> uncorrectable ns i = false) ->
  data_list cmd' n = Some l' -> sg_distinct l' ->
  wp (_ ← nvme_rw ns cmd req; nvme_rw ns cmd' req') (fun r n' => r.1 = NVME_SUCCESS /\
    forall i, 0 <= i < blocks cmd * 4096 -> guest n' (sg_addr l' i) = guest n (sg_addr l i)) n.
Proof.
  intros Hd Hh Hc Ha Hop Hmap Hadm El Ha' Hop' Es Eb Hu El' Hdis. pose proof (device_params sc _ Hd) as Hsc.
  destruct (clocked_execute sc _ (fun i => i) D St _ Hd Hh Hadm) as (lat & s2 & Ex & Hd2 & St' & _ & D2 & _ & Hh2).
  apply wp_bind. eapply wp_mono; [by apply (write_copies sc ns cmd req l lat s2)|].
  intros r n1 [[_ _ Hheap Hg (Hp & He & Hi)] Hs2]. rewrite <- Hs2 in *.
  assert (host_conf sc ns n1) as Hc1 by (destruct Hc; constructor; rewrite ?Hp, ?He, ?Hi; done).
  assert (accepted ns cmd' n1) as Ha1 by (destruct Ha'; constructor; rewrite ?Hp; done).
  assert (data_list cmd' n1 = Some l') as El1 by (unfold data_list; by rewrite Hp, Hg).
  pose proof (blocks_range cmd). pose proof (slba_range cmd).
  assert (admissible sc (Read (8 * blocks cmd') (8 * rw_slba cmd')) St' (ssd n1)) as Hr.
  { rewrite Es, Eb. destruct Hc, Ha. split; [lia|]. split; lia. }
  destruct (clocked_execute sc _ (fun i => i) D2 St' _ Hd2 Hh2 Hr) as (lat' & s3 & Ex' & _).
  eapply wp_mono; [apply (read_copies sc ns cmd' req' l' lat' s3); try done; by rewrite Es, Eb|].
  intros r' n' [[Hst _ _ _ Hdata] _]. split; [done|]. intros i Hi'. rewrite Hdata by (done || lia).
  rewrite Hheap, Es. zcases. cbn [andb]. do 2 f_equal. lia.
Qed.

Lemma written_data_read_back_witness :
  wp (_ ← nvme_rw demo_ns demo_write_cmd (demo_req 0); nvme_rw demo_ns demo_read_cmd (demo_req 1)) (fun r n' =>
    r.1 = NVME_SUCCESS /\ forall i, 0 <= i < 8192 -> guest n' (16384 + i) = demo_write_cmd (8192 + i)) (demo_ctrl demo1).
Proof.
  destruct reach1 as (D & St & Hr). destruct (reach_device _ _ _ _ Hr) as [Hd Hh]. eapply wp_mono.
  { apply (written_data_read_back demo_conf demo_ns demo_write_cmd demo_read_cmd (demo_req 0) (demo_req 1)
      [(8192, 4096); (12288, 4096)] [(16384, 4096); (20480, 4096)] D St (demo_ctrl demo1)); try reflexivity.
    - exact Hd.
    - exact Hh.
    - apply demo_host.
    - apply demo_accepted; reflexivity.
    - exact demo_maps.
    - apply demo_admissible.
    - apply demo_accepted; reflexivity.
    - intros i j Hi Hj. cbn in *. zcases. }
  intros r n' [Hs Hd']. split; [done|]. intros i Hi. specialize (Hd' i).
  change (blocks demo_write_cmd * 4096) with 8192 in Hd'. specialize (Hd' Hi). cbn [sg_addr] in Hd'.
  revert Hd'. zcases; intros Hd'.
  - exact Hd'.
  - replace (20480 + (i - 4096)) with (16384 + i) in Hd' by lia. rewrite Hd'. cbn [guest demo_ctrl]. f_equal. lia.
Defined.

(** ** The address list of a command *)

(** C18: [nvme_map_prp] always returns, never reads an entry it has not fetched
    and leaves the controller as it is; it gives the list that reading the
    guest's address lists one after the other gives, or fails when an entry of
    them is null or not on a page boundary.  A list it gives has as many bytes
    as the transfer, and no piece of it crosses a page. *)
Theorem address_list_matches_reference prp1 prp2 len n :
  prp_conf (params n) -> 0 < len -> len + page_size (params n) <= 2 ^ 32 ->
  nvme_map_prp prp1 prp2 len n = Ok (prp_ref (params n) (guest n) prp1 prp2 len) n /\
  forall l, prp_ref (params n) (guest n) prp1 prp2 len = Some l ->
    sg_size l = len /\ Forall (piece_ok (page_size (params n))) l.
Proof. intros Hq Hl Hw. split; [by apply map_prp_eq|]. intros l. by apply prp_ref_covers. Qed.

(** Lists of four entries in a guest memory whose lists start at 4096 and 8192:
    six pages take two lists. *)
Definition demo_lists : memory := fun a =>
  let entry := (a / 8) mod 512 in
  let last := (a <? 8192) && (entry =? 3) in
  if a mod 8 =? 1 then if last then 32 else 0
  else if a mod 8 =? 2 then if last then 0 else if a <? 8192 then entry + 1 else entry + 5
  else 0.

Lemma address_list_matches_reference_witness :
  let q := mk_NvmeParams 1 10 12 4096 4 64 16 4 0 FEMU_BLACKBOX_MODE 3 (96 * 4096) 3 0 3 7 2 0 (96 * 4096) 323 (fun _ => 0) in
  let n := mk_NvmeCtrl q [] [] 0 0 0 [] [] (fun _ => 0) demo_lists (fun _ => 0) ssd_zero demo_adm
    (oc_blank oc_default_params 0 1 1 0 0) ocg_init in
  nvme_map_prp 1024 4096 24576 n =
    Ok (Some [(1024, 3072); (65536, 4096); (131072, 4096); (196608, 4096); (327680, 4096); (393216, 4096); (458752, 1024)]) n.
Proof.
  intros q n. destruct (address_list_matches_reference 1024 4096 24576 n) as [E _].
  - by constructor.
  - reflexivity.
  - vm_compute. congruence.
  - rewrite E. reflexivity.
Defined.

(** ** Completion *)

(** C17: The timer of a completion queue completes a prefix of the waiting
    requests: each of them at a moment when its time had come, as many entries
    as requests are added to the ring, and the requests are free again.  When
    requests are left and the list is in the order of their times, the ring is
    full, or none of them was due at the last reading of the clock and the
    timer is set to the time of the first. *)
Theorem completions_in_time `{Clock} `{Guest} `{Backend} q cq n :
  ring_ok q cq n ->
  wp (nvme_post_cqes_io q) (fun _ n' => exists posted rest cq',
    zget (cqs n') q = Some (Some cq') /\ c_req_list cq = posted ++ rest /\ c_req_list cq' = rest /\
    c_tail cq' = (c_tail cq + zlen posted) mod c_size cq /\
    (forall k sq, zget (sqs n) k = Some (Some sq) -> zget (sqs n') k =
       Some (Some (sq_with_reqs (s_req_list sq ++ of_sq k posted) (out_req_list sq) sq))) /\
    (forall r, r ∈ posted -> exists t, read_between n n' t /\ expire_time r <= t) /\
    (StronglySorted later (c_req_list cq) -> forall r, hd_error rest = Some r -> ring_full cq' \/
       (expire_time r <> 0 -> c_timer cq' = expire_time r) /\
       exists t, read_between n n' t /\ forall r', r' ∈ rest -> t < expire_time r')) n.
Proof.
  intros Hr. unfold nvme_post_cqes_io. apply wp_bind. eapply wp_of_eq; [apply get_cq_Ok, Hr|].
  apply wp_bind. eapply wp_mono; [by apply (post_loop_spec q _ cq)|].
  intros ntt n1 (posted & rest & cq1 & [Hr1 Hsp Hre Hcq Htl Hck Hfr Hdue Hstop]). apply wp_bind.
  apply (wp_mono _ (fun t n2 => (ntt <> 0 -> t = ntt) /\ sqs n2 = sqs n1 /\ cqs n2 = cqs n1 /\
    (clock_reads (ssd n1) <= clock_reads (ssd n2))%nat)).
  { destruct (Z.eqb_spec ntt 0); [|by apply wp_ret]. apply wp_bind. eapply wp_of_eq; [by apply on_ssd_Ok|].
    apply wp_ret. split_and!; [done..|]. cbn. lia. }
  intros t n2 (Ht & F1 & F2 & Hck2). apply wp_bind. eapply wp_of_eq; [apply get_cq_Ok; rewrite F2; apply Hr1|].
  apply wp_modify. exists posted, rest, (cq_with_timer t cq1). cbn [sqs cqs set_cqs c_req_list c_tail c_timer cq_with_timer].
  assert (forall u, read_between n n1 u -> read_between n (set_cqs (zset q (Some (cq_with_timer t cq1)) (cqs n2)) n2) u) as Hmon.
  { intros u (i & Hi & ->). exists i. split; [cbn; lia|done]. }
  split_and!; try done.
  - rewrite F2. apply zget_zset_eq. eapply zget_Some_range, Hr1.
  - intros k sq E. rewrite F1. by apply Hfr.
  - intros r Hin. destruct (Hdue r Hin) as (u & Hu & ?). eauto.
  - intros Hsort r Hhd. destruct rest as [|r0 rest]; [done|]. injection Hhd as ->.
    destruct Hstop as [[_ Hfull]|[-> (u & Hu & Hlt)]]; [by left|]. right. split; [done|].
    exists u. split; [by apply Hmon|]. rewrite Hsp in Hsort. apply StronglySorted_app_1_r in Hsort.
    inversion Hsort as [|? ? _ Hall]; subst. intros r' [->|Hin]%elem_of_cons; [done|].
    rewrite list.Forall_forall in Hall. specialize (Hall r' Hin). unfold later in Hall. lia.
Qed.

Lemma demo_ring s : ring_ok 1 demo_cq (demo_ctrl s).
Proof. constructor; try done. constructor; [by exists demo_sq|constructor]. Qed.

Lemma completions_in_time_witness :
  wp (nvme_post_cqes_io 1) (fun _ n' => exists posted rest cq',
    zget (cqs n') 1 = Some (Some cq') /\ [demo_req 2] = posted ++ rest /\ c_req_list cq' = rest /\
    c_tail cq' = zlen posted mod 8 /\ (forall r, r ∈ posted -> exists t, read_between (demo_ctrl demo0) n' t /\ 0 <= t))
    (demo_ctrl demo0).
Proof.
  eapply wp_mono; [apply (completions_in_time 1 demo_cq), demo_ring|].
  intros ? n' (posted & rest & cq' & E1 & E2 & E3 & E4 & _ & Hdue & _). exists posted, rest, cq'. split_and!; try done.
  intros r Hr. destruct (Hdue r Hr) as (t & Ht & He). exists t. split; [done|].
  assert (r ∈ [demo_req 2]) as Hin by (change [demo_req 2] with (c_req_list demo_cq); rewrite E2; set_solver).
  apply list_elem_of_singleton in Hin as ->. exact He.
Defined.

(** The little-endian words of a completion entry. *)
Lemma word_bytes v : 0 <= v < 2 ^ 16 ->
  u8 (u8 (Z.shiftr v 0)) + 256 * (u8 (u8 (Z.shiftr v 8)) + 256 * 0) = v.
Proof.
  intros Hv. unfold u8. rewrite !Z.mod_mod by lia. rewrite Z.shiftr_0_r, Z.shiftr_div_pow2 by lia.
  rewrite (Z.mod_small (v / 2 ^ 8)); [pose proof (Z.div_mod v 256); change (2 ^ 8) with 256; lia|].
  split; [apply Z.div_pos; lia|apply Z.div_lt_upper_bound; lia].
Qed.

Lemma le_word g addr b o : 0 <= o <= 14 ->
  le (blit g addr b 0 16) (addr + o) 2 = u8 (b o) + 256 * (u8 (b (o + 1)) + 256 * 0).
Proof.
  intros Ho. cbn [le]. unfold blit. zcases. cbn [andb].
  replace (addr + o - addr + 0) with o by lia. by replace (addr + o + 1 - addr + 0) with (o + 1) by lia.
Qed.

Lemma status_phase st p : 0 <= st -> 0 <= p <= 1 -> Z.lor (Z.shiftl st 1) p = 2 * st + p.
Proof.
  intros Hst Hp. rewrite Z.shiftl_mul_pow2 by lia. assert (p = 0 \/ p = 1) as [->| ->] by lia.
  - rewrite Z.lor_0_r. lia.
  - assert (Z.land (st * 2 ^ 1) 1 = 0) as E.
    { change 1 with (Z.ones 1) at 2. rewrite Z.land_ones by lia. apply Z.mod_mul. lia. }
    rewrite <- Z.lxor_lor, <- Z.add_nocarry_lxor by done. lia.
Qed.

(** C22: The entry of a completion holds the head of the submission queue, the
    queue's identifier, the identifier of the command and its status with the
    phase bit; no other byte of guest memory changes.  The tail of the ring
    goes on by one, the phase bit changes exactly when the tail returns to 0,
    and the request is free. *)
Theorem completion_entry_posted `{Clock} `{Guest} `{Backend} q cq sq req n :
  ring_ok q cq n -> zget (sqs n) (r_sqid req) = Some (Some sq) ->
  0 <= s_head sq < 2 ^ 16 -> 0 <= sqid sq < 2 ^ 16 -> 0 <= r_cid req < 2 ^ 16 ->
  0 <= status req < 2 ^ 15 -> 0 <= phase cq <= 1 ->
  wp (nvme_post_cqe q req) (fun _ n' => exists addr cq',
    addr = u64 (c_dma_addr cq + u32 (c_tail cq * cqe_size (params n))) /\
    le (guest n') (addr + 8) 2 = s_head sq /\ le (guest n') (addr + 10) 2 = sqid sq /\
    le (guest n') (addr + 12) 2 = r_cid req /\ le (guest n') (addr + 14) 2 = 2 * status req + phase cq /\
    (forall a, a < addr \/ addr + 16 <= a -> guest n' a = guest n a) /\
    zget (cqs n') q = Some (Some cq') /\ c_tail cq' = (c_tail cq + 1) mod c_size cq /\
    phase cq' = (if c_tail cq' =? 0 then 1 - phase cq else phase cq) /\
    zget (sqs n') (r_sqid req) = Some (Some (sq_with_reqs (s_req_list sq ++ [req]) (out_req_list sq) sq))) n.
Proof.
  intros Hr Esq Hh Hi Hc Hs Hp. pose proof (zget_Some_range _ _ _ (rg_cq _ _ _ Hr)) as Hq.
  eapply wp_of_eq; [by apply (post_cqe_Ok q req cq sq); destruct Hr|].
  set (addr := u64 _). exists addr, (nvme_inc_cq_tail cq). split; [done|]. cbn [guest posted_at set_sqs set_cqs set_guest].
  rewrite !le_word by lia. unfold cqe_bytes. rewrite status_phase by lia.
  assert (forall x, 0 <= x < 2 ^ 16 -> u16 x = x) as Hu by (intros; by apply Z.mod_small). rewrite !Hu by lia.
  split_and!; try (cbn; by apply word_bytes; lia).
  - intros a Ha. unfold blit. zcases; done.
  - cbn. by apply zget_zset_eq.
  - apply inc_tail_mod; apply Hr.
  - destruct Hr. unfold nvme_inc_cq_tail. rewrite u32_small by lia. destruct (Z.leb_spec (c_size cq) (c_tail cq + 1));
      cbn [phase c_tail cq_with_tail]; zcases; lia.
  - cbn. apply zget_zset_eq. by eapply zget_Some_range.
Qed.

Lemma completion_entry_posted_witness :
  wp (nvme_post_cqe 1 (demo_req 2)) (fun _ n' => exists addr cq', addr = 65536 /\
    le (guest n') (addr + 14) 2 = 1 /\ zget (cqs n') 1 = Some (Some cq') /\ c_tail cq' = 1) (demo_ctrl demo0).
Proof.
  eapply wp_mono; [apply (completion_entry_posted 1 demo_cq demo_sq (demo_req 2)); [apply demo_ring|reflexivity|cbn; lia..]|].
  intros ? n' (addr & cq' & Ea & _ & _ & _ & E1 & _ & E2 & E3 & _). exists addr, cq'. split_and!; [exact Ea|exact E1|exact E2|exact E3].
Defined.

(** ** Remapping *)

(** C15: The remap command changes the mapping and the storage together: the
    FTL copies or moves the pages in its store, the bytes of the source are
    copied to the destination, and afterwards as before pages that share a
    flash page hold the same bytes. *)
Theorem remap_command_keeps_sharing `{Clock} `{Guest} `{Backend} sc D St cmd n :
  device_inv sc (ssd n) -> holds sc D St (ssd n) -> admissible sc (remap_command cmd) St (ssd n) ->
  remap_fits sc cmd n ->
  remap_ope cmd = REMAP_CKPT \/ remap_ope cmd = REMAP_COPY \/ remap_ope cmd = REMAP_MOVE ->
  sharing_sound sc St (heap_storage n) ->
  wp (nvme_remap cmd) (fun r n' => r = NVME_SUCCESS /\ device_inv sc (ssd n') /\ guest n' = guest n /\
    (forall a, heap_storage n' a =
       if (remap_dst_lpn cmd * 4096 <=? a) && (a <? remap_dst_lpn cmd * 4096 + remap_len cmd * 4096)
       then heap_storage n (a - remap_dst_lpn cmd * 4096 + remap_src_lpn cmd * 4096) else heap_storage n a) /\
    exists St', effect sc (fun i => i) (remap_command cmd) St St' /\ sim sc (D, ssd n) St' (ssd n') /\
      sharing_sound sc St' (heap_storage n')) n.
Proof.
  intros Hd Hh Ha Hf Hope Hsh. eapply wp_mono; [by apply (remap_command_spec sc D St)|].
  intros r n' (-> & Hd' & Hsim & Hg & Hheap). rewrite Hheap. split_and!; [done..|]. eexists. split; [reflexivity|].
  split; [exact Hsim|]. destruct Ha as (? & ? & ? & ? & ? & _). destruct Hf. by apply remap_sharing.
Qed.

Definition demo_remap_cmd : memory := fun o =>
  if o =? 8 then 2 else if o =? 16 then 40 else if o =? 24 then 5 else if o =? 28 then REMAP_MOVE else 0.

Lemma remap_command_keeps_sharing_witness : exists D St,
  wp (nvme_remap demo_remap_cmd) (fun r n' => r = NVME_SUCCESS /\ device_inv demo_conf (ssd n') /\
    exists St', St' = remap_effect REMAP_MOVE 5 2 40 St /\ sim demo_conf (D, demo1) St' (ssd n') /\
      sharing_sound demo_conf St' (heap_storage n')) (set_heap_storage (fun a => a mod 4096) (demo_ctrl demo1)).
Proof.
  destruct reach1 as (D & St & Hr). destruct (reach_device _ _ _ _ Hr) as [Hd Hh]. exists D, St.
  assert (forall x, 2 <= x < 7 -> St x <> None) as Hsrc.
  { assert (pages demo_conf = 96) as E96 by (vm_compute; reflexivity).
    intros x Hx. rewrite (Hh x) by (rewrite E96; lia).
    assert (x = 2 \/ x = 3 \/ x = 4 \/ x = 5 \/ x = 6) as Hc by lia.
    destruct Hc as [->|[->|[->|[->| ->]]]]; vm_compute; congruence. }
  eapply wp_mono.
  { apply (remap_command_keeps_sharing demo_conf D St demo_remap_cmd); [exact Hd|exact Hh| | | |].
    - split; [vm_compute; congruence|]. split; [vm_compute; congruence|]. split; [vm_compute; congruence|].
      split; [vm_compute; congruence|]. split; [vm_compute; congruence|]. split; [|apply room_dec_ok; vm_compute; reflexivity].
      change (copies_ok true 5 2 40 St). cbn. unfold put. cbn. split_and!; try done; by apply Hsrc.
    - constructor; [reflexivity|vm_compute; reflexivity|left; vm_compute; congruence|vm_compute; congruence].
    - right. right. reflexivity.
    - intros l l' v _ _ _ _ o Ho. cbn. rewrite !(Z.add_comm _ o), !Z.mod_add by lia. done. }
  intros r n' (-> & Hd' & _ & _ & St' & He & Hsim & Hsh). split; [done|]. split; [done|]. exists St'. done.
Defined.
