(* ===== verification/Controller.v ===== *)
(** * Properties of the controller

    The queues, the events and the registers, on the controller of Commands.v
    as the guest starts it. *)

From Stdlib Require Import ZArith Lia List String.
From stdpp Require Import base tactics numbers list functions relations.
From S2P Require Import Prelude Config State Timing Flash Store Ssd Init Device Nvme NvmeOc NvmeQueue NvmeInfo NvmeAdmin NvmeLife NvmeSetup Host Demo Commands.

Open Scope Z_scope.

(** ** A controller the guest starts *)

(** The default properties, with three I/O queues, in black-box mode. *)
Definition boot_props : nvme_props :=
  mk_nvme_props true (Some "femu0"%string) 1 3 2047 4 6 0 3 3 3 10 1 0 0 0 0 0 0 5 3 0 12 11 2 24 NVME_OACS_FORMAT
    NVME_ONCS_DSM 7453 FEMU_BLACKBOX_MODE.

Definition boot_blank (d : nvme_props) : NvmeCtrl :=
  ctrl_blank d (oc_blank oc_default_params 0 1 1 0 0) ocg_init (fun _ => 0).

(** The set-up, on a block device with room for 96 blocks and their metadata. *)
Definition boot_of (d : nvme_props) : NvmeCtrl :=
  match nvme_init d 6900 (96 * 4120) (Some demo_words) true None (boot_blank d) with
  | Ok _ n => n
  | _ => boot_blank d
  end.
Definition boot_ctrl : NvmeCtrl := boot_of boot_props.

(** A command that creates a queue. *)
Definition queue_cmd (op prp1 qid qsize flags link : Z) : memory := fun o =>
  if o =? 0 then op
  else if (24 <=? o) && (o <? 32) then le_byte prp1 (o - 24)
  else if (40 <=? o) && (o <? 42) then le_byte qid (o - 40)
  else if (42 <=? o) && (o <? 44) then le_byte qsize (o - 42)
  else if (44 <=? o) && (o <? 46) then le_byte flags (o - 44)
  else if (46 <=? o) && (o <? 48) then le_byte link (o - 46)
  else 0.

(** The admin queue at 65536 holds the commands that create completion queue 1
    at 196608 and submission queue 1 at 262144, which holds a write. *)
Definition boot_memory : memory :=
  blit (blit (blit (fun _ => 0) 65536 (queue_cmd NVME_ADM_CMD_CREATE_CQ 196608 1 7 1 0) 0 64)
    65600 (queue_cmd NVME_ADM_CMD_CREATE_SQ 262144 1 7 1 1) 0 64)
    262144 (demo_cmd NVME_CMD_WRITE 40 1 8192 12288) 0 64.

(** The registers of the admin queues and the enable bit. *)
Definition boot_events : list event :=
  [Mmio 36 458759; Mmio 40 65536; Mmio 48 131072; Mmio 20 4587521].

(** The guest has the queues created, submits the write and waits for it. *)
Definition demo_events : list event :=
  boot_events ++
  [Store boot_memory; Mmio 4096 2; Admin; Complete_admin; Mmio 4100 2;
   Mmio 4104 1; Submit 1; Complete 1; Complete 1].

Definition run (l : list event) : NvmeCtrl :=
  match handle_all l boot_ctrl with Ok _ n => n | _ => boot_ctrl end.
Definition demo_run : NvmeCtrl := run demo_events.

Lemma boot_typed : props_typed boot_props.
Proof. constructor; repeat constructor; vm_compute; congruence. Qed.

Lemma boot_set_up d :
  props_typed d -> nvme_check_constraints d = 0 -> p_femu_mode d = FEMU_BLACKBOX_MODE -> set_up d (96 * 4120) (boot_of d).
Proof.
  intros Ht Hc Hm.
  destruct (proj1 (wp_Ok _ _ _) (nvme_init_spec d 6900 (96 * 4120) demo_words demo_conf 2 None
    (oc_blank oc_default_params 0 1 1 0 0) ocg_init (fun _ => 0) Ht Hc ltac:(lia) Hm demo_file ltac:(done)))
    as (r & n & E & _ & Hn & _).
  unfold boot_of, boot_blank. by rewrite E.
Qed.

Lemma boot_no_queues : no_queues boot_ctrl.
Proof. by apply (su_queues boot_props (96 * 4120)), boot_set_up; [apply boot_typed|..]. Qed.

Lemma run_ok l : forallb always_enabled l = true -> ctrl_ok (run l).
Proof.
  intros Hl. unfold run. destruct (handle_all l boot_ctrl) as [[] n| |] eqn:E;
    [|apply no_queues_ok, boot_no_queues..].
  eapply (ctrl_steps_ok boot_ctrl); [|apply no_queues_ok, boot_no_queues].
  by apply (handle_all_steps l).
Qed.

(** C16: Whatever the timers, the admin commands, the block layer and the guest
    do, in any order, the controller stays well formed: every submission queue
    has exactly the requests of its array, each of them free, being worked on
    or waiting for its completion, and is known to its completion queue; what
    waits in a completion queue belongs to a submission queue of it; the
    requests that wait for an event are different ones of the admin queue. *)
Theorem controller_invariant `{Clock} `{Guest} `{Backend} n n' :
  ctrl_ok n -> rtc ctrl_step n n' -> ctrl_ok n'.
Proof.
  intros Hn Hsteps. by eapply ctrl_steps_ok.
Qed.

Lemma demo_run_ok : match handle_all demo_events boot_ctrl with
  | Ok _ n => bool_decide (sq_id n 1 = Some (1, 8) /\ held n 1 = [1; 2; 3; 4; 5; 6; 7; 0])
  | _ => false
  end = true.
Proof. vm_compute. reflexivity. Qed.

Lemma controller_invariant_witness :
  rtc ctrl_step boot_ctrl demo_run /\ ctrl_ok demo_run /\
  sq_id demo_run 1 = Some (1, 8) /\ held demo_run 1 = [1; 2; 3; 4; 5; 6; 7; 0].
Proof.
  pose proof demo_run_ok as Hr. unfold demo_run, run.
  destruct (handle_all demo_events boot_ctrl) as [[] n| |] eqn:E; [|discriminate..].
  apply bool_decide_eq_true in Hr.
  assert (rtc ctrl_step boot_ctrl n) as Hs by (by apply (handle_all_steps demo_events)).
  split; [exact Hs|]. split; [|exact Hr].
  exact (controller_invariant boot_ctrl n (no_queues_ok _ boot_no_queues) Hs).
Defined.

(** ** Creation of queues *)

(** Where a submission queue may be created. *)
Record creatable (cmd : memory) (n : NvmeCtrl) : Prop := mk_creatable {
  cr_cq : cmd_link cmd <> 0 /\ exists cq, zget (cqs n) (cmd_link cmd) = Some (Some cq);
  cr_sq : cmd_qid cmd <> 0 /\ zget (sqs n) (cmd_qid cmd) = Some None;
  cr_size : 0 < cmd_qsize cmd <= NVME_CAP_MQES (cap (params n));
  cr_addr : prp_bad (page_size (params n)) (cmd_prp1 cmd) = false
}.

(** The new queue is empty, all its requests are free, and its completion queue
    knows it; nothing else has changed but the clock. *)
Definition created (cmd : memory) (n n' : NvmeCtrl) : Prop :=
  exists sq cq, zget (cqs n) (cmd_link cmd) = Some (Some cq) /\
    sqid sq = cmd_qid cmd /\ s_cqid sq = cmd_link cmd /\ s_head sq = 0 /\ s_tail sq = 0 /\
    s_size sq = cmd_qsize cmd + 1 /\ s_dma_addr sq = cmd_prp1 cmd /\ out_req_list sq = [] /\
    r_id <$> s_req_list sq = seqZ 0 (cmd_qsize cmd + 1) /\
    sqs n' = zset (cmd_qid cmd) (Some sq) (sqs n) /\
    cqs n' = zset (cmd_link cmd) (Some (cq_with_sqs (c_sq_list cq ++ [cmd_qid cmd]) cq)) (cqs n) /\
    params n' = params n /\ adm n' = adm n /\ guest n' = guest n /\ heap_storage n' = heap_storage n.

Section Creation.
Context `{Clock} `{Guest} `{Backend}.

Lemma check_sqid_Ok q n : queues_ok n -> 0 <= q < 2 ^ 16 ->
  nvme_check_sqid q n = Ok (match zget (sqs n) q with Some (Some _) => true | _ => false end) n.
Proof.
  intros Hn Hq. pose proof (qo_len _ Hn) as (Hl & _ & _). unfold nvme_check_sqid.
  assert (u16 q = q) as -> by (by apply Z.mod_small). unfold mbind, M_bind, gets.
  destruct (Z.leb_spec q (num_io_queues (params n))).
  - unfold idx. destruct (zget_is_Some (sqs n) q) as [o ->]; [lia|]. by destruct o.
  - destruct (zget (sqs n) q) as [o|] eqn:E; [|done]. apply zget_Some_range in E. lia.
Qed.

Lemma check_cqid_Ok q n : queues_ok n -> 0 <= q < 2 ^ 16 ->
  nvme_check_cqid q n = Ok (match zget (cqs n) q with Some (Some _) => true | _ => false end) n.
Proof.
  intros Hn Hq. pose proof (qo_len _ Hn) as (_ & Hl & _). unfold nvme_check_cqid.
  assert (u16 q = q) as -> by (by apply Z.mod_small). unfold mbind, M_bind, gets.
  destruct (Z.leb_spec q (num_io_queues (params n))).
  - unfold idx. destruct (zget_is_Some (cqs n) q) as [o ->]; [lia|]. by destruct o.
  - destruct (zget (cqs n) q) as [o|] eqn:E; [|done]. apply zget_Some_range in E. lia.
Qed.

(** A contiguous queue is set up. *)
Lemma init_sq_Ok a q c z prio cq n :
  zget (cqs n) c = Some (Some cq) -> is_Some (zget (sqs n) q) ->
  wp (nvme_init_sq a q c z prio true) (fun r n' => r = Some tt /\ exists sq,
    sqid sq = q /\ s_cqid sq = c /\ s_head sq = 0 /\ s_tail sq = 0 /\ s_size sq = z /\ s_dma_addr sq = a /\
    out_req_list sq = [] /\ r_id <$> s_req_list sq = seqZ 0 z /\ sqs n' = zset q (Some sq) (sqs n) /\
    cqs n' = zset c (Some (cq_with_sqs (c_sq_list cq ++ [q]) cq)) (cqs n) /\
    params n' = params n /\ adm n' = adm n /\ guest n' = guest n /\ heap_storage n' = heap_storage n) n.
Proof.
  intros Ec [o Eo]. unfold nvme_init_sq. apply wp_bind, wp_gets. apply wp_bind, wp_gets. apply wp_bind, wp_ret.
  apply wp_bind. apply (wp_mono _ (fun _ n' => n' = n)).
  { destruct (_ && _); [apply wp_bind, wp_gets, wp_ret; done|by apply wp_ret]. }
  intros db n1 ->. apply wp_bind, wp_gets. apply wp_bind. eapply wp_idx; [exact Ec|]. apply wp_bind, wp_ret.
  apply wp_bind, wp_modify. set (n2 := set_cqs _ n). apply wp_bind.
  apply (wp_mono _ (fun _ n' => sqs n' = sqs n /\ cqs n' = cqs n2 /\ params n' = params n /\ adm n' = adm n /\
    guest n' = guest n /\ heap_storage n' = heap_storage n)).
  { destruct (q =? 0); [by apply wp_ret|]. apply wp_bind. eapply wp_of_eq; [by apply on_ssd_Ok|]. by apply wp_ret. }
  intros t n3 (F1 & F2 & F3 & F4 & F5 & F6). apply wp_bind. unfold store_sq. apply wp_bind, wp_gets. apply wp_bind.
  eapply wp_idx; [rewrite F1; exact Eo|]. apply wp_modify, wp_ret. split; [done|].
  match goal with |- context [set_sqs (zset q (Some ?x) _)] => exists x end.
  split_and!; try reflexivity; [apply new_req_ids|cbn; by rewrite F1|exact F2|exact F3|exact F4|exact F5|exact F6].
Qed.

Lemma init_sq_crash a q c z prio cq n :
  zget (cqs n) c = Some (Some cq) -> zget (sqs n) q = None -> nvme_init_sq a q c z prio true n = Crash OutOfBounds.
Proof.
  intros Ec Es. unfold nvme_init_sq, put_cq, store_sq, doorbell, mbind, M_bind, gets, mret, M_ret, modify, idx.
  destruct (negb (q =? 0) && _ && _), (q =? 0); cbn; rewrite Ec; cbn; by rewrite Es.
Qed.
End Creation.

(** C21: A command for a contiguous submission queue whose number lies within
    the array succeeds exactly when its completion queue exists, the number is
    free, the size within the capability and the address a page; then the queue
    is there, empty, with all its requests free, and its completion queue knows
    it.  Otherwise nothing changes. *)
Theorem create_sq_outcome `{Clock} `{Guest} `{Backend} cmd n :
  queues_ok n -> has (cmd_qflags cmd) 1 = true -> cmd_qid cmd <= num_io_queues (params n) ->
  NVME_CAP_MQES (cap (params n)) < 65535 ->
  wp (nvme_create_sq cmd) (fun st n' => (st = NVME_SUCCESS <-> creatable cmd n) /\
    (creatable cmd n -> created cmd n n') /\ (~ creatable cmd n -> n' = n)) n.
Proof.
  intros Hn Hflag Hle Hmq. pose proof (le_range cmd 40 2 : 0 <= cmd_qid cmd < 2 ^ 16) as Hq.
  pose proof (le_range cmd 46 2 : 0 <= cmd_link cmd < 2 ^ 16) as Hc.
  pose proof (le_range cmd 42 2 : 0 <= cmd_qsize cmd < 2 ^ 16) as Hz.
  pose proof (qo_len _ Hn) as (Hl & _ & _).
  assert (forall st : Z, (~ creatable cmd n) -> st <> 0 -> wp (mret st) (fun st n' => (st = NVME_SUCCESS <-> creatable cmd n) /\
    (creatable cmd n -> created cmd n n') /\ (~ creatable cmd n -> n' = n)) n) as Hfail.
  { intros st Hno Hst. apply wp_ret. split_and!; [split; [done|tauto]|tauto|done]. }
  unfold nvme_create_sq. apply wp_bind, wp_gets. cbv zeta. apply wp_bind. eapply wp_of_eq; [by apply check_cqid_Ok|].
  destruct (Z.eqb_spec (cmd_link cmd) 0) as [E|Hc0]; cbn [orb]; [apply Hfail; [|done]; by intros [[]]|].
  destruct (zget (cqs n) (cmd_link cmd)) as [[cq|]|] eqn:Ecq; cbn [negb];
    [|apply Hfail; [|done]; intros [[_ [? E]]]; congruence..].
  apply wp_bind. eapply wp_of_eq; [by apply check_sqid_Ok|].
  destruct (Z.eqb_spec (cmd_qid cmd) 0) as [E|Hq0]; cbn [orb]; [apply Hfail; [|done]; by intros [_ []]|].
  destruct (zget_is_Some (sqs n) (cmd_qid cmd)) as [o Eo]; [lia|]. rewrite Eo.
  destruct o; [apply Hfail; [|done]; intros [_ [_ E]]; congruence|].
  destruct (Z.eqb_spec (cmd_qsize cmd) 0); cbn [orb]; [apply Hfail; [|done]; intros [_ _ ? _]; lia|].
  destruct (Z.ltb_spec (NVME_CAP_MQES (cap (params n))) (cmd_qsize cmd)); [apply Hfail; [|done]; intros [_ _ ? _]; lia|].
  destruct (prp_bad _ _) eqn:Ep; [apply Hfail; [|done]; intros [_ _ _ ?]; congruence|]. rewrite Hflag. cbn [negb andb].
  assert (creatable cmd n) as Hcr by (constructor; eauto with lia).
  assert (u16 (cmd_qsize cmd + 1) = cmd_qsize cmd + 1) as -> by (apply Z.mod_small; lia).
  apply wp_bind. eapply wp_mono; [by apply (init_sq_Ok _ _ _ _ _ cq)|]. intros r n' [-> (sq & Hsq)]. apply wp_ret.
  split_and!; [done| |done]. intros _. exists sq, cq. done.
Qed.

(** The state of the controller when completion queue 1 has been created. *)
Definition with_cq_events : list event := boot_events ++ [Store boot_memory; Mmio 4096 1; Admin].
Definition with_cq : NvmeCtrl := run with_cq_events.

Lemma with_cq_ok : ctrl_ok with_cq.
Proof. by apply run_ok. Qed.

Definition demo_create_sq (q : Z) : memory := queue_cmd NVME_ADM_CMD_CREATE_SQ 262144 q 7 1 1.

Lemma with_cq_creatable q : q = 1 \/ q = 2 \/ q = 3 -> creatable (demo_create_sq q) with_cq.
Proof.
  intros Hq. assert (exists cq, zget (cqs with_cq) 1 = Some (Some cq)) as [cq Ecq].
  { assert (match zget (cqs with_cq) 1 with Some (Some _) => true | _ => false end = true) as E by (vm_compute; reflexivity).
    destruct (zget (cqs with_cq) 1) as [[cq|]|]; [by exists cq|done..]. }
  destruct Hq as [->|[->| ->]]; (constructor; [split; [done|by exists cq]|split; [done|vm_compute; reflexivity]|split; vm_compute; congruence|vm_compute; reflexivity]).
Qed.

Lemma create_sq_outcome_witness :
  wp (nvme_create_sq (demo_create_sq 2)) (fun st n' => st = NVME_SUCCESS /\ created (demo_create_sq 2) with_cq n') with_cq.
Proof.
  eapply wp_mono.
  { apply (create_sq_outcome (demo_create_sq 2) with_cq); [apply with_cq_ok|reflexivity|vm_compute; discriminate|vm_compute; reflexivity]. }
  intros st n' (Hst & Hcr & _). pose proof (with_cq_creatable 2 ltac:(lia)) as H2. split; [by apply Hst|by apply Hcr].
Defined.

(** The numbers of new queues are not compared with the size of the
    arrays: a command that creates a submission or a completion queue with a
    number beyond it, and is valid otherwise, writes outside the array. *)
Lemma create_queue_out_of_bounds `{Clock} `{Guest} `{Backend} cmd n :
  queues_ok n -> has (cmd_qflags cmd) 1 = true -> num_io_queues (params n) < cmd_qid cmd ->
  0 <= num_io_queues (params n) -> 0 < cmd_qsize cmd <= NVME_CAP_MQES (cap (params n)) ->
  prp_bad (page_size (params n)) (cmd_prp1 cmd) = false ->
  (cmd_link cmd <> 0 -> is_Some (cq_list n (cmd_link cmd)) -> nvme_create_sq cmd n = Crash OutOfBounds) /\
  (cmd_link cmd <= num_io_queues (params n) -> nvme_create_cq cmd n = Crash OutOfBounds).
Proof.
  intros Hn Hflag Hgt H0n Hz Hp. pose proof (le_range cmd 40 2 : 0 <= cmd_qid cmd < 2 ^ 16) as Hq.
  pose proof (le_range cmd 46 2 : 0 <= cmd_link cmd < 2 ^ 16) as Hc.
  pose proof (qo_len _ Hn) as (Hl & Hl' & _).
  assert (zget (sqs n) (cmd_qid cmd) = None) as Es.
  { destruct (zget (sqs n) (cmd_qid cmd)) eqn:E; [|done]. apply zget_Some_range in E. lia. }
  assert (zget (cqs n) (cmd_qid cmd) = None) as Ec.
  { destruct (zget (cqs n) (cmd_qid cmd)) eqn:E; [|done]. apply zget_Some_range in E. lia. }
  assert (cmd_qid cmd =? 0 = false) as Eq0 by (apply Z.eqb_neq; lia).
  assert (cmd_qsize cmd =? 0 = false) as Ez0 by (apply Z.eqb_neq; lia).
  assert (NVME_CAP_MQES (cap (params n)) <? cmd_qsize cmd = false) as Ezl by (apply Z.ltb_ge; lia).
  split.
  - intros Hc0 [[id w] Ecq]. unfold cq_list in Ecq. destruct (zget (cqs n) (cmd_link cmd)) as [[cq|]|] eqn:Ecl; [|done..].
    unfold nvme_create_sq, mbind at 1, M_bind at 1, gets at 1. cbv zeta. unfold mbind at 1, M_bind at 1.
    rewrite check_cqid_Ok by done. rewrite Ecl. assert (cmd_link cmd =? 0 = false) as -> by (by apply Z.eqb_neq).
    cbn [orb negb]. unfold mbind at 1, M_bind at 1. rewrite check_sqid_Ok by done. rewrite Es, Eq0, Ez0, Ezl, Hp, Hflag.
    cbn [orb negb andb]. unfold mbind at 1, M_bind at 1.
    by rewrite (init_sq_crash (cmd_prp1 cmd) (cmd_qid cmd) (cmd_link cmd) (u16 (cmd_qsize cmd + 1)) _ cq n Ecl Es).
  - intros Hv. unfold nvme_create_cq, mbind at 1, M_bind at 1, gets at 1. cbv zeta. unfold mbind at 1, M_bind at 1.
    rewrite check_cqid_Ok by done. rewrite Ec, Eq0, Ez0, Ezl, Hflag. unfold prp_bad in Hp. apply orb_false_iff in Hp as [-> _].
    assert (num_io_queues (params n) <? cmd_link cmd = false) as -> by (apply Z.ltb_ge; lia). cbn [orb negb andb].
    unfold mbind, M_bind, gets, idx. by rewrite Ec.
Qed.

Lemma create_queue_out_of_bounds_witness :
  nvme_create_sq (demo_create_sq 9) with_cq = Crash OutOfBounds /\
  nvme_create_cq (demo_create_sq 9) with_cq = Crash OutOfBounds.
Proof.
  destruct (create_queue_out_of_bounds (demo_create_sq 9) with_cq) as [H1 H2];
    [apply with_cq_ok|reflexivity|vm_compute; reflexivity|vm_compute; discriminate|split; [reflexivity|vm_compute; discriminate]
    |vm_compute; reflexivity|].
  split.
  - apply H1; [done|]. destruct (with_cq_creatable 1 ltac:(lia)) as [[_ [cq E]] _ _ _]. exists (cq_id cq, c_req_list cq).
    by apply cq_list_get.
  - apply H2. vm_compute. discriminate.
Defined.

(** ** Start and shutdown *)

Section Start.
Context `{Clock} `{Guest} `{Backend}.

Lemma init_cq_Ok a c z n :
  is_Some (zget (cqs n) c) ->
  wp (nvme_init_cq a c z true) (fun r n' => r = Some tt /\ exists cq,
    cqid cq = c /\ phase cq = 1 /\ c_head cq = 0 /\ c_tail cq = 0 /\ c_size cq = z /\ c_dma_addr cq = a /\
    c_req_list cq = [] /\ c_sq_list cq = [] /\ cqs n' = zset c (Some cq) (cqs n) /\ sqs n' = sqs n /\
    params n' = params n /\ adm n' = adm n) n.
Proof.
  intros [o Eo]. unfold nvme_init_cq. apply wp_bind, wp_gets. apply wp_bind, wp_gets. apply wp_bind, wp_ret.
  apply wp_bind. apply (wp_mono _ (fun _ n' => n' = n)).
  { destruct (_ && _); [apply wp_bind, wp_gets, wp_ret; done|by apply wp_ret]. }
  intros db n1 ->. apply wp_bind, wp_gets. apply wp_bind. eapply wp_idx; [exact Eo|]. apply wp_bind.
  apply (wp_mono _ (fun _ n' => sqs n' = sqs n /\ cqs n' = cqs n /\ params n' = params n /\ adm n' = adm n)).
  { destruct (c =? 0); [by apply wp_ret|]. apply wp_bind. eapply wp_of_eq; [by apply on_ssd_Ok|]. by apply wp_ret. }
  intros t n3 (F1 & F2 & F3 & F4). apply wp_bind. unfold store_cq. apply wp_bind, wp_gets. apply wp_bind.
  eapply wp_idx; [rewrite F2; exact Eo|]. apply wp_modify, wp_ret. split; [done|].
  match goal with |- context [set_cqs (zset c (Some ?x) _)] => exists x end.
  split_and!; try reflexivity; [cbn; by rewrite F2|exact F1|exact F3|exact F4].
Qed.

(** The controller as the registers ask for it. *)
Record started (n n' : NvmeCtrl) : Prop := mk_started {
  sd_sq : forall k, sq_id n' k = if k =? 0 then Some (0, NVME_AQA_ASQS (aqa (bar (adm n))) + 1) else None;
  sd_cq : forall c, cq_list n' c = if c =? 0 then Some ((0, [0]), []) else None;
  sd_free : held n' 0 = seqZ 0 (NVME_AQA_ASQS (aqa (bar (adm n))) + 1) /\ out_list n' 0 = [];
  sd_timer : aer_timer (adm n') = Some 0 /\ aer_queue (adm n') = []
}.

Lemma start_spec n :
  no_queues n -> 0 <= num_io_queues (params n) -> start_refused n = false ->
  wp nvme_start_ctrl (fun ok n' => ok = true /\ started n n' /\ bar (adm n') = bar (adm n)) n.
Proof.
  intros [Hs Hc (Ls & Lc & _) Ha] Hnum Href. unfold nvme_start_ctrl.
  destruct (zget_is_Some (cqs n) 0) as [oc Ec]; [lia|]. destruct (zget_is_Some (sqs n) 0) as [os Es]; [lia|].
  destruct oc as [cq|]; [by destruct (Hc 0 cq)|]. destruct os as [sq|]; [by destruct (Hs 0 sq)|].
  apply wp_bind, wp_gets. apply wp_bind. eapply wp_idx; [exact Ec|]. apply wp_bind, wp_gets. apply wp_bind.
  eapply wp_idx; [exact Es|]. apply wp_bind, wp_gets. rewrite Href. cbn [is_set orb]. apply wp_bind, wp_gets. cbv zeta.
  apply wp_bind, wp_modify. set (n1 := set_params _ n). apply wp_bind.
  eapply wp_mono; [apply (init_cq_Ok _ 0 _ n1); by exists None|].
  intros r n2 (_ & cq & Q1 & _ & _ & _ & _ & _ & Q7 & Q8 & F1 & F2 & F3 & F4). apply wp_bind.
  assert (zget (cqs n2) 0 = Some (Some cq)) as Ecq2 by (rewrite F1; apply zget_zset_eq; cbn; lia).
  eapply wp_mono; [apply (init_sq_Ok _ 0 0 _ _ cq n2); [done|rewrite F2; by exists None]|].
  intros r' n3 (_ & sq & S1 & S2 & _ & _ & S5 & _ & S7 & S8 & G1 & G2 & G3 & G4 & _).
  apply wp_bind, wp_modify. apply wp_bind, wp_modify. apply wp_ret. set (n4 := set_adm _ _).
  assert (sqs n4 = zset 0 (Some sq) (sqs n)) as Es4 by (change (sqs n4) with (sqs n3); by rewrite G1, F2).
  assert (cqs n4 = zset 0 (Some (cq_with_sqs [0] cq)) (zset 0 (Some cq) (cqs n))) as Ec4.
  { change (cqs n4) with (cqs n3). by rewrite G2, F1, Q8. }
  assert (forall k, sq_lists n4 k = if k =? 0 then Some (0, NVME_AQA_ASQS (aqa (bar (adm n))) + 1, s_req_list sq, []) else None) as Hsl.
  { intros k. unfold sq_lists. rewrite Es4. destruct (Z.eqb_spec k 0) as [->|Hk].
    - rewrite zget_zset_eq by lia. by rewrite S2, S5, S7.
    - rewrite zget_zset_ne by done. specialize (Hs k). destruct (zget (sqs n) k) as [[x|]|]; [by destruct (Hs x)|done..]. }
  assert (forall c, cq_list n4 c = if c =? 0 then Some ((0, [0]), []) else None) as Hcl.
  { intros c. unfold cq_list. rewrite Ec4. destruct (Z.eqb_spec c 0) as [->|Hk].
    - rewrite zget_zset_eq by (rewrite zlen_zset; lia). unfold cq_id. cbn. by rewrite Q1, Q7.
    - rewrite !zget_zset_ne by done. specialize (Hc c). destruct (zget (cqs n) c) as [[x|]|]; [by destruct (Hc x)|done..]. }
  split; [done|]. split; [constructor; [|exact Hcl| |done]|].
  - intros k. unfold sq_id. rewrite Hsl. by destruct (k =? 0).
  - unfold held, out_list. rewrite Hsl. change (0 =? 0) with true. cbv iota. rewrite Hcl. cbn. by rewrite app_nil_r, S8.
  - change (bar (adm n3) = bar (adm n)). by rewrite G4, F4.
Qed.
(** Enabling a controller that has no queues. *)
Lemma enable_spec v n :
  no_queues n -> 0 <= num_io_queues (params n) -> 0 <= v < 2 ^ 32 ->
  NVME_CC_EN v <> 0 -> NVME_CC_EN (cc (bar (adm n))) = 0 ->
  start_refused (set_adm (set_bar (bar_cc v (bar (adm n))) (adm n)) n) = false ->
  wp (nvme_mmio_write 20 v) (fun _ n' => csts (bar (adm n')) = NVME_CSTS_READY /\ started n n' /\ same_data n n' /\
    sized (NVME_CC_MPS v + 12) (params n) (params n')) n.
Proof.
  intros Hn Hnum Hv Hen Hen0 Href.
  change (nvme_mmio_write 20 v) with (nvme_write_cc v). unfold nvme_write_cc. apply wp_bind, wp_gets. rewrite Hen0.
  destruct (Z.eqb_spec (NVME_CC_EN v) 0); [done|]. cbn [negb andb]. apply wp_bind.
  rewrite (u32_small v) by done. set (n1 := set_adm (set_bar (bar_cc v (bar (adm n))) (adm n)) n) in *.
  apply wp_bind. apply (wp_modify _ _ n). change (set_adm _ n) with n1. apply wp_bind.
  eapply wp_mono; [apply wp_wlp; [apply (start_spec n1); [|done|done]|apply (start_data n1)]|].
  - destruct Hn. by constructor.
  - intros ok n2 [(-> & [Q1 Q2 Q3 Q4] & Eb) Hd]. destruct (Hd eq_refl) as [[D1 D2 D3 D4] Hs]. apply wp_modify. apply wp_bind, wp_gets.
    cbn [bar adm set_adm set_bar cc bar_csts]. rewrite Eb. cbn [n1 bar adm set_adm set_bar cc bar_cc].
    set (n3 := set_adm _ n2).
    assert (csts (bar (adm n3)) = NVME_CSTS_READY /\ started n n3 /\ same_data n n3 /\
      sized (NVME_CC_MPS v + 12) (params n) (params n3)) as Hdone by (split; [done|]; split_and!; [by constructor|by constructor|done]).
    destruct (NVME_CC_SHN v =? 0); cbn [negb andb]; by apply wp_ret.
Qed.
End Start.

(** C20: A controller without queues that is enabled with admissible registers
    becomes ready: it has the admin queue pair, with the sizes of the registers
    and all requests free, and no other queue. *)
Theorem controller_starts `{Clock} `{Guest} `{Backend} v n :
  no_queues n -> 0 <= num_io_queues (params n) -> 0 <= v < 2 ^ 32 ->
  NVME_CC_EN v <> 0 -> NVME_CC_EN (cc (bar (adm n))) = 0 ->
  start_refused (set_adm (set_bar (bar_cc v (bar (adm n))) (adm n)) n) = false ->
  wp (nvme_mmio_write 20 v) (fun _ n' => (csts (bar (adm n')) = NVME_CSTS_READY /\ started n n') /\ ctrl_ok n') n.
Proof.
  intros Hn Hnum Hv Hen Hen0 Href. apply wp_wlp; [|by apply mmio_ok, no_queues_ok].
  eapply wp_mono; [by apply enable_spec|]. by intros ? n' (? & ? & _).
Qed.

Lemma controller_starts_witness :
  let n := set_adm (set_bar (mk_NvmeBar 0 0 0 0 458759 65536 131072) (adm boot_ctrl)) boot_ctrl in
  wp (nvme_mmio_write 20 4587521) (fun _ n' => csts (bar (adm n')) = NVME_CSTS_READY /\ sq_id n' 0 = Some (0, 8) /\
    cq_list n' 0 = Some ((0, [0]), [])) n.
Proof.
  intros n. eapply wp_mono.
  { apply (controller_starts 4587521 n).
    - destruct boot_no_queues. by constructor.
    - vm_compute. discriminate.
    - vm_compute. split; [discriminate|reflexivity].
    - vm_compute. discriminate.
    - reflexivity.
    - vm_compute. reflexivity. }
  intros ? n' [[Hr [Q1 Q2 _ _]] _]. split_and!; [exact Hr|exact (Q1 0)|exact (Q2 0)].
Defined.

(** ** From the properties to a controller that takes commands *)





(** The checks accept a smallest page size above the largest one, and then
    no value of the registers starts the controller: enabling it reports a
    failure and makes no queue. *)
Lemma crossed_page_sizes_fail `{Clock} `{Guest} `{Backend} d bs n b v :
  props_typed d -> nvme_check_constraints d = 0 -> p_mpsmax d < p_mpsmin d < 16 -> set_up d bs n ->
  0 <= v < 2 ^ 32 -> NVME_CC_EN v <> 0 -> NVME_CC_EN (cc b) = 0 ->
  wp (nvme_mmio_write 20 v) (fun _ n' => csts (bar (adm n')) = NVME_CSTS_FAILED /\ no_queues n')
    (set_adm (set_bar b (adm n)) n).
Proof.
  intros Ht Hc Hcross [Hq _ [oc Hcap] _ (Pq & _) _ _] Hv Hen Hen0. pose proof (constraints_checked d Ht Hc) as [].
  destruct (init_cap_fields d oc) as (_ & _ & Fmin & Fmax).
  change (nvme_mmio_write 20 v) with (nvme_write_cc v). unfold nvme_write_cc. apply wp_bind, wp_gets.
  cbn [bar adm set_adm set_bar]. rewrite Hen0. destruct (Z.eqb_spec (NVME_CC_EN v) 0); [done|]. cbn [negb andb].
  apply wp_bind, wp_bind, wp_modify. rewrite (u32_small v) by done. unfold nvme_start_ctrl. set (n1 := set_adm _ _).
  assert (start_refused n1 = true) as Href.
  { unfold start_refused. change (params n1) with (params n). rewrite Hcap, Fmin, Fmax, !Z.mod_small by lia.
    change (cc (bar (adm n1))) with v.
    destruct (Z.ltb_spec (NVME_CC_MPS v) (p_mpsmin d)), (Z.ltb_spec (p_mpsmax d) (NVME_CC_MPS v)); try lia;
      by rewrite ?orb_true_r. }
  pose proof Hq as [Hs Hcq (Ls & Lc & _) _].
  destruct (zget_is_Some (cqs n) 0) as [o1 E1]; [lia|]. destruct (zget_is_Some (sqs n) 0) as [o2 E2]; [lia|].
  apply wp_bind, wp_bind, wp_gets. apply wp_bind. eapply wp_idx; [exact E1|]. apply wp_bind, wp_gets. apply wp_bind.
  eapply wp_idx; [exact E2|]. apply wp_bind, wp_gets. rewrite Href, orb_true_r. apply wp_ret. apply wp_modify.
  apply wp_bind, wp_gets. cbn [bar adm set_adm set_bar cc bar_csts bar_cc n1]. set (n2 := set_adm _ _).
  assert (csts (bar (adm n2)) = NVME_CSTS_FAILED /\ no_queues n2) as Hdone by (split; [done|]; destruct Hq; by constructor).
  destruct (NVME_CC_SHN v =? 0); cbn [negb andb]; by apply wp_ret.
Qed.

(** A smallest page of 8 KiB and a largest of 4 KiB. *)
Definition crossed_props : nvme_props :=
  mk_nvme_props true (Some "femu0"%string) 1 3 2047 4 6 0 3 3 3 10 1 0 0 0 0 1 0 5 3 0 12 11 2 24 NVME_OACS_FORMAT
    NVME_ONCS_DSM 7453 FEMU_BLACKBOX_MODE.

Lemma crossed_typed : props_typed crossed_props.
Proof. constructor; repeat constructor; vm_compute; congruence. Qed.

Lemma crossed_page_sizes_fail_witness :
  nvme_check_constraints crossed_props = 0 /\
  wp (nvme_mmio_write 20 4587521) (fun _ n' => csts (bar (adm n')) = NVME_CSTS_FAILED /\ no_queues n')
    (set_adm (set_bar (mk_NvmeBar 0 0 0 0 458759 65536 131072) (adm (boot_of crossed_props))) (boot_of crossed_props)).
Proof.
  split; [reflexivity|].
  apply (crossed_page_sizes_fail crossed_props (96 * 4120)).
  - exact crossed_typed.
  - reflexivity.
  - vm_compute. split; reflexivity.
  - apply boot_set_up; [exact crossed_typed|reflexivity|reflexivity].
  - lia.
  - vm_compute. discriminate.
  - reflexivity.
Defined.

Section Shutdown.
Context `{Clock} `{Guest} `{Backend}.

Lemma no_queues_check q n : no_queues n -> nvme_check_sqid q n = Ok false n /\ nvme_check_cqid q n = Ok false n.
Proof.
  intros [Hs Hc (L1 & L2 & _) _]. unfold nvme_check_sqid, nvme_check_cqid, mbind, M_bind, gets, idx.
  pose proof (Z.mod_pos_bound q (2 ^ 16) eq_refl : 0 <= u16 q < _).
  destruct (Z.leb_spec (u16 q) (num_io_queues (params n))); [|done].
  destruct (zget_is_Some (sqs n) (u16 q)) as [[sq|] Es]; [lia|by apply Hs in Es|].
  destruct (zget_is_Some (cqs n) (u16 q)) as [[cq|] Ec]; [lia|by apply Hc in Ec|]. by rewrite Es, Ec.
Qed.

(** The event cannot be announced without the timer. *)
Lemma event_without_timer type info page n :
  has (csts (bar (adm n))) NVME_CSTS_READY = true -> aer_queue (adm n) = [] -> aer_timer (adm n) = None ->
  nvme_enqueue_event type info page n = Crash NullDeref.
Proof.
  intros Hr Hq Ht. unfold nvme_enqueue_event, arm_aer_timer, mbind, M_bind, gets. rewrite Hr, Hq. cbn.
  unfold on_ssd, qemu_clock_ns. cbn. by rewrite Ht.
Qed.

Lemma doorbell_without_timer addr w n :
  no_queues n -> has (csts (bar (adm n))) NVME_CSTS_READY = true -> aer_queue (adm n) = [] ->
  aer_timer (adm n) = None -> nvme_process_db addr w n = Crash NullDeref.
Proof.
  intros Hn Hr Hq Ht. unfold nvme_process_db, invalid_doorbell, mbind at 1, M_bind at 1, gets at 1. cbv zeta.
  destruct (has addr _); [by apply event_without_timer|].
  destruct (has _ 1); unfold mbind at 1, M_bind at 1; erewrite (proj1 (no_queues_check _ n Hn)) || erewrite (proj2 (no_queues_check _ n Hn));
    by apply event_without_timer.
Qed.

Lemma shutdown_spec v n :
  queues_ok n -> forallb is_set (aer_queue (adm n)) = true ->
  NVME_CC_EN v <> 0 -> NVME_CC_EN (cc (bar (adm n))) <> 0 -> NVME_CC_SHN v <> 0 -> NVME_CC_SHN (cc (bar (adm n))) = 0 ->
  wp (nvme_write_cc v) (fun _ n' => no_queues n' /\ aer_timer (adm n') = None /\ aer_queue (adm n') = [] /\
    csts (bar (adm n')) = Z.lor (csts (bar (adm n))) NVME_CSTS_SHST_COMPLETE /\ cc (bar (adm n')) = u32 v) n.
Proof.
  intros Hn Hev He Hec Hs Hsc. unfold nvme_write_cc. apply wp_bind, wp_gets. apply wp_bind.
  rewrite (proj2 (Z.eqb_neq _ _) He), (proj2 (Z.eqb_neq _ _) Hec). cbn [negb andb]. apply wp_ret. apply wp_bind, wp_gets.
  rewrite (proj2 (Z.eqb_neq _ _) Hs), Hsc. cbn [negb andb Z.eqb]. apply wp_bind.
  eapply wp_mono; [by apply clear_spec|]. intros ? n1 ([N1 N2 N3 N4] & _ & Ht & Hq & Eb).
  apply wp_bind, wp_modify, wp_modify. split_and!; [by constructor|done|done| |done].
  cbn. by rewrite Eb.
Qed.

End Shutdown.

(** C23: After a shutdown request the controller says that it is ready, and has
    neither queues nor the timer of the events: the next write to any doorbell
    follows a null pointer. *)
Theorem doorbell_after_shutdown_crashes `{Clock} `{Guest} `{Backend} v addr w n :
  queues_ok n -> forallb is_set (aer_queue (adm n)) = true -> has (csts (bar (adm n))) NVME_CSTS_READY = true ->
  NVME_CC_EN v <> 0 -> NVME_CC_EN (cc (bar (adm n))) <> 0 -> NVME_CC_SHN v <> 0 -> NVME_CC_SHN (cc (bar (adm n))) = 0 ->
  4096 <= addr ->
  (nvme_mmio_write 20 v;; nvme_mmio_write addr w) n = Crash NullDeref.
Proof.
  intros Hn Hev Hr He Hec Hs Hsc Ha. unfold mbind at 1, M_bind at 1.
  change (nvme_mmio_write 20 v) with (nvme_write_cc v).
  pose proof (shutdown_spec v n Hn Hev He Hec Hs Hsc) as Hw. apply wp_Ok in Hw as ([] & n' & -> & Hn' & Ht & Hq & Ec & _).
  unfold nvme_mmio_write. destruct (Z.ltb_spec addr 64); [lia|]. destruct (Z.leb_spec 4096 addr); [|lia].
  apply doorbell_without_timer; [done| |done|done]. rewrite Ec.
  unfold has, NVME_CSTS_READY in *. rewrite Z.land_lor_distr_l. cbn. by rewrite Z.lor_0_r.
Qed.

Lemma doorbell_after_shutdown_crashes_witness :
  (nvme_mmio_write 20 4603905;; nvme_mmio_write 4104 0) demo_run = Crash NullDeref.
Proof.
  apply (doorbell_after_shutdown_crashes 4603905 4104 0 demo_run).
  all: match goal with |- queues_ok _ => idtac | |- _ <= _ => lia | |- _ <> _ => vm_compute; discriminate | _ => vm_compute; reflexivity end.
  apply co_queues. by apply run_ok.
Defined.

(** ** Asynchronous events *)

Section Events.
Context `{Clock} `{Guest} `{Backend}.

Lemma enqueue_Ok req sq cq n :
  zget (sqs n) (r_sqid req) = Some (Some sq) -> zget (cqs n) (s_cqid sq) = Some (Some cq) -> cqid cq = s_cqid sq ->
  wp (nvme_enqueue_req_completion (s_cqid sq) req) (fun _ n' => adm n' = adm n) n.
Proof.
  intros Es Ec Ei. unfold nvme_enqueue_req_completion. apply wp_bind. eapply wp_get_cq; [exact Ec|].
  apply wp_bind. eapply wp_get_sq; [exact Es|]. rewrite Ei, Z.eqb_refl. cbn [negb]. apply wp_bind, wp_modify.
  apply wp_bind. eapply wp_of_eq; [by apply on_ssd_Ok|]. by apply wp_modify.
Qed.

(** The requests for events belong to the admin queue. *)
Lemma aer_enqueue_Ok i req res st z n n' :
  ctrl_ok n -> sq_id n 0 = Some (0, z) -> 0 <= i < outstanding_aers (adm n) ->
  zget (aer_reqs (adm n)) i = Some (Some req) -> sqs n' = sqs n -> cqs n' = cqs n ->
  wp (nvme_enqueue_req_completion 0 (set_status st (set_result res req))) (fun _ n2 => adm n2 = adm n') n'.
Proof.
  intros [Hq _ Ha] Eid Hi Er Es Ec. destruct (ai_req _ _ Ha i Hi) as (r & Er' & Hs & _). cbn in Er'.
  assert (r = req) as -> by congruence. unfold sq_id, sq_lists in Eid.
  destruct (zget (sqs n) 0) as [[sq|]|] eqn:E0; [|done..]. injection Eid as Ecq _.
  destruct (qo_sq _ Hq _ _ _ _ _ (sq_lists_get _ _ _ E0)) as (_ & [[id w] Ew] & _). rewrite Ecq in Ew.
  destruct (qo_cq _ Hq _ _ _ Ew) as [Eid _]. unfold cq_list in Ew.
  destruct (zget (cqs n) 0) as [[cq|]|] eqn:Ec0; [|done..]. injection Ew as <- _. cbn in Eid. rewrite <-Ecq.
  apply (enqueue_Ok _ sq cq); rewrite ?Es, ?Ec, ?Ecq; [by rewrite <-E0, <-Hs|done|done].
Qed.

End Events.

(** C24: When the first event of the queue is masked and the second is not, the
    second is reported and freed, and the first is unlinked in its place: the
    next event to be queued is linked behind freed memory. *)
Theorem masked_event_use_after_free `{Clock} `{Guest} `{Backend} e1 e2 z type info page n :
  ctrl_ok n -> sq_id n 0 = Some (0, z) -> has (csts (bar (adm n))) NVME_CSTS_READY = true ->
  aer_queue (adm n) = [Some e1; Some e2] -> 0 < outstanding_aers (adm n) ->
  has (aer_mask (adm n)) (2 ^ event_type e1) = true -> has (aer_mask (adm n)) (2 ^ event_type e2) = false ->
  (nvme_aer_process_cb;; nvme_enqueue_event type info page) n = Crash UseAfterFree.
Proof.
  intros Hn Hid Hr Hq Ho Hm1 Hm2.
  assert (wp nvme_aer_process_cb (fun _ n' => aer_queue (adm n') = [None] /\ bar (adm n') = bar (adm n)) n) as Hw.
  { unfold nvme_aer_process_cb. apply wp_bind, wp_gets. rewrite Hq. cbn [length aer_loop].
    assert (outstanding_aers (adm n) <=? 0 = false) as Ho' by (apply Z.leb_gt; lia).
    apply wp_bind, wp_gets. apply wp_bind. eapply wp_idx; [by rewrite Hq|]. apply wp_bind, wp_ret. rewrite Ho', Hm1.
    apply wp_bind, wp_gets. apply wp_bind. eapply wp_idx; [by rewrite Hq|]. apply wp_bind, wp_ret. rewrite Ho', Hm2, Hq.
    do 3 apply wp_bind, wp_modify.
    destruct (ai_req _ _ (co_aers _ Hn) (outstanding_aers (adm n) - 1) ltac:(cbn; lia)) as (req & Er & _). cbn in Er.
    apply wp_bind. eapply wp_idx; [exact Er|]. apply wp_bind, wp_ret. apply wp_bind.
    eapply wp_mono; [by eapply (aer_enqueue_Ok (outstanding_aers (adm n) - 1) req _ _ z n); [..|lia| | |]|].
    intros ? n2 E. apply wp_ret. by rewrite E. }
  apply wp_Ok in Hw as ([] & n' & E & Hq' & Hb). unfold mbind at 1, M_bind at 1. rewrite E.
  unfold nvme_enqueue_event, mbind, M_bind, gets. by rewrite Hb, Hr, Hq'.
Qed.

(** Two requests for events.  The first one is told of a write to a wrong
    doorbell, and a second such write is not reported until the log is read;
    then the guest lowers the temperature threshold. *)
Definition aer_memory : memory :=
  blit (blit (blit (fun _ => 0) 65536 (queue_cmd NVME_ADM_CMD_ASYNC_EV_REQ 0 0 0 0 0) 0 64)
    65600 (queue_cmd NVME_ADM_CMD_ASYNC_EV_REQ 0 0 0 0 0) 0 64)
    65664 (queue_cmd NVME_ADM_CMD_SET_FEATURES 0 NVME_TEMPERATURE_THRESHOLD 0 200 0) 0 64.

Definition aer_events : list event :=
  boot_events ++
  [Store aer_memory; Mmio 4096 1; Admin; Mmio 4098 0; Events; Mmio 4096 2; Admin; Mmio 4098 0; Mmio 4096 3; Admin].

Lemma masked_event_use_after_free_witness :
  (nvme_aer_process_cb;; nvme_enqueue_event NVME_AER_TYPE_ERROR 0 NVME_LOG_ERROR_INFO) (run aer_events) =
  Crash UseAfterFree.
Proof.
  apply (masked_event_use_after_free
    (mk_NvmeAerResult NVME_AER_TYPE_ERROR NVME_AER_INFO_ERR_INVALID_DB NVME_LOG_ERROR_INFO)
    (mk_NvmeAerResult NVME_AER_TYPE_SMART NVME_AER_INFO_SMART_TEMP_THRESH NVME_LOG_SMART_INFO) 8).
  1: by apply run_ok.
  all: vm_compute; reflexivity.
Defined.
