(* ===== verification/OpenChannel.v ===== *)
(** * Properties of the open-channel mode

    The address format, the tables of bad blocks, the bookings of chips and
    channels, and what the set-up of the namespaces means for this mode. *)

From Stdlib Require Import ZArith Lia List String.
From stdpp Require Import base tactics numbers list functions.
From S2P Require Import Prelude Config State Timing Ssd Nvme NvmeOc NvmeQueue NvmeInfo NvmeAdmin NvmeSetup Host Demo Commands.

Open Scope Z_scope.

(** ** Addresses *)

(** A geometry whose addresses fit into 31 bits. *)
Record oc_geometry (p : FEMU_OC_Params) (g : FEMU_OC_IdGroup) : Prop := mk_oc_geometry {
  og_sec : 1 <= sec_per_pg p < 2 ^ 8;
  og_pln : 1 <= p_num_pln p < 2 ^ 8;
  og_pg : 1 <= pgs_per_blk p < 2 ^ 16;
  og_blk : 1 <= num_blk g < 2 ^ 16;
  og_lun : 1 <= p_num_lun p < 2 ^ 8;
  og_ch : 1 <= p_num_ch p < 2 ^ 8;
  og_bits : qemu_fls (sec_per_pg p - 1) + qemu_fls (p_num_pln p - 1) + qemu_fls (pgs_per_blk p - 1)
    + qemu_fls (num_blk g - 1) + qemu_fls (p_num_lun p - 1) + qemu_fls (p_num_ch p - 1) <= 31
}.

(** The address of a sector in the format the guest is told. *)
Definition oc_address (f : FEMU_OC_IdAddrFormat) (ch lun blk pg pl sec : Z) : Z :=
  Z.shiftl ch (ch_offset f) + Z.shiftl lun (lun_offset f) + Z.shiftl blk (blk_offset f) + Z.shiftl pg (pg_offset f)
  + Z.shiftl pl (pln_offset f) + Z.shiftl sec (sect_offset f).

Lemma qemu_fls_pos x : 0 <= x -> 0 <= qemu_fls x /\ x < 2 ^ qemu_fls x.
Proof.
  intros Hx. unfold qemu_fls. destruct (Z.eqb_spec x 0) as [->|]; [done|]. destruct (Z.ltb_spec x 0); [lia|].
  pose proof (Z.log2_spec x ltac:(lia)) as [_ ?]. pose proof (Z.log2_nonneg x).
  rewrite Z.add_1_r. lia.
Qed.

Lemma field_mask_Ok len off n : 0 <= len -> 0 <= off -> len + off <= 31 -> off < 32 -> len < 31 ->
  field_mask len off n = Ok (Z.shiftl (Z.ones len) off) n.
Proof.
  intros Hl Ho Hs Ho' Hl'. unfold field_mask. destruct (Z.leb_spec 31 len), (Z.leb_spec 32 off), (Z.ltb_spec 31 (len + off)); try lia.
  cbn [orb]. by rewrite Z.ones_equiv, Z.sub_1_r.
Qed.

Lemma qemu_fls_le x k : 0 <= x < 2 ^ k -> 0 <= k -> qemu_fls x <= k.
Proof.
  intros Hx Hk. unfold qemu_fls. destruct (Z.eqb_spec x 0) as [->|]; [done|]. destruct (Z.ltb_spec x 0); [lia|].
  assert (Z.log2 x < k) by (apply Z.log2_lt_pow2; lia). lia.
Qed.

(** A field between lower and higher ones. *)
Lemma ppa_field_digit len off low x high :
  0 <= len <= 31 -> 0 <= off -> 0 <= low < 2 ^ off -> 0 <= x < 2 ^ len ->
  ppa_field (Z.shiftl (Z.ones len) off) off (low + 2 ^ off * (x + 2 ^ len * high)) = x.
Proof.
  intros Hl Ho Hlow Hx. unfold ppa_field.
  assert (0 < 2 ^ off) by (apply Z.pow_pos_nonneg; lia). assert (0 < 2 ^ len) by (apply Z.pow_pos_nonneg; lia).
  assert (2 ^ len <= 2 ^ 31) by (apply Z.pow_le_mono_r; lia).
  assert (Z.shiftr (Z.land (low + 2 ^ off * (x + 2 ^ len * high)) (Z.shiftl (Z.ones len) off)) off = x) as ->.
  { rewrite Z.shiftr_land, Z.shiftr_shiftl_l, Z.sub_diag, Z.shiftl_0_r, Z.land_ones, Z.shiftr_div_pow2 by lia.
    rewrite (Z.mul_comm (2 ^ off)), Z.div_add, (Z.div_small low), Z.add_0_l by lia.
    rewrite (Z.mul_comm (2 ^ len)), Z.mod_add by lia. by apply Z.mod_small. }
  apply s32_small. lia.
Qed.

(** The places of the fields follow from the geometry, without wrapping. *)
Lemma format_offsets p g : oc_geometry p g ->
  let f := femu_oc_init_id_ctrl p g in
  sect_offset f = 0 /\ sect_len f = qemu_fls (sec_per_pg p - 1) /\
  pln_offset f = sect_len f /\ pln_len f = qemu_fls (p_num_pln p - 1) /\
  pg_offset f = pln_offset f + pln_len f /\ pg_len f = qemu_fls (pgs_per_blk p - 1) /\
  blk_offset f = pg_offset f + pg_len f /\ blk_len f = qemu_fls (num_blk g - 1) /\
  lun_offset f = blk_offset f + blk_len f /\ lun_len f = qemu_fls (p_num_lun p - 1) /\
  ch_offset f = lun_offset f + lun_len f /\ ch_len f = qemu_fls (p_num_ch p - 1).
Proof.
  intros []. cbn [sect_offset sect_len pln_offset pln_len pg_offset pg_len blk_offset blk_len lun_offset lun_len
    ch_offset ch_len femu_oc_init_id_ctrl].
  pose proof (qemu_fls_pos (sec_per_pg p - 1) ltac:(lia)). pose proof (qemu_fls_pos (p_num_pln p - 1) ltac:(lia)).
  pose proof (qemu_fls_pos (pgs_per_blk p - 1) ltac:(lia)). pose proof (qemu_fls_pos (num_blk g - 1) ltac:(lia)).
  pose proof (qemu_fls_pos (p_num_lun p - 1) ltac:(lia)). pose proof (qemu_fls_pos (p_num_ch p - 1) ltac:(lia)).
  unfold u8. rewrite !Z.mod_small by (rewrite ?Z.mod_small by lia; lia). done.
Qed.

(** The masks of the fields. *)
Lemma addr_format_Ok p g n : oc_geometry p g ->
  let f := femu_oc_init_id_ctrl p g in
  let mask len off := Z.shiftl (Z.ones len) off in
  addr_format f n = Ok (mk_FEMU_OC_AddrF (mask (ch_len f) (ch_offset f)) (mask (lun_len f) (lun_offset f))
    (mask (pln_len f) (pln_offset f)) (mask (blk_len f) (blk_offset f)) (mask (pg_len f) (pg_offset f))
    (mask (sect_len f) (sect_offset f)) (ch_offset f) (lun_offset f) (pln_offset f) (blk_offset f) (pg_offset f)
    (sect_offset f)) n.
Proof.
  intros Hg f mask. destruct (format_offsets p g Hg) as (E1 & E2 & E3 & E4 & E5 & E6 & E7 & E8 & E9 & E10 & E11 & E12).
  fold f in E1, E2, E3, E4, E5, E6, E7, E8, E9, E10, E11, E12. destruct Hg.
  pose proof (qemu_fls_pos (sec_per_pg p - 1) ltac:(lia)). pose proof (qemu_fls_pos (p_num_pln p - 1) ltac:(lia)).
  pose proof (qemu_fls_pos (pgs_per_blk p - 1) ltac:(lia)). pose proof (qemu_fls_pos (num_blk g - 1) ltac:(lia)).
  pose proof (qemu_fls_pos (p_num_lun p - 1) ltac:(lia)). pose proof (qemu_fls_pos (p_num_ch p - 1) ltac:(lia)).
  pose proof (qemu_fls_le (sec_per_pg p - 1) 8). pose proof (qemu_fls_le (p_num_pln p - 1) 8).
  pose proof (qemu_fls_le (pgs_per_blk p - 1) 16). pose proof (qemu_fls_le (num_blk g - 1) 16).
  pose proof (qemu_fls_le (p_num_lun p - 1) 8). pose proof (qemu_fls_le (p_num_ch p - 1) 8).
  unfold addr_format, mbind, M_bind. rewrite !field_mask_Ok by lia. done.
Qed.

(** A further field on top of the lower ones. *)
Lemma digit_bound off len low x :
  0 <= off -> 0 <= len -> 0 <= low < 2 ^ off -> 0 <= x < 2 ^ len -> 0 <= low + 2 ^ off * x < 2 ^ (off + len).
Proof. intros Ho Hl Hlow Hx. rewrite Z.pow_add_r by lia. nia. Qed.

Lemma digit_field off len low x high ppa :
  0 <= off -> 0 <= len <= 31 -> 0 <= low < 2 ^ off -> 0 <= x < 2 ^ len ->
  ppa = low + 2 ^ off * x + 2 ^ (off + len) * high ->
  ppa_field (Z.shiftl (Z.ones len) off) off ppa = x.
Proof.
  intros Ho Hl Hlow Hx ->. rewrite Z.pow_add_r by lia.
  replace (low + 2 ^ off * x + 2 ^ off * 2 ^ len * high) with (low + 2 ^ off * (x + 2 ^ len * high)) by ring.
  by apply ppa_field_digit.
Qed.

(** C25: Addresses round trip: for every geometry that fits into 31 bits the
    set-up computes the masks, and the channel, the unit, the block and the page
    the code takes out of an address are those the guest put into it, in the
    format the identification gives. *)
Theorem address_roundtrip p g n :
  oc_geometry p g ->
  exists a, addr_format (femu_oc_init_id_ctrl p g) n = Ok a n /\
  forall o ch lun blk pg pl sec, ppaf o = a -> group o = g ->
    0 <= ch < p_num_ch p -> 0 <= lun < p_num_lun p -> 0 <= blk < num_blk g -> 0 <= pg < pgs_per_blk p ->
    0 <= pl < p_num_pln p -> 0 <= sec < sec_per_pg p ->
    let ppa := oc_address (femu_oc_init_id_ctrl p g) ch lun blk pg pl sec in
    ppa_ch o ppa = ch /\ ppa_lun o ppa = lun /\ ppa_blk o ppa = blk /\ ppa_pg o ppa = pg /\
    ppa_lunid o ppa = ch * num_lun g + lun /\ 0 <= ppa < 2 ^ 31.
Proof.
  intros Hg. eexists. split; [by apply addr_format_Ok|].
  intros o ch lun blk pg pl sec Ea Eg Hch Hlun Hblk Hpg Hpl Hsec ppa.
  destruct (format_offsets p g Hg) as (E1 & E2 & E3 & E4 & E5 & E6 & E7 & E8 & E9 & E10 & E11 & E12).
  unfold ppa_lunid, ppa_ch, ppa_lun, ppa_blk, ppa_pg. rewrite Ea, Eg.
  cbn [ch_mask lun_mask blk_mask pg_mask f_ch_offset f_lun_offset f_blk_offset f_pg_offset]. cbv zeta.
  set (f := femu_oc_init_id_ctrl p g) in *. destruct Hg.
  pose proof (qemu_fls_pos (sec_per_pg p - 1) ltac:(lia)). pose proof (qemu_fls_pos (p_num_pln p - 1) ltac:(lia)).
  pose proof (qemu_fls_pos (pgs_per_blk p - 1) ltac:(lia)). pose proof (qemu_fls_pos (num_blk g - 1) ltac:(lia)).
  pose proof (qemu_fls_pos (p_num_lun p - 1) ltac:(lia)). pose proof (qemu_fls_pos (p_num_ch p - 1) ltac:(lia)).
  rewrite <- E2, <- E4, <- E6, <- E8, <- E10, <- E12 in *. rewrite E1, E3 in *.
  assert (ppa = sec + 2 ^ sect_len f * pl + 2 ^ pg_offset f * pg + 2 ^ blk_offset f * blk + 2 ^ lun_offset f * lun
    + 2 ^ ch_offset f * ch) as Ep by (unfold ppa, oc_address; rewrite E1, E3, !Z.shiftl_mul_pow2 by lia; lia).
  clearbody ppa f.
  pose proof (digit_bound (sect_len f) (pln_len f) sec pl ltac:(lia) ltac:(lia) ltac:(lia) ltac:(lia)) as B1.
  rewrite <- E5 in B1. pose proof (digit_bound (pg_offset f) (pg_len f) _ pg ltac:(lia) ltac:(lia) B1 ltac:(lia)) as B2.
  rewrite <- E7 in B2. pose proof (digit_bound (blk_offset f) (blk_len f) _ blk ltac:(lia) ltac:(lia) B2 ltac:(lia)) as B3.
  rewrite <- E9 in B3. pose proof (digit_bound (lun_offset f) (lun_len f) _ lun ltac:(lia) ltac:(lia) B3 ltac:(lia)) as B4.
  rewrite <- E11 in B4. pose proof (digit_bound (ch_offset f) (ch_len f) _ ch ltac:(lia) ltac:(lia) B4 ltac:(lia)) as B5.
  assert (2 ^ (ch_offset f + ch_len f) <= 2 ^ 31) by (apply Z.pow_le_mono_r; lia).
  assert (ppa_field (Z.shiftl (Z.ones (ch_len f)) (ch_offset f)) (ch_offset f) ppa = ch) as Ech
    by (eapply (digit_field _ _ _ _ 0); [lia|lia|exact B4|lia|lia]).
  assert (ppa_field (Z.shiftl (Z.ones (lun_len f)) (lun_offset f)) (lun_offset f) ppa = lun) as Elun
    by (eapply (digit_field _ _ _ _ ch); [lia|lia|exact B3|lia|rewrite <- E11; lia]).
  rewrite Ech, Elun. split; [done|]. split; [done|]. split; [|split; [|split; [done|lia]]].
  - eapply (digit_field _ _ _ _ (lun + 2 ^ lun_len f * ch)); [lia|lia|exact B2|lia|].
    rewrite <- E9, Z.mul_add_distr_l, Z.mul_assoc, <- Z.pow_add_r, <- E11 by lia. lia.
  - eapply (digit_field _ _ _ _ (blk + 2 ^ blk_len f * (lun + 2 ^ lun_len f * ch))); [lia|lia|exact B1|lia|].
    rewrite <- E7, !Z.mul_add_distr_l, !Z.mul_assoc, <- !Z.pow_add_r, <- E9, <- E11 by lia. lia.
Qed.

(** Two channels of four units with blocks of 256 pages of four sectors, two
    planes. *)
Definition demo_oc_params : FEMU_OC_Params :=
  mk_FEMU_OC_Params 256 4096 4 64 0 0 2 2 4 16 0 0 0 0 0 0 0 0 0 0 0.
Definition demo_oc_group : FEMU_OC_IdGroup :=
  mk_FEMU_OC_IdGroup 0 0 2 4 2 100 256 16384 4096 16 70000 100000 1900000 3500000 3000000 3000000 131586 1 0.

Lemma demo_oc_geometry : oc_geometry demo_oc_params demo_oc_group.
Proof. constructor; vm_compute; repeat split; discriminate. Qed.

Lemma address_roundtrip_witness :
  exists a, addr_format (femu_oc_init_id_ctrl demo_oc_params demo_oc_group) (demo_ctrl demo0) = Ok a (demo_ctrl demo0) /\
  forall o, ppaf o = a -> group o = demo_oc_group ->
    let ppa := oc_address (femu_oc_init_id_ctrl demo_oc_params demo_oc_group) 1 3 99 255 1 3 in
    ppa = 2039807 /\ ppa_lunid o ppa = 7 /\ ppa_blk o ppa = 99 /\ ppa_pg o ppa = 255.
Proof.
  destruct (address_roundtrip demo_oc_params demo_oc_group (demo_ctrl demo0) demo_oc_geometry) as (a & Ea & Hd).
  exists a. split; [exact Ea|]. intros o Eo Eg.
  destruct (Hd o 1 3 99 255 1 3 Eo Eg) as (_ & _ & Hb & Hp & Hl & _);
    [vm_compute; split; congruence..|]. split; [reflexivity|]. split; [exact Hl|]. split; [exact Hb|exact Hp].
Defined.

(** ** Bad blocks *)

(** The mark of block [k] of unit [l] of the namespace at [i]. *)
Definition bad_block (n : NvmeCtrl) (i l k : Z) : option Z :=
  ns ← zget (namespaces n) i; b ← zget (bbtbl ns) l; zget (bb_blk b) k.

(** The addresses of a command that sets marks. *)
Definition marked_addresses `{Clock} `{Guest} `{Backend} (cmd : memory) (n : NvmeCtrl) (l : list Z) : Prop :=
  if rw_nlb cmd =? 0 then l = [oc_spba cmd]
  else exists b, nvme_dma_write_prp (oc_spba cmd) (cmd_prp2 cmd) ((rw_nlb cmd + 1) * 8) n = Ok (Some b) n /\
    l = ztab (rw_nlb cmd + 1) (fun k => le b (8 * k) 8).

(** Is block [k] of unit [l] in the list? *)
Definition in_list (o : FEMU_OC_Ctrl) (ppas : list Z) (l k : Z) : bool :=
  existsb (fun ppa => (ppa_lunid o ppa =? l) && (ppa_blk o ppa =? k)) ppas.

Section BadBlocks.
Context `{Clock} `{Guest} `{Backend}.

Lemma bbt_mark_spec i v ppa n :
  is_Some (bad_block n i (ppa_lunid (femu_oc_ctrl n) ppa) (ppa_blk (femu_oc_ctrl n) ppa)) ->
  wp (bbt_mark i v ppa) (fun _ n' => femu_oc_ctrl n' = femu_oc_ctrl n /\ forall j l k, bad_block n' j l k =
    if (j =? i) && in_list (femu_oc_ctrl n) [ppa] l k then Some v else bad_block n j l k) n.
Proof.
  intros Hb. unfold bad_block in Hb. destruct (zget (namespaces n) i) as [ns|] eqn:Ens; [|by destruct Hb].
  cbn in Hb. destruct (zget (bbtbl ns) _) as [b|] eqn:Eb; [|by destruct Hb]. cbn in Hb. destruct Hb as [x Ex].
  unfold bbt_mark. apply wp_bind, wp_gets. apply wp_bind, wp_gets. apply wp_bind. eapply wp_idx; [exact Ens|].
  apply wp_bind. eapply wp_idx; [exact Eb|]. apply wp_bind. eapply wp_idx; [exact Ex|].
  unfold upd_namespace. apply wp_bind, wp_gets. apply wp_bind. eapply wp_idx; [exact Ens|]. apply wp_modify.
  split; [done|]. intros j l k. unfold bad_block, in_list. cbn [existsb namespaces set_namespaces]. rewrite orb_false_r.
  pose proof (zget_Some_range _ _ _ Ens). pose proof (zget_Some_range _ _ _ Eb). pose proof (zget_Some_range _ _ _ Ex).
  destruct (Z.eqb_spec j i) as [->|]; [|by rewrite zget_zset_ne]. rewrite zget_zset_eq, Ens by lia. cbn.
  destruct (Z.eqb_spec (ppa_lunid (femu_oc_ctrl n) ppa) l) as [<-|]; [|by rewrite zget_zset_ne by done].
  rewrite zget_zset_eq, Eb by lia. cbn.
  destruct (Z.eqb_spec (ppa_blk (femu_oc_ctrl n) ppa) k) as [<-|]; [by rewrite zget_zset_eq by lia|by rewrite zget_zset_ne].
Qed.

(** The loop over a list of addresses. *)
Lemma bbt_marks_spec i v m f n (ppas := ztab m f) :
  0 <= m -> Forall (fun ppa => is_Some (bad_block n i (ppa_lunid (femu_oc_ctrl n) ppa) (ppa_blk (femu_oc_ctrl n) ppa))) ppas ->
  wp (mfor (Z.to_nat m) 0 (fun k => bbt_mark i v (f k))) (fun _ n' =>
    femu_oc_ctrl n' = femu_oc_ctrl n /\ forall j l k, bad_block n' j l k =
    if (j =? i) && in_list (femu_oc_ctrl n) ppas l k then Some v else bad_block n j l k) n.
Proof.
  intros Hm Hall. set (o := femu_oc_ctrl n) in *. assert (length ppas = Z.to_nat m) as Hlen by (unfold ppas, ztab; by rewrite length_fmap, length_seq).
  eapply wp_mono; [apply (wp_mfor (fun x n' => femu_oc_ctrl n' = o /\ forall j l k, bad_block n' j l k =
    if (j =? i) && in_list o (take (Z.to_nat x) ppas) l k then Some v else bad_block n j l k))|].
  - split; [done|]. intros j l k. cbn. by rewrite andb_false_r.
  - intros x n' Hx [Eo Hn'].
    assert (ppas !! Z.to_nat x = Some (f x)) as Eppa.
    { pose proof (zget_ztab m f x ltac:(lia)) as Ez. unfold zget in Ez. by destruct (Z.ltb_spec x 0); [lia|]. }
    eapply wp_mono; [apply bbt_mark_spec; rewrite Eo, Hn'|].
    + destruct ((_ =? _) && _); [done|]. by eapply (Forall_lookup_1 _ _ _ _ Hall).
    + intros ? n'' [Eo' Hn'']. rewrite Eo in *. split; [done|]. intros j l k. rewrite Hn'', Hn'.
      replace (Z.to_nat (x + 1)) with (Datatypes.S (Z.to_nat x)) by lia. rewrite (take_S_r _ _ _ Eppa).
      unfold in_list. rewrite existsb_app. destruct (j =? i); cbn [andb]; [|done].
      destruct (existsb _ (take _ _)); cbn [orb]; [by destruct (existsb _ [f x])|done].
  - intros ? n' [Eo Hn']. split; [done|]. intros j l k. by rewrite Hn', Z.add_0_l, Nat2Z.id, <- Hlen, firstn_all.
Qed.
End BadBlocks.

(** C26: The command that marks blocks marks those of the addresses it names, one
    in the command or a list in memory, and leaves every other mark as it was:
    what a later command that reads the table of a unit sends for a block is the
    value of the last mark. *)
Theorem bad_blocks_marked `{Clock} `{Guest} `{Backend} cmd req n ppas :
  1 <= cmd_nsid cmd <= num_namespaces (params n) -> marked_addresses cmd n ppas ->
  zlen ppas <= max_sec_per_rq (oc_params (femu_oc_ctrl n)) ->
  Forall (fun ppa => is_Some (bad_block n (cmd_nsid cmd - 1) (ppa_lunid (femu_oc_ctrl n) ppa)
    (ppa_blk (femu_oc_ctrl n) ppa))) ppas ->
  wp (femu_oc_bbt_set cmd req) (fun st n' => st = NVME_SUCCESS /\ femu_oc_ctrl n' = femu_oc_ctrl n /\
    forall j l k, bad_block n' j l k =
      if (j =? cmd_nsid cmd - 1) && in_list (femu_oc_ctrl n) ppas l k then Some (bbt_value cmd) else bad_block n j l k) n.
Proof.
  intros Hns Haddr Hlen Hall. pose proof (le_range cmd 48 2) as Hnlb. unfold marked_addresses in Haddr.
  assert (exists ppa, ppas !! 0%nat = Some ppa) as [ppa0 E0].
  { destruct (Z.eqb_spec (rw_nlb cmd) 0); [subst; by eexists|]. destruct Haddr as (b & _ & ->).
    apply lookup_lt_is_Some_2. unfold ztab. rewrite length_fmap, length_seq. unfold rw_nlb in *. lia. }
  pose proof (Forall_lookup_1 _ _ _ _ Hall E0) as Hb0. unfold bad_block in Hb0.
  destruct (zget (namespaces n) (cmd_nsid cmd - 1)) as [ns|] eqn:Ens; [|by destruct Hb0].
  unfold femu_oc_bbt_set. apply wp_bind, wp_gets. apply wp_bind, wp_gets.
  destruct (Z.eqb_spec (cmd_nsid cmd) 0); [lia|]. destruct (Z.ltb_spec (num_namespaces (params n)) (cmd_nsid cmd)); [lia|].
  cbn [orb]. apply wp_bind, wp_gets. apply wp_bind. eapply wp_idx; [exact Ens|].
  destruct (Z.eqb_spec (rw_nlb cmd) 0) as [Ez|Hnz].
  - rewrite Ez. change (0 + 1 =? 1) with true. cbv iota. subst ppas. change (zlen [oc_spba cmd]) with 1 in Hlen.
    destruct (Z.ltb_spec (max_sec_per_rq (oc_params (femu_oc_ctrl n))) 1); [lia|].
    pose proof (bbt_marks_spec (cmd_nsid cmd - 1) (bbt_value cmd) 1 (fun _ => oc_spba cmd) n ltac:(lia) Hall) as Hm.
    apply wp_bind_inv in Hm. apply wp_bind. eapply wp_mono; [exact Hm|]. intros ? n' Hn'. by apply wp_ret.
  - destruct Haddr as (b & Eb & ->). destruct (Z.eqb_spec (rw_nlb cmd + 1) 1); [lia|]. apply wp_bind.
    eapply wp_of_eq; [exact Eb|]. rewrite zlen_ztab in Hlen by (unfold rw_nlb in *; lia).
    destruct (Z.ltb_spec (max_sec_per_rq (oc_params (femu_oc_ctrl n))) (rw_nlb cmd + 1)); [lia|]. apply wp_bind.
    eapply wp_mono; [apply bbt_marks_spec; [unfold rw_nlb in *; lia|exact Hall]|].
    intros ? n' Hn'. by apply wp_ret.
Qed.

(** A small open-channel device, set up on the namespace of Commands.v: two
    channels of two units of six blocks of four pages of one sector. *)
Definition small_params : FEMU_OC_Params :=
  mk_FEMU_OC_Params 4 4096 1 64 0 0 2 1 2 16 0 0 0 0 0 0 0 0 0 0 0.

Definition small_oc : NvmeCtrl :=
  let n := set_oc (oc_blank small_params 1 0 0 0 0) (demo_ctrl demo0) in
  match oc_init_ns 0 n with Ok _ n' => n' | _ => n end.

(** Block 3 of unit 0 of channel 1 is marked with 2. *)
Definition mark_cmd : memory := fun o => if o =? 50 then 2 else demo_cmd FEMU_OC_ADM_CMD_SET_BB_TBL 76 0 0 0 o.

Lemma bad_blocks_marked_witness :
  wp (femu_oc_bbt_set mark_cmd (demo_req 0)) (fun st n' => st = NVME_SUCCESS /\
    bad_block n' 0 2 3 = Some 2 /\ bad_block n' 0 2 4 = Some 0 /\ bad_block n' 0 1 3 = Some 0) small_oc.
Proof.
  eapply wp_mono.
  { apply (bad_blocks_marked mark_cmd (demo_req 0) small_oc [76]).
    - vm_compute. split; congruence.
    - reflexivity.
    - vm_compute. discriminate.
    - constructor; [|constructor]. vm_compute. by exists 0. }
  intros st n' (Hst & _ & Hn'). split; [exact Hst|]. rewrite !Hn'. vm_compute. split; [reflexivity|split; reflexivity].
Defined.

(** ** Reads and writes *)

(** Any error a check reports is an error of the command. *)
Lemma check_meta_refused `{Clock} `{Guest} `{Backend} ns cmd req slba elba nlb ctrl size meta n :
  meta <> 0 -> (exists x, zget (elpes n) (elp_index n) = Some x) -> elpe (params n) <> 0 ->
  wp (nvme_rw_check_req ns cmd req slba elba nlb ctrl size meta) (fun st n' => st <> 0 /\ refused n n') n.
Proof.
  intros Hm Hx He. unfold nvme_rw_check_req. apply wp_bind, wp_gets.
  assert (forall a b c st, st <> 0 -> wp (nvme_set_error_page (r_sqid req) (cmd_cid cmd) a b c (ns_id ns);; mret st)
    (fun st n' => st <> 0 /\ refused n n') n) as Herr.
  { intros a b c st Hst. destruct (error_page_Ok (r_sqid req) (cmd_cid cmd) a b c (ns_id ns) n Hx He) as (n' & E & Hr).
    apply wp_bind. eapply wp_of_eq; [exact E|]. by apply wp_ret. }
  destruct (_ <? _); [by apply Herr|]. destruct (_ && _); [by apply Herr|].
  destruct (Z.eqb_spec meta 0); [done|]. by apply Herr.
Qed.

(** A namespace as the set-up formats it, with 24 bytes of metadata per
    block, cannot be read or written with the commands of the open-channel mode:
    each one is refused, and nothing but the error log changes.  The commands
    pass the size of the metadata to a check that refuses any. *)
Lemma open_channel_io_refused `{Clock} `{Guest} `{Backend} ns cmd req n f (p := oc_params (femu_oc_ctrl n)) :
  zget (lbaf ns) (Z.land (flbas ns) 15) = Some f -> 0 < ms f -> 0 < sec_size p -> 1 <= max_sec_per_rq p ->
  rw_nlb cmd < 65535 -> 0 < Z.shiftl (rw_nlb cmd + 1) (ds f) / sec_size p < 2 ^ 32 ->
  (exists x, zget (elpes n) (elp_index n) = Some x) -> elpe (params n) <> 0 ->
  wp (femu_oc_rw ns cmd req) (fun r n' => r.1 <> NVME_SUCCESS /\ refused n n') n.
Proof.
  intros Ef Hms Hsec Hmax Hnlb Hpages Hx He. pose proof (le_range cmd 48 2) as Hr.
  assert (u16 (rw_nlb cmd + 1) = rw_nlb cmd + 1) as Eu by (apply Z.mod_small; unfold rw_nlb in *; lia).
  unfold femu_oc_rw. apply wp_bind, wp_gets. cbv zeta. apply wp_bind. eapply wp_idx; [exact Ef|]. fold p. rewrite Eu.
  destruct (Z.eqb_spec (sec_size p) 0); [lia|]. rewrite u32_small by lia. set (k := Z.shiftl _ _ / _) in *.
  assert (forall a b c d e g, wp (nvme_set_error_page a b c d e g;; mret (Z.lor NVME_INVALID_FIELD NVME_DNR, req))
    (fun r n' => r.1 <> NVME_SUCCESS /\ refused n n') n) as Herr.
  { intros a b c d e g. destruct (error_page_Ok a b c d e g n Hx He) as (n' & E & Hn').
    apply wp_bind. eapply wp_of_eq; [exact E|]. by apply wp_ret. }
  destruct (Z.ltb_spec (max_sec_per_rq p) 1); [lia|]. destruct (sos p =? 0); [by apply wp_ret|].
  destruct (Z.ltb_spec (max_sec_per_rq p) k); [apply Herr|]. destruct (_ && _); [apply Herr|].
  unfold oc_psl. apply wp_bind, wp_bind, wp_gets. apply wp_ret. set (psl := if _ <? k then _ else _).
  assert (zlen psl = k) as Hpsl by (unfold psl; destruct (Z.ltb_spec 1 k); [apply zlen_ztab; lia|unfold zlen; cbn; lia]).
  destruct (_ =? FEMU_OC_PBA_UNMAPPED); [apply Herr|]. unfold oc_overhead. apply wp_bind, wp_bind, wp_gets. apply wp_ret.
  destruct (zget_is_Some psl 0) as [sppa Es]; [lia|]. destruct (zget_is_Some psl (k - 1)) as [eppa Ee]; [lia|].
  apply wp_bind. eapply wp_idx; [exact Es|]. apply wp_bind. rewrite u32_small by lia. eapply wp_idx; [exact Ee|].
  destruct (_ || _); [by apply wp_ret|]. apply wp_bind.
  eapply wp_mono; [apply check_meta_refused; [|done|done]; unfold rw_nlb in *; nia|].
  intros st n' [Hst Hn']. destruct (Z.eqb_spec st 0); [done|]. by apply wp_ret.
Qed.

(** The namespace of the small device, formatted as the set-up does it. *)
Definition set_up_ns : NvmeNamespace :=
  mk_NvmeNamespace 1 96 3 (init_lbaf (mk_nvme_props true None 1 3 2047 4 6 0 3 3 3 10 1 0 0 0 0 0 0 5 3 0 12 11 2 24 2 4 0 0))
    11 0 (fun _ => false) (fun _ => false) 4 2 12 96 0 (fun _ => 0) 0 0 None [].

Lemma open_channel_io_refused_witness :
  wp (femu_oc_rw set_up_ns (demo_cmd FEMU_OC_CMD_PHYS_WRITE 76 0 8192 0) (demo_req 0))
    (fun r n' => r.1 <> NVME_SUCCESS /\ refused small_oc n') small_oc.
Proof.
  apply (open_channel_io_refused set_up_ns (demo_cmd FEMU_OC_CMD_PHYS_WRITE 76 0 8192 0) (demo_req 0) small_oc
    (mk_NvmeLBAF PI_BYTES_NVME DATA_BITS_NVME)); vm_compute; try (split; congruence); try congruence.
  by eexists.
Defined.

(** ** The set-up *)

Section OcSetup.
Context `{Clock} `{Guest} `{Backend}.






End OcSetup.




(** ** Bookings *)

(** The state with chip [lunid] and channel [ch] booked until the given times. *)
Definition oc_booked (n : NvmeCtrl) (ch lunid t_chnl t_chip : Z) (n' : NvmeCtrl) : Prop :=
  oc_chnl (ocg n') = zset ch t_chnl (oc_chnl (ocg n)) /\ oc_chip (ocg n') = zset lunid t_chip (oc_chip (ocg n)) /\
  mlc_tbl (ocg n') = mlc_tbl (ocg n) /\ femu_oc_ctrl n' = femu_oc_ctrl n /\ namespaces n' = namespaces n /\
  heap_storage n' = heap_storage n /\ guest n' = guest n.

(** An address that exists, on a channel that is free from [b] on, a chip that is
    free from [c] on, and a page that is slow when [u] is not 0. *)
Record oc_place (n : NvmeCtrl) (ppa b c u : Z) : Prop := mk_oc_place {
  op_ch : ppa_ch (femu_oc_ctrl n) ppa < num_ch (group (femu_oc_ctrl n));
  op_lun : ppa_lun (femu_oc_ctrl n) ppa < num_lun (group (femu_oc_ctrl n));
  op_chnl : zget (oc_chnl (ocg n)) (ppa_ch (femu_oc_ctrl n) ppa) = Some b;
  op_chip : zget (oc_chip (ocg n)) (ppa_lunid (femu_oc_ctrl n) ppa) = Some c;
  op_page : zget (mlc_tbl (ocg n)) (ppa_pg (femu_oc_ctrl n) ppa) = Some u
}.

Definition oc_now `{Clock} (n : NvmeCtrl) : Z := qemu_clock_get_ns (clock_reads (ssd n)).

Section Bookings.
Context `{Clock} `{Guest} `{Backend}.

Lemma oc_target_Ok n ppa b c u : oc_place n ppa b c u ->
  oc_target ppa n = Ok (ppa_ch (femu_oc_ctrl n) ppa, ppa_lunid (femu_oc_ctrl n) ppa, ppa_pg (femu_oc_ctrl n) ppa) n.
Proof.
  intros [Hc Hl _ _ _]. unfold oc_target, mbind, M_bind, gets.
  destruct (Z.ltb_spec (ppa_ch (femu_oc_ctrl n) ppa) (num_ch (group (femu_oc_ctrl n)))); [|lia].
  destruct (Z.ltb_spec (ppa_lun (femu_oc_ctrl n) ppa) (num_lun (group (femu_oc_ctrl n)))); [done|lia].
Qed.

Lemma wp_oc_clock (Q : Z -> NvmeCtrl -> Prop) n :
  Q (oc_now n) (set_ssd (set_clock_reads (S (clock_reads (ssd n))) (ssd n)) n) -> wp (on_ssd qemu_clock_ns) Q n.
Proof. done. Qed.

Lemma wp_set_chip i t (Q : unit -> NvmeCtrl -> Prop) n x :
  zget (oc_chip (ocg n)) i = Some x ->
  Q tt (set_ocg (ocg_with_times (zset i t (oc_chip (ocg n))) (oc_chnl (ocg n)) (ocg n)) n) -> wp (set_chip i t) Q n.
Proof. intros E HQ. unfold set_chip. apply wp_bind, wp_gets. apply wp_bind. by eapply wp_idx. Qed.

Lemma wp_set_chnl i t (Q : unit -> NvmeCtrl -> Prop) n x :
  zget (oc_chnl (ocg n)) i = Some x ->
  Q tt (set_ocg (ocg_with_times (oc_chip (ocg n)) (zset i t (oc_chnl (ocg n))) (ocg n)) n) -> wp (set_chnl i t) Q n.
Proof. intros E HQ. unfold set_chnl. apply wp_bind, wp_gets. apply wp_bind. by eapply wp_idx. Qed.

Lemma oc_write_spec n ppa b c u (g := ocg n) (o := femu_oc_ctrl n) :
  oc_place n ppa b c u ->
  let sent := Z.max (oc_now n) b + 2 * chnl_page_tr_t g in
  let done := Z.max sent c + (if u =? 0 then nand_write_lower_t g else nand_write_upper_t g) in
  wp (oc_write_time ppa) (fun t n' => t = Z.max 0 (done - oc_now n) /\
    oc_booked n (ppa_ch o ppa) (ppa_lunid o ppa) sent done n') n.
Proof.
  intros Hp sent done. pose proof Hp as [_ _ Eb Ec Eu]. unfold oc_write_time. apply wp_bind.
  eapply wp_of_eq; [by eapply oc_target_Ok|]. cbv beta iota. apply wp_bind, wp_oc_clock. apply wp_bind, wp_gets.
  unfold get_chnl, get_chip, is_upper_page. apply wp_bind, wp_bind, wp_gets. eapply wp_idx; [exact Eb|].
  apply wp_bind. eapply wp_set_chnl; [exact Eb|]. apply wp_bind, wp_bind, wp_gets. eapply wp_idx; [exact Ec|].
  apply wp_bind, wp_bind, wp_gets. apply wp_bind. eapply wp_idx; [exact Eu|]. apply wp_ret. apply wp_bind.
  eapply wp_set_chip; [exact Ec|]. apply wp_ret. fold o. cbn [ocg set_ssd]. fold g.
  assert ((if oc_now n <? b then b else oc_now n) + chnl_page_tr_t g * 2 = sent) as -> by (unfold sent; zcase; lia).
  assert (forall x, (if sent <? c then c + x else sent + x) = Z.max sent c + x) as -> by (intros x; zcase; lia).
  fold done. replace (if negb (u =? 0) then _ else _) with (if u =? 0 then nand_write_lower_t g else nand_write_upper_t g)
    by (by destruct (u =? 0)).
  done.
Qed.

Lemma oc_read_spec now n ppa k b c u (g := ocg n) (o := femu_oc_ctrl n) :
  oc_place n ppa b c u -> 1 <= k <= 8 -> 0 <= chnl_page_tr_t g * k < 2 ^ 31 ->
  let read := Z.max now c + (if u =? 0 then nand_read_lower_t g else nand_read_upper_t g) in
  let done := Z.max read b + chnl_page_tr_t g * k / 4 in
  wp (oc_read_page now ppa k) (fun t n' => t = done /\ oc_booked n (ppa_ch o ppa) (ppa_lunid o ppa) done done n') n.
Proof.
  intros Hp Hk Htr read done. pose proof Hp as [_ _ Eb Ec Eu]. unfold oc_read_page. apply wp_bind.
  eapply wp_of_eq; [by eapply oc_target_Ok|]. cbv beta iota. apply wp_bind, wp_gets.
  unfold get_chnl, get_chip, is_upper_page. apply wp_bind, wp_bind, wp_gets. eapply wp_idx; [exact Ec|].
  apply wp_bind, wp_bind, wp_gets. apply wp_bind. eapply wp_idx; [exact Eu|]. apply wp_ret.
  destruct (Z.leb_spec k 8), (Z.leb_spec 1 k); try lia. cbn [andb negb].
  apply wp_bind, wp_bind, wp_gets. eapply wp_idx; [exact Eb|]. apply wp_bind. eapply wp_set_chnl; [exact Eb|].
  apply wp_bind. eapply wp_set_chip; [exact Ec|]. apply wp_ret. fold g o.
  rewrite Z.quot_div_nonneg, s32_small by (fold g; pose proof (Z.div_le_upper_bound (chnl_page_tr_t g * k) 4 (2 ^ 31 - 1));
    pose proof (Z.div_pos (chnl_page_tr_t g * k) 4); lia).
  assert (forall x, (if now <? c then c + x else now + x) = Z.max now c + x) as -> by (intros x; zcase; lia).
  replace (if negb (u =? 0) then _ else _) with (if u =? 0 then nand_read_lower_t g else nand_read_upper_t g)
    by (by destruct (u =? 0)).
  fold read. assert (forall x, (if read <? b then b + x else read + x) = Z.max read b + x) as -> by (intros x; zcase; lia).
  done.
Qed.

Lemma oc_erase_spec ns cmd req n ppa b c u (g := ocg n) (o := femu_oc_ctrl n) :
  oc_place n ppa b c u -> oc_spba cmd = ppa -> rw_nlb cmd = 0 -> oc_gtsc cmd = 0 -> 1 <= max_sec_per_rq (oc_params o) ->
  let done := Z.max (oc_now n) c + nand_erase_t g in
  wp (femu_oc_erase_async ns cmd req) (fun r n' => r.1 = NVME_SUCCESS /\ expire_time r.2 = done /\
    oc_chip (ocg n') = zset (ppa_lunid o ppa) done (oc_chip (ocg n)) /\ oc_chnl (ocg n') = oc_chnl (ocg n) /\
    heap_storage n' = heap_storage n) n.
Proof.
  intros Hp Epba Enlb Egt Hmax done. pose proof Hp as [_ _ _ Ec _]. unfold femu_oc_erase_async.
  apply wp_bind, wp_gets. unfold oc_overhead. apply wp_bind, wp_bind, wp_gets. apply wp_ret. rewrite Enlb, Egt, Epba.
  change (0 <? 0) with false. change (0 + 1) with 1. fold o. destruct (Z.ltb_spec (max_sec_per_rq (oc_params o)) 1); [lia|].
  unfold oc_psl. apply wp_bind, wp_bind, wp_gets. apply wp_ret. apply wp_bind. eapply wp_idx; [reflexivity|].
  apply wp_bind, wp_oc_clock. apply wp_bind, wp_gets. unfold get_chip. apply wp_bind, wp_bind, wp_gets.
  eapply wp_idx; [exact Ec|]. apply wp_bind. eapply wp_set_chip; [exact Ec|]. apply wp_ret. cbn [ocg set_ssd fst]. fold g.
  assert ((if oc_now n <? c then c + nand_erase_t g else oc_now n + nand_erase_t g) = done) as -> by (unfold done; zcase; lia).
  split_and!; [done..|cbn; lia|done|done|done].
Qed.
End Bookings.

(** C27: Chips and channels are booked in the order the flash works: a write
    takes its channel from when it is free and then its chip, a page of a read
    its chip and then its channel, an erase only its chip, each for the latency
    of the kind of page; the request is done at the end of its last booking, and
    no other chip or channel is touched. *)
Theorem open_channel_bookings `{Clock} `{Guest} `{Backend} n ppa b c u (g := ocg n) (o := femu_oc_ctrl n) :
  oc_place n ppa b c u -> 0 <= 8 * chnl_page_tr_t g < 2 ^ 31 ->
  (let sent := Z.max (oc_now n) b + 2 * chnl_page_tr_t g in
   let done := Z.max sent c + (if u =? 0 then nand_write_lower_t g else nand_write_upper_t g) in
   wp (oc_write_time ppa) (fun t n' => t = Z.max 0 (done - oc_now n) /\
     oc_booked n (ppa_ch o ppa) (ppa_lunid o ppa) sent done n') n) /\
  (forall now k, 1 <= k <= 8 ->
   let read := Z.max now c + (if u =? 0 then nand_read_lower_t g else nand_read_upper_t g) in
   let done := Z.max read b + chnl_page_tr_t g * k / 4 in
   wp (oc_read_page now ppa k) (fun t n' => t = done /\ oc_booked n (ppa_ch o ppa) (ppa_lunid o ppa) done done n') n) /\
  (forall ns cmd req, oc_spba cmd = ppa -> rw_nlb cmd = 0 -> oc_gtsc cmd = 0 -> 1 <= max_sec_per_rq (oc_params o) ->
   let done := Z.max (oc_now n) c + nand_erase_t g in
   wp (femu_oc_erase_async ns cmd req) (fun r n' => r.1 = NVME_SUCCESS /\ expire_time r.2 = done /\
     oc_chip (ocg n') = zset (ppa_lunid o ppa) done (oc_chip (ocg n)) /\ oc_chnl (ocg n') = oc_chnl (ocg n) /\
     heap_storage n' = heap_storage n) n).
Proof.
  intros Hp Htr. split; [by apply (oc_write_spec n ppa b c u)|]. split.
  - intros now k Hk. apply (oc_read_spec now n ppa k b c u); [done|done|]. fold g. nia.
  - intros ns cmd req E1 E2 E3 E4. by apply (oc_erase_spec ns cmd req n ppa b c u).
Qed.

Lemma open_channel_bookings_witness :
  oc_place small_oc 76 0 0 0 /\
  wp (oc_write_time 76) (fun t n' => zget (oc_chip (ocg n')) 2 = Some (oc_now small_oc + 2 * 52433 + 850000)) small_oc.
Proof.
  assert (oc_place small_oc 76 0 0 0) as Hp by (constructor; vm_compute; reflexivity). split; [exact Hp|].
  destruct (open_channel_bookings small_oc 76 0 0 0 Hp) as (Hw & _ & _); [vm_compute; split; congruence|].
  refine (wp_mono _ _ _ _ Hw _). intros t n' (_ & _ & E & _). rewrite E. vm_compute. reflexivity.
Defined.
