(* ===== verification/Properties.v ===== *)
(** * Properties of the device

    The theorems about reachable states and the commands issued in them, each
    with the instance on the small device of Demo.v. *)

From Stdlib Require Import ZArith Lia List String.
From stdpp Require Import base tactics numbers list functions strings sets.
From S2P Require Import Prelude Config State Timing Perf Inverse Nvram Mapping Alloc Flash Invariant Gc Store Ftl Ssd Init Device Views Demo.

Open Scope Z_scope.

(** The invariant of a reachable state, with its parts named. *)
Ltac reachable H C V A G :=
  destruct (reach_device _ _ _ _ H) as [(C & V & A & Hginv) Hsim];
  pose proof (ginv_geom _ _ _ _ _ _ _ Hginv) as G;
  pose proof Hginv as [[Hcore Hlink Houter] Hlog].

(** ** What a command does *)

(** C1: every command that is within bounds and has the room it needs returns
    normally from a reachable state (no null pointer, no access outside an
    array, no endless loop) and changes the abstract store as the command
    says: the flash commands it issues turn the contents of the flash into
    contents with which the new state represents the new store.  The state is
    reachable again, so the same holds of every sequence of commands. *)
Theorem device_progress `{Clock} sc c ver D St s :
  reach sc D St s -> admissible sc c St s ->
  exists r s' D' St', execute c s = Ok r s' /\ effect sc ver c St St' /\
    evolved sc D s D' s' /\ holds sc D' St' s' /\ reach sc D' St' s'.
Proof.
  intros Hr Hadm. destruct (reach_device _ _ _ _ Hr) as [Hd Hsim].
  destruct (wp_after _ _ _ (execute_step sc c ver D St s Hd Hsim Hadm)) as (r & E & _ & St' & He & D' & Hev & HD').
  exists r, (after (execute c) s), D', St'. do 4 (split; [done|]). by eapply reach_step.
Qed.

Lemma device_progress_witness : exists r s' D' St',
  execute (Write (demo_write 0 16 plain)) demo0 = Ok r s' /\
  effect demo_conf (fun i => i) (Write (demo_write 0 16 plain)) (fun _ => None) St' /\
  evolved demo_conf demo_data demo0 D' s' /\ holds demo_conf D' St' s' /\ reach demo_conf D' St' s'.
Proof.
  apply device_progress; [exact reach0|]. apply (write_admissible _ _ _ _ 16); vm_compute; reflexivity.
Defined.

(** C2: a write of [n] pages without remap metadata stores the data of each
    page at its logical page and leaves every other logical page as it was,
    whatever garbage collection the write sets off. *)
Theorem plain_write_stores `{Clock} sc rq n ver D St s :
  reach sc D St s -> request_ok sc rq n -> room sc n 0 (n * (BLOCK_NB sc + 2) + 2) s ->
  (forall i, 0 <= i < n -> exists li, zget (lpns_info rq) i = Some li /\ remap_flag (flag li) = false) ->
  exists r s' St', SSD_WRITE rq s = Ok r s' /\ sim sc (D, s) St' s' /\
    forall x, St' x = written ver n (Z.quot (req_sector_nb rq) (SECTORS_PER_PAGE sc)) St x.
Proof.
  intros Hr Hrq Hroom Hplain. destruct (reach_device _ _ _ _ Hr) as [Hd Hsim].
  assert (0 <= n) as Hn.
  { rewrite <- (rq_pages _ _ _ Hrq). apply span_pages_nonneg, write_span_ok; destruct Hrq; try done.
    by eapply device_geom. }
  assert (request_remaps rq n = 0) as E0.
  { apply remap_count_plain. intros j Hj. apply Hplain. lia. }
  destruct (wp_after _ _ _ (write_step sc D St ver rq n s Hd Hsim Hrq ltac:(by rewrite E0)))
    as (r & E & _ & St' & Hw & Hs').
  exists r, (after (SSD_WRITE rq) s), St'. split; [done|]. split; [done|]. intros x.
  rewrite (pages_write_plain _ _ _ _ _ _ _ Hw) by (intros j Hj; apply Hplain; lia).
  unfold written. by rewrite Z2Nat.id.
Qed.

Lemma plain_write_stores_witness : exists r s' St',
  SSD_WRITE (demo_write 0 16 plain) demo0 = Ok r s' /\ sim demo_conf (demo_data, demo0) St' s' /\
  forall x, St' x = written (fun i => i + 7) 16 0 (fun _ => None) x.
Proof.
  apply (plain_write_stores demo_conf (demo_write 0 16 plain) 16 (fun i => i + 7) demo_data (fun _ => None) demo0).
  - exact reach0.
  - apply request_dec_ok. vm_compute. reflexivity.
  - apply room_dec_ok. vm_compute. reflexivity.
  - apply plain_dec_ok. vm_compute. reflexivity.
Defined.

(** C9: a read inside the device issues one page read per logical page of the
    range, in order, at the physical page the mapping names (page 0 for an
    unmapped one), and changes neither the mapping nor the stored data. *)
Theorem read_reads_mapped_pages `{Clock} sc length sector_nb D St s :
  reach sc D St s -> sectors_ok sc length sector_nb ->
  exists r s', SSD_READ length sector_nb s = Ok r s' /\ sim sc (D, s) St s' /\ same_map s s' /\
    nand_log s' = read_cmds sc s (sector_pages sc length sector_nb)
                    (Z.quot sector_nb (SECTORS_PER_PAGE sc)) ++ nand_log s.
Proof.
  intros Hr Hs. destruct (reach_device _ _ _ _ Hr) as [Hd Hsim].
  destruct (wp_after _ _ _ (read_step sc D St length sector_nb s Hd Hsim Hs)) as (r & E & _ & Hrest).
  by exists r, (after (SSD_READ length sector_nb) s).
Qed.

Lemma read_reads_mapped_pages_witness : exists D St r s',
  SSD_READ 20 4 demo1 = Ok r s' /\ sim demo_conf (D, demo1) St s' /\ same_map demo1 s' /\
  nand_log s' = read_cmds demo_conf demo1 3 0 ++ nand_log demo1.
Proof.
  destruct reach1 as (D & St & Hr). exists D, St.
  apply (read_reads_mapped_pages demo_conf 20 4 D St demo1 Hr).
  repeat split; vm_compute; congruence.
Defined.

(** C8: a discard inside the device succeeds, empties exactly the logical
    pages that overlap the sector range and issues no flash command. *)
Theorem discard_empties_range `{Clock} sc length sector_nb D St s :
  reach sc D St s -> sectors_ok sc length sector_nb ->
  exists s' St', femu_discard_process length sector_nb s = Ok SUCCESS s' /\ sim sc (D, s) St' s' /\
    nand_log s' = nand_log s /\
    let l := Z.quot sector_nb (SECTORS_PER_PAGE sc) in
    forall x, St' x = if (l <=? x) && (x <? l + Z.of_nat (sector_pages sc length sector_nb))
                      then None else St x.
Proof.
  intros Hr Hs. destruct (reach_device _ _ _ _ Hr) as [Hd Hsim].
  destruct (wp_after _ _ _ (discard_step sc D St length sector_nb s Hd Hsim Hs))
    as (r & E & -> & _ & Hsim' & Hlog).
  do 2 eexists. split; [exact E|]. split; [exact Hsim'|]. split; [exact Hlog|]. intros l x. apply discards_at.
Qed.

Lemma discard_empties_range_witness : exists D St s' St',
  femu_discard_process 20 4 demo1 = Ok SUCCESS s' /\ sim demo_conf (D, demo1) St' s' /\
  nand_log s' = nand_log demo1 /\
  forall x, St' x = if (0 <=? x) && (x <? 0 + 3) then None else St x.
Proof.
  destruct reach1 as (D & St & Hr). exists D, St.
  apply (discard_empties_range demo_conf 20 4 D St demo1 Hr).
  repeat split; vm_compute; congruence.
Defined.

(** C5: the remap command with one of its three operation codes, on ranges
    that do not overlap and a source that is mapped, succeeds: every page of
    the destination holds what the source page held, a move empties the
    source, and nothing else changes, whether the pages were remapped or, for
    lack of NVRAM, rewritten. *)
Theorem remap_copies_range `{Clock} sc src dst len ope D St s :
  reach sc D St s -> ope ∈ [REMAP_CKPT; REMAP_COPY; REMAP_MOVE] ->
  0 <= len -> 0 <= src -> src + len <= pages sc -> 0 <= dst -> dst + len <= pages sc ->
  disjoint_ranges src dst len -> (forall x, src <= x < src + len -> lmap s x <> -1) ->
  room sc len len (len * (2 * BLOCK_NB sc + 5)) s ->
  exists s' St', SSD_REMAP src dst len ope s = Ok SUCCESS s' /\ sim sc (D, s) St' s' /\
    forall x, St' x = ranged (ope =? REMAP_MOVE) src dst len St x.
Proof.
  intros Hr Hope Hlen Hs0 Hs1 Hd0 Hd1 Hdis Hmap Hroom. destruct (reach_device _ _ _ _ Hr) as [Hd Hsim].
  assert (admissible sc (Remap src dst len ope) St s) as Hadm.
  { do 5 (split; [done|]). split; [|done]. apply copies_ok_disjoint; rewrite Z2Nat.id by done; [done|].
    intros x Hx E. apply (Hmap x Hx). apply (sim_mapped sc (D, s) St s x (sim_here _ _ _ _ Hsim)); [lia|done]. }
  destruct (wp_after _ _ _ (remap_step sc D St src dst len ope s Hd Hsim Hadm)) as (r & E & -> & _ & Hsim').
  do 2 eexists. split; [exact E|]. split; [exact Hsim'|]. intros x. unfold remap_effect.
  apply list_elem_of_In in Hope. cbn [In] in Hope. destruct Hope as [<-|[<-|[<-|[]]]]; cbn; rewrite copies_at; rewrite ?Z2Nat.id; done.
Qed.

Lemma remap_copies_range_witness : exists D St s' St',
  SSD_REMAP 2 20 5 REMAP_MOVE demo1 = Ok SUCCESS s' /\ sim demo_conf (D, demo1) St' s' /\
  forall x, St' x = ranged true 2 20 5 St x.
Proof.
  destruct reach1 as (D & St & Hr). exists D, St.
  apply (remap_copies_range demo_conf 2 20 5 REMAP_MOVE D St demo1 Hr).
  - apply list_elem_of_In. cbn [In]. tauto.
  - lia.
  - lia.
  - vm_compute. congruence.
  - lia.
  - vm_compute. congruence.
  - left. lia.
  - intros x Hx E. assert (x = 2 \/ x = 3 \/ x = 4 \/ x = 5 \/ x = 6) as Hc by lia. revert E.
    destruct Hc as [->|[->|[->|[->| ->]]]]; vm_compute; congruence.
  - apply room_dec_ok. vm_compute. reflexivity.
Defined.

(** C33: on an accepted configuration file the initialisation returns, every
    logical page is unmapped, every physical page is counted free, all blocks
    are in the empty lists and no flash command has been issued; the state
    represents the empty store whatever the flash holds. *)
Theorem init_fresh_device `{Clock} ws sc n D :
  conf_file ws sc n ->
  exists s, FTL_INIT (Some ws) ssd_zero = Ok tt s /\ reach sc D (fun _ => None) s /\
    (forall l, lmap s l = -1) /\ ctrs s stat_ppn_free = pages sc /\
    total_empty_block_nb s = FLASH_NB sc * BLOCK_NB sc /\ total_victim_block_nb s = 0 /\
    nand_log s = [].
Proof.
  intros Hf. destruct (wp_after _ _ _ (FTL_INIT_spec ws sc n Hf)) as ([] & E & G & Hb).
  exists (after (FTL_INIT (Some ws)) ssd_zero). split; [done|]. split; [by eapply reach_init|].
  split; [intros l; by eapply blank_lmap|]. by destruct Hb.
Qed.

Lemma init_fresh_device_witness : exists s,
  FTL_INIT (Some demo_words) ssd_zero = Ok tt s /\ reach demo_conf demo_data (fun _ => None) s /\
  (forall l, lmap s l = -1) /\ ctrs s stat_ppn_free = 96 /\
  total_empty_block_nb s = 24 /\ total_victim_block_nb s = 0 /\ nand_log s = [].
Proof. apply (init_fresh_device demo_words demo_conf 2 demo_data). exact demo_file. Defined.

(** ** Reachable states *)

(** C4: in a reachable state the tables describe one mapping: the nodes of a
    physical page are exactly the logical pages mapped to it, once each, the
    table's count of them is their number, and the page's reference count is
    that number too (0 or -1 when there is none). *)
Theorem tables_describe_mapping `{Clock} sc D St s p l :
  reach sc D St s -> 0 <= p < pages sc -> 0 <= l < pages sc ->
  occ l (nodes s p) = b2z (lmap s l =? p) /\
  zlen (nodes s p) = sharers sc s p /\ node_count s p = sharers sc s p /\
  Z.max 0 (refs sc s p) = sharers sc s p.
Proof.
  intros Hr Hp Hl. reachable Hr C V A G. pose proof (ou_map _ _ _ _ Houter) as Hz.
  destruct (nodes_view sc _ _ s p (co_inv _ _ _ _ _ _ _ Hcore) Hp) as (Hc & Hn & Ho).
  rewrite <- (nodes_sharers sc _ _ _ _ _ _ Hcore Hz Hp). split; [|split; [done|split; [done|]]].
  - rewrite Ho. apply owner_lmap. lia.
  - rewrite (refs_view sc V s p G (co_blk _ _ _ _ _ _ _ Hcore) Hp). symmetry.
    apply (vl_refs _ _ _ _ _ Hlink p Hp). pose proof (block_of_range sc G p). lia.
Qed.

Lemma tables_describe_mapping_witness :
  occ 20 (nodes demo3 (lmap demo3 3)) = 1 /\ zlen (nodes demo3 (lmap demo3 3)) = 2 /\
  node_count demo3 (lmap demo3 3) = 2 /\ Z.max 0 (refs demo_conf demo3 (lmap demo3 3)) = 2.
Proof.
  destruct reach3 as (D & St & Hr).
  pose proof (tables_describe_mapping demo_conf D St demo3 (lmap demo3 3) 20 Hr) as Hw.
  assert (sharers demo_conf demo3 (lmap demo3 3) = 2) as E by (vm_compute; reflexivity).
  rewrite E in Hw. apply Hw; split; vm_compute; congruence.
Defined.

(** C37: in a reachable state every array has the size of the geometry and every
    entry is in its range: mapped pages exist, owners are logical pages, the
    reference counts fit 8 bits, a block has at most its pages valid, the place
    of the next allocation is a chip. *)
Theorem tables_well_typed `{Clock} sc D St s : reach sc D St s -> typed sc s.
Proof.
  intros Hr. reachable Hr C V A G. destruct Houter as [Hm Hnv Hrange [Hwf Hst [He Hv _ _] Hix _] _ _ _].
  destruct (co_time _ _ _ _ _ _ _ Hcore) as [_ Hc1 Hc2 Hc3]. rewrite (co_params _ _ _ _ _ _ _ Hcore) in *.
  destruct (co_oob _ _ _ _ _ _ _ Hcore) as [Ho Hseg _ _ _ _]. pose proof (co_inv _ _ _ _ _ _ _ Hcore) as [Hi _].
  pose proof (co_blk _ _ _ _ _ _ _ Hcore) as [Hb _ _]. destruct G.
  constructor; [|done| | | | |done].
  - split; [done|]. apply Forall_zget. intros l p E. pose proof (zget_Some_range _ _ _ E) as Hl. rewrite Hm in Hl.
    specialize (Hrange l Hl). unfold lmap in Hrange. by rewrite E in Hrange.
  - split; [done|]. eapply inverse_typed; [exact Hcore|]. intros x p. unfold owner.
    destruct (zget (mapping_table s) x) eqn:E; [|lia]. apply zget_Some_range in E. lia.
  - split; [done|]. eapply block_typed; [exact Hcore|lia].
  - split; [done|]. apply Forall_zget. intros b e E. pose proof (zget_Some_range _ _ _ E) as Hl. rewrite Ho in Hl.
    specialize (Hseg b Hl). unfold seg_at in Hseg. rewrite E in Hseg. cbn in Hseg. lia.
  - rewrite He, Hv, !zlen_ztab, Hix by lia. split_and!; [lia|lia| |]; destruct (acur A) as [[]|]; try lia;
      apply Z.mod_pos_bound; lia.
Qed.

Lemma tables_well_typed_witness : typed demo_conf demo3.
Proof. destruct reach3 as (D & St & Hr). exact (tables_well_typed demo_conf D St demo3 Hr). Defined.

(** C12: in a reachable state the page statistics are exact: free, valid and
    invalid pages add up to all pages, and [stat_lpn_valid] is the number of
    mapped logical pages. *)
Theorem statistics_exact `{Clock} sc D St s :
  reach sc D St s ->
  ctrs s stat_ppn_free + ctrs s stat_ppn_valid + ctrs s stat_ppn_invalid = pages sc /\
  ctrs s stat_ppn_valid = sumZ (pages sc) (fun p => b2z (0 <? sharers sc s p)) /\
  ctrs s stat_ppn_n21 = sumZ (pages sc) (fun p => b2z (1 <? sharers sc s p)) /\
  ctrs s stat_lpn_valid = mapped_lpns sc s.
Proof.
  intros Hr. reachable Hr C V A G. pose proof (pages_bound sc G) as HN.
  pose proof (ou_map _ _ _ _ Houter) as Hz. destruct (co_stat _ _ _ _ _ _ _ Hcore) as [-> -> -> -> ->].
  assert (forall p, 0 <= p < pages sc -> sharers sc s p = Z.max 0 (V p)) as HC.
  { intros p Hp. rewrite <- (nodes_sharers sc _ _ _ _ _ _ Hcore Hz Hp).
    apply (vl_refs _ _ _ _ _ Hlink p Hp). pose proof (block_of_range sc G p). lia. }
  rewrite <- sharers_sum by (try lia; apply Houter).
  rewrite (sumZ_ext _ (sharers sc s) (fun p => Z.max 0 (V p)) HC).
  pose proof (br_range _ _ _ _ (co_blk _ _ _ _ _ _ _ Hcore)) as HV.
  rewrite !count_small, (sum_small _ 127) by first [lia | intros p Hp; specialize (HV p Hp); lia].
  split; [apply count_partition; [lia|]; intros p Hp; by apply HV|].
  split; [|split; [|done]]; apply sumZ_ext; intros p Hp; rewrite HC by done; unfold b2z; zcases; lia.
Qed.

Lemma statistics_exact_witness :
  ctrs demo3 stat_ppn_free + ctrs demo3 stat_ppn_valid + ctrs demo3 stat_ppn_invalid = 96 /\
  ctrs demo3 stat_ppn_valid = sumZ 96 (fun p => b2z (0 <? sharers demo_conf demo3 p)) /\
  ctrs demo3 stat_ppn_n21 = sumZ 96 (fun p => b2z (1 <? sharers demo_conf demo3 p)) /\
  ctrs demo3 stat_lpn_valid = mapped_lpns demo_conf demo3.
Proof. destruct reach3 as (D & St & Hr). exact (statistics_exact demo_conf D St demo3 Hr). Defined.

(** C6: every flash command issued up to a reachable state obeys the rules of
    NAND flash (pages of a block are programmed in order, a block is erased
    before a page of it is programmed again), and every mapped logical page
    lies on a page that is programmed at that moment. *)
Theorem flash_rules_obeyed `{Clock} sc D St s :
  reach sc D St s ->
  exists W, nand_replay (PAGE_NB sc) (nand_log s) = Some W /\
    forall l, 0 <= l < pages sc -> lmap s l <> -1 ->
      page_of sc (lmap s l) < W (flash_of sc (lmap s l)) (block_of sc (lmap s l)).
Proof.
  intros Hr. reachable Hr C V A G. destruct Hlog as (W & HW & Hfill). exists W. split; [done|].
  intros l Hl Hm. pose proof (ou_range _ _ _ _ Houter l Hl) as Hrange.
  assert (0 <= lmap s l < pages sc) as Hp by lia.
  pose proof (flash_of_range sc G _ Hp). pose proof (block_of_range sc G (lmap s l)).
  pose proof (page_of_range sc G (lmap s l)). rewrite Hfill by done.
  apply used_filled; try done; [by destruct Houter as [_ _ _ []]|].
  rewrite <- (vl_free _ _ _ _ _ Hlink) by done.
  enough (0 < C (lmap s l)) as HC by (pose proof (vl_owned _ _ _ _ _ Hlink _ Hp HC); lia).
  rewrite (nodes_sharers sc _ _ _ _ _ _ Hcore (ou_map _ _ _ _ Houter) Hp).
  apply Z.lt_le_trans with 1; [lia|]. unfold sharers.
  rewrite <- (sumZ_term_le _ _ l) by (try done; intros i _; unfold b2z; zcase; lia).
  by rewrite Z.eqb_refl.
Qed.

Lemma flash_rules_obeyed_witness :
  exists W, nand_replay 4 (nand_log demo3) = Some W /\
    forall l, 0 <= l < 96 -> lmap demo3 l <> -1 ->
      page_of demo_conf (lmap demo3 l) <
      W (flash_of demo_conf (lmap demo3 l)) (block_of demo_conf (lmap demo3 l)).
Proof. destruct reach3 as (D & St & Hr). exact (flash_rules_obeyed demo_conf D St demo3 Hr). Defined.

(** C10: in a reachable state the lists of every chip hold each of its blocks
    exactly once, as an empty block, the block being written or a victim; the
    two totals count them. *)
Theorem blocks_partitioned `{Clock} sc D St s i :
  reach sc D St s -> 0 <= i < FLASH_NB sc ->
  empty_rows s i ++ open_rows s i ++ victim_rows s i ≡ₚ seqZ 0 (BLOCK_NB sc) /\
  total_empty_block_nb s = FLASH_NB sc * zlen (empty_rows s i ++ open_rows s i) /\
  total_victim_block_nb s = FLASH_NB sc * zlen (victim_rows s i).
Proof.
  intros Hr Hi. reachable Hr C V A G. pose proof (ou_alloc _ _ _ _ Houter) as Ha.
  destruct (lists_view sc A s i Ha Hi) as (-> & -> & ->). split.
  - apply NoDup_Permutation.
    + apply (aw_nodup _ _ (ar_wf _ _ _ Ha)).
    + apply NoDup_seqZ.
    + intros b. rewrite elem_of_seqZ. pose proof (ou_rows _ _ _ _ Houter b) as Hb.
      pose proof (aw_range _ _ (ar_wf _ _ _ Ha) b) as Hw. unfold rows in *.
      split; [intros Hin; specialize (Hw Hin); lia|].
      intros Hb'. apply Hb; lia.
  - rewrite (lr_tempty _ _ _ (ar_lists _ _ _ Ha)), (lr_tvictim _ _ _ (ar_lists _ _ _ Ha)).
    unfold zlen. by rewrite length_app, Nat2Z.inj_add.
Qed.

Lemma blocks_partitioned_witness :
  empty_rows demo3 1 ++ open_rows demo3 1 ++ victim_rows demo3 1 ≡ₚ seqZ 0 12 /\
  total_empty_block_nb demo3 = 2 * zlen (empty_rows demo3 1 ++ open_rows demo3 1) /\
  total_victim_block_nb demo3 = 2 * zlen (victim_rows demo3 1).
Proof.
  destruct reach3 as (D & St & Hr). apply (blocks_partitioned demo_conf D St demo3 1 Hr).
  vm_compute. split; congruence.
Defined.

(** C11: in a reachable state the NVRAM segments of a superblock hold exactly
    one live entry for each logical page that is mapped into the superblock
    and whose entry is kept in NVRAM; the segments are never over-full. *)
Theorem nvram_entries_exact `{Clock} sc D St s b :
  reach sc D St s -> 0 <= b < BLOCK_NB sc ->
  let e := seg_at (NVRAM_OOB_TABLE s) b in
  seg_entries e - invalid_entry e = live sc s b /\
  0 <= invalid_entry e /\ 0 <= free_entry e < OOB_ENTRY_PER_SEG /\
  ctrs s stat_total_alloc_seg =
    u64 (sumZ (BLOCK_NB sc) (fun b => alloc_seg (seg_at (NVRAM_OOB_TABLE s) b))).
Proof.
  intros Hr Hb e. reachable Hr C V A G. pose proof (co_oob _ _ _ _ _ _ _ Hcore) as Ho.
  destruct (or_seg _ _ _ _ Ho b Hb) as (_ & Hf & _ & Hi & Hl). fold e in Hf, Hi, Hl. rewrite Hl.
  split; [by destruct (Z.eqb_spec b (-1)); [lia|]|]. split; [done|]. split; [done|]. apply Ho.
Qed.

Lemma nvram_entries_exact_witness :
  let e := seg_at (NVRAM_OOB_TABLE demo3) 2 in
  seg_entries e - invalid_entry e = 1 /\ 0 <= invalid_entry e /\
  0 <= free_entry e < OOB_ENTRY_PER_SEG /\
  ctrs demo3 stat_total_alloc_seg =
    u64 (sumZ 12 (fun b => alloc_seg (seg_at (NVRAM_OOB_TABLE demo3) b))).
Proof.
  destruct reach3 as (D & St & Hr).
  assert (live demo_conf demo3 2 = 1) as <- by (vm_compute; reflexivity).
  apply (nvram_entries_exact demo_conf D St demo3 2 Hr). vm_compute. split; congruence.
Defined.

(** ** Garbage collection *)



(** C7: the collection loop terminates from every reachable state with a
    superblock of free pages (less one).  It ends with the threshold of empty
    blocks and free pages met, or with no victim left that has an invalid
    page; the stored data is what it was, and no free page is lost. *)
Theorem collection_loop_terminates `{Clock} sc D St s f b :
  reach sc D St s -> FLASH_NB sc * PAGE_NB sc - 1 <= ctrs s stat_ppn_free ->
  budget (1 + (pages sc - ctrs s stat_ppn_free)) (ctrs s) ->
  exists s', GC_CHECK f b s = Ok tt s' /\ sim sc (D, s) St s' /\ relocated sc s s' /\
    ctrs s stat_ppn_free <= ctrs s' stat_ppn_free /\
    (gc_satisfied sc s' \/
     forall b, b ∈ victim_rows s' 0 -> row_live sc s' b = FLASH_NB sc * PAGE_NB sc).
Proof.
  intros Hr Hf Hb. reachable Hr C V A G. pose proof (g_flash _ G).
  rewrite (ginv_free _ _ _ _ _ _ Hginv) in Hf, Hb. rewrite (ginv_free _ _ _ _ _ _ Hginv).
  destruct (wp_after _ _ _ (GC_CHECK_spec sc G 1 C V A f b s
    (ginv_budget _ _ _ _ _ _ _ _ Hginv Hb) ltac:(lia) Hf))
    as ([] & E & C' & V' & A' & Hg' & Hm & Hle & Hend).
  exists (after (GC_CHECK f b) s). split; [done|]. split; [by eapply sim_relocated, sim_here|]. split; [done|].
  rewrite (ginv_free _ _ _ _ _ _ Hg'). split; [done|].
  destruct Hend as [Hend|Hend]; [by left|right]. pose proof (gi_pinv _ _ _ _ _ _ _ Hg') as [Hc' _ Ho'].
  destruct (lists_view sc A' _ 0 (ou_alloc _ _ _ _ Ho') ltac:(lia)) as (_ & _ & ->).
  intros x Hx. rewrite (row_live_view sc V' _ x G (co_blk _ _ _ _ _ _ _ Hc')); [by apply Hend|].
  apply (aw_range _ _ (ar_wf _ _ _ (ou_alloc _ _ _ _ Ho'))). unfold rows. set_solver.
Qed.

Lemma collection_loop_terminates_witness : exists D St s',
  GC_CHECK 0 0 demo3 = Ok tt s' /\ sim demo_conf (D, demo3) St s' /\ relocated demo_conf demo3 s' /\
  ctrs demo3 stat_ppn_free <= ctrs s' stat_ppn_free /\
  (gc_satisfied demo_conf s' \/
   forall b, b ∈ victim_rows s' 0 -> row_live demo_conf s' b = 2 * 4).
Proof.
  destruct reach3 as (D & St & Hr). exists D, St. apply (collection_loop_terminates demo_conf D St demo3 0 0 Hr).
  - vm_compute. congruence.
  - apply print_dec_ok. vm_compute. reflexivity.
Defined.

(** ** Allocation *)

(** C34: [GET_NEW_PAGE] refines the abstract allocator: whenever its lists
    represent an allocator that has a page left, it returns the address of the
    page the allocator hands out, the lists represent the allocator after it,
    and no other part of the state has changed. *)
Theorem new_page_refines sc A f b i A' m s :
  geom sc -> ssdparams s = sc -> alloc_rep sc A s -> alloc_next sc A = Some (f, b, i, A') ->
  exists s', GET_NEW_PAGE VICTIM_OVERALL m s = Ok (Some (addr sc f b i)) s' /\
    alloc_rep sc A' s' /\ alloc_frame s s'.
Proof.
  intros G Hs Ha Hn. apply (wp_value _ _ (fun s' => alloc_rep sc A' s' /\ alloc_frame s s')).
  by eapply GET_NEW_PAGE_spec; [exact G|exact Hs|exact Ha|exact Hn|].
Qed.

Lemma new_page_refines_witness : exists A f b i A' s',
  alloc_rep demo_conf A demo3 /\ alloc_next demo_conf A = Some (f, b, i, A') /\
  GET_NEW_PAGE VICTIM_OVERALL 2 demo3 = Ok (Some (addr demo_conf f b i)) s' /\
  alloc_rep demo_conf A' s' /\ alloc_frame demo3 s'.
Proof.
  destruct reach3 as (D & St & Hr). reachable Hr C V A G. pose proof (ou_alloc _ _ _ _ Houter) as Ha.
  destruct (alloc_next_is_Some demo_conf A (ar_wf _ _ _ Ha)) as (f & b & i & A' & Hn).
  { rewrite <- (ginv_free _ _ _ _ _ _ Hginv). vm_compute. reflexivity. }
  destruct (new_page_refines demo_conf A f b i A' 2 demo3 G ltac:(vm_compute; reflexivity) Ha Hn)
    as (s' & Hs').
  by exists A, f, b, i, A', s'.
Defined.

(** As long as a reachable state counts a free page, [GET_NEW_PAGE]
    returns a page of the device that is free, that no logical page is mapped
    to and that has no nodes. *)
Lemma new_page_unused `{Clock} sc D St s m :
  reach sc D St s -> 0 < ctrs s stat_ppn_free ->
  exists p s', GET_NEW_PAGE VICTIM_OVERALL m s = Ok (Some p) s' /\ 0 <= p < pages sc /\
    refs sc s p = 0 /\ nodes s p = [] /\ (forall l, lmap s l <> p) /\ alloc_frame s s'.
Proof.
  intros Hr Hf. reachable Hr C V A G. rewrite (ginv_free _ _ _ _ _ _ Hginv) in Hf.
  pose proof (ou_alloc _ _ _ _ Houter) as Ha.
  destruct (alloc_next_is_Some sc A (ar_wf _ _ _ Ha) Hf) as (f & b & i & A' & Hn).
  destruct (alloc_next_facts sc G A f b i A' (ar_wf _ _ _ Ha) (ar_started _ _ _ Ha) Hn)
    as (Hfr & Hbr & Hir & Hfree & _).
  pose proof (addr_range sc f b i Hfr Hbr Hir) as Hp. exists (addr sc f b i).
  assert (V (addr sc f b i) = 0) as HV.
  { apply (vl_free _ _ _ _ _ Hlink _ Hp).
    by rewrite (flash_of_addr sc), (block_of_addr sc), (page_of_addr sc). }
  assert (C (addr sc f b i) = 0) as HC.
  { rewrite (vl_refs _ _ _ _ _ Hlink _ Hp), HV; [done|]. rewrite block_of_addr by done. lia. }
  destruct (nodes_view sc _ _ s _ (co_inv _ _ _ _ _ _ _ Hcore) Hp) as (_ & Hnodes & _).
  destruct (wp_value (GET_NEW_PAGE VICTIM_OVERALL m) (Some (addr sc f b i)) (alloc_frame s) s)
    as (s' & E & Hfr').
  { eapply GET_NEW_PAGE_spec; [exact G|apply Hcore|exact Ha|exact Hn|]. by intros s' _ Hs'. }
  exists s'. split; [done|]. split; [done|].
  split; [by rewrite (refs_view sc V s _ G (co_blk _ _ _ _ _ _ _ Hcore) Hp)|].
  split; [apply zlen_nil; lia|]. split; [|done].
  by eapply (unowned sc _ _ _ _ _ _ Hcore (ou_map _ _ _ _ Houter) Hp).
Qed.

Lemma new_page_unused_witness : exists p s',
  GET_NEW_PAGE VICTIM_OVERALL 2 demo3 = Ok (Some p) s' /\ 0 <= p < 96 /\
  refs demo_conf demo3 p = 0 /\ nodes demo3 p = [] /\ (forall l, lmap demo3 l <> p) /\
  alloc_frame demo3 s'.
Proof.
  destruct reach3 as (D & St & Hr). apply (new_page_unused demo_conf D St demo3 2 Hr). vm_compute. reflexivity.
Defined.

(** Two pages allocated one after the other lie on consecutive chips,
    starting again at chip 0 after the last one: sequential writes use the
    chips in parallel. *)
Theorem pages_striped_over_chips `{Clock} sc D St s m :
  reach sc D St s -> 2 <= ctrs s stat_ppn_free ->
  exists p p' s' s'', GET_NEW_PAGE VICTIM_OVERALL m s = Ok (Some p) s' /\
    GET_NEW_PAGE VICTIM_OVERALL m s' = Ok (Some p') s'' /\ p <> p' /\
    flash_of sc p' = (flash_of sc p + 1) mod FLASH_NB sc.
Proof.
  intros Hr Hf. reachable Hr C V A G. rewrite (ginv_free _ _ _ _ _ _ Hginv) in Hf.
  pose proof (ou_alloc _ _ _ _ Houter) as Ha.
  destruct (alloc_next_is_Some sc A (ar_wf _ _ _ Ha) ltac:(lia)) as (f & b & i & A' & Hn).
  destruct (alloc_next_facts sc G A f b i A' (ar_wf _ _ _ Ha) (ar_started _ _ _ Ha) Hn)
    as (Hfr & Hbr & Hir & _ & Hset & Hcnt & _).
  destruct (wp_value (GET_NEW_PAGE VICTIM_OVERALL m) (Some (addr sc f b i))
    (fun s' => alloc_rep sc A' s' /\ alloc_frame s s') s) as (s' & E & Ha' & Hs').
  { by eapply GET_NEW_PAGE_spec; [exact G|apply Hcore|exact Ha|exact Hn|]. }
  destruct (alloc_next_is_Some sc A' (ar_wf _ _ _ Ha') ltac:(lia)) as (f' & b' & i' & A'' & Hn').
  destruct (alloc_next_facts sc G A' f' b' i' A'' (ar_wf _ _ _ Ha') (ar_started _ _ _ Ha') Hn')
    as (Hfr' & Hbr' & Hir' & Hfree' & _).
  destruct (wp_value (GET_NEW_PAGE VICTIM_OVERALL m) (Some (addr sc f' b' i'))
    (fun s'' => alloc_rep sc A'' s'' /\ alloc_frame s' s'') s') as (s'' & E' & _).
  { eapply GET_NEW_PAGE_spec; [exact G| |exact Ha'|exact Hn'|done].
    rewrite (af_params _ _ Hs'). apply Hcore. }
  exists (addr sc f b i), (addr sc f' b' i'), s', s''. split; [done|]. split; [done|]. split.
  - intros Heq. apply (Hset f' b' i') in Hfree'; [|done..]. apply Hfree'.
    symmetry. by apply (addr_inj sc).
  - rewrite !flash_of_addr by done. by eapply (alloc_next_chip sc A A' A''); [exact G|apply Ha|..].
Qed.

Lemma pages_striped_over_chips_witness : exists p p' s' s'',
  GET_NEW_PAGE VICTIM_OVERALL 2 demo3 = Ok (Some p) s' /\
  GET_NEW_PAGE VICTIM_OVERALL 2 s' = Ok (Some p') s'' /\ p <> p' /\
  flash_of demo_conf p' = (flash_of demo_conf p + 1) mod 2.
Proof.
  destruct reach3 as (D & St & Hr). apply (pages_striped_over_chips demo_conf D St demo3 2 Hr).
  vm_compute. congruence.
Defined.

(** With no empty block left [GET_NEW_PAGE] dereferences a null pointer,
    in every state: the order check under [SB_DEBUG] reads the block before
    the test that would have returned [FAIL]. *)
Theorem no_empty_block_null_deref mode mapping_index s :
  total_empty_block_nb s = 0 -> GET_NEW_PAGE mode mapping_index s = Crash NullDeref.
Proof.
  intros E. unfold GET_NEW_PAGE, GET_EMPTY_BLOCK, get_conf, gets, mbind, M_bind. cbn.
  by rewrite E.
Qed.

Lemma no_empty_block_null_deref_witness :
  GET_NEW_PAGE VICTIM_OVERALL 2 (set_total_empty_block_nb 0 demo3) = Crash NullDeref.
Proof. apply no_empty_block_null_deref. reflexivity. Defined.

(** ** NVRAM entries *)



(** C36: an entry written after [USE_REMAP] allowed it keeps the number of
    allocated segments within the NVRAM capacity. *)
Theorem remap_entry_fits_capacity b s :
  0 <= b < BLOCK_NB (ssdparams s) -> BLOCK_NB (ssdparams s) < 2 ^ 32 ->
  zlen (NVRAM_OOB_TABLE s) = BLOCK_NB (ssdparams s) ->
  0 <= free_entry (seg_at (NVRAM_OOB_TABLE s) b) -> oob_room b s ->
  0 <= ctrs s stat_total_alloc_seg <= TOTAL_OOB_SEG ->
  exists s', UPDATE_NVRAM_OOB b VALID s = Ok SUCCESS s' /\
    0 <= ctrs s' stat_total_alloc_seg <= TOTAL_OOB_SEG.
Proof.
  intros Hb Hlt Hz Hf Hroom Ht.
  apply (wp_value _ _ (fun s' => 0 <= ctrs s' stat_total_alloc_seg <= TOTAL_OOB_SEG)).
  unfold UPDATE_NVRAM_OOB. st_steps. rewrite u32_small by lia.
  destruct (Z.leb_spec (BLOCK_NB (ssdparams s)) b); [lia|].
  change (VALID =? VALID) with true. cbv iota. st_steps.
  eapply wp_arr_load; [apply seg_at_get; lia|]. st_steps.
  destruct ((free_entry _ =? 0) && _); st_steps;
    (eapply wp_mono; [apply oob_write_entry_total; unfold oob_room; ctr_simpl; simpl; first [done | lia]|]);
    intros [] s' Hs'; by st_steps.
Qed.

Lemma remap_entry_fits_capacity_witness : exists s',
  UPDATE_NVRAM_OOB 2 VALID demo3 = Ok SUCCESS s' /\
  0 <= ctrs s' stat_total_alloc_seg <= TOTAL_OOB_SEG.
Proof.
  apply remap_entry_fits_capacity; try (vm_compute; (split || idtac); congruence).
  left. vm_compute. reflexivity.
Defined.
