(* ===== verification/Tables.v ===== *)
(** * Properties of the tables and of the timing model

    Reference counts, the nodes of the inverse mapping, the booked times and
    the configuration, each with an instance on the small device. *)

From Stdlib Require Import ZArith Lia List String.
From stdpp Require Import base tactics numbers list functions strings.
From S2P Require Import Prelude Config State Timing Perf Inverse Nvram Mapping Alloc Flash Invariant Gc Store Ftl Ssd Init Device Views Demo.

Open Scope Z_scope.

(** ** Reference counts *)

(** On a page of a reachable state, [UPDATE_BLOCK_STATE_ENTRY] with
    [VALID] adds a reference, with [INVALID] drops one (the last one makes the
    page invalid, not free) and with 0 frees the page; it changes the count of
    no other page, and the page statistics stay exact. *)
Lemma reference_count_step `{Clock} sc D St s p valid v :
  reach sc D St s -> 0 <= p < pages sc -> ref_change (refs sc s p) valid v ->
  exists s', UPDATE_BLOCK_STATE_ENTRY (flash_of sc p) (block_of sc p) (page_of sc p) valid s
      = Ok SUCCESS s' /\
    (forall q, 0 <= q < pages sc -> refs sc s' q = if q =? p then v else refs sc s q) /\
    stat_rep (pages sc) (refs sc s') (ctrs s').
Proof.
  intros Hr Hp Hv. destruct (reach_device _ _ _ _ Hr) as [(C & V & A & Hg) _].
  pose proof (ginv_geom _ _ _ _ _ _ _ Hg) as G. pose proof (pi_core _ _ _ _ _ _ _ _ _ _ (gi_pinv _ _ _ _ _ _ _ Hg)) as Hc.
  pose proof (refs_view sc V s) as Hview. rewrite (Hview p G (co_blk _ _ _ _ _ _ _ Hc) Hp) in Hv.
  apply (wp_value _ _ (fun s' => _ /\ _)). eapply core_mark_page; [exact Hc|exact Hp|exact Hv|].
  intros s' Hc' _. split; [done|]. pose proof (refs_view sc (fset V p v) s') as Hview'.
  assert (forall q, 0 <= q < pages sc -> refs sc s' q = fset V p v q) as E.
  { intros q Hq. by rewrite (Hview' q G (co_blk _ _ _ _ _ _ _ Hc') Hq). }
  split.
  - intros q Hq. rewrite E by done. unfold fset. by rewrite (Hview q G (co_blk _ _ _ _ _ _ _ Hc) Hq).
  - eapply stat_rep_range; [|exact (co_stat _ _ _ _ _ _ _ Hc')]. intros q Hq. by rewrite E.
Qed.

Lemma reference_count_step_witness : exists s',
  UPDATE_BLOCK_STATE_ENTRY (flash_of demo_conf (lmap demo3 3)) (block_of demo_conf (lmap demo3 3))
    (page_of demo_conf (lmap demo3 3)) INVALID demo3 = Ok SUCCESS s' /\
  (forall q, 0 <= q < 96 -> refs demo_conf s' q = if q =? lmap demo3 3 then 1 else refs demo_conf demo3 q) /\
  stat_rep 96 (refs demo_conf s') (ctrs s').
Proof.
  destruct reach3 as (D & St & Hr).
  apply (reference_count_step demo_conf D St demo3 (lmap demo3 3) INVALID 1 Hr).
  - vm_compute. split; congruence.
  - change 1 with (vdec (refs demo_conf demo3 (lmap demo3 3))). apply RefInvalid. vm_compute. reflexivity.
Defined.

(** [UPDATE_BLOCK_STATE_ENTRY] refuses, with [FAIL] and without changing
    anything, an address outside the device, a new reference to an invalid
    page and the loss of a reference of a page that has none. *)
Lemma reference_count_refused `{Clock} sc D St s f b i valid :
  reach sc D St s -> 0 <= f -> 0 <= b -> 0 <= i ->
  (FLASH_NB sc <= f \/ BLOCK_NB sc <= b \/ PAGE_NB sc <= i \/
   f < FLASH_NB sc /\ b < BLOCK_NB sc /\ i < PAGE_NB sc /\
   (valid = VALID /\ refs sc s (addr sc f b i) < 0 \/
    valid = INVALID /\ refs sc s (addr sc f b i) <= 0)) ->
  UPDATE_BLOCK_STATE_ENTRY f b i valid s = Ok FAIL s.
Proof.
  intros Hr Hf Hb Hi Hc. destruct (reach_device _ _ _ _ Hr) as [(C & V & A & Hg) _].
  pose proof (ginv_geom _ _ _ _ _ _ _ Hg) as G. pose proof (pi_core _ _ _ _ _ _ _ _ _ _ (gi_pinv _ _ _ _ _ _ _ Hg)) as Hcore.
  apply wp_exact. apply (UPDATE_BLOCK_STATE_ENTRY_refused sc G V); try done; [apply Hcore|apply Hcore|].
  destruct Hc as [?|[?|[?|(? & ? & ? & Hc)]]]; [tauto..|]. right. right. right.
  rewrite (refs_view sc V s _ G (co_blk _ _ _ _ _ _ _ Hcore) (addr_range sc f b i ltac:(lia) ltac:(lia) ltac:(lia))) in Hc.
  tauto.
Qed.

Lemma reference_count_refused_witness :
  UPDATE_BLOCK_STATE_ENTRY 0 0 0 VALID demo3 = Ok FAIL demo3 /\
  UPDATE_BLOCK_STATE_ENTRY 2 0 0 VALID demo3 = Ok FAIL demo3.
Proof.
  destruct reach3 as (D & St & Hr). split.
  - apply (reference_count_refused demo_conf D St demo3 0 0 0 VALID Hr); [lia..|].
    do 3 right. split; [reflexivity|]. split; [reflexivity|]. split; [reflexivity|].
    left. split; [reflexivity|]. vm_compute. reflexivity.
  - apply (reference_count_refused demo_conf D St demo3 2 0 0 VALID Hr); [lia..|]. left. vm_compute. congruence.
Defined.

(** The reference count is an 8-bit number and nothing checks its range:
    one more reference to a page that has 127 is accepted and stores -128. *)
Theorem reference_count_overflow k i e s :
  zget (block_state_table s) k = Some e -> zget (valid_array e) i = Some 127 ->
  exists s' e', mark_valid k i s = Ok true s' /\ zget (block_state_table s') k = Some e' /\
    zget (valid_array e') i = Some (-128).
Proof.
  intros He Hv. pose proof (zget_Some_range _ _ _ He). pose proof (zget_Some_range _ _ _ Hv).
  enough (wp (mark_valid k i) (fun r s' => r = true /\ exists e',
    zget (block_state_table s') k = Some e' /\ zget (valid_array e') i = Some (-128)) s) as Hw.
  { apply wp_Ok in Hw as (r & s' & E & -> & e' & H1 & H2). eauto. }
  unfold mark_valid, ld_valid, st_valid. st_steps. eapply wp_arr_load; [exact He|].
  eapply wp_idx; [exact Hv|]. cbn. st_steps. eapply wp_arr_load; [exact He|]. st_step.
  eapply wp_idx; [exact Hv|]. apply wp_arr_store; [lia|]. st_steps.
  eapply wp_arr_load; [simpl; by rewrite zget_zset_eq by lia|]. st_steps.
  eapply wp_idx; [simpl; by rewrite zget_zset_eq by lia|]. st_steps.
  destruct (_ <? _); st_steps; (split; [done|]); eexists;
    (split; [simpl; by rewrite zget_zset_eq by lia|simpl; by rewrite zget_zset_eq by lia]).
Qed.

Lemma reference_count_overflow_witness : exists s' e',
  mark_valid 0 1 (set_block_state_table [mk_block_state_entry 2 DATA_BLOCK 0 [1; 127; 0; 0]] demo0)
    = Ok true s' /\ zget (block_state_table s') 0 = Some e' /\ zget (valid_array e') 1 = Some (-128).
Proof. eapply reference_count_overflow; reflexivity. Defined.

(** ** Nodes of the inverse mapping *)

(** Adding an owner to a physical page appends a node for it, and dropping
    the same owner again restores the table, as long as it was not an owner
    before and the count fits its 8 bits. *)
Lemma inverse_add_remove_roundtrip p l e s :
  zget (inverse_mapping_table s) p = Some e -> lpn_cnt e = zlen (i_list e) -> lpn_cnt e < 127 ->
  l ∉ i_list e ->
  exists s1 s2, INCREASE_INVERSE_MAPPING p l s = Ok SUCCESS s1 /\
    nodes s1 p = nodes s p ++ [l] /\ node_count s1 p = node_count s p + 1 /\
    DECREASE_INVERSE_MAPPING p l s1 = Ok SUCCESS s2 /\
    inverse_mapping_table s2 = inverse_mapping_table s.
Proof.
  intros He Hc Hlt Hl. pose proof (zget_Some_range _ _ _ He) as Hp. destruct e as [fp c L]. cbn in *. subst c.
  set (e1 := mk_inverse_mapping_entry fp (zlen L + 1) (L ++ [l])).
  set (s1 := set_inverse_mapping_table (zset p e1 (inverse_mapping_table s)) s).
  assert (zget (inverse_mapping_table s1) p = Some e1) as He1 by (simpl; by rewrite zget_zset_eq by lia).
  exists s1, (set_inverse_mapping_table (inverse_mapping_table s) s1).
  split; [by apply (INCREASE_append _ _ fp L)|]. unfold nodes, node_count. rewrite He, He1.
  split; [done|]. split; [done|]. split; [|done].
  rewrite (DECREASE_last p l fp L s1 He1 Hlt Hl). simpl. rewrite zset_zset.
  by rewrite (zset_get _ _ _ He).
Qed.

Lemma inverse_add_remove_roundtrip_witness : exists s1 s2,
  INCREASE_INVERSE_MAPPING (lmap demo3 3) 40 demo3 = Ok SUCCESS s1 /\
  nodes s1 (lmap demo3 3) = nodes demo3 (lmap demo3 3) ++ [40] /\
  node_count s1 (lmap demo3 3) = node_count demo3 (lmap demo3 3) + 1 /\
  DECREASE_INVERSE_MAPPING (lmap demo3 3) 40 s1 = Ok SUCCESS s2 /\
  inverse_mapping_table s2 = inverse_mapping_table demo3.
Proof.
  apply (inverse_add_remove_roundtrip (lmap demo3 3) 40 (mk_inverse_mapping_entry (-1) 2 [3; 20]) demo3).
  - vm_compute. reflexivity.
  - reflexivity.
  - reflexivity.
  - apply not_elem_of_cons. split; [congruence|]. apply not_elem_of_cons. split; [congruence|].
    apply not_elem_of_nil.
Defined.

(** ** Booked time *)

Lemma demo3_timing : timing_wf demo3.
Proof. constructor; vm_compute; try reflexivity. split; congruence. Qed.

(** C38: a page program waits for the later of now and the channel, transfers,
    then waits for the chip and programs; the result is the time until the
    end of the program, and no other chip or channel is booked. *)
Theorem program_books_channel_then_chip `{Clock} f b p n s :
  timing_wf s -> 0 <= f < FLASH_NB (ssdparams s) ->
  let sc := ssdparams s in
  let c := f mod CHANNEL_NB sc in
  let transferred := Z.max (now_of s) (chnl_at s c) + REG_WRITE_DELAY sc in
  let programmed := Z.max transferred (chip_at s f) + CELL_PROGRAM_DELAY sc in
  exists s', SSD_PAGE_WRITE f b p n s = Ok (programmed - now_of s) s' /\
    (forall x, chnl_at s' x = if c =? x then transferred else chnl_at s x) /\
    (forall x, chip_at s' x = if f =? x then programmed else chip_at s x) /\
    nand_log s' = NandProgram (n_type n) f b p :: nand_log s.
Proof.
  intros Hw Hf sc c transferred programmed. destruct (times_view s f Hw Hf) as [Hc Hp].
  apply (wp_value _ _ (fun s' => _ /\ _ /\ _)). eapply wp_mono.
  { eapply SSD_PAGE_WRITE_spec; [exact Hw|lia|exact Hc|exact Hp]. }
  intros r s' (Hb & -> & Ec & Ep). split; [done|]. destruct Hw.
  split; [intros x; eapply chnl_at_set; [exact Ec|]; unfold c, sc;
    pose proof (Z.mod_pos_bound f (CHANNEL_NB (ssdparams s))); lia|].
  split; [intros x; eapply chip_at_set; [exact Ep|]; lia|]. by rewrite (bk_log _ _ _ Hb).
Qed.

Lemma program_books_channel_then_chip_witness : exists s',
  SSD_PAGE_WRITE 1 3 0 (CREATE_NAND_IO_INFO 0 WRITE 1 0) demo3
    = Ok (Z.max (Z.max (now_of demo3) (chnl_at demo3 1) + 82) (chip_at demo3 1) + 940 - now_of demo3) s' /\
  (forall x, chnl_at s' x =
     if 1 =? x then Z.max (now_of demo3) (chnl_at demo3 1) + 82 else chnl_at demo3 x) /\
  (forall x, chip_at s' x =
     if 1 =? x then Z.max (Z.max (now_of demo3) (chnl_at demo3 1) + 82) (chip_at demo3 1) + 940
     else chip_at demo3 x) /\
  nand_log s' = NandProgram WRITE 1 3 0 :: nand_log demo3.
Proof.
  assert (ssdparams demo3 = demo_conf) as E by (vm_compute; reflexivity).
  pose proof (program_books_channel_then_chip 1 3 0 (CREATE_NAND_IO_INFO 0 WRITE 1 0) demo3 demo3_timing) as Hw.
  rewrite E in Hw. apply Hw. vm_compute. split; congruence.
Defined.

(** A page read waits for the later of now and the chip, senses the cells,
    then waits for the channel and transfers; chip and channel are both busy
    until the end of the transfer, which is what the result measures. *)
Lemma read_books_chip_then_channel `{Clock} f b p n s :
  timing_wf s -> 0 <= f < FLASH_NB (ssdparams s) ->
  let sc := ssdparams s in
  let c := f mod CHANNEL_NB sc in
  let sensed := Z.max (now_of s) (chip_at s f) + CELL_READ_DELAY sc in
  let transferred := Z.max sensed (chnl_at s c) + REG_READ_DELAY sc in
  exists s', SSD_PAGE_READ f b p n s = Ok (transferred - now_of s) s' /\
    chnl_at s' c = transferred /\ chip_at s' f = transferred /\
    nand_log s' = NandRead f b p :: nand_log s.
Proof.
  intros Hw Hf sc c sensed transferred. destruct (times_view s f Hw Hf) as [Hc Hp].
  apply (wp_value _ _ (fun s' => _ /\ _ /\ _)). eapply wp_mono.
  { eapply SSD_PAGE_READ_spec; [exact Hw|lia|exact Hc|exact Hp]. }
  intros r s' (Hb & -> & Ec & Ep). split; [done|]. unfold chnl_at at 1, chip_at at 1. unfold c, sc.
  rewrite Ec, Ep. split; [done|]. split; [done|]. by rewrite (bk_log _ _ _ Hb).
Qed.

Lemma read_books_chip_then_channel_witness : exists s',
  SSD_PAGE_READ 1 0 2 (CREATE_NAND_IO_INFO 0 READ 1 0) demo3
    = Ok (Z.max (Z.max (now_of demo3) (chip_at demo3 1) + 140) (chnl_at demo3 1) + 82 - now_of demo3) s' /\
  chnl_at s' 1 = Z.max (Z.max (now_of demo3) (chip_at demo3 1) + 140) (chnl_at demo3 1) + 82 /\
  chip_at s' 1 = Z.max (Z.max (now_of demo3) (chip_at demo3 1) + 140) (chnl_at demo3 1) + 82 /\
  nand_log s' = NandRead 1 0 2 :: nand_log demo3.
Proof.
  assert (ssdparams demo3 = demo_conf) as E by (vm_compute; reflexivity).
  pose proof (read_books_chip_then_channel 1 0 2 (CREATE_NAND_IO_INFO 0 READ 1 0) demo3 demo3_timing) as Hw.
  rewrite E in Hw. apply Hw. vm_compute. split; congruence.
Defined.

(** A partial write reads the old page and programs the new one, but
    books only the old page's chip, with the delays of a program: the chip
    that is programmed stays free. *)
Theorem partial_write_books_old_chip `{Clock} f b p f' b' p' n s :
  timing_wf s -> 0 <= f < FLASH_NB (ssdparams s) -> f' <> f ->
  exists r s', SSD_PAGE_PARTIAL_WRITE f b p f' b' p' n s = Ok r s' /\
    nand_log s' = NandProgram (n_type n) f' b' p' :: NandRead f b p :: nand_log s /\
    chip_at s' f' = chip_at s f' /\
    chip_at s' f = now_of s + r /\
    REG_WRITE_DELAY (ssdparams s) + CELL_PROGRAM_DELAY (ssdparams s) <= r.
Proof.
  intros Hw Hf Hne. destruct (times_view s f Hw Hf) as [Hc Hp]. apply wp_Ok. eapply wp_mono.
  { eapply SSD_PAGE_PARTIAL_WRITE_spec; [exact Hw|lia|exact Hc|exact Hp]. }
  intros r s' (Hb & -> & Ec & Ep). split; [by rewrite (bk_log _ _ _ Hb)|]. destruct Hw.
  rewrite !(chip_at_set _ _ _ _ _ Ep), Z.eqb_refl by lia.
  destruct (Z.eqb_spec f f'); [congruence|]. lia.
Qed.

Lemma partial_write_books_old_chip_witness : exists r s',
  SSD_PAGE_PARTIAL_WRITE 0 0 1 1 3 0 (CREATE_NAND_IO_INFO 0 WRITE 1 0) demo3 = Ok r s' /\
  nand_log s' = NandProgram WRITE 1 3 0 :: NandRead 0 0 1 :: nand_log demo3 /\
  chip_at s' 1 = chip_at demo3 1 /\ chip_at s' 0 = now_of demo3 + r /\ 82 + 940 <= r.
Proof.
  assert (ssdparams demo3 = demo_conf) as E by (vm_compute; reflexivity).
  pose proof (partial_write_books_old_chip 0 0 1 1 3 0 (CREATE_NAND_IO_INFO 0 WRITE 1 0) demo3 demo3_timing) as Hw.
  rewrite E in Hw. apply Hw; [vm_compute; split; congruence|congruence].
Defined.

(** ** Requests *)

(** The loop that cuts a request into pages ends after as many rounds as
    the range of sectors touches pages, for every start within a page. *)
Theorem request_page_count spp sector length :
  0 < spp < 2 ^ 32 -> 0 <= sector -> 0 < length < 2 ^ 32 ->
  count_pages (Z.to_nat length) spp (left_skip_of spp sector) length 0 =
  Some ((sector + length - 1) / spp - sector / spp + 1).
Proof.
  intros Hs Hsec Hl. unfold left_skip_of. rewrite Z.rem_mod_nonneg by lia.
  pose proof (Z.mod_pos_bound sector spp ltac:(lia)) as Hm. rewrite u32_small by lia.
  rewrite (count_pages_spanned spp Hs) by lia. destruct (Z.eqb_spec length 0); [lia|].
  f_equal. unfold pages_spanned. pose proof (Z.div_mod sector spp ltac:(lia)) as E.
  replace (sector + length - 1) with (sector / spp * spp + (sector mod spp + length - 1)) by lia.
  rewrite Z.div_add_l by lia.
  replace (sector mod spp + length + spp - 1) with (1 * spp + (sector mod spp + length - 1)) by lia.
  rewrite Z.div_add_l by lia. lia.
Qed.

Lemma request_page_count_witness : count_pages 20 8 (left_skip_of 8 4) 20 0 = Some ((4 + 20 - 1) / 8 - 4 / 8 + 1).
Proof. apply (request_page_count 8 4 20); lia. Defined.

(** A read, a write or a discard that reaches beyond the last sector is
    refused with [FAIL]; the tables, the lists, the data and the flash are
    untouched, only request counters move. *)
Lemma out_of_range_requests_fail `{Clock} rq length sector_nb s :
  SECTOR_NB (ssdparams s) < sector_nb + length ->
  SECTOR_NB (ssdparams s) < req_sector_nb rq + req_length rq ->
  (exists s', SSD_READ length sector_nb s = Ok FAIL s' /\ idle s s') /\
  (exists s', SSD_WRITE rq s = Ok FAIL s' /\ idle s s') /\
  femu_discard_process length sector_nb s = Ok FAIL s.
Proof.
  intros Hr Hw. split_and!.
  - apply (wp_value _ _ (idle s)). unfold SSD_READ, FTL_READ, _FTL_READ, get_usec. st_steps. ctr_simpl.
    destruct (Z.ltb_spec (SECTOR_NB (ssdparams s)) (sector_nb + length)); [|lia]. st_step. split; [done|idle_tac].
  - apply (wp_value _ _ (idle s)). unfold SSD_WRITE, FTL_WRITE, _FTL_WRITE, get_usec. st_steps. ctr_simpl.
    apply (wp_mono _ (fun _ s' => idle s s')); [destruct (_ =? 0); st_steps; idle_tac|].
    intros ? s1 Hi. cbv beta in Hi. destruct (Z.ltb_spec (SECTOR_NB (ssdparams s))
      (req_sector_nb rq + req_length rq)); [|lia]. by st_steps.
  - apply wp_exact. unfold femu_discard_process. st_steps.
    destruct (Z.ltb_spec (SECTOR_NB (ssdparams s)) (sector_nb + length)); [|lia]. by st_step.
Qed.

Lemma out_of_range_requests_fail_witness :
  (exists s', SSD_READ 8 768 demo3 = Ok FAIL s' /\ idle demo3 s') /\
  (exists s', SSD_WRITE (demo_write 95 2 plain) demo3 = Ok FAIL s' /\ idle demo3 s') /\
  femu_discard_process 8 768 demo3 = Ok FAIL demo3.
Proof. apply out_of_range_requests_fail; vm_compute; reflexivity. Defined.



(** ** Configuration *)

(** The words of src/hw/block/ssd/ssd.conf. *)
Definition shipped_conf : list string :=
  ["FILE_NAME_HDA"; "../../RAMDISK/rd/ssd_hda.img"; "FILE_NAME_HDB"; "../../RAMDISK/rd/ssd_hdb.img";
   "PAGE_SIZE"; "4096"; "PAGE_NB"; "256"; "SECTOR_SIZE"; "512"; "FLASH_NB"; "20"; "BLOCK_NB"; "1024";
   "PLANES_PER_FLASH"; "1"; "LOG_RAND_BLOCK_NB"; "0"; "LOG_SEQ_BLOCK_NB"; "0";
   "REG_WRITE_DELAY"; "82"; "CELL_PROGRAM_DELAY"; "940"; "REG_READ_DELAY"; "82";
   "CELL_READ_DELAY"; "140"; "BLOCK_ERASE_DELAY"; "2000"; "CHANNEL_SWITCH_DELAY_R"; "16";
   "CHANNEL_SWITCH_DELAY_W"; "33"; "IO_PARALLELISM"; "0"; "WRITE_BUFFER_FRAME_NB"; "2048";
   "READ_BUFFER_FRAME_NB"; "2048"; "CACHE_IDX_SIZE"; "10"; "CHANNEL_NB"; "10"; "OVP"; "0"]%string.

(** The configuration file the repository ships with the device model has
    no [GC_MODE], and the initialisation ends the process on it; with the line
    added it describes a device with the geometry the FTL relies on. *)
Lemma shipped_conf_lacks_gc_mode :
  INIT_SSD_CONFIG (Some shipped_conf) ssd_zero = Crash ProcessExit /\
  exists sc, conf_file (shipped_conf ++ ["GC_MODE"; "2"]%string) sc 10.
Proof.
  split; [vm_compute; reflexivity|]. eexists. constructor; [vm_compute; reflexivity..| |vm_compute; reflexivity].
  constructor; vm_compute; try done; split; congruence.
Qed.

(** For every configuration file with one plane per chip, at least two
    chips, positive block and page counts and fewer than 2^31 pages, the
    derived table sizes are those the operations rely on, and the GC slot of
    every block lies in the array allocated for the GC mode. *)
Lemma derived_geometry c sc n f b :
  derive_conf c = Some sc -> raw_ok c -> num_gc_slots c = Some n -> 0 <= f < FLASH_NB c ->
  geom sc /\ raw sc = c /\ 0 <= slot_of sc f b < n.
Proof.
  intros Hd Hr Hn Hf. destruct (derive_geom c sc Hd Hr) as [G E]. split; [done|]. split; [done|].
  apply slot_of_range; [done|by rewrite E|by rewrite E].
Qed.

Lemma derived_geometry_witness :
  geom demo_conf /\ raw demo_conf = raw demo_conf /\ 0 <= slot_of demo_conf 1 7 < 2.
Proof.
  apply (derived_geometry (raw demo_conf) demo_conf 2 1 7).
  - vm_compute. reflexivity.
  - constructor; vm_compute; try reflexivity; try congruence; split; congruence.
  - vm_compute. reflexivity.
  - vm_compute. split; congruence.
Defined.


